(* ===== verification/_CoqProject ===== *)
-Q . S2P
Prelude.v
RustStr.v
Config.v
Reentry.v
Graph.v
Layout.v
Json.v
Ioctl.v
Uvm.v
UvmFacts.v
RmTypes.v
RmNames.v
RmJson.v
RmControl.v
Rm.v
Summary.v
RmFacts.v
Window.v
Hook.v
CudaAbi.v
CudaProc.v
DriverHooks.v
CudartHooks.v
CudaCalls.v
CudaFacts.v
ResolveFacts.v
BuildSpecs.v
Build.v
BuildFacts.v
Generated.v
Flags.v
Proc.v
FdTable.v
SyscallFmt.v
Fgraph.v
Tracer.v
TracerFacts.v
Bootstrap.v
BootstrapFacts.v
Logger.v
