(* ===== verification/Prelude.v ===== *)
(** * cudatrace: a model of the tracer and the theorems about it

    ** The program

    [libcudatrace.so] is preloaded into a CUDA program.  Its parts:

    - the library replaces [dlsym] and [cuGetProcAddress]
      ([src/src/hook/driver.rs]), so that the program gets its hooks, and finds
      the real functions for itself ([src/src/dlsym.rs]);
    - the hooks ([src/src/hook/cudart.rs], [src/src/hook/driver.rs]) wrap the
      CUDA calls in a [TraceScope] ([src/src/hook/mod.rs]), which keeps the
      call stack of the thread and writes its lines ([src/src/graph.rs],
      [src/src/line_meta.rs], [src/src/logger.rs]) unless the re-entrancy guard
      ([src/src/reentry.rs]) blocks it;
    - a forked process ptraces the program ([src/src/hook/ptrace.rs]): its loop
      follows every system call, prints one line for each, decodes the ioctls
      of GPU devices ([src/src/decode/]) and, inside the functions chosen by
      the configuration, captures the kernel's function graph through tracefs
      ([src/src/hook/fgraph.rs]), one thread at a time;
    - two pipes bring the call depth and the open function windows of each
      thread from the hooks to that process, which is forked and attached by
      the constructor of the library or the first hook ([ensure_started]);
    - [src/build.rs] writes wrappers in C for the driver functions that have no
      hook, from the prototypes of [src/build_specs_embed.rs];
    - the configuration comes from the environment ([src/src/config.rs]).

    ** Files of the development

    - [Prelude]: integers of a given width, bit tests, [match_const] (a match on
      constants as a table); [RustStr]: Rust strings, UTF-8, the formatting and
      parsing of the standard library that the program uses.
    - [Config]: [config.rs], a definition per parser, [from_lookup].
    - [Reentry]: [reentry.rs]; [Graph]: [graph.rs] and [line_meta.rs]
      ([enter] and [exit] on the stack of frames); [Hook]: [hook/mod.rs]
      ([enter_lazy] and [finish] on the state of a thread); [Logger]:
      [logger.rs] and the [FusedWriter] of [ptrace.rs].
    - [CudaAbi]: the C types, the function types and the two symbol tables of
      [hook/driver.rs] and [hook/cudart.rs]; [CudaProc]: the state of the
      process ([World]) and what the two files share with [dlsym.rs], that is
      symbol resolution, [dlsym], [cuGetProcAddress] and the entry points of
      the generated wrappers; [DriverHooks] and [CudartHooks]: a definition per
      hook and per real function.  [CudaCalls] is a table of what each hook
      should do (name, printed arguments, symbols in order), against which
      [CudaFacts] and [ResolveFacts] prove the hooks.
    - [BuildSpecs] and [Build]: [build_specs_embed.rs] and [build.rs];
      [BuildFacts]: theorems; [Generated]: what the C functions do that the
      script writes, and which there are.
    - [Layout]: [repr(C)] structs and typed reads of bytes; [Json]:
      [decode/ioctl_json.rs]; [Ioctl] and [Summary]: [decode/ioctl.rs] and
      [fd_map.rs]; [Uvm] and [UvmFacts]: [decode/ioctl_uvm.rs].
    - [RmTypes], [RmNames], [RmJson], [RmControl], [Rm] and [RmFacts]:
      [decode/nvidia.rs] and [decode/ioctl_rm.rs], that is the parameter
      structs, the name tables (with those [build.rs] writes), arrays and
      strings, the control commands, the escapes, and the theorems.
    - [Window], [Flags], [Proc], [FdTable], [SyscallFmt], [Tracer] and
      [TracerFacts]: [hook/ptrace.rs], that is the pipes, the flag words, the
      reads of the traced process, its descriptors, the lines of system calls
      and the loop; [Bootstrap] and [BootstrapFacts]: how the tracer is started,
      in both processes; [Fgraph]: [hook/fgraph.rs].

    Definitions have the names of the functions they model.  A mutable variable
    is an argument and a part of the result; a [Result] is a sum or an option; a
    thread-local is an [option] that is [None] while the thread is torn down.

    ** Interfaces

    - [Layout.RemoteMem] is [process_vm_readv], [RemoteMemOk] what the decoders
      need of it; [Proc.ProcFs] is what the loop reads of a process (memory,
      /proc, the kernel headers); [Proc.byte_memory] relates it to a memory.
    - [Fgraph.TraceFs] is tracefs, [TraceFsLaws] what its control files
      promise; [plain_tracefs] is an instance.
    - [Summary.RmDecoder] is the decoder of the resource-manager devices as
      [summarize_ioctl] uses it, [RmDecoderLaws] what it promises;
      [RmFacts.rm_decoder_laws] is the instance.
    - [CudaProc.Process] is the process around the hooks (configuration, clock,
      the code at an address, the addresses of the hooks, the generated
      tables), [ProcessLaws] that addresses are distinct and not null,
      [ResolveFacts.GeneratedLaws] that no generated wrapper has the name of a
      runtime hook; [Generated.table_generated_laws] proves it of the wrappers
      of this source.  [CudaProc.Linker] is the dynamic linker.
    - [Build.BuildEnv] is what the build script reads; [Bootstrap.Kernel] what
      the system answers while the tracer is started.
    - [Tracer.Env] is what the kernel answers in one iteration of the loop.
    - [FdTable.kernel_step] is the kernel's own table of open files.

    ** What the theorems show

    - The hooks: each is a traced call of the real function ([hook_traces]) at
      its own type ([hooks_well_typed]), whose line tells its arguments
      ([hook_text_determines_args]); generated wrappers too
      ([generated_wrapper_traces]).
    - Symbols: what the program gets ([dlsym_answers], [proc_address_answers],
      [symbol_lookup_agrees]); what a hook forwards to ([hook_real_found]), that
      this never changes ([real_function_sticks]) and is no hook as long as the
      program looks through handles of other libraries
      ([hook_never_forwards_to_hook]), and the two ways in which the kept handle
      goes wrong ([own_handle_forwards_to_itself],
      [runtime_lookup_loses_driver]).
    - The build: which wrappers are written ([missing_prototypes_exactly],
      [wrappers_announced_iff_generated], [param_names_match]) and that with the
      hooks of this source each driver function is covered once
      ([generated_wrappers_of_driver]).
    - The start: no descriptor is lost and the tracer hides those that stay
      ([start_accounts_for_descriptors]), when there is a tracer
      ([tracer_starts_iff]), when parent and tracer agree ([start_agrees]), and
      how far a request for function_graph is enforced
      ([fgraph_request_enforced]).
    - The loop: at most one capture, a queue that holds exactly the waiting
      threads ([tracer_invariant]); every stopped thread is resumed, or held
      for a capture and then resumed ([no_thread_lost]); how long a held thread
      waits ([held_waits_for_capture]); what one system call and one capture do
      ([syscall_round], [capture_written]).
    - The descriptor tables refine the kernel's ([fd_tables_refine_kernel]) and
      recognise the tracer's own files ([thread_output_recognised]).
    - The pipes: the drains leave the loop with the depth and the windows the
      threads have ([depth_drain_keeps_last], [window_drain_tracks]), and lost
      messages are made good by the next ([window_message_resyncs]).
    - The hooks: the lines are the rendering of the tree of calls
      ([run_calls_render], [hooked_calls_trace]), windows open and close in
      nesting order and none is left ([hooked_call_leaves_no_window]).
    - Tracefs: [begin_capture_sets], [end_capture_sets], [reset_state_neutral],
      [init_or_fail_sound].
    - Text: lines have their shape ([format_syscall_line_shape]), flag words are
      accounted for bit by bit ([format_open_flags_exact] and its companions),
      previews, hex dumps and JSON strings read back, file names are safe.
    - Decoding: the command word round-trips; the UVM and the RM decoder always
      answer with one object and a status that fits the request
      ([decode_uvm_ioctl_answers], [decode_nvidia_ioctl_answers]); a control
      command is decoded under its own name unless its parameters cannot be
      read ([known_rm_control]); commands have names exactly if they have
      decoders; the UVM slices are within their arrays.
    - Configuration: whatever the environment, the result is within bounds.
    - Output: a descriptor that keeps taking bytes gets every line whole, once
      ([log_line_reaches_output]); the tracer closes the descriptors that it
      opened ([fused_writer_balanced]).

    ** Bounds and fuel

    - [Proc.cstring_fuel] is 17: the string loop reads at most 4096 bytes in
      chunks of 256, and its 17th test ends it ([read_remote_cstring_spec]
      proves that the fuel is enough).
    - The digits of a number are produced with its binary size as fuel
      ([fmt_radix_fuel]); suffixes are stripped with the length as fuel.
    - [write_all] and the drains are driven by the list of the kernel's answers
      and say when an answer is missing; the theorems ask for answers that let
      the loop end and prove that it does.
    - [Build.remove_all] has the length of the text as fuel: each round cuts
      something out ([remove_macro_invocation_done]).
    - [Bootstrap.wait_for_stop] is driven by the list of answers of [waitpid];
      a wait without an answer is the result [Waits].
    - Sums of addresses and sizes in the RM decoder wrap at 64 bits, as in a
      release build; counters bounded by the length of an array are integers.
    - Message fields are 32 bits wide; theorems about windows bound the number
      of windows accordingly.

    ** Not modelled

    One thread at a time runs in a [World]: the atomic statics and the
    [OnceLock]s are read and written without interleaving, and the lock on
    standard output has no definition.  A [World] is the process after its
    start; the call of [ensure_started] in [enter_lazy] is the subject of
    [Bootstrap].  The prototypes of the runtime in [build_specs_embed.rs] are
    read by nothing ([generate_cudart_wrappers] is disabled) and are left out,
    as are the C compiler, the constructor and the version string of [lib.rs],
    and the tests. *)
From Stdlib Require Export ZArith Lia Bool Ascii.
From stdpp Require Export base numbers list strings gmap option.

Declare Scope rust_scope.
Delimit Scope rust_scope with rust.
#[global] Open Scope Z_scope.

Create HintDb rust.

(** ** Machine integers: a w-bit value is a [Z] with its wrap-around explicit *)

(** [x as uW]: truncation to [w] bits. *)
Definition wrap (w x : Z) : Z := x mod 2 ^ w.

(** [x as iW]: truncation to [w] bits, read back as two's complement. *)
Definition swrap (w x : Z) : Z := (x + 2 ^ (w - 1)) mod 2 ^ w - 2 ^ (w - 1).

Abbreviation as_u8 := (wrap 8).
Abbreviation as_u16 := (wrap 16).
Abbreviation as_u32 := (wrap 32).
Abbreviation as_u64 := (wrap 64).
Abbreviation as_i16 := (swrap 16).
Abbreviation as_i32 := (swrap 32).
Abbreviation as_i64 := (swrap 64).

Definition u32_max : Z := 2 ^ 32 - 1.
Definition u64_max : Z := 2 ^ 64 - 1.

(** The values of an unsigned and of a signed [w]-bit integer. *)
Definition in_u (w x : Z) : Prop := 0 <= x < 2 ^ w.
Definition in_i (w x : Z) : Prop := - 2 ^ (w - 1) <= x < 2 ^ (w - 1).

#[export] Instance in_u_dec w x : Decision (in_u w x).
Proof. unfold in_u. apply _. Defined.
#[export] Instance in_i_dec w x : Decision (in_i w x).
Proof. unfold in_i. apply _. Defined.

(** [saturating_add(1)] and [saturating_sub(1)] of an unsigned integer with maximum [m]. *)
Definition sat_succ (m x : Z) : Z := Z.min m (x + 1).
Definition sat_pred (x : Z) : Z := Z.max 0 (x - 1).

(** [!m] restricted to the bits of a [u64]. *)
Definition not64 (m : Z) : Z := Z.lxor u64_max m.

(** [remaining & !mask] *)
Definition clear_bits (x m : Z) : Z := Z.land x (not64 m).

(** [(remaining & mask) == mask] *)
Definition has_bits (x m : Z) : bool := Z.land x m =? m.

Lemma wrap_range w x : 0 <= w -> in_u w (wrap w x).
Proof. intros. unfold in_u, wrap. apply Z.mod_pos_bound. lia. Qed.

Lemma wrap_small w x : in_u w x -> wrap w x = x.
Proof. unfold in_u, wrap. intros. apply Z.mod_small. lia. Qed.

Lemma swrap_range w x : 0 < w -> in_i w (swrap w x).
Proof.
  intros. unfold in_i, swrap.
  pose proof (Z.mod_pos_bound (x + 2 ^ (w - 1)) (2 ^ w) ltac:(lia)).
  replace (2 ^ w) with (2 * 2 ^ (w - 1)) in *; [lia|].
  rewrite <- Z.pow_succ_r by lia. f_equal. lia.
Qed.

Lemma swrap_small w x : 0 < w -> in_i w x -> swrap w x = x.
Proof.
  unfold in_i, swrap. intros.
  rewrite Z.mod_small; [lia|].
  replace (2 ^ w) with (2 * 2 ^ (w - 1)); [lia|].
  rewrite <- Z.pow_succ_r by lia. f_equal. lia.
Qed.

#[export] Hint Resolve wrap_range wrap_small swrap_range swrap_small : rust.

Lemma land_ones_range w x : 0 <= w -> 0 <= Z.land x (Z.ones w) < 2 ^ w.
Proof. intros. rewrite Z.land_ones by lia. apply Z.mod_pos_bound. lia. Qed.

(** Bits of a [u64] above position 63 are zero. *)
Lemma u64_testbit_high x i : in_u 64 x -> 64 <= i -> Z.testbit x i = false.
Proof.
  intros [H0 H1] Hi. destruct (decide (x = 0)) as [->|]; [apply Z.testbit_0_l|].
  apply Z.bits_above_log2; [lia|].
  apply Z.lt_le_trans with 64; [|lia]. apply Z.log2_lt_pow2; lia.
Qed.

Lemma u64_max_testbit i : 0 <= i -> Z.testbit u64_max i = (i <? 64).
Proof.
  intros. unfold u64_max. change (2 ^ 64 - 1) with (Z.ones 64).
  destruct (Z.ltb_spec i 64).
  - apply Z.ones_spec_low. lia.
  - apply Z.ones_spec_high. lia.
Qed.

Lemma clear_bits_testbit x m i :
  in_u 64 x -> 0 <= i ->
  Z.testbit (clear_bits x m) i = Z.testbit x i && negb (Z.testbit m i).
Proof.
  intros Hx Hi. unfold clear_bits, not64.
  rewrite Z.land_spec, Z.lxor_spec, u64_max_testbit by lia.
  destruct (Z.ltb_spec i 64).
  - by destruct (Z.testbit m i).
  - rewrite (u64_testbit_high x) by (done || lia). done.
Qed.

Lemma land_nonneg_l x y : 0 <= x -> 0 <= Z.land x y <= x.
Proof.
  intros Hx. split; [apply Z.land_nonneg; auto|].
  assert (Z.ldiff (Z.land x y) x = 0) as Hd.
  { apply Z.bits_inj'. intros i Hi. rewrite Z.ldiff_spec, Z.land_spec, Z.bits_0.
    by destruct (Z.testbit x i), (Z.testbit y i). }
  apply Z.sub_nocarry_ldiff in Hd.
  assert (0 <= Z.ldiff x (Z.land x y)) by (apply Z.ldiff_nonneg; auto). lia.
Qed.

Lemma clear_bits_range x m : in_u 64 x -> in_u 64 (clear_bits x m).
Proof.
  intros [? ?]. pose proof (land_nonneg_l x (not64 m)). unfold in_u, clear_bits. lia.
Qed.

Lemma has_bits_testbit x m i :
  has_bits x m = true -> 0 <= i -> Z.testbit m i = true -> Z.testbit x i = true.
Proof.
  unfold has_bits. intros H%Z.eqb_eq Hi Hm.
  rewrite <- H, Z.land_spec in Hm. by apply andb_true_iff in Hm as [? _].
Qed.

(** Taking the bits of [m] out of [x] and putting them back gives [x]. *)
Lemma clear_lor x m :
  in_u 64 x -> has_bits x m = true -> Z.lor m (clear_bits x m) = x.
Proof.
  intros Hx Hm. apply Z.bits_inj'. intros i Hi.
  rewrite Z.lor_spec, clear_bits_testbit by done.
  destruct (Z.testbit m i) eqn:E; [|by destruct (Z.testbit x i)].
  by rewrite (has_bits_testbit x m i).
Qed.

Lemma land_clear_bits x m : in_u 64 x -> Z.land m (clear_bits x m) = 0.
Proof.
  intros Hx. apply Z.bits_inj'. intros i Hi.
  rewrite Z.land_spec, clear_bits_testbit, Z.bits_0 by done.
  by destruct (Z.testbit m i), (Z.testbit x i).
Qed.

#[export] Hint Resolve clear_bits_range : rust.

(** ** [match] on integer constants: the first arm whose constant is equal *)

Fixpoint match_const {A : Type} (k : Z) (arms : list (Z * A)) : option A :=
  match arms with
  | [] => None
  | (c, a) :: arms => if k =? c then Some a else match_const k arms
  end.

Lemma match_const_In {A} k (arms : list (Z * A)) a :
  match_const k arms = Some a -> (k, a) ∈ arms.
Proof.
  induction arms as [|[c b] arms IH]; simpl; [done|].
  destruct (Z.eqb_spec k c); [intros [= ->]; subst; left|intros; right; auto].
Qed.

Lemma match_const_None {A} k (arms : list (Z * A)) :
  match_const k arms = None <-> k ∉ arms.*1.
Proof.
  induction arms as [|[c b] arms IH]; simpl.
  - split; [intros _; apply not_elem_of_nil|done].
  - rewrite not_elem_of_cons. destruct (Z.eqb_spec k c); simpl; [naive_solver|].
    rewrite IH. naive_solver.
Qed.

Lemma match_const_fmap {A B} (f : A -> B) k (arms : list (Z * A)) :
  match_const k (prod_map id f <$> arms) = f <$> match_const k arms.
Proof.
  induction arms as [|[c b] arms IH]; simpl; [done|]. by destruct (k =? c).
Qed.

(** [injection] that leaves the terms as they are. *)
Lemma some_eq {A} (x y : A) : Some x = Some y -> x = y.
Proof. congruence. Qed.

(** ** Automation *)

(** Split every boolean condition of the goal and close what arithmetic settles. *)
Ltac split_ifs :=
  repeat case_match; simplify_eq; try done; try lia.

(** Turn boolean comparisons in the context into propositions. *)
Ltac bool_to_prop :=
  repeat match goal with
  | H : _ && _ = true |- _ => apply andb_true_iff in H as [??]
  | H : _ || _ = false |- _ => apply orb_false_iff in H as [??]
  | H : negb _ = true |- _ => apply negb_true_iff in H
  | H : negb _ = false |- _ => apply negb_false_iff in H
  | H : (_ =? _) = true |- _ => apply Z.eqb_eq in H
  | H : (_ =? _) = false |- _ => apply Z.eqb_neq in H
  | H : (_ <? _) = true |- _ => apply Z.ltb_lt in H
  | H : (_ <? _) = false |- _ => apply Z.ltb_ge in H
  | H : (_ <=? _) = true |- _ => apply Z.leb_le in H
  | H : (_ <=? _) = false |- _ => apply Z.leb_gt in H
  end.

(** Evaluate a closed goal. *)
Ltac by_vm := vm_compute; first [reflexivity | done].
