(* ===== verification/RustStr.v ===== *)
(** * Rust strings

    A [String] or [&str] is its UTF-8 bytes ([Stdlib.Strings.String.string]);
    [chars] decodes them to code points (a [char] is a [Z]) and [of_chars]
    encodes code points back.  The decoder is total: on bytes that are not
    UTF-8 it puts U+FFFD the way [String::from_utf8_lossy] does, so it also
    models that function.  The rest of the file models the standard-library
    string operations and number formats the program uses. *)
From S2P Require Import Prelude.

#[local] Arguments String.append !_ _ /.

(** ** Bytes *)

Definition byte_of (c : ascii) : Z := Z.of_N (N_of_ascii c).
Definition ascii_of_byte (b : Z) : ascii := ascii_of_N (Z.to_N b).

Fixpoint bytes_of (s : string) : list Z :=
  match s with
  | EmptyString => []
  | String c s => byte_of c :: bytes_of s
  end.

Fixpoint str_of_bytes (bs : list Z) : string :=
  match bs with
  | [] => EmptyString
  | b :: bs => String (ascii_of_byte b) (str_of_bytes bs)
  end.

Definition is_byte (b : Z) : Prop := 0 <= b < 256.

#[export] Instance is_byte_dec b : Decision (is_byte b).
Proof. unfold is_byte. apply _. Defined.

(** [s.len()] *)
Definition str_len (s : string) : Z := Z.of_nat (String.length s).

Lemma byte_of_range c : is_byte (byte_of c).
Proof.
  unfold is_byte, byte_of. pose proof (N_ascii_bounded c). lia.
Qed.

Lemma ascii_of_byte_of c : ascii_of_byte (byte_of c) = c.
Proof. unfold ascii_of_byte, byte_of. by rewrite N2Z.id, ascii_N_embedding. Qed.

Lemma byte_of_ascii_of b : is_byte b -> byte_of (ascii_of_byte b) = b.
Proof.
  unfold is_byte, ascii_of_byte, byte_of. intros. rewrite N_ascii_embedding; lia.
Qed.

Lemma bytes_of_range s : Forall is_byte (bytes_of s).
Proof. induction s; simpl; constructor; auto using byte_of_range. Qed.

Lemma str_of_bytes_of s : str_of_bytes (bytes_of s) = s.
Proof. induction s; simpl; by rewrite ?ascii_of_byte_of, ?IHs. Qed.

Lemma bytes_of_str_of bs : Forall is_byte bs -> bytes_of (str_of_bytes bs) = bs.
Proof. induction 1; simpl; [done|]. f_equal; auto using byte_of_ascii_of. Qed.

Lemma bytes_of_app s t : bytes_of (s +:+ t) = bytes_of s ++ bytes_of t.
Proof. induction s; simpl; by rewrite ?IHs. Qed.

Lemma str_of_bytes_app a b : str_of_bytes (a ++ b) = str_of_bytes a +:+ str_of_bytes b.
Proof. induction a; simpl; by rewrite ?IHa. Qed.

Lemma bytes_of_length s : length (bytes_of s) = String.length s.
Proof. induction s; simpl; by rewrite ?IHs. Qed.

Lemma bytes_of_inj s t : bytes_of s = bytes_of t -> s = t.
Proof. intros H%(f_equal str_of_bytes). by rewrite !str_of_bytes_of in H. Qed.

Lemma str_app_assoc s t u : (s +:+ t) +:+ u = s +:+ t +:+ u.
Proof. induction s; simpl; by rewrite ?IHs. Qed.

Lemma str_app_nil_r s : s +:+ EmptyString = s.
Proof. induction s; simpl; by rewrite ?IHs. Qed.

Lemma str_app_inj_l s t u : s +:+ t = s +:+ u -> t = u.
Proof. induction s; simpl; [done|]. intros [= H]. auto. Qed.

Lemma str_length_app s t : String.length (s +:+ t) = (String.length s + String.length t)%nat.
Proof. induction s; simpl; by rewrite ?IHs. Qed.

Create Rewrite HintDb rust_str.
#[export] Hint Rewrite str_app_assoc str_app_nil_r bytes_of_app : rust_str.
#[export] Hint Resolve byte_of_range bytes_of_range : rust.

(** ** UTF-8 *)

Definition replacement_char : Z := 65533.

(** A continuation byte. *)
Definition is_cont (b : Z) : bool := (128 <=? b) && (b <=? 191).

(** The second byte a three-byte and a four-byte sequence may have. *)
Definition second3 (b0 b1 : Z) : bool :=
  if b0 =? 224 then (160 <=? b1) && (b1 <=? 191)
  else if b0 =? 237 then (128 <=? b1) && (b1 <=? 159)
  else is_cont b1.
Definition second4 (b0 b1 : Z) : bool :=
  if b0 =? 240 then (144 <=? b1) && (b1 <=? 191)
  else if b0 =? 244 then (128 <=? b1) && (b1 <=? 143)
  else is_cont b1.

(** The code points of a byte sequence; each maximal invalid prefix of a
    sequence becomes one replacement character. *)
Fixpoint utf8_decode (bs : list Z) : list Z :=
  match bs with
  | [] => []
  | b0 :: t0 =>
    if b0 <? 128 then b0 :: utf8_decode t0
    else if (194 <=? b0) && (b0 <=? 223) then
      match t0 with
      | [] => [replacement_char]
      | b1 :: t1 =>
        if is_cont b1 then ((b0 - 192) * 64 + (b1 - 128)) :: utf8_decode t1
        else replacement_char :: utf8_decode t0
      end
    else if (224 <=? b0) && (b0 <=? 239) then
      match t0 with
      | [] => [replacement_char]
      | b1 :: t1 =>
        if second3 b0 b1 then
          match t1 with
          | [] => [replacement_char]
          | b2 :: t2 =>
            if is_cont b2
            then ((b0 - 224) * 4096 + (b1 - 128) * 64 + (b2 - 128)) :: utf8_decode t2
            else replacement_char :: utf8_decode t1
          end
        else replacement_char :: utf8_decode t0
      end
    else if (240 <=? b0) && (b0 <=? 244) then
      match t0 with
      | [] => [replacement_char]
      | b1 :: t1 =>
        if second4 b0 b1 then
          match t1 with
          | [] => [replacement_char]
          | b2 :: t2 =>
            if is_cont b2 then
              match t2 with
              | [] => [replacement_char]
              | b3 :: t3 =>
                if is_cont b3
                then ((b0 - 240) * 262144 + (b1 - 128) * 4096 + (b2 - 128) * 64 + (b3 - 128))
                       :: utf8_decode t3
                else replacement_char :: utf8_decode t2
              end
            else replacement_char :: utf8_decode t1
          end
        else replacement_char :: utf8_decode t0
      end
    else replacement_char :: utf8_decode t0
  end.

(** The bytes of one code point. *)
Definition utf8_encode_char (c : Z) : list Z :=
  if c <? 128 then [c]
  else if c <? 2048 then [192 + c / 64; 128 + c mod 64]
  else if c <? 65536 then [224 + c / 4096; 128 + (c / 64) mod 64; 128 + c mod 64]
  else [240 + c / 262144; 128 + (c / 4096) mod 64; 128 + (c / 64) mod 64; 128 + c mod 64].

Definition utf8_encode (cs : list Z) : list Z := cs ≫= utf8_encode_char.

(** [s.chars()], and collecting chars into a [String]. *)
Definition chars (s : string) : list Z := utf8_decode (bytes_of s).
Definition of_chars (cs : list Z) : string := str_of_bytes (utf8_encode cs).

(** The bytes before the first NUL: [&bytes[..position(== 0).unwrap_or(len)]]. *)
Fixpoint until_nul (bytes : list Z) : list Z :=
  match bytes with
  | [] => []
  | b :: bytes => if b =? 0 then [] else b :: until_nul bytes
  end.

(** The chars of UTF-16 units; an unpaired surrogate becomes U+FFFD. *)
Fixpoint utf16_decode (units : list Z) : list Z :=
  match units with
  | [] => []
  | u :: units =>
    if (u <? 0xd800) || (0xdfff <? u) then u :: utf16_decode units
    else if 0xdc00 <=? u then replacement_char :: utf16_decode units
    else match units with
         | v :: units' =>
           if (0xdc00 <=? v) && (v <=? 0xdfff)
           then 0x10000 + (u - 0xd800) * 0x400 + (v - 0xdc00) :: utf16_decode units'
           else replacement_char :: utf16_decode units
         | [] => [replacement_char]
         end
  end.

(** [String::from_utf8_lossy] *)
Definition from_utf8_lossy (bs : list Z) : string := of_chars (utf8_decode bs).

(** [String::from_utf16_lossy] *)
Definition from_utf16_lossy (units : list Z) : string := of_chars (utf16_decode units).

(** A Unicode scalar value, the type [char]. *)
Definition is_scalar (c : Z) : Prop := 0 <= c < 55296 \/ 57344 <= c < 1114112.

#[export] Instance is_scalar_dec c : Decision (is_scalar c).
Proof. unfold is_scalar. apply _. Defined.

(** The bytes of a [String] are valid UTF-8. *)
Definition valid_str (s : string) : Prop := of_chars (chars s) = s.

#[export] Instance valid_str_dec s : Decision (valid_str s).
Proof. unfold valid_str. apply _. Defined.

Lemma utf8_encode_char_bytes c : is_scalar c -> Forall is_byte (utf8_encode_char c).
Proof.
  intros Hc. unfold utf8_encode_char, is_byte, is_scalar in *.
  repeat case_match; bool_to_prop; repeat constructor; Z.to_euclidean_division_equations; lia.
Qed.

Lemma utf8_encode_bytes cs : Forall is_scalar cs -> Forall is_byte (utf8_encode cs).
Proof.
  induction 1; simpl; [constructor|].
  apply Forall_app; split; auto using utf8_encode_char_bytes.
Qed.

(** The base-64 digits of a code point. *)
Lemma base64_split2 c : exists a r, c / 64 = a /\ c mod 64 = r /\ c = 64 * a + r /\ 0 <= r < 64.
Proof.
  exists (c / 64), (c mod 64). repeat split; [apply Z.div_mod; lia|..]; apply Z.mod_pos_bound; lia.
Qed.

Lemma base64_split3 c : exists a m r,
  c / 4096 = a /\ (c / 64) mod 64 = m /\ c mod 64 = r /\
  c = 4096 * a + 64 * m + r /\ 0 <= m < 64 /\ 0 <= r < 64.
Proof.
  exists (c / 4096), ((c / 64) mod 64), (c mod 64).
  split_and!; try done; try (apply Z.mod_pos_bound; lia).
  change 4096 with (64 * 64). rewrite <- Z.div_div by lia.
  pose proof (Z.div_mod c 64). pose proof (Z.div_mod (c / 64) 64). lia.
Qed.

Lemma base64_split4 c : exists a l m r,
  c / 262144 = a /\ (c / 4096) mod 64 = l /\ (c / 64) mod 64 = m /\ c mod 64 = r /\
  c = 262144 * a + 4096 * l + 64 * m + r /\ 0 <= l < 64 /\ 0 <= m < 64 /\ 0 <= r < 64.
Proof.
  destruct (base64_split3 c) as (x & m & r & Hx & Hm & Hr & Hc & ? & ?).
  exists (x / 64), (x mod 64), m, r. rewrite Hx, Hm, Hr.
  change 262144 with (4096 * 64). rewrite <- Z.div_div, Hx by lia.
  pose proof (Z.div_mod x 64). pose proof (Z.mod_pos_bound x 64).
  split_and!; try done; lia.
Qed.

Ltac decide_tests :=
  repeat match goal with
  | |- context [ ?a <? ?b ] =>
    first [ rewrite (proj2 (Z.ltb_lt a b)) by lia | rewrite (proj2 (Z.ltb_ge a b)) by lia ]
  | |- context [ ?a <=? ?b ] =>
    first [ rewrite (proj2 (Z.leb_le a b)) by lia | rewrite (proj2 (Z.leb_gt a b)) by lia ]
  end; cbn [andb].

Lemma is_cont_digit r : 0 <= r < 64 -> is_cont (128 + r) = true.
Proof. intros. unfold is_cont. by decide_tests. Qed.

Lemma second3_digit a m :
  0 <= a < 16 -> 0 <= m < 64 -> (a = 0 -> 32 <= m) -> (a = 13 -> m < 32) ->
  second3 (224 + a) (128 + m) = true.
Proof.
  intros. unfold second3.
  destruct (Z.eqb_spec (224 + a) 224); [by decide_tests|].
  destruct (Z.eqb_spec (224 + a) 237); [by decide_tests|by apply is_cont_digit].
Qed.

Lemma second4_digit a l :
  0 <= a < 5 -> 0 <= l < 64 -> (a = 0 -> 16 <= l) -> (a = 4 -> l < 16) ->
  second4 (240 + a) (128 + l) = true.
Proof.
  intros. unfold second4.
  destruct (Z.eqb_spec (240 + a) 240); [by decide_tests|].
  destruct (Z.eqb_spec (240 + a) 244); [by decide_tests|by apply is_cont_digit].
Qed.

(** Decoding an encoded scalar value gives it back, whatever follows. *)
Lemma utf8_decode_encode_char c rest :
  is_scalar c -> utf8_decode (utf8_encode_char c ++ rest) = c :: utf8_decode rest.
Proof.
  intros Hc. unfold utf8_encode_char, is_scalar in *.
  destruct (Z.ltb_spec c 128); [simpl; by destruct (Z.ltb_spec c 128); [|lia]|].
  destruct (Z.ltb_spec c 2048); [|destruct (Z.ltb_spec c 65536)].
  - destruct (base64_split2 c) as (a & r & -> & -> & ? & ?). clear Hc.
    simpl. rewrite is_cont_digit by done. decide_tests. f_equal. lia.
  - destruct (base64_split3 c) as (a & m & r & -> & -> & -> & ? & ? & ?).
    simpl. rewrite second3_digit, is_cont_digit by lia. clear Hc. decide_tests. f_equal. lia.
  - destruct (base64_split4 c) as (a & l & m & r & -> & -> & -> & -> & ? & ? & ? & ?).
    destruct Hc as [|Hc]; [lia|].
    simpl. rewrite second4_digit, !is_cont_digit by lia. decide_tests. f_equal. lia.
Qed.

Lemma utf8_decode_encode cs rest :
  Forall is_scalar cs -> utf8_decode (utf8_encode cs ++ rest) = cs ++ utf8_decode rest.
Proof.
  induction 1 as [|c cs Hc Hcs IH]; simpl; [done|].
  rewrite <- app_assoc, utf8_decode_encode_char by done. by rewrite IH.
Qed.

Lemma chars_of_chars cs : Forall is_scalar cs -> chars (of_chars cs) = cs.
Proof.
  intros H. unfold chars, of_chars.
  rewrite bytes_of_str_of by auto using utf8_encode_bytes.
  rewrite <- (app_nil_r (utf8_encode cs)), utf8_decode_encode by done. simpl.
  apply app_nil_r.
Qed.

Lemma of_chars_valid cs : Forall is_scalar cs -> valid_str (of_chars cs).
Proof. intros. unfold valid_str. by rewrite chars_of_chars. Qed.

(** ** Searching and splitting *)

(** [s.strip_prefix(p)] and [s.starts_with(p)] *)
Fixpoint strip_prefix (p s : string) : option string :=
  match p, s with
  | EmptyString, _ => Some s
  | String a p, String b s => if Ascii.eqb a b then strip_prefix p s else None
  | String _ _, EmptyString => None
  end.

Definition starts_with (p s : string) : bool :=
  match strip_prefix p s with Some _ => true | None => false end.

(** [s.contains(needle)] *)
Fixpoint contains (needle s : string) : bool :=
  starts_with needle s ||
  match s with EmptyString => false | String _ s => contains needle s end.

(** [s.find(c)] for an ASCII char, split around its first occurrence. *)
Fixpoint split_once (c : ascii) (s : string) : option (string * string) :=
  match s with
  | EmptyString => None
  | String a s =>
    if Ascii.eqb a c then Some (EmptyString, s)
    else match split_once c s with
         | Some (l, r) => Some (String a l, r)
         | None => None
         end
  end.

(** [s.split_once(sep)] *)
Fixpoint split_once_str (sep s : string) : option (string * string) :=
  match strip_prefix sep s with
  | Some r => Some (EmptyString, r)
  | None =>
    match s with
    | EmptyString => None
    | String a s =>
      match split_once_str sep s with
      | Some (l, r) => Some (String a l, r)
      | None => None
      end
    end
  end.

(** [s.split(p)] for a predicate on ASCII chars: never empty. *)
Fixpoint split_on (p : ascii -> bool) (s : string) : list string :=
  match s with
  | EmptyString => [EmptyString]
  | String a s =>
    if p a then EmptyString :: split_on p s
    else match split_on p s with
         | [] => [String a EmptyString]
         | w :: ws => String a w :: ws
         end
  end.

Definition split_char (c : ascii) (s : string) : list string := split_on (Ascii.eqb c) s.

(** [s.ends_with(c)] and the suffix test. *)
Fixpoint last_char (s : string) : option ascii :=
  match s with
  | EmptyString => None
  | String a EmptyString => Some a
  | String _ s => last_char s
  end.

(** The length of the longest suffix made of copies of [p] is dropped: [trim_end_matches]. *)
Fixpoint rev_str_acc (s acc : string) : string :=
  match s with EmptyString => acc | String a s => rev_str_acc s (String a acc) end.
Definition rev_str (s : string) : string := rev_str_acc s EmptyString.

Fixpoint strip_prefixes (fuel : nat) (p s : string) : string :=
  match fuel with
  | O => s
  | S fuel =>
    match strip_prefix p s with
    | Some s => strip_prefixes fuel p s
    | None => s
    end
  end.

Definition trim_end_matches (p s : string) : string :=
  rev_str (strip_prefixes (String.length s) (rev_str p) (rev_str s)).

(** [parts.join(sep)] *)
Fixpoint join (sep : string) (parts : list string) : string :=
  match parts with
  | [] => EmptyString
  | [p] => p
  | p :: ps => p +:+ sep +:+ join sep ps
  end.

(** [pat.repeat(n)] *)
Fixpoint repeat_str (pat : string) (n : nat) : string :=
  match n with O => EmptyString | S n => pat +:+ repeat_str pat n end.

(** [s.is_empty()] *)
Definition is_empty (s : string) : bool :=
  match s with EmptyString => true | String _ _ => false end.

(** ** Whitespace and case *)

(** [char::is_whitespace]: the Unicode property White_Space. *)
Definition is_whitespace (c : Z) : bool :=
  ((9 <=? c) && (c <=? 13)) || (c =? 32) || (c =? 133) || (c =? 160) || (c =? 5760)
  || ((8192 <=? c) && (c <=? 8202)) || (c =? 8232) || (c =? 8233) || (c =? 8239)
  || (c =? 8287) || (c =? 12288).

(** [char::is_control]: the general category Cc. *)
Definition is_control (c : Z) : bool :=
  ((0 <=? c) && (c <=? 31)) || ((127 <=? c) && (c <=? 159)).

Fixpoint drop_while {A} (p : A -> bool) (l : list A) : list A :=
  match l with
  | [] => []
  | x :: l' => if p x then drop_while p l' else l
  end.

Definition trim_start_chars (cs : list Z) : list Z := drop_while is_whitespace cs.
Definition trim_end_chars (cs : list Z) : list Z := reverse (drop_while is_whitespace (reverse cs)).
Definition trim_chars (cs : list Z) : list Z := trim_end_chars (trim_start_chars cs).

(** [s.trim()] and [s.trim_start()] *)
Definition trim (s : string) : string := of_chars (trim_chars (chars s)).
Definition trim_start (s : string) : string := of_chars (trim_start_chars (chars s)).

(** [format!("{}", b)] of a [bool] *)
Definition bool_text (b : bool) : string := if b then "true" else "false".

(** [s.trim_matches(c)] for a char *)
Definition trim_matches (c : Z) (s : string) : string :=
  of_chars (reverse (drop_while (Z.eqb c) (reverse (drop_while (Z.eqb c) (chars s))))).

(** [s.split_whitespace()] *)
Fixpoint split_ws_go (cs word : list Z) : list (list Z) :=
  match cs with
  | [] => match word with [] => [] | _ => [reverse word] end
  | c :: cs =>
    if is_whitespace c
    then match word with [] => split_ws_go cs [] | _ => reverse word :: split_ws_go cs [] end
    else split_ws_go cs (c :: word)
  end.
Definition split_whitespace (s : string) : list string := of_chars <$> split_ws_go (chars s) [].

(** [s.lines()]: the last line is dropped when empty, a final CR is cut. *)
Definition char_of (n : Z) : ascii := ascii_of_byte n.
Definition LF : ascii := char_of 10.
Definition CR : ascii := char_of 13.
Definition TAB : ascii := char_of 9.
Definition DQUOTE : ascii := char_of 34.
Definition str1 (c : ascii) : string := String c EmptyString.
(** A double quote and a tab as strings. *)
Definition DQ : string := str1 DQUOTE.
Definition TABS : string := str1 TAB.
Definition NL : string := str1 LF.

Fixpoint strip_cr (s : string) : string :=
  match s with
  | EmptyString => EmptyString
  | String a EmptyString => if Ascii.eqb a CR then EmptyString else s
  | String a s => String a (strip_cr s)
  end.

Fixpoint drop_last_empty (ls : list string) : list string :=
  match ls with
  | [] => []
  | [l] => if is_empty l then [] else [l]
  | l :: ls => strip_cr l :: drop_last_empty ls
  end.
Definition lines (s : string) : list string := drop_last_empty (split_char LF s).

(** [s.to_ascii_lowercase()] *)
Definition lower_ascii (c : ascii) : ascii :=
  if (65 <=? byte_of c) && (byte_of c <=? 90) then ascii_of_byte (byte_of c + 32) else c.
Fixpoint to_ascii_lowercase (s : string) : string :=
  match s with EmptyString => EmptyString | String c s => String (lower_ascii c) (to_ascii_lowercase s) end.

(** [char::is_ascii_alphanumeric] and [u8::is_ascii_graphic] *)
Definition is_ascii_alphanumeric (c : Z) : bool :=
  ((48 <=? c) && (c <=? 57)) || ((65 <=? c) && (c <=? 90)) || ((97 <=? c) && (c <=? 122)).
Definition is_ascii_graphic (c : Z) : bool := (33 <=? c) && (c <=? 126).

(** ** Number formats *)

(** One digit, lower case. *)
Definition digit_char (d : Z) : ascii := char_of (if d <? 10 then 48 + d else 87 + d).

Fixpoint fmt_radix_go (fuel : nat) (r n : Z) (acc : string) : string :=
  match fuel with
  | O => acc
  | S fuel =>
    let acc := String (digit_char (n mod r)) acc in
    if n <? r then acc else fmt_radix_go fuel r (n / r) acc
  end.

(** [n] in radix [r]; [log2 n + 1] digits are enough for every radix. *)
Definition fmt_radix (r n : Z) : string :=
  fmt_radix_go (S (Z.to_nat (Z.log2 n))) r n EmptyString.

(** [{}], [{:x}], [{:o}] of an unsigned integer, [{}] of a signed one. *)
Definition fmt_u (n : Z) : string := fmt_radix 10 n.
Definition fmt_x (n : Z) : string := fmt_radix 16 n.
Definition fmt_o (n : Z) : string := fmt_radix 8 n.
Definition fmt_i (n : Z) : string := if n <? 0 then "-" +:+ fmt_radix 10 (- n) else fmt_radix 10 n.
(** [0x{n:x}] *)
Definition fmt_0x (n : Z) : string := "0x" +:+ fmt_x n.

(** Left padding with zeros to a width: [{:0wx}]. *)
Definition pad0 (w : nat) (s : string) : string := repeat_str "0" (w - String.length s) +:+ s.

(** The value of a digit in radix [r]; upper-case digits are accepted. *)
Definition digit_val (r : Z) (c : ascii) : option Z :=
  let b := byte_of c in
  let v := if (48 <=? b) && (b <=? 57) then b - 48
           else if (97 <=? b) && (b <=? 122) then b - 87
           else if (65 <=? b) && (b <=? 90) then b - 55
           else 99 in
  if v <? r then Some v else None.

Fixpoint parse_digits (r : Z) (s : string) (acc : Z) : option Z :=
  match s with
  | EmptyString => Some acc
  | String c s =>
    match digit_val r c with
    | Some d => parse_digits r s (acc * r + d)
    | None => None
    end
  end.

(** [uN::from_str_radix]: an optional [+], at least one digit, no overflow past [max]. *)
Definition parse_uint (r max : Z) (s : string) : option Z :=
  let body := match s with
              | String c rest => if Ascii.eqb c "+"%char then rest else s
              | EmptyString => s
              end in
  if is_empty body then None
  else match parse_digits r body 0 with
       | Some v => if v <=? max then Some v else None
       | None => None
       end.

(** [iN::from_str]: an optional sign, at least one digit, no overflow. *)
Definition parse_int (w : Z) (s : string) : option Z :=
  let '(neg, body) := match s with
              | String c rest =>
                if Ascii.eqb c "+"%char then (false, rest)
                else if Ascii.eqb c "-"%char then (true, rest)
                else (false, s)
              | EmptyString => (false, s)
              end in
  if is_empty body then None
  else match parse_digits 10 body 0 with
       | Some v =>
         let v := if (neg : bool) then - v else v in
         if bool_decide (in_i w v) then Some v else None
       | None => None
       end.

Lemma digit_val_char r d :
  2 <= r <= 16 -> 0 <= d < r -> digit_val r (digit_char d) = Some d.
Proof.
  intros. unfold digit_val, digit_char, char_of.
  rewrite byte_of_ascii_of by (unfold is_byte; destruct (d <? 10) eqn:?; lia).
  destruct (Z.ltb_spec d 10).
  - rewrite (proj2 (Z.leb_le 48 (48 + d))), (proj2 (Z.leb_le (48 + d) 57)) by lia. simpl.
    replace (48 + d - 48) with d by lia. by rewrite (proj2 (Z.ltb_lt d r)) by lia.
  - rewrite (proj2 (Z.leb_gt (87 + d) 57)), andb_false_r by lia.
    rewrite (proj2 (Z.leb_le 97 (87 + d))), (proj2 (Z.leb_le (87 + d) 122)) by lia. simpl.
    replace (87 + d - 87) with d by lia. by rewrite (proj2 (Z.ltb_lt d r)) by lia.
Qed.

(** Digits are read back most significant first, then the rest of the string. *)
Lemma parse_fmt_radix_go fuel r n acc k :
  2 <= r <= 16 -> 0 <= n -> n < r ^ Z.of_nat fuel ->
  exists m, 0 <= m /\ parse_digits r (fmt_radix_go fuel r n acc) k
            = parse_digits r acc (k * r ^ m + n).
Proof.
  intros Hr. revert n acc. induction fuel as [|fuel IH]; intros n acc Hn Hf.
  - simpl in Hf. exists 0. simpl. split; [done|]. f_equal. lia.
  - simpl. destruct (Z.ltb_spec n r).
    + exists 1. split; [lia|]. simpl. rewrite Z.mod_small, digit_val_char by lia. f_equal. lia.
    + rewrite Nat2Z.inj_succ, Z.pow_succ_r in Hf by lia.
      destruct (IH (n / r) (String (digit_char (n mod r)) acc)) as (m & Hm & ->).
      * apply Z.div_pos; lia.
      * apply Z.div_lt_upper_bound; lia.
      * exists (m + 1). split; [lia|]. simpl.
        rewrite digit_val_char by (try apply Z.mod_pos_bound; lia).
        f_equal. rewrite Z.pow_add_r, Z.pow_1_r by lia.
        pose proof (Z.div_mod n r). lia.
Qed.

Lemma fmt_radix_fuel r n : 2 <= r -> 0 <= n -> n < r ^ Z.of_nat (S (Z.to_nat (Z.log2 n))).
Proof.
  intros Hr Hn. rewrite Nat2Z.inj_succ, Z2Nat.id by apply Z.log2_nonneg.
  destruct (decide (n = 0)) as [->|]; [simpl; lia|].
  apply Z.lt_le_trans with (2 ^ Z.succ (Z.log2 n)).
  - apply Z.log2_spec. lia.
  - apply Z.pow_le_mono_l. lia.
Qed.

(** Formatting then parsing digits is the identity. *)
Lemma parse_fmt_radix r n :
  2 <= r <= 16 -> 0 <= n -> parse_digits r (fmt_radix r n) 0 = Some n.
Proof.
  intros Hr Hn. unfold fmt_radix.
  destruct (parse_fmt_radix_go (S (Z.to_nat (Z.log2 n))) r n EmptyString 0)
    as (m & _ & ->); auto using fmt_radix_fuel with lia.
Qed.

(** Every character of a number is a digit of the radix. *)
Definition is_digit_char (c : ascii) : bool :=
  let b := byte_of c in ((48 <=? b) && (b <=? 57)) || ((97 <=? b) && (b <=? 102)).

Fixpoint str_forall (p : ascii -> bool) (s : string) : bool :=
  match s with EmptyString => true | String c s => p c && str_forall p s end.

Lemma digit_char_is_digit d : 0 <= d < 16 -> is_digit_char (digit_char d) = true.
Proof.
  intros. unfold is_digit_char, digit_char, char_of.
  rewrite byte_of_ascii_of by (unfold is_byte; destruct (d <? 10) eqn:?; lia).
  destruct (Z.ltb_spec d 10); apply orb_true_iff; [left|right]; apply andb_true_iff; lia.
Qed.

Lemma fmt_radix_go_digits fuel r n acc :
  2 <= r <= 16 -> 0 <= n ->
  str_forall is_digit_char acc = true -> str_forall is_digit_char (fmt_radix_go fuel r n acc) = true.
Proof.
  intros Hr. revert n acc. induction fuel as [|fuel IH]; intros n acc Hn Ha; simpl; [done|].
  assert (str_forall is_digit_char (String (digit_char (n mod r)) acc) = true).
  { simpl. rewrite digit_char_is_digit; [done|].
    pose proof (Z.mod_pos_bound n r). lia. }
  destruct (n <? r); [done|]. apply IH; [apply Z.div_pos; lia|done].
Qed.

Lemma fmt_radix_digits r n :
  2 <= r <= 16 -> 0 <= n -> str_forall is_digit_char (fmt_radix r n) = true.
Proof. intros. by apply fmt_radix_go_digits. Qed.

Lemma fmt_radix_go_nonempty fuel r n acc :
  acc <> EmptyString \/ fuel <> O -> fmt_radix_go fuel r n acc <> EmptyString.
Proof.
  revert n acc. induction fuel as [|fuel IH]; intros n acc H; simpl; [naive_solver|].
  destruct (n <? r); [done|]. apply IH. by left.
Qed.

Lemma fmt_radix_nonempty r n : fmt_radix r n <> EmptyString.
Proof. apply fmt_radix_go_nonempty. by right. Qed.

Lemma str_forall_app p s t : str_forall p (s +:+ t) = str_forall p s && str_forall p t.
Proof. induction s; simpl; by rewrite ?IHs, ?andb_assoc. Qed.

Lemma str_forall_impl p q s :
  (forall c, p c = true -> q c = true) -> str_forall p s = true -> str_forall q s = true.
Proof.
  intros Hpq. induction s; simpl; [done|]. intros [? ?]%andb_true_iff.
  by rewrite Hpq, IHs.
Qed.

(** An unsigned number read back by [from_str_radix] after [{}] or [{:x}]. *)
Lemma parse_uint_fmt r max n :
  2 <= r <= 16 -> 0 <= n <= max -> parse_uint r max (fmt_radix r n) = Some n.
Proof.
  intros Hr Hn. unfold parse_uint.
  pose proof (fmt_radix_nonempty r n) as Hne.
  pose proof (fmt_radix_digits r n Hr ltac:(lia)) as Hd.
  pose proof (parse_fmt_radix r n Hr ltac:(lia)) as Hp.
  destruct (fmt_radix r n) as [|c s]; [done|].
  destruct (Ascii.eqb_spec c "+"%char) as [->|].
  { simpl in Hd. by vm_compute in Hd. }
  simpl is_empty. rewrite Hp. by rewrite (proj2 (Z.leb_le n max)) by lia.
Qed.

Lemma fmt_radix_inj r n m :
  2 <= r <= 16 -> 0 <= n -> 0 <= m -> fmt_radix r n = fmt_radix r m -> n = m.
Proof.
  intros Hr Hn Hm H.
  pose proof (parse_fmt_radix r n Hr Hn) as H1. rewrite H, parse_fmt_radix in H1 by done.
  congruence.
Qed.

(** ** ASCII strings without blanks are their own chars and their own [trim] *)

Definition plain_char (c : ascii) : bool :=
  (byte_of c <? 128) && negb (is_whitespace (byte_of c)).

Lemma utf8_decode_ascii bs : Forall (fun b => 0 <= b < 128) bs -> utf8_decode bs = bs.
Proof.
  induction 1 as [|b bs Hb Hbs IH]; simpl; [done|].
  rewrite (proj2 (Z.ltb_lt b 128)) by lia. by rewrite IH.
Qed.

Lemma utf8_encode_ascii bs : Forall (fun b => 0 <= b < 128) bs -> utf8_encode bs = bs.
Proof.
  induction 1 as [|b bs Hb Hbs IH]; simpl; [done|].
  unfold utf8_encode_char. rewrite (proj2 (Z.ltb_lt b 128)) by lia. simpl. f_equal. apply IH.
Qed.

Lemma plain_bytes s :
  str_forall plain_char s = true ->
  Forall (fun b => 0 <= b < 128) (bytes_of s) /\ Forall (fun b => is_whitespace b = false) (bytes_of s).
Proof.
  induction s as [|c s IH]; simpl; [done|].
  intros [[H1 H2]%andb_true_iff [? ?]%IH]%andb_true_iff.
  pose proof (byte_of_range c) as [? ?]. bool_to_prop.
  split; constructor; auto.
Qed.

Lemma drop_while_false {A} (p : A -> bool) l : Forall (fun x => p x = false) l -> drop_while p l = l.
Proof. destruct 1; simpl; [done|]. by case_match. Qed.

Lemma chars_plain s : str_forall plain_char s = true -> chars s = bytes_of s.
Proof. intros [H _]%plain_bytes. by apply utf8_decode_ascii. Qed.

Lemma trim_plain s : str_forall plain_char s = true -> trim s = s.
Proof.
  intros H. unfold trim. rewrite chars_plain by done.
  apply plain_bytes in H as [Ha Hw].
  unfold trim_chars, trim_end_chars, trim_start_chars.
  rewrite (drop_while_false _ (bytes_of s)) by done.
  rewrite drop_while_false by (by apply Forall_reverse).
  rewrite reverse_involutive. unfold of_chars.
  by rewrite utf8_encode_ascii, str_of_bytes_of.
Qed.

Lemma plain_digit c : is_digit_char c = true -> plain_char c = true.
Proof.
  unfold is_digit_char, plain_char. intros H.
  assert (48 <= byte_of c <= 102 /\ byte_of c <> 133) as [? ?] by lia.
  unfold is_whitespace. apply andb_true_iff. split; [lia|].
  apply negb_true_iff. rewrite !orb_false_iff, !andb_false_iff. lia.
Qed.

Lemma trim_fmt_radix r n : 2 <= r <= 16 -> 0 <= n -> trim (fmt_radix r n) = fmt_radix r n.
Proof.
  intros. apply trim_plain. apply str_forall_impl with is_digit_char; [apply plain_digit|].
  by apply fmt_radix_digits.
Qed.

Lemma is_empty_false s : s <> EmptyString -> is_empty s = false.
Proof. by destruct s. Qed.

Lemma is_empty_spec s : is_empty s = true <-> s = EmptyString.
Proof. by destruct s. Qed.

(** Prefixes *)
Lemma strip_prefix_Some p s t : strip_prefix p s = Some t <-> s = p +:+ t.
Proof.
  revert s. induction p as [|a p IH]; intros s; simpl.
  - split; [by intros [= ->]|by intros ->].
  - destruct s as [|b s]; [split; [done|intros [=]]|].
    destruct (Ascii.eqb_spec a b) as [->|Hne].
    + rewrite IH. split; [by intros ->|by intros [= ->]].
    + split; [done|]. intros [= -> _]. done.
Qed.

Lemma starts_with_app p s : starts_with p (p +:+ s) = true.
Proof.
  unfold starts_with. destruct (strip_prefix p (p +:+ s)) eqn:E; [done|].
  by rewrite (proj2 (strip_prefix_Some p (p +:+ s) s)) in E.
Qed.

Lemma starts_with_spec p s : starts_with p s = true <-> exists t, s = p +:+ t.
Proof.
  unfold starts_with. split.
  - destruct (strip_prefix p s) eqn:E; [|done]. apply strip_prefix_Some in E. eauto.
  - intros [t ->]. apply starts_with_app.
Qed.

(** ** Every decoded char is a scalar value *)

Lemma scalar_replacement : is_scalar replacement_char.
Proof. unfold is_scalar, replacement_char. lia. Qed.

Lemma is_cont_range b : is_cont b = true -> 128 <= b <= 191.
Proof. unfold is_cont. lia. Qed.

Lemma scalar2 b0 b1 :
  (194 <=? b0) && (b0 <=? 223) = true -> is_cont b1 = true ->
  is_scalar ((b0 - 192) * 64 + (b1 - 128)).
Proof. intros ? ?%is_cont_range. unfold is_scalar. lia. Qed.

Lemma scalar3 b0 b1 b2 :
  (224 <=? b0) && (b0 <=? 239) = true -> second3 b0 b1 = true -> is_cont b2 = true ->
  is_scalar ((b0 - 224) * 4096 + (b1 - 128) * 64 + (b2 - 128)).
Proof.
  unfold second3. intros H0 H1 ?%is_cont_range. unfold is_scalar.
  destruct (Z.eqb_spec b0 224); [lia|]. destruct (Z.eqb_spec b0 237); [lia|].
  apply is_cont_range in H1. lia.
Qed.

Lemma scalar4 b0 b1 b2 b3 :
  (240 <=? b0) && (b0 <=? 244) = true -> second4 b0 b1 = true -> is_cont b2 = true -> is_cont b3 = true ->
  is_scalar ((b0 - 240) * 262144 + (b1 - 128) * 4096 + (b2 - 128) * 64 + (b3 - 128)).
Proof.
  unfold second4. intros H0 H1 ?%is_cont_range ?%is_cont_range. unfold is_scalar.
  destruct (Z.eqb_spec b0 240); [lia|]. destruct (Z.eqb_spec b0 244); [lia|].
  apply is_cont_range in H1. lia.
Qed.

Lemma utf8_decode_scalar_le n bs :
  (length bs <= n)%nat -> Forall is_byte bs -> Forall is_scalar (utf8_decode bs).
Proof.
  revert bs. induction n as [|n IH]; intros bs Hn Hb.
  { destruct bs; [constructor|simpl in Hn; lia]. }
  destruct Hb as [|b0 t0 Hb0 Ht0]; [constructor|].
  assert (forall k, Forall is_scalar (utf8_decode (drop k t0))) as Hrest.
  { intros k. apply IH; [rewrite length_drop; simpl in Hn; lia|by apply Forall_drop]. }
  pose proof (Hrest 0%nat) as Hr0. pose proof (Hrest 1%nat) as Hr1.
  pose proof (Hrest 2%nat) as Hr2. pose proof (Hrest 3%nat) as Hr3.
  pose proof scalar_replacement. clear IH Hrest Hn.
  assert (Forall is_scalar [replacement_char]) by by repeat apply Forall_cons_2.
  simpl in *. unfold is_byte in Hb0.
  destruct (Z.ltb_spec b0 128); [apply Forall_cons_2; [unfold is_scalar; lia|done]|].
  destruct ((194 <=? b0) && (b0 <=? 223)) eqn:?.
  { destruct t0 as [|b1 t1]; [done|].
    destruct (is_cont b1) eqn:?; apply Forall_cons_2; auto using scalar2. }
  destruct ((224 <=? b0) && (b0 <=? 239)) eqn:?.
  { destruct t0 as [|b1 t1]; [done|]. destruct (second3 b0 b1) eqn:?; [|by apply Forall_cons_2].
    destruct t1 as [|b2 t2]; [done|].
    destruct (is_cont b2) eqn:?; apply Forall_cons_2; auto using scalar3. }
  destruct ((240 <=? b0) && (b0 <=? 244)) eqn:?; [|by apply Forall_cons_2].
  destruct t0 as [|b1 t1]; [done|]. destruct (second4 b0 b1) eqn:?; [|by apply Forall_cons_2].
  destruct t1 as [|b2 t2]; [done|]. destruct (is_cont b2) eqn:?; [|by apply Forall_cons_2].
  destruct t2 as [|b3 t3]; [done|].
  destruct (is_cont b3) eqn:?; apply Forall_cons_2; auto using scalar4.
Qed.

Lemma chars_scalar s : Forall is_scalar (chars s).
Proof. by apply (utf8_decode_scalar_le (length (bytes_of s))), bytes_of_range. Qed.

Lemma chars_of_chars_id s : chars (of_chars (chars s)) = chars s.
Proof. apply chars_of_chars, chars_scalar. Qed.
#[export] Hint Resolve chars_scalar : rust.
