(* ===== verification/Config.v ===== *)
(** * Configuration: [src/src/config.rs]

    The nine environment variables, read once through [lookup] (the parameter
    of [Config::from_lookup]; the process environment in the program). *)
From S2P Require Import Prelude RustStr.

(** ** Constants *)
Definition ENV_OUTPUT : string := "LIB_CUDATRACE_OUTPUT".
Definition ENV_PATH : string := "LIB_CUDATRACE_PATH".
Definition ENV_TRACE : string := "LIB_CUDATRACE_TRACE".
Definition ENV_IOCTL_DECODE : string := "LIB_CUDATRACE_IOCTL_DECODE".
Definition ENV_MAX_BLOB : string := "LIB_CUDATRACE_MAX_BLOB".
Definition ENV_TIME_UNIT : string := "LIB_CUDATRACE_TIME_UNIT".
Definition ENV_LEFT_META : string := "LIB_CUDATRACE_LEFT_META".
Definition ENV_FGRAPH_FUNCS : string := "LIB_CUDATRACE_FGRAPH_FUNCS".
Definition ENV_FGRAPH_BUFFER_KB : string := "LIB_CUDATRACE_FGRAPH_BUFFER_KB".

Definition DEFAULT_PATH : string := "./cudatrace.output".
Definition DEFAULT_MAX_BLOB : Z := 256.
Definition MAX_BLOB_CAP : Z := 64 * 1024.
Definition DEFAULT_FGRAPH_BUFFER_KB : Z := 16 * 1024.
Definition MIN_FGRAPH_BUFFER_KB : Z := 64.
Definition MAX_FGRAPH_BUFFER_KB : Z := 256 * 1024.

(** ** Data *)
Inductive OutputMode := OutputMode_File | OutputMode_Stdout.
Inductive IoctlDecodeMode := Decode_Full | Decode_Header | Decode_Off.
Inductive TimeUnit := TimeUnit_Us | TimeUnit_Ns.
Inductive LeftMetaMode := LeftMeta_Off | LeftMeta_Tid | LeftMeta_Timestamp | LeftMeta_TidTimestamp.
Inductive TraceDomain := Domain_Cudart | Domain_Driver | Domain_Syscall.

#[export] Instance OutputMode_eq_dec : EqDecision OutputMode.
Proof. solve_decision. Defined.
#[export] Instance IoctlDecodeMode_eq_dec : EqDecision IoctlDecodeMode.
Proof. solve_decision. Defined.
#[export] Instance TimeUnit_eq_dec : EqDecision TimeUnit.
Proof. solve_decision. Defined.
#[export] Instance LeftMetaMode_eq_dec : EqDecision LeftMetaMode.
Proof. solve_decision. Defined.
#[export] Instance TraceDomain_eq_dec : EqDecision TraceDomain.
Proof. solve_decision. Defined.

Definition include_tid (m : LeftMetaMode) : bool :=
  match m with LeftMeta_Tid | LeftMeta_TidTimestamp => true | _ => false end.
Definition include_timestamp (m : LeftMetaMode) : bool :=
  match m with LeftMeta_Timestamp | LeftMeta_TidTimestamp => true | _ => false end.

Record TraceMask := { mask_cudart : bool; mask_driver : bool; mask_syscall : bool }.

Definition TraceMask_all : TraceMask :=
  {| mask_cudart := true; mask_driver := true; mask_syscall := true |}.

Definition any_enabled (m : TraceMask) : bool :=
  mask_cudart m || mask_driver m || mask_syscall m.

Definition enabled_for (m : TraceMask) (d : TraceDomain) : bool :=
  match d with
  | Domain_Cudart => mask_cudart m
  | Domain_Driver => mask_driver m
  | Domain_Syscall => mask_syscall m
  end.

Record Config := {
  output : OutputMode;
  path : string;
  trace : TraceMask;
  ioctl_decode : IoctlDecodeMode;
  max_blob : Z;
  time_unit : TimeUnit;
  left_meta : LeftMetaMode;
  fgraph_funcs : gset string;
  fgraph_buffer_kb : Z
}.

Definition trace_enabled (c : Config) (d : TraceDomain) : bool := enabled_for (trace c) d.
Definition fgraph_enabled (c : Config) : bool := negb (bool_decide (fgraph_funcs c = ∅)).
Definition fgraph_match (c : Config) (func : string) : bool := bool_decide (func ∈ fgraph_funcs c).

(** ** Parsers *)

Definition normalize (input : string) : string := to_ascii_lowercase (trim input).

Definition parse_output (value : option string) : OutputMode :=
  match normalize <$> value with
  | Some v => if String.eqb v "stdout" then OutputMode_Stdout else OutputMode_File
  | None => OutputMode_File
  end.

(** One token of the comma list: the arm of the [match] in the loop body. *)
Definition trace_token (mask : TraceMask) (token : string) : TraceMask :=
  let t := trim token in
  if String.eqb t "cudart" then
    {| mask_cudart := true; mask_driver := mask_driver mask; mask_syscall := mask_syscall mask |}
  else if String.eqb t "driver" then
    {| mask_cudart := mask_cudart mask; mask_driver := true; mask_syscall := mask_syscall mask |}
  else if String.eqb t "syscall" then
    {| mask_cudart := mask_cudart mask; mask_driver := mask_driver mask; mask_syscall := true |}
  else mask.

Definition parse_trace (value : option string) : TraceMask :=
  match normalize <$> value with
  | None => TraceMask_all
  | Some raw =>
    if String.eqb raw "all" then TraceMask_all
    else
      let mask := foldl trace_token
                    {| mask_cudart := false; mask_driver := false; mask_syscall := false |}
                    (split_char ","%char raw) in
      if any_enabled mask then mask else TraceMask_all
  end.

Definition parse_ioctl_decode (value : option string) : IoctlDecodeMode :=
  match normalize <$> value with
  | Some v =>
    if String.eqb v "header" then Decode_Header
    else if String.eqb v "off" then Decode_Off
    else Decode_Full
  | None => Decode_Full
  end.

(** [value.map(str::trim).filter(|v| !v.is_empty()).and_then(parse::<usize>)] *)
Definition parse_usize_setting (value : option string) : option Z :=
  v ← value;
  let v := trim v in
  if is_empty v then None else parse_uint 10 u64_max v.

Definition parse_max_blob (value : option string) : Z :=
  let parsed := match parse_usize_setting value with
                | Some v => if 0 <? v then v else DEFAULT_MAX_BLOB
                | None => DEFAULT_MAX_BLOB
                end in
  Z.min parsed MAX_BLOB_CAP.

Definition parse_time_unit (value : option string) : TimeUnit :=
  match normalize <$> value with
  | Some v => if String.eqb v "ns" then TimeUnit_Ns else TimeUnit_Us
  | None => TimeUnit_Us
  end.

(** [[a, b, c].contains(&x)] *)
Definition one_of (x : string) (l : list string) : bool := existsb (String.eqb x) l.

Definition left_meta_token (acc : bool * bool) (token : string) : bool * bool :=
  let '(include_tid, include_timestamp) := acc in
  let t := trim token in
  if one_of t ["tid"; "thread"; "threadid"] then (true, include_timestamp)
  else if one_of t ["ts"; "time"; "timestamp"] then (include_tid, true)
  else (include_tid, include_timestamp).

Definition parse_left_meta (value : option string) : LeftMetaMode :=
  match normalize <$> value with
  | None => LeftMeta_Off
  | Some raw =>
    if is_empty raw || one_of raw ["off"; "0"; "none"] then LeftMeta_Off
    else if one_of raw ["1"; "on"; "true"; "yes"; "all"] then LeftMeta_TidTimestamp
    else
      let sep c := Ascii.eqb c ","%char || Ascii.eqb c "|"%char || Ascii.eqb c "+"%char in
      match foldl left_meta_token (false, false) (split_on sep raw) with
      | (true, true) => LeftMeta_TidTimestamp
      | (true, false) => LeftMeta_Tid
      | (false, true) => LeftMeta_Timestamp
      | (false, false) => LeftMeta_Off
      end
  end.

(** The body of the token loop: the token and, for the two aliases, the other one. *)
Definition fgraph_token (out : gset string) (token : string) : gset string :=
  let out := {[token]} ∪ out in
  if String.eqb token "cudaMallocHost" then {["cudaHostAlloc"]} ∪ out
  else if String.eqb token "cudaHostAlloc" then {["cudaMallocHost"]} ∪ out
  else out.

Definition parse_fgraph_funcs (value : option string) : gset string :=
  match value with
  | None => ∅
  | Some raw =>
    foldl fgraph_token ∅
      (List.filter (fun token => negb (is_empty token)) (trim <$> split_char ","%char raw))
  end.

(** [v.clamp(lo, hi)] *)
Definition clamp (lo hi v : Z) : Z := if v <? lo then lo else if hi <? v then hi else v.

Definition parse_fgraph_buffer_kb (value : option string) : Z :=
  let parsed := default DEFAULT_FGRAPH_BUFFER_KB (parse_usize_setting value) in
  clamp MIN_FGRAPH_BUFFER_KB MAX_FGRAPH_BUFFER_KB parsed.

Definition parse_path (value : option string) : string :=
  match trim <$> value with
  | Some v => if is_empty v then DEFAULT_PATH else v
  | None => DEFAULT_PATH
  end.

Definition from_lookup (lookup : string -> option string) : Config := {|
  output := parse_output (lookup ENV_OUTPUT);
  path := parse_path (lookup ENV_PATH);
  trace := parse_trace (lookup ENV_TRACE);
  ioctl_decode := parse_ioctl_decode (lookup ENV_IOCTL_DECODE);
  max_blob := parse_max_blob (lookup ENV_MAX_BLOB);
  time_unit := parse_time_unit (lookup ENV_TIME_UNIT);
  left_meta := parse_left_meta (lookup ENV_LEFT_META);
  fgraph_funcs := parse_fgraph_funcs (lookup ENV_FGRAPH_FUNCS);
  fgraph_buffer_kb := parse_fgraph_buffer_kb (lookup ENV_FGRAPH_BUFFER_KB)
|}.

(** [env::var(key).ok()]: a variable that is not valid UTF-8 counts as unset. *)
Definition from_process_env (vars : string -> option string) : Config :=
  from_lookup (fun key =>
    match vars key with
    | Some v => if String.eqb (from_utf8_lossy (bytes_of v)) v then Some v else None
    | None => None
    end).

(** ** Trace mask *)

Definition domain_name (d : TraceDomain) : string :=
  match d with Domain_Cudart => "cudart" | Domain_Driver => "driver" | Domain_Syscall => "syscall" end.

Lemma trace_token_enabled mask token d :
  enabled_for (trace_token mask token) d
  = enabled_for mask d || String.eqb (trim token) (domain_name d).
Proof.
  unfold trace_token. generalize (trim token) as t. intros t.
  destruct (String.eqb_spec t "cudart") as [->|];
    [destruct d; simpl; by rewrite ?orb_true_r, ?orb_false_r|].
  destruct (String.eqb_spec t "driver") as [->|];
    [destruct d; simpl; by rewrite ?orb_true_r, ?orb_false_r|].
  destruct (String.eqb_spec t "syscall") as [->|];
    [destruct d; simpl; by rewrite ?orb_true_r, ?orb_false_r|].
  destruct d; simpl;
    repeat match goal with
    | |- context [String.eqb t ?s] => destruct (String.eqb_spec t s)
    end; by rewrite ?orb_false_r.
Qed.

Lemma trace_tokens_enabled tokens mask d :
  enabled_for (foldl trace_token mask tokens) d
  = enabled_for mask d || existsb (fun t => String.eqb (trim t) (domain_name d)) tokens.
Proof.
  revert mask. induction tokens as [|t ts IH]; intros mask; simpl; [by rewrite orb_false_r|].
  by rewrite IH, trace_token_enabled, orb_assoc.
Qed.

Lemma any_enabled_spec m : any_enabled m = true <-> exists d, enabled_for m d = true.
Proof.
  unfold any_enabled. split.
  - intros [[H|H]%orb_true_iff|H]%orb_true_iff;
      [by exists Domain_Cudart|by exists Domain_Driver|by exists Domain_Syscall].
  - intros [[] H]; simpl in H; rewrite H; by rewrite ?orb_true_r.
Qed.

Lemma parse_trace_any value : any_enabled (parse_trace value) = true.
Proof.
  unfold parse_trace. destruct (normalize <$> value); [|done].
  destruct (String.eqb _ _); [done|].
  destruct (any_enabled (foldl _ _ _)) eqn:E; [exact E|done].
Qed.

(** ** fgraph functions *)

Definition fgraph_alias (f g : string) : Prop :=
  (f = "cudaMallocHost" /\ g = "cudaHostAlloc") \/ (f = "cudaHostAlloc" /\ g = "cudaMallocHost").

Lemma fgraph_token_elem out token f :
  f ∈ fgraph_token out token <-> f ∈ out \/ f = token \/ fgraph_alias token f.
Proof.
  unfold fgraph_token, fgraph_alias.
  destruct (String.eqb_spec token "cudaMallocHost") as [->|]; [set_solver|].
  destruct (String.eqb_spec token "cudaHostAlloc") as [->|]; set_solver.
Qed.

Lemma fgraph_tokens_elem tokens out f :
  f ∈ foldl fgraph_token out tokens <->
  f ∈ out \/ exists t, t ∈ tokens /\ (f = t \/ fgraph_alias t f).
Proof.
  revert out. induction tokens as [|t ts IH]; intros out; simpl; [set_solver|].
  rewrite IH, fgraph_token_elem. set_solver.
Qed.

Lemma fgraph_alias_sym f g : fgraph_alias f g -> fgraph_alias g f.
Proof. unfold fgraph_alias. naive_solver. Qed.

Lemma fgraph_alias_trans f g h : fgraph_alias f g -> fgraph_alias g h -> h = f.
Proof. unfold fgraph_alias. intuition (subst; discriminate || reflexivity). Qed.

Lemma fgraph_funcs_alias_closed value f g :
  fgraph_alias f g -> f ∈ parse_fgraph_funcs value -> g ∈ parse_fgraph_funcs value.
Proof.
  unfold parse_fgraph_funcs. destruct value as [raw|]; [|set_solver].
  rewrite !fgraph_tokens_elem. intros Ha [?|(t & Ht & [->|Hta])]; [set_solver|right|right].
  - eauto.
  - exists t. split; [done|]. left. by eapply fgraph_alias_trans.
Qed.

(** ** Well-formed configurations *)

Record config_wf (c : Config) : Prop := {
  wf_trace : any_enabled (trace c) = true;
  wf_max_blob : 1 <= max_blob c <= MAX_BLOB_CAP;
  wf_buffer_kb : MIN_FGRAPH_BUFFER_KB <= fgraph_buffer_kb c <= MAX_FGRAPH_BUFFER_KB;
  wf_path : path c <> EmptyString;
  wf_alias : forall f g, fgraph_alias f g -> fgraph_match c f = fgraph_match c g
}.

Lemma parse_max_blob_bounds value : 1 <= parse_max_blob value <= MAX_BLOB_CAP.
Proof.
  unfold parse_max_blob, MAX_BLOB_CAP, DEFAULT_MAX_BLOB.
  destruct (parse_usize_setting value) as [v|]; [destruct (Z.ltb_spec 0 v)|]; lia.
Qed.

Lemma clamp_bounds lo hi v : lo <= hi -> lo <= clamp lo hi v <= hi.
Proof. unfold clamp. destruct (Z.ltb_spec v lo), (Z.ltb_spec hi v); lia. Qed.

(** C40: whatever the environment holds, the configuration is usable: some domain
    is traced, the blob cap and the ring-buffer size are within their bounds,
    the output path is not empty, and the two host-allocation names are
    matched or not matched together. *)
Theorem from_lookup_wf lookup : config_wf (from_lookup lookup).
Proof.
  constructor.
  - apply parse_trace_any.
  - apply parse_max_blob_bounds.
  - apply clamp_bounds. done.
  - simpl. unfold parse_path. destruct (trim <$> lookup ENV_PATH) as [[]|]; done.
  - intros f g Ha. unfold fgraph_match. simpl. apply bool_decide_ext.
    split; apply fgraph_funcs_alias_closed; [done|by apply fgraph_alias_sym].
Qed.

(** The trace mask of a set variable.  A domain is traced when the value
    normalises to [all], when its name is one of the comma-separated tokens
    (blanks around a token ignored), or when no token names a domain. *)
Theorem parse_trace_selects value d :
  enabled_for (parse_trace (Some value)) d = true <->
  let named d := existsb (fun t => String.eqb (trim t) (domain_name d))
                   (split_char ","%char (normalize value)) in
  normalize value = "all" \/ named d = true \/ (forall d', named d' = false).
Proof.
  simpl. unfold parse_trace. simpl.
  destruct (String.eqb_spec (normalize value) "all") as [|Hne].
  { split; [by left|]. by destruct d. }
  set (tokens := split_char _ _).
  set (m := foldl trace_token _ tokens).
  assert (forall d', enabled_for m d'
    = existsb (fun t => String.eqb (trim t) (domain_name d')) tokens) as Hm.
  { intros d'. unfold m. rewrite trace_tokens_enabled. by destruct d'. }
  destruct (any_enabled m) eqn:E.
  - rewrite Hm. apply any_enabled_spec in E as [d0 E]. rewrite Hm in E. naive_solver.
  - split; [|by destruct d]. intros _. right. right. intros d'. rewrite <- Hm.
    apply not_true_is_false. intros H.
    assert (any_enabled m = true) by (apply any_enabled_spec; eauto). congruence.
Qed.

(** A function is captured exactly when it is one of the non-empty trimmed
    tokens of the list, or the other name of [cudaMallocHost]/[cudaHostAlloc]
    when one of the two is a token. *)
Theorem parse_fgraph_funcs_spec raw f :
  f ∈ parse_fgraph_funcs (Some raw) <->
  exists t, t ∈ trim <$> split_char ","%char raw /\ t <> EmptyString /\ (f = t \/ fgraph_alias t f).
Proof.
  unfold parse_fgraph_funcs. rewrite fgraph_tokens_elem.
  split.
  - intros [?|(t & Ht & Hf)]; [set_solver|].
    apply list_elem_of_In, filter_In in Ht as [Ht Hne]. exists t.
    split_and!; [by apply list_elem_of_In| |done]. by destruct t.
  - intros (t & Ht & Hne & Hf). right. exists t. split; [|done].
    apply list_elem_of_In, filter_In. split; [by apply list_elem_of_In|]. by destruct t.
Qed.

(** A decimal blob size is read back exactly, up to the cap; zero falls back
    to the default. *)
Theorem parse_max_blob_decimal n :
  0 <= n <= u64_max ->
  parse_max_blob (Some (fmt_u n)) = (if n =? 0 then DEFAULT_MAX_BLOB else Z.min n MAX_BLOB_CAP).
Proof.
  intros Hn. unfold parse_max_blob, parse_usize_setting, fmt_u. simpl.
  rewrite trim_fmt_radix by lia.
  rewrite is_empty_false by apply fmt_radix_nonempty.
  rewrite parse_uint_fmt by lia.
  destruct (Z.ltb_spec 0 n), (Z.eqb_spec n 0); try lia; done.
Qed.

Lemma parse_max_blob_decimal_witness :
  (0 <= 4096 <= u64_max) /\ parse_max_blob (Some (fmt_u 4096)) = 4096.
Proof.
  split; [unfold u64_max; lia|]. exact (parse_max_blob_decimal 4096 ltac:(unfold u64_max; lia)).
Defined.
