(* ===== verification/Reentry.v ===== *)
(** * Hook re-entrancy guard: [src/src/reentry.rs]

    The thread-local [BYPASS_DEPTH] is [Some depth], or [None] when the
    thread-local storage is being torn down ([try_with] fails). *)
From S2P Require Import Prelude.

Definition tls_depth := option Z.

Record HookBypassGuard := { active : bool }.

(** [HookBypassGuard::enter] *)
Definition guard_enter (t : tls_depth) : HookBypassGuard * tls_depth :=
  match t with
  | Some current => ({| active := true |}, Some (sat_succ u32_max current))
  | None => ({| active := false |}, None)
  end.

(** [hooks_blocked] *)
Definition hooks_blocked (t : tls_depth) : bool :=
  match t with Some depth => 0 <? depth | None => true end.

(** [Drop for HookBypassGuard] *)
Definition guard_drop (g : HookBypassGuard) (t : tls_depth) : tls_depth :=
  if negb (active g) then t
  else match t with Some current => Some (sat_pred current) | None => None end.

(** A scope that holds a guard while [body] runs. *)
Definition with_guard {A} (t : tls_depth) (body : tls_depth -> A * tls_depth) : A * tls_depth :=
  let '(g, t) := guard_enter t in
  let '(a, t) := body t in
  (a, guard_drop g t).

(** The depth counts scopes without saturating. *)
Definition depth_ok (t : tls_depth) : Prop :=
  match t with Some d => 0 <= d < u32_max | None => True end.

Lemma guard_enter_blocks t g t' : depth_ok t -> guard_enter t = (g, t') -> hooks_blocked t' = true.
Proof.
  unfold guard_enter, hooks_blocked, sat_succ, depth_ok, u32_max.
  destruct t; intros ? [= <- <-]; [|done]. apply Z.ltb_lt. lia.
Qed.

Lemma guard_drop_enter t g t' : depth_ok t -> guard_enter t = (g, t') -> guard_drop g t' = t.
Proof.
  unfold guard_enter, guard_drop, depth_ok, sat_succ, sat_pred.
  destruct t as [d|]; intros ? [= <- <-]; simpl; [|done]. f_equal. lia.
Qed.

(** A scope that holds a bypass guard sees the hooks blocked, and leaving it
    gives back the depth it found when the scopes inside are balanced. *)
Theorem with_guard_balanced {A} t (body : tls_depth -> A * tls_depth) :
  depth_ok t ->
  (forall t', hooks_blocked t' = true -> (body t').2 = t') ->
  (with_guard t body).2 = t.
Proof.
  intros Hok Hbody. unfold with_guard.
  destruct (guard_enter t) as [g t'] eqn:E.
  pose proof (Hbody t' (guard_enter_blocks _ _ _ Hok E)).
  destruct (body t') as [a t'']; simpl in *; subst. by apply guard_drop_enter.
Qed.

Lemma with_guard_balanced_witness :
  depth_ok (Some 3) /\ (with_guard (Some 3) (fun t => (hooks_blocked t, t))).2 = Some 3.
Proof.
  split; [done|].
  apply (with_guard_balanced (Some 3) (fun t => (hooks_blocked t, t))); [done|].
  intros t' _. reflexivity.
Defined.
