(* ===== verification/Graph.v ===== *)
(** * The call graph printed by a traced thread: [src/src/line_meta.rs] and
    [src/src/graph.rs]

    The thread-local [STACK] is the argument and the result of [enter] and
    [exit] ([None] once the thread-local storage is gone).  What the code
    writes ([log_line]) and publishes ([publish_graph_depth]) is the list of
    events an operation returns, in the order of the calls.  The clock
    readings are arguments. *)
From S2P Require Import Prelude RustStr Config.

(** ** line_meta.rs *)

Definition time_unit_name (u : TimeUnit) : string :=
  match u with TimeUnit_Ns => "ns" | TimeUnit_Us => "us" end.

Definition format_left_meta_prefix (cfg : Config) (tid timestamp : Z) : string :=
  let out := if include_tid (left_meta cfg) then "tid=" +:+ fmt_i tid else EmptyString in
  let out :=
    if include_timestamp (left_meta cfg) then
      let out := if is_empty out then out else out +:+ " " in
      out +:+ "ts=" +:+ fmt_u timestamp +:+ time_unit_name (time_unit cfg)
    else out in
  if is_empty out then EmptyString else out +:+ "  |  ".

Definition prepend_left_meta (cfg : Config) (line : string) (tid timestamp : Z) : string :=
  let prefix := format_left_meta_prefix cfg tid timestamp in
  if is_empty prefix then line else prefix +:+ line.

(** [now_timestamp_for_config] on a clock reading in nanoseconds since the epoch. *)
Definition now_timestamp_for_config (cfg : Config) (now_ns : Z) : Z :=
  match time_unit cfg with TimeUnit_Ns => now_ns | TimeUnit_Us => now_ns / 1000 end.

(** ** graph.rs: lines *)

(** [duration_for_config] on a duration in nanoseconds. *)
Definition duration_for_config (cfg : Config) (ns : Z) : Z * string :=
  match time_unit cfg with TimeUnit_Ns => (ns, "ns") | TimeUnit_Us => (ns / 1000, "us") end.

Definition format_open_line (depth : nat) (func args : string) : string :=
  let indent := repeat_str TABS depth in
  indent +:+ func +:+ "(" +:+ args +:+ ") {".

Definition format_close_line (depth : nat) (ret : string) (elapsed_value : Z) (elapsed_unit : string) : string :=
  let indent := repeat_str TABS depth in
  indent +:+ "} = " +:+ ret +:+ "  /* " +:+ fmt_u elapsed_value +:+ " " +:+ elapsed_unit +:+ " */".

Definition format_leaf_line (depth : nat) (func args ret : string)
    (elapsed_value : Z) (elapsed_unit : string) : string :=
  let indent := repeat_str TABS depth in
  indent +:+ func +:+ "(" +:+ args +:+ ") = " +:+ ret +:+ "  /* " +:+ fmt_u elapsed_value
    +:+ " " +:+ elapsed_unit +:+ " */".

(** ** graph.rs: the stack *)

Record Frame := {
  f_func : string;
  f_args : string;
  f_depth : nat;
  f_started_ts : Z;
  f_started_at : Z;
  f_has_child : bool;
  f_enter_printed : bool
}.

(** The top of the stack is the head of the list. *)
Definition Stack := option (list Frame).

Inductive GraphEvent :=
| PublishDepth (depth : nat)
| LogLine (line : string).

Section Graph.
Context (cfg : Config) (tid : Z).

Definition force_brace_mode : bool := mask_syscall (trace cfg).

Definition with_left_meta (line : string) (timestamp : Z) : string :=
  prepend_left_meta cfg line tid timestamp.

Definition open_line_of (f : Frame) : GraphEvent :=
  LogLine (with_left_meta (format_open_line (f_depth f) (f_func f) (f_args f)) (f_started_ts f)).

(** The parent is marked; it is opened now when nothing printed it before. *)
Definition mark_parent (stack : list Frame) : list Frame * option Frame :=
  match stack with
  | parent :: rest =>
    if negb (f_has_child parent) then
      let parent' := {| f_func := f_func parent; f_args := f_args parent; f_depth := f_depth parent;
                        f_started_ts := f_started_ts parent; f_started_at := f_started_at parent;
                        f_has_child := true; f_enter_printed := true |} in
      if negb (f_enter_printed parent)
      then (parent' :: rest, Some parent')
      else (parent' :: rest, None)
    else (stack, None)
  | [] => (stack, None)
  end.

(** [enter]: [now] is the monotonic clock, [now_ns] the wall clock. *)
Definition enter (func args : string) (now now_ns : Z) (st : Stack) : list GraphEvent * Stack :=
  let now_ts := if include_timestamp (left_meta cfg) then now_timestamp_for_config cfg now_ns else 0 in
  let eager_open := force_brace_mode in
  match st with
  | None => ([], None)
  | Some stack =>
    let '(stack, parent_to_open) := mark_parent stack in
    let frame := {| f_func := func; f_args := args; f_depth := length stack;
                    f_started_ts := now_ts; f_started_at := now;
                    f_has_child := false; f_enter_printed := eager_open |} in
    let self_to_open := if eager_open then Some frame else None in
    let stack := frame :: stack in
    (PublishDepth (length stack)
       :: (match parent_to_open with Some p => [open_line_of p] | None => [] end)
       ++ (match self_to_open with Some f => [open_line_of f] | None => [] end),
     Some stack)
  end.

(** [exit]: [now] is the monotonic clock. *)
Definition exit (ret : string) (now : Z) (st : Stack) : list GraphEvent * Stack :=
  match st with
  | None => ([], None)
  | Some [] => ([], Some [])
  | Some (frame :: stack) =>
    let elapsed := Z.max 0 (now - f_started_at frame) in
    let '(elapsed_value, elapsed_unit) := duration_for_config cfg elapsed in
    (PublishDepth (length stack) ::
     (if force_brace_mode || f_has_child frame then
        (if negb (f_enter_printed frame) then [open_line_of frame] else [])
        ++ [LogLine (with_left_meta
                       (format_close_line (f_depth frame) ret elapsed_value elapsed_unit)
                       (f_started_ts frame))]
      else
        [LogLine (with_left_meta
                    (format_leaf_line (f_depth frame) (f_func frame) (f_args frame) ret
                       elapsed_value elapsed_unit)
                    (f_started_ts frame))]),
     Some stack)
  end.

(** ** A traced call with the calls made inside it *)

#[warnings="-register-all"]
Inductive Call :=
| MkCall (func args ret : string) (t_in ts_in t_out : Z) (children : list Call).

(** What the hooks do for a call: enter, the calls inside, exit. *)
Fixpoint run_call (c : Call) (st : Stack) : list GraphEvent * Stack :=
  match c with
  | MkCall func args ret t_in ts_in t_out children =>
    let '(ev1, st) := enter func args t_in ts_in st in
    let '(ev2, st) :=
      (fix run_list (cs : list Call) (st : Stack) : list GraphEvent * Stack :=
         match cs with
         | [] => ([], st)
         | c :: cs =>
           let '(ev, st) := run_call c st in
           let '(evs, st) := run_list cs st in (ev ++ evs, st)
         end) children st in
    let '(ev3, st) := exit ret t_out st in
    (ev1 ++ ev2 ++ ev3, st)
  end.

Fixpoint run_calls (cs : list Call) (st : Stack) : list GraphEvent * Stack :=
  match cs with
  | [] => ([], st)
  | c :: cs =>
    let '(ev, st) := run_call c st in
    let '(evs, st) := run_calls cs st in (ev ++ evs, st)
  end.

Definition log_of (e : GraphEvent) : list string :=
  match e with LogLine l => [l] | PublishDepth _ => [] end.
Definition logs (evs : list GraphEvent) : list string := evs ≫= log_of.

(** ** What the output of a call should be

    A call with calls inside it, or any call when syscalls are traced (their
    lines come from another process), is a brace block with its children
    indented one level more; a call without is one line. *)
Fixpoint render (depth : nat) (c : Call) : list string :=
  match c with
  | MkCall func args ret t_in ts_in t_out children =>
    let ts := if include_timestamp (left_meta cfg) then now_timestamp_for_config cfg ts_in else 0 in
    let '(v, u) := duration_for_config cfg (Z.max 0 (t_out - t_in)) in
    if force_brace_mode || negb (Nat.eqb (length children) 0) then
      [with_left_meta (format_open_line depth func args) ts]
      ++ concat (map (render (S depth)) children)
      ++ [with_left_meta (format_close_line depth ret v u) ts]
    else [with_left_meta (format_leaf_line depth func args ret v u) ts]
  end.

(** ** Proof *)

Lemma Call_rect_list (P : Call -> Prop) :
  (forall func args ret t_in ts_in t_out children,
     Forall P children -> P (MkCall func args ret t_in ts_in t_out children)) ->
  forall c, P c.
Proof.
  intros H. fix IH 1. intros [func args ret t_in ts_in t_out children]. apply H.
  induction children as [|c cs IHcs]; constructor; [apply IH|apply IHcs].
Qed.

Lemma run_call_unfold func args ret t_in ts_in t_out children st :
  run_call (MkCall func args ret t_in ts_in t_out children) st =
  let '(ev1, st) := enter func args t_in ts_in st in
  let '(ev2, st) := run_calls children st in
  let '(ev3, st) := exit ret t_out st in
  (ev1 ++ ev2 ++ ev3, st).
Proof. reflexivity. Qed.

(** The lines that opening the parent of the next call writes. *)
Definition parent_lines (stack : list Frame) : list string :=
  match (mark_parent stack).2 with
  | Some p => [with_left_meta (format_open_line (f_depth p) (f_func p) (f_args p)) (f_started_ts p)]
  | None => []
  end.

Lemma mark_parent_length stack : length (mark_parent stack).1 = length stack.
Proof. destruct stack as [|f]; simpl; [done|]. by destruct (f_has_child f), (f_enter_printed f). Qed.

Lemma mark_parent_idem stack : mark_parent (mark_parent stack).1 = ((mark_parent stack).1, None).
Proof.
  destruct stack as [|f]; simpl; [done|].
  destruct (f_has_child f) eqn:E, (f_enter_printed f); simpl; by rewrite ?E.
Qed.

Lemma parent_lines_marked stack : parent_lines (mark_parent stack).1 = [].
Proof. unfold parent_lines. by rewrite mark_parent_idem. Qed.

Lemma logs_app evs evs' : logs (evs ++ evs') = logs evs ++ logs evs'.
Proof. apply bind_app. Qed.

Lemma logs_parent (o : option Frame) :
  logs (match o with Some p => [open_line_of p] | None => [] end) =
  match o with
  | Some p => [with_left_meta (format_open_line (f_depth p) (f_func p) (f_args p)) (f_started_ts p)]
  | None => []
  end.
Proof. by destruct o. Qed.

(** What a list of calls does, when each call in it does what [render] says. *)
Lemma run_calls_spec cs :
  Forall (fun c => forall stack,
    exists ev, run_call c (Some stack) = (ev, Some (mark_parent stack).1)
    /\ logs ev = parent_lines stack ++ render (length stack) c) cs ->
  forall stack, exists ev,
    run_calls cs (Some stack) = (ev, Some (if decide (cs = []) then stack else (mark_parent stack).1))
    /\ logs ev = (if decide (cs = []) then [] else parent_lines stack)
                 ++ concat (map (render (length stack)) cs).
Proof.
  induction 1 as [|c cs Hc Hcs IH]; intros stack; simpl; [by exists []|].
  destruct (Hc stack) as (ev & -> & Hev).
  destruct (IH (mark_parent stack).1) as (evs & -> & Hevs).
  exists (ev ++ evs). rewrite mark_parent_idem, parent_lines_marked, mark_parent_length in *. simpl.
  split; [by case_decide|].
  rewrite logs_app, Hev, Hevs.
  by case_decide; subst; simpl; rewrite <- ?app_assoc, ?app_nil_r.
Qed.

Lemma run_call_spec c : forall stack,
  exists ev, run_call c (Some stack) = (ev, Some (mark_parent stack).1)
  /\ logs ev = parent_lines stack ++ render (length stack) c.
Proof.
  induction c as [func args ret t_in ts_in t_out children IH] using Call_rect_list.
  intros stack. rewrite run_call_unfold. unfold enter.
  destruct (mark_parent stack) as [stack' p] eqn:E.
  assert (length stack' = length stack) as Hlen.
  { by rewrite <- (mark_parent_length stack), E. }
  rewrite Hlen. set (frame := {| f_func := func |}).
  destruct (run_calls_spec children IH (frame :: stack')) as (evs & -> & Hevs).
  assert (parent_lines stack = match p with
    | Some p => [with_left_meta (format_open_line (f_depth p) (f_func p) (f_args p)) (f_started_ts p)]
    | None => [] end) as Hp by (unfold parent_lines; by rewrite E).
  unfold duration_for_config in *.
  destruct children as [|c0 cs0]; simpl in *.
  - rewrite Hp. unfold duration_for_config.
    destruct force_brace_mode, p, (time_unit cfg); simpl; (eexists; split; [reflexivity|]);
      simpl; rewrite ?logs_app, ?Hevs; reflexivity.
  - unfold parent_lines in Hevs. simpl in Hevs. rewrite orb_true_r.
    rewrite Hp. unfold duration_for_config. rewrite Hlen in *.
    destruct force_brace_mode, p, (time_unit cfg); simpl in *; (eexists; split; [reflexivity|]);
      simpl; rewrite ?logs_app, ?Hevs; simpl; rewrite <- ?app_assoc; reflexivity.
Qed.


(** The depths published to the tracer while a call runs. *)
Definition depth_of (e : GraphEvent) : list nat :=
  match e with PublishDepth d => [d] | LogLine _ => [] end.
Definition depths (evs : list GraphEvent) : list nat := evs ≫= depth_of.

Lemma depths_app evs evs' : depths (evs ++ evs') = depths evs ++ depths evs'.
Proof. apply bind_app. Qed.

(** The depths a call should publish: one more on entry, the old one on exit. *)
Fixpoint call_depths (depth : nat) (c : Call) : list nat :=
  match c with
  | MkCall _ _ _ _ _ _ children =>
    [S depth] ++ concat (map (call_depths (S depth)) children) ++ [depth]
  end.

Lemma depths_lines (o : option Frame) :
  depths (match o with Some p => [open_line_of p] | None => [] end) = [].
Proof. by destruct o. Qed.

Lemma run_calls_depths_go cs :
  Forall (fun c => forall stack, depths (run_call c (Some stack)).1 = call_depths (length stack) c) cs ->
  forall stack, depths (run_calls cs (Some stack)).1 = concat (map (call_depths (length stack)) cs).
Proof.
  induction 1 as [|c cs Hc Hcs IH]; intros stack; simpl; [done|].
  destruct (run_call_spec c stack) as (ev & Hr & _). specialize (Hc stack).
  rewrite Hr in *. specialize (IH (mark_parent stack).1). rewrite mark_parent_length in IH.
  destruct (run_calls cs _) as [evs st]. simpl in *. by rewrite depths_app, Hc, IH.
Qed.

Lemma run_call_depths c : forall stack,
  depths (run_call c (Some stack)).1 = call_depths (length stack) c.
Proof.
  induction c as [func args ret t_in ts_in t_out children IH] using Call_rect_list.
  intros stack. rewrite run_call_unfold. unfold enter.
  destruct (mark_parent stack) as [stack' p] eqn:E.
  assert (length stack' = length stack) as Hlen.
  { by rewrite <- (mark_parent_length stack), E. }
  rewrite Hlen. set (frame := {| f_func := func |}).
  pose proof (run_calls_depths_go children IH (frame :: stack')) as Hd.
  destruct (run_calls_spec children (Forall_true _ _ run_call_spec) (frame :: stack')) as (evs & Hr & _).
  rewrite Hr in *. simpl in *.
  assert (exists f, (if decide (children = []) then frame :: stack' else (mark_parent (frame :: stack')).1)
                    = f :: stack') as [f Hf].
  { case_decide; [by eexists|]. simpl. destruct force_brace_mode; by eexists. }
  rewrite Hlen in Hd. simpl in Hf. rewrite Hf, <- Hd. unfold exit, duration_for_config.
  destruct force_brace_mode, p, (time_unit cfg), (f_has_child f), (f_enter_printed f); simpl;
    rewrite ?depths_app; simpl; rewrite ?depths_app; by rewrite ?Hlen.
Qed.

End Graph.
