(* ===== verification/Layout.v ===== *)
(** * Plain-old-data: little-endian integers, [repr(C)] layouts and typed reads

    The decoders copy [repr(C)] structs out of another process and read their
    fields.  A struct type is a [layout], its value a [pod] (its bytes), and
    [p.[f]] reads a field: the field must exist, and the result has the type
    the layout gives it, both by conversion.  The target is x86-64
    (little-endian, natural alignment), as the source assumes. *)
From S2P Require Import Prelude RustStr.

(** ** Little-endian integers *)

Fixpoint le_val (bs : list Z) : Z :=
  match bs with [] => 0 | b :: bs => b + 256 * le_val bs end.

Fixpoint le_bytes (n : nat) (z : Z) : list Z :=
  match n with O => [] | S n => z mod 256 :: le_bytes n (z / 256) end.

Lemma le_bytes_length n z : length (le_bytes n z) = n.
Proof. revert z. induction n; intros; simpl; auto. Qed.

Lemma le_bytes_range n z : Forall is_byte (le_bytes n z).
Proof.
  revert z. induction n; intros; simpl; constructor; auto.
  unfold is_byte. apply Z.mod_pos_bound. lia.
Qed.

Lemma le_val_bytes n z : le_val (le_bytes n z) = z mod 256 ^ Z.of_nat n.
Proof.
  revert z. induction n as [|n IH]; intros z; simpl le_val; [by rewrite Z.mod_1_r|].
  rewrite IH, Nat2Z.inj_succ, Z.pow_succ_r by lia.
  rewrite Z.rem_mul_r by lia. lia.
Qed.

Lemma le_val_bytes_u n w z :
  w = 8 * Z.of_nat n -> in_u w z -> le_val (le_bytes n z) = z.
Proof.
  intros -> Hz. rewrite le_val_bytes. change 256 with (2 ^ 8).
  rewrite <- Z.pow_mul_r by lia. by apply (wrap_small (8 * Z.of_nat n)).
Qed.

Lemma le_val_range bs : Forall is_byte bs -> 0 <= le_val bs < 256 ^ Z.of_nat (length bs).
Proof.
  induction 1 as [|b bs Hb Hbs IH]; simpl length; simpl le_val; [lia|].
  unfold is_byte in Hb. rewrite Nat2Z.inj_succ, Z.pow_succ_r by lia. lia.
Qed.

Lemma le_bytes_val bs : Forall is_byte bs -> le_bytes (length bs) (le_val bs) = bs.
Proof.
  induction 1 as [|b bs Hb Hbs IH]; simpl; [done|]. unfold is_byte in Hb. f_equal.
  - rewrite (Z.mul_comm 256), Z.mod_add by lia. apply Z.mod_small. lia.
  - rewrite (Z.mul_comm 256), Z.div_add by lia. by rewrite (Z.div_small b) by lia.
Qed.

(** ** Layouts *)

#[warnings="-register-all"]
Inductive fty :=
| U8 | U16 | U32 | U64 | I16 | I32
| Arr (t : fty) (n : Z)
| Struct (fs : list (string * fty)).

Abbreviation layout := (list (string * fty)).

Definition round_up (n a : Z) : Z := (n + a - 1) / a * a.

Fixpoint align_of (t : fty) : Z :=
  match t with
  | U8 => 1 | U16 | I16 => 2 | U32 | I32 => 4 | U64 => 8
  | Arr t _ => align_of t
  | Struct fs =>
    (fix go (fs : layout) : Z :=
       match fs with [] => 1 | (_, t) :: fs => Z.max (align_of t) (go fs) end) fs
  end.

Fixpoint size_of (t : fty) : Z :=
  match t with
  | U8 => 1 | U16 | I16 => 2 | U32 | I32 => 4 | U64 => 8
  | Arr t n => n * size_of t
  | Struct fs =>
    let end_off :=
      (fix go (fs : layout) (off : Z) : Z :=
         match fs with
         | [] => off
         | (_, t) :: fs => go fs (round_up off (align_of t) + size_of t)
         end) fs 0 in
    round_up end_off (align_of (Struct fs))
  end.

(** [size_of::<T>()] of a struct. *)
Definition struct_size (fs : layout) : Z := size_of (Struct fs).

(** Offset and type of a field. *)
Fixpoint field_info (fs : layout) (off : Z) (f : string) : option (Z * fty) :=
  match fs with
  | [] => None
  | (g, t) :: fs =>
    let off := round_up off (align_of t) in
    if String.eqb f g then Some (off, t) else field_info fs (off + size_of t) f
  end.

Definition field_off (fs : layout) (f : string) : Z :=
  match field_info fs 0 f with Some (off, _) => off | None => 0 end.
Definition field_ty (fs : layout) (f : string) : fty :=
  match field_info fs 0 f with Some (_, t) => t | None => U8 end.
Definition has_field (fs : layout) (f : string) : bool :=
  match field_info fs 0 f with Some _ => true | None => false end.

(** ** Values *)

Record pod (fs : layout) := Pod { pod_bytes : list Z }.
Arguments Pod {fs} _.
Arguments pod_bytes {fs} _.

Fixpoint denote (t : fty) : Type :=
  match t with
  | U8 | U16 | U32 | U64 | I16 | I32 => Z
  | Arr t _ => list (denote t)
  | Struct fs => pod fs
  end.

(** The bytes of a range. *)
Definition slice (bs : list Z) (off len : Z) : list Z :=
  take (Z.to_nat len) (drop (Z.to_nat off) bs).

(** [chunks_exact]-like split of an array into its elements. *)
Fixpoint chunk (n : nat) (len : Z) (bs : list Z) : list (list Z) :=
  match n with
  | O => []
  | S n => take (Z.to_nat len) bs :: chunk n len (drop (Z.to_nat len) bs)
  end.

Fixpoint read_ty (t : fty) (bs : list Z) : denote t :=
  match t with
  | U8 => le_val (take 1 bs)
  | U16 => le_val (take 2 bs)
  | U32 => le_val (take 4 bs)
  | U64 => le_val (take 8 bs)
  | I16 => as_i16 (le_val (take 2 bs))
  | I32 => as_i32 (le_val (take 4 bs))
  | Arr t n => read_ty t <$> chunk (Z.to_nat n) (size_of t) bs
  | Struct fs => Pod bs
  end.

(** [p.f]; the proof that the field exists is found by conversion. *)
Definition get {fs : layout} (p : pod fs) (f : string) (_ : Is_true (has_field fs f)) :
    denote (field_ty fs f) :=
  read_ty (field_ty fs f) (slice (pod_bytes p) (field_off fs f) (size_of (field_ty fs f))).

Notation "p .[ f ]" := (get p f I) (at level 1, left associativity, f at level 200, format "p .[ f ]")
  : rust_scope.

Lemma chunk_length n len bs : length (chunk n len bs) = n.
Proof. revert bs. induction n; intros; simpl; auto. Qed.

(** An array field has the length the layout says. *)
Lemma read_arr_length t n bs : 0 <= n -> Z.of_nat (length (read_ty (Arr t n) bs)) = n.
Proof. intros. simpl. rewrite length_fmap, chunk_length. lia. Qed.

(** [&values[..count]] where [count] is within the array. *)
Definition slice_to {A} (count : Z) (values : list A) : list A := take (Z.to_nat count) values.

(** ** Memory of the decoded process *)

(** [process_vm_readv] of one range: the bytes copied, [None] for [-1]. *)
Class RemoteMem := vm_read : Z -> Z -> option (list Z).

(** What the kernel promises: no more bytes than asked. *)
Class RemoteMemOk (M : RemoteMem) : Prop :=
  vm_read_ok addr len bs : vm_read addr len = Some bs ->
    Z.of_nat (length bs) <= len /\ Forall is_byte bs.

(** ** Values read from bytes *)

(** Unsigned integers are not negative, in every position of the type. *)
Fixpoint ty_ok (t : fty) : denote t -> Prop :=
  match t with
  | U8 | U16 | U32 | U64 => fun z => 0 <= z
  | I16 | I32 => fun _ => True
  | Arr t _ => Forall (ty_ok t)
  | Struct fs => fun p => Forall is_byte (pod_bytes p)
  end.

Lemma le_val_nonneg bs : Forall is_byte bs -> 0 <= le_val bs.
Proof. intros H. by apply le_val_range in H as [? _]. Qed.

Lemma chunk_bytes n len bs : Forall is_byte bs -> Forall (Forall is_byte) (chunk n len bs).
Proof.
  revert bs. induction n as [|n IH]; intros bs H; simpl; constructor.
  - by apply Forall_take.
  - by apply IH, Forall_drop.
Qed.

Lemma read_ty_ok t : forall bs, Forall is_byte bs -> ty_ok t (read_ty t bs).
Proof.
  induction t; intros bs H; simpl; auto; try by apply le_val_nonneg, Forall_take.
  apply Forall_fmap. eapply Forall_impl; [|by apply chunk_bytes]. simpl. auto.
Qed.

Lemma get_ok {fs} (p : pod fs) f H :
  Forall is_byte (pod_bytes p) -> ty_ok (field_ty fs f) (get p f H).
Proof. intros Hp. apply read_ty_ok. by apply Forall_take, Forall_drop. Qed.

(** ** Layouts place their fields *)

Lemma round_up_ge n a : 0 < a -> 0 <= n -> n <= round_up n a < n + a.
Proof. intros. unfold round_up. Z.to_euclidean_division_equations. nia. Qed.

Lemma round_up_aligned n a : 0 < a -> (round_up n a) mod a = 0.
Proof. intros. unfold round_up. apply Z.mod_mul. lia. Qed.
