(* ===== verification/Json.v ===== *)
(** * JSON output: [src/src/decode/ioctl_json.rs]

    A [JsonObject] is the string built so far and the flag that says whether
    a separator is needed; each method is a function to the next state. *)
From S2P Require Import Prelude RustStr.

(** ** [json_quote] *)

(** The text a char becomes between the quotes. *)
Definition json_escape (c : Z) : list Z :=
  if c =? 34 then [92; 34]
  else if c =? 92 then [92; 92]
  else if c =? 10 then [92; 110]
  else if c =? 13 then [92; 114]
  else if c =? 9 then [92; 116]
  else if is_control c then [92; 117] ++ bytes_of (pad0 4 (fmt_x c))
  else [c].

Definition json_quote_chars (cs : list Z) : list Z := [34] ++ (cs ≫= json_escape) ++ [34].

Definition json_quote (value : string) : string := of_chars (json_quote_chars (chars value)).

(** ** [JsonObject] *)

Record JsonObject := { out : string; first : bool }.

Definition JsonObject_new : JsonObject := {| out := "{"; first := true |}.

Definition push_field_key (o : JsonObject) (key : string) : JsonObject :=
  let sep := if negb (first o) then "," else EmptyString in
  {| out := out o +:+ sep +:+ json_quote key +:+ ":"; first := false |}.

Definition push_value (o : JsonObject) (s : string) : JsonObject :=
  {| out := out o +:+ s; first := first o |}.

Definition field_str (o : JsonObject) (key value : string) : JsonObject :=
  push_value (push_field_key o key) (json_quote value).
Definition field_bool (o : JsonObject) (key : string) (value : bool) : JsonObject :=
  push_value (push_field_key o key) (if value then "true" else "false").
Definition field_i64 (o : JsonObject) (key : string) (value : Z) : JsonObject :=
  push_value (push_field_key o key) (fmt_i value).
Definition field_u64 (o : JsonObject) (key : string) (value : Z) : JsonObject :=
  push_value (push_field_key o key) (fmt_u value).
Definition field_raw (o : JsonObject) (key raw_json : string) : JsonObject :=
  push_value (push_field_key o key) raw_json.

Definition finish (o : JsonObject) : string := out o +:+ "}".

(** The loop of the [json_*_array] functions of the decoders. *)
Fixpoint json_items {A} (f : A -> string) (idx : Z) (values : list A) (out : string) : string :=
  match values with
  | [] => out
  | value :: values =>
    let out := if negb (idx =? 0) then out +:+ "," else out in
    json_items f (idx + 1) values (out +:+ f value)
  end.

Definition json_array {A} (f : A -> string) (values : list A) : string :=
  json_items f 0 values "[" +:+ "]".

(** ** Specification: JSON values and their text *)

#[warnings="-register-all"]
Inductive json :=
| JStr (s : string)
| JBool (b : bool)
| JNum (n : Z)
| JArr (l : list json)
| JObj (l : list (string * json)).

Fixpoint render_json (j : json) : string :=
  match j with
  | JStr s => json_quote s
  | JBool b => if b then "true" else "false"
  | JNum n => fmt_i n
  | JArr l => "[" +:+ join "," (map render_json l) +:+ "]"
  | JObj l => "{" +:+ join "," (map (fun kv => json_quote kv.1 +:+ ":" +:+ render_json kv.2) l) +:+ "}"
  end.

(** The object under construction holds the members [l]. *)
Definition json_repr (o : JsonObject) (l : list (string * json)) : Prop :=
  out o = "{" +:+ join "," (map (fun kv => json_quote kv.1 +:+ ":" +:+ render_json kv.2) l)
  /\ first o = bool_decide (l = []).

Lemma join_snoc sep l x :
  join sep (l ++ [x]) = if bool_decide (l = []) then x else join sep l +:+ sep +:+ x.
Proof.
  induction l as [|y l IH]; [done|].
  rewrite bool_decide_eq_false_2 by done. simpl app.
  destruct l as [|z l]; [done|].
  change (join sep (y :: (z :: l) ++ [x])) with (y +:+ sep +:+ join sep ((z :: l) ++ [x])).
  rewrite IH, bool_decide_eq_false_2 by done.
  change (join sep (y :: z :: l)) with (y +:+ sep +:+ join sep (z :: l)).
  by rewrite !str_app_assoc.
Qed.

Lemma json_repr_new : json_repr JsonObject_new [].
Proof. done. Qed.

(** Adding a member whose value text is the rendering of a JSON value. *)
Lemma json_repr_push o l key v :
  json_repr o l -> json_repr (push_value (push_field_key o key) (render_json v)) (l ++ [(key, v)]).
Proof.
  intros [Ho Hf]. split; simpl.
  - rewrite Ho, Hf, map_app. simpl. rewrite join_snoc.
    destruct l as [|kv l].
    + simpl. by rewrite !str_app_assoc.
    + rewrite !bool_decide_eq_false_2 by done. cbn [negb].
      by rewrite !str_app_assoc.
  - by destruct l.
Qed.

Lemma json_repr_finish o l : json_repr o l -> finish o = render_json (JObj l).
Proof. intros [Ho _]. unfold finish. rewrite Ho. simpl. by rewrite str_app_assoc. Qed.

Lemma json_repr_str o l key s :
  json_repr o l -> json_repr (field_str o key s) (l ++ [(key, JStr s)]).
Proof. exact (json_repr_push o l key (JStr s)). Qed.
Lemma json_repr_bool o l key b :
  json_repr o l -> json_repr (field_bool o key b) (l ++ [(key, JBool b)]).
Proof. exact (json_repr_push o l key (JBool b)). Qed.
Lemma json_repr_i64 o l key n :
  json_repr o l -> json_repr (field_i64 o key n) (l ++ [(key, JNum n)]).
Proof. exact (json_repr_push o l key (JNum n)). Qed.
Lemma json_repr_u64 o l key n :
  0 <= n -> json_repr o l -> json_repr (field_u64 o key n) (l ++ [(key, JNum n)]).
Proof.
  intros Hn. unfold field_u64.
  replace (fmt_u n) with (render_json (JNum n)); [apply json_repr_push|].
  simpl. unfold fmt_i. by rewrite (proj2 (Z.ltb_ge n 0)).
Qed.
Lemma json_repr_raw o l key raw v :
  raw = render_json v -> json_repr o l -> json_repr (field_raw o key raw) (l ++ [(key, v)]).
Proof. intros ->. apply json_repr_push. Qed.

Create HintDb json.
#[export] Hint Resolve json_repr_new json_repr_str json_repr_bool json_repr_i64 json_repr_u64
  json_repr_raw : json.

(** The array loop writes the rendering of the array. *)
Lemma json_items_render {A} (f : A -> string) (g : A -> json) idx values out :
  0 <= idx ->
  Forall (fun v => f v = render_json (g v)) values ->
  json_items f idx values out =
    match values with
    | [] => out
    | _ => (if negb (idx =? 0) then out +:+ "," else out)
             +:+ join "," (map render_json (map g values))
    end.
Proof.
  intros Hidx H. revert idx out Hidx. induction H as [|v vs Hv Hvs IH]; intros idx out Hidx; [done|].
  simpl. rewrite IH, Hv by lia. destruct vs as [|w ws]; [done|].
  rewrite (proj2 (Z.eqb_neq (idx + 1) 0)) by lia. cbn [negb map join].
  by rewrite !str_app_assoc.
Qed.

Lemma json_array_render {A} (f : A -> string) (g : A -> json) values :
  Forall (fun v => f v = render_json (g v)) values ->
  json_array f values = render_json (JArr (map g values)).
Proof.
  intros H. unfold json_array. rewrite (json_items_render f g) by done.
  destruct values; simpl; by rewrite ?str_app_assoc.
Qed.

(** ** Reading a JSON string back (RFC 8259, section 7) *)

Definition hex4 (cs : list Z) : option Z :=
  match cs with
  | [a; b; c; d] => parse_digits 16 (str_of_bytes [a; b; c; d]) 0
  | _ => None
  end.

(** The chars of a string literal after its opening quote, and what follows it.
    Raw control characters below U+0020 and unknown escapes are errors. *)
Fixpoint read_jstring (cs : list Z) : option (list Z * list Z) :=
  match cs with
  | [] => None
  | c :: cs =>
    if c =? 34 then Some ([], cs)
    else if c =? 92 then
      match cs with
      | e :: cs' =>
        if e =? 117 then
          match cs' with
          | a :: b :: c :: d :: cs'' =>
            match hex4 [a; b; c; d], read_jstring cs'' with
            | Some v, Some (s, r) => Some (v :: s, r)
            | _, _ => None
            end
          | _ => None
          end
        else
          match match_const e [(34, 34); (92, 92); (110, 10); (114, 13); (116, 9);
                               (47, 47); (98, 8); (102, 12)],
                read_jstring cs' with
          | Some v, Some (s, r) => Some (v :: s, r)
          | _, _ => None
          end
      | [] => None
      end
    else if c <? 32 then None
    else match read_jstring cs with Some (s, r) => Some (c :: s, r) | None => None end
  end.

(** The escape of a control character is [\u] and four digits that spell it. *)
Lemma control_escape c :
  is_control c = true ->
  exists h1 h2 h3 h4, bytes_of (pad0 4 (fmt_x c)) = [h1; h2; h3; h4] /\ hex4 [h1; h2; h3; h4] = Some c.
Proof.
  intros Hc. assert (0 <= c < 160) as Hr by (unfold is_control in Hc; lia).
  assert (forallb (fun n =>
    match bytes_of (pad0 4 (fmt_x n)) with
    | [h1; h2; h3; h4] => bool_decide (hex4 [h1; h2; h3; h4] = Some n)
    | _ => false
    end) (seqZ 0 160) = true) as Hall by (vm_compute; reflexivity).
  rewrite forallb_forall in Hall.
  specialize (Hall c (proj1 (list_elem_of_In _ _) (proj2 (elem_of_seqZ 0 160 c) Hr))). simpl in Hall.
  destruct (bytes_of (pad0 4 (fmt_x c))) as [|h1 [|h2 [|h3 [|h4 [|]]]]]; try done.
  apply bool_decide_eq_true in Hall. eauto 10.
Qed.

Lemma read_jstring_escape c rest s r :
  is_scalar c -> read_jstring rest = Some (s, r) -> read_jstring (json_escape c ++ rest) = Some (c :: s, r).
Proof.
  intros Hc Hr. unfold json_escape.
  destruct (Z.eqb_spec c 34) as [->|]; [simpl; by rewrite Hr|].
  destruct (Z.eqb_spec c 92) as [->|]; [simpl; by rewrite Hr|].
  destruct (Z.eqb_spec c 10) as [->|]; [simpl; by rewrite Hr|].
  destruct (Z.eqb_spec c 13) as [->|]; [simpl; by rewrite Hr|].
  destruct (Z.eqb_spec c 9) as [->|]; [simpl; by rewrite Hr|].
  destruct (is_control c) eqn:E.
  - destruct (control_escape c E) as (h1 & h2 & h3 & h4 & -> & Hh).
    simpl app. cbn -[hex4]. by rewrite Hh, Hr.
  - simpl. rewrite (proj2 (Z.eqb_neq c 34)), (proj2 (Z.eqb_neq c 92)) by done.
    unfold is_control in E. unfold is_scalar in Hc.
    rewrite (proj2 (Z.ltb_ge c 32)) by lia. by rewrite Hr.
Qed.

Lemma read_jstring_quote cs rest :
  Forall is_scalar cs -> read_jstring ((cs ≫= json_escape) ++ 34 :: rest) = Some (cs, rest).
Proof.
  induction 1 as [|c cs Hc Hcs IH]; simpl; [done|].
  rewrite <- app_assoc. by apply read_jstring_escape.
Qed.

Lemma json_escape_scalar c : is_scalar c -> Forall is_scalar (json_escape c).
Proof.
  intros Hc. unfold json_escape.
  repeat case_match; try (repeat constructor; unfold is_scalar; lia).
  - destruct (control_escape c) as (h1 & h2 & h3 & h4 & Hb & _); [done|].
    pose proof (bytes_of_range (pad0 4 (fmt_x c))) as Hr. rewrite Hb in *.
    apply Forall_app; split; [repeat constructor; unfold is_scalar; lia|].
    eapply Forall_impl; [|exact Hr]. unfold is_byte, is_scalar. intros. lia.
  - by apply Forall_cons_2.
Qed.

Lemma json_quote_scalar cs : Forall is_scalar cs -> Forall is_scalar (json_quote_chars cs).
Proof.
  intros H. unfold json_quote_chars. repeat apply Forall_app_2.
  - repeat constructor; unfold is_scalar; lia.
  - induction H; simpl; [constructor|]. apply Forall_app_2; auto using json_escape_scalar.
  - repeat constructor; unfold is_scalar; lia.
Qed.

(** C36: a quoted string is a JSON string literal that reads back as the value,
    whatever the value holds (quotes, backslashes, control characters). *)
Theorem json_quote_reads_back value rest :
  exists body, chars (json_quote value) = 34 :: body /\ read_jstring (body ++ rest) = Some (chars value, rest).
Proof.
  pose proof (chars_scalar value). exists ((chars value ≫= json_escape) ++ [34]).
  unfold json_quote. rewrite chars_of_chars by by apply json_quote_scalar.
  split; [done|]. rewrite <- app_assoc. simpl. by apply read_jstring_quote.
Qed.

(** ** Texts of JSON values, without naming the value *)

(** Characters that [json_quote] keeps as they are. *)
Definition unescaped_char (c : ascii) : bool :=
  let b := byte_of c in (32 <=? b) && (b <? 127) && negb (b =? 34) && negb (b =? 92).

Lemma unescaped_bytes s :
  str_forall unescaped_char s = true ->
  Forall (fun b => 0 <= b < 128) (bytes_of s) /\ bytes_of s ≫= json_escape = bytes_of s.
Proof.
  induction s as [|c s IH]; [done|]. cbn [bytes_of str_forall].
  intros [Hc [Hs IHs]%IH]%andb_true_iff. unfold unescaped_char in Hc. rewrite bind_cons.
  apply andb_true_iff in Hc as [[[H1 H2]%andb_true_iff H3]%andb_true_iff H4].
  bool_to_prop. split; [constructor; [lia|done]|]. rewrite IHs.
  unfold json_escape, is_control.
  repeat match goal with |- context [if ?x =? ?y then _ else _] => destruct (Z.eqb_spec x y); [lia|] end.
  rewrite (proj2 (Z.leb_gt (byte_of c) 31)), (proj2 (Z.leb_gt 127 (byte_of c))) by lia.
  by rewrite andb_false_r.
Qed.

Lemma json_quote_unescaped s :
  str_forall unescaped_char s = true -> json_quote s = DQ +:+ s +:+ DQ.
Proof.
  intros [Ha He]%unescaped_bytes. unfold json_quote, json_quote_chars, chars.
  rewrite utf8_decode_ascii, He by done. unfold of_chars.
  rewrite utf8_encode_ascii.
  - by rewrite !str_of_bytes_app, str_of_bytes_of.
  - apply Forall_app; split; [by repeat constructor|]. apply Forall_app; split; [done|by repeat constructor].
Qed.

Lemma unescaped_digit c : is_digit_char c = true -> unescaped_char c = true.
Proof. unfold is_digit_char, unescaped_char. intros H. rewrite !andb_true_iff, !negb_true_iff. lia. Qed.

Lemma unescaped_fmt_x n : 0 <= n -> str_forall unescaped_char (fmt_x n) = true.
Proof.
  intros. apply str_forall_impl with is_digit_char; [apply unescaped_digit|]. by apply fmt_radix_digits.
Qed.

Lemma unescaped_pad0 w s : str_forall unescaped_char s = true -> str_forall unescaped_char (pad0 w s) = true.
Proof.
  intros H. unfold pad0. rewrite str_forall_app, H, andb_true_r.
  generalize (w - String.length s)%nat. intros k. by induction k.
Qed.

(** [s] is the text of a JSON value. *)
Definition json_text (s : string) : Prop := exists v, s = render_json v.

(** The object under construction holds some members. *)
Definition json_obj (o : JsonObject) : Prop := exists l, json_repr o l.

(** The object is complete and its last member is a status that satisfies [S]. *)
Definition json_done (S : string -> Prop) (o : JsonObject) : Prop :=
  exists l s, json_repr o (l ++ [("status", JStr s)]) /\ S s.

Lemma json_obj_new : json_obj JsonObject_new.
Proof. exists []. apply json_repr_new. Qed.
Lemma json_obj_str o k s : json_obj o -> json_obj (field_str o k s).
Proof. intros [l H]. eexists. by apply json_repr_str. Qed.
Lemma json_obj_bool o k b : json_obj o -> json_obj (field_bool o k b).
Proof. intros [l H]. eexists. by apply json_repr_bool. Qed.
Lemma json_obj_i64 o k n : json_obj o -> json_obj (field_i64 o k n).
Proof. intros [l H]. eexists. by apply json_repr_i64. Qed.
Lemma json_obj_u64 o k n : json_obj o -> 0 <= n -> json_obj (field_u64 o k n).
Proof. intros [l H] Hn. eexists. by apply json_repr_u64. Qed.
Lemma json_obj_raw o k raw : json_obj o -> json_text raw -> json_obj (field_raw o k raw).
Proof. intros [l H] [v Hv]. eexists. eapply json_repr_raw; eauto. Qed.
Lemma json_text_finish o : json_obj o -> json_text (finish o).
Proof. intros [l H]. exists (JObj l). by apply json_repr_finish. Qed.

Lemma json_done_status (S : string -> Prop) o s : json_obj o -> S s -> json_done S (field_str o "status" s).
Proof. intros [l H] HS. exists l, s. split; [by apply json_repr_str|done]. Qed.
Lemma json_done_obj S o : json_done S o -> json_obj o.
Proof. intros (l & s & H & _). by eexists. Qed.
Lemma json_done_mono (S S' : string -> Prop) o : (forall s, S s -> S' s) -> json_done S o -> json_done S' o.
Proof. intros HS (l & s & H & Hs). exists l, s. auto. Qed.
Lemma json_done_finish S o :
  json_done S o -> exists l s, finish o = render_json (JObj (l ++ [("status", JStr s)])) /\ S s.
Proof. intros (l & s & H & Hs). exists l, s. split; [by apply json_repr_finish|done]. Qed.

Lemma json_items_map {A} (f : A -> string) idx values out :
  json_items f idx values out = json_items id idx (map f values) out.
Proof. revert idx out. induction values as [|v vs IH]; intros; simpl; [done|]. apply IH. Qed.

Lemma json_array_text {A} (f : A -> string) values :
  Forall (fun v => json_text (f v)) values -> json_text (json_array f values).
Proof.
  intros H. unfold json_array. rewrite json_items_map.
  assert (exists js, map f values = map render_json js) as [js ->].
  { induction H as [|v vs [j Hj] Hvs [js IH]]; [by exists []|].
    exists (j :: js). simpl. by rewrite Hj, IH. }
  exists (JArr js). rewrite <- json_items_map.
  change (json_array render_json js = render_json (JArr js)).
  rewrite (json_array_render _ id) by (by apply Forall_true). by rewrite map_id.
Qed.

Lemma json_text_num n : 0 <= n -> json_text (fmt_u n).
Proof. intros. exists (JNum n). simpl. unfold fmt_i. by rewrite (proj2 (Z.ltb_ge n 0)). Qed.
Lemma json_text_quoted s : str_forall unescaped_char s = true -> json_text (DQ +:+ s +:+ DQ).
Proof. intros H. exists (JStr s). simpl. by rewrite json_quote_unescaped. Qed.

#[export] Hint Resolve json_obj_new json_obj_str json_obj_bool json_obj_i64 json_obj_u64 json_obj_raw
  json_text_finish json_done_status json_text_num : json.
