(* ===== verification/Ioctl.v ===== *)
(** * The ioctl command word and the remote reads: [src/src/decode/ioctl.rs]
    (helpers) and [src/src/fd_map.rs]

    [summarize_ioctl], which calls the decoders, is in [Summary.v].  A remote
    read goes through the [RemoteMem] instance of the decode target (the
    process [set_decode_target_pid] selected). *)
From S2P Require Import Prelude RustStr Config Layout Json.
#[global] Open Scope rust_scope.

(** ** fd_map.rs *)
Definition is_gpu_path (path : string) : bool :=
  starts_with "/dev/nvidia" path || starts_with "/dev/dri/" path.

(** ** The command word *)
Definition IOC_NRSHIFT : Z := 0.
Definition IOC_TYPESHIFT : Z := 8.
Definition IOC_SIZESHIFT : Z := 16.
Definition IOC_DIRSHIFT : Z := 30.

Record DecodeSummary := { legacy : string; json : string }.

Record IoctlMeta := { raw : Z; dir : Z; ioc_type : Z; nr : Z; size : Z }.

Definition direction_name (m : IoctlMeta) : string :=
  if dir m =? 0 then "none"
  else if dir m =? 1 then "write"
  else if dir m =? 2 then "read"
  else if dir m =? 3 then "read|write"
  else "invalid".

Definition decode_ioctl_cmd (cmd : Z) : IoctlMeta := {|
  raw := cmd;
  dir := as_u8 (Z.land (Z.shiftr cmd IOC_DIRSHIFT) 0x3);
  ioc_type := as_u8 (Z.land (Z.shiftr cmd IOC_TYPESHIFT) 0xff);
  nr := as_u8 (Z.land (Z.shiftr cmd IOC_NRSHIFT) 0xff);
  size := as_u16 (Z.land (Z.shiftr cmd IOC_SIZESHIFT) 0x3fff)
|}.

(** [encode_ioctl] of the tests: the kernel's [_IOC]. *)
Definition encode_ioctl (dir ioc_type nr size : Z) : Z :=
  Z.lor (Z.lor (Z.lor (Z.shiftl dir 30) (Z.shiftl ioc_type 8)) nr) (Z.shiftl size 16).

(** ** Paths *)
Definition is_nvidia_rm_path (path : option string) : bool :=
  match path with
  | Some p => starts_with "/dev/nvidia" p && negb (starts_with "/dev/nvidia-uvm" p)
  | None => false
  end.

Definition is_uvm_path (path : option string) : bool :=
  match path with Some p => starts_with "/dev/nvidia-uvm" p | None => false end.

(** ** Formats *)
Definition SQUOTE : string := "'".

Definition format_ioc_type (ioc_type : Z) : string :=
  if is_ascii_graphic ioc_type then SQUOTE +:+ str1 (char_of ioc_type) +:+ SQUOTE
  else fmt_0x ioc_type.

Definition hex_nibble (nibble : Z) : ascii :=
  if (0 <=? nibble) && (nibble <=? 9) then char_of (48 + nibble)
  else if (10 <=? nibble) && (nibble <=? 15) then char_of (97 + (nibble - 10))
  else "?"%char.

Fixpoint hex_bytes (bytes : list Z) : string :=
  match bytes with
  | [] => EmptyString
  | byte :: bytes =>
    String (hex_nibble (Z.shiftr byte 4)) (String (hex_nibble (Z.land byte 0x0f)) (hex_bytes bytes))
  end.

(** ** Remote reads *)
Section Remote.
Context {M : RemoteMem}.

(** [read_pod::<T>]: the whole struct or nothing. *)
Definition read_pod (fs : layout) (remote_addr : Z) : option (pod fs) :=
  match vm_read remote_addr (struct_size fs) with
  | Some bytes =>
    if Z.of_nat (length bytes) =? struct_size fs then Some (Pod bytes) else None
  | None => None
  end.

(** [read_pod::<u32>] and [read_pod::<u64>]. *)
Definition read_value (t : fty) (remote_addr : Z) : option (denote t) :=
  match vm_read remote_addr (size_of t) with
  | Some bytes => if Z.of_nat (length bytes) =? size_of t then Some (read_ty t bytes) else None
  | None => None
  end.

Definition read_bytes (remote_addr len : Z) : option (list Z) :=
  match vm_read remote_addr len with
  | Some bytes => if Z.of_nat (length bytes) =? len then Some bytes else None
  | None => None
  end.

End Remote.

(** The thread-local override: [None] once the thread's storage is torn down. *)
Definition RemotePidOverride : Type := option (option Z).

Definition set_decode_target_pid (pid : option Z) (slot : RemotePidOverride) : RemotePidOverride :=
  match slot with Some _ => Some pid | None => None end.

(** The override of the thread, or this process ([getpid]). *)
Definition decode_target_pid (slot : RemotePidOverride) (self : Z) : Z :=
  let override_pid := match slot with Some pid => pid | None => None end in
  default self override_pid.

(** A decoder that runs between the two calls of [format_ioctl_line] reads the
    traced process as long as the thread has its storage. *)
Lemma decode_target_selected pid slot self :
  slot <> None ->
  decode_target_pid (set_decode_target_pid (Some pid) slot) self = pid
  /\ set_decode_target_pid None (set_decode_target_pid (Some pid) slot) = Some None.
Proof. by destruct slot. Qed.

(** ** The command word: round trip *)

Lemma shiftl_shiftr_testbit x n i : 0 <= i -> 0 <= n -> Z.testbit (Z.shiftr x n) i = Z.testbit x (i + n).
Proof. intros. by rewrite Z.shiftr_spec. Qed.

Lemma small_testbit_high w x i : 0 <= w -> in_u w x -> w <= i -> Z.testbit x i = false.
Proof.
  intros Hw [H0 H1] Hi. destruct (decide (x = 0)) as [->|]; [apply Z.testbit_0_l|].
  apply Z.bits_above_log2; [lia|]. apply Z.lt_le_trans with w; [|lia]. apply Z.log2_lt_pow2; lia.
Qed.

Lemma land_ones_low w x : 0 <= w -> in_u w x -> Z.land x (Z.ones w) = x.
Proof. intros. rewrite Z.land_ones by done. by apply (wrap_small w). Qed.

Lemma encode_fields d t n s :
  in_u 2 d -> in_u 8 t -> in_u 8 n -> in_u 14 s ->
  encode_ioctl d t n s = n + 2 ^ 8 * (t + 2 ^ 8 * (s + 2 ^ 14 * d)).
Proof.
  unfold in_u. intros Hd Ht Hn Hs. unfold encode_ioctl.
  rewrite !Z.shiftl_mul_pow2 by lia.
  rewrite <- (Z.lor_assoc _ n), (Z.lor_comm n), Z.lor_assoc.
  assert (forall a b k, 0 <= k -> 0 <= b < 2 ^ k -> Z.lor (a * 2 ^ k) b = a * 2 ^ k + b) as Hor.
  { intros a b k Hk Hb. rewrite <- Z.lxor_lor, Z.add_nocarry_lxor; try done.
    all: apply Z.bits_inj'; intros i Hi; rewrite Z.land_spec, Z.bits_0.
    all: destruct (Z.ltb_spec i k).
    all: try (rewrite Z.mul_pow2_bits_low by lia; done).
    all: rewrite (small_testbit_high k b) by (done || unfold in_u; lia); by rewrite andb_false_r. }
  rewrite (Z.lor_comm (Z.lor _ _) (s * 2 ^ 16)), Z.lor_assoc.
  rewrite (Z.lor_comm (s * 2 ^ 16)).
  replace (Z.lor (d * 2 ^ 30) (s * 2 ^ 16)) with ((s + 2 ^ 14 * d) * 2 ^ 16).
  2: { replace (d * 2 ^ 30) with ((d * 2 ^ 14) * 2 ^ 16) by lia.
       rewrite <- !Z.shiftl_mul_pow2 by lia. rewrite <- Z.shiftl_lor. f_equal.
       rewrite Z.shiftl_mul_pow2, Hor by lia. lia. }
  rewrite Hor by lia.
  replace ((s + 2 ^ 14 * d) * 2 ^ 16 + t * 2 ^ 8) with ((t + 2 ^ 8 * (s + 2 ^ 14 * d)) * 2 ^ 8) by lia.
  rewrite Hor by lia. lia.
Qed.

Lemma decode_dir cmd : dir (decode_ioctl_cmd cmd) = (cmd / 2 ^ 30) mod 2 ^ 2.
Proof.
  simpl. unfold IOC_DIRSHIFT. change 3 with (Z.ones 2).
  rewrite Z.land_ones, Z.shiftr_div_pow2 by lia. apply (wrap_small 8).
  unfold in_u. pose proof (Z.mod_pos_bound (cmd / 2 ^ 30) (2 ^ 2)). lia.
Qed.

Lemma decode_type cmd : ioc_type (decode_ioctl_cmd cmd) = (cmd / 2 ^ 8) mod 2 ^ 8.
Proof.
  simpl. unfold IOC_TYPESHIFT. change 255 with (Z.ones 8).
  rewrite Z.land_ones, Z.shiftr_div_pow2 by lia. apply (wrap_small 8).
  unfold in_u. by apply Z.mod_pos_bound.
Qed.

Lemma decode_nr cmd : nr (decode_ioctl_cmd cmd) = cmd mod 2 ^ 8.
Proof.
  simpl. unfold IOC_NRSHIFT. change 255 with (Z.ones 8).
  rewrite Z.shiftr_0_r, Z.land_ones by lia. apply (wrap_small 8).
  unfold in_u. by apply Z.mod_pos_bound.
Qed.

Lemma decode_size cmd : size (decode_ioctl_cmd cmd) = (cmd / 2 ^ 16) mod 2 ^ 14.
Proof.
  simpl. unfold IOC_SIZESHIFT. change 16383 with (Z.ones 14).
  rewrite Z.land_ones, Z.shiftr_div_pow2 by lia. apply (wrap_small 16).
  unfold in_u. pose proof (Z.mod_pos_bound (cmd / 2 ^ 16) (2 ^ 14)). lia.
Qed.

(** The command word.  The decoded fields are in range, the direction always
    has a name, encoding the decoded fields gives back the low 32 bits, and
    decoding an encoded word gives back its fields. *)
Theorem decode_ioctl_cmd_roundtrip cmd d t n s :
  in_u 2 d -> in_u 8 t -> in_u 8 n -> in_u 14 s ->
  let m := decode_ioctl_cmd cmd in
  let e := decode_ioctl_cmd (encode_ioctl d t n s) in
  encode_ioctl (dir m) (ioc_type m) (nr m) (size m) = as_u32 cmd
  /\ direction_name m <> "invalid"
  /\ (dir e, ioc_type e, nr e, size e) = (d, t, n, s).
Proof.
  intros Hd Ht Hn Hs m e. split_and!.
  - subst m. rewrite decode_dir, decode_type, decode_nr, decode_size.
    rewrite encode_fields by (apply Z.mod_pos_bound; lia).
    unfold wrap. Z.to_euclidean_division_equations. lia.
  - subst m. unfold direction_name. rewrite decode_dir.
    pose proof (Z.mod_pos_bound (cmd / 2 ^ 30) (2 ^ 2)).
    repeat case_match; try done. bool_to_prop. lia.
  - subst e. rewrite decode_dir, decode_type, decode_nr, decode_size, encode_fields by done.
    unfold in_u in *. f_equal; [f_equal; [f_equal|]|]; Z.to_euclidean_division_equations; lia.
Qed.

Lemma decode_ioctl_cmd_roundtrip_witness :
  let m := decode_ioctl_cmd 0xc01046d3 in
  encode_ioctl (dir m) (ioc_type m) (nr m) (size m) = 0xc01046d3.
Proof.
  destruct (decode_ioctl_cmd_roundtrip 0xc01046d3 3 70 211 16) as [H _];
    try (unfold in_u; lia). exact H.
Defined.

(** ** Hexadecimal dumps *)

(** The reader of a dump. *)
Fixpoint unhex (s : string) : option (list Z) :=
  match s with
  | EmptyString => Some []
  | String a (String b s) =>
    match digit_val 16 a, digit_val 16 b, unhex s with
    | Some x, Some y, Some l => Some (x * 16 + y :: l)
    | _, _, _ => None
    end
  | String _ EmptyString => None
  end.

Lemma hex_nibble_digit d : 0 <= d < 16 -> hex_nibble d = digit_char d.
Proof.
  intros. unfold hex_nibble, digit_char. destruct (Z.ltb_spec d 10).
  - by rewrite (proj2 (Z.leb_le 0 d)), (proj2 (Z.leb_le d 9)) by lia.
  - rewrite (proj2 (Z.leb_gt d 9)), andb_false_r by lia.
    rewrite (proj2 (Z.leb_le 10 d)), (proj2 (Z.leb_le d 15)) by lia. simpl. f_equal. lia.
Qed.

(** A hex dump has two characters per byte and reads back as the bytes. *)
Theorem hex_bytes_reads_back bytes :
  Forall is_byte bytes ->
  unhex (hex_bytes bytes) = Some bytes /\ String.length (hex_bytes bytes) = (2 * length bytes)%nat.
Proof.
  induction 1 as [|b bs Hb Hbs [IH Hlen]]; [done|]. unfold is_byte in Hb.
  cbn [hex_bytes unhex length]. change 15 with (Z.ones 4).
  rewrite Z.shiftr_div_pow2, Z.land_ones by lia.
  rewrite !hex_nibble_digit by (Z.to_euclidean_division_equations; lia).
  rewrite !digit_val_char by (try lia; Z.to_euclidean_division_equations; lia).
  rewrite IH. split.
  - do 2 f_equal. Z.to_euclidean_division_equations. lia.
  - simpl. rewrite Hlen. lia.
Qed.

Lemma hex_bytes_reads_back_witness :
  Forall is_byte [0; 171; 255] /\ unhex (hex_bytes [0; 171; 255]) = Some [0; 171; 255].
Proof.
  assert (Forall is_byte [0; 171; 255]) as H by (repeat constructor; unfold is_byte; lia).
  split; [exact H|]. exact (proj1 (hex_bytes_reads_back [0; 171; 255] H)).
Defined.
