(* ===== verification/Uvm.v ===== *)
(** * UVM ioctls: [src/src/decode/ioctl_uvm.rs]

    One layout per parameter struct, one definition per decoder, the dispatch
    on the command as a table of arms in the source's order, and the table of
    command names. *)
From S2P Require Import Prelude RustStr Config Layout Json Ioctl.

(** ** Commands and limits *)
Definition UVM_INITIALIZE : Z := 0x30000001.
Definition UVM_DEINITIALIZE : Z := 0x30000002.
Definition UVM_RESERVE_VA : Z := 1.
Definition UVM_RELEASE_VA : Z := 2.
Definition UVM_REGION_COMMIT : Z := 3.
Definition UVM_REGION_DECOMMIT : Z := 4.
Definition UVM_REGION_SET_STREAM : Z := 5.
Definition UVM_SET_STREAM_RUNNING : Z := 6.
Definition UVM_SET_STREAM_STOPPED : Z := 7.
Definition UVM_ADD_SESSION : Z := 10.
Definition UVM_ENABLE_COUNTERS : Z := 12.
Definition UVM_MAP_COUNTER : Z := 13.
Definition UVM_CREATE_EVENT_QUEUE : Z := 14.
Definition UVM_REMOVE_EVENT_QUEUE : Z := 15.
Definition UVM_MAP_EVENT_QUEUE : Z := 16.
Definition UVM_EVENT_CTRL : Z := 17.
Definition UVM_GET_GPU_UUID_TABLE : Z := 20.
Definition UVM_REGION_SET_BACKING : Z := 21.
Definition UVM_REGION_UNSET_BACKING : Z := 22.
Definition UVM_CREATE_RANGE_GROUP : Z := 23.
Definition UVM_DESTROY_RANGE_GROUP : Z := 24.
Definition UVM_REGISTER_GPU_VASPACE : Z := 25.
Definition UVM_UNREGISTER_GPU_VASPACE : Z := 26.
Definition UVM_REGISTER_CHANNEL : Z := 27.
Definition UVM_UNREGISTER_CHANNEL : Z := 28.
Definition UVM_ENABLE_PEER_ACCESS : Z := 29.
Definition UVM_DISABLE_PEER_ACCESS : Z := 30.
Definition UVM_SET_RANGE_GROUP : Z := 31.
Definition UVM_MAP_EXTERNAL_ALLOCATION : Z := 33.
Definition UVM_FREE : Z := 34.
Definition UVM_MEM_MAP : Z := 35.
Definition UVM_REGISTER_GPU : Z := 37.
Definition UVM_UNREGISTER_GPU : Z := 38.
Definition UVM_PAGEABLE_MEM_ACCESS : Z := 39.
Definition UVM_PREVENT_MIGRATION_RANGE_GROUPS : Z := 40.
Definition UVM_ALLOW_MIGRATION_RANGE_GROUPS : Z := 41.
Definition UVM_SET_PREFERRED_LOCATION : Z := 42.
Definition UVM_UNSET_PREFERRED_LOCATION : Z := 43.
Definition UVM_ENABLE_READ_DUPLICATION : Z := 44.
Definition UVM_DISABLE_READ_DUPLICATION : Z := 45.
Definition UVM_SET_ACCESSED_BY : Z := 46.
Definition UVM_UNSET_ACCESSED_BY : Z := 47.
Definition UVM_MIGRATE : Z := 51.
Definition UVM_MIGRATE_RANGE_GROUP : Z := 53.
Definition UVM_ENABLE_SYSTEM_WIDE_ATOMICS : Z := 54.
Definition UVM_DISABLE_SYSTEM_WIDE_ATOMICS : Z := 55.
Definition UVM_TOOLS_INIT_EVENT_TRACKER : Z := 56.
Definition UVM_TOOLS_SET_NOTIFICATION_THRESHOLD : Z := 57.
Definition UVM_TOOLS_EVENT_QUEUE_ENABLE_EVENTS : Z := 58.
Definition UVM_TOOLS_EVENT_QUEUE_DISABLE_EVENTS : Z := 59.
Definition UVM_TOOLS_ENABLE_COUNTERS : Z := 60.
Definition UVM_TOOLS_DISABLE_COUNTERS : Z := 61.
Definition UVM_TOOLS_READ_PROCESS_MEMORY : Z := 62.
Definition UVM_TOOLS_WRITE_PROCESS_MEMORY : Z := 63.
Definition UVM_TOOLS_GET_PROCESSOR_UUID_TABLE : Z := 64.
Definition UVM_MAP_DYNAMIC_PARALLELISM_REGION : Z := 65.
Definition UVM_UNMAP_EXTERNAL : Z := 66.
Definition UVM_TOOLS_FLUSH_EVENTS : Z := 67.
Definition UVM_ALLOC_SEMAPHORE_POOL : Z := 68.
Definition UVM_CLEAN_UP_ZOMBIE_RESOURCES : Z := 69.
Definition UVM_PAGEABLE_MEM_ACCESS_ON_GPU : Z := 70.
Definition UVM_POPULATE_PAGEABLE : Z := 71.
Definition UVM_VALIDATE_VA_RANGE : Z := 72.
Definition UVM_CREATE_EXTERNAL_RANGE : Z := 73.
Definition UVM_MAP_EXTERNAL_SPARSE : Z := 74.
Definition UVM_MM_INITIALIZE : Z := 75.
Definition UVM_TOOLS_INIT_EVENT_TRACKER_V2 : Z := 76.
Definition UVM_TOOLS_GET_PROCESSOR_UUID_TABLE_V2 : Z := 77.
Definition UVM_ALLOC_DEVICE_P2P : Z := 78.
Definition UVM_CLEAR_ALL_ACCESS_COUNTERS : Z := 79.
Definition UVM_DISCARD : Z := 80.
Definition UVM_IS_8_SUPPORTED : Z := 2047.
Definition UVM_MAX_STREAMS_PER_IOCTL_CALL : Z := 32.
Definition UVM_MAX_COUNTERS_PER_IOCTL_CALL : Z := 32.
Definition UVM_MAX_RANGE_GROUPS_PER_IOCTL_CALL : Z := 32.
Definition UVM_MAX_GPUS_V1 : Z := 32.
Definition UVM_MAX_GPUS : Z := 256.

(** ** Parameter structs *)
Definition UvmInitializeParams : layout :=
  [("flags", U64);
   ("rm_status", I32)].
Definition UvmReserveVaParams : layout :=
  [("requested_base", U64);
   ("length", U64);
   ("rm_status", I32)].
Definition UvmRegionCommitParams : layout :=
  [("requested_base", U64);
   ("length", U64);
   ("stream_id", U64);
   ("gpu_uuid", Arr U8 16);
   ("rm_status", I32)].
Definition UvmRegionSetStreamParams : layout :=
  [("requested_base", U64);
   ("length", U64);
   ("new_stream_id", U64);
   ("gpu_uuid", Arr U8 16);
   ("rm_status", I32)].
Definition UvmSetStreamRunningParams : layout :=
  [("stream_id", U64);
   ("rm_status", I32)].
Definition UvmSetStreamStoppedParams : layout :=
  [("stream_id_array", Arr U64 UVM_MAX_STREAMS_PER_IOCTL_CALL);
   ("n_streams", U64);
   ("rm_status", I32)].
Definition UvmAddSessionParams : layout :=
  [("pid_target", U32);
   ("rm_status", I32)].
Definition UvmCounterConfig : layout :=
  [("scope", U32);
   ("name", U32);
   ("gpu_uuid", Arr U8 16);
   ("state", U32)].
Definition UvmEnableCountersParams : layout :=
  [("config", Arr (Struct UvmCounterConfig) UVM_MAX_COUNTERS_PER_IOCTL_CALL);
   ("count", U32);
   ("rm_status", I32)].
Definition UvmMapCounterParams : layout :=
  [("scope", U32);
   ("counter_name", U32);
   ("gpu_uuid", Arr U8 16);
   ("addr", U64);
   ("rm_status", I32)].
Definition UvmCreateEventQueueParams : layout :=
  [("event_queue_index", U32);
   ("queue_size", U64);
   ("notification_count", U64);
   ("notification_handle", U64);
   ("timestamp_type", U32);
   ("rm_status", I32)].
Definition UvmRemoveEventQueueParams : layout :=
  [("event_queue_index", U32);
   ("rm_status", I32)].
Definition UvmMapEventQueueParams : layout :=
  [("event_queue_index", U32);
   ("user_ro_data_addr", U64);
   ("user_rw_data_addr", U64);
   ("read_index_addr", U64);
   ("write_index_addr", U64);
   ("queue_buffer_addr", U64);
   ("rm_status", I32)].
Definition UvmEventCtrlParams : layout :=
  [("event_queue_index", U32);
   ("event_type", I32);
   ("enable", U32);
   ("rm_status", I32)].
Definition UvmGetGpuUuidTableParams : layout :=
  [("gpu_uuid_array", Arr (Arr U8 16) UVM_MAX_GPUS_V1);
   ("valid_count", U32);
   ("rm_status", I32)].
Definition UvmRegionSetBackingParams : layout :=
  [("gpu_uuid", Arr U8 16);
   ("h_allocation", U32);
   ("va_addr", U64);
   ("region_length", U64);
   ("rm_status", I32)].
Definition UvmRegionUnsetBackingParams : layout :=
  [("va_addr", U64);
   ("region_length", U64);
   ("rm_status", I32)].
Definition UvmCreateRangeGroupParams : layout :=
  [("range_group_id", U64);
   ("rm_status", I32)].
Definition UvmDestroyRangeGroupParams : layout :=
  [("range_group_id", U64);
   ("rm_status", I32)].
Definition UvmRegisterGpuVaspaceParams : layout :=
  [("gpu_uuid", Arr U8 16);
   ("rm_ctrl_fd", I32);
   ("h_client", U32);
   ("h_vaspace", U32);
   ("rm_status", I32)].
Definition UvmUnregisterGpuVaspaceParams : layout :=
  [("gpu_uuid", Arr U8 16);
   ("rm_status", I32)].
Definition UvmRegisterChannelParams : layout :=
  [("gpu_uuid", Arr U8 16);
   ("rm_ctrl_fd", I32);
   ("h_client", U32);
   ("h_channel", U32);
   ("base", U64);
   ("length", U64);
   ("rm_status", I32)].
Definition UvmUnregisterChannelParams : layout :=
  [("h_client", U32);
   ("h_channel", U32);
   ("rm_status", I32)].
Definition UvmPeerAccessParams : layout :=
  [("gpu_uuid_a", Arr U8 16);
   ("gpu_uuid_b", Arr U8 16);
   ("rm_status", I32)].
Definition UvmSetRangeGroupParams : layout :=
  [("range_group_id", U64);
   ("requested_base", U64);
   ("length", U64);
   ("rm_status", I32)].
Definition UvmGpuMappingAttributes : layout :=
  [("gpu_uuid", Arr U8 16);
   ("gpu_mapping_type", U32);
   ("gpu_caching_type", U32);
   ("gpu_format_type", U32);
   ("gpu_element_bits", U32);
   ("gpu_compression_type", U32)].
Definition UvmMapExternalAllocationParams : layout :=
  [("base", U64);
   ("length", U64);
   ("offset", U64);
   ("per_gpu_attributes", Arr (Struct UvmGpuMappingAttributes) UVM_MAX_GPUS);
   ("gpu_attributes_count", U64);
   ("rm_ctrl_fd", I32);
   ("h_client", U32);
   ("h_memory", U32);
   ("rm_status", I32)].
Definition UvmFreeParams : layout :=
  [("base", U64);
   ("rm_status", I32)].
Definition UvmMemMapParams : layout :=
  [("region_base", U64);
   ("region_length", U64);
   ("rm_status", I32)].
Definition UvmRegisterGpuParams : layout :=
  [("gpu_uuid", Arr U8 16);
   ("numa_enabled", U8);
   ("_pad0", Arr U8 3);
   ("numa_node_id", I32);
   ("rm_ctrl_fd", I32);
   ("h_client", U32);
   ("h_smc_part_ref", U32);
   ("rm_status", I32)].
Definition UvmUnregisterGpuParams : layout :=
  [("gpu_uuid", Arr U8 16);
   ("rm_status", I32)].
Definition UvmPageableMemAccessParams : layout :=
  [("pageable_mem_access", U8);
   ("_pad0", Arr U8 3);
   ("rm_status", I32)].
Definition UvmRangeGroupsParams : layout :=
  [("range_group_ids", Arr U64 UVM_MAX_RANGE_GROUPS_PER_IOCTL_CALL);
   ("num_group_ids", U64);
   ("rm_status", I32)].
Definition UvmSetPreferredLocationParams : layout :=
  [("requested_base", U64);
   ("length", U64);
   ("preferred_location", Arr U8 16);
   ("preferred_cpu_numa_node", I32);
   ("rm_status", I32)].
Definition UvmSetAccessedByParams : layout :=
  [("requested_base", U64);
   ("length", U64);
   ("accessed_by_uuid", Arr U8 16);
   ("rm_status", I32)].
Definition UvmMigrateParams : layout :=
  [("base", U64);
   ("length", U64);
   ("destination_uuid", Arr U8 16);
   ("flags", U32);
   ("semaphore_address", U64);
   ("semaphore_payload", U32);
   ("cpu_numa_node", I32);
   ("user_space_start", U64);
   ("user_space_length", U64);
   ("rm_status", I32)].
Definition UvmMigrateRangeGroupParams : layout :=
  [("range_group_id", U64);
   ("destination_uuid", Arr U8 16);
   ("rm_status", I32)].
Definition UvmGpuUuidParams : layout :=
  [("gpu_uuid", Arr U8 16);
   ("rm_status", I32)].
Definition UvmToolsInitEventTrackerParams : layout :=
  [("queue_buffer", U64);
   ("queue_buffer_size", U64);
   ("control_buffer", U64);
   ("processor", Arr U8 16);
   ("all_processors", U32);
   ("uvm_fd", U32);
   ("rm_status", I32)].
Definition UvmToolsSetNotificationThresholdParams : layout :=
  [("notification_threshold", U32);
   ("rm_status", I32)].
Definition UvmToolsFlagsParams : layout :=
  [("flags", U64);
   ("rm_status", I32)].
Definition UvmToolsReadProcessMemoryParams : layout :=
  [("buffer", U64);
   ("size", U64);
   ("target_va", U64);
   ("bytes_read", U64);
   ("rm_status", I32)].
Definition UvmToolsWriteProcessMemoryParams : layout :=
  [("buffer", U64);
   ("size", U64);
   ("target_va", U64);
   ("bytes_written", U64);
   ("rm_status", I32)].
Definition UvmToolsGetProcessorUuidTableParams : layout :=
  [("table_ptr", U64);
   ("rm_status", I32)].
Definition UvmBaseLengthGpuUuidParams : layout :=
  [("base", U64);
   ("length", U64);
   ("gpu_uuid", Arr U8 16);
   ("rm_status", I32)].
Definition UvmAllocSemaphorePoolParams : layout :=
  [("base", U64);
   ("length", U64);
   ("per_gpu_attributes", Arr (Struct UvmGpuMappingAttributes) UVM_MAX_GPUS);
   ("gpu_attributes_count", U64);
   ("rm_status", I32)].
Definition UvmStatusParams : layout :=
  [("rm_status", I32)].
Definition UvmPageableMemAccessOnGpuParams : layout :=
  [("gpu_uuid", Arr U8 16);
   ("pageable_mem_access", U8);
   ("_pad0", Arr U8 3);
   ("rm_status", I32)].
Definition UvmPopulatePageableParams : layout :=
  [("base", U64);
   ("length", U64);
   ("flags", U32);
   ("rm_status", I32)].
Definition UvmValidateVaRangeParams : layout :=
  [("base", U64);
   ("length", U64);
   ("rm_status", I32)].
Definition UvmCreateExternalRangeParams : layout :=
  [("base", U64);
   ("length", U64);
   ("rm_status", I32)].
Definition UvmMmInitializeParams : layout :=
  [("uvm_fd", I32);
   ("rm_status", I32)].
Definition UvmAllocDeviceP2pParams : layout :=
  [("base", U64);
   ("length", U64);
   ("offset", U64);
   ("gpu_uuid", Arr U8 16);
   ("rm_ctrl_fd", I32);
   ("h_client", U32);
   ("h_memory", U32);
   ("rm_status", I32)].
Definition UvmDiscardParams : layout :=
  [("base", U64);
   ("length", U64);
   ("flags", U64);
   ("rm_status", I32)].
Definition UvmIs8SupportedParams : layout :=
  [("is8_supported", U32);
   ("rm_status", I32)].

(** ** Helpers *)

(** [cmd & 0xffff_ffff] *)
Definition normalize_uvm_cmd (cmd : Z) : Z := Z.land cmd 0xffffffff.

Definition clamp_count (count max : Z) : Z * bool :=
  if max <? count then (max, true) else (count, false).

Definition hex_u32 (value : Z) : string := fmt_0x value.
Definition hex_u64 (value : Z) : string := fmt_0x value.

Fixpoint format_uuid_go (idx : Z) (uuid : list Z) (out : string) : string :=
  match uuid with
  | [] => out
  | byte :: uuid =>
    let out := if (idx =? 4) || (idx =? 6) || (idx =? 8) || (idx =? 10) then out +:+ "-" else out in
    let out := out +:+ str1 (hex_nibble (Z.shiftr byte 4)) in
    let out := out +:+ str1 (hex_nibble (Z.land byte 0x0f)) in
    format_uuid_go (idx + 1) uuid out
  end.
Definition format_uuid (uuid : list Z) : string := format_uuid_go 0 uuid EmptyString.

Definition json_u64_array (values : list Z) : string := json_array fmt_u values.

Definition json_uuid_array (values : list (list Z)) : string :=
  json_array (fun value => json_quote (format_uuid value)) values.

Definition json_counter_config (value : pod UvmCounterConfig) : string :=
  let obj := JsonObject_new in
  let obj := field_u64 obj "scope" value.["scope"] in
  let obj := field_u64 obj "name" value.["name"] in
  let obj := field_str obj "gpu_uuid" (format_uuid value.["gpu_uuid"]) in
  let obj := field_u64 obj "state" value.["state"] in
  finish obj.
Definition json_counter_config_array (values : list (pod UvmCounterConfig)) : string :=
  json_array json_counter_config values.

Definition json_gpu_mapping_attributes (value : pod UvmGpuMappingAttributes) : string :=
  let obj := JsonObject_new in
  let obj := field_str obj "gpu_uuid" (format_uuid value.["gpu_uuid"]) in
  let obj := field_u64 obj "gpuMappingType" value.["gpu_mapping_type"] in
  let obj := field_u64 obj "gpuCachingType" value.["gpu_caching_type"] in
  let obj := field_u64 obj "gpuFormatType" value.["gpu_format_type"] in
  let obj := field_u64 obj "gpuElementBits" value.["gpu_element_bits"] in
  let obj := field_u64 obj "gpuCompressionType" value.["gpu_compression_type"] in
  finish obj.
Definition json_gpu_mapping_attributes_array (values : list (pod UvmGpuMappingAttributes)) : string :=
  json_array json_gpu_mapping_attributes values.

Section Decoders.
Context {M : RemoteMem}.

Definition with_params (T : layout) (arg_ptr : Z) (root : JsonObject)
    (on_ok : pod T -> JsonObject -> JsonObject) : JsonObject :=
  match read_pod T arg_ptr with
  | Some params => on_ok params root
  | None => field_str root "status" "arg_unreadable"
  end.

(** ** Decoders *)

Definition decode_initialize (arg_ptr : Z) (root : JsonObject) : JsonObject :=
  with_params UvmInitializeParams arg_ptr root (fun params root =>
    let root := field_str root "flags" (fmt_0x params.["flags"]) in
    let root := field_i64 root "rm_status" params.["rm_status"] in
    let root := field_str root "status" "ok" in
    root).

Definition decode_reserve_va (arg_ptr : Z) (root : JsonObject) : JsonObject :=
  with_params UvmReserveVaParams arg_ptr root (fun params root =>
    let root := field_str root "requestedBase" (hex_u64 params.["requested_base"]) in
    let root := field_u64 root "length" params.["length"] in
    let root := field_i64 root "rm_status" params.["rm_status"] in
    let root := field_str root "status" "ok" in
    root).

Definition decode_release_va (arg_ptr : Z) (root : JsonObject) : JsonObject :=
  with_params UvmReserveVaParams arg_ptr root (fun params root =>
    let root := field_str root "requestedBase" (hex_u64 params.["requested_base"]) in
    let root := field_u64 root "length" params.["length"] in
    let root := field_i64 root "rm_status" params.["rm_status"] in
    let root := field_str root "status" "ok" in
    root).

Definition decode_region_commit (arg_ptr : Z) (root : JsonObject) : JsonObject :=
  with_params UvmRegionCommitParams arg_ptr root (fun params root =>
    let root := field_str root "requestedBase" (hex_u64 params.["requested_base"]) in
    let root := field_u64 root "length" params.["length"] in
    let root := field_str root "streamId" (hex_u64 params.["stream_id"]) in
    let root := field_str root "gpu_uuid" (format_uuid params.["gpu_uuid"]) in
    let root := field_i64 root "rm_status" params.["rm_status"] in
    let root := field_str root "status" "ok" in
    root).

Definition decode_region_decommit (arg_ptr : Z) (root : JsonObject) : JsonObject :=
  with_params UvmReserveVaParams arg_ptr root (fun params root =>
    let root := field_str root "requestedBase" (hex_u64 params.["requested_base"]) in
    let root := field_u64 root "length" params.["length"] in
    let root := field_i64 root "rm_status" params.["rm_status"] in
    let root := field_str root "status" "ok" in
    root).

Definition decode_region_set_stream (arg_ptr : Z) (root : JsonObject) : JsonObject :=
  with_params UvmRegionSetStreamParams arg_ptr root (fun params root =>
    let root := field_str root "requestedBase" (hex_u64 params.["requested_base"]) in
    let root := field_u64 root "length" params.["length"] in
    let root := field_str root "newStreamId" (hex_u64 params.["new_stream_id"]) in
    let root := field_str root "gpu_uuid" (format_uuid params.["gpu_uuid"]) in
    let root := field_i64 root "rm_status" params.["rm_status"] in
    let root := field_str root "status" "ok" in
    root).

Definition decode_set_stream_running (arg_ptr : Z) (root : JsonObject) : JsonObject :=
  with_params UvmSetStreamRunningParams arg_ptr root (fun params root =>
    let root := field_str root "streamId" (hex_u64 params.["stream_id"]) in
    let root := field_i64 root "rm_status" params.["rm_status"] in
    let root := field_str root "status" "ok" in
    root).

Definition decode_set_stream_stopped (arg_ptr : Z) (root : JsonObject) : JsonObject :=
  with_params UvmSetStreamStoppedParams arg_ptr root (fun params root =>
    let '(count, truncated) := clamp_count params.["n_streams"] UVM_MAX_STREAMS_PER_IOCTL_CALL in
    let root := field_u64 root "nStreams" params.["n_streams"] in
    let root := field_raw root "streamIds" (json_u64_array (slice_to count params.["stream_id_array"])) in
    let root := field_bool root "truncated" truncated in
    let root := field_i64 root "rm_status" params.["rm_status"] in
    let root := field_str root "status" "ok" in
    root).

Definition decode_add_session (arg_ptr : Z) (root : JsonObject) : JsonObject :=
  with_params UvmAddSessionParams arg_ptr root (fun params root =>
    let root := field_u64 root "pidTarget" params.["pid_target"] in
    let root := field_i64 root "rm_status" params.["rm_status"] in
    let root := field_str root "status" "ok" in
    root).

Definition decode_enable_counters (arg_ptr : Z) (root : JsonObject) : JsonObject :=
  with_params UvmEnableCountersParams arg_ptr root (fun params root =>
    let '(count, truncated) := clamp_count params.["count"] UVM_MAX_COUNTERS_PER_IOCTL_CALL in
    let root := field_u64 root "count" params.["count"] in
    let root := field_raw root "config" (json_counter_config_array (slice_to count params.["config"])) in
    let root := field_bool root "truncated" truncated in
    let root := field_i64 root "rm_status" params.["rm_status"] in
    let root := field_str root "status" "ok" in
    root).

Definition decode_map_counter (arg_ptr : Z) (root : JsonObject) : JsonObject :=
  with_params UvmMapCounterParams arg_ptr root (fun params root =>
    let root := field_u64 root "scope" params.["scope"] in
    let root := field_u64 root "counterName" params.["counter_name"] in
    let root := field_str root "gpu_uuid" (format_uuid params.["gpu_uuid"]) in
    let root := field_str root "addr" (hex_u64 params.["addr"]) in
    let root := field_i64 root "rm_status" params.["rm_status"] in
    let root := field_str root "status" "ok" in
    root).

Definition decode_create_event_queue (arg_ptr : Z) (root : JsonObject) : JsonObject :=
  with_params UvmCreateEventQueueParams arg_ptr root (fun params root =>
    let root := field_u64 root "eventQueueIndex" params.["event_queue_index"] in
    let root := field_u64 root "queueSize" params.["queue_size"] in
    let root := field_u64 root "notificationCount" params.["notification_count"] in
    let root := field_u64 root "notificationHandle" params.["notification_handle"] in
    let root := field_u64 root "timeStampType" params.["timestamp_type"] in
    let root := field_i64 root "rm_status" params.["rm_status"] in
    let root := field_str root "status" "ok" in
    root).

Definition decode_remove_event_queue (arg_ptr : Z) (root : JsonObject) : JsonObject :=
  with_params UvmRemoveEventQueueParams arg_ptr root (fun params root =>
    let root := field_u64 root "eventQueueIndex" params.["event_queue_index"] in
    let root := field_i64 root "rm_status" params.["rm_status"] in
    let root := field_str root "status" "ok" in
    root).

Definition decode_map_event_queue (arg_ptr : Z) (root : JsonObject) : JsonObject :=
  with_params UvmMapEventQueueParams arg_ptr root (fun params root =>
    let root := field_u64 root "eventQueueIndex" params.["event_queue_index"] in
    let root := field_str root "userRODataAddr" (hex_u64 params.["user_ro_data_addr"]) in
    let root := field_str root "userRWDataAddr" (hex_u64 params.["user_rw_data_addr"]) in
    let root := field_str root "readIndexAddr" (hex_u64 params.["read_index_addr"]) in
    let root := field_str root "writeIndexAddr" (hex_u64 params.["write_index_addr"]) in
    let root := field_str root "queueBufferAddr" (hex_u64 params.["queue_buffer_addr"]) in
    let root := field_i64 root "rm_status" params.["rm_status"] in
    let root := field_str root "status" "ok" in
    root).

Definition decode_event_ctrl (arg_ptr : Z) (root : JsonObject) : JsonObject :=
  with_params UvmEventCtrlParams arg_ptr root (fun params root =>
    let root := field_u64 root "eventQueueIndex" params.["event_queue_index"] in
    let root := field_i64 root "eventType" params.["event_type"] in
    let root := field_u64 root "enable" params.["enable"] in
    let root := field_i64 root "rm_status" params.["rm_status"] in
    let root := field_str root "status" "ok" in
    root).

Definition decode_get_gpu_uuid_table (arg_ptr : Z) (root : JsonObject) : JsonObject :=
  with_params UvmGetGpuUuidTableParams arg_ptr root (fun params root =>
    let '(count, truncated) := clamp_count params.["valid_count"] UVM_MAX_GPUS_V1 in
    let root := field_u64 root "validCount" params.["valid_count"] in
    let root := field_raw root "gpuUuids" (json_uuid_array (slice_to count params.["gpu_uuid_array"])) in
    let root := field_bool root "truncated" truncated in
    let root := field_i64 root "rm_status" params.["rm_status"] in
    let root := field_str root "status" "ok" in
    root).

Definition decode_region_set_backing (arg_ptr : Z) (root : JsonObject) : JsonObject :=
  with_params UvmRegionSetBackingParams arg_ptr root (fun params root =>
    let root := field_str root "gpu_uuid" (format_uuid params.["gpu_uuid"]) in
    let root := field_str root "hAllocation" (hex_u32 params.["h_allocation"]) in
    let root := field_str root "vaAddr" (hex_u64 params.["va_addr"]) in
    let root := field_u64 root "regionLength" params.["region_length"] in
    let root := field_i64 root "rm_status" params.["rm_status"] in
    let root := field_str root "status" "ok" in
    root).

Definition decode_region_unset_backing (arg_ptr : Z) (root : JsonObject) : JsonObject :=
  with_params UvmRegionUnsetBackingParams arg_ptr root (fun params root =>
    let root := field_str root "vaAddr" (hex_u64 params.["va_addr"]) in
    let root := field_u64 root "regionLength" params.["region_length"] in
    let root := field_i64 root "rm_status" params.["rm_status"] in
    let root := field_str root "status" "ok" in
    root).

Definition decode_create_range_group (arg_ptr : Z) (root : JsonObject) : JsonObject :=
  with_params UvmCreateRangeGroupParams arg_ptr root (fun params root =>
    let root := field_u64 root "rangeGroupId" params.["range_group_id"] in
    let root := field_i64 root "rm_status" params.["rm_status"] in
    let root := field_str root "status" "ok" in
    root).

Definition decode_destroy_range_group (arg_ptr : Z) (root : JsonObject) : JsonObject :=
  with_params UvmDestroyRangeGroupParams arg_ptr root (fun params root =>
    let root := field_u64 root "rangeGroupId" params.["range_group_id"] in
    let root := field_i64 root "rm_status" params.["rm_status"] in
    let root := field_str root "status" "ok" in
    root).

Definition decode_register_gpu_vaspace (arg_ptr : Z) (root : JsonObject) : JsonObject :=
  with_params UvmRegisterGpuVaspaceParams arg_ptr root (fun params root =>
    let root := field_str root "gpu_uuid" (format_uuid params.["gpu_uuid"]) in
    let root := field_i64 root "rmCtrlFd" params.["rm_ctrl_fd"] in
    let root := field_str root "hClient" (hex_u32 params.["h_client"]) in
    let root := field_str root "hVaSpace" (hex_u32 params.["h_vaspace"]) in
    let root := field_i64 root "rm_status" params.["rm_status"] in
    let root := field_str root "status" "ok" in
    root).

Definition decode_unregister_gpu_vaspace (arg_ptr : Z) (root : JsonObject) : JsonObject :=
  with_params UvmUnregisterGpuVaspaceParams arg_ptr root (fun params root =>
    let root := field_str root "gpu_uuid" (format_uuid params.["gpu_uuid"]) in
    let root := field_i64 root "rm_status" params.["rm_status"] in
    let root := field_str root "status" "ok" in
    root).

Definition decode_register_channel (arg_ptr : Z) (root : JsonObject) : JsonObject :=
  with_params UvmRegisterChannelParams arg_ptr root (fun params root =>
    let root := field_str root "gpu_uuid" (format_uuid params.["gpu_uuid"]) in
    let root := field_i64 root "rmCtrlFd" params.["rm_ctrl_fd"] in
    let root := field_str root "hClient" (hex_u32 params.["h_client"]) in
    let root := field_str root "hChannel" (hex_u32 params.["h_channel"]) in
    let root := field_str root "base" (hex_u64 params.["base"]) in
    let root := field_u64 root "length" params.["length"] in
    let root := field_i64 root "rm_status" params.["rm_status"] in
    let root := field_str root "status" "ok" in
    root).

Definition decode_unregister_channel (arg_ptr : Z) (root : JsonObject) : JsonObject :=
  with_params UvmUnregisterChannelParams arg_ptr root (fun params root =>
    let root := field_str root "hClient" (hex_u32 params.["h_client"]) in
    let root := field_str root "hChannel" (hex_u32 params.["h_channel"]) in
    let root := field_i64 root "rm_status" params.["rm_status"] in
    let root := field_str root "status" "ok" in
    root).

Definition decode_enable_peer_access (arg_ptr : Z) (root : JsonObject) : JsonObject :=
  with_params UvmPeerAccessParams arg_ptr root (fun params root =>
    let root := field_str root "gpuUuidA" (format_uuid params.["gpu_uuid_a"]) in
    let root := field_str root "gpuUuidB" (format_uuid params.["gpu_uuid_b"]) in
    let root := field_i64 root "rm_status" params.["rm_status"] in
    let root := field_str root "status" "ok" in
    root).

Definition decode_disable_peer_access (arg_ptr : Z) (root : JsonObject) : JsonObject :=
  with_params UvmPeerAccessParams arg_ptr root (fun params root =>
    let root := field_str root "gpuUuidA" (format_uuid params.["gpu_uuid_a"]) in
    let root := field_str root "gpuUuidB" (format_uuid params.["gpu_uuid_b"]) in
    let root := field_i64 root "rm_status" params.["rm_status"] in
    let root := field_str root "status" "ok" in
    root).

Definition decode_set_range_group (arg_ptr : Z) (root : JsonObject) : JsonObject :=
  with_params UvmSetRangeGroupParams arg_ptr root (fun params root =>
    let root := field_u64 root "rangeGroupId" params.["range_group_id"] in
    let root := field_str root "requestedBase" (hex_u64 params.["requested_base"]) in
    let root := field_u64 root "length" params.["length"] in
    let root := field_i64 root "rm_status" params.["rm_status"] in
    let root := field_str root "status" "ok" in
    root).

Definition decode_map_external_allocation (arg_ptr : Z) (root : JsonObject) : JsonObject :=
  with_params UvmMapExternalAllocationParams arg_ptr root (fun params root =>
    let '(count, truncated) := clamp_count params.["gpu_attributes_count"] UVM_MAX_GPUS in
    let root := field_str root "base" (hex_u64 params.["base"]) in
    let root := field_u64 root "length" params.["length"] in
    let root := field_u64 root "offset" params.["offset"] in
    let root := field_u64 root "gpuAttributesCount" params.["gpu_attributes_count"] in
    let root := field_raw root "perGpuAttributes" (json_gpu_mapping_attributes_array (slice_to count params.["per_gpu_attributes"])) in
    let root := field_bool root "truncated" truncated in
    let root := field_i64 root "rmCtrlFd" params.["rm_ctrl_fd"] in
    let root := field_str root "hClient" (hex_u32 params.["h_client"]) in
    let root := field_str root "hMemory" (hex_u32 params.["h_memory"]) in
    let root := field_i64 root "rm_status" params.["rm_status"] in
    let root := field_str root "status" "ok" in
    root).

Definition decode_free (arg_ptr : Z) (root : JsonObject) : JsonObject :=
  with_params UvmFreeParams arg_ptr root (fun params root =>
    let root := field_str root "base" (hex_u64 params.["base"]) in
    let root := field_i64 root "rm_status" params.["rm_status"] in
    let root := field_str root "status" "ok" in
    root).

Definition decode_mem_map (arg_ptr : Z) (root : JsonObject) : JsonObject :=
  with_params UvmMemMapParams arg_ptr root (fun params root =>
    let root := field_str root "regionBase" (hex_u64 params.["region_base"]) in
    let root := field_u64 root "regionLength" params.["region_length"] in
    let root := field_i64 root "rm_status" params.["rm_status"] in
    let root := field_str root "status" "ok" in
    root).

Definition decode_register_gpu (arg_ptr : Z) (root : JsonObject) : JsonObject :=
  with_params UvmRegisterGpuParams arg_ptr root (fun params root =>
    let root := field_str root "gpu_uuid" (format_uuid params.["gpu_uuid"]) in
    let root := field_bool root "numaEnabled" (negb (params.["numa_enabled"] =? 0)) in
    let root := field_i64 root "numaNodeId" params.["numa_node_id"] in
    let root := field_i64 root "rmCtrlFd" params.["rm_ctrl_fd"] in
    let root := field_str root "hClient" (hex_u32 params.["h_client"]) in
    let root := field_str root "hSmcPartRef" (hex_u32 params.["h_smc_part_ref"]) in
    let root := field_i64 root "rm_status" params.["rm_status"] in
    let root := field_str root "status" "ok" in
    root).

Definition decode_unregister_gpu (arg_ptr : Z) (root : JsonObject) : JsonObject :=
  with_params UvmUnregisterGpuParams arg_ptr root (fun params root =>
    let root := field_str root "gpu_uuid" (format_uuid params.["gpu_uuid"]) in
    let root := field_i64 root "rm_status" params.["rm_status"] in
    let root := field_str root "status" "ok" in
    root).

Definition decode_pageable_mem_access (arg_ptr : Z) (root : JsonObject) : JsonObject :=
  with_params UvmPageableMemAccessParams arg_ptr root (fun params root =>
    let root := field_bool root "pageableMemAccess" (negb (params.["pageable_mem_access"] =? 0)) in
    let root := field_i64 root "rm_status" params.["rm_status"] in
    let root := field_str root "status" "ok" in
    root).

Definition decode_prevent_migration_range_groups (arg_ptr : Z) (root : JsonObject) : JsonObject :=
  with_params UvmRangeGroupsParams arg_ptr root (fun params root =>
    let '(count, truncated) := clamp_count params.["num_group_ids"] UVM_MAX_RANGE_GROUPS_PER_IOCTL_CALL in
    let root := field_u64 root "numGroupIds" params.["num_group_ids"] in
    let root := field_raw root "rangeGroupIds" (json_u64_array (slice_to count params.["range_group_ids"])) in
    let root := field_bool root "truncated" truncated in
    let root := field_i64 root "rm_status" params.["rm_status"] in
    let root := field_str root "status" "ok" in
    root).

Definition decode_allow_migration_range_groups (arg_ptr : Z) (root : JsonObject) : JsonObject :=
  with_params UvmRangeGroupsParams arg_ptr root (fun params root =>
    let '(count, truncated) := clamp_count params.["num_group_ids"] UVM_MAX_RANGE_GROUPS_PER_IOCTL_CALL in
    let root := field_u64 root "numGroupIds" params.["num_group_ids"] in
    let root := field_raw root "rangeGroupIds" (json_u64_array (slice_to count params.["range_group_ids"])) in
    let root := field_bool root "truncated" truncated in
    let root := field_i64 root "rm_status" params.["rm_status"] in
    let root := field_str root "status" "ok" in
    root).

Definition decode_set_preferred_location (arg_ptr : Z) (root : JsonObject) : JsonObject :=
  with_params UvmSetPreferredLocationParams arg_ptr root (fun params root =>
    let root := field_str root "requestedBase" (hex_u64 params.["requested_base"]) in
    let root := field_u64 root "length" params.["length"] in
    let root := field_str root "preferredLocation" (format_uuid params.["preferred_location"]) in
    let root := field_i64 root "preferredCpuNumaNode" params.["preferred_cpu_numa_node"] in
    let root := field_i64 root "rm_status" params.["rm_status"] in
    let root := field_str root "status" "ok" in
    root).

Definition decode_unset_preferred_location (arg_ptr : Z) (root : JsonObject) : JsonObject :=
  with_params UvmReserveVaParams arg_ptr root (fun params root =>
    let root := field_str root "requestedBase" (hex_u64 params.["requested_base"]) in
    let root := field_u64 root "length" params.["length"] in
    let root := field_i64 root "rm_status" params.["rm_status"] in
    let root := field_str root "status" "ok" in
    root).

Definition decode_enable_read_duplication (arg_ptr : Z) (root : JsonObject) : JsonObject :=
  with_params UvmReserveVaParams arg_ptr root (fun params root =>
    let root := field_str root "requestedBase" (hex_u64 params.["requested_base"]) in
    let root := field_u64 root "length" params.["length"] in
    let root := field_i64 root "rm_status" params.["rm_status"] in
    let root := field_str root "status" "ok" in
    root).

Definition decode_disable_read_duplication (arg_ptr : Z) (root : JsonObject) : JsonObject :=
  with_params UvmReserveVaParams arg_ptr root (fun params root =>
    let root := field_str root "requestedBase" (hex_u64 params.["requested_base"]) in
    let root := field_u64 root "length" params.["length"] in
    let root := field_i64 root "rm_status" params.["rm_status"] in
    let root := field_str root "status" "ok" in
    root).

Definition decode_set_accessed_by (arg_ptr : Z) (root : JsonObject) : JsonObject :=
  with_params UvmSetAccessedByParams arg_ptr root (fun params root =>
    let root := field_str root "requestedBase" (hex_u64 params.["requested_base"]) in
    let root := field_u64 root "length" params.["length"] in
    let root := field_str root "accessedByUuid" (format_uuid params.["accessed_by_uuid"]) in
    let root := field_i64 root "rm_status" params.["rm_status"] in
    let root := field_str root "status" "ok" in
    root).

Definition decode_unset_accessed_by (arg_ptr : Z) (root : JsonObject) : JsonObject :=
  with_params UvmSetAccessedByParams arg_ptr root (fun params root =>
    let root := field_str root "requestedBase" (hex_u64 params.["requested_base"]) in
    let root := field_u64 root "length" params.["length"] in
    let root := field_str root "accessedByUuid" (format_uuid params.["accessed_by_uuid"]) in
    let root := field_i64 root "rm_status" params.["rm_status"] in
    let root := field_str root "status" "ok" in
    root).

Definition decode_migrate (arg_ptr : Z) (root : JsonObject) : JsonObject :=
  with_params UvmMigrateParams arg_ptr root (fun params root =>
    let root := field_str root "base" (hex_u64 params.["base"]) in
    let root := field_u64 root "length" params.["length"] in
    let root := field_str root "destinationUuid" (format_uuid params.["destination_uuid"]) in
    let root := field_str root "flags" (hex_u32 params.["flags"]) in
    let root := field_str root "semaphoreAddress" (hex_u64 params.["semaphore_address"]) in
    let root := field_u64 root "semaphorePayload" params.["semaphore_payload"] in
    let root := field_i64 root "cpuNumaNode" params.["cpu_numa_node"] in
    let root := field_str root "userSpaceStart" (hex_u64 params.["user_space_start"]) in
    let root := field_u64 root "userSpaceLength" params.["user_space_length"] in
    let root := field_i64 root "rm_status" params.["rm_status"] in
    let root := field_str root "status" "ok" in
    root).

Definition decode_migrate_range_group (arg_ptr : Z) (root : JsonObject) : JsonObject :=
  with_params UvmMigrateRangeGroupParams arg_ptr root (fun params root =>
    let root := field_u64 root "rangeGroupId" params.["range_group_id"] in
    let root := field_str root "destinationUuid" (format_uuid params.["destination_uuid"]) in
    let root := field_i64 root "rm_status" params.["rm_status"] in
    let root := field_str root "status" "ok" in
    root).

Definition decode_enable_system_wide_atomics (arg_ptr : Z) (root : JsonObject) : JsonObject :=
  with_params UvmGpuUuidParams arg_ptr root (fun params root =>
    let root := field_str root "gpu_uuid" (format_uuid params.["gpu_uuid"]) in
    let root := field_i64 root "rm_status" params.["rm_status"] in
    let root := field_str root "status" "ok" in
    root).

Definition decode_disable_system_wide_atomics (arg_ptr : Z) (root : JsonObject) : JsonObject :=
  with_params UvmGpuUuidParams arg_ptr root (fun params root =>
    let root := field_str root "gpu_uuid" (format_uuid params.["gpu_uuid"]) in
    let root := field_i64 root "rm_status" params.["rm_status"] in
    let root := field_str root "status" "ok" in
    root).

Definition decode_tools_init_event_tracker (arg_ptr : Z) (root : JsonObject) : JsonObject :=
  with_params UvmToolsInitEventTrackerParams arg_ptr root (fun params root =>
    let root := field_str root "queueBuffer" (hex_u64 params.["queue_buffer"]) in
    let root := field_u64 root "queueBufferSize" params.["queue_buffer_size"] in
    let root := field_str root "controlBuffer" (hex_u64 params.["control_buffer"]) in
    let root := field_str root "processor" (format_uuid params.["processor"]) in
    let root := field_u64 root "allProcessors" params.["all_processors"] in
    let root := field_u64 root "uvmFd" params.["uvm_fd"] in
    let root := field_i64 root "rm_status" params.["rm_status"] in
    let root := field_str root "status" "ok" in
    root).

Definition decode_tools_set_notification_threshold (arg_ptr : Z) (root : JsonObject) : JsonObject :=
  with_params UvmToolsSetNotificationThresholdParams arg_ptr root (fun params root =>
    let root := field_u64 root "notificationThreshold" params.["notification_threshold"] in
    let root := field_i64 root "rm_status" params.["rm_status"] in
    let root := field_str root "status" "ok" in
    root).

Definition decode_tools_event_queue_enable_events (arg_ptr : Z) (root : JsonObject) : JsonObject :=
  with_params UvmToolsFlagsParams arg_ptr root (fun params root =>
    let root := field_str root "eventTypeFlags" (hex_u64 params.["flags"]) in
    let root := field_i64 root "rm_status" params.["rm_status"] in
    let root := field_str root "status" "ok" in
    root).

Definition decode_tools_event_queue_disable_events (arg_ptr : Z) (root : JsonObject) : JsonObject :=
  with_params UvmToolsFlagsParams arg_ptr root (fun params root =>
    let root := field_str root "eventTypeFlags" (hex_u64 params.["flags"]) in
    let root := field_i64 root "rm_status" params.["rm_status"] in
    let root := field_str root "status" "ok" in
    root).

Definition decode_tools_enable_counters (arg_ptr : Z) (root : JsonObject) : JsonObject :=
  with_params UvmToolsFlagsParams arg_ptr root (fun params root =>
    let root := field_str root "counterTypeFlags" (hex_u64 params.["flags"]) in
    let root := field_i64 root "rm_status" params.["rm_status"] in
    let root := field_str root "status" "ok" in
    root).

Definition decode_tools_disable_counters (arg_ptr : Z) (root : JsonObject) : JsonObject :=
  with_params UvmToolsFlagsParams arg_ptr root (fun params root =>
    let root := field_str root "counterTypeFlags" (hex_u64 params.["flags"]) in
    let root := field_i64 root "rm_status" params.["rm_status"] in
    let root := field_str root "status" "ok" in
    root).

Definition decode_tools_read_process_memory (arg_ptr : Z) (root : JsonObject) : JsonObject :=
  with_params UvmToolsReadProcessMemoryParams arg_ptr root (fun params root =>
    let root := field_str root "buffer" (hex_u64 params.["buffer"]) in
    let root := field_u64 root "size" params.["size"] in
    let root := field_str root "targetVa" (hex_u64 params.["target_va"]) in
    let root := field_u64 root "bytesRead" params.["bytes_read"] in
    let root := field_i64 root "rm_status" params.["rm_status"] in
    let root := field_str root "status" "ok" in
    root).

Definition decode_tools_write_process_memory (arg_ptr : Z) (root : JsonObject) : JsonObject :=
  with_params UvmToolsWriteProcessMemoryParams arg_ptr root (fun params root =>
    let root := field_str root "buffer" (hex_u64 params.["buffer"]) in
    let root := field_u64 root "size" params.["size"] in
    let root := field_str root "targetVa" (hex_u64 params.["target_va"]) in
    let root := field_u64 root "bytesWritten" params.["bytes_written"] in
    let root := field_i64 root "rm_status" params.["rm_status"] in
    let root := field_str root "status" "ok" in
    root).

Definition decode_tools_get_processor_uuid_table (arg_ptr : Z) (root : JsonObject) : JsonObject :=
  with_params UvmToolsGetProcessorUuidTableParams arg_ptr root (fun params root =>
    let root := field_str root "tablePtr" (hex_u64 params.["table_ptr"]) in
    let root := field_i64 root "rm_status" params.["rm_status"] in
    let root := field_str root "status" "ok" in
    root).

Definition decode_map_dynamic_parallelism_region (arg_ptr : Z) (root : JsonObject) : JsonObject :=
  with_params UvmBaseLengthGpuUuidParams arg_ptr root (fun params root =>
    let root := field_str root "base" (hex_u64 params.["base"]) in
    let root := field_u64 root "length" params.["length"] in
    let root := field_str root "gpu_uuid" (format_uuid params.["gpu_uuid"]) in
    let root := field_i64 root "rm_status" params.["rm_status"] in
    let root := field_str root "status" "ok" in
    root).

Definition decode_unmap_external (arg_ptr : Z) (root : JsonObject) : JsonObject :=
  with_params UvmBaseLengthGpuUuidParams arg_ptr root (fun params root =>
    let root := field_str root "base" (hex_u64 params.["base"]) in
    let root := field_u64 root "length" params.["length"] in
    let root := field_str root "gpu_uuid" (format_uuid params.["gpu_uuid"]) in
    let root := field_i64 root "rm_status" params.["rm_status"] in
    let root := field_str root "status" "ok" in
    root).

Definition decode_tools_flush_events (arg_ptr : Z) (root : JsonObject) : JsonObject :=
  with_params UvmStatusParams arg_ptr root (fun params root =>
    let root := field_i64 root "rm_status" params.["rm_status"] in
    let root := field_str root "status" "ok" in
    root).

Definition decode_alloc_semaphore_pool (arg_ptr : Z) (root : JsonObject) : JsonObject :=
  with_params UvmAllocSemaphorePoolParams arg_ptr root (fun params root =>
    let '(count, truncated) := clamp_count params.["gpu_attributes_count"] UVM_MAX_GPUS in
    let root := field_str root "base" (hex_u64 params.["base"]) in
    let root := field_u64 root "length" params.["length"] in
    let root := field_u64 root "gpuAttributesCount" params.["gpu_attributes_count"] in
    let root := field_raw root "perGpuAttributes" (json_gpu_mapping_attributes_array (slice_to count params.["per_gpu_attributes"])) in
    let root := field_bool root "truncated" truncated in
    let root := field_i64 root "rm_status" params.["rm_status"] in
    let root := field_str root "status" "ok" in
    root).

Definition decode_clean_up_zombie_resources (arg_ptr : Z) (root : JsonObject) : JsonObject :=
  with_params UvmStatusParams arg_ptr root (fun params root =>
    let root := field_i64 root "rm_status" params.["rm_status"] in
    let root := field_str root "status" "ok" in
    root).

Definition decode_pageable_mem_access_on_gpu (arg_ptr : Z) (root : JsonObject) : JsonObject :=
  with_params UvmPageableMemAccessOnGpuParams arg_ptr root (fun params root =>
    let root := field_str root "gpu_uuid" (format_uuid params.["gpu_uuid"]) in
    let root := field_bool root "pageableMemAccess" (negb (params.["pageable_mem_access"] =? 0)) in
    let root := field_i64 root "rm_status" params.["rm_status"] in
    let root := field_str root "status" "ok" in
    root).

Definition decode_populate_pageable (arg_ptr : Z) (root : JsonObject) : JsonObject :=
  with_params UvmPopulatePageableParams arg_ptr root (fun params root =>
    let root := field_str root "base" (hex_u64 params.["base"]) in
    let root := field_u64 root "length" params.["length"] in
    let root := field_str root "flags" (hex_u32 params.["flags"]) in
    let root := field_i64 root "rm_status" params.["rm_status"] in
    let root := field_str root "status" "ok" in
    root).

Definition decode_validate_va_range (arg_ptr : Z) (root : JsonObject) : JsonObject :=
  with_params UvmValidateVaRangeParams arg_ptr root (fun params root =>
    let root := field_str root "base" (hex_u64 params.["base"]) in
    let root := field_u64 root "length" params.["length"] in
    let root := field_i64 root "rm_status" params.["rm_status"] in
    let root := field_str root "status" "ok" in
    root).

Definition decode_create_external_range (arg_ptr : Z) (root : JsonObject) : JsonObject :=
  with_params UvmCreateExternalRangeParams arg_ptr root (fun params root =>
    let root := field_str root "base" (hex_u64 params.["base"]) in
    let root := field_u64 root "length" params.["length"] in
    let root := field_i64 root "rm_status" params.["rm_status"] in
    let root := field_str root "status" "ok" in
    root).

Definition decode_map_external_sparse (arg_ptr : Z) (root : JsonObject) : JsonObject :=
  with_params UvmBaseLengthGpuUuidParams arg_ptr root (fun params root =>
    let root := field_str root "base" (hex_u64 params.["base"]) in
    let root := field_u64 root "length" params.["length"] in
    let root := field_str root "gpu_uuid" (format_uuid params.["gpu_uuid"]) in
    let root := field_i64 root "rm_status" params.["rm_status"] in
    let root := field_str root "status" "ok" in
    root).

Definition decode_mm_initialize (arg_ptr : Z) (root : JsonObject) : JsonObject :=
  with_params UvmMmInitializeParams arg_ptr root (fun params root =>
    let root := field_i64 root "uvmFd" params.["uvm_fd"] in
    let root := field_i64 root "rm_status" params.["rm_status"] in
    let root := field_str root "status" "ok" in
    root).

Definition decode_alloc_device_p2p (arg_ptr : Z) (root : JsonObject) : JsonObject :=
  with_params UvmAllocDeviceP2pParams arg_ptr root (fun params root =>
    let root := field_str root "base" (hex_u64 params.["base"]) in
    let root := field_u64 root "length" params.["length"] in
    let root := field_u64 root "offset" params.["offset"] in
    let root := field_str root "gpu_uuid" (format_uuid params.["gpu_uuid"]) in
    let root := field_i64 root "rmCtrlFd" params.["rm_ctrl_fd"] in
    let root := field_str root "hClient" (hex_u32 params.["h_client"]) in
    let root := field_str root "hMemory" (hex_u32 params.["h_memory"]) in
    let root := field_i64 root "rm_status" params.["rm_status"] in
    let root := field_str root "status" "ok" in
    root).

Definition decode_clear_all_access_counters (arg_ptr : Z) (root : JsonObject) : JsonObject :=
  with_params UvmStatusParams arg_ptr root (fun params root =>
    let root := field_i64 root "rm_status" params.["rm_status"] in
    let root := field_str root "status" "ok" in
    root).

Definition decode_discard (arg_ptr : Z) (root : JsonObject) : JsonObject :=
  with_params UvmDiscardParams arg_ptr root (fun params root =>
    let root := field_str root "base" (hex_u64 params.["base"]) in
    let root := field_u64 root "length" params.["length"] in
    let root := field_str root "flags" (hex_u64 params.["flags"]) in
    let root := field_i64 root "rm_status" params.["rm_status"] in
    let root := field_str root "status" "ok" in
    root).

Definition decode_is8_supported (arg_ptr : Z) (root : JsonObject) : JsonObject :=
  with_params UvmIs8SupportedParams arg_ptr root (fun params root =>
    let root := field_bool root "is8Supported" (negb (params.["is8_supported"] =? 0)) in
    let root := field_i64 root "rm_status" params.["rm_status"] in
    let root := field_str root "status" "ok" in
    root).

Definition decode_unknown (arg_ptr max_blob : Z) (root : JsonObject) : JsonObject :=
  let read_len := Z.min (Z.max max_blob 16) 64 in
  match read_bytes arg_ptr read_len with
  | Some bytes =>
    let root := field_str root "blob_hex" (hex_bytes bytes) in
    field_str root "status" "unknown_cmd"
  | None => field_str root "status" "arg_unreadable"
  end.

(** ** Dispatch *)

Definition uvm_decoders : list (Z * (Z -> JsonObject -> JsonObject)) :=
  [(UVM_INITIALIZE, decode_initialize);
   (UVM_RESERVE_VA, decode_reserve_va);
   (UVM_RELEASE_VA, decode_release_va);
   (UVM_REGION_COMMIT, decode_region_commit);
   (UVM_REGION_DECOMMIT, decode_region_decommit);
   (UVM_REGION_SET_STREAM, decode_region_set_stream);
   (UVM_SET_STREAM_RUNNING, decode_set_stream_running);
   (UVM_SET_STREAM_STOPPED, decode_set_stream_stopped);
   (UVM_ADD_SESSION, decode_add_session);
   (UVM_ENABLE_COUNTERS, decode_enable_counters);
   (UVM_MAP_COUNTER, decode_map_counter);
   (UVM_CREATE_EVENT_QUEUE, decode_create_event_queue);
   (UVM_REMOVE_EVENT_QUEUE, decode_remove_event_queue);
   (UVM_MAP_EVENT_QUEUE, decode_map_event_queue);
   (UVM_EVENT_CTRL, decode_event_ctrl);
   (UVM_GET_GPU_UUID_TABLE, decode_get_gpu_uuid_table);
   (UVM_REGION_SET_BACKING, decode_region_set_backing);
   (UVM_REGION_UNSET_BACKING, decode_region_unset_backing);
   (UVM_CREATE_RANGE_GROUP, decode_create_range_group);
   (UVM_DESTROY_RANGE_GROUP, decode_destroy_range_group);
   (UVM_REGISTER_GPU_VASPACE, decode_register_gpu_vaspace);
   (UVM_UNREGISTER_GPU_VASPACE, decode_unregister_gpu_vaspace);
   (UVM_REGISTER_CHANNEL, decode_register_channel);
   (UVM_UNREGISTER_CHANNEL, decode_unregister_channel);
   (UVM_ENABLE_PEER_ACCESS, decode_enable_peer_access);
   (UVM_DISABLE_PEER_ACCESS, decode_disable_peer_access);
   (UVM_SET_RANGE_GROUP, decode_set_range_group);
   (UVM_MAP_EXTERNAL_ALLOCATION, decode_map_external_allocation);
   (UVM_FREE, decode_free);
   (UVM_MEM_MAP, decode_mem_map);
   (UVM_REGISTER_GPU, decode_register_gpu);
   (UVM_UNREGISTER_GPU, decode_unregister_gpu);
   (UVM_PAGEABLE_MEM_ACCESS, decode_pageable_mem_access);
   (UVM_PREVENT_MIGRATION_RANGE_GROUPS, decode_prevent_migration_range_groups);
   (UVM_ALLOW_MIGRATION_RANGE_GROUPS, decode_allow_migration_range_groups);
   (UVM_SET_PREFERRED_LOCATION, decode_set_preferred_location);
   (UVM_UNSET_PREFERRED_LOCATION, decode_unset_preferred_location);
   (UVM_ENABLE_READ_DUPLICATION, decode_enable_read_duplication);
   (UVM_DISABLE_READ_DUPLICATION, decode_disable_read_duplication);
   (UVM_SET_ACCESSED_BY, decode_set_accessed_by);
   (UVM_UNSET_ACCESSED_BY, decode_unset_accessed_by);
   (UVM_MIGRATE, decode_migrate);
   (UVM_MIGRATE_RANGE_GROUP, decode_migrate_range_group);
   (UVM_ENABLE_SYSTEM_WIDE_ATOMICS, decode_enable_system_wide_atomics);
   (UVM_DISABLE_SYSTEM_WIDE_ATOMICS, decode_disable_system_wide_atomics);
   (UVM_TOOLS_INIT_EVENT_TRACKER, decode_tools_init_event_tracker);
   (UVM_TOOLS_INIT_EVENT_TRACKER_V2, decode_tools_init_event_tracker);
   (UVM_TOOLS_SET_NOTIFICATION_THRESHOLD, decode_tools_set_notification_threshold);
   (UVM_TOOLS_EVENT_QUEUE_ENABLE_EVENTS, decode_tools_event_queue_enable_events);
   (UVM_TOOLS_EVENT_QUEUE_DISABLE_EVENTS, decode_tools_event_queue_disable_events);
   (UVM_TOOLS_ENABLE_COUNTERS, decode_tools_enable_counters);
   (UVM_TOOLS_DISABLE_COUNTERS, decode_tools_disable_counters);
   (UVM_TOOLS_READ_PROCESS_MEMORY, decode_tools_read_process_memory);
   (UVM_TOOLS_WRITE_PROCESS_MEMORY, decode_tools_write_process_memory);
   (UVM_TOOLS_GET_PROCESSOR_UUID_TABLE, decode_tools_get_processor_uuid_table);
   (UVM_TOOLS_GET_PROCESSOR_UUID_TABLE_V2, decode_tools_get_processor_uuid_table);
   (UVM_MAP_DYNAMIC_PARALLELISM_REGION, decode_map_dynamic_parallelism_region);
   (UVM_UNMAP_EXTERNAL, decode_unmap_external);
   (UVM_TOOLS_FLUSH_EVENTS, decode_tools_flush_events);
   (UVM_ALLOC_SEMAPHORE_POOL, decode_alloc_semaphore_pool);
   (UVM_CLEAN_UP_ZOMBIE_RESOURCES, decode_clean_up_zombie_resources);
   (UVM_PAGEABLE_MEM_ACCESS_ON_GPU, decode_pageable_mem_access_on_gpu);
   (UVM_POPULATE_PAGEABLE, decode_populate_pageable);
   (UVM_VALIDATE_VA_RANGE, decode_validate_va_range);
   (UVM_CREATE_EXTERNAL_RANGE, decode_create_external_range);
   (UVM_MAP_EXTERNAL_SPARSE, decode_map_external_sparse);
   (UVM_MM_INITIALIZE, decode_mm_initialize);
   (UVM_ALLOC_DEVICE_P2P, decode_alloc_device_p2p);
   (UVM_CLEAR_ALL_ACCESS_COUNTERS, decode_clear_all_access_counters);
   (UVM_DISCARD, decode_discard);
   (UVM_IS_8_SUPPORTED, decode_is8_supported)].

Definition decode_uvm_ioctl (meta : IoctlMeta) (arg_ptr : Z) (decode_mode : IoctlDecodeMode)
    (max_blob : Z) : option DecodeSummary :=
  let root := JsonObject_new in
  if bool_decide (decode_mode = Decode_Header) then
    let root := field_str root "status" "header" in
    Some {| legacy := EmptyString; json := finish root |}
  else
    let raw_cmd := normalize_uvm_cmd (raw meta) in
    if raw_cmd =? UVM_DEINITIALIZE then
      let root := field_str root "status" "ok" in
      Some {| legacy := EmptyString; json := finish root |}
    else if arg_ptr =? 0 then
      let root := field_str root "status" "arg_null" in
      Some {| legacy := EmptyString; json := finish root |}
    else
      let root := match match_const raw_cmd uvm_decoders with
                  | Some decode => decode arg_ptr root
                  | None => decode_unknown arg_ptr max_blob root
                  end in
      Some {| legacy := EmptyString; json := finish root |}.

End Decoders.

(** ** Command names *)

Definition uvm_names : list (Z * string) :=
  [(UVM_INITIALIZE, "UVM_INITIALIZE");
   (UVM_DEINITIALIZE, "UVM_DEINITIALIZE");
   (UVM_RESERVE_VA, "UVM_RESERVE_VA");
   (UVM_RELEASE_VA, "UVM_RELEASE_VA");
   (UVM_REGION_COMMIT, "UVM_REGION_COMMIT");
   (UVM_REGION_DECOMMIT, "UVM_REGION_DECOMMIT");
   (UVM_REGION_SET_STREAM, "UVM_REGION_SET_STREAM");
   (UVM_SET_STREAM_RUNNING, "UVM_SET_STREAM_RUNNING");
   (UVM_SET_STREAM_STOPPED, "UVM_SET_STREAM_STOPPED");
   (UVM_ADD_SESSION, "UVM_ADD_SESSION");
   (UVM_ENABLE_COUNTERS, "UVM_ENABLE_COUNTERS");
   (UVM_MAP_COUNTER, "UVM_MAP_COUNTER");
   (UVM_CREATE_EVENT_QUEUE, "UVM_CREATE_EVENT_QUEUE");
   (UVM_REMOVE_EVENT_QUEUE, "UVM_REMOVE_EVENT_QUEUE");
   (UVM_MAP_EVENT_QUEUE, "UVM_MAP_EVENT_QUEUE");
   (UVM_EVENT_CTRL, "UVM_EVENT_CTRL");
   (UVM_GET_GPU_UUID_TABLE, "UVM_GET_GPU_UUID_TABLE");
   (UVM_REGION_SET_BACKING, "UVM_REGION_SET_BACKING");
   (UVM_REGION_UNSET_BACKING, "UVM_REGION_UNSET_BACKING");
   (UVM_CREATE_RANGE_GROUP, "UVM_CREATE_RANGE_GROUP");
   (UVM_DESTROY_RANGE_GROUP, "UVM_DESTROY_RANGE_GROUP");
   (UVM_REGISTER_GPU_VASPACE, "UVM_REGISTER_GPU_VASPACE");
   (UVM_UNREGISTER_GPU_VASPACE, "UVM_UNREGISTER_GPU_VASPACE");
   (UVM_REGISTER_CHANNEL, "UVM_REGISTER_CHANNEL");
   (UVM_UNREGISTER_CHANNEL, "UVM_UNREGISTER_CHANNEL");
   (UVM_ENABLE_PEER_ACCESS, "UVM_ENABLE_PEER_ACCESS");
   (UVM_DISABLE_PEER_ACCESS, "UVM_DISABLE_PEER_ACCESS");
   (UVM_SET_RANGE_GROUP, "UVM_SET_RANGE_GROUP");
   (UVM_MAP_EXTERNAL_ALLOCATION, "UVM_MAP_EXTERNAL_ALLOCATION");
   (UVM_FREE, "UVM_FREE");
   (UVM_MEM_MAP, "UVM_MEM_MAP");
   (UVM_REGISTER_GPU, "UVM_REGISTER_GPU");
   (UVM_UNREGISTER_GPU, "UVM_UNREGISTER_GPU");
   (UVM_PAGEABLE_MEM_ACCESS, "UVM_PAGEABLE_MEM_ACCESS");
   (UVM_PREVENT_MIGRATION_RANGE_GROUPS, "UVM_PREVENT_MIGRATION_RANGE_GROUPS");
   (UVM_ALLOW_MIGRATION_RANGE_GROUPS, "UVM_ALLOW_MIGRATION_RANGE_GROUPS");
   (UVM_SET_PREFERRED_LOCATION, "UVM_SET_PREFERRED_LOCATION");
   (UVM_UNSET_PREFERRED_LOCATION, "UVM_UNSET_PREFERRED_LOCATION");
   (UVM_ENABLE_READ_DUPLICATION, "UVM_ENABLE_READ_DUPLICATION");
   (UVM_DISABLE_READ_DUPLICATION, "UVM_DISABLE_READ_DUPLICATION");
   (UVM_SET_ACCESSED_BY, "UVM_SET_ACCESSED_BY");
   (UVM_UNSET_ACCESSED_BY, "UVM_UNSET_ACCESSED_BY");
   (UVM_MIGRATE, "UVM_MIGRATE");
   (UVM_MIGRATE_RANGE_GROUP, "UVM_MIGRATE_RANGE_GROUP");
   (UVM_ENABLE_SYSTEM_WIDE_ATOMICS, "UVM_ENABLE_SYSTEM_WIDE_ATOMICS");
   (UVM_DISABLE_SYSTEM_WIDE_ATOMICS, "UVM_DISABLE_SYSTEM_WIDE_ATOMICS");
   (UVM_TOOLS_INIT_EVENT_TRACKER, "UVM_TOOLS_INIT_EVENT_TRACKER");
   (UVM_TOOLS_SET_NOTIFICATION_THRESHOLD, "UVM_TOOLS_SET_NOTIFICATION_THRESHOLD");
   (UVM_TOOLS_EVENT_QUEUE_ENABLE_EVENTS, "UVM_TOOLS_EVENT_QUEUE_ENABLE_EVENTS");
   (UVM_TOOLS_EVENT_QUEUE_DISABLE_EVENTS, "UVM_TOOLS_EVENT_QUEUE_DISABLE_EVENTS");
   (UVM_TOOLS_ENABLE_COUNTERS, "UVM_TOOLS_ENABLE_COUNTERS");
   (UVM_TOOLS_DISABLE_COUNTERS, "UVM_TOOLS_DISABLE_COUNTERS");
   (UVM_TOOLS_READ_PROCESS_MEMORY, "UVM_TOOLS_READ_PROCESS_MEMORY");
   (UVM_TOOLS_WRITE_PROCESS_MEMORY, "UVM_TOOLS_WRITE_PROCESS_MEMORY");
   (UVM_TOOLS_GET_PROCESSOR_UUID_TABLE, "UVM_TOOLS_GET_PROCESSOR_UUID_TABLE");
   (UVM_MAP_DYNAMIC_PARALLELISM_REGION, "UVM_MAP_DYNAMIC_PARALLELISM_REGION");
   (UVM_UNMAP_EXTERNAL, "UVM_UNMAP_EXTERNAL");
   (UVM_TOOLS_FLUSH_EVENTS, "UVM_TOOLS_FLUSH_EVENTS");
   (UVM_ALLOC_SEMAPHORE_POOL, "UVM_ALLOC_SEMAPHORE_POOL");
   (UVM_CLEAN_UP_ZOMBIE_RESOURCES, "UVM_CLEAN_UP_ZOMBIE_RESOURCES");
   (UVM_PAGEABLE_MEM_ACCESS_ON_GPU, "UVM_PAGEABLE_MEM_ACCESS_ON_GPU");
   (UVM_POPULATE_PAGEABLE, "UVM_POPULATE_PAGEABLE");
   (UVM_VALIDATE_VA_RANGE, "UVM_VALIDATE_VA_RANGE");
   (UVM_CREATE_EXTERNAL_RANGE, "UVM_CREATE_EXTERNAL_RANGE");
   (UVM_MAP_EXTERNAL_SPARSE, "UVM_MAP_EXTERNAL_SPARSE");
   (UVM_MM_INITIALIZE, "UVM_MM_INITIALIZE");
   (UVM_TOOLS_INIT_EVENT_TRACKER_V2, "UVM_TOOLS_INIT_EVENT_TRACKER_V2");
   (UVM_TOOLS_GET_PROCESSOR_UUID_TABLE_V2, "UVM_TOOLS_GET_PROCESSOR_UUID_TABLE_V2");
   (UVM_ALLOC_DEVICE_P2P, "UVM_ALLOC_DEVICE_P2P");
   (UVM_CLEAR_ALL_ACCESS_COUNTERS, "UVM_CLEAR_ALL_ACCESS_COUNTERS");
   (UVM_DISCARD, "UVM_DISCARD");
   (UVM_IS_8_SUPPORTED, "UVM_IS_8_SUPPORTED")].

Definition uvm_cmd_name (cmd : Z) : string :=
  let cmd := normalize_uvm_cmd cmd in
  default "UNKNOWN" (match_const cmd uvm_names).
