(* ===== verification/UvmFacts.v ===== *)
(** * What the UVM decoder emits

    Every path of [decode_uvm_ioctl] builds one JSON object whose last member
    is its status; the names and the decoders agree on the commands; no array
    slice leaves its array. *)
From S2P Require Import Prelude RustStr Config Layout Json Ioctl Uvm.

(** ** Arrays *)

Lemma json_u64_array_render values :
  Forall (fun z => 0 <= z) values -> json_u64_array values = render_json (JArr (map JNum values)).
Proof.
  intros H. apply json_array_render. eapply Forall_impl; [|exact H].
  intros z Hz. simpl. unfold fmt_i. by rewrite (proj2 (Z.ltb_ge z 0)).
Qed.

Lemma json_uuid_array_render values :
  json_uuid_array values = render_json (JArr (map (fun u => JStr (format_uuid u)) values)).
Proof. apply (json_array_render _ (fun u => JStr (format_uuid u))). by apply Forall_true. Qed.

(** The steps of a decoder, each adding one member. *)
Ltac emit_step :=
  lazymatch goal with
  | |- json_repr (field_str _ _ _) _ => apply json_repr_str
  | |- json_repr (field_bool _ _ _) _ => apply json_repr_bool
  | |- json_repr (field_i64 _ _ _) _ => apply json_repr_i64
  | |- json_repr (field_u64 _ _ _) _ => apply json_repr_u64
  | |- json_repr (field_raw _ _ _) _ => eapply json_repr_raw
  | |- 0 <= get ?p ?f ?H => refine (get_ok p f H _); assumption
  end.

Definition counter_config_json (v : pod UvmCounterConfig) : Json.json :=
  JObj [("scope", JNum v.["scope"]); ("name", JNum v.["name"]);
        ("gpu_uuid", JStr (format_uuid v.["gpu_uuid"])); ("state", JNum v.["state"])].

Lemma json_counter_config_render v :
  Forall is_byte (pod_bytes v) -> json_counter_config v = render_json (counter_config_json v).
Proof.
  intros Hv. unfold json_counter_config. apply json_repr_finish.
  apply (json_repr_u64 _ [_; _; _]); [emit_step|].
  apply (json_repr_str _ [_; _]).
  apply (json_repr_u64 _ [_]); [emit_step|].
  apply (json_repr_u64 _ []); [emit_step|]. apply json_repr_new.
Qed.

Definition gpu_mapping_json (v : pod UvmGpuMappingAttributes) : Json.json :=
  JObj [("gpu_uuid", JStr (format_uuid v.["gpu_uuid"]));
        ("gpuMappingType", JNum v.["gpu_mapping_type"]);
        ("gpuCachingType", JNum v.["gpu_caching_type"]);
        ("gpuFormatType", JNum v.["gpu_format_type"]);
        ("gpuElementBits", JNum v.["gpu_element_bits"]);
        ("gpuCompressionType", JNum v.["gpu_compression_type"])].

Lemma json_gpu_mapping_render v :
  Forall is_byte (pod_bytes v) -> json_gpu_mapping_attributes v = render_json (gpu_mapping_json v).
Proof.
  intros Hv. unfold json_gpu_mapping_attributes. apply json_repr_finish.
  apply (json_repr_u64 _ [_; _; _; _; _]); [emit_step|].
  apply (json_repr_u64 _ [_; _; _; _]); [emit_step|].
  apply (json_repr_u64 _ [_; _; _]); [emit_step|].
  apply (json_repr_u64 _ [_; _]); [emit_step|].
  apply (json_repr_u64 _ [_]); [emit_step|].
  apply (json_repr_str _ []). apply json_repr_new.
Qed.

Lemma json_counter_config_array_render values :
  Forall (fun v : pod UvmCounterConfig => Forall is_byte (pod_bytes v)) values ->
  json_counter_config_array values = render_json (JArr (map counter_config_json values)).
Proof.
  intros H. apply json_array_render. eapply Forall_impl; [|exact H]. exact json_counter_config_render.
Qed.

Lemma json_gpu_mapping_array_render values :
  Forall (fun v : pod UvmGpuMappingAttributes => Forall is_byte (pod_bytes v)) values ->
  json_gpu_mapping_attributes_array values = render_json (JArr (map gpu_mapping_json values)).
Proof.
  intros H. apply json_array_render. eapply Forall_impl; [|exact H]. exact json_gpu_mapping_render.
Qed.

(** ** Decoders *)

Section Facts.
Context {M : RemoteMem} {Mok : RemoteMemOk M}.

Lemma read_pod_ok T addr (p : pod T) : read_pod T addr = Some p -> Forall is_byte (pod_bytes p).
Proof.
  unfold read_pod. destruct (vm_read addr (struct_size T)) as [bs|] eqn:E; [|done].
  apply Mok in E as [_ Hb]. case_match; intros [= <-]. done.
Qed.

Lemma read_pod_length T addr (p : pod T) :
  read_pod T addr = Some p -> Z.of_nat (length (pod_bytes p)) = struct_size T.
Proof.
  unfold read_pod. destruct (vm_read addr (struct_size T)) as [bs|]; [|done].
  destruct (Z.eqb_spec (Z.of_nat (length bs)) (struct_size T)); by intros [= <-].
Qed.

(** [f] adds members to the object and ends with a status from [S]. *)
Definition emits (S : list string) (f : JsonObject -> JsonObject) : Prop :=
  forall root, json_repr root [] ->
  exists l s, json_repr (f root) (l ++ [("status", JStr s)]) /\ s ∈ S.

Lemma emits_with_params T addr on_ok :
  (forall p root, Forall is_byte (pod_bytes p) -> json_repr root [] ->
     exists l, json_repr (on_ok p root) (l ++ [("status", JStr "ok")])) ->
  emits ["ok"; "arg_unreadable"] (fun root => with_params T addr root on_ok).
Proof.
  intros H root Hr. unfold with_params. destruct (read_pod T addr) as [p|] eqn:E.
  - apply read_pod_ok in E. destruct (H p root E Hr) as [l Hl].
    exists l, "ok". split; [done|]. left.
  - exists [], "arg_unreadable". split; [|right; left]. by apply (json_repr_str _ []).
Qed.

Lemma emits_mono S S' f : S ⊆ S' -> emits S f -> emits S' f.
Proof. intros HS H root Hr. destruct (H root Hr) as (l & s & ? & ?). exists l, s. eauto. Qed.

(** The text of an array field is the rendering of a JSON array. *)
Ltac emit_array :=
  unfold slice_to;
  lazymatch goal with
  | |- json_u64_array _ = _ => apply json_u64_array_render
  | |- json_uuid_array _ = _ => apply json_uuid_array_render
  | |- json_counter_config_array _ = _ => apply json_counter_config_array_render
  | |- json_gpu_mapping_attributes_array _ = _ => apply json_gpu_mapping_array_render
  end;
  try (apply Forall_take; match goal with |- Forall _ (get ?p ?f ?H) => refine (get_ok p f H _); assumption end).

Ltac emits_decoder :=
  apply emits_with_params; intros p root Hp Hr; cbv zeta;
  repeat match goal with |- context [clamp_count ?a ?b] => destruct (clamp_count a b) as [count truncated] end;
  eexists; repeat emit_step; first [exact Hr | emit_array].

Lemma uvm_decoders_emit :
  Forall (fun d => forall addr, emits ["ok"; "arg_unreadable"] (d addr)) (map snd uvm_decoders).
Proof.
  unfold uvm_decoders. cbn [map snd].
  do 71 (apply Forall_cons_2; [intros addr; emits_decoder|]). constructor.
Qed.

Lemma decode_unknown_emits addr max_blob :
  emits ["unknown_cmd"; "arg_unreadable"] (decode_unknown addr max_blob).
Proof.
  intros root Hr. unfold decode_unknown. destruct (read_bytes _ _).
  - exists [("blob_hex", JStr (hex_bytes l))], "unknown_cmd". split; [|left].
    apply (json_repr_str _ [_]). by apply (json_repr_str _ []).
  - exists [], "arg_unreadable". split; [|right; left]. by apply (json_repr_str _ []).
Qed.

Lemma uvm_arms_emit addr cmd decode :
  match_const cmd uvm_decoders = Some decode -> emits ["ok"; "arg_unreadable"] (decode addr).
Proof.
  intros H%match_const_In. pose proof uvm_decoders_emit as Hall.
  rewrite List.Forall_forall in Hall. apply Hall. apply in_map_iff. exists (cmd, decode).
  by rewrite <- list_elem_of_In.
Qed.

(** ** The object of every path *)

(** The statuses a request may end with. *)
Definition uvm_statuses (meta : IoctlMeta) (arg_ptr : Z) (mode : IoctlDecodeMode) : list string :=
  if bool_decide (mode = Decode_Header) then ["header"]
  else if normalize_uvm_cmd (raw meta) =? UVM_DEINITIALIZE then ["ok"]
  else if arg_ptr =? 0 then ["arg_null"]
  else match match_const (normalize_uvm_cmd (raw meta)) uvm_decoders with
       | Some _ => ["ok"; "arg_unreadable"]
       | None => ["unknown_cmd"; "arg_unreadable"]
       end.

Lemma decode_uvm_ioctl_object meta arg_ptr mode max_blob :
  exists sum l s,
    decode_uvm_ioctl meta arg_ptr mode max_blob = Some sum
    /\ legacy sum = EmptyString
    /\ Ioctl.json sum = render_json (JObj (l ++ [("status", JStr s)]))
    /\ s ∈ uvm_statuses meta arg_ptr mode.
Proof.
  assert (forall f S, emits S f -> exists l s,
    finish (f JsonObject_new) = render_json (JObj (l ++ [("status", JStr s)])) /\ s ∈ S) as Hfin.
  { intros f S Hf. destruct (Hf _ json_repr_new) as (l & s & Hl & Hs).
    exists l, s. split; [by apply json_repr_finish|done]. }
  assert (forall s, emits [s] (fun root => field_str root "status" s)) as Hone.
  { intros s root Hr. exists [], s. split; [by apply (json_repr_str _ [])|left]. }
  unfold decode_uvm_ioctl, uvm_statuses. cbv zeta. repeat case_match;
    (eexists; match goal with
      | |- context [decode_unknown ?a ?b _] => destruct (Hfin _ _ (decode_unknown_emits a b)) as (l & s & E & Hs)
      | H : match_const _ _ = Some ?d |- context [?d ?a _] => destruct (Hfin _ _ (uvm_arms_emit a _ d H)) as (l & s & E & Hs)
      | |- context [field_str _ "status" ?s] => destruct (Hfin _ _ (Hone s)) as (l & s' & E & Hs)
      end; do 2 eexists; split; [reflexivity|]; split; [reflexivity|]; split; [exact E|exact Hs]).
Qed.

(** C18: the UVM decoder always answers, with no legacy text and with one JSON
    object whose last member is the status; the status is one the command, the
    argument and the decode mode allow. *)
Theorem decode_uvm_ioctl_answers meta arg_ptr mode max_blob :
  exists sum l s,
    decode_uvm_ioctl meta arg_ptr mode max_blob = Some sum
    /\ legacy sum = EmptyString
    /\ Ioctl.json sum = render_json (JObj (l ++ [("status", JStr s)]))
    /\ s ∈ uvm_statuses meta arg_ptr mode.
Proof. apply decode_uvm_ioctl_object. Qed.

(** ** Names and decoders *)

Definition same_elems (l k : list Z) : bool :=
  forallb (fun x => existsb (Z.eqb x) k) l && forallb (fun x => existsb (Z.eqb x) l) k.

Lemma same_elems_iff l k x : same_elems l k = true -> x ∈ l <-> x ∈ k.
Proof.
  assert (forall l k, forallb (fun x => existsb (Z.eqb x) k) l = true -> x ∈ l -> x ∈ k) as H.
  { intros l' k' H Hx. rewrite forallb_forall in H. apply list_elem_of_In in Hx.
    apply H, existsb_exists in Hx as (y & Hy & ->%Z.eqb_eq). by apply list_elem_of_In. }
  intros [H1 H2]%andb_true_iff. split; by apply H.
Qed.

Lemma uvm_names_dom k : k ∈ uvm_names.*1 <-> k ∈ UVM_DEINITIALIZE :: uvm_decoders.*1.
Proof. apply same_elems_iff. by vm_compute. Qed.

Lemma uvm_names_known k s : match_const k uvm_names = Some s -> s <> "UNKNOWN".
Proof.
  intros H%match_const_In.
  assert (forallb (fun p => negb (String.eqb p.2 "UNKNOWN")) uvm_names = true) as Hall by by vm_compute.
  rewrite forallb_forall in Hall. apply list_elem_of_In, Hall in H.
  by apply negb_true_iff, String.eqb_neq in H.
Qed.

(** A command has a name exactly if the decoder knows it: the 72 names are
    those of the 71 decoder arms and of UVM_DEINITIALIZE. *)
Theorem uvm_cmd_name_known cmd :
  uvm_cmd_name cmd = "UNKNOWN" <->
  normalize_uvm_cmd cmd <> UVM_DEINITIALIZE /\ match_const (normalize_uvm_cmd cmd) uvm_decoders = None.
Proof.
  unfold uvm_cmd_name. cbv zeta. rewrite match_const_None.
  pose proof (uvm_names_dom (normalize_uvm_cmd cmd)) as Hdom.
  rewrite elem_of_cons in Hdom.
  destruct (match_const _ uvm_names) as [s|] eqn:E; simpl.
  - pose proof (uvm_names_known _ _ E). apply match_const_In in E.
    assert (normalize_uvm_cmd cmd ∈ uvm_names.*1) by (apply list_elem_of_fmap; eexists; by split; [|exact E]).
    naive_solver.
  - apply match_const_None in E. naive_solver.
Qed.

End Facts.

(** ** Slices *)

(** The slice [values[..count]] does not panic. *)
Definition slice_fits {A} (count : Z * bool) (values : list A) : Prop :=
  count.1 <= Z.of_nat (length values).

Lemma clamp_count_le count max : (clamp_count count max).1 <= max.
Proof. unfold clamp_count. destruct (Z.ltb_spec max count); simpl; lia. Qed.

Lemma get_arr_length {fs} (p : pod fs) f H t n (E : field_ty fs f = Arr t n) :
  0 <= n -> Z.of_nat (length (eq_rect _ denote (get p f H) _ E)) = n.
Proof.
  unfold get. generalize (slice (pod_bytes p) (field_off fs f) (size_of (field_ty fs f))).
  rewrite E. intros bs Hn. simpl. by apply (read_arr_length t n).
Qed.

Lemma slice_fits_clamp {fs} (p : pod fs) f H t n (E : field_ty fs f = Arr t n) count :
  0 <= n -> slice_fits (clamp_count count n) (eq_rect _ denote (get p f H) _ E).
Proof. intros Hn. unfold slice_fits. rewrite get_arr_length by done. apply clamp_count_le. Qed.


(** A process whose memory is all zeros. *)
Definition zero_memory : RemoteMem := fun _ len =>
  if len <? 0 then None else Some (replicate (Z.to_nat len) 0).

Lemma zero_memory_ok : RemoteMemOk zero_memory.
Proof.
  intros addr len bs H. unfold vm_read, zero_memory in H. destruct (Z.ltb_spec len 0); [done|].
  injection H as <-. rewrite length_replicate. split; [lia|]. by apply Forall_replicate.
Qed.

Lemma decode_uvm_ioctl_answers_witness :
  exists sum l s,
    decode_uvm_ioctl (M := zero_memory) (decode_ioctl_cmd UVM_REGISTER_GPU) 4096 Decode_Full 256 = Some sum
    /\ legacy sum = EmptyString
    /\ Ioctl.json sum = render_json (JObj (l ++ [("status", JStr s)]))
    /\ s ∈ uvm_statuses (M := zero_memory) (decode_ioctl_cmd UVM_REGISTER_GPU) 4096 Decode_Full.
Proof.
  exact (@decode_uvm_ioctl_answers zero_memory zero_memory_ok (decode_ioctl_cmd UVM_REGISTER_GPU) 4096 Decode_Full 256).
Defined.
