(* ===== verification/RmTypes.v ===== *)
(** * RM escapes: commands, classes and parameter structs of
    [src/src/decode/nvidia.rs] and [src/src/decode/ioctl_rm.rs]

    A struct is its [layout]; sizes and offsets follow from the C rules. *)
From S2P Require Import Prelude Layout.

(** ** nvidia.rs *)
Definition NV_IOCTL_MAGIC : Z := 70.
Definition NV_IOCTL_BASE : Z := 200.
Definition NV_ESC_CARD_INFO : Z := NV_IOCTL_BASE.
Definition NV_ESC_REGISTER_FD : Z := NV_IOCTL_BASE + 1.
Definition NV_ESC_ALLOC_OS_EVENT : Z := NV_IOCTL_BASE + 6.
Definition NV_ESC_FREE_OS_EVENT : Z := NV_IOCTL_BASE + 7.
Definition NV_ESC_STATUS_CODE : Z := NV_IOCTL_BASE + 9.
Definition NV_ESC_CHECK_VERSION_STR : Z := NV_IOCTL_BASE + 10.
Definition NV_ESC_IOCTL_XFER_CMD : Z := NV_IOCTL_BASE + 11.
Definition NV_ESC_ATTACH_GPUS_TO_FD : Z := NV_IOCTL_BASE + 12.
Definition NV_ESC_QUERY_DEVICE_INTR : Z := NV_IOCTL_BASE + 13.
Definition NV_ESC_SYS_PARAMS : Z := NV_IOCTL_BASE + 14.
Definition NV_ESC_NUMA_INFO : Z := NV_IOCTL_BASE + 15.
Definition NV_ESC_SET_NUMA_STATUS : Z := NV_IOCTL_BASE + 16.
Definition NV_ESC_EXPORT_TO_DMABUF_FD : Z := NV_IOCTL_BASE + 17.
Definition NV_ESC_WAIT_OPEN_COMPLETE : Z := NV_IOCTL_BASE + 18.
Definition NV_ESC_RM_ALLOC_MEMORY : Z := 0x27.
Definition NV_ESC_RM_ALLOC_OBJECT : Z := 0x28.
Definition NV_ESC_RM_FREE : Z := 0x29.
Definition NV_ESC_RM_CONTROL : Z := 0x2a.
Definition NV_ESC_RM_ALLOC : Z := 0x2b.
Definition NV_ESC_RM_CONFIG_GET : Z := 0x32.
Definition NV_ESC_RM_CONFIG_SET : Z := 0x33.
Definition NV_ESC_RM_DUP_OBJECT : Z := 0x34.
Definition NV_ESC_RM_SHARE : Z := 0x35.
Definition NV_ESC_RM_CONFIG_GET_EX : Z := 0x37.
Definition NV_ESC_RM_CONFIG_SET_EX : Z := 0x38.
Definition NV_ESC_RM_I2C_ACCESS : Z := 0x39.
Definition NV_ESC_RM_IDLE_CHANNELS : Z := 0x41.
Definition NV_ESC_RM_VID_HEAP_CONTROL : Z := 0x4a.
Definition NV_ESC_RM_ACCESS_REGISTRY : Z := 0x4d.
Definition NV_ESC_RM_MAP_MEMORY : Z := 0x4e.
Definition NV_ESC_RM_UNMAP_MEMORY : Z := 0x4f.
Definition NV_ESC_RM_GET_EVENT_DATA : Z := 0x52.
Definition NV_ESC_RM_ALLOC_CONTEXT_DMA2 : Z := 0x54.
Definition NV_ESC_RM_ADD_VBLANK_CALLBACK : Z := 0x56.
Definition NV_ESC_RM_MAP_MEMORY_DMA : Z := 0x57.
Definition NV_ESC_RM_UNMAP_MEMORY_DMA : Z := 0x58.
Definition NV_ESC_RM_BIND_CONTEXT_DMA : Z := 0x59.
Definition NV_ESC_RM_EXPORT_OBJECT_TO_FD : Z := 0x5c.
Definition NV_ESC_RM_IMPORT_OBJECT_FROM_FD : Z := 0x5d.
Definition NV_ESC_RM_UPDATE_DEVICE_MAPPING_INFO : Z := 0x5e.
Definition NV_ESC_RM_LOCKLESS_DIAGNOSTIC : Z := 0x5f.
Definition NV04_CONTROL : Z := 0x00000036.
Definition NV01_ROOT : Z := 0x00000000.
Definition NV01_ROOT_NON_PRIV : Z := 0x00000001.
Definition NV01_ROOT_CLIENT : Z := 0x00000041.
Definition NV0000_CTRL_CMD_SYSTEM_GET_BUILD_VERSION : Z := 0x0101.
Definition NV0000_CTRL_CMD_CLIENT_GET_ADDR_SPACE_TYPE : Z := 0x0d01.
Definition NV0000_CTRL_CMD_OS_UNIX_GET_CONTROL_FILE_DESCRIPTOR : Z := 0x3d04.
Definition NV0000_CTRL_CLIENT_GET_ADDR_SPACE_TYPE_INVALID : Z := 0x00000000.
Definition NV0000_CTRL_CLIENT_GET_ADDR_SPACE_TYPE_SYSMEM : Z := 0x00000001.
Definition NV0000_CTRL_CLIENT_GET_ADDR_SPACE_TYPE_VIDMEM : Z := 0x00000002.
Definition NV0000_CTRL_CLIENT_GET_ADDR_SPACE_TYPE_REGMEM : Z := 0x00000003.
Definition NV0000_CTRL_CLIENT_GET_ADDR_SPACE_TYPE_FABRIC : Z := 0x00000004.
Definition NV0000_CTRL_CLIENT_GET_ADDR_SPACE_TYPE_FABRIC_MC : Z := 0x00000005.

Definition NvPciInfo : layout :=
  [("domain", U32);
   ("bus", U8);
   ("slot", U8);
   ("function", U8);
   ("_pad0", U8);
   ("vendor_id", U16);
   ("device_id", U16)].

Definition NvIoctlCardInfo : layout :=
  [("valid", U8);
   ("_pad0", Arr U8 3);
   ("pci_info", Struct NvPciInfo);
   ("gpu_id", U32);
   ("interrupt_line", U16);
   ("_pad1", Arr U8 2);
   ("reg_address", U64);
   ("reg_size", U64);
   ("fb_address", U64);
   ("fb_size", U64);
   ("minor_number", U32);
   ("dev_name", Arr U8 10);
   ("_pad2", Arr U8 2)].

Definition NvIoctlRegisterFd : layout :=
  [("ctl_fd", I32)].

Definition NvIoctlAllocOsEvent : layout :=
  [("h_client", U32);
   ("h_device", U32);
   ("fd", U32);
   ("status", U32)].

Definition NvIoctlStatusCode : layout :=
  [("domain", U32);
   ("bus", U8);
   ("slot", U8);
   ("_pad0", U16);
   ("status", U32)].

Definition NvIoctlRmApiVersion : layout :=
  [("cmd", U32);
   ("reply", U32);
   ("version_string", Arr U8 64)].

Definition NvIoctlQueryDeviceIntr : layout :=
  [("intr_status", U32);
   ("status", U32)].

Definition NvIoctlSysParams : layout :=
  [("memblock_size", U64)].

Definition NvIoctlWaitOpenComplete : layout :=
  [("rc", I32);
   ("adapter_status", U32)].

Definition NvOfflineAddresses : layout :=
  [("addresses", Arr U64 64);
   ("num_entries", U32)].

Definition NvIoctlNumaInfo : layout :=
  [("nid", I32);
   ("status", I32);
   ("memblock_size", U64);
   ("numa_mem_addr", U64);
   ("numa_mem_size", U64);
   ("use_auto_online", U8);
   ("_pad0", Arr U8 7);
   ("offline_addresses", Struct NvOfflineAddresses)].

Definition NvIoctlSetNumaStatus : layout :=
  [("status", I32)].

Definition NvIoctlExportToDmaBufFdPrefix : layout :=
  [("fd", I32);
   ("h_client", U32);
   ("total_objects", U32);
   ("num_objects", U32);
   ("index", U32);
   ("total_size", U64);
   ("mapping_type", U8);
   ("b_allow_mmap", U8)].

Definition NvIoctlXfer : layout :=
  [("cmd", U32);
   ("size", U32);
   ("ptr", U64)].

Definition NvOs00Parameters : layout :=
  [("h_root", U32);
   ("h_object_parent", U32);
   ("h_object_old", U32);
   ("status", I32)].

Definition NvOs02Parameters : layout :=
  [("h_root", U32);
   ("h_object_parent", U32);
   ("h_object_new", U32);
   ("h_class", I32);
   ("flags", U32);
   ("p_memory", U64);
   ("limit", U64);
   ("status", I32)].

Definition NvIoctlNvos02ParametersWithFd : layout :=
  [("params", Struct NvOs02Parameters);
   ("fd", I32)].

Definition NvOs05Parameters : layout :=
  [("h_root", U32);
   ("h_object_parent", U32);
   ("h_object_new", U32);
   ("h_class", I32);
   ("status", I32)].

Definition NvOs21Parameters : layout :=
  [("h_root", U32);
   ("h_object_parent", U32);
   ("h_object_new", U32);
   ("h_class", I32);
   ("p_alloc_parms", U64);
   ("params_size", U32);
   ("status", I32)].

Definition NvOs64Parameters : layout :=
  [("h_root", U32);
   ("h_object_parent", U32);
   ("h_object_new", U32);
   ("h_class", I32);
   ("p_alloc_parms", U64);
   ("p_rights_requested", U64);
   ("params_size", U32);
   ("flags", U32);
   ("status", I32)].

Definition NvOs33Parameters : layout :=
  [("h_client", U32);
   ("h_device", U32);
   ("h_memory", U32);
   ("offset", U64);
   ("length", U64);
   ("p_linear_address", U64);
   ("status", U32);
   ("flags", U32)].

Definition NvIoctlNvos33ParametersWithFd : layout :=
  [("params", Struct NvOs33Parameters);
   ("fd", I32)].

Definition NvOs34Parameters : layout :=
  [("h_client", U32);
   ("h_device", U32);
   ("h_memory", U32);
   ("p_linear_address", U64);
   ("status", U32);
   ("flags", U32)].

Definition NvOs54Parameters : layout :=
  [("h_client", U32);
   ("h_object", U32);
   ("cmd", U32);
   ("flags", U32);
   ("params", U64);
   ("params_size", U32);
   ("status", I32)].

Definition Nv0000CtrlClientGetAddrSpaceTypeParams : layout :=
  [("h_object", U32);
   ("map_flags", U32);
   ("addr_space_type", U32)].

Definition Nv0000CtrlOsUnixGetControlFileDescriptorParams : layout :=
  [("fd", I32)].

Definition Nv0000CtrlSystemGetBuildVersionParams : layout :=
  [("size_of_strings", U32);
   ("p_driver_version_buffer", U64);
   ("p_version_buffer", U64);
   ("p_title_buffer", U64);
   ("changelist_number", U32);
   ("official_changelist_number", U32)].

(** ** ioctl_rm.rs *)
Definition MAX_NUMA_ADDRESSES : Z := 16.
Definition MAX_CTRL_LIST_ITEMS : Z := 64.
Definition MAX_INNER_PREVIEW_WORDS : Z := 8.
Definition NV0000_CTRL_CMD_SYSTEM_GET_FABRIC_STATUS : Z := 0x0136.
Definition NV0000_CTRL_CMD_SYSTEM_GET_P2P_CAPS_MATRIX : Z := 0x013a.
Definition NV0000_CTRL_CMD_SYSTEM_GET_FEATURES : Z := 0x01f0.
Definition NV0000_CTRL_CMD_GPU_GET_MEMOP_ENABLE : Z := 0x027b.
Definition NV0000_CTRL_CMD_GPU_GET_ATTACHED_IDS : Z := 0x0201.
Definition NV0000_CTRL_CMD_GPU_GET_ID_INFO : Z := 0x0202.
Definition NV0000_CTRL_CMD_GPU_GET_ID_INFO_V2 : Z := 0x0205.
Definition NV0000_CTRL_CMD_GPU_GET_PROBED_IDS : Z := 0x0214.
Definition NV0000_CTRL_CMD_GPU_ATTACH_IDS : Z := 0x0215.
Definition NV0000_CTRL_CMD_GPU_GET_ACTIVE_DEVICE_IDS : Z := 0x0288.
Definition NV0000_CTRL_CMD_SYNC_GPU_BOOST_GROUP_INFO : Z := 0x0a04.
Definition NV0000_CTRL_CMD_CLIENT_SET_INHERITED_SHARE_POLICY : Z := 0x0d04.
Definition NV0080_CTRL_CMD_GPU_GET_NUM_SUBDEVICES : Z := 0x800280.
Definition NV0080_CTRL_CMD_GPU_GET_CLASSLIST_V2 : Z := 0x800292.
Definition NV0080_CTRL_CMD_GPU_GET_VIRTUALIZATION_MODE : Z := 0x800289.
Definition NV0080_CTRL_CMD_HOST_GET_CAPS_V2 : Z := 0x801402.
Definition NV0080_CTRL_CMD_FB_GET_CAPS_V2 : Z := 0x801307.
Definition NV0080_CTRL_CMD_FIFO_GET_CHANNELLIST : Z := 0x80170d.
Definition NV0080_CTRL_CMD_PERF_CUDA_LIMIT_SET_CONTROL : Z := 0x801909.
Definition NV906F_CTRL_GET_CLASS_ENGINEID : Z := 0x906f0101.
Definition NVC36F_CTRL_CMD_GPFIFO_GET_WORK_SUBMIT_TOKEN : Z := 0xc36f0108.
Definition NV2080_CTRL_CMD_GPU_GET_INFO_V2 : Z := 0x20800102.
Definition NV2080_CTRL_CMD_GPU_GET_NAME_STRING : Z := 0x20800110.
Definition NV2080_CTRL_CMD_GPU_GET_SHORT_NAME_STRING : Z := 0x20800111.
Definition NV2080_CTRL_CMD_GPU_GET_SIMULATION_INFO : Z := 0x20800119.
Definition NV2080_CTRL_CMD_GPU_QUERY_ECC_STATUS : Z := 0x2080012f.
Definition NV2080_CTRL_CMD_GPU_QUERY_COMPUTE_MODE_RULES : Z := 0x20800131.
Definition NV2080_CTRL_CMD_GPU_GET_GID_INFO : Z := 0x2080014a.
Definition NV2080_CTRL_CMD_GPU_GET_ENGINES_V2 : Z := 0x20800170.
Definition NV2080_CTRL_CMD_GR_GET_INFO : Z := 0x20801201.
Definition NV2080_CTRL_CMD_GR_GET_GLOBAL_SM_ORDER : Z := 0x2080121b.
Definition NV2080_CTRL_CMD_GR_GET_CAPS_V2 : Z := 0x20801227.
Definition NV2080_CTRL_CMD_GR_GET_GPC_MASK : Z := 0x2080122a.
Definition NV2080_CTRL_CMD_GR_GET_TPC_MASK : Z := 0x2080122b.
Definition NV2080_CTRL_CMD_GR_SET_CTXSW_PREEMPTION_MODE : Z := 0x20801210.
Definition NV2080_CTRL_CMD_GR_GET_CTX_BUFFER_SIZE : Z := 0x20801218.
Definition NV2080_CTRL_CMD_FB_GET_INFO_V2 : Z := 0x20801303.
Definition NV2080_CTRL_CMD_MC_GET_ARCH_INFO : Z := 0x20801701.
Definition NV2080_CTRL_CMD_BUS_GET_PCI_INFO : Z := 0x20801801.
Definition NV2080_CTRL_CMD_BUS_GET_INFO_V2 : Z := 0x20801823.
Definition NV2080_CTRL_CMD_BUS_GET_PCI_BAR_INFO : Z := 0x20801803.
Definition NV2080_CTRL_CMD_BUS_GET_PCIE_SUPPORTED_GPU_ATOMICS : Z := 0x2080182a.
Definition NV2080_CTRL_CMD_BUS_GET_C2C_INFO : Z := 0x2080182b.
Definition NV2080_CTRL_CMD_PERF_BOOST : Z := 0x2080200a.
Definition NV2080_CTRL_CMD_CE_GET_ALL_CAPS : Z := 0x20802a0a.
Definition NV2080_CTRL_CMD_NVLINK_GET_NVLINK_STATUS : Z := 0x20803002.
Definition NV2080_CTRL_CMD_GSP_GET_FEATURES : Z := 0x20803601.
Definition NV2080_CTRL_CMD_GRMGR_GET_GR_FS_INFO : Z := 0x20803801.
Definition NVA06C_CTRL_CMD_GPFIFO_SCHEDULE : Z := 0xa06c0101.
Definition NVA06C_CTRL_CMD_SET_TIMESLICE : Z := 0xa06c0103.
Definition NVA06C_CTRL_CMD_PREEMPT : Z := 0xa06c0105.
Definition NV83DE_CTRL_CMD_DEBUG_SET_EXCEPTION_MASK : Z := 0x83de0309.
Definition NV_CONF_COMPUTE_CTRL_CMD_SYSTEM_GET_CAPABILITIES : Z := 0xcb330101.
Definition NV0000_CTRL_SYSTEM_MAX_P2P_GROUP_GPUS : Z := 8.
Definition NV0000_CTRL_GPU_MAX_ATTACHED_GPUS : Z := 32.
Definition NV0000_CTRL_GPU_MAX_PROBED_GPUS : Z := 32.
Definition NV0000_CTRL_GPU_MAX_ACTIVE_DEVICES : Z := 256.
Definition NV0080_CTRL_GPU_CLASSLIST_MAX_SIZE : Z := 200.
Definition NV0080_CTRL_FB_CAPS_TBL_SIZE : Z := 3.
Definition NV0080_CTRL_GR_CAPS_TBL_SIZE : Z := 23.
Definition NV2080_CTRL_GPU_INFO_MAX_LIST_SIZE : Z := 70.
Definition NV2080_GPU_MAX_NAME_STRING_LENGTH : Z := 64.
Definition NV2080_GPU_MAX_ENGINES_LIST_SIZE : Z := 84.
Definition NV2080_CTRL_GPU_ECC_UNIT_COUNT : Z := 41.
Definition NV2080_GPU_MAX_GID_LENGTH : Z := 256.
Definition NV2080_CTRL_FB_INFO_MAX_LIST_SIZE : Z := 128.
Definition NV2080_CTRL_BUS_INFO_MAX_LIST_SIZE : Z := 52.
Definition NV2080_CTRL_BUS_MAX_PCI_BARS : Z := 8.
Definition NV2080_CTRL_PCIE_SUPPORTED_GPU_ATOMICS_OP_TYPE_COUNT : Z := 13.
Definition NV2080_CTRL_GR_GET_GLOBAL_SM_ORDER_MAX_SM_COUNT : Z := 512.
Definition NV2080_CTRL_CE_CAPS_TBL_SIZE : Z := 2.
Definition NV2080_CTRL_MAX_CES : Z := 64.
Definition NV2080_GSP_MAX_BUILD_VERSION_LENGTH : Z := 64.
Definition NV2080_CTRL_GRMGR_GR_FS_INFO_MAX_QUERIES : Z := 96.
Definition NV0000_SYNC_GPU_BOOST_MAX_GROUPS : Z := 16.
Definition NV_MAX_DEVICES : Z := 32.

Definition RmI2cAccessParams : layout :=
  [("h_client", U32);
   ("h_device", U32);
   ("param_size", U32);
   ("param_struct_ptr", U64);
   ("status", U32)].

Definition RmIdleChannelsParams : layout :=
  [("h_client", U32);
   ("h_device", U32);
   ("h_channel", U32);
   ("num_channels", U32);
   ("ph_clients", U64);
   ("ph_devices", U64);
   ("ph_channels", U64);
   ("flags", U32);
   ("timeout", U32);
   ("status", U32)].

Definition RmVidHeapControlPrefix : layout :=
  [("h_root", U32);
   ("h_object_parent", U32);
   ("function", U32);
   ("h_vaspace", U32);
   ("ivc_heap_number", I16);
   ("_pad0", U16);
   ("status", U32);
   ("total", U64);
   ("free", U64)].

Definition RmVidHeapAllocSizeData : layout :=
  [("owner", U32);
   ("h_memory", U32);
   ("mem_type", U32);
   ("flags", U32);
   ("attr", U32);
   ("format", U32);
   ("compr_covg", U32);
   ("zcull_covg", U32);
   ("partition_stride", U32);
   ("width", U32);
   ("height", U32);
   ("size", U64);
   ("alignment", U64);
   ("offset", U64);
   ("limit", U64);
   ("address", U64);
   ("range_begin", U64);
   ("range_end", U64);
   ("attr2", U32);
   ("ctag_offset", U32);
   ("numa_node", I32)].

Definition RmVidHeapFreeData : layout :=
  [("owner", U32);
   ("h_memory", U32);
   ("flags", U32)].

Definition RmVidHeapAllocOsDescData : layout :=
  [("h_memory", U32);
   ("mem_type", U32);
   ("flags", U32);
   ("attr", U32);
   ("attr2", U32);
   ("descriptor", U64);
   ("limit", U64);
   ("descriptor_type", U32)].

Definition RmAccessRegistryParams : layout :=
  [("h_client", U32);
   ("h_object", U32);
   ("access_type", U32);
   ("dev_node_length", U32);
   ("p_dev_node", U64);
   ("parm_str_length", U32);
   ("p_parm_str", U64);
   ("binary_data_length", U32);
   ("p_binary_data", U64);
   ("data", U32);
   ("entry", U32);
   ("status", U32)].

Definition RmAllocContextDma2Params : layout :=
  [("h_object_parent", U32);
   ("h_sub_device", U32);
   ("h_object_new", U32);
   ("h_class", U32);
   ("flags", U32);
   ("selector", U32);
   ("h_memory", U32);
   ("_pad0", U32);
   ("offset", U64);
   ("limit", U64);
   ("status", U32)].

Definition RmGetEventDataParams : layout :=
  [("p_event", U64);
   ("more_events", U32);
   ("status", U32)].

Definition RmUnixEvent : layout :=
  [("h_object", U32);
   ("notify_index", U32);
   ("info32", U32);
   ("info16", U16);
   ("_pad0", U16)].

Definition RmMapMemoryDmaParams : layout :=
  [("h_client", U32);
   ("h_device", U32);
   ("h_dma", U32);
   ("h_memory", U32);
   ("offset", U64);
   ("length", U64);
   ("flags", U32);
   ("flags2", U32);
   ("kind_override", U32);
   ("_pad0", U32);
   ("dma_offset", U64);
   ("status", U32)].

Definition RmUnmapMemoryDmaParams : layout :=
  [("h_client", U32);
   ("h_device", U32);
   ("h_dma", U32);
   ("h_memory", U32);
   ("flags", U32);
   ("_pad0", U32);
   ("dma_offset", U64);
   ("size", U64);
   ("status", U32)].

Definition RmBindContextDmaParams : layout :=
  [("h_client", U32);
   ("h_channel", U32);
   ("h_ctx_dma", U32);
   ("status", U32)].

Definition RmDupObjectParams : layout :=
  [("h_client", U32);
   ("h_parent", U32);
   ("h_object", U32);
   ("h_client_src", U32);
   ("h_object_src", U32);
   ("flags", U32);
   ("status", U32)].

Definition RmUpdateDeviceMappingInfoParams : layout :=
  [("h_client", U32);
   ("h_device", U32);
   ("h_memory", U32);
   ("_pad0", U32);
   ("p_old_cpu_address", U64);
   ("p_new_cpu_address", U64);
   ("status", U32)].

Definition RsAccessMask : layout :=
  [("limbs", Arr U32 1)].

Definition RsSharePolicy : layout :=
  [("target", U32);
   ("access_mask", Struct RsAccessMask);
   ("policy_type", U16);
   ("action", U8);
   ("_pad0", U8)].

Definition RmShareParams : layout :=
  [("h_client", U32);
   ("h_object", U32);
   ("share_policy", Struct RsSharePolicy);
   ("status", U32)].

Definition RmAddVblankCallbackParams : layout :=
  [("h_client", U32);
   ("h_device", U32);
   ("h_vblank", U32);
   ("_pad0", U32);
   ("p_proc", U64);
   ("logical_head", U32);
   ("_pad1", U32);
   ("p_parm1", U64);
   ("p_parm2", U64);
   ("b_add", U32);
   ("status", U32)].

Definition Nv0000CtrlSystemGetFeaturesParams : layout :=
  [("features_mask", U32)].

Definition Nv0000CtrlClientSetInheritedSharePolicyParams : layout :=
  [("share_policy", Struct RsSharePolicy)].

Definition Nv0000CtrlGpuGetAttachedIdsParams : layout :=
  [("gpu_ids", Arr U32 NV0000_CTRL_GPU_MAX_ATTACHED_GPUS)].

Definition Nv0000CtrlGpuGetIdInfoParams : layout :=
  [("gpu_id", U32);
   ("gpu_flags", U32);
   ("device_instance", U32);
   ("sub_device_instance", U32);
   ("sz_name", U64);
   ("sli_status", U32);
   ("board_id", U32);
   ("gpu_instance", U32);
   ("numa_id", I32)].

Definition Nv0000CtrlGpuGetIdInfoV2Params : layout :=
  [("gpu_id", U32);
   ("gpu_flags", U32);
   ("device_instance", U32);
   ("sub_device_instance", U32);
   ("sli_status", U32);
   ("board_id", U32);
   ("gpu_instance", U32);
   ("numa_id", I32)].

Definition Nv0000CtrlGpuGetProbedIdsParams : layout :=
  [("gpu_ids", Arr U32 NV0000_CTRL_GPU_MAX_PROBED_GPUS);
   ("excluded_gpu_ids", Arr U32 NV0000_CTRL_GPU_MAX_PROBED_GPUS);
   ("gpu_flags", Arr U32 NV0000_CTRL_GPU_MAX_PROBED_GPUS)].

Definition Nv0000CtrlGpuAttachIdsParams : layout :=
  [("gpu_ids", Arr U32 NV0000_CTRL_GPU_MAX_PROBED_GPUS);
   ("failed_id", U32)].

Definition Nv0000CtrlGpuActiveDevice : layout :=
  [("gpu_id", U32);
   ("gpu_instance_id", U32);
   ("compute_instance_id", U32)].

Definition Nv0000CtrlGpuGetActiveDeviceIdsParams : layout :=
  [("num_devices", U32);
   ("devices", Arr (Struct Nv0000CtrlGpuActiveDevice) NV0000_CTRL_GPU_MAX_ACTIVE_DEVICES)].

Definition Nv0000CtrlSystemGetFabricStatusParams : layout :=
  [("fabric_status", U32)].

Definition Nv0000CtrlGpuGetMemopEnableParams : layout :=
  [("enable_mask", U32)].

Definition Nv0000CtrlSystemGetP2PCapsMatrixParams : layout :=
  [("grp_a_count", U32);
   ("grp_b_count", U32);
   ("gpu_id_grp_a", Arr U32 NV0000_CTRL_SYSTEM_MAX_P2P_GROUP_GPUS);
   ("gpu_id_grp_b", Arr U32 NV0000_CTRL_SYSTEM_MAX_P2P_GROUP_GPUS);
   ("p2p_caps", Arr (Arr U32 NV0000_CTRL_SYSTEM_MAX_P2P_GROUP_GPUS) NV0000_CTRL_SYSTEM_MAX_P2P_GROUP_GPUS);
   ("a2b_optimal_read_ces", Arr (Arr U32 NV0000_CTRL_SYSTEM_MAX_P2P_GROUP_GPUS) NV0000_CTRL_SYSTEM_MAX_P2P_GROUP_GPUS);
   ("a2b_optimal_write_ces", Arr (Arr U32 NV0000_CTRL_SYSTEM_MAX_P2P_GROUP_GPUS) NV0000_CTRL_SYSTEM_MAX_P2P_GROUP_GPUS);
   ("b2a_optimal_read_ces", Arr (Arr U32 NV0000_CTRL_SYSTEM_MAX_P2P_GROUP_GPUS) NV0000_CTRL_SYSTEM_MAX_P2P_GROUP_GPUS);
   ("b2a_optimal_write_ces", Arr (Arr U32 NV0000_CTRL_SYSTEM_MAX_P2P_GROUP_GPUS) NV0000_CTRL_SYSTEM_MAX_P2P_GROUP_GPUS)].

Definition Nv0080CtrlHostGetCapsV2Params : layout :=
  [("caps_tbl", Arr U8 3)].

Definition Nv0080CtrlGpuGetNumSubdevicesParams : layout :=
  [("num_sub_devices", U32)].

Definition Nv0080CtrlGpuGetClasslistV2Params : layout :=
  [("num_classes", U32);
   ("class_list", Arr U32 NV0080_CTRL_GPU_CLASSLIST_MAX_SIZE)].

Definition Nv0080CtrlGpuGetVirtualizationModeParams : layout :=
  [("virtualization_mode", U32);
   ("is_grid_build", U8);
   ("_pad0", Arr U8 3)].

Definition Nv0080CtrlFifoGetChannellistParams : layout :=
  [("num_channels", U32);
   ("p_channel_handle_list", U64);
   ("p_channel_list", U64)].

Definition Nv0080CtrlPerfCudaLimitControlParams : layout :=
  [("b_cuda_limit", U8)].

Definition Nv0080CtrlFbGetCapsV2Params : layout :=
  [("caps_tbl", Arr U8 NV0080_CTRL_FB_CAPS_TBL_SIZE)].

Definition Nv906fCtrlGetClassEngineIdParams : layout :=
  [("h_object", U32);
   ("class_engine_id", U32);
   ("class_id", U32);
   ("engine_id", U32)].

Definition Nvc36fCtrlCmdGpfifoGetWorkSubmitTokenParams : layout :=
  [("work_submit_token", U32)].

Definition Nv2080CtrlMcGetArchInfoParams : layout :=
  [("architecture", U32);
   ("implementation", U32);
   ("revision", U32);
   ("sub_revision", U8);
   ("_pad0", Arr U8 3)].

Definition NvxxxxCtrlXxxInfo : layout :=
  [("index", U32);
   ("data", U32)].

Definition Nv2080CtrlGpuGetInfoV2Params : layout :=
  [("gpu_info_list_size", U32);
   ("gpu_info_list", Arr (Struct NvxxxxCtrlXxxInfo) NV2080_CTRL_GPU_INFO_MAX_LIST_SIZE)].

Definition Nv2080CtrlGpuGetNameStringParams : layout :=
  [("gpu_name_string_flags", U32);
   ("gpu_name_string", Arr U8 (NV2080_GPU_MAX_NAME_STRING_LENGTH * 2))].

Definition Nv2080CtrlGpuGetShortNameStringParams : layout :=
  [("gpu_short_name_string", Arr U8 NV2080_GPU_MAX_NAME_STRING_LENGTH)].

Definition Nv2080CtrlGpuGetSimulationInfoParams : layout :=
  [("sim_type", U32)].

Definition Nv2080CtrlGpuGetEnginesV2Params : layout :=
  [("engine_count", U32);
   ("engine_list", Arr U32 NV2080_GPU_MAX_ENGINES_LIST_SIZE)].

Definition Nv2080CtrlGpuQueryComputeModeRulesParams : layout :=
  [("rules", U32)].

Definition Nv2080CtrlGpuQueryEccExceptionStatus : layout :=
  [("count", U64)].

Definition Nv2080CtrlGpuQueryEccUnitStatus : layout :=
  [("enabled", U8);
   ("scrub_complete", U8);
   ("supported", U8);
   ("_pad0", Arr U8 5);
   ("dbe", Struct Nv2080CtrlGpuQueryEccExceptionStatus);
   ("dbe_non_resettable", Struct Nv2080CtrlGpuQueryEccExceptionStatus);
   ("sbe", Struct Nv2080CtrlGpuQueryEccExceptionStatus);
   ("sbe_non_resettable", Struct Nv2080CtrlGpuQueryEccExceptionStatus)].

Definition Nv2080CtrlGpuGetGidInfoParams : layout :=
  [("index", U32);
   ("flags", U32);
   ("length", U32);
   ("data", Arr U8 NV2080_GPU_MAX_GID_LENGTH)].

Definition Nv2080CtrlFbGetInfoV2Params : layout :=
  [("fb_info_list_size", U32);
   ("fb_info_list", Arr (Struct NvxxxxCtrlXxxInfo) NV2080_CTRL_FB_INFO_MAX_LIST_SIZE)].

Definition Nv2080CtrlBusGetInfoV2Params : layout :=
  [("bus_info_list_size", U32);
   ("bus_info_list", Arr (Struct NvxxxxCtrlXxxInfo) NV2080_CTRL_BUS_INFO_MAX_LIST_SIZE)].

Definition Nv2080CtrlBusGetC2cInfoParams : layout :=
  [("b_is_link_up", U8);
   ("b_link_in_hs", U8);
   ("_pad0", Arr U8 2);
   ("nr_links", U32);
   ("max_nr_links", U32);
   ("link_mask", U32);
   ("per_link_bw_mbps", U32);
   ("per_link_lane_width", U32);
   ("remote_type", U32)].

Definition Nv2080CtrlBusGetPciInfoParams : layout :=
  [("pci_device_id", U32);
   ("pci_sub_system_id", U32);
   ("pci_revision_id", U32);
   ("pci_ext_device_id", U32)].

Definition Nv2080CtrlBusPciBarInfo : layout :=
  [("flags", U32);
   ("bar_size", U32);
   ("bar_size_bytes", U64);
   ("bar_offset", U64)].

Definition Nv2080CtrlBusGetPciBarInfoParams : layout :=
  [("pci_bar_count", U32);
   ("_pad0", U32);
   ("pci_bar_info", Arr (Struct Nv2080CtrlBusPciBarInfo) NV2080_CTRL_BUS_MAX_PCI_BARS)].

Definition Nv2080CtrlBusPcieGpuAtomicOpInfo : layout :=
  [("b_supported", U8);
   ("_pad0", Arr U8 3);
   ("attributes", U32)].

Definition Nv2080CtrlCmdBusGetPcieSupportedGpuAtomicsParams : layout :=
  [("cap_type", U32);
   ("dbdf", U32);
   ("atomic_op", Arr (Struct Nv2080CtrlBusPcieGpuAtomicOpInfo) NV2080_CTRL_PCIE_SUPPORTED_GPU_ATOMICS_OP_TYPE_COUNT)].

Definition Nv2080CtrlGrRouteInfo : layout :=
  [("flags", U32);
   ("_pad0", U32);
   ("route", U64)].

Definition Nv2080CtrlGrGetInfoParams : layout :=
  [("gr_info_list_size", U32);
   ("_pad0", U32);
   ("gr_info_list", U64);
   ("gr_route_info", Struct Nv2080CtrlGrRouteInfo)].

Definition Nv2080CtrlGrGlobalSmId : layout :=
  [("gpc_id", U16);
   ("local_tpc_id", U16);
   ("local_sm_id", U16);
   ("global_tpc_id", U16);
   ("virtual_gpc_id", U16);
   ("migratable_tpc_id", U16);
   ("ugpu_id", U16);
   ("physical_cpc_id", U16);
   ("virtual_tpc_id", U16)].

Definition Nv2080CtrlGrGetGlobalSmOrderParams : layout :=
  [("global_sm_id", Arr (Struct Nv2080CtrlGrGlobalSmId) NV2080_CTRL_GR_GET_GLOBAL_SM_ORDER_MAX_SM_COUNT);
   ("num_sm", U16);
   ("num_tpc", U16);
   ("_pad0", U32);
   ("gr_route_info", Struct Nv2080CtrlGrRouteInfo)].

Definition Nv2080CtrlGrGetGpcMaskParams : layout :=
  [("gr_route_info", Struct Nv2080CtrlGrRouteInfo);
   ("gpc_mask", U32);
   ("_pad0", U32)].

Definition Nv2080CtrlGrGetTpcMaskParams : layout :=
  [("gr_route_info", Struct Nv2080CtrlGrRouteInfo);
   ("gpc_id", U32);
   ("tpc_mask", U32)].

Definition Nv2080CtrlGrSetCtxswPreemptionModeParams : layout :=
  [("flags", U32);
   ("h_channel", U32);
   ("gfxp_preempt_mode", U32);
   ("cilp_preempt_mode", U32);
   ("gr_route_info", Struct Nv2080CtrlGrRouteInfo)].

Definition Nv2080CtrlGrGetCtxBufferSizeParams : layout :=
  [("h_channel", U32);
   ("_pad0", U32);
   ("total_buffer_size", U64)].

Definition Nv2080CtrlCeGetAllCapsParams : layout :=
  [("caps_tbl", Arr (Arr U8 NV2080_CTRL_CE_CAPS_TBL_SIZE) NV2080_CTRL_MAX_CES);
   ("present", U64)].

Definition Nv2080CtrlGspGetFeaturesParams : layout :=
  [("gsp_features", U32);
   ("b_valid", U8);
   ("b_default_gsp_rm_gpu", U8);
   ("_pad0", Arr U8 2);
   ("firmware_version", Arr U8 NV2080_GSP_MAX_BUILD_VERSION_LENGTH)].

Definition Nv2080CtrlGrmgrGrFsInfoQueryParams : layout :=
  [("query_type", U16);
   ("reserved", Arr U8 2);
   ("status", U32);
   ("query_data_words", Arr U32 3)].

Definition Nv2080CtrlGrmgrGetGrFsInfoParams : layout :=
  [("num_queries", U16);
   ("reserved", Arr U8 6);
   ("queries", Arr (Struct Nv2080CtrlGrmgrGrFsInfoQueryParams) NV2080_CTRL_GRMGR_GR_FS_INFO_MAX_QUERIES)].

Definition Nv2080CtrlNvlinkLinkMask : layout :=
  [("len_masks", U8);
   ("_pad0", Arr U8 7);
   ("masks", Arr U64 1)].

Definition Nv2080CtrlNvlinkGetNvlinkStatusParamsPrefix : layout :=
  [("enabled_link_mask", U32);
   ("_pad0", U32);
   ("enabled_links", Struct Nv2080CtrlNvlinkLinkMask);
   ("b_sublink_state_inst", U8);
   ("b_nvle_mode_enabled", U8)].

Definition NvConfComputeCtrlCmdSystemGetCapabilitiesParams : layout :=
  [("cpu_capability", U8);
   ("gpus_capability", U8);
   ("environment", U8);
   ("cc_feature", U8);
   ("dev_tools_mode", U8);
   ("multi_gpu_mode", U8)].

Definition Nv0000SyncGpuBoostGroupConfig : layout :=
  [("gpu_count", U32);
   ("gpu_ids", Arr U32 NV_MAX_DEVICES);
   ("boost_group_id", U32);
   ("b_bridgeless", U8);
   ("_pad0", Arr U8 3)].

Definition Nv0000SyncGpuBoostGroupInfoParams : layout :=
  [("group_count", U32);
   ("boost_groups", Arr (Struct Nv0000SyncGpuBoostGroupConfig) NV0000_SYNC_GPU_BOOST_MAX_GROUPS)].

Definition Nva06cCtrlGpfifoScheduleParams : layout :=
  [("b_enable", U8);
   ("b_skip_submit", U8);
   ("b_skip_enable", U8)].

Definition Nva06cCtrlTimesliceParams : layout :=
  [("timeslice_us", U64)].

Definition Nva06cCtrlPreemptParams : layout :=
  [("b_wait", U8);
   ("b_manual_timeout", U8);
   ("_pad0", Arr U8 2);
   ("timeout_us", U32)].

Definition Nv83deCtrlDebugSetExceptionMaskParams : layout :=
  [("exception_mask", U32)].

Definition Nv2080CtrlPerfBoostParams : layout :=
  [("flags", U32);
   ("duration", U32)].

Definition Nv0080CtrlGrGetCapsV2Params : layout :=
  [("caps_tbl", Arr U8 NV0080_CTRL_GR_CAPS_TBL_SIZE);
   ("_pad0", U8);
   ("gr_route_info", Struct Nv2080CtrlGrRouteInfo);
   ("b_caps_populated", U8);
   ("_pad1", Arr U8 7)].

Definition Nv2080CtrlGpuQueryEccStatusParams : layout :=
  [("units", Arr (Struct Nv2080CtrlGpuQueryEccUnitStatus) NV2080_CTRL_GPU_ECC_UNIT_COUNT);
   ("b_fatal_poison_error", U8);
   ("uncorrectable_error", U8);
   ("_pad0", Arr U8 2);
   ("flags", U32);
   ("gr_route_info", Struct Nv2080CtrlGrRouteInfo)].

(** ** The layouts against the headers: the assertions of
    [nvidia_struct_layout_matches_headers] *)

Definition header_sizes : list (layout * Z) :=
  [(NvPciInfo, 12);
   (NvIoctlCardInfo, 72);
   (NvIoctlXfer, 16);
   (NvIoctlRegisterFd, 4);
   (NvIoctlAllocOsEvent, 16);
   (NvIoctlStatusCode, 12);
   (NvIoctlRmApiVersion, 72);
   (NvIoctlQueryDeviceIntr, 8);
   (NvIoctlSysParams, 8);
   (NvIoctlWaitOpenComplete, 8);
   (NvIoctlNumaInfo, 560);
   (NvIoctlSetNumaStatus, 4);
   (NvIoctlExportToDmaBufFdPrefix, 40);
   (NvOs00Parameters, 16);
   (NvOs02Parameters, 48);
   (NvIoctlNvos02ParametersWithFd, 56);
   (NvOs05Parameters, 20);
   (NvOs21Parameters, 32);
   (NvOs64Parameters, 48);
   (NvOs33Parameters, 48);
   (NvIoctlNvos33ParametersWithFd, 56);
   (NvOs34Parameters, 32);
   (NvOs54Parameters, 32);
   (Nv0000CtrlClientGetAddrSpaceTypeParams, 12);
   (Nv0000CtrlOsUnixGetControlFileDescriptorParams, 4);
   (Nv0000CtrlSystemGetBuildVersionParams, 40)].

Definition header_aligns : list (layout * Z) :=
  [(NvIoctlXfer, 8);
   (NvOs54Parameters, 8);
   (Nv0000CtrlClientGetAddrSpaceTypeParams, 4);
   (Nv0000CtrlOsUnixGetControlFileDescriptorParams, 4);
   (Nv0000CtrlSystemGetBuildVersionParams, 8)].

Lemma nvidia_struct_layout :
  forallb (fun e => struct_size e.1 =? e.2) header_sizes
  && forallb (fun e => align_of (Struct e.1) =? e.2) header_aligns = true.
Proof. by vm_compute. Qed.
