(* ===== verification/RmNames.v ===== *)
(** * Names of RM escapes, control commands, classes and flags
    ([src/src/decode/ioctl_rm.rs]), with the tables that [src/build.rs] writes

    A [match] on a constant is the list of its arms, in the order of the source. *)
From S2P Require Import Prelude RustStr Layout RmTypes.
#[global] Open Scope rust_scope.

(** ** The tables of build.rs *)
Definition GENERATED_RM_CONTROL_CMD_NAMES : list (Z * string) :=
  [(0x13e, "NV0000_CTRL_CMD_SYSTEM_GET_BUILD_VERSION_V2");
   (0x20800147, "NV2080_CTRL_CMD_GPU_GET_ENGINE_PARTNERLIST");
   (0x20800601, "NV2080_CTRL_CMD_I2C_READ_BUFFER")].
Definition GENERATED_NV_ESC_CMD_NAMES : list (Z * string) := [].
Definition GENERATED_RM_INTERFACE_NAMES : list (Z * string) :=
  [(0x208101, "NV2081_BINAPI")].

(** ** The maps loaded from them *)

(** [map.entry(k).or_insert(name)] for each entry. *)
Definition load_names (table : list (Z * string)) : gmap Z string :=
  foldl (fun map e => match map !! e.1 with Some _ => map | None => <[e.1 := e.2]> map end) ∅ table.

Definition load_extra_nv_esc_cmd_names : gmap Z string := load_names GENERATED_NV_ESC_CMD_NAMES.
Definition load_extra_rm_control_cmd_names : gmap Z string := load_names GENERATED_RM_CONTROL_CMD_NAMES.
Definition load_extra_rm_interface_names : gmap Z string := load_names GENERATED_RM_INTERFACE_NAMES.

Definition generated_nv_esc_cmd_name (nr : Z) : option string := load_extra_nv_esc_cmd_names !! nr.
Definition generated_rm_control_cmd_name (cmd : Z) : option string := load_extra_rm_control_cmd_names !! cmd.
Definition generated_rm_interface_name (interface_id : Z) : option string :=
  load_extra_rm_interface_names !! interface_id.

(** ** Names *)

Definition nv2080_interface_name (interface : Z) : option string :=
  match_const interface
    [(0x00, "RESERVED"); (0x01, "GPU"); (0x81, "GPU_LEGACY_NON_PRIVILEGED");
      (0x02, "FUSE"); (0x82, "FUSE_LEGACY_NON_PRIVILEGED"); (0x03, "EVENT"); (0x04, "TIMER");
      (0x05, "THERMAL"); (0xc5, "THERMAL_LEGACY_PRIVILEGED"); (0x85, "THERMAL_LEGACY_NON_PRIVILEGED");
      (0x06, "I2C"); (0x07, "EXTI2C"); (0x08, "BIOS"); (0x09, "CIPHER"); (0x0a, "INTERNAL");
      (0xd0, "CLK_LEGACY_PRIVILEGED"); (0x90, "CLK_LEGACY_NON_PRIVILEGED"); (0x10, "CLK"); (0x11, "FIFO");
      (0x12, "GR"); (0x13, "FB"); (0x17, "MC"); (0x18, "BUS"); (0xe0, "PERF_LEGACY_PRIVILEGED");
      (0xa0, "PERF_LEGACY_NON_PRIVILEGED"); (0x20, "PERF"); (0x21, "NVIF"); (0x22, "RC"); (0x23, "GPIO");
      (0xa3, "GPIO_LEGACY_NON_PRIVILEGED"); (0x24, "NVD"); (0x25, "DMA"); (0x26, "PMGR");
      (0xe6, "PMGR_LEGACY_PRIVILEGED"); (0xa6, "PMGR_LEGACY_NON_PRIVILEGED"); (0x27, "POWER");
      (0xa7, "POWER_LEGACY_NON_PRIVILEGED"); (0x28, "LPWR"); (0xa8, "LPWR_LEGACY_NON_PRIVILEGED");
      (0xe8, "LPWR_LEGACY_PRIVILEGED"); (0x29, "ACR"); (0x2a, "CE"); (0x2b, "SPI"); (0x30, "NVLINK");
      (0x31, "FLCN"); (0x32, "VOLT"); (0xf2, "VOLT_LEGACY_PRIVILEGED");
      (0xb2, "VOLT_LEGACY_NON_PRIVILEGED"); (0x33, "FAS"); (0x34, "ECC"); (0xb4, "ECC_NON_PRIVILEGED");
      (0x35, "FLA"); (0x36, "GSP"); (0x37, "NNE"); (0xb7, "NNE_LEGACY_NON_PRIVILEGED"); (0x38, "GRMGR");
      (0x39, "UCODE_FUZZER"); (0x3a, "DMABUF"); (0x3b, "BIF"); (0x3d, "OS_UNIX"); (0x3e, "OS_MACOS");
      (0x3f, "OS_WINDOWS")].

Definition rm_control_interface_name (cmd : Z) : option string :=
  if negb ((Z.shiftr cmd 16) =? 0x2080) then
    None
  else
  nv2080_interface_name (as_u8 (Z.land (Z.shiftr cmd 8) 0xff)).

Definition rm_control_legacy_family_and_msg_id (cmd : Z) : option (string * Z) :=
  if negb ((Z.shiftr cmd 16) =? 0x2080) then
    None
  else
  let interface := as_u8 (Z.land (Z.shiftr cmd 8) 0xff) in
  let msg_id := as_u8 (Z.land cmd 0xff) in
  match match_const interface [(0x81, "GPU_LEGACY_NON_PRIVILEGED"); (0x82, "FUSE_LEGACY_NON_PRIVILEGED");
      (0x85, "THERMAL_LEGACY_NON_PRIVILEGED"); (0x90, "CLK_LEGACY_NON_PRIVILEGED");
      (0xa0, "PERF_LEGACY_NON_PRIVILEGED"); (0xa3, "GPIO_LEGACY_NON_PRIVILEGED");
      (0xa6, "PMGR_LEGACY_NON_PRIVILEGED"); (0xa7, "POWER_LEGACY_NON_PRIVILEGED");
      (0xa8, "LPWR_LEGACY_NON_PRIVILEGED"); (0xb2, "VOLT_LEGACY_NON_PRIVILEGED");
      (0xb4, "ECC_NON_PRIVILEGED"); (0xb7, "NNE_LEGACY_NON_PRIVILEGED");
      (0xc5, "THERMAL_LEGACY_PRIVILEGED"); (0xd0, "CLK_LEGACY_PRIVILEGED");
      (0xe0, "PERF_LEGACY_PRIVILEGED"); (0xe6, "PMGR_LEGACY_PRIVILEGED"); (0xe8, "LPWR_LEGACY_PRIVILEGED");
      (0xf2, "VOLT_LEGACY_PRIVILEGED")] with
  | None => None
  | Some family =>
    Some (family, msg_id)
  end.

Definition rm_control_cmd_name_fallback (cmd : Z) : string :=
  match rm_control_legacy_family_and_msg_id cmd with
  | Some (family, msg_id) =>
    "NV2080_CTRL_CMD_" +:+ family +:+ "_0x" +:+ pad0 2 (fmt_x msg_id)
  | None =>
    match rm_control_interface_name cmd with
    | Some interface_name =>
      let msg_id := as_u8 (Z.land cmd 0xff) in
      "NV2080_CTRL_CMD_" +:+ interface_name +:+ "_0x" +:+ pad0 2 (fmt_x msg_id)
    | None =>
      let interface_id := Z.shiftr cmd 8 in
      let msg_id := as_u8 (Z.land cmd 0xff) in
      match generated_rm_interface_name interface_id with
      | Some interface_name =>
        interface_name +:+ "_CMD_0x" +:+ pad0 2 (fmt_x msg_id)
      | None =>
        "UNKNOWN"
      end
    end
  end.

Definition rm_control_names : list (Z * string) :=
  [(NV0000_CTRL_CMD_SYSTEM_GET_BUILD_VERSION, "NV0000_CTRL_CMD_SYSTEM_GET_BUILD_VERSION");
   (NV0000_CTRL_CMD_SYSTEM_GET_FABRIC_STATUS, "NV0000_CTRL_CMD_SYSTEM_GET_FABRIC_STATUS");
   (NV0000_CTRL_CMD_SYSTEM_GET_P2P_CAPS_MATRIX, "NV0000_CTRL_CMD_SYSTEM_GET_P2P_CAPS_MATRIX");
   (NV0000_CTRL_CMD_CLIENT_GET_ADDR_SPACE_TYPE, "NV0000_CTRL_CMD_CLIENT_GET_ADDR_SPACE_TYPE");
   (NV0000_CTRL_CMD_OS_UNIX_GET_CONTROL_FILE_DESCRIPTOR, "NV0000_CTRL_CMD_OS_UNIX_GET_CONTROL_FILE_DESCRIPTOR");
   (NV0000_CTRL_CMD_CLIENT_SET_INHERITED_SHARE_POLICY, "NV0000_CTRL_CMD_CLIENT_SET_INHERITED_SHARE_POLICY");
   (NV0000_CTRL_CMD_SYSTEM_GET_FEATURES, "NV0000_CTRL_CMD_SYSTEM_GET_FEATURES");
   (NV0000_CTRL_CMD_GPU_GET_MEMOP_ENABLE, "NV0000_CTRL_CMD_GPU_GET_MEMOP_ENABLE");
   (NV0000_CTRL_CMD_GPU_GET_ATTACHED_IDS, "NV0000_CTRL_CMD_GPU_GET_ATTACHED_IDS");
   (NV0000_CTRL_CMD_GPU_GET_ID_INFO, "NV0000_CTRL_CMD_GPU_GET_ID_INFO");
   (NV0000_CTRL_CMD_GPU_GET_ID_INFO_V2, "NV0000_CTRL_CMD_GPU_GET_ID_INFO_V2");
   (NV0000_CTRL_CMD_GPU_GET_PROBED_IDS, "NV0000_CTRL_CMD_GPU_GET_PROBED_IDS");
   (NV0000_CTRL_CMD_GPU_ATTACH_IDS, "NV0000_CTRL_CMD_GPU_ATTACH_IDS");
   (NV0000_CTRL_CMD_GPU_GET_ACTIVE_DEVICE_IDS, "NV0000_CTRL_CMD_GPU_GET_ACTIVE_DEVICE_IDS");
   (NV0000_CTRL_CMD_SYNC_GPU_BOOST_GROUP_INFO, "NV0000_CTRL_CMD_SYNC_GPU_BOOST_GROUP_INFO");
   (NV0080_CTRL_CMD_HOST_GET_CAPS_V2, "NV0080_CTRL_CMD_HOST_GET_CAPS_V2");
   (NV0080_CTRL_CMD_GPU_GET_NUM_SUBDEVICES, "NV0080_CTRL_CMD_GPU_GET_NUM_SUBDEVICES");
   (NV0080_CTRL_CMD_GPU_GET_CLASSLIST_V2, "NV0080_CTRL_CMD_GPU_GET_CLASSLIST_V2");
   (NV0080_CTRL_CMD_GPU_GET_VIRTUALIZATION_MODE, "NV0080_CTRL_CMD_GPU_GET_VIRTUALIZATION_MODE");
   (NV0080_CTRL_CMD_FIFO_GET_CHANNELLIST, "NV0080_CTRL_CMD_FIFO_GET_CHANNELLIST");
   (NV0080_CTRL_CMD_PERF_CUDA_LIMIT_SET_CONTROL, "NV0080_CTRL_CMD_PERF_CUDA_LIMIT_SET_CONTROL");
   (NV0080_CTRL_CMD_FB_GET_CAPS_V2, "NV0080_CTRL_CMD_FB_GET_CAPS_V2");
   (NV906F_CTRL_GET_CLASS_ENGINEID, "NV906F_CTRL_GET_CLASS_ENGINEID");
   (NVC36F_CTRL_CMD_GPFIFO_GET_WORK_SUBMIT_TOKEN, "NVC36F_CTRL_CMD_GPFIFO_GET_WORK_SUBMIT_TOKEN");
   (NV2080_CTRL_CMD_GPU_GET_INFO_V2, "NV2080_CTRL_CMD_GPU_GET_INFO_V2");
   (NV2080_CTRL_CMD_GPU_GET_NAME_STRING, "NV2080_CTRL_CMD_GPU_GET_NAME_STRING");
   (NV2080_CTRL_CMD_GPU_GET_SHORT_NAME_STRING, "NV2080_CTRL_CMD_GPU_GET_SHORT_NAME_STRING");
   (NV2080_CTRL_CMD_GPU_GET_SIMULATION_INFO, "NV2080_CTRL_CMD_GPU_GET_SIMULATION_INFO");
   (NV2080_CTRL_CMD_GPU_QUERY_ECC_STATUS, "NV2080_CTRL_CMD_GPU_QUERY_ECC_STATUS");
   (NV2080_CTRL_CMD_GPU_QUERY_COMPUTE_MODE_RULES, "NV2080_CTRL_CMD_GPU_QUERY_COMPUTE_MODE_RULES");
   (NV2080_CTRL_CMD_GPU_GET_GID_INFO, "NV2080_CTRL_CMD_GPU_GET_GID_INFO");
   (NV2080_CTRL_CMD_GPU_GET_ENGINES_V2, "NV2080_CTRL_CMD_GPU_GET_ENGINES_V2");
   (NV2080_CTRL_CMD_GR_GET_INFO, "NV2080_CTRL_CMD_GR_GET_INFO");
   (NV2080_CTRL_CMD_GR_GET_GLOBAL_SM_ORDER, "NV2080_CTRL_CMD_GR_GET_GLOBAL_SM_ORDER");
   (NV2080_CTRL_CMD_GR_GET_CAPS_V2, "NV2080_CTRL_CMD_GR_GET_CAPS_V2");
   (NV2080_CTRL_CMD_GR_GET_GPC_MASK, "NV2080_CTRL_CMD_GR_GET_GPC_MASK");
   (NV2080_CTRL_CMD_GR_GET_TPC_MASK, "NV2080_CTRL_CMD_GR_GET_TPC_MASK");
   (NV2080_CTRL_CMD_GR_SET_CTXSW_PREEMPTION_MODE, "NV2080_CTRL_CMD_GR_SET_CTXSW_PREEMPTION_MODE");
   (NV2080_CTRL_CMD_GR_GET_CTX_BUFFER_SIZE, "NV2080_CTRL_CMD_GR_GET_CTX_BUFFER_SIZE");
   (NV2080_CTRL_CMD_FB_GET_INFO_V2, "NV2080_CTRL_CMD_FB_GET_INFO_V2");
   (NV2080_CTRL_CMD_MC_GET_ARCH_INFO, "NV2080_CTRL_CMD_MC_GET_ARCH_INFO");
   (NV2080_CTRL_CMD_BUS_GET_PCI_INFO, "NV2080_CTRL_CMD_BUS_GET_PCI_INFO");
   (NV2080_CTRL_CMD_BUS_GET_INFO_V2, "NV2080_CTRL_CMD_BUS_GET_INFO_V2");
   (NV2080_CTRL_CMD_BUS_GET_PCI_BAR_INFO, "NV2080_CTRL_CMD_BUS_GET_PCI_BAR_INFO");
   (NV2080_CTRL_CMD_BUS_GET_PCIE_SUPPORTED_GPU_ATOMICS, "NV2080_CTRL_CMD_BUS_GET_PCIE_SUPPORTED_GPU_ATOMICS");
   (NV2080_CTRL_CMD_BUS_GET_C2C_INFO, "NV2080_CTRL_CMD_BUS_GET_C2C_INFO");
   (NV2080_CTRL_CMD_PERF_BOOST, "NV2080_CTRL_CMD_PERF_BOOST");
   (NV2080_CTRL_CMD_CE_GET_ALL_CAPS, "NV2080_CTRL_CMD_CE_GET_ALL_CAPS");
   (NV2080_CTRL_CMD_NVLINK_GET_NVLINK_STATUS, "NV2080_CTRL_CMD_NVLINK_GET_NVLINK_STATUS");
   (NV2080_CTRL_CMD_GSP_GET_FEATURES, "NV2080_CTRL_CMD_GSP_GET_FEATURES");
   (NV2080_CTRL_CMD_GRMGR_GET_GR_FS_INFO, "NV2080_CTRL_CMD_GRMGR_GET_GR_FS_INFO");
   (NVA06C_CTRL_CMD_GPFIFO_SCHEDULE, "NVA06C_CTRL_CMD_GPFIFO_SCHEDULE");
   (NVA06C_CTRL_CMD_SET_TIMESLICE, "NVA06C_CTRL_CMD_SET_TIMESLICE");
   (NVA06C_CTRL_CMD_PREEMPT, "NVA06C_CTRL_CMD_PREEMPT");
   (NV83DE_CTRL_CMD_DEBUG_SET_EXCEPTION_MASK, "NV83DE_CTRL_CMD_DEBUG_SET_EXCEPTION_MASK");
   (NV_CONF_COMPUTE_CTRL_CMD_SYSTEM_GET_CAPABILITIES, "NV_CONF_COMPUTE_CTRL_CMD_SYSTEM_GET_CAPABILITIES")].

Definition rm_control_cmd_name (cmd : Z) : string :=
  match match_const cmd rm_control_names with
  | Some name => name
  | None => default (rm_control_cmd_name_fallback cmd) (generated_rm_control_cmd_name cmd)
  end.

Definition rm_control_params_type_name (cmd_name : string) : option string :=
  if String.eqb cmd_name "UNKNOWN" then
    None
  else
  match split_once_str "_CMD_" cmd_name with
  | None => None
  | Some (prefix, suffix) =>
    if is_empty suffix then
      None
    else
    Some (prefix +:+ "_" +:+ suffix +:+ "_PARAMS")
  end.

Definition nv_esc_names : list (Z * string) :=
  [(NV_ESC_RM_ALLOC_MEMORY, "NV_ESC_RM_ALLOC_MEMORY");
   (NV_ESC_RM_ALLOC_OBJECT, "NV_ESC_RM_ALLOC_OBJECT");
   (NV_ESC_RM_FREE, "NV_ESC_RM_FREE");
   (NV_ESC_RM_CONTROL, "NV_ESC_RM_CONTROL");
   (NV_ESC_RM_ALLOC, "NV_ESC_RM_ALLOC");
   (NV_ESC_RM_CONFIG_GET, "NV_ESC_RM_CONFIG_GET");
   (NV_ESC_RM_CONFIG_SET, "NV_ESC_RM_CONFIG_SET");
   (NV_ESC_RM_DUP_OBJECT, "NV_ESC_RM_DUP_OBJECT");
   (NV_ESC_RM_SHARE, "NV_ESC_RM_SHARE");
   (NV_ESC_RM_CONFIG_GET_EX, "NV_ESC_RM_CONFIG_GET_EX");
   (NV_ESC_RM_CONFIG_SET_EX, "NV_ESC_RM_CONFIG_SET_EX");
   (NV_ESC_RM_I2C_ACCESS, "NV_ESC_RM_I2C_ACCESS");
   (NV_ESC_RM_IDLE_CHANNELS, "NV_ESC_RM_IDLE_CHANNELS");
   (NV_ESC_RM_VID_HEAP_CONTROL, "NV_ESC_RM_VID_HEAP_CONTROL");
   (NV_ESC_RM_ACCESS_REGISTRY, "NV_ESC_RM_ACCESS_REGISTRY");
   (NV_ESC_RM_MAP_MEMORY, "NV_ESC_RM_MAP_MEMORY");
   (NV_ESC_RM_UNMAP_MEMORY, "NV_ESC_RM_UNMAP_MEMORY");
   (NV_ESC_RM_GET_EVENT_DATA, "NV_ESC_RM_GET_EVENT_DATA");
   (NV_ESC_RM_ALLOC_CONTEXT_DMA2, "NV_ESC_RM_ALLOC_CONTEXT_DMA2");
   (NV_ESC_RM_ADD_VBLANK_CALLBACK, "NV_ESC_RM_ADD_VBLANK_CALLBACK");
   (NV_ESC_RM_MAP_MEMORY_DMA, "NV_ESC_RM_MAP_MEMORY_DMA");
   (NV_ESC_RM_UNMAP_MEMORY_DMA, "NV_ESC_RM_UNMAP_MEMORY_DMA");
   (NV_ESC_RM_BIND_CONTEXT_DMA, "NV_ESC_RM_BIND_CONTEXT_DMA");
   (NV_ESC_RM_EXPORT_OBJECT_TO_FD, "NV_ESC_RM_EXPORT_OBJECT_TO_FD");
   (NV_ESC_RM_IMPORT_OBJECT_FROM_FD, "NV_ESC_RM_IMPORT_OBJECT_FROM_FD");
   (NV_ESC_RM_UPDATE_DEVICE_MAPPING_INFO, "NV_ESC_RM_UPDATE_DEVICE_MAPPING_INFO");
   (NV_ESC_RM_LOCKLESS_DIAGNOSTIC, "NV_ESC_RM_LOCKLESS_DIAGNOSTIC");
   (NV_ESC_CARD_INFO, "NV_ESC_CARD_INFO");
   (NV_ESC_REGISTER_FD, "NV_ESC_REGISTER_FD");
   (NV_ESC_ALLOC_OS_EVENT, "NV_ESC_ALLOC_OS_EVENT");
   (NV_ESC_FREE_OS_EVENT, "NV_ESC_FREE_OS_EVENT");
   (NV_ESC_STATUS_CODE, "NV_ESC_STATUS_CODE");
   (NV_ESC_CHECK_VERSION_STR, "NV_ESC_CHECK_VERSION_STR");
   (NV_ESC_IOCTL_XFER_CMD, "NV_ESC_IOCTL_XFER_CMD");
   (NV_ESC_ATTACH_GPUS_TO_FD, "NV_ESC_ATTACH_GPUS_TO_FD");
   (NV_ESC_QUERY_DEVICE_INTR, "NV_ESC_QUERY_DEVICE_INTR");
   (NV_ESC_SYS_PARAMS, "NV_ESC_SYS_PARAMS");
   (NV_ESC_NUMA_INFO, "NV_ESC_NUMA_INFO");
   (NV_ESC_SET_NUMA_STATUS, "NV_ESC_SET_NUMA_STATUS");
   (NV_ESC_EXPORT_TO_DMABUF_FD, "NV_ESC_EXPORT_TO_DMABUF_FD");
   (NV_ESC_WAIT_OPEN_COMPLETE, "NV_ESC_WAIT_OPEN_COMPLETE")].

Definition outer_cmd_name (nr : Z) : string :=
  match match_const nr nv_esc_names with
  | Some name => name
  | None => default "UNKNOWN" (generated_nv_esc_cmd_name nr)
  end.

Definition rm_vid_heap_function_name (function : Z) : string :=
  default "UNKNOWN" (match_const function
    [(2, "NVOS32_FUNCTION_ALLOC_SIZE");
     (3, "NVOS32_FUNCTION_FREE");
     (5, "NVOS32_FUNCTION_INFO");
     (6, "NVOS32_FUNCTION_ALLOC_TILED_PITCH_HEIGHT");
     (14, "NVOS32_FUNCTION_ALLOC_SIZE_RANGE");
     (15, "NVOS32_FUNCTION_REACQUIRE_COMPR");
     (16, "NVOS32_FUNCTION_RELEASE_COMPR");
     (18, "NVOS32_FUNCTION_GET_MEM_ALIGNMENT");
     (19, "NVOS32_FUNCTION_HW_ALLOC");
     (20, "NVOS32_FUNCTION_HW_FREE");
     (27, "NVOS32_FUNCTION_ALLOC_OS_DESCRIPTOR")]).

Definition virtualization_mode_name (mode : Z) : string :=
  default "UNKNOWN" (match_const mode
    [(0, "NONE");
     (1, "NMOS");
     (2, "VGX");
     (3, "HOST/HOST_VGPU");
     (4, "HOST_VSGA")]).

Definition fabric_status_name (value : Z) : string :=
  default "UNKNOWN" (match_const value
    [(1, "SKIP");
     (2, "UNINITIALIZED");
     (3, "IN_PROGRESS");
     (4, "INITIALIZED")]).

Definition simulation_info_type_name (value : Z) : string :=
  default "UNKNOWN" (match_const value
    [(0, "NONE");
     (1, "MODS_AMODEL");
     (2, "LIVE_AMODEL");
     (3, "FMODEL");
     (4, "RTL");
     (5, "EMU");
     (6, "EMU_LOW_POWER");
     (7, "DFPGA");
     (8, "DFPGA_RTL");
     (9, "DFPGA_FMODEL");
     (0xffffffff, "UNKNOWN_FLAG")]).

Definition compute_mode_rules_name (value : Z) : string :=
  default "UNKNOWN" (match_const value
    [(0, "NONE");
     (1, "EXCLUSIVE_COMPUTE");
     (2, "COMPUTE_PROHIBITED");
     (3, "EXCLUSIVE_COMPUTE_PROCESS")]).

Definition c2c_remote_type_name (value : Z) : string :=
  default "UNKNOWN" (match_const value
    [(0, "NONE");
     (1, "CPU");
     (2, "GPU")]).

Definition grmgr_query_type_name (value : Z) : string :=
  default "UNKNOWN" (match_const value
    [(1, "GPC_COUNT");
     (2, "CHIPLET_GPC_MAP");
     (3, "TPC_MASK");
     (4, "PPC_MASK");
     (5, "PARTITION_CHIPLET_GPC_MAP");
     (6, "CHIPLET_SYSPIPE_MASK");
     (7, "PARTITION_CHIPLET_SYSPIPE_IDS");
     (8, "PROFILER_MON_GPC_MASK");
     (9, "PARTITION_SYSPIPE_ID");
     (10, "ROP_MASK");
     (11, "CHIPLET_GRAPHICS_SYSPIPE_MASK");
     (12, "GFX_CAPABLE_GPC_MASK")]).

Definition pcie_atomic_op_name (index : Z) : string :=
  default "UNKNOWN" (match_const index
    [(0, "IADD");
     (1, "IMIN");
     (2, "IMAX");
     (3, "INC");
     (4, "DEC");
     (5, "IAND");
     (6, "IOR");
     (7, "IXOR");
     (8, "EXCH");
     (9, "CAS");
     (10, "FADD");
     (11, "FMIN");
     (12, "FMAX")]).

Definition rm_alloc_class_name (class_id : Z) : option string :=
  match_const class_id
    [(NV01_ROOT, "NV01_ROOT");
     (NV01_ROOT_NON_PRIV, "NV01_ROOT_NON_PRIV");
     (NV01_ROOT_CLIENT, "NV01_ROOT_CLIENT");
     (0x0000003e, "NV01_MEMORY_SYSTEM");
     (0x00000040, "NV01_MEMORY_LOCAL_USER");
     (0x00000071, "NV01_MEMORY_SYSTEM_OS_DESCRIPTOR");
     (0x00000079, "NV01_EVENT_OS_EVENT");
     (0x00000080, "NV01_DEVICE_0");
     (0x000000de, "RM_USER_SHARED_DATA");
     (0x00002080, "NV20_SUBDEVICE_0");
     (0x00002081, "NV2081_BINAPI");
     (0x000050a0, "NV50_MEMORY_VIRTUAL");
     (0x000083de, "GT200_DEBUGGER");
     (0x00009067, "FERMI_CONTEXT_SHARE_A");
     (0x000090f1, "FERMI_VASPACE_A");
     (0x0000a06c, "KEPLER_CHANNEL_GROUP_A");
     (0x0000c461, "TURING_USERMODE_A");
     (0x0000c56f, "AMPERE_CHANNEL_GPFIFO_A");
     (0x0000c7b5, "AMPERE_DMA_COPY_B");
     (0x0000c7c0, "AMPERE_COMPUTE_B");
     (0x0000cb33, "NV_CONFIDENTIAL_COMPUTE")].

Definition nvos02_flags_physicality_name (value : Z) : string :=
  default "UNKNOWN" (match_const value
    [(0x0, "CONTIGUOUS");
     (0x1, "NONCONTIGUOUS")]).

Definition nvos02_flags_location_name (value : Z) : string :=
  default "UNKNOWN" (match_const value
    [(0x0, "PCI");
     (0x2, "VIDMEM")]).

Definition nvos02_flags_coherency_name (value : Z) : string :=
  default "UNKNOWN" (match_const value
    [(0x0, "UNCACHED");
     (0x1, "CACHED");
     (0x2, "WRITE_COMBINE");
     (0x3, "WRITE_THROUGH");
     (0x4, "WRITE_PROTECT");
     (0x5, "WRITE_BACK")]).

Definition nvos02_flags_alloc_name (value : Z) : string :=
  default "UNKNOWN" (match_const value
    [(0x0, "DEFAULT");
     (0x1, "NONE")]).

Definition nvos02_flags_mapping_name (value : Z) : string :=
  default "UNKNOWN" (match_const value
    [(0x0, "DEFAULT");
     (0x1, "NO_MAP");
     (0x2, "NEVER_MAP")]).

Definition addr_space_type_name (value : Z) : string :=
  default "UNKNOWN" (match_const value
    [(NV0000_CTRL_CLIENT_GET_ADDR_SPACE_TYPE_INVALID, "INVALID");
     (NV0000_CTRL_CLIENT_GET_ADDR_SPACE_TYPE_SYSMEM, "SYSMEM");
     (NV0000_CTRL_CLIENT_GET_ADDR_SPACE_TYPE_VIDMEM, "VIDMEM");
     (NV0000_CTRL_CLIENT_GET_ADDR_SPACE_TYPE_REGMEM, "REGMEM");
     (NV0000_CTRL_CLIENT_GET_ADDR_SPACE_TYPE_FABRIC, "FABRIC");
     (NV0000_CTRL_CLIENT_GET_ADDR_SPACE_TYPE_FABRIC_MC, "FABRIC_MC")]).

