(* ===== verification/RmJson.v ===== *)
(** * Arrays, strings and word lists of the RM decoder
    ([src/src/decode/ioctl_rm.rs])

    The loops that print an array are [json_array]; [enumerate] numbers its
    elements where the loop body uses the index. *)
From S2P Require Import Prelude RustStr Config Layout Json Ioctl RmTypes RmNames.

(** [values.iter().enumerate()] *)
Definition enumerate {A} (values : list A) : list (Z * A) := imap (fun i v => (Z.of_nat i, v)) values.

Definition vec_len {A} (values : list A) : Z := Z.of_nat (length values).

(** The chunks of [n] bytes that [chunks_exact(n)] yields. *)
Definition chunks_exact (n : Z) (bytes : list Z) : list (list Z) :=
  chunk (Z.to_nat (vec_len bytes / n)) n bytes.

(** The loops that push [u32::from_ne_bytes] of each chunk. *)
Definition words32 (bytes : list Z) : list Z := le_val <$> chunks_exact 4 bytes.

(** The loop that pushes a pair of words of each chunk. *)
Definition xxx_infos (bytes : list Z) : list (pod NvxxxxCtrlXxxInfo) :=
  Pod <$> chunks_exact (struct_size NvxxxxCtrlXxxInfo) bytes.

Fixpoint valid_gpu_ids (all_ids : list Z) : list Z :=
  match all_ids with
  | [] => []
  | gpu_id :: all_ids => if gpu_id =? 0xffffffff then [] else gpu_id :: valid_gpu_ids all_ids
  end.

Definition read_remote_string {M : RemoteMem} (ptr length max_blob : Z) : option string :=
  if (ptr =? 0) || (length =? 0) then
    None
  else
    let read_len := Z.min length (Z.max max_blob 32) in
    match read_bytes ptr read_len with
    | None => None
    | Some bytes => Some (from_utf8_lossy (until_nul bytes))
    end.

Definition read_c_string (bytes : list Z) : string := from_utf8_lossy (until_nul bytes).

(** The units before the first zero unit. *)
Definition utf16le_units (bytes : list Z) : list Z := until_nul (le_val <$> chunks_exact 2 bytes).

Definition read_utf16le_c_string (bytes : list Z) : string := from_utf16_lossy (utf16le_units bytes).

(** ** Arrays *)

Definition json_u8_array (values : list Z) : string := json_array fmt_u values.

Definition json_u8_hex_array (values : list Z) : string :=
  json_array (fun value => DQ +:+ ("0x" +:+ pad0 2 (fmt_x value)) +:+ DQ) values.

Definition json_u32_hex_array (values : list Z) : string :=
  json_array (fun value => DQ +:+ fmt_0x value +:+ DQ) values.

Definition json_u32_array (values : list Z) : string := json_array fmt_u values.

Definition json_u64_hex_array (values : list Z) : string :=
  json_array (fun value => DQ +:+ fmt_0x value +:+ DQ) values.

(** [R] and [C] are the lengths of the array and of its rows. *)
Definition json_u32_matrix (values : list (list Z)) (rows cols : Z) : string :=
  let row_count := Z.min rows (vec_len values) in
  json_array (fun row =>
    let col_count := Z.min cols (vec_len row) in
    json_array fmt_u (slice_to col_count row)) (slice_to row_count values).

Definition json_share_policy (policy : pod RsSharePolicy) : string :=
  let obj := JsonObject_new in
  let obj := field_str obj "target" (fmt_0x policy.["target"]) in
  let obj := field_str obj "accessMask" (fmt_0x (nth 0%nat policy.["access_mask"].["limbs"] 0)) in
  let obj := field_u64 obj "type" policy.["policy_type"] in
  let obj := field_u64 obj "action" policy.["action"] in
  finish obj.

Definition json_active_device (value : pod Nv0000CtrlGpuActiveDevice) : string :=
  let obj := JsonObject_new in
  let obj := field_u64 obj "gpuId" value.["gpu_id"] in
  let obj := field_u64 obj "gpuInstanceId" value.["gpu_instance_id"] in
  let obj := field_u64 obj "computeInstanceId" value.["compute_instance_id"] in
  finish obj.

Definition json_active_device_array (values : list (pod Nv0000CtrlGpuActiveDevice)) : string :=
  json_array json_active_device values.

Definition json_sync_gpu_boost_group (value : pod Nv0000SyncGpuBoostGroupConfig) : string :=
  let gpu_count := Z.min value.["gpu_count"] NV_MAX_DEVICES in
  let obj := JsonObject_new in
  let obj := field_u64 obj "gpuCount" value.["gpu_count"] in
  let obj := field_raw obj "gpuIds" (json_u32_array (slice_to gpu_count value.["gpu_ids"])) in
  let obj := field_str obj "boostGroupId" (fmt_0x value.["boost_group_id"]) in
  let obj := field_bool obj "bridgeless" (negb (value.["b_bridgeless"] =? 0)) in
  finish obj.

Definition json_sync_gpu_boost_group_array (values : list (pod Nv0000SyncGpuBoostGroupConfig)) : string :=
  json_array json_sync_gpu_boost_group values.

Definition json_xxx_info (value : pod NvxxxxCtrlXxxInfo) : string :=
  let obj := JsonObject_new in
  let obj := field_str obj "index" (fmt_0x value.["index"]) in
  let obj := field_str obj "data" (fmt_0x value.["data"]) in
  finish obj.

Definition json_xxx_info_array (values : list (pod NvxxxxCtrlXxxInfo)) : string :=
  json_array json_xxx_info values.

Definition json_global_sm_order (value : pod Nv2080CtrlGrGlobalSmId) : string :=
  let obj := JsonObject_new in
  let obj := field_u64 obj "gpcId" value.["gpc_id"] in
  let obj := field_u64 obj "localTpcId" value.["local_tpc_id"] in
  let obj := field_u64 obj "localSmId" value.["local_sm_id"] in
  let obj := field_u64 obj "globalTpcId" value.["global_tpc_id"] in
  let obj := field_u64 obj "virtualGpcId" value.["virtual_gpc_id"] in
  let obj := field_u64 obj "migratableTpcId" value.["migratable_tpc_id"] in
  let obj := field_u64 obj "uGpuId" value.["ugpu_id"] in
  let obj := field_u64 obj "physicalCpcId" value.["physical_cpc_id"] in
  let obj := field_u64 obj "virtualTpcId" value.["virtual_tpc_id"] in
  finish obj.

Definition json_global_sm_order_array (values : list (pod Nv2080CtrlGrGlobalSmId)) : string :=
  json_array json_global_sm_order values.

Definition json_pci_bar_info (value : pod Nv2080CtrlBusPciBarInfo) : string :=
  let obj := JsonObject_new in
  let obj := field_str obj "flags" (fmt_0x value.["flags"]) in
  let obj := field_u64 obj "barSizeMb" value.["bar_size"] in
  let obj := field_u64 obj "barSizeBytes" value.["bar_size_bytes"] in
  let obj := field_str obj "barOffset" (fmt_0x value.["bar_offset"]) in
  finish obj.

Definition json_pci_bar_info_array (values : list (pod Nv2080CtrlBusPciBarInfo)) : string :=
  json_array json_pci_bar_info values.

Definition json_grmgr_queries (query : pod Nv2080CtrlGrmgrGrFsInfoQueryParams) : string :=
  let obj := JsonObject_new in
  let obj := field_u64 obj "queryType" query.["query_type"] in
  let obj := field_str obj "queryName" (grmgr_query_type_name query.["query_type"]) in
  let obj := field_i64 obj "queryStatus" query.["status"] in
  let obj := field_raw obj "queryData" (json_u32_hex_array query.["query_data_words"]) in
  finish obj.

Definition json_grmgr_queries_array (values : list (pod Nv2080CtrlGrmgrGrFsInfoQueryParams)) : string :=
  json_array json_grmgr_queries values.

Definition json_ecc_unit_sample (sample : Z * pod Nv2080CtrlGpuQueryEccUnitStatus) : string :=
  let '(unit_idx, unit) := sample in
  let obj := JsonObject_new in
  let obj := field_u64 obj "unit" unit_idx in
  let obj := field_bool obj "enabled" (negb (unit.["enabled"] =? 0)) in
  let obj := field_bool obj "supported" (negb (unit.["supported"] =? 0)) in
  let obj := field_bool obj "scrubComplete" (negb (unit.["scrub_complete"] =? 0)) in
  let obj := field_u64 obj "dbe" unit.["dbe"].["count"] in
  let obj := field_u64 obj "dbeNonResettable" unit.["dbe_non_resettable"].["count"] in
  let obj := field_u64 obj "sbe" unit.["sbe"].["count"] in
  let obj := field_u64 obj "sbeNonResettable" unit.["sbe_non_resettable"].["count"] in
  finish obj.

Definition json_ecc_unit_sample_array (values : list (Z * pod Nv2080CtrlGpuQueryEccUnitStatus)) : string :=
  json_array json_ecc_unit_sample values.

(** The number of a copy engine, its two capability bytes and its presence. *)
Abbreviation ce_entry := (Z * Z * Z * bool)%type.

Definition json_ce_caps (entry : ce_entry) : string :=
  let '(ce_idx, caps0, caps1, present) := entry in
  let obj := JsonObject_new in
  let obj := field_u64 obj "ce" ce_idx in
  let obj := field_bool obj "present" present in
  let obj := field_str obj "caps0" ("0x" +:+ pad0 2 (fmt_x caps0)) in
  let obj := field_str obj "caps1" ("0x" +:+ pad0 2 (fmt_x caps1)) in
  finish obj.

Definition json_ce_caps_array (values : list ce_entry) : string := json_array json_ce_caps values.

Definition json_atomic_op (op : Z * pod Nv2080CtrlBusPcieGpuAtomicOpInfo) : string :=
  let '(idx, value) := op in
  let obj := JsonObject_new in
  let obj := field_str obj "op" (pcie_atomic_op_name idx) in
  let obj := field_bool obj "supported" (negb (value.["b_supported"] =? 0)) in
  let obj := field_str obj "attributes" (fmt_0x value.["attributes"]) in
  finish obj.

Definition json_atomic_op_array (values : list (pod Nv2080CtrlBusPcieGpuAtomicOpInfo)) : string :=
  json_array json_atomic_op (enumerate values).

Definition json_card_info (idx : Z) (entry : pod NvIoctlCardInfo) : string :=
  let obj := JsonObject_new in
  let obj := field_u64 obj "index" idx in
  let obj := field_bool obj "valid" (negb (entry.["valid"] =? 0)) in
  let obj := field_u64 obj "domain" entry.["pci_info"].["domain"] in
  let obj := field_u64 obj "bus" entry.["pci_info"].["bus"] in
  let obj := field_u64 obj "slot" entry.["pci_info"].["slot"] in
  let obj := field_u64 obj "function" entry.["pci_info"].["function"] in
  let obj := field_u64 obj "vendorId" entry.["pci_info"].["vendor_id"] in
  let obj := field_u64 obj "deviceId" entry.["pci_info"].["device_id"] in
  let obj := field_str obj "bdf" (pad0 4 (fmt_x entry.["pci_info"].["domain"]) +:+ ":" +:+
      pad0 2 (fmt_x entry.["pci_info"].["bus"]) +:+ ":" +:+
      pad0 2 (fmt_x entry.["pci_info"].["slot"]) +:+ "." +:+ fmt_u entry.["pci_info"].["function"]) in
  let obj := field_u64 obj "gpuId" entry.["gpu_id"] in
  let obj := field_u64 obj "interruptLine" entry.["interrupt_line"] in
  let obj := field_str obj "regAddress" (fmt_0x entry.["reg_address"]) in
  let obj := field_u64 obj "regSize" entry.["reg_size"] in
  let obj := field_str obj "fbAddress" (fmt_0x entry.["fb_address"]) in
  let obj := field_u64 obj "fbSize" entry.["fb_size"] in
  let obj := field_u64 obj "minorNumber" entry.["minor_number"] in
  let obj := field_str obj "devName" (read_c_string entry.["dev_name"]) in
  finish obj.

Definition json_card_info_array (values : list (pod NvIoctlCardInfo)) : string :=
  json_array (fun '(idx, value) => json_card_info idx value) (enumerate values).

Definition write_rm_alloc_class (root : JsonObject) (class_id : Z) : JsonObject :=
  let root := field_str root "hClass" (fmt_0x (as_u32 class_id)) in
  let class_name := default ("UNKNOWN(" +:+ fmt_0x (as_u32 class_id) +:+
      ")") (rm_alloc_class_name class_id) in
  field_str root "hClassName" class_name.
