(* ===== verification/RmControl.v ===== *)
(** * RM control commands: the [decode_cmd_*] functions of
    [src/src/decode/ioctl_rm.rs] and their dispatch

    A decoder answers [None] where the source returns [None] or leaves with
    [?]: the parameters cannot be read.  Sums of addresses and sizes wrap at
    64 bits, as in a release build. *)
From S2P Require Import Prelude RustStr Config Layout Json Ioctl RmTypes RmNames RmJson.

Record KnownRmDecode := { kd_legacy : string; kd_json : string }.

Definition known_size_mismatch (name : string) (expected : Z) (actual : Z) : KnownRmDecode :=
  let json := JsonObject_new in
  let json := field_str json "status" ("size_mismatch(expected>=" +:+ fmt_u expected +:+ ",actual=" +:+
      fmt_u actual +:+ ")") in
  {|
    kd_legacy := "name=" +:+ name +:+ ", sizeMismatch(expected>=" +:+ fmt_u expected +:+ ", actual=" +:+
        fmt_u actual +:+ ")";
    kd_json := finish json |}.

(** ** Loops over units and engines *)

(** The counters and the sample of [decode_cmd_gpu_query_ecc_status]. *)
Record EccScan := {
  enabled_units : Z;
  supported_units : Z;
  scrub_complete_units : Z;
  dbe_total : Z;
  sbe_total : Z;
  sampled : list (Z * pod Nv2080CtrlGpuQueryEccUnitStatus);
  non_zero_units : Z
}.

Definition ecc_start : EccScan := {|
  enabled_units := 0; supported_units := 0; scrub_complete_units := 0;
  dbe_total := 0; sbe_total := 0; sampled := []; non_zero_units := 0
|}.

(** [a.saturating_add(b)] *)
Definition saturating_add (a b : Z) : Z := Z.min (a + b) u64_max.

Definition ecc_step (s : EccScan) (entry : Z * pod Nv2080CtrlGpuQueryEccUnitStatus) : EccScan :=
  let '(idx, unit) := entry in
  let non_zero :=
    negb (unit.["enabled"] =? 0) || negb (unit.["supported"] =? 0)
    || negb (unit.["dbe"].["count"] =? 0) || negb (unit.["sbe"].["count"] =? 0) in {|
    enabled_units := enabled_units s + (if negb (unit.["enabled"] =? 0) then 1 else 0);
    supported_units := supported_units s + (if negb (unit.["supported"] =? 0) then 1 else 0);
    scrub_complete_units := scrub_complete_units s + (if negb (unit.["scrub_complete"] =? 0) then 1 else 0);
    dbe_total := saturating_add (dbe_total s) unit.["dbe"].["count"];
    sbe_total := saturating_add (sbe_total s) unit.["sbe"].["count"];
    sampled :=
      if non_zero && (vec_len (sampled s) <? MAX_CTRL_LIST_ITEMS) then sampled s ++ [(as_u32 idx, unit)]
      else sampled s;
    non_zero_units := non_zero_units s + (if non_zero then 1 else 0)
  |}.

Definition ecc_scan (units : list (pod Nv2080CtrlGpuQueryEccUnitStatus)) : EccScan :=
  foldl ecc_step ecc_start (enumerate units).

(** The loop of [decode_cmd_ce_get_all_caps]. *)
Definition ce_entries (present_mask : Z) (caps_tbl : list (list Z)) : list ce_entry :=
  enumerate caps_tbl ≫= fun '(idx, caps) =>
    let present := negb (Z.land (Z.shiftr present_mask idx) 1 =? 0) in
    let caps0 := nth 0 caps 0 in
    let caps1 := nth 1 caps 0 in
    if present || negb (caps0 =? 0) || negb (caps1 =? 0) then [(as_u32 idx, caps0, caps1, present)] else [].

Section Control.
Context {M : RemoteMem}.

(** ** Decoders *)

Definition decode_cmd_nv2080_legacy_generic (cmd : Z) (params_addr params_size : Z) : option KnownRmDecode :=
  if negb ((Z.shiftr cmd 16) =? 0x2080) then
    None
  else
  let interface := as_u8 (Z.land (Z.shiftr cmd 8) 0xff) in
  let msg_id := as_u8 (Z.land cmd 0xff) in
  match nv2080_interface_name interface with
  | Some interface_name =>
    if negb (contains "LEGACY" interface_name) then
      None
    else
    let MAX_WORDS := 64 in
    let max_read_len := as_u64 (MAX_WORDS * 4) in
    let read_len := Z.min params_size max_read_len in
    let cmd_name := rm_control_cmd_name cmd in
    let params_type_name := default "paramsPreview" (rm_control_params_type_name cmd_name) in
    let json := JsonObject_new in
    let json := field_str json "name" cmd_name in
    let json := field_str json "interface" interface_name in
    let json := field_str json "msg_id" ("0x" +:+ pad0 2 (fmt_x msg_id)) in
    let json := field_u64 json "params_size" params_size in
    if read_len =? 0 then
      let json := field_str json "status" "ok" in
      Some {|
        kd_legacy := "name=" +:+ cmd_name +:+ ", interface=" +:+ interface_name +:+ ", msgId=0x" +:+
            pad0 2 (fmt_x msg_id);
        kd_json := finish json |}
    else
    match read_bytes params_addr read_len with
    | None => None
    | Some bytes =>
      let words := words32 bytes in
      let json :=
        match words !! 0%nat with
        | Some word0 =>
          field_str json "word0" (fmt_0x word0)
        | None =>
          json
        end in
      let json :=
        match words !! 1%nat with
        | Some word1 =>
          field_str json "word1" (fmt_0x word1)
        | None =>
          json
        end in
      let json :=
        if 2 <? (vec_len words) then
          let json := field_raw json params_type_name (json_u32_hex_array words) in
          json
        else
          json in
      let json := field_bool json "truncated" (read_len <? params_size) in
      let json := field_str json "status" "ok" in
      let legacy := "name=" +:+ cmd_name +:+ ", interface=" +:+ interface_name +:+ ", msgId=0x" +:+
          pad0 2 (fmt_x msg_id) in
      let legacy :=
        match words !! 0%nat with
        | Some word0 =>
          legacy +:+ ", word0=" +:+ fmt_0x word0
        | None =>
          legacy
        end in
      let legacy :=
        match words !! 1%nat with
        | Some word1 =>
          legacy +:+ ", word1=" +:+ fmt_0x word1
        | None =>
          legacy
        end in
      let legacy :=
        if 2 <? (vec_len words) then
          legacy +:+ ", u32Words=" +:+ fmt_u (vec_len words)
        else
          legacy in
      let legacy :=
        if read_len <? params_size then
          legacy +:+ ", truncated(" +:+ fmt_u read_len +:+ "/" +:+ fmt_u params_size +:+ ")"
        else
          legacy in
      Some {|
        kd_legacy := legacy;
        kd_json := finish json |}
    end
  | None =>
    None
  end.

Definition decode_cmd_client_get_addr_space_type (params_addr params_size : Z) : option KnownRmDecode :=
  let expected := struct_size Nv0000CtrlClientGetAddrSpaceTypeParams in
  if params_size <? expected then
    let json := JsonObject_new in
    let json := field_str json "status" ("size_mismatch(expected>=" +:+ fmt_u expected +:+ ",actual=" +:+
        fmt_u params_size +:+ ")") in
    Some {|
      kd_legacy := "name=NV0000_CTRL_CMD_CLIENT_GET_ADDR_SPACE_TYPE, sizeMismatch(expected>=" +:+
          fmt_u expected +:+ ", actual=" +:+ fmt_u params_size +:+ ")";
      kd_json := finish json |}
  else
  match read_pod Nv0000CtrlClientGetAddrSpaceTypeParams params_addr with
  | None => None
  | Some params =>
    let json := JsonObject_new in
    let json := field_str json "hObject" (fmt_0x params.["h_object"]) in
    let json := field_str json "mapFlags" (fmt_0x params.["map_flags"]) in
    let json := field_str json "addrSpaceType" (fmt_0x params.["addr_space_type"]) in
    let json := field_str json "addrSpaceTypeName" (addr_space_type_name params.["addr_space_type"]) in
    let json := field_str json "status" "ok" in
    Some {|
      kd_legacy := "name=NV0000_CTRL_CMD_CLIENT_GET_ADDR_SPACE_TYPE, hObject=" +:+
          fmt_0x params.["h_object"] +:+ ", mapFlags=" +:+ fmt_0x params.["map_flags"] +:+
          ", addrSpaceType=" +:+ fmt_0x params.["addr_space_type"] +:+ "(" +:+
          addr_space_type_name params.["addr_space_type"] +:+ ")";
      kd_json := finish json |}
  end.

Definition decode_cmd_os_unix_get_control_file_descriptor
    (params_addr params_size : Z) : option KnownRmDecode :=
  let expected := struct_size Nv0000CtrlOsUnixGetControlFileDescriptorParams in
  if params_size <? expected then
    let json := JsonObject_new in
    let json := field_str json "status" ("size_mismatch(expected>=" +:+ fmt_u expected +:+ ",actual=" +:+
        fmt_u params_size +:+ ")") in
    Some {|
      kd_legacy := "name=NV0000_CTRL_CMD_OS_UNIX_GET_CONTROL_FILE_DESCRIPTOR, sizeMismatch(expected>=" +:+ fmt_u expected +:+ ", actual=" +:+ fmt_u params_size +:+ ")";
      kd_json := finish json |}
  else
  match read_pod Nv0000CtrlOsUnixGetControlFileDescriptorParams params_addr with
  | None => None
  | Some params =>
    let json := JsonObject_new in
    let json := field_i64 json "fd" params.["fd"] in
    let json := field_str json "status" "ok" in
    Some {|
      kd_legacy := "name=NV0000_CTRL_CMD_OS_UNIX_GET_CONTROL_FILE_DESCRIPTOR, fd=" +:+ fmt_i params.["fd"];
      kd_json := finish json |}
  end.

Definition decode_cmd_system_get_build_version (params_addr params_size : Z) : option KnownRmDecode :=
  let expected := struct_size Nv0000CtrlSystemGetBuildVersionParams in
  if params_size <? expected then
    let json := JsonObject_new in
    let json := field_str json "status" ("size_mismatch(expected>=" +:+ fmt_u expected +:+ ",actual=" +:+
        fmt_u params_size +:+ ")") in
    Some {|
      kd_legacy := "name=NV0000_CTRL_CMD_SYSTEM_GET_BUILD_VERSION, sizeMismatch(expected>=" +:+
          fmt_u expected +:+ ", actual=" +:+ fmt_u params_size +:+ ")";
      kd_json := finish json |}
  else
  match read_pod Nv0000CtrlSystemGetBuildVersionParams params_addr with
  | None => None
  | Some params =>
    let json := JsonObject_new in
    let json := field_u64 json "sizeOfStrings" params.["size_of_strings"] in
    let json := field_str json "pDriverVersionBuffer" (fmt_0x params.["p_driver_version_buffer"]) in
    let json := field_str json "pVersionBuffer" (fmt_0x params.["p_version_buffer"]) in
    let json := field_str json "pTitleBuffer" (fmt_0x params.["p_title_buffer"]) in
    let json := field_u64 json "changelistNumber" params.["changelist_number"] in
    let json := field_u64 json "officialChangelistNumber" params.["official_changelist_number"] in
    let json := field_str json "status" "ok" in
    Some {|
      kd_legacy := "name=NV0000_CTRL_CMD_SYSTEM_GET_BUILD_VERSION, sizeOfStrings=" +:+
          fmt_u params.["size_of_strings"] +:+ ", pDriverVersionBuffer=" +:+
          fmt_0x params.["p_driver_version_buffer"] +:+ ", pVersionBuffer=" +:+
          fmt_0x params.["p_version_buffer"] +:+ ", pTitleBuffer=" +:+
          fmt_0x params.["p_title_buffer"] +:+ ", changelistNumber=" +:+
          fmt_u params.["changelist_number"] +:+ ", officialChangelistNumber=" +:+
          fmt_u params.["official_changelist_number"];
      kd_json := finish json |}
  end.

Definition decode_cmd_system_get_fabric_status (params_addr params_size : Z) : option KnownRmDecode :=
  let expected := struct_size Nv0000CtrlSystemGetFabricStatusParams in
  if params_size <? expected then
    Some (known_size_mismatch "NV0000_CTRL_CMD_SYSTEM_GET_FABRIC_STATUS" expected params_size)
  else
  match read_pod Nv0000CtrlSystemGetFabricStatusParams params_addr with
  | None => None
  | Some params =>
    let json := JsonObject_new in
    let json := field_u64 json "fabricStatus" params.["fabric_status"] in
    let json := field_str json "fabricStatusName" (fabric_status_name params.["fabric_status"]) in
    let json := field_str json "status" "ok" in
    Some {|
      kd_legacy := "name=NV0000_CTRL_CMD_SYSTEM_GET_FABRIC_STATUS, fabricStatus=" +:+
          fabric_status_name params.["fabric_status"];
      kd_json := finish json |}
  end.

Definition decode_cmd_gpu_get_memop_enable (params_addr params_size : Z) : option KnownRmDecode :=
  let expected := struct_size Nv0000CtrlGpuGetMemopEnableParams in
  if params_size <? expected then
    Some (known_size_mismatch "NV0000_CTRL_CMD_GPU_GET_MEMOP_ENABLE" expected params_size)
  else
  match read_pod Nv0000CtrlGpuGetMemopEnableParams params_addr with
  | None => None
  | Some params =>
    let json := JsonObject_new in
    let json := field_str json "enableMask" (fmt_0x params.["enable_mask"]) in
    let json := field_bool json "memOpEnabled" (negb ((Z.land params.["enable_mask"] 0x1) =? 0)) in
    let json := field_str json "status" "ok" in
    Some {|
      kd_legacy := "name=NV0000_CTRL_CMD_GPU_GET_MEMOP_ENABLE, enableMask=" +:+
          fmt_0x params.["enable_mask"];
      kd_json := finish json |}
  end.

Definition decode_cmd_system_get_p2p_caps_matrix (params_addr params_size : Z) : option KnownRmDecode :=
  let expected := struct_size Nv0000CtrlSystemGetP2PCapsMatrixParams in
  if params_size <? expected then
    Some (known_size_mismatch "NV0000_CTRL_CMD_SYSTEM_GET_P2P_CAPS_MATRIX" expected params_size)
  else
  match read_pod Nv0000CtrlSystemGetP2PCapsMatrixParams params_addr with
  | None => None
  | Some params =>
    let grp_a_count := Z.min params.["grp_a_count"] NV0000_CTRL_SYSTEM_MAX_P2P_GROUP_GPUS in
    let grp_b_count := Z.min params.["grp_b_count"] NV0000_CTRL_SYSTEM_MAX_P2P_GROUP_GPUS in
    let json := JsonObject_new in
    let json := field_u64 json "grpACount" params.["grp_a_count"] in
    let json := field_u64 json "grpBCount" params.["grp_b_count"] in
    let json := field_raw json "gpuIdGrpA" (json_u32_array (slice_to grp_a_count params.["gpu_id_grp_a"])) in
    let json := field_raw json "gpuIdGrpB" (json_u32_array (slice_to grp_b_count params.["gpu_id_grp_b"])) in
    let json := field_raw json "p2pCaps" (json_u32_matrix params.["p2p_caps"] grp_a_count grp_b_count) in
    let json := field_raw json "a2bOptimalReadCes" (json_u32_matrix params.["a2b_optimal_read_ces"] grp_a_count grp_b_count) in
    let json := field_raw json "a2bOptimalWriteCes" (json_u32_matrix params.["a2b_optimal_write_ces"] grp_a_count grp_b_count) in
    let json := field_raw json "b2aOptimalReadCes" (json_u32_matrix params.["b2a_optimal_read_ces"] grp_a_count grp_b_count) in
    let json := field_raw json "b2aOptimalWriteCes" (json_u32_matrix params.["b2a_optimal_write_ces"] grp_a_count grp_b_count) in
    let json := field_bool json "truncated" ((grp_a_count <? params.["grp_a_count"]) || (grp_b_count <? params.["grp_b_count"])) in
    let json := field_str json "status" "ok" in
    Some {|
      kd_legacy := "name=NV0000_CTRL_CMD_SYSTEM_GET_P2P_CAPS_MATRIX, grpACount=" +:+
          fmt_u params.["grp_a_count"] +:+ ", grpBCount=" +:+ fmt_u params.["grp_b_count"];
      kd_json := finish json |}
  end.

Definition decode_cmd_client_set_inherited_share_policy
    (params_addr params_size : Z) : option KnownRmDecode :=
  let expected := struct_size Nv0000CtrlClientSetInheritedSharePolicyParams in
  if params_size <? expected then
    Some (known_size_mismatch "NV0000_CTRL_CMD_CLIENT_SET_INHERITED_SHARE_POLICY" expected params_size)
  else
  match read_pod Nv0000CtrlClientSetInheritedSharePolicyParams params_addr with
  | None => None
  | Some params =>
    let json := JsonObject_new in
    let json := field_raw json "sharePolicy" (json_share_policy params.["share_policy"]) in
    let json := field_str json "status" "ok" in
    Some {|
      kd_legacy := "name=NV0000_CTRL_CMD_CLIENT_SET_INHERITED_SHARE_POLICY";
      kd_json := finish json |}
  end.

Definition decode_cmd_system_get_features (params_addr params_size : Z) : option KnownRmDecode :=
  let expected := struct_size Nv0000CtrlSystemGetFeaturesParams in
  if params_size <? expected then
    Some (known_size_mismatch "NV0000_CTRL_CMD_SYSTEM_GET_FEATURES" expected params_size)
  else
  match read_pod Nv0000CtrlSystemGetFeaturesParams params_addr with
  | None => None
  | Some params =>
    let json := JsonObject_new in
    let json := field_str json "featuresMask" (fmt_0x params.["features_mask"]) in
    let json := field_bool json "featureSli" (negb ((Z.land params.["features_mask"] 0x1) =? 0)) in
    let json := field_bool json "featureUuidBasedMemSharing" (negb ((Z.land params.["features_mask"] (Z.shiftl 1 3)) =? 0)) in
    let json := field_bool json "featureRmTestOnlyCode" (negb ((Z.land params.["features_mask"] (Z.shiftl 1 4)) =? 0)) in
    let json := field_str json "status" "ok" in
    Some {|
      kd_legacy := "name=NV0000_CTRL_CMD_SYSTEM_GET_FEATURES, featuresMask=" +:+
          fmt_0x params.["features_mask"];
      kd_json := finish json |}
  end.

Definition decode_cmd_gpu_get_attached_ids (params_addr params_size : Z) : option KnownRmDecode :=
  let expected := struct_size Nv0000CtrlGpuGetAttachedIdsParams in
  if params_size <? expected then
    Some (known_size_mismatch "NV0000_CTRL_CMD_GPU_GET_ATTACHED_IDS" expected params_size)
  else
  match read_pod Nv0000CtrlGpuGetAttachedIdsParams params_addr with
  | None => None
  | Some params =>
    let ids := valid_gpu_ids params.["gpu_ids"] in
    let json := JsonObject_new in
    let json := field_u64 json "validCount" (vec_len ids) in
    let json := field_raw json "gpuIds" (json_u32_array ids) in
    let json := field_str json "status" "ok" in
    Some {|
      kd_legacy := "name=NV0000_CTRL_CMD_GPU_GET_ATTACHED_IDS, validCount=" +:+ fmt_u (vec_len ids);
      kd_json := finish json |}
  end.

Definition decode_cmd_gpu_get_id_info (params_addr params_size : Z) : option KnownRmDecode :=
  let expected := struct_size Nv0000CtrlGpuGetIdInfoParams in
  if params_size <? expected then
    Some (known_size_mismatch "NV0000_CTRL_CMD_GPU_GET_ID_INFO" expected params_size)
  else
  match read_pod Nv0000CtrlGpuGetIdInfoParams params_addr with
  | None => None
  | Some params =>
    let json := JsonObject_new in
    let json := field_u64 json "gpuId" params.["gpu_id"] in
    let json := field_str json "gpuFlags" (fmt_0x params.["gpu_flags"]) in
    let json := field_u64 json "deviceInstance" params.["device_instance"] in
    let json := field_u64 json "subDeviceInstance" params.["sub_device_instance"] in
    let json := field_str json "szNamePtr" (fmt_0x params.["sz_name"]) in
    let json := field_u64 json "sliStatus" params.["sli_status"] in
    let json := field_u64 json "boardId" params.["board_id"] in
    let json := field_u64 json "gpuInstance" params.["gpu_instance"] in
    let json := field_i64 json "numaId" params.["numa_id"] in
    let json :=
      if negb (params.["sz_name"] =? 0) then
        match read_remote_string params.["sz_name"] 128 128 with
        | Some name =>
          field_str json "name" name
        | None =>
          json
        end
      else
        json in
    let json := field_str json "status" "ok" in
    Some {|
      kd_legacy := "name=NV0000_CTRL_CMD_GPU_GET_ID_INFO, gpuId=" +:+ fmt_u params.["gpu_id"];
      kd_json := finish json |}
  end.

Definition decode_cmd_gpu_get_id_info_v2 (params_addr params_size : Z) : option KnownRmDecode :=
  let expected := struct_size Nv0000CtrlGpuGetIdInfoV2Params in
  if params_size <? expected then
    Some (known_size_mismatch "NV0000_CTRL_CMD_GPU_GET_ID_INFO_V2" expected params_size)
  else
  match read_pod Nv0000CtrlGpuGetIdInfoV2Params params_addr with
  | None => None
  | Some params =>
    let json := JsonObject_new in
    let json := field_u64 json "gpuId" params.["gpu_id"] in
    let json := field_str json "gpuFlags" (fmt_0x params.["gpu_flags"]) in
    let json := field_u64 json "deviceInstance" params.["device_instance"] in
    let json := field_u64 json "subDeviceInstance" params.["sub_device_instance"] in
    let json := field_u64 json "sliStatus" params.["sli_status"] in
    let json := field_u64 json "boardId" params.["board_id"] in
    let json := field_u64 json "gpuInstance" params.["gpu_instance"] in
    let json := field_i64 json "numaId" params.["numa_id"] in
    let json := field_str json "status" "ok" in
    Some {|
      kd_legacy := "name=NV0000_CTRL_CMD_GPU_GET_ID_INFO_V2, gpuId=" +:+ fmt_u params.["gpu_id"];
      kd_json := finish json |}
  end.

Definition decode_cmd_gpu_get_probed_ids (params_addr params_size : Z) : option KnownRmDecode :=
  let expected := struct_size Nv0000CtrlGpuGetProbedIdsParams in
  if params_size <? expected then
    Some (known_size_mismatch "NV0000_CTRL_CMD_GPU_GET_PROBED_IDS" expected params_size)
  else
  match read_pod Nv0000CtrlGpuGetProbedIdsParams params_addr with
  | None => None
  | Some params =>
    let gpu_ids := valid_gpu_ids params.["gpu_ids"] in
    let excluded_ids := valid_gpu_ids params.["excluded_gpu_ids"] in
    let json := JsonObject_new in
    let json := field_u64 json "gpuCount" (vec_len gpu_ids) in
    let json := field_u64 json "excludedCount" (vec_len excluded_ids) in
    let json := field_raw json "gpuIds" (json_u32_array gpu_ids) in
    let json := field_raw json "excludedGpuIds" (json_u32_array excluded_ids) in
    let json := field_raw json "gpuFlags" (json_u32_hex_array (slice_to (vec_len gpu_ids) params.["gpu_flags"])) in
    let json := field_str json "status" "ok" in
    Some {|
      kd_legacy := "name=NV0000_CTRL_CMD_GPU_GET_PROBED_IDS, gpuCount=" +:+ fmt_u (vec_len gpu_ids);
      kd_json := finish json |}
  end.

Definition decode_cmd_gpu_attach_ids (params_addr params_size : Z) : option KnownRmDecode :=
  let expected := struct_size Nv0000CtrlGpuAttachIdsParams in
  if params_size <? expected then
    Some (known_size_mismatch "NV0000_CTRL_CMD_GPU_ATTACH_IDS" expected params_size)
  else
  match read_pod Nv0000CtrlGpuAttachIdsParams params_addr with
  | None => None
  | Some params =>
    let ids := valid_gpu_ids params.["gpu_ids"] in
    let json := JsonObject_new in
    let json := field_u64 json "gpuCount" (vec_len ids) in
    let json := field_raw json "gpuIds" (json_u32_array ids) in
    let json := field_u64 json "failedId" params.["failed_id"] in
    let json := field_str json "status" "ok" in
    Some {|
      kd_legacy := "name=NV0000_CTRL_CMD_GPU_ATTACH_IDS, gpuCount=" +:+ fmt_u (vec_len ids);
      kd_json := finish json |}
  end.

Definition decode_cmd_gpu_get_active_device_ids (params_addr params_size : Z) : option KnownRmDecode :=
  let expected := struct_size Nv0000CtrlGpuGetActiveDeviceIdsParams in
  if params_size <? expected then
    Some (known_size_mismatch "NV0000_CTRL_CMD_GPU_GET_ACTIVE_DEVICE_IDS" expected params_size)
  else
  match read_pod Nv0000CtrlGpuGetActiveDeviceIdsParams params_addr with
  | None => None
  | Some params =>
    let count := Z.min params.["num_devices"] NV0000_CTRL_GPU_MAX_ACTIVE_DEVICES in
    let json := JsonObject_new in
    let json := field_u64 json "numDevices" params.["num_devices"] in
    let json := field_raw json "devices" (json_active_device_array (slice_to count params.["devices"])) in
    let json := field_bool json "truncated" (count <? params.["num_devices"]) in
    let json := field_str json "status" "ok" in
    Some {|
      kd_legacy := "name=NV0000_CTRL_CMD_GPU_GET_ACTIVE_DEVICE_IDS, numDevices=" +:+
          fmt_u params.["num_devices"];
      kd_json := finish json |}
  end.

Definition decode_cmd_sync_gpu_boost_group_info (params_addr params_size : Z) : option KnownRmDecode :=
  let expected := struct_size Nv0000SyncGpuBoostGroupInfoParams in
  if params_size <? expected then
    Some (known_size_mismatch "NV0000_CTRL_CMD_SYNC_GPU_BOOST_GROUP_INFO" expected params_size)
  else
  match read_pod Nv0000SyncGpuBoostGroupInfoParams params_addr with
  | None => None
  | Some params =>
    let count := Z.min params.["group_count"] NV0000_SYNC_GPU_BOOST_MAX_GROUPS in
    let json := JsonObject_new in
    let json := field_u64 json "groupCount" params.["group_count"] in
    let json := field_raw json "groups" (json_sync_gpu_boost_group_array (slice_to count params.["boost_groups"])) in
    let json := field_bool json "truncated" (count <? params.["group_count"]) in
    let json := field_str json "status" "ok" in
    Some {|
      kd_legacy := "name=NV0000_CTRL_CMD_SYNC_GPU_BOOST_GROUP_INFO, groupCount=" +:+
          fmt_u params.["group_count"];
      kd_json := finish json |}
  end.

Definition decode_cmd_host_get_caps_v2 (params_addr params_size : Z) : option KnownRmDecode :=
  let expected := struct_size Nv0080CtrlHostGetCapsV2Params in
  if params_size <? expected then
    Some (known_size_mismatch "NV0080_CTRL_CMD_HOST_GET_CAPS_V2" expected params_size)
  else
  match read_pod Nv0080CtrlHostGetCapsV2Params params_addr with
  | None => None
  | Some params =>
    let json := JsonObject_new in
    let json := field_raw json "capsTbl" (json_u8_array params.["caps_tbl"]) in
    let json := field_str json "status" "ok" in
    Some {|
      kd_legacy := "name=NV0080_CTRL_CMD_HOST_GET_CAPS_V2";
      kd_json := finish json |}
  end.

Definition decode_cmd_gpu_get_num_subdevices (params_addr params_size : Z) : option KnownRmDecode :=
  let expected := struct_size Nv0080CtrlGpuGetNumSubdevicesParams in
  if params_size <? expected then
    Some (known_size_mismatch "NV0080_CTRL_CMD_GPU_GET_NUM_SUBDEVICES" expected params_size)
  else
  match read_pod Nv0080CtrlGpuGetNumSubdevicesParams params_addr with
  | None => None
  | Some params =>
    let json := JsonObject_new in
    let json := field_u64 json "numSubDevices" params.["num_sub_devices"] in
    let json := field_str json "status" "ok" in
    Some {|
      kd_legacy := "name=NV0080_CTRL_CMD_GPU_GET_NUM_SUBDEVICES, numSubDevices=" +:+
          fmt_u params.["num_sub_devices"];
      kd_json := finish json |}
  end.

Definition decode_cmd_gpu_get_classlist_v2 (params_addr params_size : Z) : option KnownRmDecode :=
  let expected := struct_size Nv0080CtrlGpuGetClasslistV2Params in
  if params_size <? expected then
    Some (known_size_mismatch "NV0080_CTRL_CMD_GPU_GET_CLASSLIST_V2" expected params_size)
  else
  match read_pod Nv0080CtrlGpuGetClasslistV2Params params_addr with
  | None => None
  | Some params =>
    let count := Z.min params.["num_classes"] NV0080_CTRL_GPU_CLASSLIST_MAX_SIZE in
    let json := JsonObject_new in
    let json := field_u64 json "numClasses" params.["num_classes"] in
    let json := field_raw json "classList" (json_u32_hex_array (slice_to count params.["class_list"])) in
    let json := field_bool json "truncated" (count <? params.["num_classes"]) in
    let json := field_str json "status" "ok" in
    Some {|
      kd_legacy := "name=NV0080_CTRL_CMD_GPU_GET_CLASSLIST_V2, numClasses=" +:+
          fmt_u params.["num_classes"];
      kd_json := finish json |}
  end.

Definition decode_cmd_gpu_get_virtualization_mode (params_addr params_size : Z) : option KnownRmDecode :=
  let expected := struct_size Nv0080CtrlGpuGetVirtualizationModeParams in
  if params_size <? expected then
    Some (known_size_mismatch "NV0080_CTRL_CMD_GPU_GET_VIRTUALIZATION_MODE" expected params_size)
  else
  match read_pod Nv0080CtrlGpuGetVirtualizationModeParams params_addr with
  | None => None
  | Some params =>
    let json := JsonObject_new in
    let json := field_u64 json "virtualizationMode" params.["virtualization_mode"] in
    let json := field_str json "virtualizationModeName" (virtualization_mode_name params.["virtualization_mode"]) in
    let json := field_bool json "isGridBuild" (negb (params.["is_grid_build"] =? 0)) in
    let json := field_str json "status" "ok" in
    Some {|
      kd_legacy := "name=NV0080_CTRL_CMD_GPU_GET_VIRTUALIZATION_MODE, mode=" +:+
          fmt_u params.["virtualization_mode"];
      kd_json := finish json |}
  end.

Definition decode_cmd_fifo_get_channellist (params_addr params_size : Z) : option KnownRmDecode :=
  let expected := struct_size Nv0080CtrlFifoGetChannellistParams in
  if params_size <? expected then
    Some (known_size_mismatch "NV0080_CTRL_CMD_FIFO_GET_CHANNELLIST" expected params_size)
  else
  match read_pod Nv0080CtrlFifoGetChannellistParams params_addr with
  | None => None
  | Some params =>
    let count := Z.min params.["num_channels"] MAX_CTRL_LIST_ITEMS in
    let handles := @nil Z in
    let channels := @nil Z in
    let handles :=
      if (negb (params.["p_channel_handle_list"] =? 0)) && (0 <? count) then
        match read_bytes params.["p_channel_handle_list"] (as_u64 (count * 4)) with
        | Some bytes =>
          let handles := words32 bytes in
          handles
        | None =>
          handles
        end
      else
        handles in
    let channels :=
      if (negb (params.["p_channel_list"] =? 0)) && (0 <? count) then
        match read_bytes params.["p_channel_list"] (as_u64 (count * 4)) with
        | Some bytes =>
          let channels := words32 bytes in
          channels
        | None =>
          channels
        end
      else
        channels in
    let json := JsonObject_new in
    let json := field_u64 json "numChannels" params.["num_channels"] in
    let json := field_str json "pChannelHandleList" (fmt_0x params.["p_channel_handle_list"]) in
    let json := field_str json "pChannelList" (fmt_0x params.["p_channel_list"]) in
    let json :=
      if negb (vec_len handles =? 0) then
        let json := field_raw json "channelHandleList" (json_u32_hex_array handles) in
        json
      else
        json in
    let json :=
      if negb (vec_len channels =? 0) then
        let json := field_raw json "channelIdList" (json_u32_hex_array channels) in
        json
      else
        json in
    let json := field_bool json "truncated" (count <? params.["num_channels"]) in
    let json := field_str json "status" "ok" in
    Some {|
      kd_legacy := "name=NV0080_CTRL_CMD_FIFO_GET_CHANNELLIST, numChannels=" +:+
          fmt_u params.["num_channels"];
      kd_json := finish json |}
  end.

Definition decode_cmd_perf_cuda_limit_set_control (params_addr params_size : Z) : option KnownRmDecode :=
  let expected := struct_size Nv0080CtrlPerfCudaLimitControlParams in
  if params_size <? expected then
    Some (known_size_mismatch "NV0080_CTRL_CMD_PERF_CUDA_LIMIT_SET_CONTROL" expected params_size)
  else
  match read_pod Nv0080CtrlPerfCudaLimitControlParams params_addr with
  | None => None
  | Some params =>
    let json := JsonObject_new in
    let json := field_bool json "cudaLimit" (negb (params.["b_cuda_limit"] =? 0)) in
    let json := field_str json "status" "ok" in
    Some {|
      kd_legacy := "name=NV0080_CTRL_CMD_PERF_CUDA_LIMIT_SET_CONTROL, cudaLimit=" +:+
          fmt_u params.["b_cuda_limit"];
      kd_json := finish json |}
  end.

Definition decode_cmd_fb_get_caps_v2 (params_addr params_size : Z) : option KnownRmDecode :=
  let expected := struct_size Nv0080CtrlFbGetCapsV2Params in
  if params_size <? expected then
    Some (known_size_mismatch "NV0080_CTRL_CMD_FB_GET_CAPS_V2" expected params_size)
  else
  match read_pod Nv0080CtrlFbGetCapsV2Params params_addr with
  | None => None
  | Some params =>
    let json := JsonObject_new in
    let json := field_raw json "capsTbl" (json_u8_hex_array params.["caps_tbl"]) in
    let json := field_str json "status" "ok" in
    Some {|
      kd_legacy := "name=NV0080_CTRL_CMD_FB_GET_CAPS_V2";
      kd_json := finish json |}
  end.

Definition decode_cmd_class_engine_id (params_addr params_size : Z) : option KnownRmDecode :=
  let expected := struct_size Nv906fCtrlGetClassEngineIdParams in
  if params_size <? expected then
    Some (known_size_mismatch "NV906F_CTRL_GET_CLASS_ENGINEID" expected params_size)
  else
  match read_pod Nv906fCtrlGetClassEngineIdParams params_addr with
  | None => None
  | Some params =>
    let json := JsonObject_new in
    let json := field_str json "hObject" (fmt_0x params.["h_object"]) in
    let json := field_u64 json "classEngineId" params.["class_engine_id"] in
    let json := field_str json "classId" (fmt_0x params.["class_id"]) in
    let json := field_str json "engineId" (fmt_0x params.["engine_id"]) in
    let json := field_str json "status" "ok" in
    Some {|
      kd_legacy := "name=NV906F_CTRL_GET_CLASS_ENGINEID, hObject=" +:+ fmt_0x params.["h_object"];
      kd_json := finish json |}
  end.

Definition decode_cmd_gpfifo_get_work_submit_token (params_addr params_size : Z) : option KnownRmDecode :=
  let expected := struct_size Nvc36fCtrlCmdGpfifoGetWorkSubmitTokenParams in
  if params_size <? expected then
    Some (known_size_mismatch "NVC36F_CTRL_CMD_GPFIFO_GET_WORK_SUBMIT_TOKEN" expected params_size)
  else
  match read_pod Nvc36fCtrlCmdGpfifoGetWorkSubmitTokenParams params_addr with
  | None => None
  | Some params =>
    let json := JsonObject_new in
    let json := field_u64 json "workSubmitToken" params.["work_submit_token"] in
    let json := field_str json "status" "ok" in
    Some {|
      kd_legacy := "name=NVC36F_CTRL_CMD_GPFIFO_GET_WORK_SUBMIT_TOKEN, token=" +:+
          fmt_u params.["work_submit_token"];
      kd_json := finish json |}
  end.

Definition decode_cmd_mc_get_arch_info (params_addr params_size : Z) : option KnownRmDecode :=
  let expected := struct_size Nv2080CtrlMcGetArchInfoParams in
  if params_size <? expected then
    Some (known_size_mismatch "NV2080_CTRL_CMD_MC_GET_ARCH_INFO" expected params_size)
  else
  match read_pod Nv2080CtrlMcGetArchInfoParams params_addr with
  | None => None
  | Some params =>
    let json := JsonObject_new in
    let json := field_str json "architecture" (fmt_0x params.["architecture"]) in
    let json := field_str json "implementation" (fmt_0x params.["implementation"]) in
    let json := field_str json "revision" (fmt_0x params.["revision"]) in
    let json := field_u64 json "subRevision" params.["sub_revision"] in
    let json := field_str json "status" "ok" in
    Some {|
      kd_legacy := "name=NV2080_CTRL_CMD_MC_GET_ARCH_INFO, arch=" +:+ fmt_0x params.["architecture"];
      kd_json := finish json |}
  end.

Definition decode_cmd_gpu_get_info_v2 (params_addr params_size : Z) : option KnownRmDecode :=
  let expected := struct_size Nv2080CtrlGpuGetInfoV2Params in
  if params_size <? expected then
    Some (known_size_mismatch "NV2080_CTRL_CMD_GPU_GET_INFO_V2" expected params_size)
  else
  match read_pod Nv2080CtrlGpuGetInfoV2Params params_addr with
  | None => None
  | Some params =>
    let count := Z.min params.["gpu_info_list_size"] NV2080_CTRL_GPU_INFO_MAX_LIST_SIZE in
    let json := JsonObject_new in
    let json := field_u64 json "gpuInfoListSize" params.["gpu_info_list_size"] in
    let json := field_raw json "gpuInfoList" (json_xxx_info_array (slice_to count params.["gpu_info_list"])) in
    let json := field_bool json "truncated" (count <? params.["gpu_info_list_size"]) in
    let json := field_str json "status" "ok" in
    Some {|
      kd_legacy := "name=NV2080_CTRL_CMD_GPU_GET_INFO_V2, gpuInfoListSize=" +:+
          fmt_u params.["gpu_info_list_size"];
      kd_json := finish json |}
  end.

Definition decode_cmd_gpu_get_name_string (params_addr params_size : Z) : option KnownRmDecode :=
  let expected := struct_size Nv2080CtrlGpuGetNameStringParams in
  if params_size <? expected then
    Some (known_size_mismatch "NV2080_CTRL_CMD_GPU_GET_NAME_STRING" expected params_size)
  else
  match read_pod Nv2080CtrlGpuGetNameStringParams params_addr with
  | None => None
  | Some params =>
    let json := JsonObject_new in
    let json := field_str json "gpuNameStringFlags" (fmt_0x params.["gpu_name_string_flags"]) in
    let name := if negb ((Z.land params.["gpu_name_string_flags"] 0x1) =? 0) then read_utf16le_c_string params.["gpu_name_string"] else read_c_string (slice_to NV2080_GPU_MAX_NAME_STRING_LENGTH params.["gpu_name_string"]) in
    let json := field_str json "name" name in
    let json := field_str json "encoding" (if negb ((Z.land params.["gpu_name_string_flags"] 0x1) =? 0) then "UTF16" else "ASCII") in
    let json := field_str json "status" "ok" in
    Some {|
      kd_legacy := "name=NV2080_CTRL_CMD_GPU_GET_NAME_STRING, name=" +:+ DQ +:+ name +:+ DQ;
      kd_json := finish json |}
  end.

Definition decode_cmd_gpu_get_short_name_string (params_addr params_size : Z) : option KnownRmDecode :=
  let expected := struct_size Nv2080CtrlGpuGetShortNameStringParams in
  if params_size <? expected then
    Some (known_size_mismatch "NV2080_CTRL_CMD_GPU_GET_SHORT_NAME_STRING" expected params_size)
  else
  match read_pod Nv2080CtrlGpuGetShortNameStringParams params_addr with
  | None => None
  | Some params =>
    let name := read_c_string params.["gpu_short_name_string"] in
    let json := JsonObject_new in
    let json := field_str json "name" name in
    let json := field_str json "status" "ok" in
    Some {|
      kd_legacy := "name=NV2080_CTRL_CMD_GPU_GET_SHORT_NAME_STRING, name=" +:+ DQ +:+ name +:+ DQ;
      kd_json := finish json |}
  end.

Definition decode_cmd_gpu_get_simulation_info (params_addr params_size : Z) : option KnownRmDecode :=
  let expected := struct_size Nv2080CtrlGpuGetSimulationInfoParams in
  if params_size <? expected then
    Some (known_size_mismatch "NV2080_CTRL_CMD_GPU_GET_SIMULATION_INFO" expected params_size)
  else
  match read_pod Nv2080CtrlGpuGetSimulationInfoParams params_addr with
  | None => None
  | Some params =>
    let json := JsonObject_new in
    let json := field_u64 json "type" params.["sim_type"] in
    let json := field_str json "typeName" (simulation_info_type_name params.["sim_type"]) in
    let json := field_str json "status" "ok" in
    Some {|
      kd_legacy := "name=NV2080_CTRL_CMD_GPU_GET_SIMULATION_INFO, type=" +:+
          simulation_info_type_name params.["sim_type"];
      kd_json := finish json |}
  end.

Definition decode_cmd_gpu_get_engines_v2 (params_addr params_size : Z) : option KnownRmDecode :=
  let expected := struct_size Nv2080CtrlGpuGetEnginesV2Params in
  if params_size <? expected then
    Some (known_size_mismatch "NV2080_CTRL_CMD_GPU_GET_ENGINES_V2" expected params_size)
  else
  match read_pod Nv2080CtrlGpuGetEnginesV2Params params_addr with
  | None => None
  | Some params =>
    let count := Z.min params.["engine_count"] NV2080_GPU_MAX_ENGINES_LIST_SIZE in
    let json := JsonObject_new in
    let json := field_u64 json "engineCount" params.["engine_count"] in
    let json := field_raw json "engineList" (json_u32_hex_array (slice_to count params.["engine_list"])) in
    let json := field_bool json "truncated" (count <? params.["engine_count"]) in
    let json := field_str json "status" "ok" in
    Some {|
      kd_legacy := "name=NV2080_CTRL_CMD_GPU_GET_ENGINES_V2, engineCount=" +:+
          fmt_u params.["engine_count"];
      kd_json := finish json |}
  end.

Definition decode_cmd_gpu_query_compute_mode_rules (params_addr params_size : Z) : option KnownRmDecode :=
  let expected := struct_size Nv2080CtrlGpuQueryComputeModeRulesParams in
  if params_size <? expected then
    Some (known_size_mismatch "NV2080_CTRL_CMD_GPU_QUERY_COMPUTE_MODE_RULES" expected params_size)
  else
  match read_pod Nv2080CtrlGpuQueryComputeModeRulesParams params_addr with
  | None => None
  | Some params =>
    let json := JsonObject_new in
    let json := field_u64 json "rules" params.["rules"] in
    let json := field_str json "rulesName" (compute_mode_rules_name params.["rules"]) in
    let json := field_str json "status" "ok" in
    Some {|
      kd_legacy := "name=NV2080_CTRL_CMD_GPU_QUERY_COMPUTE_MODE_RULES, rules=" +:+
          compute_mode_rules_name params.["rules"];
      kd_json := finish json |}
  end.

Definition decode_cmd_gpu_query_ecc_status (params_addr params_size : Z) : option KnownRmDecode :=
  let expected := struct_size Nv2080CtrlGpuQueryEccStatusParams in
  if params_size <? expected then
    Some (known_size_mismatch "NV2080_CTRL_CMD_GPU_QUERY_ECC_STATUS" expected params_size)
  else
  match read_pod Nv2080CtrlGpuQueryEccStatusParams params_addr with
  | None => None
  | Some params =>
    let scan := ecc_scan params.["units"] in
    let json := JsonObject_new in
    let json := field_u64 json "unitCount" NV2080_CTRL_GPU_ECC_UNIT_COUNT in
    let json := field_u64 json "enabledUnits" (enabled_units scan) in
    let json := field_u64 json "supportedUnits" (supported_units scan) in
    let json := field_u64 json "scrubCompleteUnits" (scrub_complete_units scan) in
    let json := field_u64 json "dbeTotal" (dbe_total scan) in
    let json := field_u64 json "sbeTotal" (sbe_total scan) in
    let json := field_bool json "fatalPoisonError" (negb (params.["b_fatal_poison_error"] =? 0)) in
    let json := field_u64 json "uncorrectableError" params.["uncorrectable_error"] in
    let json := field_str json "flags" (fmt_0x params.["flags"]) in
    let route := JsonObject_new in
    let route := field_str route "flags" (fmt_0x params.["gr_route_info"].["flags"]) in
    let route := field_str route "route" (fmt_0x params.["gr_route_info"].["route"]) in
    let json := field_raw json "grRouteInfo" (finish route) in
    let json := field_raw json "unitSample" (json_ecc_unit_sample_array (sampled scan)) in
    let json := field_bool json "sampleTruncated" ((vec_len (sampled scan)) <? (non_zero_units scan)) in
    let json := field_str json "status" "ok" in
    Some {|
      kd_legacy := "name=NV2080_CTRL_CMD_GPU_QUERY_ECC_STATUS, enabledUnits=" +:+
          fmt_u (enabled_units scan) +:+ ", dbeTotal=" +:+ fmt_u (dbe_total scan) +:+ ", sbeTotal=" +:+
          fmt_u (sbe_total scan);
      kd_json := finish json |}
  end.

Definition decode_cmd_gpu_get_gid_info (params_addr params_size : Z) : option KnownRmDecode :=
  let expected := struct_size Nv2080CtrlGpuGetGidInfoParams in
  if params_size <? expected then
    Some (known_size_mismatch "NV2080_CTRL_CMD_GPU_GET_GID_INFO" expected params_size)
  else
  match read_pod Nv2080CtrlGpuGetGidInfoParams params_addr with
  | None => None
  | Some params =>
    let len := Z.min params.["length"] NV2080_GPU_MAX_GID_LENGTH in
    let json := JsonObject_new in
    let json := field_u64 json "index" params.["index"] in
    let json := field_str json "flags" (fmt_0x params.["flags"]) in
    let json := field_u64 json "length" params.["length"] in
    let json :=
      if (Z.land params.["flags"] 0x2) =? 0 then
        let text := from_utf8_lossy (slice_to len params.["data"]) in
        field_str json "gid" (trim_matches 0 text)
      else
        let json := field_raw json "gidBytes" (json_u8_array (slice_to len params.["data"])) in
        json in
    let json := field_str json "status" "ok" in
    Some {|
      kd_legacy := "name=NV2080_CTRL_CMD_GPU_GET_GID_INFO, length=" +:+ fmt_u params.["length"];
      kd_json := finish json |}
  end.

Definition decode_cmd_fb_get_info_v2 (params_addr params_size : Z) : option KnownRmDecode :=
  let expected := struct_size Nv2080CtrlFbGetInfoV2Params in
  if params_size <? expected then
    Some (known_size_mismatch "NV2080_CTRL_CMD_FB_GET_INFO_V2" expected params_size)
  else
  match read_pod Nv2080CtrlFbGetInfoV2Params params_addr with
  | None => None
  | Some params =>
    let count := Z.min params.["fb_info_list_size"] NV2080_CTRL_FB_INFO_MAX_LIST_SIZE in
    let json := JsonObject_new in
    let json := field_u64 json "fbInfoListSize" params.["fb_info_list_size"] in
    let json := field_raw json "fbInfoList" (json_xxx_info_array (slice_to count params.["fb_info_list"])) in
    let json := field_bool json "truncated" (count <? params.["fb_info_list_size"]) in
    let json := field_str json "status" "ok" in
    Some {|
      kd_legacy := "name=NV2080_CTRL_CMD_FB_GET_INFO_V2, fbInfoListSize=" +:+
          fmt_u params.["fb_info_list_size"];
      kd_json := finish json |}
  end.

Definition decode_cmd_bus_get_pci_info (params_addr params_size : Z) : option KnownRmDecode :=
  let expected := struct_size Nv2080CtrlBusGetPciInfoParams in
  if params_size <? expected then
    Some (known_size_mismatch "NV2080_CTRL_CMD_BUS_GET_PCI_INFO" expected params_size)
  else
  match read_pod Nv2080CtrlBusGetPciInfoParams params_addr with
  | None => None
  | Some params =>
    let json := JsonObject_new in
    let json := field_str json "pciDeviceId" (fmt_0x params.["pci_device_id"]) in
    let json := field_str json "pciSubSystemId" (fmt_0x params.["pci_sub_system_id"]) in
    let json := field_str json "pciRevisionId" (fmt_0x params.["pci_revision_id"]) in
    let json := field_str json "pciExtDeviceId" (fmt_0x params.["pci_ext_device_id"]) in
    let json := field_str json "status" "ok" in
    Some {|
      kd_legacy := "name=NV2080_CTRL_CMD_BUS_GET_PCI_INFO";
      kd_json := finish json |}
  end.

Definition decode_cmd_bus_get_info_v2 (params_addr params_size : Z) : option KnownRmDecode :=
  let expected := struct_size Nv2080CtrlBusGetInfoV2Params in
  if params_size <? expected then
    Some (known_size_mismatch "NV2080_CTRL_CMD_BUS_GET_INFO_V2" expected params_size)
  else
  match read_pod Nv2080CtrlBusGetInfoV2Params params_addr with
  | None => None
  | Some params =>
    let count := Z.min params.["bus_info_list_size"] NV2080_CTRL_BUS_INFO_MAX_LIST_SIZE in
    let json := JsonObject_new in
    let json := field_u64 json "busInfoListSize" params.["bus_info_list_size"] in
    let json := field_raw json "busInfoList" (json_xxx_info_array (slice_to count params.["bus_info_list"])) in
    let json := field_bool json "truncated" (count <? params.["bus_info_list_size"]) in
    let json := field_str json "status" "ok" in
    Some {|
      kd_legacy := "name=NV2080_CTRL_CMD_BUS_GET_INFO_V2, busInfoListSize=" +:+
          fmt_u params.["bus_info_list_size"];
      kd_json := finish json |}
  end.

Definition decode_cmd_bus_get_pci_bar_info (params_addr params_size : Z) : option KnownRmDecode :=
  let expected := struct_size Nv2080CtrlBusGetPciBarInfoParams in
  if params_size <? expected then
    Some (known_size_mismatch "NV2080_CTRL_CMD_BUS_GET_PCI_BAR_INFO" expected params_size)
  else
  match read_pod Nv2080CtrlBusGetPciBarInfoParams params_addr with
  | None => None
  | Some params =>
    let count := Z.min params.["pci_bar_count"] NV2080_CTRL_BUS_MAX_PCI_BARS in
    let json := JsonObject_new in
    let json := field_u64 json "pciBarCount" params.["pci_bar_count"] in
    let json := field_raw json "pciBarInfo" (json_pci_bar_info_array (slice_to count params.["pci_bar_info"])) in
    let json := field_bool json "truncated" (count <? params.["pci_bar_count"]) in
    let json := field_str json "status" "ok" in
    Some {|
      kd_legacy := "name=NV2080_CTRL_CMD_BUS_GET_PCI_BAR_INFO, pciBarCount=" +:+
          fmt_u params.["pci_bar_count"];
      kd_json := finish json |}
  end.

Definition decode_cmd_bus_get_pcie_supported_gpu_atomics
    (params_addr params_size : Z) : option KnownRmDecode :=
  let expected := struct_size Nv2080CtrlCmdBusGetPcieSupportedGpuAtomicsParams in
  if params_size <? expected then
    Some (known_size_mismatch "NV2080_CTRL_CMD_BUS_GET_PCIE_SUPPORTED_GPU_ATOMICS" expected params_size)
  else
  match read_pod Nv2080CtrlCmdBusGetPcieSupportedGpuAtomicsParams params_addr with
  | None => None
  | Some params =>
    let json := JsonObject_new in
    let json := field_u64 json "capType" params.["cap_type"] in
    let json := field_str json "dbdf" (fmt_0x params.["dbdf"]) in
    let json := field_raw json "atomicOp" (json_atomic_op_array params.["atomic_op"]) in
    let json := field_str json "status" "ok" in
    Some {|
      kd_legacy := "name=NV2080_CTRL_CMD_BUS_GET_PCIE_SUPPORTED_GPU_ATOMICS";
      kd_json := finish json |}
  end.

Definition decode_cmd_bus_get_c2c_info (params_addr params_size : Z) : option KnownRmDecode :=
  let expected := struct_size Nv2080CtrlBusGetC2cInfoParams in
  if params_size <? expected then
    Some (known_size_mismatch "NV2080_CTRL_CMD_BUS_GET_C2C_INFO" expected params_size)
  else
  match read_pod Nv2080CtrlBusGetC2cInfoParams params_addr with
  | None => None
  | Some params =>
    let json := JsonObject_new in
    let json := field_bool json "isLinkUp" (negb (params.["b_is_link_up"] =? 0)) in
    let json := field_bool json "linkInHighSpeed" (negb (params.["b_link_in_hs"] =? 0)) in
    let json := field_u64 json "nrLinks" params.["nr_links"] in
    let json := field_u64 json "maxNrLinks" params.["max_nr_links"] in
    let json := field_str json "linkMask" (fmt_0x params.["link_mask"]) in
    let json := field_u64 json "perLinkBwMBps" params.["per_link_bw_mbps"] in
    let json := field_u64 json "perLinkLaneWidth" params.["per_link_lane_width"] in
    let json := field_u64 json "remoteType" params.["remote_type"] in
    let json := field_str json "remoteTypeName" (c2c_remote_type_name params.["remote_type"]) in
    let json := field_str json "status" "ok" in
    Some {|
      kd_legacy := "name=NV2080_CTRL_CMD_BUS_GET_C2C_INFO, isLinkUp=" +:+
          bool_text (negb (params.["b_is_link_up"] =? 0)) +:+ ", nrLinks=" +:+ fmt_u params.["nr_links"];
      kd_json := finish json |}
  end.

Definition decode_cmd_gr_get_info (params_addr params_size : Z) : option KnownRmDecode :=
  let expected := struct_size Nv2080CtrlGrGetInfoParams in
  if params_size <? expected then
    Some (known_size_mismatch "NV2080_CTRL_CMD_GR_GET_INFO" expected params_size)
  else
  match read_pod Nv2080CtrlGrGetInfoParams params_addr with
  | None => None
  | Some params =>
    let entries := @nil (pod NvxxxxCtrlXxxInfo) in
    let count := Z.min params.["gr_info_list_size"] MAX_CTRL_LIST_ITEMS in
    let entries :=
      if (negb (params.["gr_info_list"] =? 0)) && (0 <? count) then
        match read_bytes params.["gr_info_list"] (as_u64 (count * (struct_size NvxxxxCtrlXxxInfo))) with
        | Some bytes =>
          let entries := xxx_infos bytes in
          entries
        | None =>
          entries
        end
      else
        entries in
    let json := JsonObject_new in
    let json := field_u64 json "grInfoListSize" params.["gr_info_list_size"] in
    let json := field_str json "grInfoListPtr" (fmt_0x params.["gr_info_list"]) in
    let json := field_raw json "grInfoList" (json_xxx_info_array entries) in
    let json := field_bool json "truncated" (count <? params.["gr_info_list_size"]) in
    let route := JsonObject_new in
    let route := field_str route "flags" (fmt_0x params.["gr_route_info"].["flags"]) in
    let route := field_str route "route" (fmt_0x params.["gr_route_info"].["route"]) in
    let json := field_raw json "grRouteInfo" (finish route) in
    let json := field_str json "status" "ok" in
    Some {|
      kd_legacy := "name=NV2080_CTRL_CMD_GR_GET_INFO, grInfoListSize=" +:+
          fmt_u params.["gr_info_list_size"];
      kd_json := finish json |}
  end.

Definition decode_cmd_gr_get_global_sm_order (params_addr params_size : Z) : option KnownRmDecode :=
  let expected := struct_size Nv2080CtrlGrGetGlobalSmOrderParams in
  if params_size <? expected then
    Some (known_size_mismatch "NV2080_CTRL_CMD_GR_GET_GLOBAL_SM_ORDER" expected params_size)
  else
  match read_pod Nv2080CtrlGrGetGlobalSmOrderParams params_addr with
  | None => None
  | Some params =>
    let count := Z.min params.["num_sm"] NV2080_CTRL_GR_GET_GLOBAL_SM_ORDER_MAX_SM_COUNT in
    let sampled := Z.min count MAX_CTRL_LIST_ITEMS in
    let json := JsonObject_new in
    let json := field_u64 json "numSm" params.["num_sm"] in
    let json := field_u64 json "numTpc" params.["num_tpc"] in
    let json := field_raw json "globalSmId" (json_global_sm_order_array (slice_to sampled params.["global_sm_id"])) in
    let json := field_bool json "truncated" (sampled <? count) in
    let route := JsonObject_new in
    let route := field_str route "flags" (fmt_0x params.["gr_route_info"].["flags"]) in
    let route := field_str route "route" (fmt_0x params.["gr_route_info"].["route"]) in
    let json := field_raw json "grRouteInfo" (finish route) in
    let json := field_str json "status" "ok" in
    Some {|
      kd_legacy := "name=NV2080_CTRL_CMD_GR_GET_GLOBAL_SM_ORDER, numSm=" +:+ fmt_u params.["num_sm"] +:+
          ", numTpc=" +:+ fmt_u params.["num_tpc"];
      kd_json := finish json |}
  end.

Definition decode_cmd_gr_get_caps_v2 (params_addr params_size : Z) : option KnownRmDecode :=
  let expected := struct_size Nv0080CtrlGrGetCapsV2Params in
  if params_size <? expected then
    Some (known_size_mismatch "NV2080_CTRL_CMD_GR_GET_CAPS_V2" expected params_size)
  else
  match read_pod Nv0080CtrlGrGetCapsV2Params params_addr with
  | None => None
  | Some params =>
    let json := JsonObject_new in
    let json := field_raw json "capsTbl" (json_u8_hex_array params.["caps_tbl"]) in
    let json := field_bool json "capsPopulated" (negb (params.["b_caps_populated"] =? 0)) in
    let route := JsonObject_new in
    let route := field_str route "flags" (fmt_0x params.["gr_route_info"].["flags"]) in
    let route := field_str route "route" (fmt_0x params.["gr_route_info"].["route"]) in
    let json := field_raw json "grRouteInfo" (finish route) in
    let json := field_str json "status" "ok" in
    Some {|
      kd_legacy := "name=NV2080_CTRL_CMD_GR_GET_CAPS_V2";
      kd_json := finish json |}
  end.

Definition decode_cmd_gr_get_gpc_mask (params_addr params_size : Z) : option KnownRmDecode :=
  let expected := struct_size Nv2080CtrlGrGetGpcMaskParams in
  if params_size <? expected then
    Some (known_size_mismatch "NV2080_CTRL_CMD_GR_GET_GPC_MASK" expected params_size)
  else
  match read_pod Nv2080CtrlGrGetGpcMaskParams params_addr with
  | None => None
  | Some params =>
    let json := JsonObject_new in
    let json := field_str json "gpcMask" (fmt_0x params.["gpc_mask"]) in
    let route := JsonObject_new in
    let route := field_str route "flags" (fmt_0x params.["gr_route_info"].["flags"]) in
    let route := field_str route "route" (fmt_0x params.["gr_route_info"].["route"]) in
    let json := field_raw json "grRouteInfo" (finish route) in
    let json := field_str json "status" "ok" in
    Some {|
      kd_legacy := "name=NV2080_CTRL_CMD_GR_GET_GPC_MASK, gpcMask=" +:+ fmt_0x params.["gpc_mask"];
      kd_json := finish json |}
  end.

Definition decode_cmd_gr_get_tpc_mask (params_addr params_size : Z) : option KnownRmDecode :=
  let expected := struct_size Nv2080CtrlGrGetTpcMaskParams in
  if params_size <? expected then
    Some (known_size_mismatch "NV2080_CTRL_CMD_GR_GET_TPC_MASK" expected params_size)
  else
  match read_pod Nv2080CtrlGrGetTpcMaskParams params_addr with
  | None => None
  | Some params =>
    let json := JsonObject_new in
    let json := field_u64 json "gpcId" params.["gpc_id"] in
    let json := field_str json "tpcMask" (fmt_0x params.["tpc_mask"]) in
    let route := JsonObject_new in
    let route := field_str route "flags" (fmt_0x params.["gr_route_info"].["flags"]) in
    let route := field_str route "route" (fmt_0x params.["gr_route_info"].["route"]) in
    let json := field_raw json "grRouteInfo" (finish route) in
    let json := field_str json "status" "ok" in
    Some {|
      kd_legacy := "name=NV2080_CTRL_CMD_GR_GET_TPC_MASK, gpcId=" +:+ fmt_u params.["gpc_id"] +:+
          ", tpcMask=" +:+ fmt_0x params.["tpc_mask"];
      kd_json := finish json |}
  end.

Definition decode_cmd_gr_set_ctxsw_preemption_mode (params_addr params_size : Z) : option KnownRmDecode :=
  let expected := struct_size Nv2080CtrlGrSetCtxswPreemptionModeParams in
  if params_size <? expected then
    Some (known_size_mismatch "NV2080_CTRL_CMD_GR_SET_CTXSW_PREEMPTION_MODE" expected params_size)
  else
  match read_pod Nv2080CtrlGrSetCtxswPreemptionModeParams params_addr with
  | None => None
  | Some params =>
    let json := JsonObject_new in
    let json := field_str json "flags" (fmt_0x params.["flags"]) in
    let json := field_str json "hChannel" (fmt_0x params.["h_channel"]) in
    let json := field_u64 json "gfxpPreemptMode" params.["gfxp_preempt_mode"] in
    let json := field_u64 json "cilpPreemptMode" params.["cilp_preempt_mode"] in
    let route := JsonObject_new in
    let route := field_str route "flags" (fmt_0x params.["gr_route_info"].["flags"]) in
    let route := field_str route "route" (fmt_0x params.["gr_route_info"].["route"]) in
    let json := field_raw json "grRouteInfo" (finish route) in
    let json := field_str json "status" "ok" in
    Some {|
      kd_legacy := "name=NV2080_CTRL_CMD_GR_SET_CTXSW_PREEMPTION_MODE";
      kd_json := finish json |}
  end.

Definition decode_cmd_gr_get_ctx_buffer_size (params_addr params_size : Z) : option KnownRmDecode :=
  let expected := struct_size Nv2080CtrlGrGetCtxBufferSizeParams in
  if params_size <? expected then
    Some (known_size_mismatch "NV2080_CTRL_CMD_GR_GET_CTX_BUFFER_SIZE" expected params_size)
  else
  match read_pod Nv2080CtrlGrGetCtxBufferSizeParams params_addr with
  | None => None
  | Some params =>
    let json := JsonObject_new in
    let json := field_str json "hChannel" (fmt_0x params.["h_channel"]) in
    let json := field_u64 json "totalBufferSize" params.["total_buffer_size"] in
    let json := field_str json "status" "ok" in
    Some {|
      kd_legacy := "name=NV2080_CTRL_CMD_GR_GET_CTX_BUFFER_SIZE, totalBufferSize=" +:+
          fmt_u params.["total_buffer_size"];
      kd_json := finish json |}
  end.

Definition decode_cmd_ce_get_all_caps (params_addr params_size : Z) : option KnownRmDecode :=
  let expected := struct_size Nv2080CtrlCeGetAllCapsParams in
  if params_size <? expected then
    Some (known_size_mismatch "NV2080_CTRL_CMD_CE_GET_ALL_CAPS" expected params_size)
  else
  match read_pod Nv2080CtrlCeGetAllCapsParams params_addr with
  | None => None
  | Some params =>
    let entries := ce_entries params.["present"] params.["caps_tbl"] in
    let json := JsonObject_new in
    let json := field_str json "presentMask" (fmt_0x params.["present"]) in
    let json := field_raw json "ceCaps" (json_ce_caps_array entries) in
    let json := field_u64 json "presentCount" (vec_len (filter (fun v : ce_entry => v.2 = true) entries)) in
    let json := field_str json "status" "ok" in
    Some {|
      kd_legacy := "name=NV2080_CTRL_CMD_CE_GET_ALL_CAPS, presentMask=" +:+ fmt_0x params.["present"];
      kd_json := finish json |}
  end.

Definition decode_cmd_nvlink_get_nvlink_status (params_addr params_size : Z) : option KnownRmDecode :=
  let expected := struct_size Nv2080CtrlNvlinkGetNvlinkStatusParamsPrefix in
  if params_size <? expected then
    Some (known_size_mismatch "NV2080_CTRL_CMD_NVLINK_GET_NVLINK_STATUS" expected params_size)
  else
  match read_pod Nv2080CtrlNvlinkGetNvlinkStatusParamsPrefix params_addr with
  | None => None
  | Some params =>
    let json := JsonObject_new in
    let json := field_str json "enabledLinkMask" (fmt_0x params.["enabled_link_mask"]) in
    let json := field_u64 json "enabledLinksLenMasks" params.["enabled_links"].["len_masks"] in
    let json := field_str json "enabledLinksMask0" (fmt_0x (nth 0%nat params.["enabled_links"].["masks"] 0)) in
    let json := field_bool json "sublinkStateInstant" (negb (params.["b_sublink_state_inst"] =? 0)) in
    let json := field_bool json "nvleModeEnabled" (negb (params.["b_nvle_mode_enabled"] =? 0)) in
    let json :=
      if 8 <=? params_size then
        let enabled_nvlpw_mask_addr := as_u64 ((as_u64 (params_addr + params_size)) - 8) in
        match read_value U64 enabled_nvlpw_mask_addr with
        | Some mask =>
          field_str json "enabledNvlpwMask" (fmt_0x mask)
        | None =>
          json
        end
      else
        json in
    let json := field_u64 json "paramsSize" params_size in
    let json := field_str json "status" "ok" in
    Some {|
      kd_legacy := "name=NV2080_CTRL_CMD_NVLINK_GET_NVLINK_STATUS, enabledLinkMask=" +:+
          fmt_0x params.["enabled_link_mask"];
      kd_json := finish json |}
  end.

Definition decode_cmd_gsp_get_features (params_addr params_size : Z) : option KnownRmDecode :=
  let expected := struct_size Nv2080CtrlGspGetFeaturesParams in
  if params_size <? expected then
    Some (known_size_mismatch "NV2080_CTRL_CMD_GSP_GET_FEATURES" expected params_size)
  else
  match read_pod Nv2080CtrlGspGetFeaturesParams params_addr with
  | None => None
  | Some params =>
    let json := JsonObject_new in
    let json := field_str json "gspFeatures" (fmt_0x params.["gsp_features"]) in
    let json := field_bool json "valid" (negb (params.["b_valid"] =? 0)) in
    let json := field_bool json "defaultGspRmGpu" (negb (params.["b_default_gsp_rm_gpu"] =? 0)) in
    let json := field_str json "firmwareVersion" (read_c_string params.["firmware_version"]) in
    let json := field_str json "status" "ok" in
    Some {|
      kd_legacy := "name=NV2080_CTRL_CMD_GSP_GET_FEATURES, valid=" +:+
          bool_text (negb (params.["b_valid"] =? 0));
      kd_json := finish json |}
  end.

Definition decode_cmd_grmgr_get_gr_fs_info (params_addr params_size : Z) : option KnownRmDecode :=
  let expected := struct_size Nv2080CtrlGrmgrGetGrFsInfoParams in
  if params_size <? expected then
    Some (known_size_mismatch "NV2080_CTRL_CMD_GRMGR_GET_GR_FS_INFO" expected params_size)
  else
  match read_pod Nv2080CtrlGrmgrGetGrFsInfoParams params_addr with
  | None => None
  | Some params =>
    let count := Z.min params.["num_queries"] NV2080_CTRL_GRMGR_GR_FS_INFO_MAX_QUERIES in
    let sampled := Z.min count MAX_CTRL_LIST_ITEMS in
    let json := JsonObject_new in
    let json := field_u64 json "numQueries" params.["num_queries"] in
    let json := field_raw json "queries" (json_grmgr_queries_array (slice_to sampled params.["queries"])) in
    let json := field_bool json "truncated" (sampled <? count) in
    let json := field_str json "status" "ok" in
    Some {|
      kd_legacy := "name=NV2080_CTRL_CMD_GRMGR_GET_GR_FS_INFO, numQueries=" +:+
          fmt_u params.["num_queries"];
      kd_json := finish json |}
  end.

Definition decode_cmd_conf_compute_get_capabilities (params_addr params_size : Z) : option KnownRmDecode :=
  let expected := struct_size NvConfComputeCtrlCmdSystemGetCapabilitiesParams in
  if params_size <? expected then
    Some (known_size_mismatch "NV_CONF_COMPUTE_CTRL_CMD_SYSTEM_GET_CAPABILITIES" expected params_size)
  else
  match read_pod NvConfComputeCtrlCmdSystemGetCapabilitiesParams params_addr with
  | None => None
  | Some params =>
    let json := JsonObject_new in
    let json := field_u64 json "cpuCapability" params.["cpu_capability"] in
    let json := field_u64 json "gpusCapability" params.["gpus_capability"] in
    let json := field_u64 json "environment" params.["environment"] in
    let json := field_u64 json "ccFeature" params.["cc_feature"] in
    let json := field_u64 json "devToolsMode" params.["dev_tools_mode"] in
    let json := field_u64 json "multiGpuMode" params.["multi_gpu_mode"] in
    let json := field_str json "status" "ok" in
    Some {|
      kd_legacy := "name=NV_CONF_COMPUTE_CTRL_CMD_SYSTEM_GET_CAPABILITIES";
      kd_json := finish json |}
  end.

Definition decode_cmd_gpfifo_schedule (params_addr params_size : Z) : option KnownRmDecode :=
  let expected := struct_size Nva06cCtrlGpfifoScheduleParams in
  if params_size <? expected then
    Some (known_size_mismatch "NVA06C_CTRL_CMD_GPFIFO_SCHEDULE" expected params_size)
  else
  match read_pod Nva06cCtrlGpfifoScheduleParams params_addr with
  | None => None
  | Some params =>
    let json := JsonObject_new in
    let json := field_bool json "enable" (negb (params.["b_enable"] =? 0)) in
    let json := field_bool json "skipSubmit" (negb (params.["b_skip_submit"] =? 0)) in
    let json := field_bool json "skipEnable" (negb (params.["b_skip_enable"] =? 0)) in
    let json := field_str json "status" "ok" in
    Some {|
      kd_legacy := "name=NVA06C_CTRL_CMD_GPFIFO_SCHEDULE";
      kd_json := finish json |}
  end.

Definition decode_cmd_set_timeslice (params_addr params_size : Z) : option KnownRmDecode :=
  let expected := struct_size Nva06cCtrlTimesliceParams in
  if params_size <? expected then
    Some (known_size_mismatch "NVA06C_CTRL_CMD_SET_TIMESLICE" expected params_size)
  else
  match read_pod Nva06cCtrlTimesliceParams params_addr with
  | None => None
  | Some params =>
    let json := JsonObject_new in
    let json := field_u64 json "timesliceUs" params.["timeslice_us"] in
    let json := field_str json "status" "ok" in
    Some {|
      kd_legacy := "name=NVA06C_CTRL_CMD_SET_TIMESLICE, timesliceUs=" +:+ fmt_u params.["timeslice_us"];
      kd_json := finish json |}
  end.

Definition decode_cmd_preempt (params_addr params_size : Z) : option KnownRmDecode :=
  let expected := struct_size Nva06cCtrlPreemptParams in
  if params_size <? expected then
    Some (known_size_mismatch "NVA06C_CTRL_CMD_PREEMPT" expected params_size)
  else
  match read_pod Nva06cCtrlPreemptParams params_addr with
  | None => None
  | Some params =>
    let json := JsonObject_new in
    let json := field_bool json "wait" (negb (params.["b_wait"] =? 0)) in
    let json := field_bool json "manualTimeout" (negb (params.["b_manual_timeout"] =? 0)) in
    let json := field_u64 json "timeoutUs" params.["timeout_us"] in
    let json := field_str json "status" "ok" in
    Some {|
      kd_legacy := "name=NVA06C_CTRL_CMD_PREEMPT, timeoutUs=" +:+ fmt_u params.["timeout_us"];
      kd_json := finish json |}
  end.

Definition decode_cmd_debug_set_exception_mask (params_addr params_size : Z) : option KnownRmDecode :=
  let expected := struct_size Nv83deCtrlDebugSetExceptionMaskParams in
  if params_size <? expected then
    Some (known_size_mismatch "NV83DE_CTRL_CMD_DEBUG_SET_EXCEPTION_MASK" expected params_size)
  else
  match read_pod Nv83deCtrlDebugSetExceptionMaskParams params_addr with
  | None => None
  | Some params =>
    let json := JsonObject_new in
    let json := field_str json "exceptionMask" (fmt_0x params.["exception_mask"]) in
    let json := field_str json "status" "ok" in
    Some {|
      kd_legacy := "name=NV83DE_CTRL_CMD_DEBUG_SET_EXCEPTION_MASK, mask=" +:+
          fmt_0x params.["exception_mask"];
      kd_json := finish json |}
  end.

Definition decode_cmd_perf_boost (params_addr params_size : Z) : option KnownRmDecode :=
  let expected := struct_size Nv2080CtrlPerfBoostParams in
  if params_size <? expected then
    Some (known_size_mismatch "NV2080_CTRL_CMD_PERF_BOOST" expected params_size)
  else
  match read_pod Nv2080CtrlPerfBoostParams params_addr with
  | None => None
  | Some params =>
    let json := JsonObject_new in
    let json := field_str json "flags" (fmt_0x params.["flags"]) in
    let json := field_u64 json "duration" params.["duration"] in
    let json := field_str json "status" "ok" in
    Some {|
      kd_legacy := "name=NV2080_CTRL_CMD_PERF_BOOST, flags=" +:+ fmt_0x params.["flags"] +:+
          ", duration=" +:+ fmt_u params.["duration"];
      kd_json := finish json |}
  end.

(** ** Dispatch *)

(** The arms of the match of [decode_known_rm_control]. *)
Definition rm_control_decoders : list (Z * (Z -> Z -> option KnownRmDecode)) :=
  [(NV0000_CTRL_CMD_CLIENT_GET_ADDR_SPACE_TYPE, decode_cmd_client_get_addr_space_type);
   (NV0000_CTRL_CMD_OS_UNIX_GET_CONTROL_FILE_DESCRIPTOR, decode_cmd_os_unix_get_control_file_descriptor);
   (NV0000_CTRL_CMD_SYSTEM_GET_BUILD_VERSION, decode_cmd_system_get_build_version);
   (NV0000_CTRL_CMD_CLIENT_SET_INHERITED_SHARE_POLICY, decode_cmd_client_set_inherited_share_policy);
   (NV0000_CTRL_CMD_SYSTEM_GET_FEATURES, decode_cmd_system_get_features);
   (NV0000_CTRL_CMD_SYSTEM_GET_FABRIC_STATUS, decode_cmd_system_get_fabric_status);
   (NV0000_CTRL_CMD_SYSTEM_GET_P2P_CAPS_MATRIX, decode_cmd_system_get_p2p_caps_matrix);
   (NV0000_CTRL_CMD_GPU_GET_MEMOP_ENABLE, decode_cmd_gpu_get_memop_enable);
   (NV0000_CTRL_CMD_GPU_GET_ATTACHED_IDS, decode_cmd_gpu_get_attached_ids);
   (NV0000_CTRL_CMD_GPU_GET_ID_INFO, decode_cmd_gpu_get_id_info);
   (NV0000_CTRL_CMD_GPU_GET_ID_INFO_V2, decode_cmd_gpu_get_id_info_v2);
   (NV0000_CTRL_CMD_GPU_GET_PROBED_IDS, decode_cmd_gpu_get_probed_ids);
   (NV0000_CTRL_CMD_GPU_ATTACH_IDS, decode_cmd_gpu_attach_ids);
   (NV0000_CTRL_CMD_GPU_GET_ACTIVE_DEVICE_IDS, decode_cmd_gpu_get_active_device_ids);
   (NV0000_CTRL_CMD_SYNC_GPU_BOOST_GROUP_INFO, decode_cmd_sync_gpu_boost_group_info);
   (NV0080_CTRL_CMD_HOST_GET_CAPS_V2, decode_cmd_host_get_caps_v2);
   (NV0080_CTRL_CMD_GPU_GET_NUM_SUBDEVICES, decode_cmd_gpu_get_num_subdevices);
   (NV0080_CTRL_CMD_GPU_GET_CLASSLIST_V2, decode_cmd_gpu_get_classlist_v2);
   (NV0080_CTRL_CMD_GPU_GET_VIRTUALIZATION_MODE, decode_cmd_gpu_get_virtualization_mode);
   (NV0080_CTRL_CMD_FIFO_GET_CHANNELLIST, decode_cmd_fifo_get_channellist);
   (NV0080_CTRL_CMD_PERF_CUDA_LIMIT_SET_CONTROL, decode_cmd_perf_cuda_limit_set_control);
   (NV0080_CTRL_CMD_FB_GET_CAPS_V2, decode_cmd_fb_get_caps_v2);
   (NV906F_CTRL_GET_CLASS_ENGINEID, decode_cmd_class_engine_id);
   (NVC36F_CTRL_CMD_GPFIFO_GET_WORK_SUBMIT_TOKEN, decode_cmd_gpfifo_get_work_submit_token);
   (NV2080_CTRL_CMD_MC_GET_ARCH_INFO, decode_cmd_mc_get_arch_info);
   (NV2080_CTRL_CMD_GPU_GET_INFO_V2, decode_cmd_gpu_get_info_v2);
   (NV2080_CTRL_CMD_GPU_GET_NAME_STRING, decode_cmd_gpu_get_name_string);
   (NV2080_CTRL_CMD_GPU_GET_SHORT_NAME_STRING, decode_cmd_gpu_get_short_name_string);
   (NV2080_CTRL_CMD_GPU_GET_SIMULATION_INFO, decode_cmd_gpu_get_simulation_info);
   (NV2080_CTRL_CMD_GPU_GET_ENGINES_V2, decode_cmd_gpu_get_engines_v2);
   (NV2080_CTRL_CMD_GPU_QUERY_ECC_STATUS, decode_cmd_gpu_query_ecc_status);
   (NV2080_CTRL_CMD_GPU_QUERY_COMPUTE_MODE_RULES, decode_cmd_gpu_query_compute_mode_rules);
   (NV2080_CTRL_CMD_GPU_GET_GID_INFO, decode_cmd_gpu_get_gid_info);
   (NV2080_CTRL_CMD_FB_GET_INFO_V2, decode_cmd_fb_get_info_v2);
   (NV2080_CTRL_CMD_BUS_GET_PCI_INFO, decode_cmd_bus_get_pci_info);
   (NV2080_CTRL_CMD_BUS_GET_INFO_V2, decode_cmd_bus_get_info_v2);
   (NV2080_CTRL_CMD_BUS_GET_PCI_BAR_INFO, decode_cmd_bus_get_pci_bar_info);
   (NV2080_CTRL_CMD_BUS_GET_PCIE_SUPPORTED_GPU_ATOMICS, decode_cmd_bus_get_pcie_supported_gpu_atomics);
   (NV2080_CTRL_CMD_BUS_GET_C2C_INFO, decode_cmd_bus_get_c2c_info);
   (NV2080_CTRL_CMD_GR_GET_INFO, decode_cmd_gr_get_info);
   (NV2080_CTRL_CMD_GR_GET_GLOBAL_SM_ORDER, decode_cmd_gr_get_global_sm_order);
   (NV2080_CTRL_CMD_GR_GET_CAPS_V2, decode_cmd_gr_get_caps_v2);
   (NV2080_CTRL_CMD_GR_GET_GPC_MASK, decode_cmd_gr_get_gpc_mask);
   (NV2080_CTRL_CMD_GR_GET_TPC_MASK, decode_cmd_gr_get_tpc_mask);
   (NV2080_CTRL_CMD_GR_SET_CTXSW_PREEMPTION_MODE, decode_cmd_gr_set_ctxsw_preemption_mode);
   (NV2080_CTRL_CMD_GR_GET_CTX_BUFFER_SIZE, decode_cmd_gr_get_ctx_buffer_size);
   (NV2080_CTRL_CMD_CE_GET_ALL_CAPS, decode_cmd_ce_get_all_caps);
   (NV2080_CTRL_CMD_NVLINK_GET_NVLINK_STATUS, decode_cmd_nvlink_get_nvlink_status);
   (NV2080_CTRL_CMD_GSP_GET_FEATURES, decode_cmd_gsp_get_features);
   (NV2080_CTRL_CMD_GRMGR_GET_GR_FS_INFO, decode_cmd_grmgr_get_gr_fs_info);
   (NV_CONF_COMPUTE_CTRL_CMD_SYSTEM_GET_CAPABILITIES, decode_cmd_conf_compute_get_capabilities);
   (NVA06C_CTRL_CMD_GPFIFO_SCHEDULE, decode_cmd_gpfifo_schedule);
   (NVA06C_CTRL_CMD_SET_TIMESLICE, decode_cmd_set_timeslice);
   (NVA06C_CTRL_CMD_PREEMPT, decode_cmd_preempt);
   (NV83DE_CTRL_CMD_DEBUG_SET_EXCEPTION_MASK, decode_cmd_debug_set_exception_mask);
   (NV2080_CTRL_CMD_PERF_BOOST, decode_cmd_perf_boost)].

Definition decode_known_rm_control (cmd : Z) (params_addr : Z) (params_size : Z) : option KnownRmDecode :=
  match match_const cmd rm_control_decoders with
  | Some decode => decode params_addr params_size
  | None => decode_cmd_nv2080_legacy_generic cmd params_addr params_size
  end.

End Control.
