(* ===== verification/Rm.v ===== *)
(** * RM escapes: [decode_nvidia_ioctl] of [src/src/decode/ioctl_rm.rs]

    One definition per escape, the control payload, and the dispatch on the
    number of the command as a table of arms.  [root] is the JSON object under
    construction; [legacy], the text of the older format, is threaded where the
    source passes it. *)
From S2P Require Import Prelude RustStr Config Layout Json Ioctl RmTypes RmNames RmJson RmControl.

Section Rm.
Context {M : RemoteMem}.

Definition read_checked_pod (T : layout) (meta : IoctlMeta) (arg_ptr : Z) : pod T + string :=
  let expected := struct_size T in
  let declared := size meta in
  if (0 <? declared) && (declared <? expected) then
    inr ("size_mismatch(expected>=" +:+ fmt_u expected +:+ ",actual=" +:+ fmt_u declared +:+ ")")
  else
    match read_pod T arg_ptr with
    | None => inr "arg_unreadable"
    | Some value => inl value
    end.

Definition write_nvos02_fields (params : pod NvOs02Parameters) (root : JsonObject) : JsonObject :=
  let root := field_str root "hRoot" (fmt_0x params.["h_root"]) in
  let root := field_str root "hObjectParent" (fmt_0x params.["h_object_parent"]) in
  let root := field_str root "hObjectNew" (fmt_0x params.["h_object_new"]) in
  let root := write_rm_alloc_class root params.["h_class"] in
  let root := field_str root "flags" (fmt_0x params.["flags"]) in
  let root := field_str root "flagsPhysicality" (nvos02_flags_physicality_name (Z.land (Z.shiftr params.["flags"] 4) 0x0f)) in
  let root := field_str root "flagsLocation" (nvos02_flags_location_name (Z.land (Z.shiftr params.["flags"] 8) 0x0f)) in
  let root := field_str root "flagsCoherency" (nvos02_flags_coherency_name (Z.land (Z.shiftr params.["flags"] 12) 0x0f)) in
  let root := field_str root "flagsAlloc" (nvos02_flags_alloc_name (Z.land (Z.shiftr params.["flags"] 16) 0x03)) in
  let root := field_bool root "flagsGpuCacheable" (negb ((Z.land (Z.shiftr params.["flags"] 18) 0x1) =? 0)) in
  let root := field_bool root "flagsKernelMapping" (negb ((Z.land (Z.shiftr params.["flags"] 19) 0x1) =? 0)) in
  let root := field_str root "flagsMapping" (nvos02_flags_mapping_name (Z.land (Z.shiftr params.["flags"] 30) 0x03)) in
  let root := field_str root "pMemory" (fmt_0x params.["p_memory"]) in
  field_str root "limit" (fmt_0x params.["limit"]).

Definition decode_alloc_blob (params_ptr : Z) (params_size : Z) (max_blob : Z)
    (root : JsonObject) : JsonObject :=
  if (params_ptr =? 0) || (params_size =? 0) then
    root
  else
  let read_len := Z.min params_size (Z.max max_blob 16) in
  match read_bytes params_ptr read_len with
  | Some bytes =>
    let root := field_str root "allocParamsBlobHex" (hex_bytes bytes) in
    field_bool root "allocParamsTruncated" (read_len <? params_size)
  | None =>
    field_str root "allocParamsStatus" "unreadable"
  end.

Definition decode_nvos54_payload (os54 : pod NvOs54Parameters) (max_blob : Z) (legacy : string)
    (root : JsonObject) : string * JsonObject :=
  let cmd_name := rm_control_cmd_name os54.["cmd"] in
  let legacy := legacy +:+ ", os54={hClient=" +:+ fmt_0x os54.["h_client"] +:+ ",hObject=" +:+
      fmt_0x os54.["h_object"] +:+ ",cmd=" +:+ fmt_0x os54.["cmd"] +:+ "(" +:+ cmd_name +:+
      "),flags=" +:+ fmt_0x os54.["flags"] +:+ ",params=" +:+ fmt_0x os54.["params"] +:+
      ",paramsSize=" +:+ fmt_u os54.["params_size"] +:+ ",status=" +:+ fmt_i os54.["status"] +:+ "}" in
  let os54_json := JsonObject_new in
  let os54_json := field_str os54_json "hClient" (fmt_0x os54.["h_client"]) in
  let os54_json := field_str os54_json "hObject" (fmt_0x os54.["h_object"]) in
  let os54_json := field_str os54_json "cmd_raw" (fmt_0x os54.["cmd"]) in
  let os54_json := field_str os54_json "cmd_name" cmd_name in
  let os54_json := field_str os54_json "flags" (fmt_0x os54.["flags"]) in
  let os54_json := field_str os54_json "params_ptr" (fmt_0x os54.["params"]) in
  let os54_json := field_u64 os54_json "params_size" os54.["params_size"] in
  let os54_json := field_i64 os54_json "rm_status" os54.["status"] in
  let root := field_raw root "os54" (finish os54_json) in
  if (os54.["params"] =? 0) || (os54.["params_size"] =? 0) then
    let root := field_str root "status" "ok" in
    (legacy, root)
  else
  match decode_known_rm_control os54.["cmd"] os54.["params"] os54.["params_size"] with
  | Some decoded =>
    let legacy := legacy +:+ ", rmKnown={" +:+ kd_legacy decoded +:+ "}" in
    let root := field_raw root "inner" (kd_json decoded) in
    let root := field_str root "status" "ok" in
    (legacy, root)
  | None =>
    let read_len := Z.min os54.["params_size"] (Z.min (Z.max max_blob 16) (as_u64 (MAX_INNER_PREVIEW_WORDS * 4))) in
    if read_len =? 0 then
      let root := field_str root "status" "params_empty" in
      (legacy, root)
    else
    let inner := JsonObject_new in
    let inner := field_str inner "cmd_raw" (fmt_0x os54.["cmd"]) in
    let inner := field_str inner "cmd_name" cmd_name in
    let inner := field_u64 inner "params_size" os54.["params_size"] in
    let '(inner, root) :=
      match read_bytes os54.["params"] read_len with
      | Some bytes =>
        let words := words32 bytes in
        let params_type_name := default "paramsPreview" (rm_control_params_type_name cmd_name) in
        let inner := field_raw inner params_type_name (json_u32_hex_array words) in
        let inner := field_bool inner "preview_truncated" (read_len <? os54.["params_size"]) in
        let root := field_raw root "inner" (finish inner) in
        let root := field_str root "status" "inner_partial" in
        (inner, root)
      | None =>
        let inner := field_str inner "preview" "unreadable" in
        let root := field_raw root "inner" (finish inner) in
        let root := field_str root "status" "params_unreadable" in
        (inner, root)
      end in
    (legacy, root)
  end.

Definition decode_rm_control (meta : IoctlMeta) (arg_ptr : Z) (max_blob : Z) (legacy : string)
    (root : JsonObject) : string * JsonObject :=
  match read_checked_pod NvOs54Parameters meta arg_ptr with
  | inl os54 =>
    decode_nvos54_payload os54 max_blob legacy root
  | inr err =>
    let root := field_str root "status" err in
    (legacy, root)
  end.

Definition decode_xfer (arg_ptr : Z) (decode_mode : IoctlDecodeMode) (max_blob : Z) (legacy : string)
    (root : JsonObject) : string * JsonObject :=
  match read_pod NvIoctlXfer arg_ptr with
  | Some xfer =>
    let legacy := legacy +:+ ", xfer={cmd=" +:+ fmt_0x xfer.["cmd"] +:+ ",size=" +:+
        fmt_u xfer.["size"] +:+ ",ptr=" +:+ fmt_0x xfer.["ptr"] +:+ "}" in
    let xfer_json := JsonObject_new in
    let xfer_json := field_str xfer_json "cmd_raw" (fmt_0x xfer.["cmd"]) in
    let xfer_json := field_u64 xfer_json "size" xfer.["size"] in
    let xfer_json := field_str xfer_json "ptr" (fmt_0x xfer.["ptr"]) in
    let root := field_raw root "xfer" (finish xfer_json) in
    if negb (bool_decide (decode_mode = Decode_Full)) then
      let root := field_str root "status" "ok" in
      (legacy, root)
    else
    if (negb (xfer.["cmd"] =? NV04_CONTROL)) || (xfer.["ptr"] =? 0) then
      let root := field_str root "status" "xfer_non_nvos54" in
      (legacy, root)
    else
    match read_pod NvOs54Parameters xfer.["ptr"] with
    | Some os54 =>
      decode_nvos54_payload os54 max_blob legacy root
    | None =>
      let legacy := legacy +:+ ", os54=<unreadable>" in
      let root := field_str root "status" "os54_unreadable" in
      (legacy, root)
    end
  | None =>
    let legacy := legacy +:+ ", xfer=<unreadable>" in
    let root := field_str root "status" "xfer_unreadable" in
    (legacy, root)
  end.

Definition decode_rm_alloc_memory (meta : IoctlMeta) (arg_ptr : Z) (root : JsonObject) : JsonObject :=
  let declared := size meta in
  if (struct_size NvIoctlNvos02ParametersWithFd) <=? declared then
    match read_checked_pod NvIoctlNvos02ParametersWithFd meta arg_ptr with
    | inl wrapper =>
      let root := field_str root "api" "nv_ioctl_nvos02_parameters_with_fd" in
      let root := write_nvos02_fields wrapper.["params"] root in
      let root := field_i64 root "fd" wrapper.["fd"] in
      let root := field_i64 root "rmStatus" wrapper.["params"].["status"] in
      field_str root "status" "ok"
    | inr err =>
      field_str root "status" err
    end
  else
  if (struct_size NvOs02Parameters) <=? declared then
    match read_checked_pod NvOs02Parameters meta arg_ptr with
    | inl params =>
      let root := field_str root "api" "NVOS02" in
      let root := write_nvos02_fields params root in
      let root := field_i64 root "rmStatus" params.["status"] in
      field_str root "status" "ok"
    | inr err =>
      field_str root "status" err
    end
  else
  field_str root "status" ("size_mismatch(expected>=" +:+ fmt_u (struct_size NvOs02Parameters) +:+
      ",actual=" +:+ fmt_u declared +:+ ")").

Definition decode_rm_alloc_object (meta : IoctlMeta) (arg_ptr : Z) (root : JsonObject) : JsonObject :=
  match read_checked_pod NvOs05Parameters meta arg_ptr with
  | inl params =>
    let root := field_str root "api" "NVOS05" in
    let root := field_str root "hRoot" (fmt_0x params.["h_root"]) in
    let root := field_str root "hObjectParent" (fmt_0x params.["h_object_parent"]) in
    let root := field_str root "hObjectNew" (fmt_0x params.["h_object_new"]) in
    let root := write_rm_alloc_class root params.["h_class"] in
    let root := field_i64 root "rmStatus" params.["status"] in
    field_str root "status" "ok"
  | inr err =>
    field_str root "status" err
  end.

Definition decode_rm_alloc (meta : IoctlMeta) (arg_ptr : Z) (max_blob : Z) (root : JsonObject) : JsonObject :=
  let declared := size meta in
  if (struct_size NvOs64Parameters) <=? declared then
    match read_checked_pod NvOs64Parameters meta arg_ptr with
    | inl params =>
      let root := field_str root "api" "NVOS64" in
      let root := field_str root "hRoot" (fmt_0x params.["h_root"]) in
      let root := field_str root "hObjectParent" (fmt_0x params.["h_object_parent"]) in
      let root := field_str root "hObjectNew" (fmt_0x params.["h_object_new"]) in
      let root := write_rm_alloc_class root params.["h_class"] in
      let root := field_str root "pAllocParms" (fmt_0x params.["p_alloc_parms"]) in
      let root := field_str root "pRightsRequested" (fmt_0x params.["p_rights_requested"]) in
      let root := field_u64 root "paramsSize" params.["params_size"] in
      let root := field_u64 root "flags" params.["flags"] in
      let root := field_i64 root "rmStatus" params.["status"] in
      let root := decode_alloc_blob params.["p_alloc_parms"] params.["params_size"] max_blob root in
      field_str root "status" "ok"
    | inr err =>
      field_str root "status" err
    end
  else
  if (struct_size NvOs21Parameters) <=? declared then
    match read_checked_pod NvOs21Parameters meta arg_ptr with
    | inl params =>
      let root := field_str root "api" "NVOS21" in
      let root := field_str root "hRoot" (fmt_0x params.["h_root"]) in
      let root := field_str root "hObjectParent" (fmt_0x params.["h_object_parent"]) in
      let root := field_str root "hObjectNew" (fmt_0x params.["h_object_new"]) in
      let root := write_rm_alloc_class root params.["h_class"] in
      let root := field_str root "pAllocParms" (fmt_0x params.["p_alloc_parms"]) in
      let root := field_u64 root "paramsSize" params.["params_size"] in
      let root := field_i64 root "rmStatus" params.["status"] in
      let root := decode_alloc_blob params.["p_alloc_parms"] params.["params_size"] max_blob root in
      field_str root "status" "ok"
    | inr err =>
      field_str root "status" err
    end
  else
  field_str root "status" ("size_mismatch(expected>=" +:+ fmt_u (struct_size NvOs21Parameters) +:+
      ",actual=" +:+ fmt_u declared +:+ ")").

Definition decode_rm_free (meta : IoctlMeta) (arg_ptr : Z) (root : JsonObject) : JsonObject :=
  match read_checked_pod NvOs00Parameters meta arg_ptr with
  | inl params =>
    let root := field_str root "hRoot" (fmt_0x params.["h_root"]) in
    let root := field_str root "hObjectParent" (fmt_0x params.["h_object_parent"]) in
    let root := field_str root "hObjectOld" (fmt_0x params.["h_object_old"]) in
    let root := field_i64 root "rmStatus" params.["status"] in
    field_str root "status" "ok"
  | inr err =>
    field_str root "status" err
  end.

Definition decode_rm_map_memory (meta : IoctlMeta) (arg_ptr : Z) (root : JsonObject) : JsonObject :=
  let declared := size meta in
  if (struct_size NvIoctlNvos33ParametersWithFd) <=? declared then
    match read_checked_pod NvIoctlNvos33ParametersWithFd meta arg_ptr with
    | inl wrapper =>
      let params := wrapper.["params"] in
      let root := field_str root "api" "nv_ioctl_nvos33_parameters_with_fd" in
      let root := field_str root "hClient" (fmt_0x params.["h_client"]) in
      let root := field_str root "hDevice" (fmt_0x params.["h_device"]) in
      let root := field_str root "hMemory" (fmt_0x params.["h_memory"]) in
      let root := field_str root "offset" (fmt_0x params.["offset"]) in
      let root := field_u64 root "length" params.["length"] in
      let root := field_str root "pLinearAddress" (fmt_0x params.["p_linear_address"]) in
      let root := field_u64 root "flags" params.["flags"] in
      let root := field_u64 root "fd" (as_u64 wrapper.["fd"]) in
      let root := field_i64 root "rmStatus" params.["status"] in
      field_str root "status" "ok"
    | inr err =>
      field_str root "status" err
    end
  else
  field_str root "status" ("size_mismatch(expected>=" +:+
      fmt_u (struct_size NvIoctlNvos33ParametersWithFd) +:+ ",actual=" +:+ fmt_u declared +:+ ")").

Definition decode_rm_unmap_memory (meta : IoctlMeta) (arg_ptr : Z) (root : JsonObject) : JsonObject :=
  match read_checked_pod NvOs34Parameters meta arg_ptr with
  | inl params =>
    let root := field_str root "hClient" (fmt_0x params.["h_client"]) in
    let root := field_str root "hDevice" (fmt_0x params.["h_device"]) in
    let root := field_str root "hMemory" (fmt_0x params.["h_memory"]) in
    let root := field_str root "pLinearAddress" (fmt_0x params.["p_linear_address"]) in
    let root := field_u64 root "flags" params.["flags"] in
    let root := field_i64 root "rmStatus" params.["status"] in
    field_str root "status" "ok"
  | inr err =>
    field_str root "status" err
  end.

Definition decode_rm_i2c_access (meta : IoctlMeta) (arg_ptr : Z) (root : JsonObject) : JsonObject :=
  match read_checked_pod RmI2cAccessParams meta arg_ptr with
  | inl params =>
    let root := field_str root "hClient" (fmt_0x params.["h_client"]) in
    let root := field_str root "hDevice" (fmt_0x params.["h_device"]) in
    let root := field_u64 root "paramSize" params.["param_size"] in
    let root := field_str root "paramStructPtr" (fmt_0x params.["param_struct_ptr"]) in
    let root := field_i64 root "rmStatus" params.["status"] in
    field_str root "status" "ok"
  | inr err =>
    field_str root "status" err
  end.

Definition decode_rm_idle_channels (meta : IoctlMeta) (arg_ptr : Z) (root : JsonObject) : JsonObject :=
  match read_checked_pod RmIdleChannelsParams meta arg_ptr with
  | inl params =>
    let root := field_str root "hClient" (fmt_0x params.["h_client"]) in
    let root := field_str root "hDevice" (fmt_0x params.["h_device"]) in
    let root := field_str root "hChannel" (fmt_0x params.["h_channel"]) in
    let root := field_u64 root "numChannels" params.["num_channels"] in
    let root := field_str root "phClients" (fmt_0x params.["ph_clients"]) in
    let root := field_str root "phDevices" (fmt_0x params.["ph_devices"]) in
    let root := field_str root "phChannels" (fmt_0x params.["ph_channels"]) in
    let root := field_str root "flags" (fmt_0x params.["flags"]) in
    let root := field_u64 root "timeout" params.["timeout"] in
    let root := field_i64 root "rmStatus" params.["status"] in
    field_str root "status" "ok"
  | inr err =>
    field_str root "status" err
  end.

Definition decode_rm_vid_heap_control (meta : IoctlMeta) (arg_ptr : Z) (root : JsonObject) : JsonObject :=
  match read_checked_pod RmVidHeapControlPrefix meta arg_ptr with
  | inl params =>
    let root := field_str root "hRoot" (fmt_0x params.["h_root"]) in
    let root := field_str root "hObjectParent" (fmt_0x params.["h_object_parent"]) in
    let root := field_u64 root "function" params.["function"] in
    let root := field_str root "functionName" (rm_vid_heap_function_name params.["function"]) in
    let root := field_str root "hVASpace" (fmt_0x params.["h_vaspace"]) in
    let root := field_i64 root "ivcHeapNumber" params.["ivc_heap_number"] in
    let root := field_u64 root "total" params.["total"] in
    let root := field_u64 root "free" params.["free"] in
    let root := field_i64 root "rmStatus" params.["status"] in
    let data_addr := as_u64 (arg_ptr + (struct_size RmVidHeapControlPrefix)) in
    let root :=
      if (params.["function"] =? 2) then
        match read_pod RmVidHeapAllocSizeData data_addr with
        | Some data =>
          let obj := JsonObject_new in
          let obj := field_u64 obj "owner" data.["owner"] in
          let obj := field_str obj "hMemory" (fmt_0x data.["h_memory"]) in
          let obj := field_u64 obj "type" data.["mem_type"] in
          let obj := field_str obj "flags" (fmt_0x data.["flags"]) in
          let obj := field_str obj "attr" (fmt_0x data.["attr"]) in
          let obj := field_str obj "format" (fmt_0x data.["format"]) in
          let obj := field_u64 obj "comprCovg" data.["compr_covg"] in
          let obj := field_u64 obj "zcullCovg" data.["zcull_covg"] in
          let obj := field_u64 obj "partitionStride" data.["partition_stride"] in
          let obj := field_u64 obj "width" data.["width"] in
          let obj := field_u64 obj "height" data.["height"] in
          let obj := field_u64 obj "size" data.["size"] in
          let obj := field_u64 obj "alignment" data.["alignment"] in
          let obj := field_str obj "offset" (fmt_0x data.["offset"]) in
          let obj := field_str obj "limit" (fmt_0x data.["limit"]) in
          let obj := field_str obj "address" (fmt_0x data.["address"]) in
          let obj := field_str obj "rangeBegin" (fmt_0x data.["range_begin"]) in
          let obj := field_str obj "rangeEnd" (fmt_0x data.["range_end"]) in
          let obj := field_str obj "attr2" (fmt_0x data.["attr2"]) in
          let obj := field_u64 obj "ctagOffset" data.["ctag_offset"] in
          let obj := field_i64 obj "numaNode" data.["numa_node"] in
          field_raw root "allocSize" (finish obj)
        | None =>
          root
        end
      else if (params.["function"] =? 3) then
        match read_pod RmVidHeapFreeData data_addr with
        | Some data =>
          let obj := JsonObject_new in
          let obj := field_u64 obj "owner" data.["owner"] in
          let obj := field_str obj "hMemory" (fmt_0x data.["h_memory"]) in
          let obj := field_str obj "flags" (fmt_0x data.["flags"]) in
          field_raw root "free" (finish obj)
        | None =>
          root
        end
      else if (params.["function"] =? 27) then
        match read_pod RmVidHeapAllocOsDescData data_addr with
        | Some data =>
          let obj := JsonObject_new in
          let obj := field_str obj "hMemory" (fmt_0x data.["h_memory"]) in
          let obj := field_u64 obj "type" data.["mem_type"] in
          let obj := field_str obj "flags" (fmt_0x data.["flags"]) in
          let obj := field_str obj "attr" (fmt_0x data.["attr"]) in
          let obj := field_str obj "attr2" (fmt_0x data.["attr2"]) in
          let obj := field_str obj "descriptor" (fmt_0x data.["descriptor"]) in
          let obj := field_str obj "limit" (fmt_0x data.["limit"]) in
          let obj := field_u64 obj "descriptorType" data.["descriptor_type"] in
          field_raw root "allocOsDesc" (finish obj)
        | None =>
          root
        end
      else
        root in
    field_str root "status" "ok"
  | inr err =>
    field_str root "status" err
  end.

Definition decode_rm_access_registry (meta : IoctlMeta) (arg_ptr : Z) (max_blob : Z)
    (root : JsonObject) : JsonObject :=
  match read_checked_pod RmAccessRegistryParams meta arg_ptr with
  | inl params =>
    let root := field_str root "hClient" (fmt_0x params.["h_client"]) in
    let root := field_str root "hObject" (fmt_0x params.["h_object"]) in
    let root := field_u64 root "accessType" params.["access_type"] in
    let root := field_u64 root "devNodeLength" params.["dev_node_length"] in
    let root := field_str root "pDevNode" (fmt_0x params.["p_dev_node"]) in
    let root := field_u64 root "parmStrLength" params.["parm_str_length"] in
    let root := field_str root "pParmStr" (fmt_0x params.["p_parm_str"]) in
    let root := field_u64 root "binaryDataLength" params.["binary_data_length"] in
    let root := field_str root "pBinaryData" (fmt_0x params.["p_binary_data"]) in
    let root := field_u64 root "data" params.["data"] in
    let root := field_u64 root "entry" params.["entry"] in
    let root := field_i64 root "rmStatus" params.["status"] in
    let root :=
      if (negb (params.["p_dev_node"] =? 0)) && (0 <? params.["dev_node_length"]) then
        match read_remote_string params.["p_dev_node"] params.["dev_node_length"] max_blob with
        | Some text =>
          field_str root "devNode" text
        | None =>
          root
        end
      else
        root in
    let root :=
      if (negb (params.["p_parm_str"] =? 0)) && (0 <? params.["parm_str_length"]) then
        match read_remote_string params.["p_parm_str"] params.["parm_str_length"] max_blob with
        | Some text =>
          field_str root "parmStr" text
        | None =>
          root
        end
      else
        root in
    field_str root "status" "ok"
  | inr err =>
    field_str root "status" err
  end.

Definition decode_rm_get_event_data (meta : IoctlMeta) (arg_ptr : Z) (root : JsonObject) : JsonObject :=
  match read_checked_pod RmGetEventDataParams meta arg_ptr with
  | inl params =>
    let root := field_str root "pEvent" (fmt_0x params.["p_event"]) in
    let root := field_u64 root "moreEvents" params.["more_events"] in
    let root := field_i64 root "rmStatus" params.["status"] in
    let root :=
      if negb (params.["p_event"] =? 0) then
        match read_pod RmUnixEvent params.["p_event"] with
        | Some event =>
          let obj := JsonObject_new in
          let obj := field_str obj "hObject" (fmt_0x event.["h_object"]) in
          let obj := field_u64 obj "notifyIndex" event.["notify_index"] in
          let obj := field_u64 obj "info32" event.["info32"] in
          let obj := field_u64 obj "info16" event.["info16"] in
          field_raw root "event" (finish obj)
        | None =>
          root
        end
      else
        root in
    field_str root "status" "ok"
  | inr err =>
    field_str root "status" err
  end.

Definition decode_rm_alloc_context_dma2 (meta : IoctlMeta) (arg_ptr : Z) (root : JsonObject) : JsonObject :=
  match read_checked_pod RmAllocContextDma2Params meta arg_ptr with
  | inl params =>
    let root := field_str root "hObjectParent" (fmt_0x params.["h_object_parent"]) in
    let root := field_str root "hSubDevice" (fmt_0x params.["h_sub_device"]) in
    let root := field_str root "hObjectNew" (fmt_0x params.["h_object_new"]) in
    let root := field_str root "hClass" (fmt_0x params.["h_class"]) in
    let root := field_str root "flags" (fmt_0x params.["flags"]) in
    let root := field_u64 root "selector" params.["selector"] in
    let root := field_str root "hMemory" (fmt_0x params.["h_memory"]) in
    let root := field_str root "offset" (fmt_0x params.["offset"]) in
    let root := field_str root "limit" (fmt_0x params.["limit"]) in
    let root := field_i64 root "rmStatus" params.["status"] in
    field_str root "status" "ok"
  | inr err =>
    field_str root "status" err
  end.

Definition decode_rm_map_memory_dma (meta : IoctlMeta) (arg_ptr : Z) (root : JsonObject) : JsonObject :=
  match read_checked_pod RmMapMemoryDmaParams meta arg_ptr with
  | inl params =>
    let root := field_str root "hClient" (fmt_0x params.["h_client"]) in
    let root := field_str root "hDevice" (fmt_0x params.["h_device"]) in
    let root := field_str root "hDma" (fmt_0x params.["h_dma"]) in
    let root := field_str root "hMemory" (fmt_0x params.["h_memory"]) in
    let root := field_str root "offset" (fmt_0x params.["offset"]) in
    let root := field_u64 root "length" params.["length"] in
    let root := field_str root "flags" (fmt_0x params.["flags"]) in
    let root := field_str root "flags2" (fmt_0x params.["flags2"]) in
    let root := field_u64 root "kindOverride" params.["kind_override"] in
    let root := field_str root "dmaOffset" (fmt_0x params.["dma_offset"]) in
    let root := field_i64 root "rmStatus" params.["status"] in
    field_str root "status" "ok"
  | inr err =>
    field_str root "status" err
  end.

Definition decode_rm_unmap_memory_dma (meta : IoctlMeta) (arg_ptr : Z) (root : JsonObject) : JsonObject :=
  match read_checked_pod RmUnmapMemoryDmaParams meta arg_ptr with
  | inl params =>
    let root := field_str root "hClient" (fmt_0x params.["h_client"]) in
    let root := field_str root "hDevice" (fmt_0x params.["h_device"]) in
    let root := field_str root "hDma" (fmt_0x params.["h_dma"]) in
    let root := field_str root "hMemory" (fmt_0x params.["h_memory"]) in
    let root := field_str root "flags" (fmt_0x params.["flags"]) in
    let root := field_str root "dmaOffset" (fmt_0x params.["dma_offset"]) in
    let root := field_u64 root "size" params.["size"] in
    let root := field_i64 root "rmStatus" params.["status"] in
    field_str root "status" "ok"
  | inr err =>
    field_str root "status" err
  end.

Definition decode_rm_bind_context_dma (meta : IoctlMeta) (arg_ptr : Z) (root : JsonObject) : JsonObject :=
  match read_checked_pod RmBindContextDmaParams meta arg_ptr with
  | inl params =>
    let root := field_str root "hClient" (fmt_0x params.["h_client"]) in
    let root := field_str root "hChannel" (fmt_0x params.["h_channel"]) in
    let root := field_str root "hCtxDma" (fmt_0x params.["h_ctx_dma"]) in
    let root := field_i64 root "rmStatus" params.["status"] in
    field_str root "status" "ok"
  | inr err =>
    field_str root "status" err
  end.

Definition decode_rm_dup_object (meta : IoctlMeta) (arg_ptr : Z) (root : JsonObject) : JsonObject :=
  match read_checked_pod RmDupObjectParams meta arg_ptr with
  | inl params =>
    let root := field_str root "hClient" (fmt_0x params.["h_client"]) in
    let root := field_str root "hParent" (fmt_0x params.["h_parent"]) in
    let root := field_str root "hObject" (fmt_0x params.["h_object"]) in
    let root := field_str root "hClientSrc" (fmt_0x params.["h_client_src"]) in
    let root := field_str root "hObjectSrc" (fmt_0x params.["h_object_src"]) in
    let root := field_str root "flags" (fmt_0x params.["flags"]) in
    let root := field_i64 root "rmStatus" params.["status"] in
    field_str root "status" "ok"
  | inr err =>
    field_str root "status" err
  end.

Definition decode_rm_update_device_mapping_info (meta : IoctlMeta) (arg_ptr : Z)
    (root : JsonObject) : JsonObject :=
  match read_checked_pod RmUpdateDeviceMappingInfoParams meta arg_ptr with
  | inl params =>
    let root := field_str root "hClient" (fmt_0x params.["h_client"]) in
    let root := field_str root "hDevice" (fmt_0x params.["h_device"]) in
    let root := field_str root "hMemory" (fmt_0x params.["h_memory"]) in
    let root := field_str root "pOldCpuAddress" (fmt_0x params.["p_old_cpu_address"]) in
    let root := field_str root "pNewCpuAddress" (fmt_0x params.["p_new_cpu_address"]) in
    let root := field_i64 root "rmStatus" params.["status"] in
    field_str root "status" "ok"
  | inr err =>
    field_str root "status" err
  end.

Definition decode_rm_share (meta : IoctlMeta) (arg_ptr : Z) (root : JsonObject) : JsonObject :=
  match read_checked_pod RmShareParams meta arg_ptr with
  | inl params =>
    let root := field_str root "hClient" (fmt_0x params.["h_client"]) in
    let root := field_str root "hObject" (fmt_0x params.["h_object"]) in
    let root := field_raw root "sharePolicy" (json_share_policy params.["share_policy"]) in
    let root := field_i64 root "rmStatus" params.["status"] in
    field_str root "status" "ok"
  | inr err =>
    field_str root "status" err
  end.

Definition decode_rm_add_vblank_callback (meta : IoctlMeta) (arg_ptr : Z) (root : JsonObject) : JsonObject :=
  match read_checked_pod RmAddVblankCallbackParams meta arg_ptr with
  | inl params =>
    let root := field_str root "hClient" (fmt_0x params.["h_client"]) in
    let root := field_str root "hDevice" (fmt_0x params.["h_device"]) in
    let root := field_str root "hVblank" (fmt_0x params.["h_vblank"]) in
    let root := field_str root "pProc" (fmt_0x params.["p_proc"]) in
    let root := field_u64 root "logicalHead" params.["logical_head"] in
    let root := field_str root "pParm1" (fmt_0x params.["p_parm1"]) in
    let root := field_str root "pParm2" (fmt_0x params.["p_parm2"]) in
    let root := field_bool root "add" (negb (params.["b_add"] =? 0)) in
    let root := field_i64 root "rmStatus" params.["status"] in
    field_str root "status" "ok"
  | inr err =>
    field_str root "status" err
  end.

Definition decode_rm_opaque (meta : IoctlMeta) (arg_ptr : Z) (root : JsonObject) : JsonObject :=
  let root := field_str root "cmdName" (outer_cmd_name (nr meta)) in
  let root := field_u64 root "declaredSize" (size meta) in
  let root := field_str root "argPtr" (fmt_0x arg_ptr) in
  let root :=
    if 4 <=? (size meta) then
      let status_addr := as_u64 ((as_u64 (arg_ptr + (size meta))) - 4) in
      match read_value U32 status_addr with
      | Some status =>
        field_i64 root "rmStatusHint" (as_i32 status)
      | None =>
        root
      end
    else
      root in
  field_str root "status" "opaque".

Definition decode_register_fd (meta : IoctlMeta) (arg_ptr : Z) (root : JsonObject) : JsonObject :=
  match read_checked_pod NvIoctlRegisterFd meta arg_ptr with
  | inl params =>
    let root := field_i64 root "ctl_fd" params.["ctl_fd"] in
    field_str root "status" "ok"
  | inr err =>
    field_str root "status" err
  end.

Definition decode_alloc_free_os_event (meta : IoctlMeta) (arg_ptr : Z) (root : JsonObject) : JsonObject :=
  match read_checked_pod NvIoctlAllocOsEvent meta arg_ptr with
  | inl params =>
    let root := field_str root "hClient" (fmt_0x params.["h_client"]) in
    let root := field_str root "hDevice" (fmt_0x params.["h_device"]) in
    let root := field_u64 root "fd" params.["fd"] in
    let root := field_i64 root "rmStatus" params.["status"] in
    field_str root "status" "ok"
  | inr err =>
    field_str root "status" err
  end.

Definition decode_status_code (meta : IoctlMeta) (arg_ptr : Z) (root : JsonObject) : JsonObject :=
  match read_checked_pod NvIoctlStatusCode meta arg_ptr with
  | inl params =>
    let root := field_u64 root "domain" params.["domain"] in
    let root := field_u64 root "bus" params.["bus"] in
    let root := field_u64 root "slot" params.["slot"] in
    let root := field_u64 root "statusCode" params.["status"] in
    field_str root "status" "ok"
  | inr err =>
    field_str root "status" err
  end.

Definition decode_rm_api_version (meta : IoctlMeta) (arg_ptr : Z) (root : JsonObject) : JsonObject :=
  match read_checked_pod NvIoctlRmApiVersion meta arg_ptr with
  | inl params =>
    let root := field_u64 root "cmd" params.["cmd"] in
    let root := field_u64 root "reply" params.["reply"] in
    let root := field_str root "version" (read_c_string params.["version_string"]) in
    field_str root "status" "ok"
  | inr err =>
    field_str root "status" err
  end.

Definition decode_query_device_intr (meta : IoctlMeta) (arg_ptr : Z) (root : JsonObject) : JsonObject :=
  match read_checked_pod NvIoctlQueryDeviceIntr meta arg_ptr with
  | inl params =>
    let root := field_u64 root "intrStatus" params.["intr_status"] in
    let root := field_u64 root "rmStatus" params.["status"] in
    field_str root "status" "ok"
  | inr err =>
    field_str root "status" err
  end.

Definition decode_sys_params (meta : IoctlMeta) (arg_ptr : Z) (root : JsonObject) : JsonObject :=
  match read_checked_pod NvIoctlSysParams meta arg_ptr with
  | inl params =>
    let root := field_u64 root "memblock_size" params.["memblock_size"] in
    field_str root "status" "ok"
  | inr err =>
    field_str root "status" err
  end.

Definition decode_wait_open_complete (meta : IoctlMeta) (arg_ptr : Z) (root : JsonObject) : JsonObject :=
  match read_checked_pod NvIoctlWaitOpenComplete meta arg_ptr with
  | inl params =>
    let root := field_i64 root "rc" params.["rc"] in
    let root := field_u64 root "adapterStatus" params.["adapter_status"] in
    field_str root "status" "ok"
  | inr err =>
    field_str root "status" err
  end.

Definition decode_numa_info (meta : IoctlMeta) (arg_ptr : Z) (root : JsonObject) : JsonObject :=
  match read_checked_pod NvIoctlNumaInfo meta arg_ptr with
  | inl params =>
    let root := field_i64 root "nid" params.["nid"] in
    let root := field_i64 root "numaStatus" params.["status"] in
    let root := field_u64 root "memblock_size" params.["memblock_size"] in
    let root := field_str root "numa_mem_addr" (fmt_0x params.["numa_mem_addr"]) in
    let root := field_u64 root "numa_mem_size" params.["numa_mem_size"] in
    let root := field_bool root "use_auto_online" (negb (params.["use_auto_online"] =? 0)) in
    let addr_count := Z.min params.["offline_addresses"].["num_entries"] 64 in
    let logged := Z.min addr_count MAX_NUMA_ADDRESSES in
    let root := field_u64 root "offlineAddressCount" addr_count in
    let root := field_raw root "offlineAddresses" (json_u64_hex_array (slice_to logged params.["offline_addresses"].["addresses"])) in
    let root := field_bool root "offlineAddressesTruncated" (logged <? addr_count) in
    field_str root "status" "ok"
  | inr err =>
    field_str root "status" err
  end.

Definition decode_set_numa_status (meta : IoctlMeta) (arg_ptr : Z) (root : JsonObject) : JsonObject :=
  match read_checked_pod NvIoctlSetNumaStatus meta arg_ptr with
  | inl params =>
    let root := field_i64 root "numaStatus" params.["status"] in
    field_str root "status" "ok"
  | inr err =>
    field_str root "status" err
  end.

Definition decode_attach_gpus (meta : IoctlMeta) (arg_ptr : Z) (max_blob : Z)
    (root : JsonObject) : JsonObject :=
  let declared := size meta in
  if (declared =? 0) || (negb ((declared mod 4) =? 0)) then
    field_str root "status" "size_unknown"
  else
  let read_len := Z.min declared (Z.max max_blob 4) in
  match read_bytes arg_ptr read_len with
  | Some bytes =>
    let ids := words32 bytes in
    let root := field_u64 root "gpu_count" (declared / 4) in
    let root := field_raw root "gpu_ids" (json_u32_array ids) in
    let root := field_bool root "truncated" (read_len <? declared) in
    field_str root "status" "ok"
  | None =>
    field_str root "status" "arg_unreadable"
  end.

Definition decode_export_to_dmabuf (meta : IoctlMeta) (arg_ptr : Z) (root : JsonObject) : JsonObject :=
  match read_checked_pod NvIoctlExportToDmaBufFdPrefix meta arg_ptr with
  | inl params =>
    let root := field_i64 root "fd" params.["fd"] in
    let root := field_str root "hClient" (fmt_0x params.["h_client"]) in
    let root := field_u64 root "totalObjects" params.["total_objects"] in
    let root := field_u64 root "numObjects" params.["num_objects"] in
    let root := field_u64 root "index" params.["index"] in
    let root := field_u64 root "totalSize" params.["total_size"] in
    let root := field_u64 root "mappingType" params.["mapping_type"] in
    let root := field_bool root "allowMmap" (negb (params.["b_allow_mmap"] =? 0)) in
    field_str root "status" "ok"
  | inr err =>
    field_str root "status" err
  end.

Definition decode_unknown (meta : IoctlMeta) (arg_ptr : Z) (max_blob : Z) (root : JsonObject) : JsonObject :=
  let declared := size meta in
  if declared =? 0 then
    field_str root "status" "unknown_cmd"
  else
  let read_len := Z.min declared (Z.max max_blob 16) in
  match read_bytes arg_ptr read_len with
  | Some bytes =>
    let root := field_str root "blob_hex" (hex_bytes bytes) in
    let root := field_bool root "truncated" (read_len <? declared) in
    field_str root "status" "partial"
  | None =>
    field_str root "status" "arg_unreadable"
  end.

(** The loop of [decode_card_info]: it stops at the first unreadable entry. *)
Fixpoint card_entries (read_count : nat) (idx arg_ptr : Z) : list (pod NvIoctlCardInfo) :=
  match read_count with
  | O => []
  | S read_count =>
    let addr := as_u64 (arg_ptr + as_u64 (idx * struct_size NvIoctlCardInfo)) in
    match read_pod NvIoctlCardInfo addr with
    | None => []
    | Some entry => entry :: card_entries read_count (idx + 1) arg_ptr
    end
  end.

Definition decode_card_info (meta : IoctlMeta) (arg_ptr : Z) (max_blob : Z) (root : JsonObject) : JsonObject :=
  let declared := size meta in
  let card_size := struct_size NvIoctlCardInfo in
  if declared <? card_size then
    field_str root "status"
      ("size_mismatch(expected>=" +:+ fmt_u card_size +:+ ",actual=" +:+ fmt_u declared +:+ ")")
  else
  let declared_count := declared / card_size in
  let max_entries := Z.max (max_blob / card_size) 1 in
  let read_count := Z.min declared_count max_entries in
  let decoded := card_entries (Z.to_nat read_count) 0 arg_ptr in
  if vec_len decoded =? 0 then
    field_str root "status" "arg_unreadable"
  else
  let valid_count := vec_len (filter (fun entry : pod NvIoctlCardInfo => entry.["valid"] <> 0) decoded) in
  let root := field_u64 root "cardCountDeclared" declared_count in
  let root := field_u64 root "cardCountDecoded" (vec_len decoded) in
  let root := field_u64 root "validCount" valid_count in
  let root := field_bool root "truncated" (vec_len decoded <? declared_count) in
  let root := field_raw root "cards" (json_card_info_array decoded) in
  field_str root "status" "ok".

(** ** Dispatch *)

(** A decoder that does not take [max_blob]. *)
Definition no_blob (decode : IoctlMeta -> Z -> JsonObject -> JsonObject)
    (meta : IoctlMeta) (arg_ptr _ : Z) (root : JsonObject) : JsonObject := decode meta arg_ptr root.

(** The arms that only extend [root]; an or-pattern gives several entries. *)
Definition nv_esc_decoders : list (Z * (IoctlMeta -> Z -> Z -> JsonObject -> JsonObject)) :=
  [(NV_ESC_RM_ALLOC_MEMORY, no_blob decode_rm_alloc_memory);
   (NV_ESC_RM_ALLOC_OBJECT, no_blob decode_rm_alloc_object);
   (NV_ESC_RM_ALLOC, decode_rm_alloc);
   (NV_ESC_RM_FREE, no_blob decode_rm_free);
   (NV_ESC_RM_MAP_MEMORY, no_blob decode_rm_map_memory);
   (NV_ESC_RM_UNMAP_MEMORY, no_blob decode_rm_unmap_memory);
   (NV_ESC_RM_I2C_ACCESS, no_blob decode_rm_i2c_access);
   (NV_ESC_RM_IDLE_CHANNELS, no_blob decode_rm_idle_channels);
   (NV_ESC_RM_VID_HEAP_CONTROL, no_blob decode_rm_vid_heap_control);
   (NV_ESC_RM_ACCESS_REGISTRY, decode_rm_access_registry);
   (NV_ESC_RM_GET_EVENT_DATA, no_blob decode_rm_get_event_data);
   (NV_ESC_RM_ALLOC_CONTEXT_DMA2, no_blob decode_rm_alloc_context_dma2);
   (NV_ESC_RM_MAP_MEMORY_DMA, no_blob decode_rm_map_memory_dma);
   (NV_ESC_RM_UNMAP_MEMORY_DMA, no_blob decode_rm_unmap_memory_dma);
   (NV_ESC_RM_BIND_CONTEXT_DMA, no_blob decode_rm_bind_context_dma);
   (NV_ESC_RM_DUP_OBJECT, no_blob decode_rm_dup_object);
   (NV_ESC_RM_UPDATE_DEVICE_MAPPING_INFO, no_blob decode_rm_update_device_mapping_info);
   (NV_ESC_RM_SHARE, no_blob decode_rm_share);
   (NV_ESC_RM_ADD_VBLANK_CALLBACK, no_blob decode_rm_add_vblank_callback);
   (NV_ESC_RM_CONFIG_GET, no_blob decode_rm_opaque);
   (NV_ESC_RM_CONFIG_SET, no_blob decode_rm_opaque);
   (NV_ESC_RM_CONFIG_GET_EX, no_blob decode_rm_opaque);
   (NV_ESC_RM_CONFIG_SET_EX, no_blob decode_rm_opaque);
   (NV_ESC_RM_EXPORT_OBJECT_TO_FD, no_blob decode_rm_opaque);
   (NV_ESC_RM_IMPORT_OBJECT_FROM_FD, no_blob decode_rm_opaque);
   (NV_ESC_RM_LOCKLESS_DIAGNOSTIC, no_blob decode_rm_opaque);
   (NV_ESC_REGISTER_FD, no_blob decode_register_fd);
   (NV_ESC_ALLOC_OS_EVENT, no_blob decode_alloc_free_os_event);
   (NV_ESC_FREE_OS_EVENT, no_blob decode_alloc_free_os_event);
   (NV_ESC_STATUS_CODE, no_blob decode_status_code);
   (NV_ESC_CHECK_VERSION_STR, no_blob decode_rm_api_version);
   (NV_ESC_QUERY_DEVICE_INTR, no_blob decode_query_device_intr);
   (NV_ESC_SYS_PARAMS, no_blob decode_sys_params);
   (NV_ESC_WAIT_OPEN_COMPLETE, no_blob decode_wait_open_complete);
   (NV_ESC_NUMA_INFO, no_blob decode_numa_info);
   (NV_ESC_SET_NUMA_STATUS, no_blob decode_set_numa_status);
   (NV_ESC_ATTACH_GPUS_TO_FD, decode_attach_gpus);
   (NV_ESC_EXPORT_TO_DMABUF_FD, no_blob decode_export_to_dmabuf);
   (NV_ESC_CARD_INFO, decode_card_info)].

Definition decode_nvidia_ioctl (meta : IoctlMeta) (arg_ptr : Z) (decode_mode : IoctlDecodeMode)
    (max_blob : Z) : option DecodeSummary :=
  if negb (ioc_type meta =? NV_IOCTL_MAGIC) then
    None
  else
  let root := JsonObject_new in
  let legacy := EmptyString in
  if bool_decide (decode_mode = Decode_Header) then
    let root := field_str root "status" "header" in
    Some {| Ioctl.legacy := legacy; Ioctl.json := finish root |}
  else if arg_ptr =? 0 then
    let root := field_str root "status" "arg_null" in
    Some {| Ioctl.legacy := legacy; Ioctl.json := finish root |}
  else
    let '(legacy, root) :=
      if nr meta =? NV_ESC_IOCTL_XFER_CMD then decode_xfer arg_ptr decode_mode max_blob legacy root
      else if nr meta =? NV_ESC_RM_CONTROL then decode_rm_control meta arg_ptr max_blob legacy root
      else match match_const (nr meta) nv_esc_decoders with
           | Some decode => (legacy, decode meta arg_ptr max_blob root)
           | None => (legacy, decode_unknown meta arg_ptr max_blob root)
           end in
    Some {| Ioctl.legacy := legacy; Ioctl.json := finish root |}.

End Rm.
