(* ===== verification/Summary.v ===== *)
(** * The summary of an ioctl: [summarize_ioctl] of [src/src/decode/ioctl.rs]

    The decoder of the resource-manager devices ([src/src/decode/ioctl_rm.rs])
    is used through the interface [RmDecoder]; the UVM decoder is [Uvm]. *)
From S2P Require Import Prelude RustStr Config Layout Json Ioctl Uvm UvmFacts.

(** What [ioctl_rm.rs] provides to [ioctl.rs]. *)
Class RmDecoder := {
  decode_nvidia_ioctl : RemoteMem -> IoctlMeta -> Z -> IoctlDecodeMode -> Z -> option DecodeSummary;
  outer_cmd_name : Z -> string
}.

(** What it promises: it answers to the requests of its magic number, always
    with one JSON object that ends with a status that [ok] allows. *)
Class RmDecoderLaws (R : RmDecoder) (ok : RemoteMem -> IoctlMeta -> Z -> IoctlDecodeMode -> string -> Prop) : Prop := {
  rm_ignores M meta arg_ptr mode max_blob :
    ioc_type meta <> 0x46 -> decode_nvidia_ioctl M meta arg_ptr mode max_blob = None;
  rm_answers M (Mok : RemoteMemOk M) meta arg_ptr mode max_blob :
    0 <= size meta -> ioc_type meta = 0x46 ->
    exists sum l s,
      decode_nvidia_ioctl M meta arg_ptr mode max_blob = Some sum
      /\ Ioctl.json sum = render_json (JObj (l ++ [("status", JStr s)]))
      /\ ok M meta arg_ptr mode s
}.

Section Summary.
Context {R : RmDecoder} {M : RemoteMem}.

Definition format_ioc_nr (meta : IoctlMeta) (fd_path : option string) : string :=
  if is_uvm_path fd_path then
    let name := uvm_cmd_name (raw meta) in
    if negb (String.eqb name "UNKNOWN") then name else fmt_u (nr meta)
  else if is_nvidia_rm_path fd_path then
    let name := outer_cmd_name (nr meta) in
    if negb (String.eqb name "UNKNOWN") then name else fmt_u (nr meta)
  else fmt_u (nr meta).

Definition ioc_text (meta : IoctlMeta) (fd_path : option string) : string :=
  let ioc_type := format_ioc_type (ioc_type meta) in
  let ioc_nr := format_ioc_nr meta fd_path in
  "_IOC(dir=" +:+ direction_name meta +:+ ",type=" +:+ ioc_type +:+ ",nr=" +:+ ioc_nr
    +:+ ",size=" +:+ fmt_u (size meta) +:+ ")".

Definition summarize_ioctl (cmd arg_ptr : Z) (decode_mode : IoctlDecodeMode) (max_blob : Z)
    (fd_path : option string) : string :=
  let meta := decode_ioctl_cmd cmd in
  let out := ioc_text meta fd_path in
  if bool_decide (decode_mode = Decode_Off) then out
  else
    let decoded :=
      if is_uvm_path fd_path then decode_uvm_ioctl meta arg_ptr decode_mode max_blob
      else if is_nvidia_rm_path fd_path then decode_nvidia_ioctl M meta arg_ptr decode_mode max_blob
      else None in
    match decoded with
    | Some decoded => out +:+ ", args=" +:+ Ioctl.json decoded
    | None => out
    end.

(** The summary of a UVM ioctl is the decoded command word followed, unless
    decoding is off, by one JSON object that ends with its status. *)
Theorem summarize_uvm_ioctl (Mok : RemoteMemOk M) cmd arg_ptr mode max_blob path :
  starts_with "/dev/nvidia-uvm" path = true ->
  let text := ioc_text (decode_ioctl_cmd cmd) (Some path) in
  if bool_decide (mode = Decode_Off) then summarize_ioctl cmd arg_ptr mode max_blob (Some path) = text
  else exists l s,
    summarize_ioctl cmd arg_ptr mode max_blob (Some path)
      = text +:+ ", args=" +:+ render_json (JObj (l ++ [("status", JStr s)]))
    /\ s ∈ uvm_statuses (decode_ioctl_cmd cmd) arg_ptr mode.
Proof.
  intros Hp text. unfold summarize_ioctl. cbv zeta.
  case_bool_decide as Hm; [done|]. unfold is_uvm_path. rewrite Hp.
  destruct (decode_uvm_ioctl_object (decode_ioctl_cmd cmd) arg_ptr mode max_blob) as (sum & l & s & -> & _ & Hj & Hs).
  exists l, s. by rewrite Hj.
Qed.

Lemma decode_size_nonneg cmd : 0 <= size (decode_ioctl_cmd cmd).
Proof. rewrite decode_size. by apply Z.mod_pos_bound. Qed.

(** The summary of a request to a device of the resource manager, whatever
    decoder keeps the promise. *)
Lemma summarize_rm ok `{!RmDecoderLaws R ok} (Mok : RemoteMemOk M) cmd arg_ptr mode max_blob path :
  is_nvidia_rm_path (Some path) = true ->
  let meta := decode_ioctl_cmd cmd in
  let text := ioc_text meta (Some path) in
  if bool_decide (mode = Decode_Off) || negb (ioc_type meta =? 0x46)
  then summarize_ioctl cmd arg_ptr mode max_blob (Some path) = text
  else exists l s,
    summarize_ioctl cmd arg_ptr mode max_blob (Some path)
      = text +:+ ", args=" +:+ render_json (JObj (l ++ [("status", JStr s)]))
    /\ ok M meta arg_ptr mode s.
Proof.
  intros Hp meta text. unfold summarize_ioctl. cbv zeta. rewrite Hp.
  unfold is_nvidia_rm_path in Hp. apply andb_true_iff in Hp as [_ Huvm%negb_true_iff].
  unfold is_uvm_path. rewrite Huvm. case_bool_decide as Hm; [done|]. cbn [orb].
  destruct (Z.eqb_spec (ioc_type meta) 0x46) as [Ht|Ht]; cbn [negb].
  - destruct (rm_answers M Mok meta arg_ptr mode max_blob (decode_size_nonneg cmd) Ht)
      as (sum & l & s & E & Hj & Hs). fold meta. rewrite E, Hj. exists l, s. by split.
  - fold meta. by rewrite rm_ignores.
Qed.

(** Nothing is decoded for other devices. *)
Lemma summarize_other_ioctl cmd arg_ptr mode max_blob fd_path :
  is_uvm_path fd_path = false -> is_nvidia_rm_path fd_path = false ->
  summarize_ioctl cmd arg_ptr mode max_blob fd_path = ioc_text (decode_ioctl_cmd cmd) fd_path.
Proof. intros H1 H2. unfold summarize_ioctl. cbv zeta. rewrite H1, H2. by case_bool_decide. Qed.

End Summary.

(** A device and a process without memory. *)
Definition no_rm : RmDecoder := {|
  decode_nvidia_ioctl := fun _ _ _ _ _ => None; outer_cmd_name := fun _ => "UNKNOWN"
|}.
Definition no_memory : RemoteMem := fun _ _ => None.
Lemma no_memory_ok : RemoteMemOk no_memory.
Proof. by intros addr len bs H. Qed.

Lemma summarize_uvm_ioctl_witness :
  @summarize_ioctl no_rm no_memory 27 4096 Decode_Full 256 (Some "/dev/nvidia-uvm")
    = "_IOC(dir=none,type=0x0,nr=UVM_REGISTER_CHANNEL,size=0), args={" +:+ DQ +:+ "status" +:+ DQ +:+ ":" +:+ DQ
      +:+ "arg_unreadable" +:+ DQ +:+ "}"
  /\ exists l s,
    @summarize_ioctl no_rm no_memory 27 4096 Decode_Full 256 (Some "/dev/nvidia-uvm")
      = ioc_text (R := no_rm) (decode_ioctl_cmd 27) (Some "/dev/nvidia-uvm") +:+ ", args="
        +:+ render_json (JObj (l ++ [("status", JStr s)]))
    /\ s ∈ uvm_statuses (M := no_memory) (decode_ioctl_cmd 27) 4096 Decode_Full.
Proof.
  split; [vm_compute; reflexivity|].
  exact (@summarize_uvm_ioctl no_rm no_memory no_memory_ok 27 4096 Decode_Full 256 "/dev/nvidia-uvm" eq_refl).
Defined.
