(* ===== verification/RmFacts.v ===== *)
(** * What the RM decoder emits

    Every path of [decode_nvidia_ioctl] builds one JSON object that ends with a
    status of its command; the control decoders name the command they decode;
    no array slice leaves its array. *)
From S2P Require Import Prelude RustStr Config Layout Json Ioctl UvmFacts Summary.
From S2P Require Import RmTypes RmNames RmJson RmControl Rm.

(** ** Numbers and bytes are not negative *)

Lemma vec_len_nonneg {A} (l : list A) : 0 <= vec_len l.
Proof. unfold vec_len. lia. Qed.

Lemma wrap_nonneg w x : 0 <= w -> 0 <= wrap w x.
Proof. intros. by apply wrap_range. Qed.

Ltac pod_bytes_ok :=
  lazymatch goal with
  | |- Forall is_byte (pod_bytes (get ?q ?g ?H)) => refine (get_ok q g H _); pod_bytes_ok
  | |- _ => assumption
  end.

(** [0 <= e] for the expressions of the decoders. *)
Ltac nonneg :=
  lazymatch goal with
  | |- 0 <= get ?p ?f ?H => refine (get_ok p f H _); pod_bytes_ok
  | |- 0 <= Z.min _ _ => apply Z.min_glb; nonneg
  | |- 0 <= Z.max _ _ => apply Z.max_le_iff; left; nonneg
  | |- 0 <= wrap _ _ => apply wrap_nonneg; lia
  | |- 0 <= _ / _ => apply Z.div_pos; [nonneg|vm_compute; reflexivity]
  | |- 0 <= vec_len _ => apply vec_len_nonneg
  | |- _ => first [assumption | lia | by vm_compute]
  end.

(** ** Texts *)

Lemma json_text_hex n : 0 <= n -> json_text (DQ +:+ fmt_0x n +:+ DQ).
Proof. intros. apply json_text_quoted. unfold fmt_0x. rewrite str_forall_app. by rewrite unescaped_fmt_x. Qed.

Lemma json_text_hex2 n : 0 <= n -> json_text (DQ +:+ ("0x" +:+ pad0 2 (fmt_x n)) +:+ DQ).
Proof.
  intros. apply json_text_quoted. rewrite str_forall_app. simpl andb. by apply unescaped_pad0, unescaped_fmt_x.
Qed.

Abbreviation nonnegs := (Forall (fun z : Z => 0 <= z)).
Abbreviation pods := (Forall (fun v => Forall is_byte (pod_bytes v))).

Lemma json_u8_array_text l : nonnegs l -> json_text (json_u8_array l).
Proof. intros H. apply json_array_text. eapply Forall_impl; [|exact H]. apply json_text_num. Qed.
Lemma json_u32_array_text l : nonnegs l -> json_text (json_u32_array l).
Proof. intros H. apply json_array_text. eapply Forall_impl; [|exact H]. apply json_text_num. Qed.
Lemma json_u8_hex_array_text l : nonnegs l -> json_text (json_u8_hex_array l).
Proof. intros H. apply json_array_text. eapply Forall_impl; [|exact H]. exact json_text_hex2. Qed.
Lemma json_u32_hex_array_text l : nonnegs l -> json_text (json_u32_hex_array l).
Proof. intros H. apply json_array_text. eapply Forall_impl; [|exact H]. exact json_text_hex. Qed.
Lemma json_u64_hex_array_text l : nonnegs l -> json_text (json_u64_hex_array l).
Proof. intros H. apply json_array_text. eapply Forall_impl; [|exact H]. exact json_text_hex. Qed.

Lemma json_u32_matrix_text l rows cols : Forall (fun row => nonnegs row) l -> json_text (json_u32_matrix l rows cols).
Proof.
  intros H. apply json_array_text. apply Forall_take. eapply Forall_impl; [|exact H].
  intros row Hrow. apply json_array_text. apply Forall_take.
  eapply Forall_impl; [|exact Hrow]. apply json_text_num.
Qed.

(** The members of an object, one by one; a branch is split. *)
Ltac obj_step :=
  lazymatch goal with
  | |- json_obj JsonObject_new => apply json_obj_new
  | |- json_obj (field_str _ _ _) => apply json_obj_str
  | |- json_obj (field_bool _ _ _) => apply json_obj_bool
  | |- json_obj (field_i64 _ _ _) => apply json_obj_i64
  | |- json_obj (field_u64 _ _ _) => apply json_obj_u64; [|nonneg]
  | |- json_obj (field_raw _ _ _) => apply json_obj_raw
  | |- json_obj (match ?x with _ => _ end) => destruct x eqn:?
  | |- json_text (finish _) => apply json_text_finish
  | |- json_obj _ => assumption
  end.

Ltac obj := repeat obj_step.

Lemma json_share_policy_text p : Forall is_byte (pod_bytes p) -> json_text (json_share_policy p).
Proof. intros H. unfold json_share_policy. cbv zeta. obj. Qed.

Lemma json_active_device_text v : Forall is_byte (pod_bytes v) -> json_text (json_active_device v).
Proof. intros H. unfold json_active_device. cbv zeta. obj. Qed.
Lemma json_xxx_info_text v : Forall is_byte (pod_bytes v) -> json_text (json_xxx_info v).
Proof. intros H. unfold json_xxx_info. cbv zeta. obj. Qed.
Lemma json_global_sm_order_text v : Forall is_byte (pod_bytes v) -> json_text (json_global_sm_order v).
Proof. intros H. unfold json_global_sm_order. cbv zeta. obj. Qed.
Lemma json_pci_bar_info_text v : Forall is_byte (pod_bytes v) -> json_text (json_pci_bar_info v).
Proof. intros H. unfold json_pci_bar_info. cbv zeta. obj. Qed.
Lemma json_sync_gpu_boost_group_text v : Forall is_byte (pod_bytes v) -> json_text (json_sync_gpu_boost_group v).
Proof.
  intros H. unfold json_sync_gpu_boost_group. cbv zeta. obj.
  apply json_u32_array_text, Forall_take. refine (get_ok v "gpu_ids" I _). pod_bytes_ok.
Qed.
Lemma json_grmgr_queries_text v : Forall is_byte (pod_bytes v) -> json_text (json_grmgr_queries v).
Proof.
  intros H. unfold json_grmgr_queries. cbv zeta. obj.
  apply json_u32_hex_array_text. refine (get_ok v "query_data_words" I _). pod_bytes_ok.
Qed.
Lemma json_atomic_op_text e : Forall is_byte (pod_bytes e.2) -> json_text (json_atomic_op e).
Proof. destruct e as [idx v]. intros H. unfold json_atomic_op. cbv zeta. obj. Qed.
Lemma json_card_info_text idx v : 0 <= idx -> Forall is_byte (pod_bytes v) -> json_text (json_card_info idx v).
Proof. intros Hi H. unfold json_card_info. cbv zeta. obj. Qed.
Lemma json_ecc_unit_sample_text e :
  0 <= e.1 -> Forall is_byte (pod_bytes e.2) -> json_text (json_ecc_unit_sample e).
Proof. destruct e as [idx v]. intros Hi H. simpl in Hi, H. unfold json_ecc_unit_sample. cbv zeta. obj. Qed.
Lemma json_ce_caps_text (e : ce_entry) : 0 <= e.1.1.1 -> json_text (json_ce_caps e).
Proof. destruct e as [[[ce c0] c1] p]. intros H. simpl in H. unfold json_ce_caps. cbv zeta. obj. Qed.

(** Arrays of these. *)
Lemma enumerate_Forall {A} (P : A -> Prop) l :
  Forall P l -> Forall (fun e => 0 <= e.1 /\ P e.2) (enumerate l).
Proof.
  intros H. apply Forall_lookup. intros i [j v] Hi. unfold enumerate in Hi.
  rewrite list_lookup_imap in Hi. destruct (l !! i) as [w|] eqn:E; [|done]. simplify_eq/=.
  split; [lia|]. eapply Forall_lookup in H; eauto.
Qed.

Ltac array_of lemma :=
  intros H; apply json_array_text; eapply Forall_impl; [|exact H]; first [exact lemma | intros ?; apply lemma].

Lemma json_active_device_array_text l : pods l -> json_text (json_active_device_array l).
Proof. array_of json_active_device_text. Qed.
Lemma json_xxx_info_array_text l : pods l -> json_text (json_xxx_info_array l).
Proof. array_of json_xxx_info_text. Qed.
Lemma json_global_sm_order_array_text l : pods l -> json_text (json_global_sm_order_array l).
Proof. array_of json_global_sm_order_text. Qed.
Lemma json_pci_bar_info_array_text l : pods l -> json_text (json_pci_bar_info_array l).
Proof. array_of json_pci_bar_info_text. Qed.
Lemma json_sync_gpu_boost_group_array_text l : pods l -> json_text (json_sync_gpu_boost_group_array l).
Proof. array_of json_sync_gpu_boost_group_text. Qed.
Lemma json_grmgr_queries_array_text l : pods l -> json_text (json_grmgr_queries_array l).
Proof. array_of json_grmgr_queries_text. Qed.
Lemma json_atomic_op_array_text l : pods l -> json_text (json_atomic_op_array l).
Proof.
  intros H%enumerate_Forall. apply json_array_text. eapply Forall_impl; [|exact H].
  intros e [_ He]. by apply json_atomic_op_text.
Qed.
Lemma json_card_info_array_text l : pods l -> json_text (json_card_info_array l).
Proof.
  intros H%enumerate_Forall. apply json_array_text. eapply Forall_impl; [|exact H].
  intros [idx v] [Hi Hv]. by apply json_card_info_text.
Qed.

(** ** Word lists, loops and strings *)

Lemma chunks_exact_bytes n bs : Forall is_byte bs -> Forall (Forall is_byte) (chunks_exact n bs).
Proof. apply chunk_bytes. Qed.

Lemma words32_nonneg bs : Forall is_byte bs -> nonnegs (words32 bs).
Proof.
  intros H. apply Forall_fmap. eapply Forall_impl; [|by apply chunks_exact_bytes]. exact le_val_nonneg.
Qed.

Lemma xxx_infos_bytes bs : Forall is_byte bs -> pods (xxx_infos bs).
Proof. intros H. apply Forall_fmap. by apply chunks_exact_bytes. Qed.

Lemma valid_gpu_ids_Forall P l : Forall P l -> Forall P (valid_gpu_ids l).
Proof. induction 1; simpl; [done|]. case_match; [done|]. by constructor. Qed.

Lemma ce_entries_nonneg mask tbl : Forall (fun e : ce_entry => 0 <= e.1.1.1) (ce_entries mask tbl).
Proof.
  unfold ce_entries. apply Forall_forall.
  intros e ([idx caps] & He & _)%list_elem_of_In%list_elem_of_bind. case_match; [|by apply not_elem_of_nil in He].
  apply list_elem_of_singleton in He as ->. by apply wrap_nonneg.
Qed.

Lemma json_ce_caps_array_text mask tbl : json_text (json_ce_caps_array (ce_entries mask tbl)).
Proof.
  apply json_array_text. eapply Forall_impl; [|apply ce_entries_nonneg]. exact json_ce_caps_text.
Qed.

(** What the loop over the units keeps. *)
Definition ecc_ok (s : EccScan) : Prop :=
  0 <= enabled_units s /\ 0 <= supported_units s /\ 0 <= scrub_complete_units s
  /\ 0 <= dbe_total s /\ 0 <= sbe_total s
  /\ Forall (fun e => 0 <= e.1 /\ Forall is_byte (pod_bytes e.2)) (sampled s).

Lemma saturating_add_nonneg a b : 0 <= a -> 0 <= b -> 0 <= saturating_add a b.
Proof. intros. unfold saturating_add, u64_max. lia. Qed.

Lemma ecc_step_ok s e : ecc_ok s -> Forall is_byte (pod_bytes e.2) -> ecc_ok (ecc_step s e).
Proof.
  destruct e as [idx unit]. intros (H1 & H2 & H3 & H4 & H5 & H6) Hu. unfold ecc_ok, ecc_step. cbv zeta.
  cbn [enabled_units supported_units scrub_complete_units dbe_total sbe_total sampled].
  simpl in Hu. split_and!; try (case_match; lia); try (apply saturating_add_nonneg; [done|nonneg]).
  case_match; [|done]. apply Forall_app; split; [done|]. constructor; [|done].
  split; [by apply wrap_nonneg|done].
Qed.

Lemma ecc_scan_ok units : pods units -> ecc_ok (ecc_scan units).
Proof.
  intros H%enumerate_Forall. unfold ecc_scan.
  assert (ecc_ok ecc_start) as Hs by (unfold ecc_ok; simpl; split_and!; done || lia).
  revert Hs. generalize ecc_start. induction H as [|e es [_ He] Hes IH]; intros s Hs; simpl; [done|].
  apply IH. by apply ecc_step_ok.
Qed.

Lemma json_ecc_unit_sample_array_text s : ecc_ok s -> json_text (json_ecc_unit_sample_array (sampled s)).
Proof.
  intros (_ & _ & _ & _ & _ & H). apply json_array_text. eapply Forall_impl; [|exact H].
  intros e [? ?]. by apply json_ecc_unit_sample_text.
Qed.

(** ** Control commands *)

Definition size_mismatch (expected actual : Z) : string :=
  "size_mismatch(expected>=" +:+ fmt_u expected +:+ ",actual=" +:+ fmt_u actual +:+ ")".

(** A control decoder succeeds, or the caller's size is too small. *)
Definition control_status (params_size : Z) (s : string) : Prop :=
  s = "ok" \/ exists expected, params_size < expected /\ s = size_mismatch expected params_size.

(** One JSON object that ends with a status, and a text that names the command. *)
Definition known_ok (name : string) (params_size : Z) (d : KnownRmDecode) : Prop :=
  (exists l s, kd_json d = render_json (JObj (l ++ [("status", JStr s)])) /\ control_status params_size s)
  /\ exists rest, kd_legacy d = "name=" +:+ name +:+ rest /\ (rest = "" \/ starts_with ", " rest = true).

Lemma known_json size o :
  json_done (control_status size) o ->
  exists l s, finish o = render_json (JObj (l ++ [("status", JStr s)])) /\ control_status size s.
Proof. apply json_done_finish. Qed.

Section Facts.
Context {M : RemoteMem} {Mok : RemoteMemOk M}.

Lemma read_bytes_ok addr len bs : read_bytes addr len = Some bs -> Forall is_byte bs.
Proof.
  unfold read_bytes. destruct (vm_read addr len) as [b|] eqn:E; [|done].
  apply Mok in E as [_ Hb]. case_match; by intros [= <-].
Qed.

Lemma read_value_ok t addr v : read_value t addr = Some v -> ty_ok t v.
Proof.
  unfold read_value. destruct (vm_read addr (size_of t)) as [b|] eqn:E; [|done].
  apply Mok in E as [_ Hb]. case_match; intros [= <-]. by apply read_ty_ok.
Qed.

Ltac bytes_hyps :=
  repeat match goal with
  | H : read_pod _ _ = Some _ |- _ => apply read_pod_ok in H
  | H : read_bytes _ _ = Some _ |- _ => apply read_bytes_ok in H
  end.

(** Lists of the decoders. *)
Ltac list_ok :=
  lazymatch goal with
  | |- Forall _ (slice_to _ _) => apply Forall_take; list_ok
  | |- Forall _ (get ?p ?f ?H) => refine (get_ok p f H _); pod_bytes_ok
  | |- Forall _ (words32 _) => apply words32_nonneg; assumption
  | |- Forall _ (xxx_infos _) => apply xxx_infos_bytes; assumption
  | |- Forall _ (valid_gpu_ids _) => apply valid_gpu_ids_Forall; list_ok
  | |- Forall _ (match ?x with _ => _ end) => destruct x eqn:?; bytes_hyps; list_ok
  | |- Forall _ nil => constructor
  | |- _ => assumption
  end.

Ltac text :=
  lazymatch goal with
  | |- json_text (json_u8_array _) => apply json_u8_array_text; list_ok
  | |- json_text (json_u32_array _) => apply json_u32_array_text; list_ok
  | |- json_text (json_u8_hex_array _) => apply json_u8_hex_array_text; list_ok
  | |- json_text (json_u32_hex_array _) => apply json_u32_hex_array_text; list_ok
  | |- json_text (json_u64_hex_array _) => apply json_u64_hex_array_text; list_ok
  | |- json_text (json_active_device_array _) => apply json_active_device_array_text; list_ok
  | |- json_text (json_xxx_info_array _) => apply json_xxx_info_array_text; list_ok
  | |- json_text (json_global_sm_order_array _) => apply json_global_sm_order_array_text; list_ok
  | |- json_text (json_pci_bar_info_array _) => apply json_pci_bar_info_array_text; list_ok
  | |- json_text (json_sync_gpu_boost_group_array _) => apply json_sync_gpu_boost_group_array_text; list_ok
  | |- json_text (json_grmgr_queries_array _) => apply json_grmgr_queries_array_text; list_ok
  | |- json_text (json_atomic_op_array _) => apply json_atomic_op_array_text; list_ok
  | |- json_text (json_card_info_array _) => apply json_card_info_array_text; list_ok
  | |- json_text (json_u32_matrix _ _ _) => apply json_u32_matrix_text; list_ok
  | |- json_text (json_ce_caps_array _) => apply json_ce_caps_array_text
  | |- json_text (json_share_policy _) => apply json_share_policy_text; pod_bytes_ok
  end.

Ltac head t := lazymatch t with ?f _ => head f | _ => t end.

Ltac known_legacy := eexists; split; [reflexivity | first [right; reflexivity | left; reflexivity]].

Ltac known_goal tac :=
  split; [cbn [kd_json]; apply known_json; apply json_done_status; [obj; bytes_hyps; try text; tac | tac] | cbn [kd_legacy]; known_legacy].

Ltac size_check :=
  lazymatch goal with |- context [?size <? ?e] => destruct (Z.ltb_spec size e) as [Hlt|_] end;
  [ intros <-%some_eq; split;
      [ eexists []; eexists; split; [apply json_repr_finish, (json_repr_str _ []), json_repr_new | right; by eexists]
      | known_legacy ] | ].

Ltac params_read :=
  lazymatch goal with |- context [read_pod ?T ?a] => destruct (read_pod T a) as [params|] eqn:?; [|done] end;
  bytes_hyps.

Ltac control_decoder :=
  lazymatch goal with |- ?t = Some _ -> _ => let f := head t in unfold f end; cbv zeta;
  size_check; params_read; intros <-%some_eq; known_goal ltac:(try (left; reflexivity)).

Ltac name_of :=
  lazymatch goal with |- context [rm_control_cmd_name ?c] =>
    let n := eval vm_compute in (rm_control_cmd_name c) in change (rm_control_cmd_name c) with n end.

Lemma decode_cmd_gpu_query_ecc_status_ok addr size d :
  0 <= size -> decode_cmd_gpu_query_ecc_status addr size = Some d ->
  known_ok (rm_control_cmd_name NV2080_CTRL_CMD_GPU_QUERY_ECC_STATUS) size d.
Proof.
  intros Hs. name_of. unfold decode_cmd_gpu_query_ecc_status. cbv zeta. size_check.
  params_read. assert (ecc_ok (ecc_scan params.["units"])) as Hscan.
  { apply ecc_scan_ok. refine (get_ok params "units" I _). assumption. }
  revert Hscan. generalize (ecc_scan params.["units"]). intros scan Hscan.
  intros <-%some_eq. pose proof (json_ecc_unit_sample_array_text scan Hscan).
  destruct Hscan as (? & ? & ? & ? & ? & ?). known_goal ltac:(first [assumption | left; reflexivity]).
Qed.

Ltac control_arm :=
  intros addr size d Hs; cbn [fst snd];
  lazymatch goal with
  | |- decode_cmd_gpu_query_ecc_status _ _ = _ -> _ => by apply decode_cmd_gpu_query_ecc_status_ok
  | |- _ => name_of; control_decoder
  end.

Lemma rm_control_decoders_ok :
  Forall (fun e => forall addr size d, 0 <= size -> e.2 addr size = Some d ->
            known_ok (rm_control_cmd_name e.1) size d) rm_control_decoders.
Proof.
  unfold rm_control_decoders.
  do 56 (apply Forall_cons_2; [control_arm|]). constructor.
Qed.

(** A text that names the command and goes on. *)
Definition named (name s : string) : Prop :=
  exists rest, s = "name=" +:+ name +:+ rest /\ starts_with ", " rest = true.

Lemma named_app name s t : named name s -> named name (s +:+ t).
Proof.
  intros (rest & -> & (r & ->)%starts_with_spec). exists (", " +:+ r +:+ t).
  split; [by rewrite !str_app_assoc|apply starts_with_app].
Qed.

Lemma decode_cmd_nv2080_legacy_generic_ok cmd addr size d :
  0 <= size -> decode_cmd_nv2080_legacy_generic cmd addr size = Some d ->
  known_ok (rm_control_cmd_name cmd) size d.
Proof.
  intros Hs. unfold decode_cmd_nv2080_legacy_generic. cbv zeta.
  case_match; [done|]. case_match; [|done]. case_match; [done|]. case_match.
  - intros <-%some_eq. split; [|known_legacy].
    cbn [kd_json]. apply known_json, json_done_status; [obj|by left].
  - lazymatch goal with |- context [read_bytes ?a ?l] => destruct (read_bytes a l) as [bytes|] eqn:?; [|done] end.
    bytes_hyps. intros <-%some_eq. split.
    + cbn [kd_json]. apply known_json, json_done_status; [obj; try text|by left].
    + cbn [kd_legacy].
      match goal with |- exists rest, ?t = _ /\ _ =>
        assert (named (rm_control_cmd_name cmd) t) as (rest & ? & ?); [|by exists rest; auto] end.
      repeat first [solve [eexists; split; reflexivity] | apply named_app | case_match].
Qed.

Lemma decode_known_rm_control_ok cmd addr size d :
  0 <= size -> decode_known_rm_control cmd addr size = Some d -> known_ok (rm_control_cmd_name cmd) size d.
Proof.
  intros Hs. unfold decode_known_rm_control. destruct (match_const cmd rm_control_decoders) as [f|] eqn:E.
  - apply match_const_In, list_elem_of_In in E. pose proof rm_control_decoders_ok as H.
    rewrite List.Forall_forall in H. exact (H _ E addr size d Hs).
  - by apply decode_cmd_nv2080_legacy_generic_ok.
Qed.

Lemma known_ok_text name size d : known_ok name size d -> json_text (kd_json d).
Proof. intros [(l & s & -> & _) _]. by eexists. Qed.

(** ** Escapes *)

(** [decode_nvos54_payload] ends with one of these; its [params_empty] cannot occur. *)
Definition payload_statuses : list string := ["ok"; "inner_partial"; "params_unreadable"].

Lemma decode_nvos54_payload_ok os54 max_blob leg root :
  Forall is_byte (pod_bytes os54) -> json_obj root ->
  json_done (fun s => s ∈ payload_statuses) (decode_nvos54_payload os54 max_blob leg root).2.
Proof.
  intros Hp Hr. unfold decode_nvos54_payload. cbv zeta.
  assert (0 <= os54.["params_size"]) as Hsize by nonneg.
  destruct (_ || _) eqn:E0; [apply json_done_status; [obj|left]|].
  destruct (decode_known_rm_control _ _ _) as [d|] eqn:E1.
  { apply decode_known_rm_control_ok, known_ok_text in E1; [|done]. apply json_done_status; [obj; done|left]. }
  destruct (_ `min` _ =? 0) eqn:E2.
  { exfalso. apply orb_false_iff in E0 as [_ E0]. bool_to_prop.
    change (as_u64 (MAX_INNER_PREVIEW_WORDS * 4)) with 32 in E2. lia. }
  destruct (read_bytes _ _) as [bytes|] eqn:E3.
  - apply read_bytes_ok in E3. apply json_done_status; [obj; text|right; left].
  - apply json_done_status; [obj|right; right; left].
Qed.

(** A decoder of a struct succeeds, cannot read it, or is told a smaller size. *)
Definition checked_status (meta : IoctlMeta) (s : string) : Prop :=
  s = "ok" \/ s = "arg_unreadable" \/ exists expected, size meta < expected /\ s = size_mismatch expected (size meta).

Lemma read_checked_pod_ok T meta arg_ptr p :
  read_checked_pod T meta arg_ptr = inl p -> Forall is_byte (pod_bytes p).
Proof.
  unfold read_checked_pod. cbv zeta. case_match; [done|].
  destruct (read_pod T arg_ptr) as [q|] eqn:E; [|done]. intros [= ->]. by apply read_pod_ok in E.
Qed.

Lemma read_checked_pod_err T meta arg_ptr err :
  read_checked_pod T meta arg_ptr = inr err -> checked_status meta err.
Proof.
  unfold read_checked_pod. cbv zeta. destruct (_ && _) eqn:E.
  - intros [= <-]. bool_to_prop. right. right. by eexists.
  - destruct (read_pod T arg_ptr); [done|]. intros [= <-]. by right; left.
Qed.

Lemma decode_rm_control_ok meta arg_ptr max_blob leg root :
  json_obj root ->
  json_done (fun s => checked_status meta s \/ s ∈ payload_statuses)
    (decode_rm_control meta arg_ptr max_blob leg root).2.
Proof.
  intros Hr. unfold decode_rm_control. destruct (read_checked_pod _ _ _) as [os54|err] eqn:E.
  - apply read_checked_pod_ok in E. eapply json_done_mono; [|by apply decode_nvos54_payload_ok]. by right.
  - apply read_checked_pod_err in E. apply json_done_status; [done|by left].
Qed.

(** Membership in a list of statuses. *)
Ltac elem := apply (bool_decide_unpack _); vm_compute; exact I.

Definition xfer_statuses : list string :=
  ["xfer_unreadable"; "xfer_non_nvos54"; "os54_unreadable"] ++ payload_statuses.

Lemma decode_xfer_ok arg_ptr mode max_blob leg root :
  json_obj root -> json_done (fun s => s ∈ xfer_statuses) (decode_xfer arg_ptr mode max_blob leg root).2.
Proof.
  intros Hr. unfold decode_xfer. cbv zeta.
  destruct (read_pod NvIoctlXfer arg_ptr) as [xfer|] eqn:E; bytes_hyps;
    [|apply json_done_status; [obj|elem]].
  destruct (negb (bool_decide _)); [apply json_done_status; [obj|elem]|].
  destruct (_ || _); [apply json_done_status; [obj|elem]|].
  destruct (read_pod NvOs54Parameters _) as [os54|] eqn:E1; bytes_hyps;
    [|apply json_done_status; [obj|elem]].
  eapply json_done_mono; [|apply decode_nvos54_payload_ok; [done|obj]].
  intros s Hs. unfold xfer_statuses. rewrite elem_of_app. by right.
Qed.

(** The status of an escape whose decoder only extends the object. *)
Definition opaque_escapes : list Z :=
  [NV_ESC_RM_CONFIG_GET; NV_ESC_RM_CONFIG_SET; NV_ESC_RM_CONFIG_GET_EX; NV_ESC_RM_CONFIG_SET_EX;
   NV_ESC_RM_EXPORT_OBJECT_TO_FD; NV_ESC_RM_IMPORT_OBJECT_FROM_FD; NV_ESC_RM_LOCKLESS_DIAGNOSTIC].

Definition attach_statuses : list string := ["ok"; "size_unknown"; "arg_unreadable"].

Definition arm_status (nr : Z) (meta : IoctlMeta) (s : string) : Prop :=
  if existsb (Z.eqb nr) opaque_escapes then s = "opaque"
  else if nr =? NV_ESC_ATTACH_GPUS_TO_FD then s ∈ attach_statuses
  else checked_status meta s.

Lemma write_rm_alloc_class_obj root c : json_obj root -> json_obj (write_rm_alloc_class root c).
Proof. intros. unfold write_rm_alloc_class. cbv zeta. obj. Qed.

Lemma write_nvos02_fields_obj p root : json_obj root -> json_obj (write_nvos02_fields p root).
Proof. intros. unfold write_nvos02_fields. cbv zeta. obj. apply write_rm_alloc_class_obj. obj. Qed.

Lemma decode_alloc_blob_obj p n b root : json_obj root -> json_obj (decode_alloc_blob p n b root).
Proof. intros. unfold decode_alloc_blob. cbv zeta. obj. Qed.

Lemma card_entries_bytes n idx arg_ptr : pods (card_entries n idx arg_ptr).
Proof.
  revert idx. induction n as [|n IH]; intros idx; simpl; [done|].
  case_match eqn:E; [|done]. apply read_pod_ok in E. by constructor.
Qed.

Ltac esc_obj :=
  repeat (lazymatch goal with
    | |- json_obj (write_nvos02_fields _ _) => apply write_nvos02_fields_obj
    | |- json_obj (write_rm_alloc_class _ _) => apply write_rm_alloc_class_obj
    | |- json_obj (decode_alloc_blob _ _ _ _) => apply decode_alloc_blob_obj
    | |- _ => obj_step; bytes_hyps
    end).

Ltac esc_case :=
  repeat match goal with
  | |- json_done _ (match read_checked_pod ?T ?m ?a with _ => _ end) =>
    destruct (read_checked_pod T m a) eqn:?
  | |- json_done _ (match ?x with _ => _ end) => destruct x eqn:?
  | H : read_checked_pod _ _ _ = inl _ |- _ => apply read_checked_pod_ok in H
  | H : read_checked_pod _ _ _ = inr _ |- _ => apply read_checked_pod_err in H
  end; bytes_hyps; bool_to_prop.

Ltac esc_status :=
  first [ exact eq_refl | exact (or_introl eq_refl) | exact (or_intror (or_introl eq_refl))
        | match goal with H : checked_status _ _ |- _ => exact H end
        | match goal with |- arm_status _ _ ?s => change (s ∈ attach_statuses); elem end
        | refine (or_intror (or_intror _)); eexists; split; [|reflexivity]; lia ].

Ltac esc_text :=
  try (lazymatch goal with
  | |- json_text (json_card_info_array _) => apply json_card_info_array_text, card_entries_bytes
  | |- _ => text
  end).

Ltac esc_arm :=
  intros meta arg_ptr max_blob root Hsize Hr; cbn [fst snd]; unfold no_blob;
  lazymatch goal with |- json_done _ ?t => let f := head t in unfold f end;
  cbv zeta; esc_case; (apply json_done_status; [esc_obj; esc_text|esc_status]).

Lemma nv_esc_decoders_ok :
  Forall (fun e => forall meta arg_ptr max_blob root, 0 <= size meta -> json_obj root ->
            json_done (arm_status e.1 meta) (e.2 meta arg_ptr max_blob root)) nv_esc_decoders.
Proof.
  unfold nv_esc_decoders.
  do 39 (apply Forall_cons_2; [esc_arm|]). constructor.
Qed.

(** ** The whole answer *)

Definition unknown_statuses : list string := ["unknown_cmd"; "partial"; "arg_unreadable"].

Lemma decode_unknown_ok meta arg_ptr max_blob root :
  json_obj root -> json_done (fun s => s ∈ unknown_statuses) (decode_unknown meta arg_ptr max_blob root).
Proof.
  intros Hr. unfold decode_unknown. cbv zeta. esc_case; (apply json_done_status; [esc_obj|elem]).
Qed.

(** The statuses an escape may end with. *)
Definition escape_status (meta : IoctlMeta) (arg_ptr : Z) (mode : IoctlDecodeMode) (s : string) : Prop :=
  if bool_decide (mode = Decode_Header) then s = "header"
  else if arg_ptr =? 0 then s = "arg_null"
  else if nr meta =? NV_ESC_IOCTL_XFER_CMD then s ∈ xfer_statuses
  else if nr meta =? NV_ESC_RM_CONTROL then checked_status meta s \/ s ∈ payload_statuses
  else if bool_decide (nr meta ∈ nv_esc_decoders.*1) then arm_status (nr meta) meta s
  else s ∈ unknown_statuses.

Lemma nv_esc_arm_ok meta arg_ptr max_blob root decode :
  0 <= size meta -> json_obj root -> match_const (nr meta) nv_esc_decoders = Some decode ->
  json_done (arm_status (nr meta) meta) (decode meta arg_ptr max_blob root).
Proof.
  intros Hs Hr E%match_const_In%list_elem_of_In. pose proof nv_esc_decoders_ok as H.
  rewrite List.Forall_forall in H. exact (H _ E meta arg_ptr max_blob root Hs Hr).
Qed.

Lemma match_const_dom {A} k (arms : list (Z * A)) a : match_const k arms = Some a -> k ∈ arms.*1.
Proof. intros H%match_const_In. apply list_elem_of_fmap. by exists (k, a). Qed.

Lemma decode_nvidia_ioctl_built meta arg_ptr mode max_blob :
  0 <= size meta -> ioc_type meta = NV_IOCTL_MAGIC ->
  exists leg o,
    decode_nvidia_ioctl meta arg_ptr mode max_blob = Some {| legacy := leg; Ioctl.json := finish o |}
    /\ json_done (escape_status meta arg_ptr mode) o
    /\ (nr meta ∉ [NV_ESC_IOCTL_XFER_CMD; NV_ESC_RM_CONTROL] -> leg = EmptyString).
Proof.
  intros Hs Ht. unfold decode_nvidia_ioctl, escape_status. rewrite Ht. cbn [negb Z.eqb]. cbv zeta.
  pose proof json_obj_new as Hr. rewrite Z.eqb_refl. cbn [negb].
  destruct (bool_decide (mode = Decode_Header)); [eexists _, _; split_and!; [done|by apply json_done_status|done]|].
  destruct (arg_ptr =? 0); [eexists _, _; split_and!; [done|by apply json_done_status|done]|].
  destruct (Z.eqb_spec (nr meta) NV_ESC_IOCTL_XFER_CMD) as [->|];
    [|destruct (Z.eqb_spec (nr meta) NV_ESC_RM_CONTROL) as [->|]].
  - pose proof (decode_xfer_ok arg_ptr mode max_blob EmptyString _ Hr) as H.
    destruct (decode_xfer _ _ _ _ _) as [leg o]. eexists _, _. split_and!; [done..|]. intros []. left.
  - pose proof (decode_rm_control_ok meta arg_ptr max_blob EmptyString _ Hr) as H.
    destruct (decode_rm_control _ _ _ _ _) as [leg o]. eexists _, _. split_and!; [done..|]. intros []. right; left.
  - destruct (match_const (nr meta) nv_esc_decoders) as [decode|] eqn:E.
    + rewrite bool_decide_eq_true_2 by (by eapply match_const_dom).
      eexists _, _. split_and!; [done|by apply nv_esc_arm_ok|done].
    + rewrite bool_decide_eq_false_2 by (by apply match_const_None).
      eexists _, _. split_and!; [done|by apply decode_unknown_ok|done].
Qed.

Lemma decode_nvidia_ioctl_object meta arg_ptr mode max_blob :
  0 <= size meta -> ioc_type meta = NV_IOCTL_MAGIC ->
  exists sum l s,
    decode_nvidia_ioctl meta arg_ptr mode max_blob = Some sum
    /\ Ioctl.json sum = render_json (JObj (l ++ [("status", JStr s)]))
    /\ escape_status meta arg_ptr mode s
    /\ (nr meta ∉ [NV_ESC_IOCTL_XFER_CMD; NV_ESC_RM_CONTROL] -> legacy sum = EmptyString).
Proof.
  intros Hs Ht. destruct (decode_nvidia_ioctl_built meta arg_ptr mode max_blob Hs Ht) as (leg & o & -> & Ho & Hl).
  apply json_done_finish in Ho as (l & s & Hj & HS). eexists _, l, s. by split_and!.
Qed.

(** C19: the RM decoder answers exactly the requests of its magic number, on every
    path with one JSON object whose last member is a status that the escape,
    the argument and the decode mode allow; only the control requests have a
    legacy text. *)
Theorem decode_nvidia_ioctl_answers cmd arg_ptr mode max_blob :
  let meta := decode_ioctl_cmd cmd in
  if ioc_type meta =? NV_IOCTL_MAGIC then
    exists sum l s,
      decode_nvidia_ioctl meta arg_ptr mode max_blob = Some sum
      /\ Ioctl.json sum = render_json (JObj (l ++ [("status", JStr s)]))
      /\ escape_status meta arg_ptr mode s
      /\ (nr meta ∉ [NV_ESC_IOCTL_XFER_CMD; NV_ESC_RM_CONTROL] -> legacy sum = EmptyString)
  else decode_nvidia_ioctl meta arg_ptr mode max_blob = None.
Proof.
  intros meta. destruct (Z.eqb_spec (ioc_type meta) NV_IOCTL_MAGIC) as [Ht|Ht].
  - apply decode_nvidia_ioctl_object; [apply decode_size_nonneg|done].
  - unfold decode_nvidia_ioctl. by rewrite (proj2 (Z.eqb_neq _ _) Ht).
Qed.

End Facts.

(** ** The interface of [Summary] *)

#[export] Instance rm_decoder : RmDecoder := {|
  Summary.decode_nvidia_ioctl := @decode_nvidia_ioctl; Summary.outer_cmd_name := outer_cmd_name
|}.

#[export] Instance rm_decoder_laws : RmDecoderLaws rm_decoder (@escape_status).
Proof.
  split.
  - intros M meta arg_ptr mode max_blob Ht. change 0x46 with NV_IOCTL_MAGIC in Ht.
    simpl. unfold decode_nvidia_ioctl. by rewrite (proj2 (Z.eqb_neq _ _) Ht).
  - intros M Mok meta arg_ptr mode max_blob Hs Ht.
    destruct (decode_nvidia_ioctl_object meta arg_ptr mode max_blob Hs Ht) as (sum & l & s & E & Hj & HS & _). eauto 10.
Qed.

(** The summary of a request to a device of the resource manager is the
    decoded command word followed, unless decoding is off or the magic number is
    another, by one JSON object that ends with a status of its escape. *)
Theorem summarize_rm_ioctl {M : RemoteMem} (Mok : RemoteMemOk M) cmd arg_ptr mode max_blob path :
  is_nvidia_rm_path (Some path) = true ->
  let meta := decode_ioctl_cmd cmd in
  let text := ioc_text meta (Some path) in
  if bool_decide (mode = Decode_Off) || negb (ioc_type meta =? NV_IOCTL_MAGIC)
  then summarize_ioctl cmd arg_ptr mode max_blob (Some path) = text
  else exists l s,
    summarize_ioctl cmd arg_ptr mode max_blob (Some path)
      = text +:+ ", args=" +:+ render_json (JObj (l ++ [("status", JStr s)]))
    /\ escape_status meta arg_ptr mode s.
Proof. exact (summarize_rm (@escape_status) Mok cmd arg_ptr mode max_blob path). Qed.

(** ** Names *)

(** The escapes that [decode_nvidia_ioctl] has an arm for. *)
Definition decoded_escapes {M : RemoteMem} : list Z :=
  NV_ESC_IOCTL_XFER_CMD :: NV_ESC_RM_CONTROL :: nv_esc_decoders.*1.

Lemma nv_esc_names_known k s : match_const k nv_esc_names = Some s -> s <> "UNKNOWN".
Proof.
  intros H%match_const_In%list_elem_of_In.
  assert (forallb (fun p => negb (String.eqb p.2 "UNKNOWN")) nv_esc_names = true) as Hall by by vm_compute.
  rewrite forallb_forall in Hall. apply Hall in H. by apply negb_true_iff, String.eqb_neq in H.
Qed.

(** An escape has a name exactly if the decoder has an arm for it. *)
Theorem outer_cmd_name_known `{M : RemoteMem} nr : outer_cmd_name nr = "UNKNOWN" <-> nr ∉ decoded_escapes.
Proof.
  assert (nr ∈ nv_esc_names.*1 <-> nr ∈ decoded_escapes) as Hdom.
  { apply same_elems_iff. by vm_compute. }
  unfold outer_cmd_name. rewrite <- Hdom. destruct (match_const nr nv_esc_names) as [s|] eqn:E.
  - pose proof (nv_esc_names_known _ _ E). apply match_const_dom in E. naive_solver.
  - split; [|done]. intros _. by apply match_const_None.
Qed.

(** ** Control commands: names, statuses, reads *)

Section Control.
Context {M : RemoteMem} {Mok : RemoteMemOk M}.

(** The parameters could not be read: a read of at most their size failed. *)
Definition params_unreadable (addr params_size : Z) : Prop :=
  exists len, 0 <= len <= params_size /\
    match vm_read addr len with Some bs => Z.of_nat (length bs) <> len | None => True end.

Lemma read_pod_None T addr : read_pod T addr = None ->
  match vm_read addr (struct_size T) with Some bs => Z.of_nat (length bs) <> struct_size T | None => True end.
Proof. unfold read_pod. case_match; [|done]. case_match; [done|]. by bool_to_prop. Qed.

Ltac head t := lazymatch t with ?f _ => head f | _ => t end.

Ltac control_none :=
  intros addr size; cbn [fst snd];
  lazymatch goal with |- ?t = None -> _ => let f := head t in unfold f end; cbv zeta;
  lazymatch goal with |- context [?size <? ?e] => destruct (Z.ltb_spec size e); [done|] end;
  lazymatch goal with |- context [read_pod ?T ?a] =>
    destruct (read_pod T a) as [params|] eqn:?; [done|]; intros _; exists (struct_size T) end;
  split; [split; [by vm_compute|done]|by apply read_pod_None].

Lemma rm_control_decoders_none :
  Forall (fun e => forall addr size, e.2 addr size = None -> params_unreadable addr size) rm_control_decoders.
Proof.
  unfold rm_control_decoders.
  do 56 (apply Forall_cons_2; [control_none|]). constructor.
Qed.

(** C20: a control command with a decoder of its own is decoded unless a read of
    its parameters, within the size the caller gave, fails.  The decoded object
    ends with the status ok, or with a size mismatch where that size is too
    small, and the text starts with the name that [rm_control_cmd_name] gives;
    this holds for the generic decoder of the legacy interfaces as well. *)
Theorem known_rm_control cmd addr params_size :
  0 <= params_size ->
  match decode_known_rm_control cmd addr params_size with
  | Some d => known_ok (rm_control_cmd_name cmd) params_size d
  | None => cmd ∈ rm_control_decoders.*1 -> params_unreadable addr params_size
  end.
Proof.
  intros Hs. destruct (decode_known_rm_control cmd addr params_size) as [d|] eqn:E;
    [by eapply decode_known_rm_control_ok|]. intros Hdom. revert E. unfold decode_known_rm_control.
  destruct (match_const cmd rm_control_decoders) as [f|] eqn:E; [|by apply match_const_None in E].
  apply match_const_In, list_elem_of_In in E. pose proof rm_control_decoders_none as H.
  rewrite List.Forall_forall in H. exact (H _ E addr params_size).
Qed.

End Control.

(** ** Loops *)

(** A unit that the sample shows. *)
Definition ecc_shown (unit : pod Nv2080CtrlGpuQueryEccUnitStatus) : bool :=
  negb (unit.["enabled"] =? 0) || negb (unit.["supported"] =? 0)
  || negb (unit.["dbe"].["count"] =? 0) || negb (unit.["sbe"].["count"] =? 0).

Definition count_if {A} (f : A -> bool) (l : list A) : Z := vec_len (filter (fun x => f x = true) l).
Definition sum_of {A} (f : A -> Z) (l : list A) : Z := foldr (fun x acc => f x + acc) 0 l.

Lemma count_if_snoc {A} (f : A -> bool) l x : count_if f (l ++ [x]) = count_if f l + (if f x then 1 else 0).
Proof.
  unfold count_if, vec_len. rewrite list.filter_app, length_app, Nat2Z.inj_add, list.filter_cons.
  destruct (f x) eqn:E; case_decide; simpl; lia || congruence.
Qed.

Lemma sum_of_snoc {A} (f : A -> Z) l x : sum_of f (l ++ [x]) = sum_of f l + f x.
Proof. unfold sum_of. induction l as [|y l IH]; simpl; lia. Qed.

Lemma enumerate_snoc {A} (l : list A) x : enumerate (l ++ [x]) = enumerate l ++ [(vec_len l, x)].
Proof. unfold enumerate, vec_len. rewrite imap_app. simpl. by rewrite Nat.add_0_r. Qed.

Abbreviation ecc_unit := (pod Nv2080CtrlGpuQueryEccUnitStatus).

(** The result of the loop over the units, without the loop. *)
Definition ecc_report (units : list ecc_unit) : EccScan := {|
  enabled_units := count_if (fun u : ecc_unit => negb (u.["enabled"] =? 0)) units;
  supported_units := count_if (fun u : ecc_unit => negb (u.["supported"] =? 0)) units;
  scrub_complete_units := count_if (fun u : ecc_unit => negb (u.["scrub_complete"] =? 0)) units;
  dbe_total := Z.min (sum_of (fun u : ecc_unit => u.["dbe"].["count"]) units) u64_max;
  sbe_total := Z.min (sum_of (fun u : ecc_unit => u.["sbe"].["count"]) units) u64_max;
  sampled := take (Z.to_nat MAX_CTRL_LIST_ITEMS)
    (prod_map as_u32 id <$> filter (fun e => ecc_shown e.2 = true) (enumerate units));
  non_zero_units := count_if ecc_shown units
|}.

Lemma take_snoc_room {A} n (l : list A) x :
  take n (l ++ [x]) = if bool_decide (length (take n l) < n)%nat then take n l ++ [x] else take n l.
Proof.
  case_bool_decide as H; rewrite length_take in H.
  - rewrite !take_ge; [done|lia|]. rewrite length_app. simpl. lia.
  - rewrite take_app_le by lia. done.
Qed.

Lemma saturating_add_min a b : 0 <= b -> saturating_add (Z.min a u64_max) b = Z.min (a + b) u64_max.
Proof. unfold saturating_add. lia. Qed.

(** The loop of the ECC query counts the enabled, supported and scrubbed
    units, adds up the error counts saturating at the maximum of u64, and samples
    the first 64 units that have anything to show, with their numbers. *)
Theorem ecc_scan_report units :
  Forall (fun u => Forall is_byte (pod_bytes u)) units -> ecc_scan units = ecc_report units.
Proof.
  induction units as [|u units IH] using rev_ind; [done|].
  intros [Hus Hu]%Forall_app. apply Forall_cons_1 in Hu as [Hu _]. specialize (IH Hus).
  unfold ecc_scan in *. rewrite enumerate_snoc, foldl_app, IH. simpl foldl.
  unfold ecc_step, ecc_report. fold (ecc_shown u).
  rewrite !count_if_snoc, !sum_of_snoc, enumerate_snoc, list.filter_app, fmap_app.
  cbn [enabled_units supported_units scrub_complete_units dbe_total sbe_total sampled non_zero_units].
  rewrite !saturating_add_min by nonneg. f_equal.
  rewrite list.filter_cons, list.filter_nil. cbn [snd].
  destruct (ecc_shown u) eqn:E; case_decide; try congruence; cbn [andb fmap list_fmap]; [|by rewrite app_nil_r].
  rewrite take_snoc_room. unfold vec_len.
  destruct (Z.ltb_spec (Z.of_nat (length (take (Z.to_nat MAX_CTRL_LIST_ITEMS)
    (prod_map as_u32 id <$> filter (fun e => ecc_shown e.2 = true) (enumerate units))))) MAX_CTRL_LIST_ITEMS).
  - rewrite bool_decide_eq_true_2 by lia. done.
  - rewrite bool_decide_eq_false_2 by lia. done.
Qed.

(** The list of GPU identifiers is the part of the array before its first
    terminator 0xffffffff, and 32-bit words that a process stores in memory are
    read back as they are. *)
Theorem gpu_ids_read_back ids words :
  Forall (in_u 32) words ->
  (valid_gpu_ids ids = ids /\ 0xffffffff ∉ ids
   \/ exists rest, ids = valid_gpu_ids ids ++ 0xffffffff :: rest /\ 0xffffffff ∉ valid_gpu_ids ids)
  /\ words32 (words ≫= le_bytes 4) = words.
Proof.
  intros Hw. split.
  - induction ids as [|x ids IH]; simpl; [left; split; [done|apply not_elem_of_nil]|].
    destruct (Z.eqb_spec x 0xffffffff) as [->|Hx].
    + right. exists ids. split; [done|apply not_elem_of_nil].
    + setoid_rewrite not_elem_of_cons. destruct IH as [[-> ?]|(rest & Hr & ?)]; [by left|].
      right. exists rest. split; [by rewrite Hr at 1|done].
  - unfold words32, chunks_exact.
    assert (vec_len (words ≫= le_bytes 4) = 4 * vec_len words) as Hlen.
    { unfold vec_len. clear Hw. induction words as [|w words IH]; [done|].
      rewrite bind_cons, length_app, le_bytes_length. cbn [length]. lia. }
    rewrite Hlen, (Z.mul_comm 4), Z.div_mul by done. unfold vec_len. rewrite Nat2Z.id. clear Hlen.
    induction Hw as [|w words Hw Hws IH]; [done|].
    rewrite bind_cons. cbn [length]. cbn [chunk fmap list_fmap].
    rewrite take_app_length', drop_app_length' by (by rewrite le_bytes_length).
    rewrite (le_val_bytes_u 4 32) by done. by f_equal.
Qed.

(** ** Instances *)

(** [_IOWR('F', nr, size)] *)
Definition rm_request (nr size : Z) : Z := encode_ioctl 3 NV_IOCTL_MAGIC nr size.

Lemma decode_nvidia_ioctl_answers_witness :
  let meta := decode_ioctl_cmd (rm_request NV_ESC_RM_CONTROL 32) in
  exists sum l s,
    decode_nvidia_ioctl (M := zero_memory) meta 4096 Decode_Full 256 = Some sum
    /\ Ioctl.json sum = render_json (JObj (l ++ [("status", JStr s)]))
    /\ escape_status (M := zero_memory) meta 4096 Decode_Full s
    /\ (nr meta ∉ [NV_ESC_IOCTL_XFER_CMD; NV_ESC_RM_CONTROL] -> legacy sum = EmptyString).
Proof.
  exact (@decode_nvidia_ioctl_answers zero_memory zero_memory_ok (rm_request NV_ESC_RM_CONTROL 32) 4096 Decode_Full 256).
Defined.

Lemma summarize_rm_ioctl_witness :
  @summarize_ioctl rm_decoder no_memory (rm_request NV_ESC_RM_FREE 16) 4096 Decode_Full 256 (Some "/dev/nvidiactl")
    = "_IOC(dir=read|write,type='F',nr=NV_ESC_RM_FREE,size=16), args={" +:+ DQ +:+ "status" +:+ DQ +:+ ":" +:+ DQ
      +:+ "arg_unreadable" +:+ DQ +:+ "}"
  /\ exists l s,
    @summarize_ioctl rm_decoder no_memory (rm_request NV_ESC_RM_FREE 16) 4096 Decode_Full 256 (Some "/dev/nvidiactl")
      = ioc_text (decode_ioctl_cmd (rm_request NV_ESC_RM_FREE 16)) (Some "/dev/nvidiactl") +:+ ", args="
        +:+ render_json (JObj (l ++ [("status", JStr s)]))
    /\ escape_status (M := no_memory) (decode_ioctl_cmd (rm_request NV_ESC_RM_FREE 16)) 4096 Decode_Full s.
Proof.
  split; [vm_compute; reflexivity|].
  exact (@summarize_rm_ioctl no_memory no_memory_ok (rm_request NV_ESC_RM_FREE 16) 4096 Decode_Full 256
    "/dev/nvidiactl" eq_refl).
Defined.

Lemma known_rm_control_witness :
  exists d,
    decode_known_rm_control (M := zero_memory) NV2080_CTRL_CMD_GPU_GET_SIMULATION_INFO 4096 4 = Some d
    /\ known_ok "NV2080_CTRL_CMD_GPU_GET_SIMULATION_INFO" 4 d.
Proof.
  eexists. split; [vm_compute; reflexivity|].
  exact (@known_rm_control zero_memory zero_memory_ok NV2080_CTRL_CMD_GPU_GET_SIMULATION_INFO 4096 4
    ltac:(lia)).
Defined.

Ltac byte_lists :=
  vm_compute; repeat match goal with
  | |- Forall _ _ => constructor
  | |- _ /\ _ => split
  | |- _ -> _ => discriminate
  | |- _ = _ => reflexivity
  end.

(** An enabled unit without errors, and one with nothing. *)
Definition two_units : list ecc_unit := [Pod (replicate 40 0); Pod (1 :: replicate 39 0)].

Lemma ecc_scan_report_witness :
  Forall (fun u : ecc_unit => Forall is_byte (pod_bytes u)) two_units
  /\ ecc_scan two_units = ecc_report two_units
  /\ enabled_units (ecc_report two_units) = 1 /\ (fst <$> sampled (ecc_report two_units)) = [1].
Proof.
  assert (Forall (fun u : ecc_unit => Forall is_byte (pod_bytes u)) two_units) as H.
  { byte_lists. }
  split; [exact H|]. split; [exact (ecc_scan_report two_units H)|]. split; vm_compute; reflexivity.
Defined.

Lemma gpu_ids_read_back_witness :
  words32 ([0x100; 0xffffffff] ≫= le_bytes 4) = [0x100; 0xffffffff]
  /\ valid_gpu_ids [0x100; 0xffffffff; 7] = [0x100].
Proof.
  split; [|reflexivity].
  refine (proj2 (gpu_ids_read_back [] [0x100; 0xffffffff] _)).
  repeat (apply Forall_cons_2; [unfold in_u; lia|]). constructor.
Defined.

(** A wrapper whose descriptor is -1 and whose other fields are zero. *)
Definition fd_minus_one : RemoteMem := fun _ len =>
  Some (take (Z.to_nat len) (replicate 48 0 ++ replicate 4 255 ++ replicate 4 0)).

(** The same field [fd] of the two wrappers is printed signed by one decoder
    and converted to u64 by the other. *)
Lemma fd_of_wrappers_differ :
  let run escape decode :=
    finish (decode (decode_ioctl_cmd (rm_request escape 56)) 4096 JsonObject_new) in
  contains (DQ +:+ "fd" +:+ DQ +:+ ":-1,") (run NV_ESC_RM_ALLOC_MEMORY (decode_rm_alloc_memory (M := fd_minus_one))) = true
  /\ contains (DQ +:+ "fd" +:+ DQ +:+ ":18446744073709551615,")
       (run NV_ESC_RM_MAP_MEMORY (decode_rm_map_memory (M := fd_minus_one))) = true.
Proof. vm_compute. split; reflexivity. Qed.
