(* ===== verification/Window.v ===== *)
(** * The two pipes from the traced threads to the tracer: [src/src/hook/ptrace.rs]

    A traced thread publishes its call depth and the function_graph windows it
    opens and closes as fixed-size messages; the tracer drains both pipes and
    keeps a depth and a window state per thread.  A write is one call whose
    result is an argument; the results of the reads of one drain are a list. *)
From S2P Require Import Prelude RustStr Config Layout.
#[global] Open Scope rust_scope.

Definition EINTR : Z := 4.
Definition EAGAIN : Z := 11.
Definition EWOULDBLOCK : Z := 11.
Definition EBADF : Z := 9.
Definition EPIPE : Z := 32.
Definition FGRAPH_WINDOW_EVENT_EXIT : Z := 0.
Definition FGRAPH_WINDOW_EVENT_ENTER : Z := 1.
Definition FGRAPH_FUNC_NAME_MAX : Z := 96.

(** ** Messages *)

Record DepthUpdate := { du_tid : Z; du_depth : Z }.

Definition DepthUpdate_layout : layout := [("tid", I32); ("depth", U32)].

Record FgraphWindowUpdate := {
  wu_tid : Z;
  wu_depth : Z;
  wu_seq : Z;
  wu_event : Z;
  wu_reserved : list Z;
  wu_func : list Z
}.

Definition FgraphWindowUpdate_layout : layout :=
  [("tid", I32); ("depth", U32); ("seq", U32); ("event", U8);
   ("_reserved", Arr U8 3); ("func", Arr U8 FGRAPH_FUNC_NAME_MAX)].

(** The memory of a message. *)
Definition depth_update_as_bytes (msg : DepthUpdate) : list Z :=
  le_bytes 4 (as_u32 (du_tid msg)) ++ le_bytes 4 (du_depth msg).

Definition fgraph_window_update_as_bytes (msg : FgraphWindowUpdate) : list Z :=
  le_bytes 4 (as_u32 (wu_tid msg)) ++ le_bytes 4 (wu_depth msg) ++ le_bytes 4 (wu_seq msg)
  ++ [wu_event msg] ++ wu_reserved msg ++ wu_func msg.

(** A message read over its memory. *)
Definition depth_update_of_bytes (bytes : list Z) : DepthUpdate :=
  let p : pod DepthUpdate_layout := Pod bytes in
  {| du_tid := p.["tid"]; du_depth := p.["depth"] |}.

Definition fgraph_window_update_of_bytes (bytes : list Z) : FgraphWindowUpdate :=
  let p : pod FgraphWindowUpdate_layout := Pod bytes in
  {| wu_tid := p.["tid"]; wu_depth := p.["depth"]; wu_seq := p.["seq"]; wu_event := p.["event"];
     wu_reserved := p.["_reserved"]; wu_func := p.["func"] |}.

(** [set_func]: the field is cleared, then the first 96 bytes are copied. *)
Definition set_func (func : string) : list Z :=
  let src := bytes_of func in
  let copy_len := Nat.min (length src) (Z.to_nat FGRAPH_FUNC_NAME_MAX) in
  take copy_len src ++ replicate (Z.to_nat FGRAPH_FUNC_NAME_MAX - copy_len) 0.

Definition func_name (msg : FgraphWindowUpdate) : string := from_utf8_lossy (until_nul (wu_func msg)).

(** ** Publishing *)

Inductive WriteRes :=
| WrCount (n : Z)
| WrErr (errno : Z).

(** One [write] of a message on the pipe; a pipe whose reader is gone is
    closed and never used again.  Result: the stored descriptor, the bytes
    handed to [write], the descriptor closed. *)
Definition publish_bytes (fd : Z) (bytes : list Z) (written : WriteRes) : Z * option (list Z) * option Z :=
  if fd <? 0 then (fd, None, None)
  else match written with
       | WrCount _ => (fd, Some bytes, None)
       | WrErr err =>
         if (err =? EBADF) || (err =? EPIPE) then (-1, Some bytes, Some fd) else (fd, Some bytes, None)
       end.

Section Publish.
Context (cfg : Config) (internal_tracer : bool) (tid : Z).

Definition depth_message (depth : Z) : DepthUpdate :=
  {| du_tid := tid; du_depth := Z.min depth u32_max |}.

Definition publish_graph_depth (fd depth : Z) (written : WriteRes) : Z * option (list Z) * option Z :=
  if internal_tracer || negb (mask_syscall (trace cfg)) then (fd, None, None)
  else publish_bytes fd (depth_update_as_bytes (depth_message depth)) written.

Definition window_enter_message (depth : Z) (func : string) (seq : Z) : FgraphWindowUpdate :=
  {| wu_tid := tid; wu_depth := Z.min depth u32_max; wu_seq := seq;
     wu_event := FGRAPH_WINDOW_EVENT_ENTER; wu_reserved := [0; 0; 0]; wu_func := set_func func |}.

Definition window_exit_message (depth : Z) : FgraphWindowUpdate :=
  {| wu_tid := tid; wu_depth := Z.min depth u32_max; wu_seq := 0;
     wu_event := FGRAPH_WINDOW_EVENT_EXIT; wu_reserved := [0; 0; 0];
     wu_func := replicate (Z.to_nat FGRAPH_FUNC_NAME_MAX) 0 |}.

Definition publish_fgraph_window_update (fd : Z) (msg : FgraphWindowUpdate) (written : WriteRes)
    : Z * option (list Z) * option Z :=
  if internal_tracer || negb (mask_syscall (trace cfg)) || negb (fgraph_enabled cfg) then (fd, None, None)
  else publish_bytes fd (fgraph_window_update_as_bytes msg) written.

Definition publish_fgraph_window_enter (fd depth : Z) (func : string) (seq : Z) (written : WriteRes) :=
  publish_fgraph_window_update fd (window_enter_message depth func seq) written.

Definition publish_fgraph_window_exit (fd depth : Z) (written : WriteRes) :=
  publish_fgraph_window_update fd (window_exit_message depth) written.

End Publish.

(** ** Draining *)

Inductive ReadRes :=
| RdBytes (bytes : list Z)
| RdErr (errno : Z).

(** The loop both drains share.  The result says whether the loop ended
    ([false]: the next [read] has not answered yet) and which reads are left. *)
Fixpoint drain {S : Type} (msg_size : Z) (apply : list Z -> S -> S) (reads : list ReadRes) (s : S)
    : S * bool * list ReadRes :=
  match reads with
  | [] => (s, false, [])
  | RdBytes bytes :: reads =>
    if Z.of_nat (length bytes) =? msg_size then drain msg_size apply reads (apply bytes s)
    else (s, true, reads)
  | RdErr err :: reads =>
    if err =? EINTR then drain msg_size apply reads s
    else (s, true, reads)
  end.

Abbreviation depth_map := (gmap Z Z).

Definition apply_depth_update (bytes : list Z) (depth_by_tid : depth_map) : depth_map :=
  let msg := depth_update_of_bytes bytes in
  <[du_tid msg := du_depth msg]> depth_by_tid.

Definition drain_depth_updates (fd : Z) (reads : list ReadRes) (depth_by_tid : depth_map)
    : depth_map * bool * list ReadRes :=
  if fd <? 0 then (depth_by_tid, true, reads)
  else drain (struct_size DepthUpdate_layout) apply_depth_update reads depth_by_tid.

Record FgraphScopeLabel := { sl_func : string; sl_seq : Z }.

(** [ws_labels] is the [Vec]: the innermost window is its last element. *)
Record FgraphWindowState := { ws_depth : Z; ws_labels : list FgraphScopeLabel }.

Definition default_window : FgraphWindowState := {| ws_depth := 0; ws_labels := [] |}.

Abbreviation window_map := (gmap Z FgraphWindowState).

Definition apply_fgraph_window_update (msg : FgraphWindowUpdate) (window_by_tid : window_map) : window_map :=
  let depth := wu_depth msg in
  if wu_event msg =? FGRAPH_WINDOW_EVENT_ENTER then
    if depth =? 0 then delete (wu_tid msg) window_by_tid
    else
      let state := default default_window (window_by_tid !! wu_tid msg) in
      let labels := take (Z.to_nat (sat_pred depth)) (ws_labels state) in
      let labels := labels ++ [{| sl_func := func_name msg; sl_seq := wu_seq msg |}] in
      <[wu_tid msg := {| ws_depth := depth; ws_labels := labels |}]> window_by_tid
  else if depth =? 0 then delete (wu_tid msg) window_by_tid
  else
    let state := default default_window (window_by_tid !! wu_tid msg) in
    <[wu_tid msg := {| ws_depth := depth; ws_labels := take (Z.to_nat depth) (ws_labels state) |}]>
      window_by_tid.

Definition drain_fgraph_window_updates (fd : Z) (reads : list ReadRes) (window_by_tid : window_map)
    : window_map * bool * list ReadRes :=
  if fd <? 0 then (window_by_tid, true, reads)
  else drain (struct_size FgraphWindowUpdate_layout)
         (fun bytes => apply_fgraph_window_update (fgraph_window_update_of_bytes bytes)) reads window_by_tid.

Definition current_fgraph_scope_label (tid : Z) (window_by_tid : window_map) : option string :=
  match window_by_tid !! tid with
  | Some state =>
    match list.last (ws_labels state) with
    | Some label => Some (sl_func label +:+ fmt_u (sl_seq label))
    | None => None
    end
  | None => None
  end.

(** ** The wire: a message is read back as it was written *)

Definition depth_update_wf (msg : DepthUpdate) : Prop := in_i 32 (du_tid msg) /\ in_u 32 (du_depth msg).

Definition window_update_wf (msg : FgraphWindowUpdate) : Prop :=
  in_i 32 (wu_tid msg) /\ in_u 32 (wu_depth msg) /\ in_u 32 (wu_seq msg) /\ in_u 8 (wu_event msg)
  /\ (Forall is_byte (wu_reserved msg) /\ length (wu_reserved msg) = 3%nat)
  /\ Forall is_byte (wu_func msg) /\ length (wu_func msg) = Z.to_nat FGRAPH_FUNC_NAME_MAX.

#[export] Instance depth_update_wf_dec msg : Decision (depth_update_wf msg).
Proof. unfold depth_update_wf. apply _. Defined.
#[export] Instance window_update_wf_dec msg : Decision (window_update_wf msg).
Proof. unfold window_update_wf. apply _. Defined.

Lemma as_i32_of_u32 z : in_i 32 z -> as_i32 (as_u32 z) = z.
Proof.
  unfold in_i, swrap, wrap. intros. change (2 ^ (32 - 1)) with 2147483648 in *.
  change (2 ^ 32) with 4294967296. rewrite Z.add_mod_idemp_l by lia.
  rewrite Z.mod_small; lia.
Qed.

Lemma read_u8_bytes bs : Forall is_byte bs -> read_ty U8 <$> chunk (length bs) 1 bs = bs.
Proof.
  induction 1 as [|b bs Hb Hbs IH]; [done|].
  change (read_ty U8 [b] :: (read_ty U8 <$> chunk (length bs) 1 bs) = b :: bs).
  rewrite IH. f_equal. simpl. lia.
Qed.

Lemma read_le_u32 z rest : in_u 32 z -> read_ty U32 (le_bytes 4 z ++ rest) = z.
Proof. intros. cbn [read_ty]. rewrite take_app_length'; [|done]. by apply (le_val_bytes_u 4 32). Qed.

Lemma read_le_i32 z rest : in_i 32 z -> read_ty I32 (le_bytes 4 (as_u32 z) ++ rest) = z.
Proof.
  intros. change (as_i32 (read_ty U32 (le_bytes 4 (as_u32 z) ++ rest)) = z).
  rewrite read_le_u32 by (apply wrap_range; lia). by apply as_i32_of_u32.
Qed.

(** What the tracer reads is the message that was written. *)
Lemma depth_update_roundtrip msg :
  depth_update_wf msg -> depth_update_of_bytes (depth_update_as_bytes msg) = msg.
Proof.
  destruct msg as [tid depth]. intros [Ht Hd]. unfold depth_update_of_bytes. cbv zeta. f_equal.
  - exact (read_le_i32 tid [] Ht).
  - exact (read_le_u32 depth [] Hd).
Qed.

Lemma window_update_roundtrip msg :
  window_update_wf msg -> fgraph_window_update_of_bytes (fgraph_window_update_as_bytes msg) = msg.
Proof.
  destruct msg as [tid depth seq event res func].
  intros (Ht & Hd & Hs & He & [Hrb Hrl] & Hfb & Hfl). cbn [wu_tid wu_depth wu_seq wu_event wu_reserved wu_func] in *.
  destruct res as [|r1 [|r2 [|r3 [|]]]]; try done.
  unfold fgraph_window_update_of_bytes, fgraph_window_update_as_bytes. cbv zeta.
  cbn [wu_tid wu_depth wu_seq wu_event wu_reserved wu_func]. f_equal.
  - exact (read_le_i32 tid [] Ht).
  - exact (read_le_u32 depth [] Hd).
  - exact (read_le_u32 seq [] Hs).
  - change (event + 256 * 0 = event). lia.
  - exact (read_u8_bytes [r1; r2; r3] Hrb).
  - change (read_ty U8 <$> chunk (Z.to_nat FGRAPH_FUNC_NAME_MAX) 1 (take (Z.to_nat FGRAPH_FUNC_NAME_MAX) func) = func).
    rewrite take_ge by (rewrite Hfl; lia). rewrite <- Hfl. by apply read_u8_bytes.
Qed.

Lemma set_func_length func : length (set_func func) = Z.to_nat FGRAPH_FUNC_NAME_MAX.
Proof. unfold set_func. rewrite length_app, length_take, length_replicate. lia. Qed.

Lemma set_func_bytes func : Forall is_byte (set_func func).
Proof.
  unfold set_func. apply Forall_app_2; [apply Forall_take, bytes_of_range|].
  apply Forall_replicate. unfold is_byte. lia.
Qed.

Lemma until_nul_app bs n : Forall (fun b => b <> 0) bs -> until_nul (bs ++ replicate n 0) = bs.
Proof.
  induction 1 as [|b bs Hb Hbs IH]; simpl; [by destruct n|].
  by rewrite (proj2 (Z.eqb_neq b 0)), IH.
Qed.

(** A function name fits the message: no NUL, at most 96 bytes, UTF-8. *)
Definition fits_name (func : string) : Prop :=
  valid_str func /\ (length (bytes_of func) <= Z.to_nat FGRAPH_FUNC_NAME_MAX)%nat
  /\ Forall (fun b => b <> 0) (bytes_of func).

#[export] Instance fits_name_dec func : Decision (fits_name func).
Proof. unfold fits_name. apply _. Defined.

Lemma func_name_set_func msg func : wu_func msg = set_func func -> fits_name func -> func_name msg = func.
Proof.
  intros E (Hv & Hl & Hn). unfold func_name. rewrite E. unfold set_func.
  rewrite Nat.min_l, take_ge, until_nul_app by done. exact Hv.
Qed.

(** ** Reads of a pipe *)

(** The reads hand over the messages [ms] in order, with interruptions, until
    the pipe is empty (or fails). *)
Inductive delivers : list ReadRes -> list (list Z) -> Prop :=
| delivers_end err rest : err <> EINTR -> delivers (RdErr err :: rest) []
| delivers_eintr rest ms : delivers rest ms -> delivers (RdErr EINTR :: rest) ms
| delivers_msg m rest ms : delivers rest ms -> delivers (RdBytes m :: rest) (m :: ms).

Lemma drain_delivers {S} size (apply : list Z -> S -> S) reads ms s :
  delivers reads ms -> Forall (fun m => Z.of_nat (length m) = size) ms ->
  exists rest, drain size apply reads s = (foldl (fun s m => apply m s) s ms, true, rest).
Proof.
  intros H. revert s. induction H as [err rest Herr|rest ms H IH|m rest ms H IH]; intros s Hlen; simpl.
  - exists rest. by rewrite (proj2 (Z.eqb_neq err EINTR)).
  - by apply IH.
  - apply Forall_cons_1 in Hlen as [Hm Hlen]. rewrite (proj2 (Z.eqb_eq _ _) Hm). by apply IH.
Qed.

Lemma depth_update_size msg : Z.of_nat (length (depth_update_as_bytes msg)) = struct_size DepthUpdate_layout.
Proof. reflexivity. Qed.

Lemma window_update_size msg :
  window_update_wf msg ->
  Z.of_nat (length (fgraph_window_update_as_bytes msg)) = struct_size FgraphWindowUpdate_layout.
Proof.
  intros (_ & _ & _ & _ & [_ Hr] & _ & Hf). unfold fgraph_window_update_as_bytes.
  rewrite !length_app, !le_bytes_length, Hr, Hf. reflexivity.
Qed.

(** The depth pipe.  Whatever the tracer knew, after a drain the depth of
    a thread is the one it published last, and that of a thread that published
    nothing is unchanged. *)
Theorem depth_drain_keeps_last fd reads msgs depth_by_tid :
  0 <= fd -> Forall depth_update_wf msgs ->
  delivers reads (map depth_update_as_bytes msgs) ->
  exists rest,
    drain_depth_updates fd reads depth_by_tid
      = (foldl (fun m msg => <[du_tid msg := du_depth msg]> m) depth_by_tid msgs, true, rest).
Proof.
  intros Hfd Hwf Hd. unfold drain_depth_updates. rewrite (proj2 (Z.ltb_ge fd 0)) by done.
  destruct (drain_delivers (struct_size DepthUpdate_layout) apply_depth_update _ _ depth_by_tid Hd) as [rest E].
  { clear. induction msgs; simpl; constructor; auto using depth_update_size. }
  exists rest. rewrite E. f_equal. f_equal. clear E Hd. revert depth_by_tid.
  induction Hwf as [|msg msgs Hm Hms IH]; intros; simpl; [done|].
  rewrite IH. unfold apply_depth_update. by rewrite depth_update_roundtrip.
Qed.

(** ** The windows of a thread and what the tracer believes *)

(** The windows a thread has open, the innermost last. *)
Abbreviation open_windows := (list FgraphScopeLabel).

Inductive WindowOp :=
| WOpen (func : string) (seq : Z)
| WClose.

Definition window_step (W : open_windows) (op : WindowOp) : open_windows :=
  match op with
  | WOpen func seq => W ++ [{| sl_func := func; sl_seq := seq |}]
  | WClose => take (pred (length W)) W
  end.

(** The message of an operation; its depth is the one after the operation. *)
Definition window_message (tid : Z) (W : open_windows) (op : WindowOp) : FgraphWindowUpdate :=
  let depth := Z.of_nat (length (window_step W op)) in
  match op with
  | WOpen func seq => window_enter_message tid depth func seq
  | WClose => window_exit_message tid depth
  end.

(** The threads of a process, and the messages of an interleaving of their operations. *)
Abbreviation all_windows := (gmap Z open_windows).
Definition windows_of (A : all_windows) (tid : Z) : open_windows := default [] (A !! tid).

Definition all_step (A : all_windows) (top : Z * WindowOp) : all_windows :=
  <[top.1 := window_step (windows_of A top.1) top.2]> A.

Fixpoint all_messages (A : all_windows) (ops : list (Z * WindowOp)) : list FgraphWindowUpdate :=
  match ops with
  | [] => []
  | top :: ops => window_message top.1 (windows_of A top.1) top.2 :: all_messages (all_step A top) ops
  end.

(** What the tracer must hold for a thread with the windows [W]. *)
Definition window_state_of (W : open_windows) : option FgraphWindowState :=
  if decide (W = []) then None else Some {| ws_depth := Z.of_nat (length W); ws_labels := W |}.

Definition tracks (m : window_map) (A : all_windows) : Prop :=
  forall tid, m !! tid = window_state_of (windows_of A tid).

Definition op_ok (top : Z * WindowOp) : Prop :=
  in_i 32 top.1 /\ match top.2 with WOpen func seq => fits_name func /\ in_u 32 seq | WClose => True end.

#[export] Instance op_ok_dec top : Decision (op_ok top).
Proof. unfold op_ok. destruct top.2; apply _. Defined.

Lemma window_message_wf tid W op : op_ok (tid, op) -> window_update_wf (window_message tid W op).
Proof.
  intros [Ht Hop]. simpl in *.
  assert (forall n, in_u 32 (Z.min (Z.of_nat n) u32_max)) as Hn.
  { intros n. unfold in_u, u32_max. lia. }
  assert (forall n, Forall is_byte (replicate n 0)) as Hz.
  { intros n. apply Forall_replicate. unfold is_byte. lia. }
  assert (forall n, length (replicate n 0) = n) as Hl by (intros; apply length_replicate).
  assert (in_u 32 0 /\ in_u 8 0 /\ in_u 8 1) as (H0 & H0' & H1) by (unfold in_u; lia).
  destruct op as [func seq|].
  - destruct Hop as [_ Hs].
    exact (conj Ht (conj (Hn _) (conj Hs (conj H1 (conj (conj (Hz 3%nat) eq_refl)
      (conj (set_func_bytes _) (set_func_length _))))))).
  - exact (conj Ht (conj (Hn _) (conj H0 (conj H0' (conj (conj (Hz 3%nat) eq_refl)
      (conj (Hz _) (Hl _))))))).
Qed.

Lemma window_step_length W op : (length (window_step W op) <= S (length W))%nat.
Proof. destruct op; simpl; [rewrite length_app; simpl; lia|rewrite length_take; lia]. Qed.

(** One message keeps the tracer's state in step with the thread's windows. *)
Lemma apply_message_tracks m A tid op :
  tracks m A -> op_ok (tid, op) -> Z.of_nat (length (windows_of A tid)) < u32_max ->
  tracks (apply_fgraph_window_update (window_message tid (windows_of A tid) op) m) (all_step A (tid, op)).
Proof.
  intros Ht [_ Hop] Hlen k. simpl in Hop. pose proof (Ht tid) as Htid.
  pose proof (window_step_length (windows_of A tid) op) as Hs.
  unfold all_step. cbn [fst snd]. set (W := windows_of A tid) in *.
  assert (windows_of (<[tid := window_step W op]> A) k = if decide (tid = k) then window_step W op else windows_of A k) as Hw.
  { unfold windows_of. destruct (decide (tid = k)) as [->|]; by simplify_map_eq. }
  rewrite Hw. clear Hw.
  assert (ws_labels (default default_window (m !! tid)) = W) as Hlab.
  { rewrite Htid. unfold window_state_of. by case_decide; simpl. }
  unfold apply_fgraph_window_update, window_message.
  destruct op as [func seq|].
  - unfold window_enter_message. cbn [wu_event wu_depth wu_tid wu_seq].
    rewrite Z.eqb_refl, Hlab. unfold window_step in *. rewrite length_app in *. simpl length in *.
    unfold u32_max in *. rewrite Z.min_l by lia. rewrite (proj2 (Z.eqb_neq _ 0)) by lia.
    rewrite (func_name_set_func _ func) by (done || apply Hop).
    rewrite take_ge by (unfold sat_pred; lia).
    destruct (decide (tid = k)) as [->|]; simplify_map_eq; [|apply Ht].
    unfold window_state_of. case_decide as E; [by apply (f_equal length) in E; rewrite length_app in E; simpl in E; lia|].
    by rewrite length_app.
  - unfold window_exit_message. cbn [wu_event wu_depth wu_tid].
    change (FGRAPH_WINDOW_EVENT_EXIT =? FGRAPH_WINDOW_EVENT_ENTER) with false. cbv iota.
    unfold window_step in *. rewrite length_take, Hlab in *. rewrite Nat.min_l by lia.
    unfold u32_max in *. rewrite Z.min_l by lia.
    destruct (Z.eqb_spec (Z.of_nat (pred (length W))) 0) as [E|E].
    + destruct (decide (tid = k)) as [->|]; simplify_map_eq; [|apply Ht].
      rewrite (Nat2Z.inj _ 0 E). reflexivity.
    + rewrite Nat2Z.id.
      destruct (decide (tid = k)) as [->|]; simplify_map_eq; [|apply Ht].
      unfold window_state_of. case_decide as E'; [|rewrite length_take; do 2 f_equal; lia].
      apply (f_equal length) in E'. rewrite length_take in E'. simpl in E'. lia.
Qed.

Lemma all_step_bound A top n :
  (forall tid, Z.of_nat (length (windows_of A tid)) <= n) ->
  forall tid, Z.of_nat (length (windows_of (all_step A top) tid)) <= n + 1.
Proof.
  intros H tid. pose proof (H tid). unfold all_step, windows_of in *.
  destruct (decide (top.1 = tid)) as [<-|]; simplify_map_eq; [|lia].
  pose proof (window_step_length (default [] (A !! top.1)) top.2). lia.
Qed.

Lemma apply_messages_track ops : forall m A n,
  tracks m A -> Forall op_ok ops ->
  (forall tid, Z.of_nat (length (windows_of A tid)) <= n) -> n + Z.of_nat (length ops) <= u32_max ->
  tracks (foldl (fun m b => apply_fgraph_window_update (fgraph_window_update_of_bytes b) m) m
            (map fgraph_window_update_as_bytes (all_messages A ops)))
         (foldl all_step A ops).
Proof.
  induction ops as [|[tid op] ops IH]; intros m A n Ht Hok Hn Hlen; [done|].
  apply Forall_cons_1 in Hok as [Hop Hok]. simpl length in Hlen. simpl.
  rewrite window_update_roundtrip by by apply window_message_wf.
  apply (IH _ _ (n + 1)); [|done|by apply all_step_bound|lia].
  apply apply_message_tracks; [done..|]. specialize (Hn tid). lia.
Qed.

Lemma all_messages_size A ops :
  Forall op_ok ops ->
  Forall (fun m => Z.of_nat (length m) = struct_size FgraphWindowUpdate_layout)
    (map fgraph_window_update_as_bytes (all_messages A ops)).
Proof.
  intros H. revert A. induction H as [|[tid op] ops Hop Hops IH]; intros A; simpl; [constructor|].
  apply Forall_cons_2; [|apply IH]. by apply window_update_size, window_message_wf.
Qed.

Lemma drain_tracks fd reads ops :
  0 <= fd -> Forall op_ok ops -> Z.of_nat (length ops) <= u32_max ->
  delivers reads (map fgraph_window_update_as_bytes (all_messages ∅ ops)) ->
  exists m rest,
    drain_fgraph_window_updates fd reads ∅ = (m, true, rest) /\ tracks m (foldl all_step ∅ ops).
Proof.
  intros Hfd Hok Hlen Hd. unfold drain_fgraph_window_updates. rewrite (proj2 (Z.ltb_ge fd 0)) by done.
  destruct (drain_delivers (struct_size FgraphWindowUpdate_layout)
    (fun b => apply_fgraph_window_update (fgraph_window_update_of_bytes b)) _ _ (∅ : window_map) Hd
    (all_messages_size _ _ Hok)) as [rest E].
  do 2 eexists. split; [exact E|].
  apply (apply_messages_track ops ∅ ∅ 0); [|done| |lia].
  - intros tid. reflexivity.
  - intros tid. unfold windows_of. rewrite lookup_empty. simpl. lia.
Qed.

(** C4: the window pipe.  For any interleaving of windows opened and closed by
    the traced threads, a drain that reads their messages leaves the tracer
    with exactly the windows each thread has open, in order, and names the
    innermost one as the scope of the thread's captures; a thread with none has
    no entry. *)
Theorem window_drain_tracks fd reads ops :
  0 <= fd -> Forall op_ok ops -> Z.of_nat (length ops) <= u32_max ->
  delivers reads (map fgraph_window_update_as_bytes (all_messages ∅ ops)) ->
  exists m rest,
    drain_fgraph_window_updates fd reads ∅ = (m, true, rest)
    /\ tracks m (foldl all_step ∅ ops)
    /\ forall tid, current_fgraph_scope_label tid m =
         (fun w => sl_func w +:+ fmt_u (sl_seq w)) <$> list.last (windows_of (foldl all_step ∅ ops) tid).
Proof.
  intros Hfd Hok Hlen Hd. destruct (drain_tracks fd reads ops Hfd Hok Hlen Hd) as (m & rest & E & Ht).
  exists m, rest. split; [done|]. split; [done|]. intros tid. unfold current_fgraph_scope_label.
  rewrite Ht. unfold window_state_of. case_decide as Hw; [by rewrite Hw|]. simpl.
  by destruct (list.last _).
Qed.

(** Two threads: 7 opens two windows and closes one, 8 opens one and closes it. *)
Definition example_ops : list (Z * WindowOp) :=
  [(7, WOpen "cuLaunchKernel" 1); (8, WOpen "cuInit" 1); (7, WOpen "cuMemAlloc" 3); (8, WClose); (7, WClose)].

Lemma window_drain_tracks_witness :
  exists m rest,
    drain_fgraph_window_updates 5
      (RdErr EINTR :: map (fun msg => RdBytes (fgraph_window_update_as_bytes msg)) (all_messages ∅ example_ops)
       ++ [RdErr EAGAIN]) ∅ = (m, true, rest)
    /\ tracks m (foldl all_step ∅ example_ops)
    /\ forall tid, current_fgraph_scope_label tid m =
         (fun w => sl_func w +:+ fmt_u (sl_seq w)) <$> list.last (windows_of (foldl all_step ∅ example_ops) tid).
Proof.
  apply (window_drain_tracks 5 _ example_ops); [lia| |vm_compute; discriminate|].
  - apply (bool_decide_unpack _). vm_compute. exact I.
  - apply delivers_eintr. repeat apply delivers_msg. apply delivers_end. discriminate.
Defined.

Lemma depth_drain_keeps_last_witness :
  exists rest,
    drain_depth_updates 4
      [RdBytes (depth_update_as_bytes {| du_tid := 7; du_depth := 1 |}); RdErr EINTR;
       RdBytes (depth_update_as_bytes {| du_tid := 7; du_depth := 2 |}); RdErr EAGAIN] ∅
    = (foldl (fun m msg => <[du_tid msg := du_depth msg]> m) (∅ : depth_map)
         [{| du_tid := 7; du_depth := 1 |}; {| du_tid := 7; du_depth := 2 |}], true, rest).
Proof.
  apply depth_drain_keeps_last; [lia| |].
  - apply (bool_decide_unpack _). vm_compute. exact I.
  - apply delivers_msg, delivers_eintr, delivers_msg, delivers_end. discriminate.
Defined.

(** ** Lost messages

    The pipe is non-blocking on the writer's side: when it is full, messages
    are dropped.  One later message of the thread is enough to agree again on
    its depth, and on the label in force if it opens a window. *)

(** After any message, whatever was lost before it, the tracer has the
    thread at the message's depth (no entry at depth 0), holds no more labels
    than windows, attributes to an opened window its own label, and has left
    the other threads alone. *)
Theorem window_message_resyncs msg m :
  in_u 32 (wu_depth msg) ->
  let m' := apply_fgraph_window_update msg m in
  (m' !! wu_tid msg = None <-> wu_depth msg = 0)
  /\ (forall s, m' !! wu_tid msg = Some s ->
        ws_depth s = wu_depth msg /\ Z.of_nat (length (ws_labels s)) <= ws_depth s)
  /\ (wu_event msg = FGRAPH_WINDOW_EVENT_ENTER -> wu_depth msg <> 0 ->
        current_fgraph_scope_label (wu_tid msg) m' = Some (func_name msg +:+ fmt_u (wu_seq msg)))
  /\ (forall tid, tid <> wu_tid msg -> m' !! tid = m !! tid).
Proof.
  intros [Hd _] m'. unfold m', apply_fgraph_window_update. cbv zeta.
  destruct (Z.eqb_spec (wu_event msg) FGRAPH_WINDOW_EVENT_ENTER) as [E|E],
    (Z.eqb_spec (wu_depth msg) 0) as [E0|E0]; simplify_map_eq.
  - repeat split; [done|done|..]; try done; intros; by simplify_map_eq.
  - split; [by split|]. split; [|split].
    + intros s [= <-]. split; [done|]. simpl. rewrite length_app, length_take.
      unfold sat_pred. simpl. lia.
    + intros _ _. unfold current_fgraph_scope_label. rewrite lookup_insert_eq. simpl. by rewrite list.last_snoc.
    + intros tid Ht. by simplify_map_eq.
  - repeat split; [done|done|..]; try done; intros; by simplify_map_eq.
  - split; [by split|]. split; [|split; [done|]].
    + intros s [= <-]. split; [done|]. simpl. rewrite length_take. lia.
    + intros tid Ht. by simplify_map_eq.
Qed.

Lemma window_message_resyncs_witness :
  let m := apply_fgraph_window_update (window_enter_message 7 3 "cuMemcpy" 9)
             (<[7 := {| ws_depth := 1; ws_labels := [{| sl_func := "cuInit"; sl_seq := 1 |}] |}]> ∅) in
  current_fgraph_scope_label 7 m = Some "cuMemcpy9"
  /\ forall s, m !! 7 = Some s -> ws_depth s = 3 /\ Z.of_nat (length (ws_labels s)) <= ws_depth s.
Proof.
  split; [vm_compute; reflexivity|].
  refine (proj1 (proj2 (window_message_resyncs (window_enter_message 7 3 "cuMemcpy" 9) _ _))).
  vm_compute. split; [discriminate|reflexivity].
Defined.
