(* ===== verification/Hook.v ===== *)
(** * A hooked call: [src/src/hook/mod.rs]

    [TraceScope::enter_lazy] and [TraceScope::finish] around every hooked
    function, on top of the re-entrancy guard ([Reentry]), the call graph
    ([Graph]) and the messages to the tracer ([Window]).  What a hook prints
    and publishes is a list of events in the order of the calls.  The bodies
    of [ensure_started] (the spawn of the tracer) and of the real function are
    not part of the thread's state. *)
From S2P Require Import Prelude RustStr Config Reentry Graph Layout Window.

(** The thread-locals of [reentry.rs], [graph.rs] and [hook/mod.rs], and the
    process-wide [WINDOW_SEQ]. *)
Record HookState := {
  bypass : tls_depth;
  stack : Stack;
  win_depth : Z;
  win_seq : gmap string Z
}.

Definition set_bypass (b : tls_depth) (st : HookState) : HookState :=
  {| bypass := b; stack := stack st; win_depth := win_depth st; win_seq := win_seq st |}.
Definition set_stack (s : Stack) (st : HookState) : HookState :=
  {| bypass := bypass st; stack := s; win_depth := win_depth st; win_seq := win_seq st |}.

Inductive HookEvent :=
| GraphEv (e : GraphEvent)
| WindowEv (msg : FgraphWindowUpdate).

Record TraceScope := { span : bool; fgraph_window_matched : bool }.

Definition next_fgraph_window_seq (func : string) (seqs : gmap string Z) : Z * gmap string Z :=
  let next := sat_succ u32_max (default 0 (seqs !! func)) in
  (next, <[func := next]> seqs).

Section Hook.
Context (cfg : Config) (internal_tracer : bool) (tid : Z).

(** [publish_fgraph_window_update] up to its write. *)
Definition publish_window (msg : FgraphWindowUpdate) : list HookEvent :=
  if internal_tracer || negb (mask_syscall (trace cfg)) || negb (fgraph_enabled cfg) then []
  else [WindowEv msg].

Definition enter_fgraph_window_if_matched (func : string) (st : HookState)
    : bool * list HookEvent * HookState :=
  if negb (fgraph_enabled cfg) || negb (fgraph_match cfg func) then (false, [], st)
  else
    let '(seq, seqs) := next_fgraph_window_seq func (win_seq st) in
    let depth := sat_succ u64_max (win_depth st) in
    (true, publish_window (window_enter_message tid depth func seq),
     {| bypass := bypass st; stack := stack st; win_depth := depth; win_seq := seqs |}).

Definition exit_fgraph_window_if_needed (matched : bool) (st : HookState)
    : list HookEvent * HookState :=
  if negb matched then ([], st)
  else
    let depth := sat_pred (win_depth st) in
    (publish_window (window_exit_message tid depth),
     {| bypass := bypass st; stack := stack st; win_depth := depth; win_seq := win_seq st |}).

(** [build_args] may call hooked functions itself: it runs on the state. *)
Definition enter_lazy (domain : TraceDomain) (func : string)
    (build_args : HookState -> string * list HookEvent * HookState)
    (now now_ns : Z) (st : HookState) : TraceScope * list HookEvent * HookState :=
  if internal_tracer then ({| span := false; fgraph_window_matched := false |}, [], st)
  else
    let blocked := hooks_blocked (bypass st) in
    let '(matched, ev1, st) :=
      if blocked then (false, [], st) else enter_fgraph_window_if_matched func st in
    if negb (trace_enabled cfg domain) || blocked then
      ({| span := false; fgraph_window_matched := matched |}, ev1, st)
    else
      let '(guard, b) := guard_enter (bypass st) in
      let '(args, ev2, st) := build_args (set_bypass b st) in
      let '(ev3, s) := enter cfg tid func args now now_ns (stack st) in
      ({| span := true; fgraph_window_matched := matched |},
       ev1 ++ ev2 ++ map GraphEv ev3,
       set_bypass (guard_drop guard (bypass st)) (set_stack s st)).

Definition finish (scope : TraceScope) (ret : string) (now : Z) (st : HookState)
    : list HookEvent * HookState :=
  let '(ev1, st) := exit_fgraph_window_if_needed (fgraph_window_matched scope) st in
  if span scope then
    let '(guard, b) := guard_enter (bypass st) in
    let '(ev2, s) := exit cfg tid ret now (stack st) in
    (ev1 ++ map GraphEv ev2, set_bypass (guard_drop guard b) (set_stack s st))
  else (ev1, st).

(** ** A hooked call, the calls its argument formatting makes and those its body makes *)

#[warnings="-register-all"]
Inductive HookCall :=
| MkHook (domain : TraceDomain) (func args ret : string) (t_in ts_in t_out : Z)
    (arg_calls children : list HookCall).

Fixpoint run_hook (c : HookCall) (st : HookState) : list HookEvent * HookState :=
  match c with
  | MkHook domain func args ret t_in ts_in t_out arg_calls children =>
    let run_list :=
      (fix run_list (cs : list HookCall) (st : HookState) : list HookEvent * HookState :=
         match cs with
         | [] => ([], st)
         | c :: cs =>
           let '(ev, st) := run_hook c st in
           let '(evs, st) := run_list cs st in (ev ++ evs, st)
         end) in
    let '(scope, ev1, st) :=
      enter_lazy domain func
        (fun st => let '(ev, st) := run_list arg_calls st in (args, ev, st)) t_in ts_in st in
    let '(ev2, st) := run_list children st in
    let '(ev3, st) := finish scope ret t_out st in
    (ev1 ++ ev2 ++ ev3, st)
  end.

Fixpoint run_hooks (cs : list HookCall) (st : HookState) : list HookEvent * HookState :=
  match cs with
  | [] => ([], st)
  | c :: cs =>
    let '(ev, st) := run_hook c st in
    let '(evs, st) := run_hooks cs st in (ev ++ evs, st)
  end.

Lemma run_hook_unfold domain func args ret t_in ts_in t_out arg_calls children st :
  run_hook (MkHook domain func args ret t_in ts_in t_out arg_calls children) st =
  let '(scope, ev1, st) :=
    enter_lazy domain func (fun st => let '(ev, st) := run_hooks arg_calls st in (args, ev, st)) t_in ts_in st in
  let '(ev2, st) := run_hooks children st in
  let '(ev3, st) := finish scope ret t_out st in
  (ev1 ++ ev2 ++ ev3, st).
Proof. reflexivity. Qed.

Lemma HookCall_rect_list (P : HookCall -> Prop) :
  (forall domain func args ret t_in ts_in t_out arg_calls children,
     Forall P arg_calls -> Forall P children ->
     P (MkHook domain func args ret t_in ts_in t_out arg_calls children)) ->
  forall c, P c.
Proof.
  intros H. fix IH 1. intros [d f a r t1 t2 t3 ac cs]. apply H.
  - induction ac as [|c ac' IHac]; constructor; [apply IH|apply IHac].
  - induction cs as [|c cs' IHcs]; constructor; [apply IH|apply IHcs].
Qed.

(** ** Specification: the calls that are printed and the windows that are opened *)

(** The calls of enabled domains; a disabled call gives way to those inside it. *)
Fixpoint enabled_calls (c : HookCall) : list Call :=
  match c with
  | MkHook domain func args ret t_in ts_in t_out _ children =>
    let inside := concat (map enabled_calls children) in
    if trace_enabled cfg domain then [MkCall func args ret t_in ts_in t_out inside] else inside
  end.

(** The windows that the calls open and close, numbered per function. *)
Definition opens_window (func : string) : bool := fgraph_enabled cfg && fgraph_match cfg func.

Fixpoint window_ops (c : HookCall) (seqs : gmap string Z) : list WindowOp * gmap string Z :=
  match c with
  | MkHook _ func _ _ _ _ _ _ children =>
    let go_list :=
      (fix go_list (cs : list HookCall) (seqs : gmap string Z) : list WindowOp * gmap string Z :=
         match cs with
         | [] => ([], seqs)
         | c :: cs => let '(ops, seqs) := window_ops c seqs in
                      let '(ops', seqs) := go_list cs seqs in (ops ++ ops', seqs)
         end) in
    if opens_window func then
      let '(seq, seqs) := next_fgraph_window_seq func seqs in
      let '(ops, seqs) := go_list children seqs in
      (WOpen func seq :: ops ++ [WClose], seqs)
    else go_list children seqs
  end.

Fixpoint windows_ops (cs : list HookCall) (seqs : gmap string Z) : list WindowOp * gmap string Z :=
  match cs with
  | [] => ([], seqs)
  | c :: cs => let '(ops, seqs) := window_ops c seqs in
               let '(ops', seqs) := windows_ops cs seqs in (ops ++ ops', seqs)
  end.

Definition graph_events (evs : list HookEvent) : list GraphEvent :=
  evs ≫= (fun e => match e with GraphEv g => [g] | WindowEv _ => [] end).
Definition window_messages (evs : list HookEvent) : list FgraphWindowUpdate :=
  evs ≫= (fun e => match e with GraphEv _ => [] | WindowEv m => [m] end).

(** The messages of a thread's operations. *)
Fixpoint messages (W : open_windows) (ops : list WindowOp) : list FgraphWindowUpdate :=
  match ops with
  | [] => []
  | op :: ops => window_message tid W op :: messages (window_step W op) ops
  end.

(** The depth of the nesting of calls. *)
Fixpoint nesting (c : HookCall) : nat :=
  match c with
  | MkHook _ _ _ _ _ _ _ _ children => S (list_max (map nesting children))
  end.

(** ** Proof *)

Definition forallP_blocked (c : HookCall) : Prop :=
  forall st, hooks_blocked (bypass st) = true -> run_hook c st = ([], st).

Lemma run_hooks_blocked cs :
  Forall forallP_blocked cs -> forall st, hooks_blocked (bypass st) = true -> run_hooks cs st = ([], st).
Proof.
  induction 1 as [|c cs Hc Hcs IH]; intros st Hst; simpl; [done|]. by rewrite Hc, IH.
Qed.

(** While a guard is held, a hooked call leaves no trace. *)
Lemma run_hook_blocked c st : hooks_blocked (bypass st) = true -> run_hook c st = ([], st).
Proof.
  revert st. induction c as [d f a r t1 t2 t3 ac cs _ IH] using HookCall_rect_list. intros st Hst.
  rewrite run_hook_unfold. unfold enter_lazy. rewrite Hst, orb_true_r.
  destruct internal_tracer; cbv zeta; rewrite (run_hooks_blocked cs IH st Hst); reflexivity.
Qed.

Lemma run_hooks_blocked_all cs st : hooks_blocked (bypass st) = true -> run_hooks cs st = ([], st).
Proof. apply run_hooks_blocked, Forall_true. exact run_hook_blocked. Qed.

Lemma graph_events_app e e' : graph_events (e ++ e') = graph_events e ++ graph_events e'.
Proof. apply bind_app. Qed.
Lemma window_messages_app e e' : window_messages (e ++ e') = window_messages e ++ window_messages e'.
Proof. apply bind_app. Qed.
Lemma graph_events_graph l : graph_events (map GraphEv l) = l.
Proof. induction l; simpl; [done|]. by f_equal. Qed.
Lemma window_messages_graph l : window_messages (map GraphEv l) = [].
Proof. induction l; simpl; auto. Qed.

Lemma messages_app W ops ops' :
  messages W (ops ++ ops') = messages W ops ++ messages (foldl window_step W ops) ops'.
Proof. revert W. induction ops as [|op ops IH]; intros W; simpl; [done|]. by rewrite IH. Qed.

Lemma run_calls_app cs cs' st :
  run_calls cfg tid (cs ++ cs') st =
  ((run_calls cfg tid cs st).1 ++ (run_calls cfg tid cs' (run_calls cfg tid cs st).2).1,
   (run_calls cfg tid cs' (run_calls cfg tid cs st).2).2).
Proof.
  revert st. induction cs as [|c cs IH]; intros st; simpl; [by destruct (run_calls _ _ cs' st)|].
  destruct (run_call cfg tid c st) as [ev st1]. rewrite IH.
  destruct (run_calls cfg tid cs st1) as [ev2 st2]. simpl. by rewrite app_assoc.
Qed.

(** What running hooks from [st], with the windows [W] open, must amount to:
    the graph events of [calls] and the messages of [ops]. *)
Record performs (st st' : HookState) (evs : list HookEvent) (W : open_windows)
    (calls : list Call) (ops : list WindowOp) (seqs : gmap string Z) : Prop := {
  perf_bypass : bypass st' = Some 0;
  perf_depth : win_depth st' = win_depth st;
  perf_seq : win_seq st' = seqs;
  perf_graph : run_calls cfg tid calls (stack st) = (graph_events evs, stack st');
  perf_messages : window_messages evs = if mask_syscall (trace cfg) then messages W ops else [];
  perf_windows : foldl window_step W ops = W
}.

Definition run_hook_ok (c : HookCall) : Prop := forall st W,
  bypass st = Some 0 -> win_depth st = Z.of_nat (length W) ->
  Z.of_nat (length W + nesting c) <= u64_max ->
  exists evs st', run_hook c st = (evs, st')
  /\ performs st st' evs W (enabled_calls c) (window_ops c (win_seq st)).1 (window_ops c (win_seq st)).2.

Lemma run_hooks_ok cs : Forall run_hook_ok cs -> forall st W,
  bypass st = Some 0 -> win_depth st = Z.of_nat (length W) ->
  Z.of_nat (length W + list_max (map nesting cs)) <= u64_max ->
  exists evs st', run_hooks cs st = (evs, st')
  /\ performs st st' evs W (concat (map enabled_calls cs))
       (windows_ops cs (win_seq st)).1 (windows_ops cs (win_seq st)).2.
Proof.
  induction 1 as [|c cs Hc Hcs IH]; intros st W Hb Hd Hn.
  - exists [], st. split; [done|]. split; auto. by destruct (mask_syscall _).
  - cbn [map list_max fold_right] in Hn. unfold list_max in Hn. cbn [fold_right] in Hn.
    change (fold_right Nat.max 0%nat (map nesting cs)) with (list_max (map nesting cs)) in Hn.
    destruct (Hc st W Hb Hd) as (ev & st1 & E1 & [B1 D1 S1 G1 M1 F1]); [lia|].
    destruct (IH st1 W B1) as (evs & st2 & E2 & [B2 D2 S2 G2 M2 F2]); [congruence|lia|].
    exists (ev ++ evs), st2. cbn [run_hooks windows_ops map concat]. rewrite E1, E2. split; [done|].
    rewrite S1 in *. destruct (window_ops c (win_seq st)) as [ops seqs]. simpl fst in *. simpl snd in *.
    destruct (windows_ops cs seqs) as [ops' seqs']. simpl in *. split; try congruence.
    + rewrite run_calls_app, G1. simpl. by rewrite G2, graph_events_app.
    + rewrite window_messages_app, M1, M2, messages_app, F1. by destruct (mask_syscall _).
    + by rewrite foldl_app, F1.
Qed.

Lemma window_ops_unfold d func a r t1 t2 t3 ac children seqs :
  window_ops (MkHook d func a r t1 t2 t3 ac children) seqs =
  if opens_window func then
    let '(seq, seqs) := next_fgraph_window_seq func seqs in
    let '(ops, seqs) := windows_ops children seqs in (WOpen func seq :: ops ++ [WClose], seqs)
  else windows_ops children seqs.
Proof. reflexivity. Qed.

Lemma window_step_close W w : window_step (W ++ [w]) WClose = W.
Proof.
  unfold window_step. rewrite length_app. simpl length.
  replace (pred (length W + 1)) with (length W) by lia. by rewrite take_app_length.
Qed.

(** The windows inside a call of [func]. *)
Definition inner_windows (func : string) (seqs : gmap string Z) (W : open_windows) : open_windows :=
  if opens_window func then W ++ [{| sl_func := func; sl_seq := (next_fgraph_window_seq func seqs).1 |}] else W.

Definition inner_seqs (func : string) (seqs : gmap string Z) : gmap string Z :=
  if opens_window func then (next_fgraph_window_seq func seqs).2 else seqs.

Definition published (msgs : list FgraphWindowUpdate) : list FgraphWindowUpdate :=
  if mask_syscall (trace cfg) then msgs else [].

Lemma window_messages_publish msg :
  internal_tracer = false -> fgraph_enabled cfg = true ->
  window_messages (publish_window msg) = published [msg] /\ graph_events (publish_window msg) = [].
Proof.
  intros Hi He. unfold publish_window, published. rewrite Hi, He. by destruct (mask_syscall _).
Qed.

Lemma inner_windows_length func seqs W : (length (inner_windows func seqs W) <= S (length W))%nat.
Proof. unfold inner_windows. destruct (opens_window func); rewrite ?length_app; simpl; lia. Qed.

(** Entering the window of a call. *)
Lemma window_enter_spec func st W :
  internal_tracer = false -> win_depth st = Z.of_nat (length W) -> Z.of_nat (S (length W)) <= u64_max ->
  exists ev, enter_fgraph_window_if_matched func st =
    (opens_window func, ev,
     {| bypass := bypass st; stack := stack st;
        win_depth := Z.of_nat (length (inner_windows func (win_seq st) W));
        win_seq := inner_seqs func (win_seq st) |})
  /\ graph_events ev = []
  /\ window_messages ev = published
       (if opens_window func
        then [window_message tid W (WOpen func (next_fgraph_window_seq func (win_seq st)).1)] else []).
Proof.
  intros Hint Hd Hmax. unfold enter_fgraph_window_if_matched, inner_windows, inner_seqs, opens_window, published.
  destruct (fgraph_enabled cfg) eqn:Hen; [destruct (fgraph_match cfg func) eqn:Hm|]; simpl.
  2-3: exists []; rewrite <- Hd; destruct st; repeat split; by destruct (mask_syscall _).
  destruct (window_messages_publish
    (window_enter_message tid (sat_succ u64_max (win_depth st)) func (sat_succ u32_max (default 0 (win_seq st !! func)))) Hint Hen)
    as [Hm1 Hm2].
  assert (sat_succ u64_max (win_depth st) = Z.of_nat (length (W ++ [{| sl_func := func; sl_seq := sat_succ u32_max (default 0 (win_seq st !! func)) |}]))) as Hd1.
  { unfold sat_succ. rewrite length_app. simpl. lia. }
  eexists. split; [by rewrite <- Hd1|]. split; [done|]. rewrite Hm1, Hd1. done.
Qed.

(** Leaving it. *)
Lemma window_exit_spec func seqs st W :
  internal_tracer = false -> win_depth st = Z.of_nat (length (inner_windows func seqs W)) ->
  exists ev, exit_fgraph_window_if_needed (opens_window func) st =
    (ev, {| bypass := bypass st; stack := stack st; win_depth := Z.of_nat (length W); win_seq := win_seq st |})
  /\ graph_events ev = []
  /\ window_messages ev = published
       (if opens_window func then [window_message tid (inner_windows func seqs W) WClose] else []).
Proof.
  intros Hint Hd. unfold exit_fgraph_window_if_needed, inner_windows in *.
  destruct (opens_window func) eqn:Ho; cbn [negb]; cbv iota zeta.
  - unfold opens_window in Ho. apply andb_true_iff in Ho as [Hen _].
    assert (sat_pred (win_depth st) = Z.of_nat (length W)) as ->.
    { rewrite Hd, length_app. unfold sat_pred. simpl. lia. }
    destruct (window_messages_publish (window_exit_message tid (Z.of_nat (length W))) Hint Hen) as [Hm1 Hm2].
    eexists. split; [done|]. split; [done|]. rewrite Hm1. unfold window_message. by rewrite window_step_close.
  - exists []. rewrite <- Hd. destruct st. repeat split. unfold published. by destruct (mask_syscall _).
Qed.

(** The operations of a call around those of its body. *)
Lemma scope_ops func seqs W ops :
  foldl window_step (inner_windows func seqs W) ops = inner_windows func seqs W ->
  let all := if opens_window func then WOpen func (next_fgraph_window_seq func seqs).1 :: ops ++ [WClose] else ops in
  foldl window_step W all = W
  /\ published (messages W all) =
     published (if opens_window func then [window_message tid W (WOpen func (next_fgraph_window_seq func seqs).1)] else [])
     ++ published (messages (inner_windows func seqs W) ops)
     ++ published (if opens_window func then [window_message tid (inner_windows func seqs W) WClose] else []).
Proof.
  unfold inner_windows, published. destruct (opens_window func); simpl; intros Hops.
  - split; [by rewrite foldl_app, Hops; simpl; apply window_step_close|].
    destruct (mask_syscall _); [|done]. simpl. by rewrite messages_app, Hops.
  - split; [done|]. destruct (mask_syscall _); [|done]. simpl. by rewrite app_nil_r.
Qed.

Lemma window_ops_node d func a r t1 t2 t3 ac children seqs :
  window_ops (MkHook d func a r t1 t2 t3 ac children) seqs =
  let '(ops, seqs') := windows_ops children (inner_seqs func seqs) in
  (if opens_window func then WOpen func (next_fgraph_window_seq func seqs).1 :: ops ++ [WClose] else ops, seqs').
Proof.
  rewrite window_ops_unfold. unfold inner_seqs.
  destruct (opens_window func), (next_fgraph_window_seq func seqs); simpl; by destruct (windows_ops children _).
Qed.

Lemma run_hook_spec c : internal_tracer = false -> run_hook_ok c.
Proof.
  intros Hint. induction c as [d func a r t1 t2 t3 ac cs _ IH] using HookCall_rect_list.
  intros st W Hb Hd Hn. cbn [nesting] in Hn. rewrite run_hook_unfold, window_ops_node.
  destruct (window_enter_spec func st W Hint Hd ltac:(lia)) as (ev1 & E1 & G1 & M1).
  pose proof (inner_windows_length func (win_seq st) W) as HlenW.
  pose proof (fun st' => window_exit_spec func (win_seq st) st' W Hint) as Hexit.
  pose proof (scope_ops func (win_seq st) W) as Hops.
  set (W1 := inner_windows func (win_seq st) W) in *.
  set (seqs1 := inner_seqs func (win_seq st)) in *.
  pose proof (run_hooks_ok cs IH) as Hbody.
  unfold enter_lazy. rewrite Hint, Hb, E1, Hb. change (hooks_blocked (Some 0)) with false.
  rewrite orb_false_r. cbv iota zeta. cbn [enabled_calls bypass stack win_depth win_seq].
  destruct (trace_enabled cfg d) eqn:Ht; simpl negb; cbv iota.
  - change (guard_enter (Some 0)) with ({| active := true |}, Some 1). cbv iota beta.
    rewrite run_hooks_blocked_all by done. cbv iota beta. cbn [stack set_bypass].
    destruct (enter cfg tid func a t1 t2 (stack st)) as [evg sg] eqn:Eg.
    destruct (Hbody (set_bypass (guard_drop {| active := true |} (Some 1)) (set_stack sg (set_bypass (Some 1)
      {| bypass := Some 0; stack := stack st; win_depth := Z.of_nat (length W1); win_seq := seqs1 |}))) W1)
      as (ev2 & st2 & E2 & [B2 D2 S2 G2 M2 F2]); [done|done|lia|].
    cbn [set_bypass set_stack bypass stack win_depth win_seq] in *. rewrite E2.
    destruct (windows_ops cs seqs1) as [ops seqs2]. cbn [fst snd] in *.
    destruct (Hops ops F2) as [HF HM]. destruct (Hexit st2 D2) as (ev3 & E3 & G3 & M3).
    unfold finish. cbn [fgraph_window_matched span]. rewrite E3, B2. cbn [bypass stack].
    change (guard_enter (Some 0)) with ({| active := true |}, Some 1). cbv iota beta.
    destruct (exit cfg tid r t3 (stack st2)) as [evx sx] eqn:Ex.
    do 2 eexists. split; [reflexivity|]. split; cbn [set_bypass set_stack bypass stack win_depth win_seq]; auto.
    + cbn [run_calls]. rewrite run_call_unfold, Eg. rewrite G2, Ex.
      rewrite !graph_events_app, !graph_events_graph, G1, G3. simpl. by rewrite !app_nil_r.
    + rewrite !window_messages_app, !window_messages_graph, M1, M2, M3. simpl.
      rewrite !app_nil_r. symmetry. exact HM.
  - destruct (Hbody {| bypass := Some 0; stack := stack st; win_depth := Z.of_nat (length W1); win_seq := seqs1 |} W1)
      as (ev2 & st2 & E2 & [B2 D2 S2 G2 M2 F2]); [done|done|simpl; lia|].
    cbn [bypass stack win_depth win_seq] in *. rewrite E2.
    destruct (windows_ops cs seqs1) as [ops seqs2]. cbn [fst snd] in *.
    destruct (Hops ops F2) as [HF HM]. destruct (Hexit st2 D2) as (ev3 & E3 & G3 & M3).
    unfold finish. cbn [fgraph_window_matched span]. rewrite E3.
    do 2 eexists. split; [reflexivity|]. split; cbn [bypass stack win_depth win_seq]; auto.
    + by rewrite G2, !graph_events_app, G1, G3, app_nil_r.
    + rewrite !window_messages_app, M1, M2, M3. symmetry. exact HM.
Qed.

(** C5: a thread's hooked calls.  However the calls nest, whatever the argument
    formatting calls and whichever domains are enabled, when they have returned
    the thread is as it was (hooks unblocked, call stack and windows empty), the
    lines written are the rendering of the enabled calls, and the messages sent
    are those of the windows of the matching calls, opened and closed in
    nesting order. *)
Theorem hooked_calls_trace cs st :
  internal_tracer = false -> bypass st = Some 0 -> stack st = Some [] -> win_depth st = 0 ->
  Z.of_nat (list_max (map nesting cs)) <= u64_max ->
  exists evs st', run_hooks cs st = (evs, st')
  /\ bypass st' = Some 0 /\ stack st' = Some [] /\ win_depth st' = 0
  /\ logs (graph_events evs) = concat (map (render cfg tid 0) (concat (map enabled_calls cs)))
  /\ window_messages evs = published (messages [] (windows_ops cs (win_seq st)).1)
  /\ foldl window_step [] (windows_ops cs (win_seq st)).1 = [].
Proof.
  intros Hint Hb Hs Hd Hn.
  destruct (run_hooks_ok cs) with (st := st) (W := @nil FgraphScopeLabel)
    as (evs & st' & E & [B1 D1 S1 G1 M1 F1]); [|done|done|done|].
  { apply Forall_true. intros c. by apply run_hook_spec. }
  exists evs, st'. rewrite Hs in G1.
  destruct (run_calls_spec cfg tid (concat (map enabled_calls cs))
    (Forall_true _ _ (run_call_spec cfg tid)) []) as (ev & Hr & Hl).
  rewrite Hr in G1. injection G1 as Hg Hst. subst ev.
  split; [done|]. split; [done|]. split; [by destruct (decide _)|]. split; [congruence|].
  split; [|by split]. rewrite Hl. by destruct (decide _).
Qed.

(** ** The tracer's view of a thread *)

Lemma all_messages_thread ops : forall A,
  all_messages A (map (pair tid) ops) = messages (windows_of A tid) ops.
Proof.
  induction ops as [|op ops IH]; intros A; simpl; [done|]. f_equal. rewrite IH. f_equal.
  unfold all_step, windows_of at 1. cbn [fst snd]. by rewrite lookup_insert_eq.
Qed.

Lemma foldl_all_step ops : forall A,
  windows_of (foldl all_step A (map (pair tid) ops)) tid = foldl window_step (windows_of A tid) ops.
Proof.
  induction ops as [|op ops IH]; intros A; simpl; [done|]. rewrite IH. f_equal.
  unfold all_step, windows_of at 1. cbn [fst snd]. by rewrite lookup_insert_eq.
Qed.

Definition seqs_ok (seqs : gmap string Z) : Prop := map_Forall (fun _ n => 0 <= n) seqs.

Lemma next_seq_ok func seqs :
  seqs_ok seqs -> in_u 32 (next_fgraph_window_seq func seqs).1 /\ seqs_ok (next_fgraph_window_seq func seqs).2.
Proof.
  intros H. unfold next_fgraph_window_seq, sat_succ, in_u, u32_max. simpl.
  assert (0 <= default 0 (seqs !! func)) as Hd by (destruct (seqs !! func) eqn:E; [by apply H in E|done]).
  split; [lia|]. apply map_Forall_insert_2; [lia|done].
Qed.

(** Every operation of a call fits the messages. *)
Lemma window_ops_ok c : (forall f, f ∈ fgraph_funcs cfg -> fits_name f) -> in_i 32 tid ->
  forall seqs, seqs_ok seqs ->
  Forall op_ok (map (pair tid) (window_ops c seqs).1) /\ seqs_ok (window_ops c seqs).2.
Proof.
  intros Hnames Htid. induction c as [d func a r t1 t2 t3 ac cs _ IH] using HookCall_rect_list. intros seqs Hseqs.
  assert (forall seqs, seqs_ok seqs ->
    Forall op_ok (map (pair tid) (windows_ops cs seqs).1) /\ seqs_ok (windows_ops cs seqs).2) as Hlist.
  { clear Hseqs seqs. induction IH as [|c cs Hc Hcs IHcs]; intros seqs Hseqs; [by split; [constructor|]|].
    simpl. destruct (Hc seqs Hseqs) as [H1 H2]. destruct (window_ops c seqs) as [ops seqs1].
    destruct (IHcs seqs1 H2) as [H3 H4]. destruct (windows_ops cs seqs1). simpl in *.
    split; [|done]. rewrite map_app. by apply Forall_app_2. }
  rewrite window_ops_node. unfold inner_seqs.
  destruct (opens_window func) eqn:Ho.
  - destruct (next_seq_ok func seqs Hseqs) as [Hq Hqs]. destruct (Hlist _ Hqs) as [H1 H2].
    destruct (windows_ops cs _) as [ops seqs2]. cbn [fst snd] in *. split; [|done].
    apply andb_true_iff in Ho as [_ Ho]. unfold fgraph_match in Ho. apply bool_decide_eq_true in Ho.
    cbn [map]. apply Forall_cons_2; [by split; [|split; [apply Hnames|]]|].
    rewrite map_app. apply Forall_app_2; [done|]. apply Forall_cons_2; [by split|constructor].
  - destruct (Hlist _ Hseqs). by destruct (windows_ops cs seqs).
Qed.

(** C21: the windows end to end.  A hooked call sends messages that, drained by
    the tracer, leave it with no window for the thread, so that the thread's
    later system calls are not captured. *)
Theorem hooked_call_leaves_no_window c st fd reads :
  internal_tracer = false -> mask_syscall (trace cfg) = true ->
  (forall f, f ∈ fgraph_funcs cfg -> fits_name f) -> in_i 32 tid -> seqs_ok (win_seq st) ->
  bypass st = Some 0 -> win_depth st = 0 -> Z.of_nat (nesting c) <= u64_max ->
  Z.of_nat (length (window_ops c (win_seq st)).1) <= u32_max -> 0 <= fd ->
  delivers reads (map fgraph_window_update_as_bytes (window_messages (run_hook c st).1)) ->
  exists m rest, drain_fgraph_window_updates fd reads ∅ = (m, true, rest) /\ m !! tid = None.
Proof.
  intros Hint Hsys Hnames Htid Hseqs Hb Hd Hn Hlen Hfd Hdel.
  destruct (run_hook_spec c Hint st [] Hb Hd Hn) as (evs & st' & E & [_ _ _ _ M F]).
  rewrite E in Hdel. cbn [fst] in Hdel. rewrite M, Hsys in Hdel.
  set (ops := (window_ops c (win_seq st)).1) in *.
  destruct (drain_tracks fd reads (map (pair tid) ops)) as (m & rest & Hdr & Ht); [done| | | |].
  - by apply window_ops_ok.
  - by rewrite length_map.
  - by rewrite all_messages_thread.
  - exists m, rest. split; [done|]. rewrite (Ht tid), foldl_all_step.
    change (windows_of ∅ tid) with (@nil FgraphScopeLabel). by rewrite F.
Qed.

End Hook.

(** ** An example: a launch that formats an argument through another hooked
    function and calls two functions of the driver *)

Definition example_cfg : Config := {|
  output := OutputMode_File; path := DEFAULT_PATH; trace := TraceMask_all;
  ioctl_decode := Decode_Full; max_blob := DEFAULT_MAX_BLOB; time_unit := TimeUnit_Us;
  left_meta := LeftMeta_Off; fgraph_funcs := {["cuInit"]}; fgraph_buffer_kb := DEFAULT_FGRAPH_BUFFER_KB
|}.

Definition example_call : HookCall :=
  MkHook Domain_Cudart "cudaLaunchKernel" "f" "0" 0 0 90
    [MkHook Domain_Driver "cuInit" "0" "0" 1 1 2 [] []]
    [MkHook Domain_Driver "cuInit" "0" "0" 10 10 20 [] [];
     MkHook Domain_Driver "cuLaunchKernel" "f" "0" 30 30 80 [] []].

Definition fresh_thread : HookState :=
  {| bypass := Some 0; stack := Some []; win_depth := 0; win_seq := ∅ |}.

Lemma hooked_calls_trace_witness :
  exists evs st', run_hooks example_cfg false 7 [example_call] fresh_thread = (evs, st')
  /\ bypass st' = Some 0 /\ stack st' = Some [] /\ win_depth st' = 0
  /\ logs (graph_events evs)
     = concat (map (render example_cfg 7 0) (concat (map (enabled_calls example_cfg) [example_call])))
  /\ window_messages evs
     = published example_cfg (messages 7 [] (windows_ops example_cfg [example_call] (win_seq fresh_thread)).1)
  /\ foldl window_step [] (windows_ops example_cfg [example_call] (win_seq fresh_thread)).1 = [].
Proof. apply hooked_calls_trace; try reflexivity. vm_compute. discriminate. Defined.

Lemma hooked_call_leaves_no_window_witness :
  exists m rest,
    drain_fgraph_window_updates 9
      (map (fun msg => RdBytes (fgraph_window_update_as_bytes msg))
           (window_messages (run_hook example_cfg false 7 example_call fresh_thread).1) ++ [RdErr EAGAIN]) ∅
    = (m, true, rest) /\ m !! 7 = None.
Proof.
  apply (hooked_call_leaves_no_window example_cfg false 7 example_call fresh_thread); try reflexivity.
  - cbn [fgraph_funcs example_cfg]. intros f ->%elem_of_singleton. apply (bool_decide_unpack _). vm_compute. exact I.
  - split; [discriminate|reflexivity].
  - apply map_Forall_empty.
  - vm_compute. discriminate.
  - vm_compute. discriminate.
  - discriminate.
  - apply delivers_msg, delivers_msg, delivers_end. discriminate.
Defined.
