(* ===== verification/CudaAbi.v ===== *)
(** * The C interface of the hooks: the types of [src/src/hook/driver.rs] and
    [src/src/hook/cudart.rs], the functions they export and the names the
    application finds them under. *)
From S2P Require Import Prelude RustStr.

(** ** C types and the values that are passed *)

Inductive CType :=
| C_void | C_char | C_int | C_uint | C_u64 | C_usize | C_f32 | C_dim3
| MutPtr (t : CType) | ConstPtr (t : CType).

#[export] Instance CType_eq_dec : EqDecision CType.
Proof. solve_decision. Defined.

(** A function-pointer type [unsafe extern "C" fn(params) -> ret]. *)
Record FnType := { fn_params : list CType; fn_ret : CType }.

#[export] Instance FnType_eq_dec : EqDecision FnType.
Proof. solve_decision. Defined.

Record dim3 := { x_ : Z; y_ : Z; z_ : Z }.

Inductive CVal :=
| VPtr (address : Z) | VInt (n : Z) | VUInt (n : Z) | VU64 (n : Z) | VDim3 (d : dim3).

(** Whether a value may be passed where a parameter of the type is declared. *)
Definition has_type (v : CVal) (t : CType) : bool :=
  match v, t with
  | VPtr a, (MutPtr _ | ConstPtr _) => bool_decide (in_u 64 a)
  | VInt n, C_int => bool_decide (in_i 32 n)
  | VUInt n, C_uint => bool_decide (in_u 32 n)
  | VU64 n, (C_u64 | C_usize) => bool_decide (in_u 64 n)
  | VDim3 d, C_dim3 => bool_decide (in_u 32 (x_ d) /\ in_u 32 (y_ d) /\ in_u 32 (z_ d))
  | _, _ => false
  end.

Fixpoint has_types (vs : list CVal) (ts : list CType) : bool :=
  match vs, ts with
  | [], [] => true
  | v :: vs, t :: ts => has_type v t && has_types vs ts
  | _, _ => false
  end.

(** [{:p}] *)
Definition fmt_p (address : Z) : string := fmt_0x address.

(** ** Type names *)

Definition CUresult : CType := C_int.
Definition CUdevice : CType := C_int.
Definition CUcontext : CType := MutPtr C_void.
Definition CUmodule : CType := MutPtr C_void.
Definition CUfunction : CType := MutPtr C_void.
Definition CUstream : CType := MutPtr C_void.
Definition CUevent : CType := MutPtr C_void.
Definition CUdeviceptr : CType := C_u64.
Definition cuuint64_t : CType := C_u64.
Definition CUdriverProcAddressQueryResult : CType := C_int.
Definition cudaError_t : CType := C_int.
Definition cudaStream_t : CType := MutPtr C_void.
Definition cudaEvent_t : CType := MutPtr C_void.
Definition cudaMemcpyKind : CType := C_int.

(** ** The types of the functions *)

Definition CuInitFn : FnType := {| fn_params := [C_uint]; fn_ret := CUresult |}.
Definition CuDeviceGetFn : FnType := {| fn_params := [MutPtr CUdevice; C_int]; fn_ret := CUresult |}.
Definition CuDeviceGetNameFn : FnType := {| fn_params := [MutPtr C_char; C_int; CUdevice]; fn_ret := CUresult |}.
Definition CuCtxCreateV2Fn : FnType := {| fn_params := [MutPtr CUcontext; C_uint; CUdevice]; fn_ret := CUresult |}.
Definition CuCtxDestroyV2Fn : FnType := {| fn_params := [CUcontext]; fn_ret := CUresult |}.
Definition CuCtxSynchronizeFn : FnType := {| fn_params := []; fn_ret := CUresult |}.
Definition CuCtxGetCurrentFn : FnType := {| fn_params := [MutPtr CUcontext]; fn_ret := CUresult |}.
Definition CuCtxSetCurrentFn : FnType := {| fn_params := [CUcontext]; fn_ret := CUresult |}.
Definition CuCtxPushCurrentV2Fn : FnType := {| fn_params := [CUcontext]; fn_ret := CUresult |}.
Definition CuCtxPopCurrentV2Fn : FnType := {| fn_params := [MutPtr CUcontext]; fn_ret := CUresult |}.
Definition CuDevicePrimaryCtxRetainFn : FnType := {| fn_params := [MutPtr CUcontext; CUdevice]; fn_ret := CUresult |}.
Definition CuDevicePrimaryCtxReleaseFn : FnType := {| fn_params := [CUdevice]; fn_ret := CUresult |}.
Definition CuDevicePrimaryCtxResetFn : FnType := {| fn_params := [CUdevice]; fn_ret := CUresult |}.
Definition CuDevicePrimaryCtxSetFlagsFn : FnType := {| fn_params := [CUdevice; C_uint]; fn_ret := CUresult |}.
Definition CuDevicePrimaryCtxGetStateFn : FnType := {| fn_params := [CUdevice; MutPtr C_uint; MutPtr C_int]; fn_ret := CUresult |}.
Definition CuStreamCreateFn : FnType := {| fn_params := [MutPtr CUstream; C_uint]; fn_ret := CUresult |}.
Definition CuStreamCreateWithPriorityFn : FnType := {| fn_params := [MutPtr CUstream; C_uint; C_int]; fn_ret := CUresult |}.
Definition CuStreamDestroyFn : FnType := {| fn_params := [CUstream]; fn_ret := CUresult |}.
Definition CuEventCreateFn : FnType := {| fn_params := [MutPtr CUevent; C_uint]; fn_ret := CUresult |}.
Definition CuEventDestroyFn : FnType := {| fn_params := [CUevent]; fn_ret := CUresult |}.
Definition CuEventRecordFn : FnType := {| fn_params := [CUevent; CUstream]; fn_ret := CUresult |}.
Definition CuEventRecordWithFlagsFn : FnType := {| fn_params := [CUevent; CUstream; C_uint]; fn_ret := CUresult |}.
Definition CuEventSynchronizeFn : FnType := {| fn_params := [CUevent]; fn_ret := CUresult |}.
Definition CuEventElapsedTimeFn : FnType := {| fn_params := [MutPtr C_f32; CUevent; CUevent]; fn_ret := CUresult |}.
Definition CuModuleLoadFn : FnType := {| fn_params := [MutPtr CUmodule; ConstPtr C_char]; fn_ret := CUresult |}.
Definition CuModuleGetFunctionFn : FnType := {| fn_params := [MutPtr CUfunction; CUmodule; ConstPtr C_char]; fn_ret := CUresult |}.
Definition CuModuleUnloadFn : FnType := {| fn_params := [CUmodule]; fn_ret := CUresult |}.
Definition CuLaunchKernelFn : FnType := {| fn_params := [CUfunction; C_uint; C_uint; C_uint; C_uint; C_uint; C_uint; C_uint; CUstream; MutPtr (MutPtr C_void); MutPtr (MutPtr C_void)]; fn_ret := CUresult |}.
Definition CuMemcpyAsyncFn : FnType := {| fn_params := [CUdeviceptr; CUdeviceptr; C_usize; CUstream]; fn_ret := CUresult |}.
Definition CuMemcpyHtoDAsyncV2Fn : FnType := {| fn_params := [CUdeviceptr; ConstPtr C_void; C_usize; CUstream]; fn_ret := CUresult |}.
Definition CuMemcpyDtoHAsyncV2Fn : FnType := {| fn_params := [MutPtr C_void; CUdeviceptr; C_usize; CUstream]; fn_ret := CUresult |}.
Definition CuMemcpyHtoDV2Fn : FnType := {| fn_params := [CUdeviceptr; ConstPtr C_void; C_usize]; fn_ret := CUresult |}.
Definition CuMemcpyDtoHV2Fn : FnType := {| fn_params := [MutPtr C_void; CUdeviceptr; C_usize]; fn_ret := CUresult |}.
Definition CuMemAllocV2Fn : FnType := {| fn_params := [MutPtr CUdeviceptr; C_usize]; fn_ret := CUresult |}.
Definition CuMemFreeV2Fn : FnType := {| fn_params := [CUdeviceptr]; fn_ret := CUresult |}.
Definition CuMemAllocHostV2Fn : FnType := {| fn_params := [MutPtr (MutPtr C_void); C_usize]; fn_ret := CUresult |}.
Definition CuMemFreeHostFn : FnType := {| fn_params := [MutPtr C_void]; fn_ret := CUresult |}.
Definition CuGetProcAddressFn : FnType := {| fn_params := [ConstPtr C_char; MutPtr (MutPtr C_void); C_int; cuuint64_t]; fn_ret := CUresult |}.
Definition CuGetProcAddressV2Fn : FnType := {| fn_params := [ConstPtr C_char; MutPtr (MutPtr C_void); C_int; cuuint64_t; MutPtr CUdriverProcAddressQueryResult]; fn_ret := CUresult |}.
Definition DlSymFn : FnType := {| fn_params := [MutPtr C_void; ConstPtr C_char]; fn_ret := MutPtr C_void |}.
Definition CudaMallocFn : FnType := {| fn_params := [MutPtr (MutPtr C_void); C_usize]; fn_ret := cudaError_t |}.
Definition CudaFreeFn : FnType := {| fn_params := [MutPtr C_void]; fn_ret := cudaError_t |}.
Definition CudaHostAllocFn : FnType := {| fn_params := [MutPtr (MutPtr C_void); C_usize; C_uint]; fn_ret := cudaError_t |}.
Definition CudaMallocHostFn : FnType := {| fn_params := [MutPtr (MutPtr C_void); C_usize]; fn_ret := cudaError_t |}.
Definition CudaFreeHostFn : FnType := {| fn_params := [MutPtr C_void]; fn_ret := cudaError_t |}.
Definition CudaMemcpyAsyncFn : FnType := {| fn_params := [MutPtr C_void; ConstPtr C_void; C_usize; cudaMemcpyKind; cudaStream_t]; fn_ret := cudaError_t |}.
Definition CudaLaunchKernelFn : FnType := {| fn_params := [ConstPtr C_void; C_dim3; C_dim3; MutPtr (MutPtr C_void); C_usize; cudaStream_t]; fn_ret := cudaError_t |}.
Definition CudaStreamCreateFn : FnType := {| fn_params := [MutPtr cudaStream_t]; fn_ret := cudaError_t |}.
Definition CudaStreamDestroyFn : FnType := {| fn_params := [cudaStream_t]; fn_ret := cudaError_t |}.
Definition CudaEventCreateFn : FnType := {| fn_params := [MutPtr cudaEvent_t]; fn_ret := cudaError_t |}.
Definition CudaEventRecordFn : FnType := {| fn_params := [cudaEvent_t; cudaStream_t]; fn_ret := cudaError_t |}.
Definition CudaEventSynchronizeFn : FnType := {| fn_params := [cudaEvent_t]; fn_ret := cudaError_t |}.
Definition CudaEventElapsedTimeFn : FnType := {| fn_params := [MutPtr C_f32; cudaEvent_t; cudaEvent_t]; fn_ret := cudaError_t |}.
Definition CudaDeviceResetFn : FnType := {| fn_params := []; fn_ret := cudaError_t |}.

(** ** The exported functions that stand for a function of the CUDA libraries *)

Inductive HookFn :=
| F_cuGetProcAddress | F_cuGetProcAddress_v2 | F_cuInit | F_cuDeviceGet | F_cuDeviceGetName
| F_cuCtxCreate_v2 | F_cuCtxDestroy_v2 | F_cuCtxSynchronize | F_cuCtxGetCurrent
| F_cuCtxSetCurrent | F_cuCtxPushCurrent_v2 | F_cuCtxPushCurrent | F_cuCtxPopCurrent_v2
| F_cuCtxPopCurrent | F_cuDevicePrimaryCtxRetain | F_cuDevicePrimaryCtxRelease
| F_cuDevicePrimaryCtxReset | F_cuDevicePrimaryCtxSetFlags | F_cuDevicePrimaryCtxSetFlags_v2
| F_cuDevicePrimaryCtxGetState | F_cuStreamCreate | F_cuStreamCreateWithPriority
| F_cuStreamDestroy | F_cuStreamDestroy_v2 | F_cuEventCreate | F_cuEventDestroy
| F_cuEventDestroy_v2 | F_cuEventRecord | F_cuEventRecord_ptsz | F_cuEventRecordWithFlags
| F_cuEventRecordWithFlags_ptsz | F_cuEventSynchronize | F_cuEventElapsedTime
| F_cuEventElapsedTime_v2 | F_cuModuleLoad | F_cuModuleGetFunction | F_cuModuleUnload
| F_cuLaunchKernel | F_cuMemcpyAsync | F_cuMemcpyAsync_ptsz | F_cuMemcpyHtoDAsync_v2
| F_cuMemcpyHtoDAsync | F_cuMemcpyHtoDAsync_v2_ptsz | F_cuMemcpyDtoHAsync_v2
| F_cuMemcpyDtoHAsync | F_cuMemcpyDtoHAsync_v2_ptsz | F_cuMemcpyHtoD_v2 | F_cuMemcpyDtoH_v2
| F_cuMemAlloc_v2 | F_cuMemFree_v2 | F_cuMemAllocHost_v2 | F_cuMemFreeHost | F_cudaMalloc
| F_cudaFree | F_cudaHostAlloc | F_cudaMallocHost | F_cudaFreeHost | F_cudaMemcpyAsync
| F_cudaLaunchKernel | F_cudaStreamCreate | F_cudaStreamDestroy | F_cudaEventCreate
| F_cudaEventRecord | F_cudaEventSynchronize | F_cudaEventElapsedTime | F_cudaDeviceReset.

#[export] Instance HookFn_eq_dec : EqDecision HookFn.
Proof. solve_decision. Defined.

Definition all_hooks : list HookFn :=
  [F_cuGetProcAddress; F_cuGetProcAddress_v2; F_cuInit; F_cuDeviceGet; F_cuDeviceGetName;
   F_cuCtxCreate_v2; F_cuCtxDestroy_v2; F_cuCtxSynchronize; F_cuCtxGetCurrent;
   F_cuCtxSetCurrent; F_cuCtxPushCurrent_v2; F_cuCtxPushCurrent; F_cuCtxPopCurrent_v2;
   F_cuCtxPopCurrent; F_cuDevicePrimaryCtxRetain; F_cuDevicePrimaryCtxRelease;
   F_cuDevicePrimaryCtxReset; F_cuDevicePrimaryCtxSetFlags; F_cuDevicePrimaryCtxSetFlags_v2;
   F_cuDevicePrimaryCtxGetState; F_cuStreamCreate; F_cuStreamCreateWithPriority;
   F_cuStreamDestroy; F_cuStreamDestroy_v2; F_cuEventCreate; F_cuEventDestroy;
   F_cuEventDestroy_v2; F_cuEventRecord; F_cuEventRecord_ptsz; F_cuEventRecordWithFlags;
   F_cuEventRecordWithFlags_ptsz; F_cuEventSynchronize; F_cuEventElapsedTime;
   F_cuEventElapsedTime_v2; F_cuModuleLoad; F_cuModuleGetFunction; F_cuModuleUnload;
   F_cuLaunchKernel; F_cuMemcpyAsync; F_cuMemcpyAsync_ptsz; F_cuMemcpyHtoDAsync_v2;
   F_cuMemcpyHtoDAsync; F_cuMemcpyHtoDAsync_v2_ptsz; F_cuMemcpyDtoHAsync_v2;
   F_cuMemcpyDtoHAsync; F_cuMemcpyDtoHAsync_v2_ptsz; F_cuMemcpyHtoD_v2; F_cuMemcpyDtoH_v2;
   F_cuMemAlloc_v2; F_cuMemFree_v2; F_cuMemAllocHost_v2; F_cuMemFreeHost; F_cudaMalloc;
   F_cudaFree; F_cudaHostAlloc; F_cudaMallocHost; F_cudaFreeHost; F_cudaMemcpyAsync;
   F_cudaLaunchKernel; F_cudaStreamCreate; F_cudaStreamDestroy; F_cudaEventCreate;
   F_cudaEventRecord; F_cudaEventSynchronize; F_cudaEventElapsedTime; F_cudaDeviceReset].

(** The names they are exported under ([no_mangle]). *)
Definition fn_name (h : HookFn) : string :=
  match h with
  | F_cuGetProcAddress => "cuGetProcAddress"
  | F_cuGetProcAddress_v2 => "cuGetProcAddress_v2"
  | F_cuInit => "cuInit"
  | F_cuDeviceGet => "cuDeviceGet"
  | F_cuDeviceGetName => "cuDeviceGetName"
  | F_cuCtxCreate_v2 => "cuCtxCreate_v2"
  | F_cuCtxDestroy_v2 => "cuCtxDestroy_v2"
  | F_cuCtxSynchronize => "cuCtxSynchronize"
  | F_cuCtxGetCurrent => "cuCtxGetCurrent"
  | F_cuCtxSetCurrent => "cuCtxSetCurrent"
  | F_cuCtxPushCurrent_v2 => "cuCtxPushCurrent_v2"
  | F_cuCtxPushCurrent => "cuCtxPushCurrent"
  | F_cuCtxPopCurrent_v2 => "cuCtxPopCurrent_v2"
  | F_cuCtxPopCurrent => "cuCtxPopCurrent"
  | F_cuDevicePrimaryCtxRetain => "cuDevicePrimaryCtxRetain"
  | F_cuDevicePrimaryCtxRelease => "cuDevicePrimaryCtxRelease"
  | F_cuDevicePrimaryCtxReset => "cuDevicePrimaryCtxReset"
  | F_cuDevicePrimaryCtxSetFlags => "cuDevicePrimaryCtxSetFlags"
  | F_cuDevicePrimaryCtxSetFlags_v2 => "cuDevicePrimaryCtxSetFlags_v2"
  | F_cuDevicePrimaryCtxGetState => "cuDevicePrimaryCtxGetState"
  | F_cuStreamCreate => "cuStreamCreate"
  | F_cuStreamCreateWithPriority => "cuStreamCreateWithPriority"
  | F_cuStreamDestroy => "cuStreamDestroy"
  | F_cuStreamDestroy_v2 => "cuStreamDestroy_v2"
  | F_cuEventCreate => "cuEventCreate"
  | F_cuEventDestroy => "cuEventDestroy"
  | F_cuEventDestroy_v2 => "cuEventDestroy_v2"
  | F_cuEventRecord => "cuEventRecord"
  | F_cuEventRecord_ptsz => "cuEventRecord_ptsz"
  | F_cuEventRecordWithFlags => "cuEventRecordWithFlags"
  | F_cuEventRecordWithFlags_ptsz => "cuEventRecordWithFlags_ptsz"
  | F_cuEventSynchronize => "cuEventSynchronize"
  | F_cuEventElapsedTime => "cuEventElapsedTime"
  | F_cuEventElapsedTime_v2 => "cuEventElapsedTime_v2"
  | F_cuModuleLoad => "cuModuleLoad"
  | F_cuModuleGetFunction => "cuModuleGetFunction"
  | F_cuModuleUnload => "cuModuleUnload"
  | F_cuLaunchKernel => "cuLaunchKernel"
  | F_cuMemcpyAsync => "cuMemcpyAsync"
  | F_cuMemcpyAsync_ptsz => "cuMemcpyAsync_ptsz"
  | F_cuMemcpyHtoDAsync_v2 => "cuMemcpyHtoDAsync_v2"
  | F_cuMemcpyHtoDAsync => "cuMemcpyHtoDAsync"
  | F_cuMemcpyHtoDAsync_v2_ptsz => "cuMemcpyHtoDAsync_v2_ptsz"
  | F_cuMemcpyDtoHAsync_v2 => "cuMemcpyDtoHAsync_v2"
  | F_cuMemcpyDtoHAsync => "cuMemcpyDtoHAsync"
  | F_cuMemcpyDtoHAsync_v2_ptsz => "cuMemcpyDtoHAsync_v2_ptsz"
  | F_cuMemcpyHtoD_v2 => "cuMemcpyHtoD_v2"
  | F_cuMemcpyDtoH_v2 => "cuMemcpyDtoH_v2"
  | F_cuMemAlloc_v2 => "cuMemAlloc_v2"
  | F_cuMemFree_v2 => "cuMemFree_v2"
  | F_cuMemAllocHost_v2 => "cuMemAllocHost_v2"
  | F_cuMemFreeHost => "cuMemFreeHost"
  | F_cudaMalloc => "cudaMalloc"
  | F_cudaFree => "cudaFree"
  | F_cudaHostAlloc => "cudaHostAlloc"
  | F_cudaMallocHost => "cudaMallocHost"
  | F_cudaFreeHost => "cudaFreeHost"
  | F_cudaMemcpyAsync => "cudaMemcpyAsync"
  | F_cudaLaunchKernel => "cudaLaunchKernel"
  | F_cudaStreamCreate => "cudaStreamCreate"
  | F_cudaStreamDestroy => "cudaStreamDestroy"
  | F_cudaEventCreate => "cudaEventCreate"
  | F_cudaEventRecord => "cudaEventRecord"
  | F_cudaEventSynchronize => "cudaEventSynchronize"
  | F_cudaEventElapsedTime => "cudaEventElapsedTime"
  | F_cudaDeviceReset => "cudaDeviceReset"
  end.

(** Their own declarations. *)
Definition hook_type (h : HookFn) : FnType :=
  match h with
  | F_cuGetProcAddress => {| fn_params := [ConstPtr C_char; MutPtr (MutPtr C_void); C_int; cuuint64_t]; fn_ret := CUresult |}
  | F_cuGetProcAddress_v2 => {| fn_params := [ConstPtr C_char; MutPtr (MutPtr C_void); C_int; cuuint64_t; MutPtr CUdriverProcAddressQueryResult]; fn_ret := CUresult |}
  | F_cuInit => {| fn_params := [C_uint]; fn_ret := CUresult |}
  | F_cuDeviceGet => {| fn_params := [MutPtr CUdevice; C_int]; fn_ret := CUresult |}
  | F_cuDeviceGetName => {| fn_params := [MutPtr C_char; C_int; CUdevice]; fn_ret := CUresult |}
  | F_cuCtxCreate_v2 => {| fn_params := [MutPtr CUcontext; C_uint; CUdevice]; fn_ret := CUresult |}
  | F_cuCtxDestroy_v2 => {| fn_params := [CUcontext]; fn_ret := CUresult |}
  | F_cuCtxSynchronize => {| fn_params := []; fn_ret := CUresult |}
  | F_cuCtxGetCurrent => {| fn_params := [MutPtr CUcontext]; fn_ret := CUresult |}
  | F_cuCtxSetCurrent => {| fn_params := [CUcontext]; fn_ret := CUresult |}
  | F_cuCtxPushCurrent_v2 => {| fn_params := [CUcontext]; fn_ret := CUresult |}
  | F_cuCtxPushCurrent => {| fn_params := [CUcontext]; fn_ret := CUresult |}
  | F_cuCtxPopCurrent_v2 => {| fn_params := [MutPtr CUcontext]; fn_ret := CUresult |}
  | F_cuCtxPopCurrent => {| fn_params := [MutPtr CUcontext]; fn_ret := CUresult |}
  | F_cuDevicePrimaryCtxRetain => {| fn_params := [MutPtr CUcontext; CUdevice]; fn_ret := CUresult |}
  | F_cuDevicePrimaryCtxRelease => {| fn_params := [CUdevice]; fn_ret := CUresult |}
  | F_cuDevicePrimaryCtxReset => {| fn_params := [CUdevice]; fn_ret := CUresult |}
  | F_cuDevicePrimaryCtxSetFlags => {| fn_params := [CUdevice; C_uint]; fn_ret := CUresult |}
  | F_cuDevicePrimaryCtxSetFlags_v2 => {| fn_params := [CUdevice; C_uint]; fn_ret := CUresult |}
  | F_cuDevicePrimaryCtxGetState => {| fn_params := [CUdevice; MutPtr C_uint; MutPtr C_int]; fn_ret := CUresult |}
  | F_cuStreamCreate => {| fn_params := [MutPtr CUstream; C_uint]; fn_ret := CUresult |}
  | F_cuStreamCreateWithPriority => {| fn_params := [MutPtr CUstream; C_uint; C_int]; fn_ret := CUresult |}
  | F_cuStreamDestroy => {| fn_params := [CUstream]; fn_ret := CUresult |}
  | F_cuStreamDestroy_v2 => {| fn_params := [CUstream]; fn_ret := CUresult |}
  | F_cuEventCreate => {| fn_params := [MutPtr CUevent; C_uint]; fn_ret := CUresult |}
  | F_cuEventDestroy => {| fn_params := [CUevent]; fn_ret := CUresult |}
  | F_cuEventDestroy_v2 => {| fn_params := [CUevent]; fn_ret := CUresult |}
  | F_cuEventRecord => {| fn_params := [CUevent; CUstream]; fn_ret := CUresult |}
  | F_cuEventRecord_ptsz => {| fn_params := [CUevent; CUstream]; fn_ret := CUresult |}
  | F_cuEventRecordWithFlags => {| fn_params := [CUevent; CUstream; C_uint]; fn_ret := CUresult |}
  | F_cuEventRecordWithFlags_ptsz => {| fn_params := [CUevent; CUstream; C_uint]; fn_ret := CUresult |}
  | F_cuEventSynchronize => {| fn_params := [CUevent]; fn_ret := CUresult |}
  | F_cuEventElapsedTime => {| fn_params := [MutPtr C_f32; CUevent; CUevent]; fn_ret := CUresult |}
  | F_cuEventElapsedTime_v2 => {| fn_params := [MutPtr C_f32; CUevent; CUevent]; fn_ret := CUresult |}
  | F_cuModuleLoad => {| fn_params := [MutPtr CUmodule; ConstPtr C_char]; fn_ret := CUresult |}
  | F_cuModuleGetFunction => {| fn_params := [MutPtr CUfunction; CUmodule; ConstPtr C_char]; fn_ret := CUresult |}
  | F_cuModuleUnload => {| fn_params := [CUmodule]; fn_ret := CUresult |}
  | F_cuLaunchKernel => {| fn_params := [CUfunction; C_uint; C_uint; C_uint; C_uint; C_uint; C_uint; C_uint; CUstream; MutPtr (MutPtr C_void); MutPtr (MutPtr C_void)]; fn_ret := CUresult |}
  | F_cuMemcpyAsync => {| fn_params := [CUdeviceptr; CUdeviceptr; C_usize; CUstream]; fn_ret := CUresult |}
  | F_cuMemcpyAsync_ptsz => {| fn_params := [CUdeviceptr; CUdeviceptr; C_usize; CUstream]; fn_ret := CUresult |}
  | F_cuMemcpyHtoDAsync_v2 => {| fn_params := [CUdeviceptr; ConstPtr C_void; C_usize; CUstream]; fn_ret := CUresult |}
  | F_cuMemcpyHtoDAsync => {| fn_params := [CUdeviceptr; ConstPtr C_void; C_usize; CUstream]; fn_ret := CUresult |}
  | F_cuMemcpyHtoDAsync_v2_ptsz => {| fn_params := [CUdeviceptr; ConstPtr C_void; C_usize; CUstream]; fn_ret := CUresult |}
  | F_cuMemcpyDtoHAsync_v2 => {| fn_params := [MutPtr C_void; CUdeviceptr; C_usize; CUstream]; fn_ret := CUresult |}
  | F_cuMemcpyDtoHAsync => {| fn_params := [MutPtr C_void; CUdeviceptr; C_usize; CUstream]; fn_ret := CUresult |}
  | F_cuMemcpyDtoHAsync_v2_ptsz => {| fn_params := [MutPtr C_void; CUdeviceptr; C_usize; CUstream]; fn_ret := CUresult |}
  | F_cuMemcpyHtoD_v2 => {| fn_params := [CUdeviceptr; ConstPtr C_void; C_usize]; fn_ret := CUresult |}
  | F_cuMemcpyDtoH_v2 => {| fn_params := [MutPtr C_void; CUdeviceptr; C_usize]; fn_ret := CUresult |}
  | F_cuMemAlloc_v2 => {| fn_params := [MutPtr CUdeviceptr; C_usize]; fn_ret := CUresult |}
  | F_cuMemFree_v2 => {| fn_params := [CUdeviceptr]; fn_ret := CUresult |}
  | F_cuMemAllocHost_v2 => {| fn_params := [MutPtr (MutPtr C_void); C_usize]; fn_ret := CUresult |}
  | F_cuMemFreeHost => {| fn_params := [MutPtr C_void]; fn_ret := CUresult |}
  | F_cudaMalloc => {| fn_params := [MutPtr (MutPtr C_void); C_usize]; fn_ret := cudaError_t |}
  | F_cudaFree => {| fn_params := [MutPtr C_void]; fn_ret := cudaError_t |}
  | F_cudaHostAlloc => {| fn_params := [MutPtr (MutPtr C_void); C_usize; C_uint]; fn_ret := cudaError_t |}
  | F_cudaMallocHost => {| fn_params := [MutPtr (MutPtr C_void); C_usize]; fn_ret := cudaError_t |}
  | F_cudaFreeHost => {| fn_params := [MutPtr C_void]; fn_ret := cudaError_t |}
  | F_cudaMemcpyAsync => {| fn_params := [MutPtr C_void; ConstPtr C_void; C_usize; cudaMemcpyKind; cudaStream_t]; fn_ret := cudaError_t |}
  | F_cudaLaunchKernel => {| fn_params := [ConstPtr C_void; C_dim3; C_dim3; MutPtr (MutPtr C_void); C_usize; cudaStream_t]; fn_ret := cudaError_t |}
  | F_cudaStreamCreate => {| fn_params := [MutPtr cudaStream_t]; fn_ret := cudaError_t |}
  | F_cudaStreamDestroy => {| fn_params := [cudaStream_t]; fn_ret := cudaError_t |}
  | F_cudaEventCreate => {| fn_params := [MutPtr cudaEvent_t]; fn_ret := cudaError_t |}
  | F_cudaEventRecord => {| fn_params := [cudaEvent_t; cudaStream_t]; fn_ret := cudaError_t |}
  | F_cudaEventSynchronize => {| fn_params := [cudaEvent_t]; fn_ret := cudaError_t |}
  | F_cudaEventElapsedTime => {| fn_params := [MutPtr C_f32; cudaEvent_t; cudaEvent_t]; fn_ret := cudaError_t |}
  | F_cudaDeviceReset => {| fn_params := []; fn_ret := cudaError_t |}
  end.

(** A [match] on a byte string whose arms list alternatives. *)
Fixpoint match_bytes {A : Type} (s : string) (arms : list (list string * A)) : option A :=
  match arms with
  | [] => None
  | (alts, a) :: arms => if existsb (String.eqb s) alts then Some a else match_bytes s arms
  end.
#[global] Arguments match_bytes : simpl never.

(** The arms of [wrapper_for_driver_symbol]. *)
Definition driver_symbols : list (list string * HookFn) := [
  (["cuInit"], F_cuInit);
  (["cuDeviceGet"], F_cuDeviceGet);
  (["cuDeviceGetName"], F_cuDeviceGetName);
  (["cuCtxCreate"; "cuCtxCreate_v2"], F_cuCtxCreate_v2);
  (["cuCtxDestroy"; "cuCtxDestroy_v2"], F_cuCtxDestroy_v2);
  (["cuCtxSynchronize"], F_cuCtxSynchronize);
  (["cuCtxGetCurrent"], F_cuCtxGetCurrent);
  (["cuCtxSetCurrent"], F_cuCtxSetCurrent);
  (["cuCtxPushCurrent"; "cuCtxPushCurrent_v2"], F_cuCtxPushCurrent_v2);
  (["cuCtxPopCurrent"; "cuCtxPopCurrent_v2"], F_cuCtxPopCurrent_v2);
  (["cuDevicePrimaryCtxRetain"], F_cuDevicePrimaryCtxRetain);
  (["cuDevicePrimaryCtxRelease"], F_cuDevicePrimaryCtxRelease);
  (["cuDevicePrimaryCtxReset"], F_cuDevicePrimaryCtxReset);
  (["cuDevicePrimaryCtxSetFlags"; "cuDevicePrimaryCtxSetFlags_v2"], F_cuDevicePrimaryCtxSetFlags);
  (["cuDevicePrimaryCtxGetState"], F_cuDevicePrimaryCtxGetState);
  (["cuStreamCreate"], F_cuStreamCreate);
  (["cuStreamCreateWithPriority"], F_cuStreamCreateWithPriority);
  (["cuStreamDestroy"; "cuStreamDestroy_v2"], F_cuStreamDestroy);
  (["cuEventCreate"], F_cuEventCreate);
  (["cuEventDestroy"; "cuEventDestroy_v2"], F_cuEventDestroy);
  (["cuEventRecord"; "cuEventRecord_ptsz"], F_cuEventRecord);
  (["cuEventRecordWithFlags"; "cuEventRecordWithFlags_ptsz"], F_cuEventRecordWithFlags);
  (["cuEventSynchronize"], F_cuEventSynchronize);
  (["cuEventElapsedTime"; "cuEventElapsedTime_v2"], F_cuEventElapsedTime);
  (["cuMemcpyAsync"; "cuMemcpyAsync_ptsz"], F_cuMemcpyAsync);
  (["cuMemcpyHtoDAsync"; "cuMemcpyHtoDAsync_v2"], F_cuMemcpyHtoDAsync_v2);
  (["cuMemcpyHtoDAsync_v2_ptsz"], F_cuMemcpyHtoDAsync_v2);
  (["cuMemcpyDtoHAsync"; "cuMemcpyDtoHAsync_v2"], F_cuMemcpyDtoHAsync_v2);
  (["cuMemcpyDtoHAsync_v2_ptsz"], F_cuMemcpyDtoHAsync_v2);
  (["cuModuleLoad"], F_cuModuleLoad);
  (["cuModuleGetFunction"], F_cuModuleGetFunction);
  (["cuModuleUnload"], F_cuModuleUnload);
  (["cuLaunchKernel"], F_cuLaunchKernel);
  (["cuMemcpyHtoD"; "cuMemcpyHtoD_v2"], F_cuMemcpyHtoD_v2);
  (["cuMemcpyDtoH"; "cuMemcpyDtoH_v2"], F_cuMemcpyDtoH_v2);
  (["cuMemAlloc"; "cuMemAlloc_v2"], F_cuMemAlloc_v2);
  (["cuMemFree"; "cuMemFree_v2"], F_cuMemFree_v2);
  (["cuMemAllocHost"; "cuMemAllocHost_v2"], F_cuMemAllocHost_v2);
  (["cuMemFreeHost"], F_cuMemFreeHost);
  (["cuGetProcAddress"], F_cuGetProcAddress);
  (["cuGetProcAddress_v2"], F_cuGetProcAddress_v2)
].

(** The arms of [wrapper_for_cudart_symbol]. *)
Definition cudart_symbols : list (list string * HookFn) := [
  (["cudaMalloc"], F_cudaMalloc);
  (["cudaFree"], F_cudaFree);
  (["cudaHostAlloc"], F_cudaHostAlloc);
  (["cudaMallocHost"], F_cudaMallocHost);
  (["cudaFreeHost"], F_cudaFreeHost);
  (["cudaMemcpyAsync"], F_cudaMemcpyAsync);
  (["cudaLaunchKernel"], F_cudaLaunchKernel);
  (["cudaStreamCreate"], F_cudaStreamCreate);
  (["cudaStreamDestroy"], F_cudaStreamDestroy);
  (["cudaEventCreate"], F_cudaEventCreate);
  (["cudaEventRecord"], F_cudaEventRecord);
  (["cudaEventSynchronize"], F_cudaEventSynchronize);
  (["cudaEventElapsedTime"], F_cudaEventElapsedTime);
  (["cudaDeviceReset"], F_cudaDeviceReset)
].
