(* ===== verification/CudaProc.v ===== *)
(** * Symbol resolution and the conventions of the hooks:
    [src/src/dlsym.rs] and the shared part of [src/src/hook/driver.rs] and
    [src/src/hook/cudart.rs].

    The library replaces [dlsym] and [cuGetProcAddress] so that the application
    gets the hooks, and finds the real functions for itself.  The state is that
    of the process ([World]); what the library has no code for (the dynamic
    linker, the code at an address, the clock) is a parameter. *)
From S2P Require Import Prelude RustStr Config Reentry Graph Layout Window Hook CudaAbi.

(** ** The process *)

Definition RTLD_NEXT : Z := 2 ^ 64 - 1.
Definition NULL : Z := 0.

(** What the dynamic linker answers now: the function at the address it gives
    for [dlsym], called with a handle and a symbol ([None] is a null pointer),
    and [dlvsym]. *)
Record Linker := {
  ld_dlsym : Z -> Z -> option string -> Z;
  ld_dlvsym : Z -> string -> string -> Z
}.

(** The statics of the library ([CUDA_DRIVER_HANDLE], the [OnceLock] of each
    [resolve_next!] and of [real_dlsym] by name, the two [INTERN] maps), the
    boxed scopes the generated wrappers hold, the [static real_fn] of each
    generated wrapper, the state of the thread, what it
    has written, the memory of the application and the linker. *)
Record World := {
  thread : HookState;
  driver_handle : Z;
  cells : gmap string (option Z);
  intern_driver : gmap string string;
  intern_cudart : gmap string string;
  boxes : gmap Z TraceScope;
  next_box : Z;
  wrapper_fns : gmap string Z;
  memory : gmap Z Z;
  linker : Linker;
  clock : nat;
  trace_log : list HookEvent
}.

Definition set_thread (st : HookState) (ev : list HookEvent) (w : World) : World :=
  {| thread := st; driver_handle := driver_handle w; cells := cells w;
     intern_driver := intern_driver w; intern_cudart := intern_cudart w; boxes := boxes w;
     next_box := next_box w; wrapper_fns := wrapper_fns w; memory := memory w;
     linker := linker w; clock := clock w;
     trace_log := trace_log w ++ ev |}.
Definition set_handle (h : Z) (w : World) : World :=
  {| thread := thread w; driver_handle := h; cells := cells w;
     intern_driver := intern_driver w; intern_cudart := intern_cudart w; boxes := boxes w;
     next_box := next_box w; wrapper_fns := wrapper_fns w; memory := memory w;
     linker := linker w; clock := clock w;
     trace_log := trace_log w |}.
Definition set_cell (cell : string) (v : option Z) (w : World) : World :=
  {| thread := thread w; driver_handle := driver_handle w; cells := <[cell := v]> (cells w);
     intern_driver := intern_driver w; intern_cudart := intern_cudart w; boxes := boxes w;
     next_box := next_box w; wrapper_fns := wrapper_fns w; memory := memory w;
     linker := linker w; clock := clock w;
     trace_log := trace_log w |}.
Definition set_intern (driver cudart : gmap string string) (w : World) : World :=
  {| thread := thread w; driver_handle := driver_handle w; cells := cells w;
     intern_driver := driver; intern_cudart := cudart; boxes := boxes w;
     next_box := next_box w; wrapper_fns := wrapper_fns w; memory := memory w;
     linker := linker w; clock := clock w;
     trace_log := trace_log w |}.
Definition set_boxes (b : gmap Z TraceScope) (n : Z) (w : World) : World :=
  {| thread := thread w; driver_handle := driver_handle w; cells := cells w;
     intern_driver := intern_driver w; intern_cudart := intern_cudart w; boxes := b;
     next_box := n; wrapper_fns := wrapper_fns w; memory := memory w;
     linker := linker w; clock := clock w;
     trace_log := trace_log w |}.
Definition set_memory (m : gmap Z Z) (w : World) : World :=
  {| thread := thread w; driver_handle := driver_handle w; cells := cells w;
     intern_driver := intern_driver w; intern_cudart := intern_cudart w; boxes := boxes w;
     next_box := next_box w; wrapper_fns := wrapper_fns w; memory := m; linker := linker w; clock := clock w;
     trace_log := trace_log w |}.
Definition set_linker (l : Linker) (w : World) : World :=
  {| thread := thread w; driver_handle := driver_handle w; cells := cells w;
     intern_driver := intern_driver w; intern_cudart := intern_cudart w; boxes := boxes w;
     next_box := next_box w; wrapper_fns := wrapper_fns w; memory := memory w; linker := l; clock := clock w;
     trace_log := trace_log w |}.
Definition set_wrapper_fn (name : string) (f : Z) (w : World) : World :=
  {| thread := thread w; driver_handle := driver_handle w; cells := cells w;
     intern_driver := intern_driver w; intern_cudart := intern_cudart w; boxes := boxes w;
     next_box := next_box w; wrapper_fns := <[name := f]> (wrapper_fns w); memory := memory w;
     linker := linker w; clock := clock w; trace_log := trace_log w |}.
Definition tick (w : World) : World :=
  {| thread := thread w; driver_handle := driver_handle w; cells := cells w;
     intern_driver := intern_driver w; intern_cudart := intern_cudart w; boxes := boxes w;
     next_box := next_box w; wrapper_fns := wrapper_fns w; memory := memory w; linker := linker w; clock := S (clock w);
     trace_log := trace_log w |}.

(** ** Code that runs in the process *)

Definition M (A : Type) : Type := World -> A * World.

#[export] Instance M_ret : MRet M := fun A a w => (a, w).
#[export] Instance M_bind : MBind M := fun A B k m w => let '(a, w) := m w in k a w.

Definition gets {A} (f : World -> A) : M A := fun w => (f w, w).
Definition modify (f : World -> World) : M () := fun w => ((), f w).

(** Code of the library that runs on the state of the thread. *)
Definition on_thread {A} (f : HookState -> A * list HookEvent * HookState) : M A := fun w =>
  let '(a, ev, st) := f (thread w) in (a, set_thread st ev w).

(** A pointer to a function of type [ty], as [transmute_copy] makes it. *)
Record FnPtr (ty : FnType) := { fn_addr : Z }.
Arguments fn_addr {ty}.
Arguments Build_FnPtr {ty}.

(** The configuration and thread of the process; the readings of the clocks;
    what the code at an address does; where the hooks are; the lookups in the
    wrappers that [build.rs] generates (null without them). *)
Class Process := {
  p_cfg : Config;
  p_internal_tracer : bool;
  p_tid : Z;
  p_clock : nat -> Z * Z;
  p_code : Z -> list CVal -> M Z;
  p_addr : HookFn -> Z;
  lookup_generated_driver_wrapper : string -> Z;
  lookup_generated_cudart_wrapper : string -> Z
}.

(** Functions have addresses of their own, and no address is null. *)
Class ProcessLaws (P : Process) : Prop := {
  addr_not_null h : p_addr h <> NULL;
  addr_inj h h' : p_addr h = p_addr h' -> h = h'
}.

Section Proc.
Context `{Process}.

Definition CUDA_ERROR_UNKNOWN : Z := 999.
Definition CUDA_SUCCESS : Z := 0.

(** ** Scopes *)

Definition read_clock : M (Z * Z) :=
  n ← gets clock; modify tick;; mret (p_clock n).

(** [TraceScope::enter]: the arguments are already formatted. *)
Definition scope_enter (domain : TraceDomain) (func args : string) : M TraceScope :=
  t ← read_clock;
  on_thread (enter_lazy p_cfg p_internal_tracer p_tid domain func (fun st => (args, [], st)) t.1 t.2).

Definition scope_finish (scope : TraceScope) (ret : string) : M () :=
  t ← read_clock;
  on_thread (fun st =>
    let '(ev, st) := finish p_cfg p_internal_tracer p_tid scope ret t.1 st in ((), ev, st)).

(** ** The functions the application finds *)

Definition wrapper_for_driver_symbol (symbol : string) : option Z :=
  let ptr := match match_bytes symbol driver_symbols with Some h => p_addr h | None => NULL end in
  if negb (ptr =? NULL) then Some ptr
  else
    let generated := lookup_generated_driver_wrapper symbol in
    if negb (generated =? NULL) then Some generated else None.

Definition wrapper_for_cudart_symbol (symbol : string) : option Z :=
  let ptr := match match_bytes symbol cudart_symbols with Some h => p_addr h | None => NULL end in
  if negb (ptr =? NULL) then Some ptr
  else
    let generated := lookup_generated_cudart_wrapper symbol in
    if negb (generated =? NULL) then Some generated else None.

Definition dlsym_override (symbol : option string) : option Z :=
  match symbol with
  | None => None
  | Some symbol =>
    match wrapper_for_driver_symbol symbol with
    | Some wrapper => Some wrapper
    | None => wrapper_for_cudart_symbol symbol
    end
  end.

(** [OnceLock::get_or_init]: the first answer stays, also when it is [None]. *)
Definition once (cell : string) (init : M (option Z)) : M (option Z) :=
  v ← gets (fun w => cells w !! cell);
  match v with
  | Some v => mret v
  | None => v ← init; modify (set_cell cell v);; mret v
  end.

Definition real_dlsym : M (option Z) :=
  once "REAL_DLSYM"
    (ptr ← gets (fun w => ld_dlvsym (linker w) RTLD_NEXT "dlsym" "GLIBC_2.2.5");
     mret (if ptr =? NULL then None else Some ptr)).

Definition call_dlsym (real handle : Z) (symbol : option string) : M Z :=
  gets (fun w => ld_dlsym (linker w) real handle symbol).

(** The exported [dlsym]. *)
Definition dlsym (handle : Z) (symbol : option string) : M Z :=
  real ← real_dlsym;
  match real with
  | None => mret NULL
  | Some real =>
    real_ptr ← call_dlsym real handle symbol;
    if negb (handle =? RTLD_NEXT) && negb (real_ptr =? NULL) then
      match dlsym_override symbol with
      | Some wrapper => modify (set_handle handle);; mret wrapper
      | None => mret real_ptr
      end
    else mret real_ptr
  end.

(** ** The functions the library finds for itself *)

(** [ffi::dlsym] is bound to the exported [dlsym] above. *)
Definition resolve_next_from_ptr (symbol : option string) : M (option Z) :=
  guard ← on_thread (fun st => let '(guard, b) := guard_enter (bypass st) in (guard, [], set_bypass b st));
  ptr ← dlsym RTLD_NEXT symbol;
  on_thread (fun st => ((), [], set_bypass (guard_drop guard (bypass st)) st));;
  mret (if ptr =? NULL then None else Some ptr).

Definition resolve_driver_from_ptr (symbol : option string) : M (option Z) :=
  handle ← gets driver_handle;
  if negb (handle =? NULL) then
    real ← real_dlsym;
    match real with
    | Some real =>
      ptr ← call_dlsym real handle symbol;
      if negb (ptr =? NULL) then mret (Some ptr) else resolve_next_from_ptr symbol
    | None => resolve_next_from_ptr symbol
    end
  else resolve_next_from_ptr symbol.

(** The macro [resolve_next!]: a static of the function that holds it, and the
    [transmute_copy] of the pointer to its function type. *)
Definition get_or_init {ty} (cell : string) (init : M (option Z)) : M (option (FnPtr ty)) :=
  v ← once cell init;
  mret (Build_FnPtr <$> v).

Definition or_else {ty} (m m' : M (option (FnPtr ty))) : M (option (FnPtr ty)) :=
  v ← m;
  match v with Some f => mret (Some f) | None => m' end.

Definition call {ty} (f : FnPtr ty) (args : list CVal) : M Z := p_code (fn_addr f) args.

(** [if let Some(real) = ... { real(args) } else { CUDA_ERROR_UNKNOWN }] *)
Definition call_or_unknown {ty} (real : option (FnPtr ty)) (args : list CVal) : M Z :=
  match real with Some f => call f args | None => mret CUDA_ERROR_UNKNOWN end.

(** ** The services of the generated wrappers *)

Definition intern_driver_func_name (symbol : string) : M string :=
  v ← gets (fun w => intern_driver w !! symbol);
  match v with
  | Some name => mret name
  | None =>
    let leaked := from_utf8_lossy (bytes_of symbol) in
    modify (fun w => set_intern (<[symbol := leaked]> (intern_driver w)) (intern_cudart w) w);;
    mret leaked
  end.

Definition intern_cudart_func_name (symbol : string) : M string :=
  v ← gets (fun w => intern_cudart w !! symbol);
  match v with
  | Some name => mret name
  | None =>
    let leaked := from_utf8_lossy (bytes_of symbol) in
    modify (fun w => set_intern (intern_driver w) (<[symbol := leaked]> (intern_cudart w)) w);;
    mret leaked
  end.

(** [Box::into_raw(Box::new(scope))] and [Box::from_raw]. *)
Definition box_into_raw (scope : TraceScope) : M Z :=
  p ← gets next_box;
  modify (fun w => set_boxes (<[p := scope]> (boxes w)) (p + 1) w);;
  mret p.

Definition box_from_raw (p : Z) : M (option TraceScope) :=
  v ← gets (fun w => boxes w !! p);
  modify (fun w => set_boxes (delete p (boxes w)) (next_box w) w);;
  mret v.

Definition cudatrace_driver_enter (func : option string) : M Z :=
  match func with
  | None => mret NULL
  | Some func =>
    func ← intern_driver_func_name func;
    scope ← scope_enter Domain_Driver func EmptyString;
    box_into_raw scope
  end.

Definition cudatrace_driver_exit (scope ret : Z) : M () :=
  if scope =? NULL then mret ()
  else
    scope ← box_from_raw scope;
    match scope with Some scope => scope_finish scope (fmt_i ret) | None => mret () end.

Definition cudatrace_resolve_driver_symbol (symbol : option string) : M Z :=
  match symbol with
  | None => mret NULL
  | Some symbol =>
    p ← resolve_driver_from_ptr (Some symbol);
    mret (default NULL p)
  end.

Definition cudatrace_cudart_enter (func : option string) : M Z :=
  match func with
  | None => mret NULL
  | Some func =>
    func ← intern_cudart_func_name func;
    scope ← scope_enter Domain_Cudart func EmptyString;
    box_into_raw scope
  end.

Definition cudatrace_cudart_exit (scope ret : Z) : M () :=
  if scope =? NULL then mret ()
  else
    scope ← box_from_raw scope;
    match scope with Some scope => scope_finish scope (fmt_i ret) | None => mret () end.

Definition cudatrace_resolve_cudart_symbol (symbol : option string) : M Z :=
  match symbol with
  | None => mret NULL
  | Some symbol =>
    p ← resolve_next_from_ptr (Some symbol);
    mret (default NULL p)
  end.

(** ** [cuGetProcAddress] *)

Definition real_cu_get_proc_address : M (option (FnPtr CuGetProcAddressFn)) :=
  get_or_init "REAL_CU_GET_PROC_ADDRESS" (resolve_driver_from_ptr (Some "cuGetProcAddress")).
Definition real_cu_get_proc_address_v2 : M (option (FnPtr CuGetProcAddressV2Fn)) :=
  get_or_init "REAL_CU_GET_PROC_ADDRESS_V2" (resolve_driver_from_ptr (Some "cuGetProcAddress_v2")).

(** The symbol is a pointer into the application with the text it points to. *)
Record CStrPtr := { cs_ptr : Z; cs_text : string }.
Definition cstr (symbol : CStrPtr) : option string :=
  if cs_ptr symbol =? NULL then None else Some (cs_text symbol).

Definition patch_driver_proc (symbol : CStrPtr) (pfn : Z) : M bool :=
  match cstr symbol with
  | None => mret false
  | Some text =>
    if pfn =? NULL then mret false
    else match wrapper_for_driver_symbol text with
         | Some wrapper => modify (fun w => set_memory (<[pfn := wrapper]> (memory w)) w);; mret true
         | None => mret false
         end
  end.

Definition cuGetProcAddress (symbol : CStrPtr) (pfn cuda_version flags : Z) : M Z :=
  real ← real_cu_get_proc_address;
  ret ← match real with
        | Some real => call real [VPtr (cs_ptr symbol); VPtr pfn; VInt cuda_version; VU64 flags]
        | None =>
          real_v2 ← real_cu_get_proc_address_v2;
          match real_v2 with
          | Some real_v2 =>
            call real_v2 [VPtr (cs_ptr symbol); VPtr pfn; VInt cuda_version; VU64 flags; VPtr NULL]
          | None => mret CUDA_ERROR_UNKNOWN
          end
        end;
  (if ret =? CUDA_SUCCESS then _ ← patch_driver_proc symbol pfn; mret () else mret ());;
  mret ret.

Definition cuGetProcAddress_v2 (symbol : CStrPtr) (pfn cuda_version flags symbol_status : Z) : M Z :=
  real ← real_cu_get_proc_address_v2;
  ret ← match real with
        | Some real =>
          call real [VPtr (cs_ptr symbol); VPtr pfn; VInt cuda_version; VU64 flags; VPtr symbol_status]
        | None =>
          real_legacy ← real_cu_get_proc_address;
          match real_legacy with
          | Some real_legacy =>
            call real_legacy [VPtr (cs_ptr symbol); VPtr pfn; VInt cuda_version; VU64 flags]
          | None => mret CUDA_ERROR_UNKNOWN
          end
        end;
  (if ret =? CUDA_SUCCESS then _ ← patch_driver_proc symbol pfn; mret () else mret ());;
  mret ret.

End Proc.
