(* ===== verification/DriverHooks.v ===== *)
(** * The hooks of the driver API: [src/src/hook/driver.rs]

    One definition per exported function, with its arguments as the values
    they hold; the conventions of the calls are in [CudaProc]. *)
From S2P Require Import Prelude RustStr Config Hook CudaAbi CudaProc.

Section Hooks.
Context `{Process}.

(** ** The functions of the real library *)

Definition real_cu_init : M (option (FnPtr CuInitFn)) :=
  get_or_init "REAL_CU_INIT" (resolve_driver_from_ptr (Some "cuInit")).
Definition real_cu_device_get : M (option (FnPtr CuDeviceGetFn)) :=
  get_or_init "REAL_CU_DEVICE_GET" (resolve_driver_from_ptr (Some "cuDeviceGet")).
Definition real_cu_device_get_name : M (option (FnPtr CuDeviceGetNameFn)) :=
  get_or_init "REAL_CU_DEVICE_GET_NAME" (resolve_driver_from_ptr (Some "cuDeviceGetName")).
Definition real_cu_ctx_create_v2 : M (option (FnPtr CuCtxCreateV2Fn)) :=
  get_or_init "REAL_CU_CTX_CREATE_V2" (resolve_driver_from_ptr (Some "cuCtxCreate_v2")).
Definition real_cu_ctx_destroy_v2 : M (option (FnPtr CuCtxDestroyV2Fn)) :=
  get_or_init "REAL_CU_CTX_DESTROY_V2" (resolve_driver_from_ptr (Some "cuCtxDestroy_v2")).
Definition real_cu_ctx_synchronize : M (option (FnPtr CuCtxSynchronizeFn)) :=
  get_or_init "REAL_CU_CTX_SYNCHRONIZE" (resolve_driver_from_ptr (Some "cuCtxSynchronize")).
Definition real_cu_ctx_get_current : M (option (FnPtr CuCtxGetCurrentFn)) :=
  get_or_init "REAL_CU_CTX_GET_CURRENT" (resolve_driver_from_ptr (Some "cuCtxGetCurrent")).
Definition real_cu_ctx_set_current : M (option (FnPtr CuCtxSetCurrentFn)) :=
  get_or_init "REAL_CU_CTX_SET_CURRENT" (resolve_driver_from_ptr (Some "cuCtxSetCurrent")).
Definition real_cu_ctx_push_current_v2 : M (option (FnPtr CuCtxPushCurrentV2Fn)) :=
  get_or_init "REAL_CU_CTX_PUSH_CURRENT_V2" (resolve_driver_from_ptr (Some "cuCtxPushCurrent_v2")).
Definition real_cu_ctx_push_current : M (option (FnPtr CuCtxPushCurrentV2Fn)) :=
  get_or_init "REAL_CU_CTX_PUSH_CURRENT" (resolve_driver_from_ptr (Some "cuCtxPushCurrent")).
Definition real_cu_ctx_pop_current_v2 : M (option (FnPtr CuCtxPopCurrentV2Fn)) :=
  get_or_init "REAL_CU_CTX_POP_CURRENT_V2" (resolve_driver_from_ptr (Some "cuCtxPopCurrent_v2")).
Definition real_cu_ctx_pop_current : M (option (FnPtr CuCtxPopCurrentV2Fn)) :=
  get_or_init "REAL_CU_CTX_POP_CURRENT" (resolve_driver_from_ptr (Some "cuCtxPopCurrent")).
Definition real_cu_device_primary_ctx_retain : M (option (FnPtr CuDevicePrimaryCtxRetainFn)) :=
  get_or_init "REAL_CU_DEVICE_PRIMARY_CTX_RETAIN" (resolve_driver_from_ptr (Some "cuDevicePrimaryCtxRetain")).
Definition real_cu_device_primary_ctx_release : M (option (FnPtr CuDevicePrimaryCtxReleaseFn)) :=
  get_or_init "REAL_CU_DEVICE_PRIMARY_CTX_RELEASE" (resolve_driver_from_ptr (Some "cuDevicePrimaryCtxRelease")).
Definition real_cu_device_primary_ctx_reset : M (option (FnPtr CuDevicePrimaryCtxResetFn)) :=
  get_or_init "REAL_CU_DEVICE_PRIMARY_CTX_RESET" (resolve_driver_from_ptr (Some "cuDevicePrimaryCtxReset")).
Definition real_cu_device_primary_ctx_set_flags : M (option (FnPtr CuDevicePrimaryCtxSetFlagsFn)) :=
  get_or_init "REAL_CU_DEVICE_PRIMARY_CTX_SET_FLAGS" (resolve_driver_from_ptr (Some "cuDevicePrimaryCtxSetFlags")).
Definition real_cu_device_primary_ctx_set_flags_v2 : M (option (FnPtr CuDevicePrimaryCtxSetFlagsFn)) :=
  get_or_init "REAL_CU_DEVICE_PRIMARY_CTX_SET_FLAGS_V2" (resolve_driver_from_ptr (Some "cuDevicePrimaryCtxSetFlags_v2")).
Definition real_cu_device_primary_ctx_get_state : M (option (FnPtr CuDevicePrimaryCtxGetStateFn)) :=
  get_or_init "REAL_CU_DEVICE_PRIMARY_CTX_GET_STATE" (resolve_driver_from_ptr (Some "cuDevicePrimaryCtxGetState")).
Definition real_cu_stream_create : M (option (FnPtr CuStreamCreateFn)) :=
  get_or_init "REAL_CU_STREAM_CREATE" (resolve_driver_from_ptr (Some "cuStreamCreate")).
Definition real_cu_stream_create_with_priority : M (option (FnPtr CuStreamCreateWithPriorityFn)) :=
  get_or_init "REAL_CU_STREAM_CREATE_WITH_PRIORITY" (resolve_driver_from_ptr (Some "cuStreamCreateWithPriority")).
Definition real_cu_stream_destroy : M (option (FnPtr CuStreamDestroyFn)) :=
  get_or_init "REAL_CU_STREAM_DESTROY" (resolve_driver_from_ptr (Some "cuStreamDestroy")).
Definition real_cu_stream_destroy_v2 : M (option (FnPtr CuStreamDestroyFn)) :=
  get_or_init "REAL_CU_STREAM_DESTROY_V2" (resolve_driver_from_ptr (Some "cuStreamDestroy_v2")).
Definition real_cu_event_create : M (option (FnPtr CuEventCreateFn)) :=
  get_or_init "REAL_CU_EVENT_CREATE" (resolve_driver_from_ptr (Some "cuEventCreate")).
Definition real_cu_event_destroy : M (option (FnPtr CuEventDestroyFn)) :=
  get_or_init "REAL_CU_EVENT_DESTROY" (resolve_driver_from_ptr (Some "cuEventDestroy")).
Definition real_cu_event_destroy_v2 : M (option (FnPtr CuEventDestroyFn)) :=
  get_or_init "REAL_CU_EVENT_DESTROY_V2" (resolve_driver_from_ptr (Some "cuEventDestroy_v2")).
Definition real_cu_event_record : M (option (FnPtr CuEventRecordFn)) :=
  get_or_init "REAL_CU_EVENT_RECORD" (resolve_driver_from_ptr (Some "cuEventRecord")).
Definition real_cu_event_record_with_flags : M (option (FnPtr CuEventRecordWithFlagsFn)) :=
  get_or_init "REAL_CU_EVENT_RECORD_WITH_FLAGS" (resolve_driver_from_ptr (Some "cuEventRecordWithFlags")).
Definition real_cu_event_synchronize : M (option (FnPtr CuEventSynchronizeFn)) :=
  get_or_init "REAL_CU_EVENT_SYNCHRONIZE" (resolve_driver_from_ptr (Some "cuEventSynchronize")).
Definition real_cu_event_elapsed_time : M (option (FnPtr CuEventElapsedTimeFn)) :=
  get_or_init "REAL_CU_EVENT_ELAPSED_TIME" (resolve_driver_from_ptr (Some "cuEventElapsedTime")).
Definition real_cu_event_elapsed_time_v2 : M (option (FnPtr CuEventElapsedTimeFn)) :=
  get_or_init "REAL_CU_EVENT_ELAPSED_TIME_V2" (resolve_driver_from_ptr (Some "cuEventElapsedTime_v2")).
Definition real_cu_memcpy_async : M (option (FnPtr CuMemcpyAsyncFn)) :=
  get_or_init "REAL_CU_MEMCPY_ASYNC" (resolve_driver_from_ptr (Some "cuMemcpyAsync")).
Definition real_cu_memcpy_htod_async_v2 : M (option (FnPtr CuMemcpyHtoDAsyncV2Fn)) :=
  get_or_init "REAL_CU_MEMCPY_HTOD_ASYNC_V2" (resolve_driver_from_ptr (Some "cuMemcpyHtoDAsync_v2")).
Definition real_cu_memcpy_htod_async : M (option (FnPtr CuMemcpyHtoDAsyncV2Fn)) :=
  get_or_init "REAL_CU_MEMCPY_HTOD_ASYNC" (resolve_driver_from_ptr (Some "cuMemcpyHtoDAsync")).
Definition real_cu_memcpy_dtoh_async_v2 : M (option (FnPtr CuMemcpyDtoHAsyncV2Fn)) :=
  get_or_init "REAL_CU_MEMCPY_DTOH_ASYNC_V2" (resolve_driver_from_ptr (Some "cuMemcpyDtoHAsync_v2")).
Definition real_cu_memcpy_dtoh_async : M (option (FnPtr CuMemcpyDtoHAsyncV2Fn)) :=
  get_or_init "REAL_CU_MEMCPY_DTOH_ASYNC" (resolve_driver_from_ptr (Some "cuMemcpyDtoHAsync")).
Definition real_cu_module_load : M (option (FnPtr CuModuleLoadFn)) :=
  get_or_init "REAL_CU_MODULE_LOAD" (resolve_driver_from_ptr (Some "cuModuleLoad")).
Definition real_cu_module_get_function : M (option (FnPtr CuModuleGetFunctionFn)) :=
  get_or_init "REAL_CU_MODULE_GET_FUNCTION" (resolve_driver_from_ptr (Some "cuModuleGetFunction")).
Definition real_cu_module_unload : M (option (FnPtr CuModuleUnloadFn)) :=
  get_or_init "REAL_CU_MODULE_UNLOAD" (resolve_driver_from_ptr (Some "cuModuleUnload")).
Definition real_cu_launch_kernel : M (option (FnPtr CuLaunchKernelFn)) :=
  get_or_init "REAL_CU_LAUNCH_KERNEL" (resolve_driver_from_ptr (Some "cuLaunchKernel")).
Definition real_cu_memcpy_htod_v2 : M (option (FnPtr CuMemcpyHtoDV2Fn)) :=
  get_or_init "REAL_CU_MEMCPY_HTOD_V2" (resolve_driver_from_ptr (Some "cuMemcpyHtoD_v2")).
Definition real_cu_memcpy_dtoh_v2 : M (option (FnPtr CuMemcpyDtoHV2Fn)) :=
  get_or_init "REAL_CU_MEMCPY_DTOH_V2" (resolve_driver_from_ptr (Some "cuMemcpyDtoH_v2")).
Definition real_cu_mem_alloc_v2 : M (option (FnPtr CuMemAllocV2Fn)) :=
  get_or_init "REAL_CU_MEM_ALLOC_V2" (resolve_driver_from_ptr (Some "cuMemAlloc_v2")).
Definition real_cu_mem_free_v2 : M (option (FnPtr CuMemFreeV2Fn)) :=
  get_or_init "REAL_CU_MEM_FREE_V2" (resolve_driver_from_ptr (Some "cuMemFree_v2")).
Definition real_cu_mem_alloc_host_v2 : M (option (FnPtr CuMemAllocHostV2Fn)) :=
  get_or_init "REAL_CU_MEM_ALLOC_HOST_V2" (resolve_driver_from_ptr (Some "cuMemAllocHost_v2")).
Definition real_cu_mem_free_host : M (option (FnPtr CuMemFreeHostFn)) :=
  get_or_init "REAL_CU_MEM_FREE_HOST" (resolve_driver_from_ptr (Some "cuMemFreeHost")).

(** ** The hooks *)

Definition cuInit (flags : Z) : M Z :=
  scope ← scope_enter Domain_Driver "cuInit"
    ("flags=0x" +:+ fmt_x flags);
  real ← real_cu_init;
  ret ← call_or_unknown real [VUInt flags];
  scope_finish scope (fmt_i ret);;
  mret ret.

Definition cuDeviceGet (device ordinal : Z) : M Z :=
  scope ← scope_enter Domain_Driver "cuDeviceGet"
    ("device=" +:+ fmt_p device +:+ ", ordinal=" +:+ fmt_i ordinal);
  real ← real_cu_device_get;
  ret ← call_or_unknown real [VPtr device; VInt ordinal];
  scope_finish scope (fmt_i ret);;
  mret ret.

Definition cuDeviceGetName (name len device : Z) : M Z :=
  scope ← scope_enter Domain_Driver "cuDeviceGetName"
    ("name=" +:+ fmt_p name +:+ ", len=" +:+ fmt_i len +:+ ", device=" +:+ fmt_i device);
  real ← real_cu_device_get_name;
  ret ← call_or_unknown real [VPtr name; VInt len; VInt device];
  scope_finish scope (fmt_i ret);;
  mret ret.

Definition cuCtxCreate_v2 (pctx flags dev : Z) : M Z :=
  scope ← scope_enter Domain_Driver "cuCtxCreate_v2"
    ("pctx=" +:+ fmt_p pctx +:+ ", flags=0x" +:+ fmt_x flags +:+ ", dev=" +:+ fmt_i dev);
  real ← real_cu_ctx_create_v2;
  ret ← call_or_unknown real [VPtr pctx; VUInt flags; VInt dev];
  scope_finish scope (fmt_i ret);;
  mret ret.

Definition cuCtxDestroy_v2 (ctx : Z) : M Z :=
  scope ← scope_enter Domain_Driver "cuCtxDestroy_v2"
    ("ctx=" +:+ fmt_p ctx);
  real ← real_cu_ctx_destroy_v2;
  ret ← call_or_unknown real [VPtr ctx];
  scope_finish scope (fmt_i ret);;
  mret ret.

Definition cuCtxSynchronize : M Z :=
  scope ← scope_enter Domain_Driver "cuCtxSynchronize"
    EmptyString;
  real ← real_cu_ctx_synchronize;
  ret ← call_or_unknown real [];
  scope_finish scope (fmt_i ret);;
  mret ret.

Definition cuCtxGetCurrent (pctx : Z) : M Z :=
  scope ← scope_enter Domain_Driver "cuCtxGetCurrent"
    ("pctx=" +:+ fmt_p pctx);
  real ← real_cu_ctx_get_current;
  ret ← call_or_unknown real [VPtr pctx];
  scope_finish scope (fmt_i ret);;
  mret ret.

Definition cuCtxSetCurrent (ctx : Z) : M Z :=
  scope ← scope_enter Domain_Driver "cuCtxSetCurrent"
    ("ctx=" +:+ fmt_p ctx);
  real ← real_cu_ctx_set_current;
  ret ← call_or_unknown real [VPtr ctx];
  scope_finish scope (fmt_i ret);;
  mret ret.

Definition cuCtxPushCurrent_v2 (ctx : Z) : M Z :=
  scope ← scope_enter Domain_Driver "cuCtxPushCurrent_v2"
    ("ctx=" +:+ fmt_p ctx);
  real ← or_else real_cu_ctx_push_current_v2 real_cu_ctx_push_current;
  ret ← call_or_unknown real [VPtr ctx];
  scope_finish scope (fmt_i ret);;
  mret ret.

Definition cuCtxPushCurrent (ctx : Z) : M Z := cuCtxPushCurrent_v2 ctx.

Definition cuCtxPopCurrent_v2 (pctx : Z) : M Z :=
  scope ← scope_enter Domain_Driver "cuCtxPopCurrent_v2"
    ("pctx=" +:+ fmt_p pctx);
  real ← or_else real_cu_ctx_pop_current_v2 real_cu_ctx_pop_current;
  ret ← call_or_unknown real [VPtr pctx];
  scope_finish scope (fmt_i ret);;
  mret ret.

Definition cuCtxPopCurrent (pctx : Z) : M Z := cuCtxPopCurrent_v2 pctx.

Definition cuDevicePrimaryCtxRetain (pctx dev : Z) : M Z :=
  scope ← scope_enter Domain_Driver "cuDevicePrimaryCtxRetain"
    ("pctx=" +:+ fmt_p pctx +:+ ", dev=" +:+ fmt_i dev);
  real ← real_cu_device_primary_ctx_retain;
  ret ← call_or_unknown real [VPtr pctx; VInt dev];
  scope_finish scope (fmt_i ret);;
  mret ret.

Definition cuDevicePrimaryCtxRelease (dev : Z) : M Z :=
  scope ← scope_enter Domain_Driver "cuDevicePrimaryCtxRelease"
    ("dev=" +:+ fmt_i dev);
  real ← real_cu_device_primary_ctx_release;
  ret ← call_or_unknown real [VInt dev];
  scope_finish scope (fmt_i ret);;
  mret ret.

Definition cuDevicePrimaryCtxReset (dev : Z) : M Z :=
  scope ← scope_enter Domain_Driver "cuDevicePrimaryCtxReset"
    ("dev=" +:+ fmt_i dev);
  real ← real_cu_device_primary_ctx_reset;
  ret ← call_or_unknown real [VInt dev];
  scope_finish scope (fmt_i ret);;
  mret ret.

Definition cuDevicePrimaryCtxSetFlags (dev flags : Z) : M Z :=
  scope ← scope_enter Domain_Driver "cuDevicePrimaryCtxSetFlags"
    ("dev=" +:+ fmt_i dev +:+ ", flags=0x" +:+ fmt_x flags);
  real ← or_else real_cu_device_primary_ctx_set_flags real_cu_device_primary_ctx_set_flags_v2;
  ret ← call_or_unknown real [VInt dev; VUInt flags];
  scope_finish scope (fmt_i ret);;
  mret ret.

Definition cuDevicePrimaryCtxSetFlags_v2 (dev flags : Z) : M Z := cuDevicePrimaryCtxSetFlags dev flags.

Definition cuDevicePrimaryCtxGetState (dev flags active : Z) : M Z :=
  scope ← scope_enter Domain_Driver "cuDevicePrimaryCtxGetState"
    ("dev=" +:+ fmt_i dev +:+ ", flags=" +:+ fmt_p flags +:+ ", active=" +:+ fmt_p active);
  real ← real_cu_device_primary_ctx_get_state;
  ret ← call_or_unknown real [VInt dev; VPtr flags; VPtr active];
  scope_finish scope (fmt_i ret);;
  mret ret.

Definition cuStreamCreate (stream flags : Z) : M Z :=
  scope ← scope_enter Domain_Driver "cuStreamCreate"
    ("stream=" +:+ fmt_p stream +:+ ", flags=0x" +:+ fmt_x flags);
  real ← real_cu_stream_create;
  ret ← call_or_unknown real [VPtr stream; VUInt flags];
  scope_finish scope (fmt_i ret);;
  mret ret.

Definition cuStreamCreateWithPriority (stream flags priority : Z) : M Z :=
  scope ← scope_enter Domain_Driver "cuStreamCreateWithPriority"
    ("stream=" +:+ fmt_p stream +:+ ", flags=0x" +:+ fmt_x flags +:+ ", priority=" +:+
     fmt_i priority);
  real ← real_cu_stream_create_with_priority;
  ret ← call_or_unknown real [VPtr stream; VUInt flags; VInt priority];
  scope_finish scope (fmt_i ret);;
  mret ret.

Definition cuStreamDestroy (stream : Z) : M Z :=
  scope ← scope_enter Domain_Driver "cuStreamDestroy"
    ("stream=" +:+ fmt_p stream);
  real ← or_else real_cu_stream_destroy real_cu_stream_destroy_v2;
  ret ← call_or_unknown real [VPtr stream];
  scope_finish scope (fmt_i ret);;
  mret ret.

Definition cuStreamDestroy_v2 (stream : Z) : M Z := cuStreamDestroy stream.

Definition cuEventCreate (event flags : Z) : M Z :=
  scope ← scope_enter Domain_Driver "cuEventCreate"
    ("event=" +:+ fmt_p event +:+ ", flags=0x" +:+ fmt_x flags);
  real ← real_cu_event_create;
  ret ← call_or_unknown real [VPtr event; VUInt flags];
  scope_finish scope (fmt_i ret);;
  mret ret.

Definition cuEventDestroy (event : Z) : M Z :=
  scope ← scope_enter Domain_Driver "cuEventDestroy"
    ("event=" +:+ fmt_p event);
  real ← or_else real_cu_event_destroy real_cu_event_destroy_v2;
  ret ← call_or_unknown real [VPtr event];
  scope_finish scope (fmt_i ret);;
  mret ret.

Definition cuEventDestroy_v2 (event : Z) : M Z := cuEventDestroy event.

Definition cuEventRecord (event stream : Z) : M Z :=
  scope ← scope_enter Domain_Driver "cuEventRecord"
    ("event=" +:+ fmt_p event +:+ ", stream=" +:+ fmt_p stream);
  real ← real_cu_event_record;
  ret ← call_or_unknown real [VPtr event; VPtr stream];
  scope_finish scope (fmt_i ret);;
  mret ret.

Definition cuEventRecord_ptsz (event stream : Z) : M Z := cuEventRecord event stream.

Definition cuEventRecordWithFlags (event stream flags : Z) : M Z :=
  scope ← scope_enter Domain_Driver "cuEventRecordWithFlags"
    ("event=" +:+ fmt_p event +:+ ", stream=" +:+ fmt_p stream +:+ ", flags=0x" +:+ fmt_x flags);
  real ← real_cu_event_record_with_flags;
  ret ← call_or_unknown real [VPtr event; VPtr stream; VUInt flags];
  scope_finish scope (fmt_i ret);;
  mret ret.

Definition cuEventRecordWithFlags_ptsz (event stream flags : Z) : M Z := cuEventRecordWithFlags event stream flags.

Definition cuEventSynchronize (event : Z) : M Z :=
  scope ← scope_enter Domain_Driver "cuEventSynchronize"
    ("event=" +:+ fmt_p event);
  real ← real_cu_event_synchronize;
  ret ← call_or_unknown real [VPtr event];
  scope_finish scope (fmt_i ret);;
  mret ret.

Definition cuEventElapsedTime (milliseconds start end_ : Z) : M Z :=
  scope ← scope_enter Domain_Driver "cuEventElapsedTime"
    ("ms=" +:+ fmt_p milliseconds +:+ ", start=" +:+ fmt_p start +:+ ", end=" +:+ fmt_p end_);
  real ← or_else real_cu_event_elapsed_time real_cu_event_elapsed_time_v2;
  ret ← call_or_unknown real [VPtr milliseconds; VPtr start; VPtr end_];
  scope_finish scope (fmt_i ret);;
  mret ret.

Definition cuEventElapsedTime_v2 (milliseconds start end_ : Z) : M Z := cuEventElapsedTime milliseconds start end_.

Definition cuModuleLoad (module_ fname : Z) : M Z :=
  scope ← scope_enter Domain_Driver "cuModuleLoad"
    ("module=" +:+ fmt_p module_ +:+ ", fname=" +:+ fmt_p fname);
  real ← real_cu_module_load;
  ret ← call_or_unknown real [VPtr module_; VPtr fname];
  scope_finish scope (fmt_i ret);;
  mret ret.

Definition cuModuleGetFunction (hfunc module_ name : Z) : M Z :=
  scope ← scope_enter Domain_Driver "cuModuleGetFunction"
    ("hfunc=" +:+ fmt_p hfunc +:+ ", module=" +:+ fmt_p module_ +:+ ", name=" +:+ fmt_p name);
  real ← real_cu_module_get_function;
  ret ← call_or_unknown real [VPtr hfunc; VPtr module_; VPtr name];
  scope_finish scope (fmt_i ret);;
  mret ret.

Definition cuModuleUnload (module_ : Z) : M Z :=
  scope ← scope_enter Domain_Driver "cuModuleUnload"
    ("module=" +:+ fmt_p module_);
  real ← real_cu_module_unload;
  ret ← call_or_unknown real [VPtr module_];
  scope_finish scope (fmt_i ret);;
  mret ret.

Definition cuLaunchKernel (f grid_x grid_y grid_z block_x block_y block_z shared_mem_bytes hstream kernel_params extra : Z) : M Z :=
  scope ← scope_enter Domain_Driver "cuLaunchKernel"
    ("f=" +:+ fmt_p f +:+ ", grid=(" +:+ fmt_u grid_x +:+ "," +:+ fmt_u grid_y +:+ "," +:+
     fmt_u grid_z +:+ "), block=(" +:+ fmt_u block_x +:+ "," +:+ fmt_u block_y +:+ "," +:+
     fmt_u block_z +:+ "), sharedMem=" +:+ fmt_u shared_mem_bytes +:+ ", stream=" +:+
     fmt_p hstream +:+ ", params=" +:+ fmt_p kernel_params +:+ ", extra=" +:+ fmt_p extra);
  real ← real_cu_launch_kernel;
  ret ← call_or_unknown real [VPtr f; VUInt grid_x; VUInt grid_y; VUInt grid_z; VUInt block_x; VUInt block_y; VUInt block_z; VUInt shared_mem_bytes; VPtr hstream; VPtr kernel_params; VPtr extra];
  scope_finish scope (fmt_i ret);;
  mret ret.

Definition cuMemcpyAsync (dst src byte_count stream : Z) : M Z :=
  scope ← scope_enter Domain_Driver "cuMemcpyAsync"
    ("dst=0x" +:+ fmt_x dst +:+ ", src=0x" +:+ fmt_x src +:+ ", byte_count=" +:+
     fmt_u byte_count +:+ ", stream=" +:+ fmt_p stream);
  real ← real_cu_memcpy_async;
  ret ← call_or_unknown real [VU64 dst; VU64 src; VU64 byte_count; VPtr stream];
  scope_finish scope (fmt_i ret);;
  mret ret.

Definition cuMemcpyAsync_ptsz (dst src byte_count stream : Z) : M Z := cuMemcpyAsync dst src byte_count stream.

Definition cuMemcpyHtoDAsync_v2 (dst_device src_host byte_count stream : Z) : M Z :=
  scope ← scope_enter Domain_Driver "cuMemcpyHtoDAsync_v2"
    ("dst_device=0x" +:+ fmt_x dst_device +:+ ", src_host=" +:+ fmt_p src_host +:+
     ", byte_count=" +:+ fmt_u byte_count +:+ ", stream=" +:+ fmt_p stream);
  real ← or_else real_cu_memcpy_htod_async_v2 real_cu_memcpy_htod_async;
  ret ← call_or_unknown real [VU64 dst_device; VPtr src_host; VU64 byte_count; VPtr stream];
  scope_finish scope (fmt_i ret);;
  mret ret.

Definition cuMemcpyHtoDAsync (dst_device src_host byte_count stream : Z) : M Z := cuMemcpyHtoDAsync_v2 dst_device src_host byte_count stream.

Definition cuMemcpyHtoDAsync_v2_ptsz (dst_device src_host byte_count stream : Z) : M Z := cuMemcpyHtoDAsync_v2 dst_device src_host byte_count stream.

Definition cuMemcpyDtoHAsync_v2 (dst_host src_device byte_count stream : Z) : M Z :=
  scope ← scope_enter Domain_Driver "cuMemcpyDtoHAsync_v2"
    ("dst_host=" +:+ fmt_p dst_host +:+ ", src_device=0x" +:+ fmt_x src_device +:+
     ", byte_count=" +:+ fmt_u byte_count +:+ ", stream=" +:+ fmt_p stream);
  real ← or_else real_cu_memcpy_dtoh_async_v2 real_cu_memcpy_dtoh_async;
  ret ← call_or_unknown real [VPtr dst_host; VU64 src_device; VU64 byte_count; VPtr stream];
  scope_finish scope (fmt_i ret);;
  mret ret.

Definition cuMemcpyDtoHAsync (dst_host src_device byte_count stream : Z) : M Z := cuMemcpyDtoHAsync_v2 dst_host src_device byte_count stream.

Definition cuMemcpyDtoHAsync_v2_ptsz (dst_host src_device byte_count stream : Z) : M Z := cuMemcpyDtoHAsync_v2 dst_host src_device byte_count stream.

Definition cuMemcpyHtoD_v2 (dst_device src_host byte_count : Z) : M Z :=
  scope ← scope_enter Domain_Driver "cuMemcpyHtoD_v2"
    ("dst_device=0x" +:+ fmt_x dst_device +:+ ", src_host=" +:+ fmt_p src_host +:+
     ", byte_count=" +:+ fmt_u byte_count);
  real ← real_cu_memcpy_htod_v2;
  ret ← call_or_unknown real [VU64 dst_device; VPtr src_host; VU64 byte_count];
  scope_finish scope (fmt_i ret);;
  mret ret.

Definition cuMemcpyDtoH_v2 (dst_host src_device byte_count : Z) : M Z :=
  scope ← scope_enter Domain_Driver "cuMemcpyDtoH_v2"
    ("dst_host=" +:+ fmt_p dst_host +:+ ", src_device=0x" +:+ fmt_x src_device +:+
     ", byte_count=" +:+ fmt_u byte_count);
  real ← real_cu_memcpy_dtoh_v2;
  ret ← call_or_unknown real [VPtr dst_host; VU64 src_device; VU64 byte_count];
  scope_finish scope (fmt_i ret);;
  mret ret.

Definition cuMemAlloc_v2 (dptr bytesize : Z) : M Z :=
  scope ← scope_enter Domain_Driver "cuMemAlloc_v2"
    ("dptr=" +:+ fmt_p dptr +:+ ", bytesize=" +:+ fmt_u bytesize);
  real ← real_cu_mem_alloc_v2;
  ret ← call_or_unknown real [VPtr dptr; VU64 bytesize];
  scope_finish scope (fmt_i ret);;
  mret ret.

Definition cuMemFree_v2 (dptr : Z) : M Z :=
  scope ← scope_enter Domain_Driver "cuMemFree_v2"
    ("dptr=0x" +:+ fmt_x dptr);
  real ← real_cu_mem_free_v2;
  ret ← call_or_unknown real [VU64 dptr];
  scope_finish scope (fmt_i ret);;
  mret ret.

Definition cuMemAllocHost_v2 (pp bytesize : Z) : M Z :=
  scope ← scope_enter Domain_Driver "cuMemAllocHost_v2"
    ("pp=" +:+ fmt_p pp +:+ ", bytesize=" +:+ fmt_u bytesize);
  real ← real_cu_mem_alloc_host_v2;
  ret ← call_or_unknown real [VPtr pp; VU64 bytesize];
  scope_finish scope (fmt_i ret);;
  mret ret.

Definition cuMemFreeHost (p : Z) : M Z :=
  scope ← scope_enter Domain_Driver "cuMemFreeHost"
    ("p=" +:+ fmt_p p);
  real ← real_cu_mem_free_host;
  ret ← call_or_unknown real [VPtr p];
  scope_finish scope (fmt_i ret);;
  mret ret.

End Hooks.
