(* ===== verification/CudartHooks.v ===== *)
(** * The hooks of the runtime API: [src/src/hook/cudart.rs] *)
From S2P Require Import Prelude RustStr Config Hook CudaAbi CudaProc.

Section Hooks.
Context `{Process}.

(** ** The functions of the real library *)

Definition real_cuda_malloc : M (option (FnPtr CudaMallocFn)) :=
  get_or_init "REAL_CUDA_MALLOC" (resolve_next_from_ptr (Some "cudaMalloc")).
Definition real_cuda_free : M (option (FnPtr CudaFreeFn)) :=
  get_or_init "REAL_CUDA_FREE" (resolve_next_from_ptr (Some "cudaFree")).
Definition real_cuda_host_alloc : M (option (FnPtr CudaHostAllocFn)) :=
  get_or_init "REAL_CUDA_HOST_ALLOC" (resolve_next_from_ptr (Some "cudaHostAlloc")).
Definition real_cuda_malloc_host : M (option (FnPtr CudaMallocHostFn)) :=
  get_or_init "REAL_CUDA_MALLOC_HOST" (resolve_next_from_ptr (Some "cudaMallocHost")).
Definition real_cuda_free_host : M (option (FnPtr CudaFreeHostFn)) :=
  get_or_init "REAL_CUDA_FREE_HOST" (resolve_next_from_ptr (Some "cudaFreeHost")).
Definition real_cuda_memcpy_async : M (option (FnPtr CudaMemcpyAsyncFn)) :=
  get_or_init "REAL_CUDA_MEMCPY_ASYNC" (resolve_next_from_ptr (Some "cudaMemcpyAsync")).
Definition real_cuda_launch_kernel : M (option (FnPtr CudaLaunchKernelFn)) :=
  get_or_init "REAL_CUDA_LAUNCH_KERNEL" (resolve_next_from_ptr (Some "cudaLaunchKernel")).
Definition real_cuda_stream_create : M (option (FnPtr CudaStreamCreateFn)) :=
  get_or_init "REAL_CUDA_STREAM_CREATE" (resolve_next_from_ptr (Some "cudaStreamCreate")).
Definition real_cuda_stream_destroy : M (option (FnPtr CudaStreamDestroyFn)) :=
  get_or_init "REAL_CUDA_STREAM_DESTROY" (resolve_next_from_ptr (Some "cudaStreamDestroy")).
Definition real_cuda_event_create : M (option (FnPtr CudaEventCreateFn)) :=
  get_or_init "REAL_CUDA_EVENT_CREATE" (resolve_next_from_ptr (Some "cudaEventCreate")).
Definition real_cuda_event_record : M (option (FnPtr CudaEventRecordFn)) :=
  get_or_init "REAL_CUDA_EVENT_RECORD" (resolve_next_from_ptr (Some "cudaEventRecord")).
Definition real_cuda_event_synchronize : M (option (FnPtr CudaEventSynchronizeFn)) :=
  get_or_init "REAL_CUDA_EVENT_SYNCHRONIZE" (resolve_next_from_ptr (Some "cudaEventSynchronize")).
Definition real_cuda_event_elapsed_time : M (option (FnPtr CudaEventElapsedTimeFn)) :=
  get_or_init "REAL_CUDA_EVENT_ELAPSED_TIME" (resolve_next_from_ptr (Some "cudaEventElapsedTime")).
Definition real_cuda_device_reset : M (option (FnPtr CudaDeviceResetFn)) :=
  get_or_init "REAL_CUDA_DEVICE_RESET" (resolve_next_from_ptr (Some "cudaDeviceReset")).

(** ** The hooks *)

Definition cudaMalloc (dev_ptr size : Z) : M Z :=
  scope ← scope_enter Domain_Cudart "cudaMalloc"
    ("dev_ptr=" +:+ fmt_p dev_ptr +:+ ", size=" +:+ fmt_u size);
  real ← real_cuda_malloc;
  ret ← call_or_unknown real [VPtr dev_ptr; VU64 size];
  scope_finish scope (fmt_i ret);;
  mret ret.

Definition cudaFree (dev_ptr : Z) : M Z :=
  scope ← scope_enter Domain_Cudart "cudaFree"
    ("dev_ptr=" +:+ fmt_p dev_ptr);
  real ← real_cuda_free;
  ret ← call_or_unknown real [VPtr dev_ptr];
  scope_finish scope (fmt_i ret);;
  mret ret.

Definition cudaHostAlloc (ptr size flags : Z) : M Z :=
  scope ← scope_enter Domain_Cudart "cudaHostAlloc"
    ("ptr=" +:+ fmt_p ptr +:+ ", size=" +:+ fmt_u size +:+ ", flags=0x" +:+ fmt_x flags);
  real ← real_cuda_host_alloc;
  ret ← call_or_unknown real [VPtr ptr; VU64 size; VUInt flags];
  scope_finish scope (fmt_i ret);;
  mret ret.

Definition cudaMallocHost (ptr size : Z) : M Z :=
  scope ← scope_enter Domain_Cudart "cudaMallocHost"
    ("ptr=" +:+ fmt_p ptr +:+ ", size=" +:+ fmt_u size);
  real ← real_cuda_malloc_host;
  ret ← call_or_unknown real [VPtr ptr; VU64 size];
  scope_finish scope (fmt_i ret);;
  mret ret.

Definition cudaFreeHost (ptr : Z) : M Z :=
  scope ← scope_enter Domain_Cudart "cudaFreeHost"
    ("ptr=" +:+ fmt_p ptr);
  real ← real_cuda_free_host;
  ret ← call_or_unknown real [VPtr ptr];
  scope_finish scope (fmt_i ret);;
  mret ret.

Definition cudaMemcpyAsync (dst src count kind stream : Z) : M Z :=
  scope ← scope_enter Domain_Cudart "cudaMemcpyAsync"
    ("dst=" +:+ fmt_p dst +:+ ", src=" +:+ fmt_p src +:+ ", count=" +:+ fmt_u count +:+
     ", kind=" +:+ fmt_i kind +:+ ", stream=" +:+ fmt_p stream);
  real ← real_cuda_memcpy_async;
  ret ← call_or_unknown real [VPtr dst; VPtr src; VU64 count; VInt kind; VPtr stream];
  scope_finish scope (fmt_i ret);;
  mret ret.

Definition cudaLaunchKernel (func : Z) (grid_dim : dim3) (block_dim : dim3) (args shared_mem stream : Z) : M Z :=
  scope ← scope_enter Domain_Cudart "cudaLaunchKernel"
    ("func=" +:+ fmt_p func +:+ ", grid=(" +:+ fmt_u (x_ grid_dim) +:+ ", " +:+
     fmt_u (y_ grid_dim) +:+ ", " +:+ fmt_u (z_ grid_dim) +:+ "), block=(" +:+
     fmt_u (x_ block_dim) +:+ ", " +:+ fmt_u (y_ block_dim) +:+ ", " +:+ fmt_u (z_ block_dim) +:+
     "), args=" +:+ fmt_p args +:+ ", sharedMem=" +:+ fmt_u shared_mem +:+ ", stream=" +:+
     fmt_p stream);
  real ← real_cuda_launch_kernel;
  ret ← call_or_unknown real [VPtr func; VDim3 grid_dim; VDim3 block_dim; VPtr args; VU64 shared_mem; VPtr stream];
  scope_finish scope (fmt_i ret);;
  mret ret.

Definition cudaStreamCreate (stream : Z) : M Z :=
  scope ← scope_enter Domain_Cudart "cudaStreamCreate"
    ("stream=" +:+ fmt_p stream);
  real ← real_cuda_stream_create;
  ret ← call_or_unknown real [VPtr stream];
  scope_finish scope (fmt_i ret);;
  mret ret.

Definition cudaStreamDestroy (stream : Z) : M Z :=
  scope ← scope_enter Domain_Cudart "cudaStreamDestroy"
    ("stream=" +:+ fmt_p stream);
  real ← real_cuda_stream_destroy;
  ret ← call_or_unknown real [VPtr stream];
  scope_finish scope (fmt_i ret);;
  mret ret.

Definition cudaEventCreate (event : Z) : M Z :=
  scope ← scope_enter Domain_Cudart "cudaEventCreate"
    ("event=" +:+ fmt_p event);
  real ← real_cuda_event_create;
  ret ← call_or_unknown real [VPtr event];
  scope_finish scope (fmt_i ret);;
  mret ret.

Definition cudaEventRecord (event stream : Z) : M Z :=
  scope ← scope_enter Domain_Cudart "cudaEventRecord"
    ("event=" +:+ fmt_p event +:+ ", stream=" +:+ fmt_p stream);
  real ← real_cuda_event_record;
  ret ← call_or_unknown real [VPtr event; VPtr stream];
  scope_finish scope (fmt_i ret);;
  mret ret.

Definition cudaEventSynchronize (event : Z) : M Z :=
  scope ← scope_enter Domain_Cudart "cudaEventSynchronize"
    ("event=" +:+ fmt_p event);
  real ← real_cuda_event_synchronize;
  ret ← call_or_unknown real [VPtr event];
  scope_finish scope (fmt_i ret);;
  mret ret.

Definition cudaEventElapsedTime (ms start end_ : Z) : M Z :=
  scope ← scope_enter Domain_Cudart "cudaEventElapsedTime"
    ("ms=" +:+ fmt_p ms +:+ ", start=" +:+ fmt_p start +:+ ", end=" +:+ fmt_p end_);
  real ← real_cuda_event_elapsed_time;
  ret ← call_or_unknown real [VPtr ms; VPtr start; VPtr end_];
  scope_finish scope (fmt_i ret);;
  mret ret.

Definition cudaDeviceReset : M Z :=
  scope ← scope_enter Domain_Cudart "cudaDeviceReset"
    EmptyString;
  real ← real_cuda_device_reset;
  ret ← call_or_unknown real [];
  scope_finish scope (fmt_i ret);;
  mret ret.

End Hooks.
