(* ===== verification/CudaCalls.v ===== *)
(** * The hooks as one family: how a call reaches them and what they are

    [hook_code] is the calling convention (the function at an exported name,
    applied to the values passed); [hook_desc] and [hook_format] say of each
    hook under which name it is traced, which real function it forwards to and
    how it prints its arguments. *)
From S2P Require Import Prelude RustStr Config Hook CudaAbi CudaProc DriverHooks CudartHooks.

(** A conversion of a format string, and the text of a value under it. *)
Inductive Conv := Conv_p | Conv_x | Conv_u | Conv_i.

Definition conv (c : Conv) (n : Z) : string :=
  match c with Conv_p => fmt_p n | Conv_x => fmt_x n | Conv_u => fmt_u n | Conv_i => fmt_i n end.

(** The integers a value is printed as. *)
Definition printed (v : CVal) : list Z :=
  match v with
  | VPtr n | VInt n | VUInt n | VU64 n => [n]
  | VDim3 d => [x_ d; y_ d; z_ d]
  end.

(** A format: the text before each conversion. *)
Fixpoint render_format (fs : list (string * Conv)) (ns : list Z) : string :=
  match fs, ns with
  | [(l, c)], n :: _ => l +:+ conv c n
  | (l, c) :: fs, n :: ns => l +:+ conv c n +:+ render_format fs ns
  | _, _ => EmptyString
  end.

Definition hook_format (h : HookFn) : list (string * Conv) :=
  match h with
  | F_cuInit =>
      [("flags=0x", Conv_x)]
  | F_cuDeviceGet =>
      [("device=", Conv_p); (", ordinal=", Conv_i)]
  | F_cuDeviceGetName =>
      [("name=", Conv_p); (", len=", Conv_i); (", device=", Conv_i)]
  | F_cuCtxCreate_v2 =>
      [("pctx=", Conv_p); (", flags=0x", Conv_x); (", dev=", Conv_i)]
  | F_cuCtxDestroy_v2 =>
      [("ctx=", Conv_p)]
  | F_cuCtxSynchronize =>
      []
  | F_cuCtxGetCurrent =>
      [("pctx=", Conv_p)]
  | F_cuCtxSetCurrent =>
      [("ctx=", Conv_p)]
  | F_cuCtxPushCurrent_v2 | F_cuCtxPushCurrent =>
      [("ctx=", Conv_p)]
  | F_cuCtxPopCurrent_v2 | F_cuCtxPopCurrent =>
      [("pctx=", Conv_p)]
  | F_cuDevicePrimaryCtxRetain =>
      [("pctx=", Conv_p); (", dev=", Conv_i)]
  | F_cuDevicePrimaryCtxRelease =>
      [("dev=", Conv_i)]
  | F_cuDevicePrimaryCtxReset =>
      [("dev=", Conv_i)]
  | F_cuDevicePrimaryCtxSetFlags | F_cuDevicePrimaryCtxSetFlags_v2 =>
      [("dev=", Conv_i); (", flags=0x", Conv_x)]
  | F_cuDevicePrimaryCtxGetState =>
      [("dev=", Conv_i); (", flags=", Conv_p); (", active=", Conv_p)]
  | F_cuStreamCreate =>
      [("stream=", Conv_p); (", flags=0x", Conv_x)]
  | F_cuStreamCreateWithPriority =>
      [("stream=", Conv_p); (", flags=0x", Conv_x); (", priority=", Conv_i)]
  | F_cuStreamDestroy | F_cuStreamDestroy_v2 =>
      [("stream=", Conv_p)]
  | F_cuEventCreate =>
      [("event=", Conv_p); (", flags=0x", Conv_x)]
  | F_cuEventDestroy | F_cuEventDestroy_v2 =>
      [("event=", Conv_p)]
  | F_cuEventRecord | F_cuEventRecord_ptsz =>
      [("event=", Conv_p); (", stream=", Conv_p)]
  | F_cuEventRecordWithFlags | F_cuEventRecordWithFlags_ptsz =>
      [("event=", Conv_p); (", stream=", Conv_p); (", flags=0x", Conv_x)]
  | F_cuEventSynchronize =>
      [("event=", Conv_p)]
  | F_cuEventElapsedTime | F_cuEventElapsedTime_v2 =>
      [("ms=", Conv_p); (", start=", Conv_p); (", end=", Conv_p)]
  | F_cuModuleLoad =>
      [("module=", Conv_p); (", fname=", Conv_p)]
  | F_cuModuleGetFunction =>
      [("hfunc=", Conv_p); (", module=", Conv_p); (", name=", Conv_p)]
  | F_cuModuleUnload =>
      [("module=", Conv_p)]
  | F_cuLaunchKernel =>
      [("f=", Conv_p); (", grid=(", Conv_u); (",", Conv_u); (",", Conv_u);
       ("), block=(", Conv_u); (",", Conv_u); (",", Conv_u); ("), sharedMem=", Conv_u);
       (", stream=", Conv_p); (", params=", Conv_p); (", extra=", Conv_p)]
  | F_cuMemcpyAsync | F_cuMemcpyAsync_ptsz =>
      [("dst=0x", Conv_x); (", src=0x", Conv_x); (", byte_count=", Conv_u);
       (", stream=", Conv_p)]
  | F_cuMemcpyHtoDAsync_v2 | F_cuMemcpyHtoDAsync | F_cuMemcpyHtoDAsync_v2_ptsz =>
      [("dst_device=0x", Conv_x); (", src_host=", Conv_p); (", byte_count=", Conv_u);
       (", stream=", Conv_p)]
  | F_cuMemcpyDtoHAsync_v2 | F_cuMemcpyDtoHAsync | F_cuMemcpyDtoHAsync_v2_ptsz =>
      [("dst_host=", Conv_p); (", src_device=0x", Conv_x); (", byte_count=", Conv_u);
       (", stream=", Conv_p)]
  | F_cuMemcpyHtoD_v2 =>
      [("dst_device=0x", Conv_x); (", src_host=", Conv_p); (", byte_count=", Conv_u)]
  | F_cuMemcpyDtoH_v2 =>
      [("dst_host=", Conv_p); (", src_device=0x", Conv_x); (", byte_count=", Conv_u)]
  | F_cuMemAlloc_v2 =>
      [("dptr=", Conv_p); (", bytesize=", Conv_u)]
  | F_cuMemFree_v2 =>
      [("dptr=0x", Conv_x)]
  | F_cuMemAllocHost_v2 =>
      [("pp=", Conv_p); (", bytesize=", Conv_u)]
  | F_cuMemFreeHost =>
      [("p=", Conv_p)]
  | F_cudaMalloc =>
      [("dev_ptr=", Conv_p); (", size=", Conv_u)]
  | F_cudaFree =>
      [("dev_ptr=", Conv_p)]
  | F_cudaHostAlloc =>
      [("ptr=", Conv_p); (", size=", Conv_u); (", flags=0x", Conv_x)]
  | F_cudaMallocHost =>
      [("ptr=", Conv_p); (", size=", Conv_u)]
  | F_cudaFreeHost =>
      [("ptr=", Conv_p)]
  | F_cudaMemcpyAsync =>
      [("dst=", Conv_p); (", src=", Conv_p); (", count=", Conv_u); (", kind=", Conv_i);
       (", stream=", Conv_p)]
  | F_cudaLaunchKernel =>
      [("func=", Conv_p); (", grid=(", Conv_u); (", ", Conv_u); (", ", Conv_u);
       ("), block=(", Conv_u); (", ", Conv_u); (", ", Conv_u); ("), args=", Conv_p);
       (", sharedMem=", Conv_u); (", stream=", Conv_p)]
  | F_cudaStreamCreate =>
      [("stream=", Conv_p)]
  | F_cudaStreamDestroy =>
      [("stream=", Conv_p)]
  | F_cudaEventCreate =>
      [("event=", Conv_p)]
  | F_cudaEventRecord =>
      [("event=", Conv_p); (", stream=", Conv_p)]
  | F_cudaEventSynchronize =>
      [("event=", Conv_p)]
  | F_cudaEventElapsedTime =>
      [("ms=", Conv_p); (", start=", Conv_p); (", end=", Conv_p)]
  | F_cudaDeviceReset =>
      []
  | F_cuGetProcAddress | F_cuGetProcAddress_v2 => []
  end.

Definition hook_text (h : HookFn) (args : list CVal) : string :=
  render_format (hook_format h) (args ≫= printed).

(** The statics and the symbols a hook asks for its real function, in order. *)
Definition hook_reals (h : HookFn) : list (string * string) :=
  match h with
  | F_cuInit =>
      [("REAL_CU_INIT", "cuInit")]
  | F_cuDeviceGet =>
      [("REAL_CU_DEVICE_GET", "cuDeviceGet")]
  | F_cuDeviceGetName =>
      [("REAL_CU_DEVICE_GET_NAME", "cuDeviceGetName")]
  | F_cuCtxCreate_v2 =>
      [("REAL_CU_CTX_CREATE_V2", "cuCtxCreate_v2")]
  | F_cuCtxDestroy_v2 =>
      [("REAL_CU_CTX_DESTROY_V2", "cuCtxDestroy_v2")]
  | F_cuCtxSynchronize =>
      [("REAL_CU_CTX_SYNCHRONIZE", "cuCtxSynchronize")]
  | F_cuCtxGetCurrent =>
      [("REAL_CU_CTX_GET_CURRENT", "cuCtxGetCurrent")]
  | F_cuCtxSetCurrent =>
      [("REAL_CU_CTX_SET_CURRENT", "cuCtxSetCurrent")]
  | F_cuCtxPushCurrent_v2 | F_cuCtxPushCurrent =>
      [("REAL_CU_CTX_PUSH_CURRENT_V2", "cuCtxPushCurrent_v2");
       ("REAL_CU_CTX_PUSH_CURRENT", "cuCtxPushCurrent")]
  | F_cuCtxPopCurrent_v2 | F_cuCtxPopCurrent =>
      [("REAL_CU_CTX_POP_CURRENT_V2", "cuCtxPopCurrent_v2");
       ("REAL_CU_CTX_POP_CURRENT", "cuCtxPopCurrent")]
  | F_cuDevicePrimaryCtxRetain =>
      [("REAL_CU_DEVICE_PRIMARY_CTX_RETAIN", "cuDevicePrimaryCtxRetain")]
  | F_cuDevicePrimaryCtxRelease =>
      [("REAL_CU_DEVICE_PRIMARY_CTX_RELEASE", "cuDevicePrimaryCtxRelease")]
  | F_cuDevicePrimaryCtxReset =>
      [("REAL_CU_DEVICE_PRIMARY_CTX_RESET", "cuDevicePrimaryCtxReset")]
  | F_cuDevicePrimaryCtxSetFlags | F_cuDevicePrimaryCtxSetFlags_v2 =>
      [("REAL_CU_DEVICE_PRIMARY_CTX_SET_FLAGS", "cuDevicePrimaryCtxSetFlags");
       ("REAL_CU_DEVICE_PRIMARY_CTX_SET_FLAGS_V2", "cuDevicePrimaryCtxSetFlags_v2")]
  | F_cuDevicePrimaryCtxGetState =>
      [("REAL_CU_DEVICE_PRIMARY_CTX_GET_STATE", "cuDevicePrimaryCtxGetState")]
  | F_cuStreamCreate =>
      [("REAL_CU_STREAM_CREATE", "cuStreamCreate")]
  | F_cuStreamCreateWithPriority =>
      [("REAL_CU_STREAM_CREATE_WITH_PRIORITY", "cuStreamCreateWithPriority")]
  | F_cuStreamDestroy | F_cuStreamDestroy_v2 =>
      [("REAL_CU_STREAM_DESTROY", "cuStreamDestroy");
       ("REAL_CU_STREAM_DESTROY_V2", "cuStreamDestroy_v2")]
  | F_cuEventCreate =>
      [("REAL_CU_EVENT_CREATE", "cuEventCreate")]
  | F_cuEventDestroy | F_cuEventDestroy_v2 =>
      [("REAL_CU_EVENT_DESTROY", "cuEventDestroy");
       ("REAL_CU_EVENT_DESTROY_V2", "cuEventDestroy_v2")]
  | F_cuEventRecord | F_cuEventRecord_ptsz =>
      [("REAL_CU_EVENT_RECORD", "cuEventRecord")]
  | F_cuEventRecordWithFlags | F_cuEventRecordWithFlags_ptsz =>
      [("REAL_CU_EVENT_RECORD_WITH_FLAGS", "cuEventRecordWithFlags")]
  | F_cuEventSynchronize =>
      [("REAL_CU_EVENT_SYNCHRONIZE", "cuEventSynchronize")]
  | F_cuEventElapsedTime | F_cuEventElapsedTime_v2 =>
      [("REAL_CU_EVENT_ELAPSED_TIME", "cuEventElapsedTime");
       ("REAL_CU_EVENT_ELAPSED_TIME_V2", "cuEventElapsedTime_v2")]
  | F_cuModuleLoad =>
      [("REAL_CU_MODULE_LOAD", "cuModuleLoad")]
  | F_cuModuleGetFunction =>
      [("REAL_CU_MODULE_GET_FUNCTION", "cuModuleGetFunction")]
  | F_cuModuleUnload =>
      [("REAL_CU_MODULE_UNLOAD", "cuModuleUnload")]
  | F_cuLaunchKernel =>
      [("REAL_CU_LAUNCH_KERNEL", "cuLaunchKernel")]
  | F_cuMemcpyAsync | F_cuMemcpyAsync_ptsz =>
      [("REAL_CU_MEMCPY_ASYNC", "cuMemcpyAsync")]
  | F_cuMemcpyHtoDAsync_v2 | F_cuMemcpyHtoDAsync | F_cuMemcpyHtoDAsync_v2_ptsz =>
      [("REAL_CU_MEMCPY_HTOD_ASYNC_V2", "cuMemcpyHtoDAsync_v2");
       ("REAL_CU_MEMCPY_HTOD_ASYNC", "cuMemcpyHtoDAsync")]
  | F_cuMemcpyDtoHAsync_v2 | F_cuMemcpyDtoHAsync | F_cuMemcpyDtoHAsync_v2_ptsz =>
      [("REAL_CU_MEMCPY_DTOH_ASYNC_V2", "cuMemcpyDtoHAsync_v2");
       ("REAL_CU_MEMCPY_DTOH_ASYNC", "cuMemcpyDtoHAsync")]
  | F_cuMemcpyHtoD_v2 =>
      [("REAL_CU_MEMCPY_HTOD_V2", "cuMemcpyHtoD_v2")]
  | F_cuMemcpyDtoH_v2 =>
      [("REAL_CU_MEMCPY_DTOH_V2", "cuMemcpyDtoH_v2")]
  | F_cuMemAlloc_v2 =>
      [("REAL_CU_MEM_ALLOC_V2", "cuMemAlloc_v2")]
  | F_cuMemFree_v2 =>
      [("REAL_CU_MEM_FREE_V2", "cuMemFree_v2")]
  | F_cuMemAllocHost_v2 =>
      [("REAL_CU_MEM_ALLOC_HOST_V2", "cuMemAllocHost_v2")]
  | F_cuMemFreeHost =>
      [("REAL_CU_MEM_FREE_HOST", "cuMemFreeHost")]
  | F_cudaMalloc =>
      [("REAL_CUDA_MALLOC", "cudaMalloc")]
  | F_cudaFree =>
      [("REAL_CUDA_FREE", "cudaFree")]
  | F_cudaHostAlloc =>
      [("REAL_CUDA_HOST_ALLOC", "cudaHostAlloc")]
  | F_cudaMallocHost =>
      [("REAL_CUDA_MALLOC_HOST", "cudaMallocHost")]
  | F_cudaFreeHost =>
      [("REAL_CUDA_FREE_HOST", "cudaFreeHost")]
  | F_cudaMemcpyAsync =>
      [("REAL_CUDA_MEMCPY_ASYNC", "cudaMemcpyAsync")]
  | F_cudaLaunchKernel =>
      [("REAL_CUDA_LAUNCH_KERNEL", "cudaLaunchKernel")]
  | F_cudaStreamCreate =>
      [("REAL_CUDA_STREAM_CREATE", "cudaStreamCreate")]
  | F_cudaStreamDestroy =>
      [("REAL_CUDA_STREAM_DESTROY", "cudaStreamDestroy")]
  | F_cudaEventCreate =>
      [("REAL_CUDA_EVENT_CREATE", "cudaEventCreate")]
  | F_cudaEventRecord =>
      [("REAL_CUDA_EVENT_RECORD", "cudaEventRecord")]
  | F_cudaEventSynchronize =>
      [("REAL_CUDA_EVENT_SYNCHRONIZE", "cudaEventSynchronize")]
  | F_cudaEventElapsedTime =>
      [("REAL_CUDA_EVENT_ELAPSED_TIME", "cudaEventElapsedTime")]
  | F_cudaDeviceReset =>
      [("REAL_CUDA_DEVICE_RESET", "cudaDeviceReset")]
  | F_cuGetProcAddress | F_cuGetProcAddress_v2 => []
  end.

Section Calls.
Context `{Process}.

Record HookDesc := {
  hd_domain : TraceDomain;
  hd_name : string;
  hd_type : FnType;
  hd_real : M (option (FnPtr hd_type))
}.

(** The hooks that trace; [cuGetProcAddress] does not. *)
Definition hook_desc (h : HookFn) : option HookDesc :=
  match h with
  | F_cuInit =>
      Some {| hd_domain := Domain_Driver; hd_name := "cuInit"; hd_type := CuInitFn;
              hd_real := real_cu_init |}
  | F_cuDeviceGet =>
      Some {| hd_domain := Domain_Driver; hd_name := "cuDeviceGet"; hd_type := CuDeviceGetFn;
              hd_real := real_cu_device_get |}
  | F_cuDeviceGetName =>
      Some {| hd_domain := Domain_Driver; hd_name := "cuDeviceGetName"; hd_type := CuDeviceGetNameFn;
              hd_real := real_cu_device_get_name |}
  | F_cuCtxCreate_v2 =>
      Some {| hd_domain := Domain_Driver; hd_name := "cuCtxCreate_v2"; hd_type := CuCtxCreateV2Fn;
              hd_real := real_cu_ctx_create_v2 |}
  | F_cuCtxDestroy_v2 =>
      Some {| hd_domain := Domain_Driver; hd_name := "cuCtxDestroy_v2"; hd_type := CuCtxDestroyV2Fn;
              hd_real := real_cu_ctx_destroy_v2 |}
  | F_cuCtxSynchronize =>
      Some {| hd_domain := Domain_Driver; hd_name := "cuCtxSynchronize"; hd_type := CuCtxSynchronizeFn;
              hd_real := real_cu_ctx_synchronize |}
  | F_cuCtxGetCurrent =>
      Some {| hd_domain := Domain_Driver; hd_name := "cuCtxGetCurrent"; hd_type := CuCtxGetCurrentFn;
              hd_real := real_cu_ctx_get_current |}
  | F_cuCtxSetCurrent =>
      Some {| hd_domain := Domain_Driver; hd_name := "cuCtxSetCurrent"; hd_type := CuCtxSetCurrentFn;
              hd_real := real_cu_ctx_set_current |}
  | F_cuCtxPushCurrent_v2 | F_cuCtxPushCurrent =>
      Some {| hd_domain := Domain_Driver; hd_name := "cuCtxPushCurrent_v2"; hd_type := CuCtxPushCurrentV2Fn;
              hd_real := or_else real_cu_ctx_push_current_v2 real_cu_ctx_push_current |}
  | F_cuCtxPopCurrent_v2 | F_cuCtxPopCurrent =>
      Some {| hd_domain := Domain_Driver; hd_name := "cuCtxPopCurrent_v2"; hd_type := CuCtxPopCurrentV2Fn;
              hd_real := or_else real_cu_ctx_pop_current_v2 real_cu_ctx_pop_current |}
  | F_cuDevicePrimaryCtxRetain =>
      Some {| hd_domain := Domain_Driver; hd_name := "cuDevicePrimaryCtxRetain"; hd_type := CuDevicePrimaryCtxRetainFn;
              hd_real := real_cu_device_primary_ctx_retain |}
  | F_cuDevicePrimaryCtxRelease =>
      Some {| hd_domain := Domain_Driver; hd_name := "cuDevicePrimaryCtxRelease"; hd_type := CuDevicePrimaryCtxReleaseFn;
              hd_real := real_cu_device_primary_ctx_release |}
  | F_cuDevicePrimaryCtxReset =>
      Some {| hd_domain := Domain_Driver; hd_name := "cuDevicePrimaryCtxReset"; hd_type := CuDevicePrimaryCtxResetFn;
              hd_real := real_cu_device_primary_ctx_reset |}
  | F_cuDevicePrimaryCtxSetFlags | F_cuDevicePrimaryCtxSetFlags_v2 =>
      Some {| hd_domain := Domain_Driver; hd_name := "cuDevicePrimaryCtxSetFlags"; hd_type := CuDevicePrimaryCtxSetFlagsFn;
              hd_real := or_else real_cu_device_primary_ctx_set_flags real_cu_device_primary_ctx_set_flags_v2 |}
  | F_cuDevicePrimaryCtxGetState =>
      Some {| hd_domain := Domain_Driver; hd_name := "cuDevicePrimaryCtxGetState"; hd_type := CuDevicePrimaryCtxGetStateFn;
              hd_real := real_cu_device_primary_ctx_get_state |}
  | F_cuStreamCreate =>
      Some {| hd_domain := Domain_Driver; hd_name := "cuStreamCreate"; hd_type := CuStreamCreateFn;
              hd_real := real_cu_stream_create |}
  | F_cuStreamCreateWithPriority =>
      Some {| hd_domain := Domain_Driver; hd_name := "cuStreamCreateWithPriority"; hd_type := CuStreamCreateWithPriorityFn;
              hd_real := real_cu_stream_create_with_priority |}
  | F_cuStreamDestroy | F_cuStreamDestroy_v2 =>
      Some {| hd_domain := Domain_Driver; hd_name := "cuStreamDestroy"; hd_type := CuStreamDestroyFn;
              hd_real := or_else real_cu_stream_destroy real_cu_stream_destroy_v2 |}
  | F_cuEventCreate =>
      Some {| hd_domain := Domain_Driver; hd_name := "cuEventCreate"; hd_type := CuEventCreateFn;
              hd_real := real_cu_event_create |}
  | F_cuEventDestroy | F_cuEventDestroy_v2 =>
      Some {| hd_domain := Domain_Driver; hd_name := "cuEventDestroy"; hd_type := CuEventDestroyFn;
              hd_real := or_else real_cu_event_destroy real_cu_event_destroy_v2 |}
  | F_cuEventRecord | F_cuEventRecord_ptsz =>
      Some {| hd_domain := Domain_Driver; hd_name := "cuEventRecord"; hd_type := CuEventRecordFn;
              hd_real := real_cu_event_record |}
  | F_cuEventRecordWithFlags | F_cuEventRecordWithFlags_ptsz =>
      Some {| hd_domain := Domain_Driver; hd_name := "cuEventRecordWithFlags"; hd_type := CuEventRecordWithFlagsFn;
              hd_real := real_cu_event_record_with_flags |}
  | F_cuEventSynchronize =>
      Some {| hd_domain := Domain_Driver; hd_name := "cuEventSynchronize"; hd_type := CuEventSynchronizeFn;
              hd_real := real_cu_event_synchronize |}
  | F_cuEventElapsedTime | F_cuEventElapsedTime_v2 =>
      Some {| hd_domain := Domain_Driver; hd_name := "cuEventElapsedTime"; hd_type := CuEventElapsedTimeFn;
              hd_real := or_else real_cu_event_elapsed_time real_cu_event_elapsed_time_v2 |}
  | F_cuModuleLoad =>
      Some {| hd_domain := Domain_Driver; hd_name := "cuModuleLoad"; hd_type := CuModuleLoadFn;
              hd_real := real_cu_module_load |}
  | F_cuModuleGetFunction =>
      Some {| hd_domain := Domain_Driver; hd_name := "cuModuleGetFunction"; hd_type := CuModuleGetFunctionFn;
              hd_real := real_cu_module_get_function |}
  | F_cuModuleUnload =>
      Some {| hd_domain := Domain_Driver; hd_name := "cuModuleUnload"; hd_type := CuModuleUnloadFn;
              hd_real := real_cu_module_unload |}
  | F_cuLaunchKernel =>
      Some {| hd_domain := Domain_Driver; hd_name := "cuLaunchKernel"; hd_type := CuLaunchKernelFn;
              hd_real := real_cu_launch_kernel |}
  | F_cuMemcpyAsync | F_cuMemcpyAsync_ptsz =>
      Some {| hd_domain := Domain_Driver; hd_name := "cuMemcpyAsync"; hd_type := CuMemcpyAsyncFn;
              hd_real := real_cu_memcpy_async |}
  | F_cuMemcpyHtoDAsync_v2 | F_cuMemcpyHtoDAsync | F_cuMemcpyHtoDAsync_v2_ptsz =>
      Some {| hd_domain := Domain_Driver; hd_name := "cuMemcpyHtoDAsync_v2"; hd_type := CuMemcpyHtoDAsyncV2Fn;
              hd_real := or_else real_cu_memcpy_htod_async_v2 real_cu_memcpy_htod_async |}
  | F_cuMemcpyDtoHAsync_v2 | F_cuMemcpyDtoHAsync | F_cuMemcpyDtoHAsync_v2_ptsz =>
      Some {| hd_domain := Domain_Driver; hd_name := "cuMemcpyDtoHAsync_v2"; hd_type := CuMemcpyDtoHAsyncV2Fn;
              hd_real := or_else real_cu_memcpy_dtoh_async_v2 real_cu_memcpy_dtoh_async |}
  | F_cuMemcpyHtoD_v2 =>
      Some {| hd_domain := Domain_Driver; hd_name := "cuMemcpyHtoD_v2"; hd_type := CuMemcpyHtoDV2Fn;
              hd_real := real_cu_memcpy_htod_v2 |}
  | F_cuMemcpyDtoH_v2 =>
      Some {| hd_domain := Domain_Driver; hd_name := "cuMemcpyDtoH_v2"; hd_type := CuMemcpyDtoHV2Fn;
              hd_real := real_cu_memcpy_dtoh_v2 |}
  | F_cuMemAlloc_v2 =>
      Some {| hd_domain := Domain_Driver; hd_name := "cuMemAlloc_v2"; hd_type := CuMemAllocV2Fn;
              hd_real := real_cu_mem_alloc_v2 |}
  | F_cuMemFree_v2 =>
      Some {| hd_domain := Domain_Driver; hd_name := "cuMemFree_v2"; hd_type := CuMemFreeV2Fn;
              hd_real := real_cu_mem_free_v2 |}
  | F_cuMemAllocHost_v2 =>
      Some {| hd_domain := Domain_Driver; hd_name := "cuMemAllocHost_v2"; hd_type := CuMemAllocHostV2Fn;
              hd_real := real_cu_mem_alloc_host_v2 |}
  | F_cuMemFreeHost =>
      Some {| hd_domain := Domain_Driver; hd_name := "cuMemFreeHost"; hd_type := CuMemFreeHostFn;
              hd_real := real_cu_mem_free_host |}
  | F_cudaMalloc =>
      Some {| hd_domain := Domain_Cudart; hd_name := "cudaMalloc"; hd_type := CudaMallocFn;
              hd_real := real_cuda_malloc |}
  | F_cudaFree =>
      Some {| hd_domain := Domain_Cudart; hd_name := "cudaFree"; hd_type := CudaFreeFn;
              hd_real := real_cuda_free |}
  | F_cudaHostAlloc =>
      Some {| hd_domain := Domain_Cudart; hd_name := "cudaHostAlloc"; hd_type := CudaHostAllocFn;
              hd_real := real_cuda_host_alloc |}
  | F_cudaMallocHost =>
      Some {| hd_domain := Domain_Cudart; hd_name := "cudaMallocHost"; hd_type := CudaMallocHostFn;
              hd_real := real_cuda_malloc_host |}
  | F_cudaFreeHost =>
      Some {| hd_domain := Domain_Cudart; hd_name := "cudaFreeHost"; hd_type := CudaFreeHostFn;
              hd_real := real_cuda_free_host |}
  | F_cudaMemcpyAsync =>
      Some {| hd_domain := Domain_Cudart; hd_name := "cudaMemcpyAsync"; hd_type := CudaMemcpyAsyncFn;
              hd_real := real_cuda_memcpy_async |}
  | F_cudaLaunchKernel =>
      Some {| hd_domain := Domain_Cudart; hd_name := "cudaLaunchKernel"; hd_type := CudaLaunchKernelFn;
              hd_real := real_cuda_launch_kernel |}
  | F_cudaStreamCreate =>
      Some {| hd_domain := Domain_Cudart; hd_name := "cudaStreamCreate"; hd_type := CudaStreamCreateFn;
              hd_real := real_cuda_stream_create |}
  | F_cudaStreamDestroy =>
      Some {| hd_domain := Domain_Cudart; hd_name := "cudaStreamDestroy"; hd_type := CudaStreamDestroyFn;
              hd_real := real_cuda_stream_destroy |}
  | F_cudaEventCreate =>
      Some {| hd_domain := Domain_Cudart; hd_name := "cudaEventCreate"; hd_type := CudaEventCreateFn;
              hd_real := real_cuda_event_create |}
  | F_cudaEventRecord =>
      Some {| hd_domain := Domain_Cudart; hd_name := "cudaEventRecord"; hd_type := CudaEventRecordFn;
              hd_real := real_cuda_event_record |}
  | F_cudaEventSynchronize =>
      Some {| hd_domain := Domain_Cudart; hd_name := "cudaEventSynchronize"; hd_type := CudaEventSynchronizeFn;
              hd_real := real_cuda_event_synchronize |}
  | F_cudaEventElapsedTime =>
      Some {| hd_domain := Domain_Cudart; hd_name := "cudaEventElapsedTime"; hd_type := CudaEventElapsedTimeFn;
              hd_real := real_cuda_event_elapsed_time |}
  | F_cudaDeviceReset =>
      Some {| hd_domain := Domain_Cudart; hd_name := "cudaDeviceReset"; hd_type := CudaDeviceResetFn;
              hd_real := real_cuda_device_reset |}
  | F_cuGetProcAddress | F_cuGetProcAddress_v2 => None
  end.

Definition hook_code (h : HookFn) (args : list CVal) : option (M Z) :=
  match h, args with
  | F_cuInit, [VUInt flags] => Some (cuInit flags)
  | F_cuDeviceGet, [VPtr device; VInt ordinal] => Some (cuDeviceGet device ordinal)
  | F_cuDeviceGetName, [VPtr name; VInt len; VInt device] =>
      Some (cuDeviceGetName name len device)
  | F_cuCtxCreate_v2, [VPtr pctx; VUInt flags; VInt dev] => Some (cuCtxCreate_v2 pctx flags dev)
  | F_cuCtxDestroy_v2, [VPtr ctx] => Some (cuCtxDestroy_v2 ctx)
  | F_cuCtxSynchronize, [] => Some cuCtxSynchronize
  | F_cuCtxGetCurrent, [VPtr pctx] => Some (cuCtxGetCurrent pctx)
  | F_cuCtxSetCurrent, [VPtr ctx] => Some (cuCtxSetCurrent ctx)
  | F_cuCtxPushCurrent_v2, [VPtr ctx] => Some (cuCtxPushCurrent_v2 ctx)
  | F_cuCtxPushCurrent, [VPtr ctx] => Some (cuCtxPushCurrent ctx)
  | F_cuCtxPopCurrent_v2, [VPtr pctx] => Some (cuCtxPopCurrent_v2 pctx)
  | F_cuCtxPopCurrent, [VPtr pctx] => Some (cuCtxPopCurrent pctx)
  | F_cuDevicePrimaryCtxRetain, [VPtr pctx; VInt dev] => Some (cuDevicePrimaryCtxRetain pctx dev)
  | F_cuDevicePrimaryCtxRelease, [VInt dev] => Some (cuDevicePrimaryCtxRelease dev)
  | F_cuDevicePrimaryCtxReset, [VInt dev] => Some (cuDevicePrimaryCtxReset dev)
  | F_cuDevicePrimaryCtxSetFlags, [VInt dev; VUInt flags] =>
      Some (cuDevicePrimaryCtxSetFlags dev flags)
  | F_cuDevicePrimaryCtxSetFlags_v2, [VInt dev; VUInt flags] =>
      Some (cuDevicePrimaryCtxSetFlags_v2 dev flags)
  | F_cuDevicePrimaryCtxGetState, [VInt dev; VPtr flags; VPtr active] =>
      Some (cuDevicePrimaryCtxGetState dev flags active)
  | F_cuStreamCreate, [VPtr stream; VUInt flags] => Some (cuStreamCreate stream flags)
  | F_cuStreamCreateWithPriority, [VPtr stream; VUInt flags; VInt priority] =>
      Some (cuStreamCreateWithPriority stream flags priority)
  | F_cuStreamDestroy, [VPtr stream] => Some (cuStreamDestroy stream)
  | F_cuStreamDestroy_v2, [VPtr stream] => Some (cuStreamDestroy_v2 stream)
  | F_cuEventCreate, [VPtr event; VUInt flags] => Some (cuEventCreate event flags)
  | F_cuEventDestroy, [VPtr event] => Some (cuEventDestroy event)
  | F_cuEventDestroy_v2, [VPtr event] => Some (cuEventDestroy_v2 event)
  | F_cuEventRecord, [VPtr event; VPtr stream] => Some (cuEventRecord event stream)
  | F_cuEventRecord_ptsz, [VPtr event; VPtr stream] => Some (cuEventRecord_ptsz event stream)
  | F_cuEventRecordWithFlags, [VPtr event; VPtr stream; VUInt flags] =>
      Some (cuEventRecordWithFlags event stream flags)
  | F_cuEventRecordWithFlags_ptsz, [VPtr event; VPtr stream; VUInt flags] =>
      Some (cuEventRecordWithFlags_ptsz event stream flags)
  | F_cuEventSynchronize, [VPtr event] => Some (cuEventSynchronize event)
  | F_cuEventElapsedTime, [VPtr milliseconds; VPtr start; VPtr end_] =>
      Some (cuEventElapsedTime milliseconds start end_)
  | F_cuEventElapsedTime_v2, [VPtr milliseconds; VPtr start; VPtr end_] =>
      Some (cuEventElapsedTime_v2 milliseconds start end_)
  | F_cuModuleLoad, [VPtr module_; VPtr fname] => Some (cuModuleLoad module_ fname)
  | F_cuModuleGetFunction, [VPtr hfunc; VPtr module_; VPtr name] =>
      Some (cuModuleGetFunction hfunc module_ name)
  | F_cuModuleUnload, [VPtr module_] => Some (cuModuleUnload module_)
  | F_cuLaunchKernel, [VPtr f; VUInt grid_x; VUInt grid_y; VUInt grid_z;
      VUInt block_x; VUInt block_y; VUInt block_z; VUInt shared_mem_bytes; VPtr hstream; VPtr kernel_params; VPtr extra] =>
      Some (cuLaunchKernel f grid_x grid_y grid_z block_x block_y block_z shared_mem_bytes hstream kernel_params extra)
  | F_cuMemcpyAsync, [VU64 dst; VU64 src; VU64 byte_count; VPtr stream] =>
      Some (cuMemcpyAsync dst src byte_count stream)
  | F_cuMemcpyAsync_ptsz, [VU64 dst; VU64 src; VU64 byte_count; VPtr stream] =>
      Some (cuMemcpyAsync_ptsz dst src byte_count stream)
  | F_cuMemcpyHtoDAsync_v2, [VU64 dst_device; VPtr src_host; VU64 byte_count; VPtr stream] =>
      Some (cuMemcpyHtoDAsync_v2 dst_device src_host byte_count stream)
  | F_cuMemcpyHtoDAsync, [VU64 dst_device; VPtr src_host; VU64 byte_count; VPtr stream] =>
      Some (cuMemcpyHtoDAsync dst_device src_host byte_count stream)
  | F_cuMemcpyHtoDAsync_v2_ptsz, [VU64 dst_device; VPtr src_host; VU64 byte_count; VPtr stream] =>
      Some (cuMemcpyHtoDAsync_v2_ptsz dst_device src_host byte_count stream)
  | F_cuMemcpyDtoHAsync_v2, [VPtr dst_host; VU64 src_device; VU64 byte_count; VPtr stream] =>
      Some (cuMemcpyDtoHAsync_v2 dst_host src_device byte_count stream)
  | F_cuMemcpyDtoHAsync, [VPtr dst_host; VU64 src_device; VU64 byte_count; VPtr stream] =>
      Some (cuMemcpyDtoHAsync dst_host src_device byte_count stream)
  | F_cuMemcpyDtoHAsync_v2_ptsz, [VPtr dst_host; VU64 src_device; VU64 byte_count; VPtr stream] =>
      Some (cuMemcpyDtoHAsync_v2_ptsz dst_host src_device byte_count stream)
  | F_cuMemcpyHtoD_v2, [VU64 dst_device; VPtr src_host; VU64 byte_count] =>
      Some (cuMemcpyHtoD_v2 dst_device src_host byte_count)
  | F_cuMemcpyDtoH_v2, [VPtr dst_host; VU64 src_device; VU64 byte_count] =>
      Some (cuMemcpyDtoH_v2 dst_host src_device byte_count)
  | F_cuMemAlloc_v2, [VPtr dptr; VU64 bytesize] => Some (cuMemAlloc_v2 dptr bytesize)
  | F_cuMemFree_v2, [VU64 dptr] => Some (cuMemFree_v2 dptr)
  | F_cuMemAllocHost_v2, [VPtr pp; VU64 bytesize] => Some (cuMemAllocHost_v2 pp bytesize)
  | F_cuMemFreeHost, [VPtr p] => Some (cuMemFreeHost p)
  | F_cudaMalloc, [VPtr dev_ptr; VU64 size] => Some (cudaMalloc dev_ptr size)
  | F_cudaFree, [VPtr dev_ptr] => Some (cudaFree dev_ptr)
  | F_cudaHostAlloc, [VPtr ptr; VU64 size; VUInt flags] => Some (cudaHostAlloc ptr size flags)
  | F_cudaMallocHost, [VPtr ptr; VU64 size] => Some (cudaMallocHost ptr size)
  | F_cudaFreeHost, [VPtr ptr] => Some (cudaFreeHost ptr)
  | F_cudaMemcpyAsync, [VPtr dst; VPtr src; VU64 count; VInt kind; VPtr stream] =>
      Some (cudaMemcpyAsync dst src count kind stream)
  | F_cudaLaunchKernel, [VPtr func; VDim3 grid_dim; VDim3 block_dim; VPtr args; VU64 shared_mem; VPtr stream] =>
      Some (cudaLaunchKernel func grid_dim block_dim args shared_mem stream)
  | F_cudaStreamCreate, [VPtr stream] => Some (cudaStreamCreate stream)
  | F_cudaStreamDestroy, [VPtr stream] => Some (cudaStreamDestroy stream)
  | F_cudaEventCreate, [VPtr event] => Some (cudaEventCreate event)
  | F_cudaEventRecord, [VPtr event; VPtr stream] => Some (cudaEventRecord event stream)
  | F_cudaEventSynchronize, [VPtr event] => Some (cudaEventSynchronize event)
  | F_cudaEventElapsedTime, [VPtr ms; VPtr start; VPtr end_] =>
      Some (cudaEventElapsedTime ms start end_)
  | F_cudaDeviceReset, [] => Some cudaDeviceReset
  | _, _ => None
  end.

End Calls.

(** The number of a hook. *)
Definition hook_index (h : HookFn) : Z :=
  match h with
  | F_cuGetProcAddress => 0 | F_cuGetProcAddress_v2 => 1 | F_cuInit => 2 | F_cuDeviceGet => 3
  | F_cuDeviceGetName => 4 | F_cuCtxCreate_v2 => 5 | F_cuCtxDestroy_v2 => 6
  | F_cuCtxSynchronize => 7 | F_cuCtxGetCurrent => 8 | F_cuCtxSetCurrent => 9
  | F_cuCtxPushCurrent_v2 => 10 | F_cuCtxPushCurrent => 11 | F_cuCtxPopCurrent_v2 => 12
  | F_cuCtxPopCurrent => 13 | F_cuDevicePrimaryCtxRetain => 14
  | F_cuDevicePrimaryCtxRelease => 15 | F_cuDevicePrimaryCtxReset => 16
  | F_cuDevicePrimaryCtxSetFlags => 17 | F_cuDevicePrimaryCtxSetFlags_v2 => 18
  | F_cuDevicePrimaryCtxGetState => 19 | F_cuStreamCreate => 20
  | F_cuStreamCreateWithPriority => 21 | F_cuStreamDestroy => 22 | F_cuStreamDestroy_v2 => 23
  | F_cuEventCreate => 24 | F_cuEventDestroy => 25 | F_cuEventDestroy_v2 => 26
  | F_cuEventRecord => 27 | F_cuEventRecord_ptsz => 28 | F_cuEventRecordWithFlags => 29
  | F_cuEventRecordWithFlags_ptsz => 30 | F_cuEventSynchronize => 31
  | F_cuEventElapsedTime => 32 | F_cuEventElapsedTime_v2 => 33 | F_cuModuleLoad => 34
  | F_cuModuleGetFunction => 35 | F_cuModuleUnload => 36 | F_cuLaunchKernel => 37
  | F_cuMemcpyAsync => 38 | F_cuMemcpyAsync_ptsz => 39 | F_cuMemcpyHtoDAsync_v2 => 40
  | F_cuMemcpyHtoDAsync => 41 | F_cuMemcpyHtoDAsync_v2_ptsz => 42
  | F_cuMemcpyDtoHAsync_v2 => 43 | F_cuMemcpyDtoHAsync => 44
  | F_cuMemcpyDtoHAsync_v2_ptsz => 45 | F_cuMemcpyHtoD_v2 => 46 | F_cuMemcpyDtoH_v2 => 47
  | F_cuMemAlloc_v2 => 48 | F_cuMemFree_v2 => 49 | F_cuMemAllocHost_v2 => 50
  | F_cuMemFreeHost => 51 | F_cudaMalloc => 52 | F_cudaFree => 53 | F_cudaHostAlloc => 54
  | F_cudaMallocHost => 55 | F_cudaFreeHost => 56 | F_cudaMemcpyAsync => 57
  | F_cudaLaunchKernel => 58 | F_cudaStreamCreate => 59 | F_cudaStreamDestroy => 60
  | F_cudaEventCreate => 61 | F_cudaEventRecord => 62 | F_cudaEventSynchronize => 63
  | F_cudaEventElapsedTime => 64 | F_cudaDeviceReset => 65
  end.
