(* ===== verification/CudaFacts.v ===== *)
(** * Theorems about the hooks and the resolution of symbols

    [CudaProc], [DriverHooks] and [CudartHooks] against [Hook]: every hook is a
    traced call of the real function; the pointers the application gets are
    those of hooks, and those the library finds for itself are not. *)
From S2P Require Import Prelude RustStr Config Reentry Graph Layout Window Hook CudaAbi CudaProc DriverHooks CudartHooks CudaCalls.

Create HintDb quiet.

(** ** Computations that leave no trace *)

Section Quiet.
Context {P : Process}.

(** What a computation that only looks up symbols may not change. *)
Record quiet_step (w w' : World) : Prop := {
  qs_thread : thread w' = thread w;
  qs_log : trace_log w' = trace_log w;
  qs_linker : linker w' = linker w;
  qs_memory : memory w' = memory w
}.

#[export] Instance quiet_step_refl : Reflexive quiet_step.
Proof. by intros w. Qed.
#[export] Instance quiet_step_trans : Transitive quiet_step.
Proof. intros w1 w2 w3 [? ? ? ?] [? ? ? ?]. split; congruence. Qed.

(** Quiet wherever the thread is as [Q] says. *)
Definition quiet (Q : HookState -> Prop) {A} (m : M A) : Prop :=
  forall w, Q (thread w) -> quiet_step w (m w).2.

Definition any_thread (st : HookState) : Prop := True.
Definition guard_fits (st : HookState) : Prop := depth_ok (bypass st).

Lemma quiet_ret Q {A} (a : A) : quiet Q (mret a).
Proof. by intros w _. Qed.

Lemma quiet_bind Q {A B} (m : M A) (k : A -> M B) :
  quiet Q m -> (forall a, quiet Q (k a)) -> quiet Q (m ≫= k).
Proof.
  intros Hm Hk w Hw. unfold mbind, M_bind. pose proof (Hm w Hw) as H1.
  destruct (m w) as [a w1]. simpl in *. transitivity w1; [done|].
  apply Hk. by rewrite (qs_thread _ _ H1).
Qed.

Lemma quiet_gets Q {A} (f : World -> A) : quiet Q (gets f).
Proof. by intros w _. Qed.
Lemma quiet_set_cell Q c v : quiet Q (modify (set_cell c v)).
Proof. by intros w _. Qed.
Lemma quiet_set_handle Q h : quiet Q (modify (set_handle h)).
Proof. by intros w _. Qed.

Lemma quiet_any Q {A} (m : M A) : quiet any_thread m -> quiet Q m.
Proof. intros Hm w _. by apply Hm. Qed.

End Quiet.

#[export] Hint Resolve quiet_ret quiet_gets quiet_set_cell quiet_set_handle : quiet.

Ltac quiet_tac :=
  repeat (first
    [ progress auto with quiet
    | match goal with
      | |- quiet _ (_ ≫= _) => apply quiet_bind; [|intros]
      | |- quiet _ (match ?x with _ => _ end) => destruct x
      | |- quiet _ (if ?x then _ else _) => destruct x
      end ]).

Section Lookups.
Context {P : Process}.

Lemma quiet_once Q c init : quiet Q init -> quiet Q (once c init).
Proof. intros. unfold once. quiet_tac. Qed.
#[local] Hint Resolve quiet_once : quiet.

Lemma quiet_real_dlsym Q : quiet Q real_dlsym.
Proof. unfold real_dlsym. quiet_tac. apply quiet_once. quiet_tac. Qed.
#[local] Hint Resolve quiet_real_dlsym : quiet.

Lemma quiet_dlsym Q handle symbol : quiet Q (dlsym handle symbol).
Proof. unfold dlsym, call_dlsym. quiet_tac. Qed.

(** The guard around the lookup is entered and dropped. *)
Lemma quiet_resolve_next symbol : quiet guard_fits (resolve_next_from_ptr symbol).
Proof.
  intros w Hw. unfold resolve_next_from_ptr, mbind, M_bind, on_thread.
  destruct (guard_enter (bypass (thread w))) as [g b] eqn:E.
  set (w1 := set_thread (set_bypass b (thread w)) [] w).
  pose proof (quiet_dlsym any_thread RTLD_NEXT symbol w1 I) as [T L K R].
  destruct (dlsym RTLD_NEXT symbol w1) as [ptr w2]. simpl in *.
  pose proof (guard_drop_enter _ _ _ Hw E) as Hdrop.
  split; simpl; [|by rewrite L, !app_nil_r|done|done].
  rewrite T. simpl. unfold set_bypass. simpl. rewrite Hdrop. by destruct (thread w).
Qed.
#[local] Hint Resolve quiet_resolve_next : quiet.

Lemma quiet_resolve_driver symbol : quiet guard_fits (resolve_driver_from_ptr symbol).
Proof. unfold resolve_driver_from_ptr, call_dlsym. quiet_tac. Qed.
#[local] Hint Resolve quiet_resolve_driver : quiet.

Lemma quiet_get_or_init Q {ty} c init : quiet Q init -> quiet Q (get_or_init (ty := ty) c init).
Proof. intros. unfold get_or_init. quiet_tac. Qed.
#[local] Hint Resolve quiet_get_or_init : quiet.

Lemma quiet_or_else Q {ty} (m m' : M (option (FnPtr ty))) : quiet Q m -> quiet Q m' -> quiet Q (or_else m m').
Proof. intros. unfold or_else. quiet_tac. Qed.
#[local] Hint Resolve quiet_or_else : quiet.

(** Finding the real function of a hook leaves no trace. *)
Lemma quiet_hook_real h d : hook_desc h = Some d -> quiet guard_fits (hd_real d).
Proof. destruct h; intros Hd; try discriminate Hd; injection Hd as <-; simpl hd_real;
  try apply quiet_or_else; apply quiet_get_or_init; auto with quiet. Qed.

(** ** Every hook is a traced call *)

(** The body that the hooks share. *)
Definition traced_call {ty} (domain : TraceDomain) (name text : string)
    (real : M (option (FnPtr ty))) (args : list CVal) : M Z :=
  scope ← scope_enter domain name text;
  real ← real;
  ret ← call_or_unknown real args;
  scope_finish scope (fmt_i ret);;
  mret ret.

Ltac split_args args :=
  repeat (destruct args as [|[] args]; try discriminate).

Lemma hook_code_traced h args m : hook_code h args = Some m ->
  exists d, hook_desc h = Some d
  /\ m = traced_call (hd_domain d) (hd_name d) (hook_text h args) (hd_real d) args.
Proof.
  destruct h; unfold hook_code; split_args args; intros <-%some_eq;
    eexists; (split; [reflexivity|]); reflexivity.
Qed.
(** A step of the process whose thread and output are those of the hooked calls [cs]. *)
Definition ran (cs : list HookCall) (w w' : World) : Prop :=
  exists evs, run_hooks p_cfg p_internal_tracer p_tid cs (thread w) = (evs, thread w')
  /\ trace_log w' = trace_log w ++ evs.

Lemma guard_keeps domain func args t ts st :
  depth_ok (bypass st) ->
  depth_ok (bypass (enter_lazy p_cfg p_internal_tracer p_tid domain func (fun st => (args, [], st)) t ts st).2).
Proof.
  intros Hok. unfold enter_lazy. destruct p_internal_tracer; [done|]. cbv zeta.
  set (step := if hooks_blocked (bypass st) then (false, [], st)
               else enter_fgraph_window_if_matched p_cfg false p_tid func st).
  assert (bypass step.2 = bypass st) as Hb.
  { unfold step, enter_fgraph_window_if_matched.
    destruct (hooks_blocked _), (negb (fgraph_enabled p_cfg) || negb (fgraph_match p_cfg func)); [done..|].
    by destruct (next_fgraph_window_seq func (win_seq st)). }
  destruct step as [[matched ev1] st1]. simpl in Hb.
  destruct (negb (trace_enabled p_cfg domain) || hooks_blocked (bypass st)); [simpl; congruence|].
  destruct (guard_enter (bypass st1)) as [g b] eqn:E. cbn [set_bypass stack].
  destruct (enter p_cfg p_tid func args t ts (stack st1)) as [ev3 s]. cbn [snd set_bypass set_stack bypass].
  rewrite Hb in E. by rewrite (guard_drop_enter _ _ _ Hok E).
Qed.

(** A scope around a body whose steps are those of [children]. *)
Lemma scope_ran domain name text w scope w1 w2 w3 w4 ret children :
  scope_enter domain name text w = (scope, w1) ->
  thread w2 = thread w1 -> trace_log w2 = trace_log w1 -> ran children w2 w3 ->
  thread w4 = thread w3 -> trace_log w4 = trace_log w3 ->
  ran [MkHook domain name text ret (p_clock (clock w)).1 (p_clock (clock w)).2 (p_clock (clock w4)).1 [] children]
    w (scope_finish scope ret w4).2.
Proof.
  intros Henter T1 L1 (evs & Hrun & Hlog) T2 L2. unfold ran. cbn [run_hooks]. rewrite run_hook_unfold. cbn [run_hooks].
  unfold scope_enter, scope_finish, on_thread, read_clock, gets, modify, mbind, M_bind, mret, M_ret in *.
  cbn [fst snd tick thread] in *.
  destruct (enter_lazy _ _ _ _ _ _ _ _ (thread w)) as [[scope' ev1] st1] eqn:E1.
  injection Henter as <- <-. cbn [set_thread thread trace_log tick] in *.
  rewrite <- T1, Hrun, <- T2.
  destruct (finish _ _ _ scope' ret _ (thread w4)) as [ev3 st3] eqn:E3.
  cbn [fst snd set_thread thread trace_log tick].
  eexists. split; [reflexivity|]. rewrite L2, Hlog, L1. simpl. by rewrite app_nil_r, <- !app_assoc.
Qed.

Lemma scope_enter_guard domain name text w :
  depth_ok (bypass (thread w)) -> guard_fits (thread (scope_enter domain name text w).2).
Proof.
  intros Hok. unfold scope_enter, on_thread, read_clock, gets, modify, mbind, M_bind, mret, M_ret.
  cbn [fst snd tick thread].
  pose proof (guard_keeps domain name text (p_clock (clock w)).1 (p_clock (clock w)).2 (thread w) Hok) as Hok1.
  destruct (enter_lazy _ _ _ _ _ _ _ _ (thread w)) as [[scope ev1] st1]. exact Hok1.
Qed.

(** C6: a hook is a traced call of the real function.  Under whatever name the
    application reached it, a hook gives back what the real function gives
    (999 when there is none), and the thread and the output end as after the
    hooked call ([Hook.run_hook]) with the name and the printed arguments of
    the hook, the result in decimal, and inside it the calls that the real
    function makes. *)
Theorem hook_traces h args m d w real w1 ret w2 children :
  hook_code h args = Some m -> hook_desc h = Some d -> depth_ok (bypass (thread w)) ->
  hd_real d (scope_enter (hd_domain d) (hd_name d) (hook_text h args) w).2 = (real, w1) ->
  call_or_unknown real args w1 = (ret, w2) -> ran children w1 w2 ->
  (m w).1 = ret
  /\ ran [MkHook (hd_domain d) (hd_name d) (hook_text h args) (fmt_i ret)
            (p_clock (clock w)).1 (p_clock (clock w)).2 (p_clock (clock w2)).1 [] children] w (m w).2.
Proof.
  intros Hm Hd Hok Hreal Hcall Hran.
  destruct (hook_code_traced h args m Hm) as (d' & Hd' & ->). rewrite Hd in Hd'. injection Hd' as <-.
  pose proof (scope_enter_guard (hd_domain d) (hd_name d) (hook_text h args) w Hok) as Hok1.
  pose proof (quiet_hook_real h d Hd _ Hok1) as [T L _ _].
  unfold traced_call, mbind, M_bind, mret, M_ret.
  destruct (scope_enter (hd_domain d) (hd_name d) (hook_text h args) w) as [scope w0] eqn:E0.
  cbn [snd] in *. rewrite Hreal in *. cbn [snd] in *. rewrite Hcall.
  pose proof (scope_ran _ _ _ w scope w0 w1 w2 w2 (fmt_i ret) children E0 T L Hran eq_refl eq_refl) as Hr.
  by destruct (scope_finish scope (fmt_i ret) w2) as [u w3].
Qed.
End Lookups.

(** ** Types *)

Section Types.
Context {P : Process}.

(** The type a hook calls the real function with. *)
Lemma hook_desc_type h d : hook_desc h = Some d -> hd_type d = hook_type h.
Proof. destruct h; intros Hd; try discriminate Hd; injection Hd as <-; reflexivity. Qed.

Lemma has_types_cons vs t ts : has_types vs (t :: ts) = true ->
  exists v vs', vs = v :: vs' /\ has_type v t = true /\ has_types vs' ts = true.
Proof. destruct vs; simpl; [done|]. intros [? ?]%andb_true_iff. eauto. Qed.

Lemma has_types_nil vs : has_types vs [] = true -> vs = [].
Proof. by destruct vs. Qed.

(** The constructor that a type asks for. *)
Lemma has_type_inv v t : has_type v t = true ->
  match t with
  | MutPtr _ | ConstPtr _ => exists a, v = VPtr a /\ 0 <= a
  | C_int => exists n, v = VInt n /\ True
  | C_uint => exists n, v = VUInt n /\ 0 <= n
  | C_u64 | C_usize => exists n, v = VU64 n /\ 0 <= n
  | C_dim3 => exists x y z, v = VDim3 {| x_ := x; y_ := y; z_ := z |} /\ 0 <= x /\ 0 <= y /\ 0 <= z
  | _ => False
  end.
Proof.
  destruct v as [| | | |[x y z]], t; try done; simpl; intros Hb%bool_decide_eq_true; unfold in_u in *;
    repeat eexists; lia.
Qed.

End Types.

Ltac destruct_ex H :=
  lazymatch type of H with
  | exists _, _ => let x := fresh "x" in destruct H as [x H]; destruct_ex H
  | _ = _ /\ _ => destruct H as [-> H]
  end.

Ltac split_types :=
  repeat match goal with
  | H : has_types _ (_ :: _) = true |- _ =>
      let v := fresh "v" in let vs := fresh "vs" in let Hv := fresh "Hv" in
      apply has_types_cons in H as (v & vs & -> & Hv & H); apply has_type_inv in Hv; simpl in Hv; destruct_ex Hv
  | H : has_types _ [] = true |- _ => apply has_types_nil in H as ->
  end.

Section WellTyped.
Context {P : Process}.

(** C29: the calls are well typed.  A hook can be called with any values of the
    types it is declared with, and the pointer it found for the real function
    is called with the same values at the type of the hook's own declaration. *)
Theorem hooks_well_typed h args :
  h <> F_cuGetProcAddress -> h <> F_cuGetProcAddress_v2 ->
  has_types args (fn_params (hook_type h)) = true ->
  exists m d, hook_code h args = Some m /\ hook_desc h = Some d /\ hd_type d = hook_type h
  /\ m = traced_call (hd_domain d) (hd_name d) (hook_text h args) (hd_real d) args.
Proof.
  intros H1 H2 Hty.
  assert (exists m, hook_code h args = Some m) as [m Hm].
  { destruct h; try contradiction; cbv [fn_params hook_type CUresult CUdevice CUcontext CUmodule CUfunction CUstream
      CUevent CUdeviceptr cudaError_t cudaStream_t cudaEvent_t cudaMemcpyKind] in Hty; split_types;
      try (eexists; reflexivity). }
  destruct (hook_code_traced h args m Hm) as (d & Hd & E).
  exists m, d. split_and!; [done|done|by apply hook_desc_type|done].
Qed.
End WellTyped.

(** ** The tables of names *)

Section Tables.
Context {P : Process} {PL : ProcessLaws P}.

Definition hook_of_symbol (symbol : string) : option HookFn :=
  match match_bytes symbol driver_symbols with
  | Some h => Some h
  | None => match_bytes symbol cudart_symbols
  end.

(** The hook that is exported under a name. *)
Definition exported (symbol : string) : option HookFn :=
  List.find (fun h => String.eqb (fn_name h) symbol) all_hooks.

Definition strip_suffixes (s : string) : string := trim_end_matches "_v2" (trim_end_matches "_ptsz" s).

(** Every symbol of the tables, with its hook. *)
Definition symbol_hooks : list (string * HookFn) :=
  (driver_symbols ++ cudart_symbols) ≫= (fun '(alts, h) => (fun s => (s, h)) <$> alts).

Lemma match_bytes_In {A} s (arms : list (list string * A)) a :
  match_bytes s arms = Some a -> (s, a) ∈ arms ≫= (fun '(alts, h) => (fun s => (s, h)) <$> alts).
Proof.
  induction arms as [|[alts b] arms IH]; [done|]. cbn [mbind list_bind]. rewrite elem_of_app.
  change (match_bytes s ((alts, b) :: arms)) with (if existsb (String.eqb s) alts then Some b else match_bytes s arms).
  destruct (existsb (String.eqb s) alts) eqn:E; [|intros Hs; right; by apply IH].
  intros <-%some_eq. left. apply existsb_exists in E as (s' & Hs & ->%String.eqb_eq).
  apply list_elem_of_fmap. exists s'. by rewrite list_elem_of_In.
Qed.

Lemma hook_of_symbol_In s h : hook_of_symbol s = Some h -> (s, h) ∈ symbol_hooks.
Proof.
  unfold hook_of_symbol, symbol_hooks. rewrite bind_app, elem_of_app.
  destruct (match_bytes s driver_symbols) eqn:E.
  - intros <-%some_eq. left. by apply match_bytes_In.
  - intros E'. right. by apply match_bytes_In.
Qed.

(** The exported functions that only call another one. *)
Definition forwarders : list (HookFn * HookFn) := [
  (F_cuCtxPushCurrent, F_cuCtxPushCurrent_v2); (F_cuCtxPopCurrent, F_cuCtxPopCurrent_v2);
  (F_cuDevicePrimaryCtxSetFlags_v2, F_cuDevicePrimaryCtxSetFlags);
  (F_cuStreamDestroy_v2, F_cuStreamDestroy); (F_cuEventDestroy_v2, F_cuEventDestroy);
  (F_cuEventRecord_ptsz, F_cuEventRecord); (F_cuEventRecordWithFlags_ptsz, F_cuEventRecordWithFlags);
  (F_cuEventElapsedTime_v2, F_cuEventElapsedTime); (F_cuMemcpyAsync_ptsz, F_cuMemcpyAsync);
  (F_cuMemcpyHtoDAsync, F_cuMemcpyHtoDAsync_v2); (F_cuMemcpyHtoDAsync_v2_ptsz, F_cuMemcpyHtoDAsync_v2);
  (F_cuMemcpyDtoHAsync, F_cuMemcpyDtoHAsync_v2); (F_cuMemcpyDtoHAsync_v2_ptsz, F_cuMemcpyDtoHAsync_v2)
].

Lemma forwarders_same h h' args : (h, h') ∈ forwarders -> hook_type h = hook_type h' /\ hook_code h args = hook_code h' args.
Proof.
  intros Hin. unfold forwarders in Hin.
  repeat (apply elem_of_cons in Hin as [[= -> ->]|Hin];
    [split; [reflexivity|]; do 5 (destruct args as [|[] args]; try reflexivity)|]).
  by apply not_elem_of_nil in Hin.
Qed.

Definition symbol_row_ok (row : string * HookFn) : bool :=
  let '(s, h) := row in
  String.eqb (strip_suffixes (fn_name h)) (strip_suffixes s)
  && match exported s with
     | Some h' => bool_decide (h' = h) || bool_decide ((h', h) ∈ forwarders)
     | None => true
     end.

Lemma symbol_rows_ok : forallb symbol_row_ok symbol_hooks = true.
Proof. vm_compute. reflexivity. Qed.

(** C30: one function, however it is found.  The hook that [dlsym] or
    [cuGetProcAddress] gives for a symbol has the name of the symbol up to the
    suffixes [_v2] and [_ptsz]; when the library also exports a function under
    the symbol itself, linking to it and looking it up give the same type and
    the same behaviour on every call. *)
Theorem symbol_lookup_agrees s h : hook_of_symbol s = Some h ->
  strip_suffixes (fn_name h) = strip_suffixes s
  /\ forall h', exported s = Some h' ->
     hook_type h' = hook_type h /\ forall args, hook_code h' args = hook_code h args.
Proof.
  intros Hin%hook_of_symbol_In%list_elem_of_In.
  pose proof (proj1 (forallb_forall _ _) symbol_rows_ok _ Hin) as Hrow.
  apply andb_true_iff in Hrow as [->%String.eqb_eq Hrow]. split; [done|]. intros h' Hh'.
  rewrite Hh' in Hrow. apply orb_true_iff in Hrow as [->%bool_decide_eq_true|Hf%bool_decide_eq_true]; [done|].
  split; [exact (proj1 (forwarders_same h' h [] Hf))|intros args; exact (proj2 (forwarders_same h' h args Hf))].
Qed.

(** Every exported function can be looked up under its own name. *)
Lemma exported_found h : exists h', hook_of_symbol (fn_name h) = Some h' /\ exported (fn_name h) = Some h.
Proof. destruct h; eexists; (split; [reflexivity|reflexivity]). Qed.

Lemma wrapper_driver_hook symbol h :
  match_bytes symbol driver_symbols = Some h -> wrapper_for_driver_symbol symbol = Some (p_addr h).
Proof.
  intros E. unfold wrapper_for_driver_symbol. rewrite E.
  pose proof (addr_not_null h). by destruct (Z.eqb_spec (p_addr h) NULL).
Qed.

Lemma wrapper_driver_other symbol :
  match_bytes symbol driver_symbols = None -> lookup_generated_driver_wrapper symbol = NULL ->
  wrapper_for_driver_symbol symbol = None.
Proof. intros E1 E2. unfold wrapper_for_driver_symbol. by rewrite E1, E2. Qed.
End Tables.

(** ** The printed arguments *)

#[local] Arguments String.append !_ _ /.

(** A digit of a number ends where the next piece of a format begins. *)
Definition ends_digits (s : string) : bool :=
  match s with EmptyString => true | String c _ => negb (is_digit_char c) end.

Lemma digits_split s t s' t' :
  str_forall is_digit_char s = true -> str_forall is_digit_char s' = true ->
  ends_digits t = true -> ends_digits t' = true ->
  s +:+ t = s' +:+ t' -> s = s' /\ t = t'.
Proof.
  revert s'. induction s as [|c s IH]; intros s' Hs Hs' Ht Ht' E.
  - destruct s' as [|c' s']; [by simpl in E|]. simpl in E, Hs'. rewrite E in Ht. simpl in Ht.
    apply andb_true_iff in Hs' as [Hc _]. by rewrite Hc in Ht.
  - simpl in Hs. apply andb_true_iff in Hs as [Hc Hs].
    destruct s' as [|c' s']; simpl in E.
    + rewrite <- E in Ht'. simpl in Ht'. by rewrite Hc in Ht'.
    + simpl in Hs'. apply andb_true_iff in Hs' as [Hc' Hs']. injection E as -> E.
      by destruct (IH s' Hs Hs' Ht Ht' E) as [-> ->].
Qed.

(** The values a conversion is given. *)
Definition conv_range (c : Conv) (n : Z) : Prop := match c with Conv_i => True | _ => 0 <= n end.

Lemma fmt_radix_split r n m t t' :
  2 <= r <= 16 -> 0 <= n -> 0 <= m -> ends_digits t = true -> ends_digits t' = true ->
  fmt_radix r n +:+ t = fmt_radix r m +:+ t' -> n = m /\ t = t'.
Proof.
  intros Hr Hn Hm Ht Ht' E. apply digits_split in E as [E ->]; [|by apply fmt_radix_digits..|done|done].
  split; [|done]. by apply (fmt_radix_inj r).
Qed.

Lemma fmt_i_split n m t t' : ends_digits t = true -> ends_digits t' = true ->
  fmt_i n +:+ t = fmt_i m +:+ t' -> n = m /\ t = t'.
Proof.
  intros Ht Ht'.
  assert (forall k u v, 0 <= k -> fmt_radix 10 k +:+ u <> String "-"%char v) as Hsign.
  { intros k u v Hk E. pose proof (fmt_radix_nonempty 10 k) as Hne.
    pose proof (fmt_radix_digits 10 k ltac:(lia) Hk) as Hd.
    destruct (fmt_radix 10 k) as [|c s]; [done|]. injection E as -> _. simpl in Hd. discriminate. }
  unfold fmt_i. destruct (Z.ltb_spec n 0), (Z.ltb_spec m 0); intros E.
  - injection E as E. apply fmt_radix_split in E as [E ->]; [split; [lia|done]|lia..|done|done].
  - simpl in E. symmetry in E. by apply Hsign in E.
  - simpl in E. by apply Hsign in E.
  - apply fmt_radix_split in E; [done|lia..|done|done].
Qed.

Lemma conv_split c n m t t' :
  conv_range c n -> conv_range c m -> ends_digits t = true -> ends_digits t' = true ->
  conv c n +:+ t = conv c m +:+ t' -> n = m /\ t = t'.
Proof.
  destruct c; simpl; intros Hn Hm Ht Ht' E.
  - unfold fmt_p, fmt_0x in E. simpl in E. injection E as E. apply fmt_radix_split in E; auto with lia.
  - apply fmt_radix_split in E; auto with lia.
  - apply fmt_radix_split in E; auto with lia.
  - by apply fmt_i_split.
Qed.

(** Every piece after the first begins with a character that is not a digit. *)
Definition format_ok (fs : list (string * Conv)) : bool :=
  forallb (fun '(l, _) => ends_digits l && negb (String.eqb l EmptyString)) (drop 1 fs).

Lemma render_format_ends fs ns :
  forallb (fun '(l, _) => ends_digits l && negb (String.eqb l EmptyString)) fs = true ->
  ends_digits (render_format fs ns) = true.
Proof.
  destruct fs as [|[l c] fs]; [done|]. destruct ns as [|n ns]; [by destruct fs|].
  simpl. intros [[Hl Hne]%andb_true_iff _]%andb_true_iff.
  destruct l as [|a l]; [done|]. by destruct fs.
Qed.

Lemma render_format_cons l c fs n ns :
  render_format ((l, c) :: fs) (n :: ns) = l +:+ conv c n +:+ render_format fs ns.
Proof. destruct fs; [|done]. simpl. by rewrite str_app_nil_r. Qed.

Lemma render_format_inj fs ns ms :
  format_ok fs = true -> length ns = length fs -> length ms = length fs ->
  Forall2 (fun f n => conv_range f.2 n) fs ns -> Forall2 (fun f n => conv_range f.2 n) fs ms ->
  render_format fs ns = render_format fs ms -> ns = ms.
Proof.
  revert ns ms. induction fs as [|[l c] fs IH]; intros ns ms Hok Hn Hm Rn Rm E;
    [by destruct ns, ms|].
  destruct ns as [|n ns], ms as [|m ms]; try done.
  apply Forall2_cons_1 in Rn as [Rn1 Rn]. apply Forall2_cons_1 in Rm as [Rm1 Rm].
  rewrite !render_format_cons in E. apply str_app_inj_l in E.
  unfold format_ok in Hok. simpl in Hok. rewrite drop_0 in Hok.
  apply conv_split in E as [-> E]; [|done|done|by apply render_format_ends..].
  f_equal. apply IH; auto.
  unfold format_ok. destruct fs; [done|]. simpl in *. by apply andb_true_iff in Hok as [_ ?].
Qed.

Lemma hook_formats_ok h : format_ok (hook_format h) = true.
Proof. by destruct h. Qed.

(** The values of a well-typed call fit the format of the hook. *)
Lemma typed_args_fit h args :
  h <> F_cuGetProcAddress -> h <> F_cuGetProcAddress_v2 -> has_types args (fn_params (hook_type h)) = true ->
  length (args ≫= printed) = length (hook_format h)
  /\ Forall2 (fun f n => conv_range f.2 n) (hook_format h) (args ≫= printed).
Proof.
  intros H1 H2 Hty.
  destruct h; try contradiction; cbv [fn_params hook_type CUresult CUdevice CUcontext CUmodule CUfunction
    CUstream CUevent CUdeviceptr cudaError_t cudaStream_t cudaEvent_t cudaMemcpyKind] in Hty; split_types;
    (split; [reflexivity|]); repeat constructor; simpl; destruct_and?; done.
Qed.

(** The values can be read off what they are printed as. *)
Lemma printed_inj ts vs ws :
  has_types vs ts = true -> has_types ws ts = true -> vs ≫= printed = ws ≫= printed -> vs = ws.
Proof.
  revert vs ws. induction ts as [|t ts IH]; intros vs ws Hv Hw E.
  - by apply has_types_nil in Hv as ->, Hw as ->.
  - apply has_types_cons in Hv as (v & vs' & -> & Hv & Hvs), Hw as (w & ws' & -> & Hw & Hws).
    apply has_type_inv in Hv, Hw. destruct t; try done; destruct_ex Hv; destruct_ex Hw;
      simpl in E; simplify_eq; f_equal; auto.
Qed.


(** ** An example process *)

(** Every function succeeds; the hooks are at consecutive addresses. *)
Definition example_process : Process := {|
  p_cfg := example_cfg; p_internal_tracer := false; p_tid := 7;
  p_clock n := (10 * Z.of_nat n, 10 * Z.of_nat n);
  p_code _ _ := mret 0;
  p_addr h := 65536 + hook_index h;
  lookup_generated_driver_wrapper _ := NULL;
  lookup_generated_cudart_wrapper _ := NULL
|}.

Lemma example_process_laws : ProcessLaws example_process.
Proof.
  split.
  - intros h. apply (bool_decide_unpack _). by destruct h.
  - intros h h' E.
    assert (forall h, all_hooks !! Z.to_nat (hook_index h) = Some h) as Hat by (intros []; vm_compute; reflexivity).
    simpl in E. assert (hook_index h = hook_index h') as Ei by lia.
    pose proof (Hat h) as H1. rewrite Ei, Hat in H1. congruence.
Qed.

(** The driver library is behind the handle 256, the runtime library behind 512
    and the whole program, with the hooks in front, behind 768. *)
Definition example_linker : Linker := {|
  ld_dlsym real handle symbol :=
    match symbol with
    | None => NULL
    | Some s =>
      if handle =? 256 then match exported s with Some h => 4096 + hook_index h | None => NULL end
      else if handle =? 512 then if String.eqb s "cudaMalloc" then 8192 else NULL
      else if handle =? 768 then match exported s with Some h => 65536 + hook_index h | None => NULL end
      else NULL
    end;
  ld_dlvsym handle symbol version := 16
|}.

Definition example_world : World := {|
  thread := fresh_thread; driver_handle := 256; cells := ∅; intern_driver := ∅; intern_cudart := ∅;
  boxes := ∅; next_box := 1; wrapper_fns := ∅; memory := ∅; linker := example_linker; clock := 0; trace_log := []
|}.

Definition example_args : list CVal := [VPtr 4096; VInt (-1)].

Lemma hook_traces_witness :
  let P := example_process in
  exists d, hook_desc F_cuDeviceGet = Some d
  /\ let found := hd_real d (scope_enter (hd_domain d) (hd_name d) (hook_text F_cuDeviceGet example_args) example_world).2 in
     let result := call_or_unknown found.1 example_args found.2 in
     (cuDeviceGet 4096 (-1) example_world).1 = result.1
     /\ ran [MkHook (hd_domain d) (hd_name d) (hook_text F_cuDeviceGet example_args) (fmt_i result.1)
               (p_clock 0).1 (p_clock 0).2 (p_clock (clock result.2)).1 [] []]
          example_world (cuDeviceGet 4096 (-1) example_world).2.
Proof.
  intros P. eexists. split; [reflexivity|]. intros found result.
  refine (hook_traces (P := P) F_cuDeviceGet example_args (cuDeviceGet 4096 (-1)) _ example_world
    found.1 found.2 result.1 result.2 [] eq_refl eq_refl _ (surjective_pairing _) (surjective_pairing _) _).
  - vm_compute. split; [discriminate|reflexivity].
  - unfold result. exists []. destruct found.1; simpl; by rewrite app_nil_r.
Defined.

Lemma hooks_well_typed_witness :
  let P := example_process in
  exists m d, hook_code F_cuDeviceGet [VPtr 4096; VInt (-1)] = Some m /\ hook_desc F_cuDeviceGet = Some d
  /\ hd_type d = hook_type F_cuDeviceGet
  /\ m = traced_call (hd_domain d) (hd_name d) (hook_text F_cuDeviceGet [VPtr 4096; VInt (-1)]) (hd_real d)
           [VPtr 4096; VInt (-1)].
Proof.
  intros P. apply (hooks_well_typed (P := P)); [discriminate|discriminate|vm_compute; reflexivity].
Defined.

Lemma symbol_lookup_agrees_witness :
  let P := example_process in
  strip_suffixes (fn_name F_cuMemcpyHtoDAsync_v2) = strip_suffixes "cuMemcpyHtoDAsync_v2_ptsz"
  /\ forall h', exported "cuMemcpyHtoDAsync_v2_ptsz" = Some h' ->
     hook_type h' = hook_type F_cuMemcpyHtoDAsync_v2
     /\ forall args, hook_code h' args = hook_code F_cuMemcpyHtoDAsync_v2 args.
Proof. intros P. apply (symbol_lookup_agrees (P := P)). vm_compute. reflexivity. Defined.

