(* ===== verification/ResolveFacts.v ===== *)
(** * What [dlsym], [cuGetProcAddress] and the lookups of the library find

    On top of [CudaFacts]: the answers of the exported [dlsym], the pointers
    that the hooks forward to, and what no sequence of calls can change. *)
From S2P Require Import Prelude RustStr Config Reentry Graph Layout Window Hook CudaAbi CudaProc DriverHooks CudartHooks CudaCalls CudaFacts.

(** The wrappers that [build.rs] generates do not take the names of the
    runtime hooks. *)
Class GeneratedLaws (P : Process) : Prop := {
  generated_not_cudart s : lookup_generated_driver_wrapper s <> NULL -> match_bytes s cudart_symbols = None
}.

Create HintDb keeps.

(** ** Invariants of computations *)

Section Keeps.
Context {P : Process}.

(** Started where [I] holds, [m] ends where [I] holds with a result in [Q]. *)
Definition keeps (I : World -> Prop) {A} (m : M A) (Q : A -> Prop) : Prop :=
  forall w, I w -> I (m w).2 /\ Q (m w).1.

Definition any {A} (a : A) : Prop := True.

Context (I : World -> Prop).

Lemma keeps_ret {A} (a : A) (Q : A -> Prop) : Q a -> keeps I (mret a) Q.
Proof. by intros Ha w Hw. Qed.

Lemma keeps_bind {A B} (m : M A) (k : A -> M B) Q R :
  keeps I m Q -> (forall a, Q a -> keeps I (k a) R) -> keeps I (m ≫= k) R.
Proof.
  intros Hm Hk w Hw. unfold mbind, M_bind. destruct (Hm w Hw) as [H1 H2].
  destruct (m w) as [a w1]. by apply Hk.
Qed.

Lemma keeps_bind_any {A B} (m : M A) (k : A -> M B) R :
  keeps I m any -> (forall a, keeps I (k a) R) -> keeps I (m ≫= k) R.
Proof. intros Hm Hk. by apply (keeps_bind m k any); [|intros a _]. Qed.

Lemma keeps_weaken {A} (m : M A) (Q R : A -> Prop) : keeps I m Q -> (forall a, Q a -> R a) -> keeps I m R.
Proof. intros Hm HQ w Hw. destruct (Hm w Hw). auto. Qed.

Lemma keeps_gets {A} (f : World -> A) (Q : A -> Prop) : (forall w, I w -> Q (f w)) -> keeps I (gets f) Q.
Proof. intros Hf w Hw. split; [done|]. by apply Hf. Qed.

Lemma keeps_modify (f : World -> World) : (forall w, I w -> I (f w)) -> keeps I (modify f) any.
Proof. intros Hf w Hw. split; [by apply Hf|done]. Qed.

Lemma keeps_get_any {A} (f : World -> A) : keeps I (gets f) any.
Proof. by apply keeps_gets. Qed.

Lemma keeps_ret_any {A} (a : A) : keeps I (mret a) any.
Proof. by apply keeps_ret. Qed.

End Keeps.

#[export] Hint Resolve keeps_ret_any keeps_get_any : keeps.

Ltac keeps_tac :=
  repeat (first
    [ progress auto with keeps
    | match goal with
      | |- keeps _ (_ ≫= _) _ => apply keeps_bind_any; [|intros]
      | |- keeps _ (match ?x with _ => _ end) _ => destruct x
      | |- keeps _ (if ?x then _ else _) _ => destruct x
      end ]).

(** ** What a lookup finds and leaves *)

Section Lookup.
Context {P : Process}.

(** The libc [dlsym] that the library calls. *)
Definition linker_real (w : World) : option Z :=
  match cells w !! "REAL_DLSYM" with
  | Some v => v
  | None =>
    let ptr := ld_dlvsym (linker w) RTLD_NEXT "dlsym" "GLIBC_2.2.5" in
    if ptr =? NULL then None else Some ptr
  end.

Definition non_null (p : Z) : option Z := if p =? NULL then None else Some p.

(** The symbol in the libraries after this one, and in the library of the
    handle the application used last. *)
Definition next_lookup (w : World) (s : option string) : option Z :=
  real ← linker_real w; non_null (ld_dlsym (linker w) real RTLD_NEXT s).

Definition handle_lookup (w : World) (s : option string) : option Z :=
  if driver_handle w =? NULL then None
  else real ← linker_real w; non_null (ld_dlsym (linker w) real (driver_handle w) s).

Definition driver_lookup (w : World) (s : option string) : option Z :=
  match handle_lookup w s with Some p => Some p | None => next_lookup w s end.

(** What looking symbols up leaves: statics of [C], and that of [real_dlsym],
    get answers of the linker. *)
Record lookup_step (C : string -> Prop) (w w' : World) : Prop := {
  ls_handle : driver_handle w' = driver_handle w;
  ls_linker : linker w' = linker w;
  ls_cells : cells w ⊆ cells w';
  ls_real : linker_real w' = linker_real w;
  ls_frame c : ~ C c -> c <> "REAL_DLSYM" -> cells w' !! c = cells w !! c;
  ls_new c v : cells w' !! c = Some v ->
    cells w !! c = Some v \/ c = "REAL_DLSYM" \/ exists s, v = driver_lookup w s \/ v = next_lookup w s
}.

Lemma lookup_step_next C w w' s : lookup_step C w w' -> next_lookup w' s = next_lookup w s.
Proof. intros L. unfold next_lookup. by rewrite (ls_real _ _ _ L), (ls_linker _ _ _ L). Qed.

Lemma lookup_step_driver C w w' s : lookup_step C w w' -> driver_lookup w' s = driver_lookup w s.
Proof.
  intros L. unfold driver_lookup, handle_lookup. rewrite (lookup_step_next C w w' s L).
  by rewrite (ls_real _ _ _ L), (ls_linker _ _ _ L), (ls_handle _ _ _ L).
Qed.

#[export] Instance lookup_step_refl C : Reflexive (lookup_step C).
Proof. intros w. split; auto. Qed.

#[export] Instance lookup_step_trans C : Transitive (lookup_step C).
Proof.
  intros w1 w2 w3 L1 L2. split.
  - by rewrite (ls_handle _ _ _ L2), (ls_handle _ _ _ L1).
  - by rewrite (ls_linker _ _ _ L2), (ls_linker _ _ _ L1).
  - etransitivity; [apply (ls_cells _ _ _ L1)|apply (ls_cells _ _ _ L2)].
  - by rewrite (ls_real _ _ _ L2), (ls_real _ _ _ L1).
  - intros c H1 H2. rewrite (ls_frame _ _ _ L2) by done. by apply (ls_frame _ _ _ L1).
  - intros c v [E|[->|(s & E)]]%(ls_new _ _ _ L2).
    + by apply (ls_new _ _ _ L1).
    + by right; left.
    + right; right. exists s. by rewrite <- (lookup_step_driver _ _ _ s L1), <- (lookup_step_next _ _ _ s L1).
Qed.

(** Only the thread, the clock, the output or the memory differ. *)
Lemma lookup_step_same C w w' :
  driver_handle w' = driver_handle w -> linker w' = linker w -> cells w' = cells w -> lookup_step C w w'.
Proof.
  intros H1 H2 H3. split; [done|done|by rewrite H3| |by rewrite H3|].
  - unfold linker_real. by rewrite H2, H3.
  - rewrite H3. auto.
Qed.

Lemma lookup_step_weaken (C D : string -> Prop) w w' :
  (forall c, C c -> D c) -> lookup_step C w w' -> lookup_step D w w'.
Proof. intros H L. destruct L. split; auto. Qed.

(** A computation that looks up symbols, with its answer. *)
Definition no_cell (c : string) : Prop := False.

Definition looks_up (C : string -> Prop) {A} (m : M A) (Q : World -> A -> Prop) : Prop :=
  forall w, lookup_step C w (m w).2 /\ Q w (m w).1.

Lemma looks_up_real_dlsym : looks_up no_cell real_dlsym (fun w v => v = linker_real w).
Proof.
  intros w. unfold real_dlsym, once, gets, modify, mbind, M_bind, mret, M_ret.
  destruct (cells w !! "REAL_DLSYM") as [v|] eqn:E; simpl.
  { split; [done|]. unfold linker_real. by rewrite E. }
  split; [|unfold linker_real; by rewrite E]. split; [done|done| | | |].
  - by apply insert_subseteq.
  - unfold linker_real. simpl. by rewrite lookup_insert_eq, E.
  - intros c _ Hc. simpl. by rewrite lookup_insert_ne.
  - intros c v. simpl. intros [[<- _]|[_ ?]]%lookup_insert_Some; auto.
Qed.

(** With [RTLD_NEXT], the exported [dlsym] is the one of libc. *)
Lemma looks_up_dlsym_next s : looks_up no_cell (dlsym RTLD_NEXT s) (fun w p => non_null p = next_lookup w s).
Proof.
  intros w. unfold dlsym, call_dlsym, gets, mbind, M_bind, mret, M_ret.
  destruct (looks_up_real_dlsym w) as [L E]. destruct (real_dlsym w) as [v w1]. simpl in L, E. subst v.
  unfold next_lookup. destruct (linker_real w) as [real|]; [|by split].
  rewrite Z.eqb_refl. simpl. split; [done|]. by rewrite (ls_linker _ _ _ L).
Qed.

Lemma looks_up_resolve_next s : looks_up no_cell (resolve_next_from_ptr s) (fun w p => p = next_lookup w s).
Proof.
  intros w. unfold resolve_next_from_ptr, on_thread, mbind, M_bind, mret, M_ret.
  destruct (guard_enter (bypass (thread w))) as [g b].
  set (w1 := set_thread (set_bypass b (thread w)) [] w).
  assert (lookup_step no_cell w w1) as L1 by by apply lookup_step_same.
  destruct (looks_up_dlsym_next s w1) as [L2 Hp]. destruct (dlsym RTLD_NEXT s w1) as [p w2]. simpl in *.
  split; [|by rewrite <- (lookup_step_next _ w w1 s L1), <- Hp].
  transitivity w1; [done|]. transitivity w2; [done|]. by apply lookup_step_same.
Qed.

Lemma looks_up_resolve_driver s : looks_up no_cell (resolve_driver_from_ptr s) (fun w p => p = driver_lookup w s).
Proof.
  intros w. unfold resolve_driver_from_ptr, call_dlsym, gets, mbind, M_bind, mret, M_ret, driver_lookup, handle_lookup.
  destruct (Z.eqb_spec (driver_handle w) NULL); simpl; [apply looks_up_resolve_next|].
  destruct (looks_up_real_dlsym w) as [L E]. destruct (real_dlsym w) as [v w1]. simpl in L, E. subst v.
  assert (lookup_step no_cell w (resolve_next_from_ptr s w1).2 /\ (resolve_next_from_ptr s w1).1 = next_lookup w s) as Hnext.
  { destruct (looks_up_resolve_next s w1) as [L2 ->]. split; [by transitivity w1|by eapply lookup_step_next]. }
  destruct (linker_real w) as [real|] eqn:Hr; [|done]. simpl. rewrite (ls_linker _ _ _ L). unfold non_null.
  by destruct (Z.eqb_spec (ld_dlsym (linker w) real (driver_handle w) s) NULL).
Qed.

(** A static answers what its first lookup found. *)
Definition cell_answer (c : string) (init : World -> option Z) (w : World) : option Z :=
  match cells w !! c with Some v => v | None => init w end.

Lemma looks_up_get_or_init {ty} c s m f : c <> "REAL_DLSYM" ->
  looks_up no_cell m (fun w p => p = f w) -> (forall w, f w = driver_lookup w s \/ f w = next_lookup w s) ->
  looks_up (eq c) (get_or_init (ty := ty) c m) (fun w p => fn_addr <$> p = cell_answer c f w)
  /\ forall w, cells (get_or_init (ty := ty) c m w).2 !! c = Some (cell_answer c f w).
Proof.
  intros Hc Hm Hf.
  assert (forall w, let '(p, w') := get_or_init (ty := ty) c m w in
    lookup_step (eq c) w w' /\ fn_addr <$> p = cell_answer c f w /\ cells w' !! c = Some (cell_answer c f w)) as Hall.
  { intros w. unfold get_or_init, once, gets, modify, mbind, M_bind, mret, M_ret, cell_answer.
    destruct (cells w !! c) as [v|] eqn:E; simpl.
    { split_and!; [done|by destruct v|done]. }
    destruct (Hm w) as [L Ep]. destruct (m w) as [p w1]. simpl in *. subst p.
    split_and!; [|by destruct (f w)|by rewrite lookup_insert_eq].
    split; simpl.
    - apply (ls_handle _ _ _ L).
    - apply (ls_linker _ _ _ L).
    - apply map_subseteq_spec. intros c' v Hv. rewrite lookup_insert_ne by (intros <-; congruence).
      apply (lookup_weaken _ _ _ _ Hv), (ls_cells _ _ _ L).
    - transitivity (linker_real w1); [|apply (ls_real _ _ _ L)]. unfold linker_real. simpl.
      by rewrite lookup_insert_ne by done.
    - intros c' Hc1 Hc2. rewrite lookup_insert_ne by done.
      apply (ls_frame _ _ _ L); [by intros []|done].
    - intros c' v [[<- <-]|[_ Hv]]%lookup_insert_Some; [|by apply (ls_new _ _ _ L)].
      right; right. exists s. destruct (Hf w); auto. }
  split; intros w; specialize (Hall w); destruct (get_or_init c m w); naive_solver.
Qed.

(** ** The real functions of the hooks *)

(** The lookup of a library: the driver's symbols go through the handle. *)
Definition resolve_in (d : TraceDomain) (s : string) : M (option Z) :=
  match d with Domain_Driver => resolve_driver_from_ptr (Some s) | _ => resolve_next_from_ptr (Some s) end.

Definition lookup_in (d : TraceDomain) (s : string) (w : World) : option Z :=
  match d with Domain_Driver => driver_lookup w (Some s) | _ => next_lookup w (Some s) end.

(** What a static and its symbol answer in [w]. *)
Definition candidate (d : TraceDomain) (w : World) (row : string * string) : option Z :=
  cell_answer row.1 (lookup_in d row.2) w.

Fixpoint first_found (answers : list (option Z)) : option Z :=
  match answers with
  | [] => None
  | Some p :: _ => Some p
  | None :: answers => first_found answers
  end.

(** The two ways a hook finds its function. *)
Inductive resolver {ty} (d : TraceDomain) : M (option (FnPtr ty)) -> list (string * string) -> Prop :=
| resolver_one c s : c <> "REAL_DLSYM" -> resolver d (get_or_init c (resolve_in d s)) [(c, s)]
| resolver_two c s c' s' : c <> "REAL_DLSYM" -> c' <> "REAL_DLSYM" -> c' <> c ->
    resolver d (or_else (get_or_init c (resolve_in d s)) (get_or_init c' (resolve_in d s'))) [(c, s); (c', s')].

Lemma hook_resolver h d : hook_desc h = Some d -> resolver (hd_domain d) (hd_real d) (hook_reals h).
Proof.
  destruct h; intros Hd; try discriminate Hd; injection Hd as <-;
    cbn [hd_domain hd_real hook_reals];
    lazymatch goal with
    | |- resolver ?d _ [(?c, ?s)] => refine (resolver_one d c s _)
    | |- resolver ?d _ [(?c, ?s); (?c', ?s')] => refine (resolver_two d c s c' s' _ _ _)
    end; discriminate.
Qed.

Lemma looks_up_cell {ty} d c s : c <> "REAL_DLSYM" ->
  looks_up (eq c) (get_or_init (ty := ty) c (resolve_in d s)) (fun w p => fn_addr <$> p = candidate d w (c, s))
  /\ forall w, cells (get_or_init (ty := ty) c (resolve_in d s) w).2 !! c = Some (candidate d w (c, s)).
Proof.
  intros Hc. apply (looks_up_get_or_init c (Some s)); [done| |].
  - destruct d; [apply looks_up_resolve_next|apply looks_up_resolve_driver|apply looks_up_resolve_next].
  - intros w. destruct d; simpl; auto.
Qed.

Lemma candidate_step C d w w' row :
  lookup_step C w w' -> ~ C row.1 -> row.1 <> "REAL_DLSYM" -> candidate d w' row = candidate d w row.
Proof.
  intros L HC Hr. unfold candidate, cell_answer. rewrite (ls_frame _ _ _ L) by done.
  destruct (cells w !! row.1); [done|].
  destruct d; simpl; [by eapply lookup_step_next|by eapply lookup_step_driver|by eapply lookup_step_next].
Qed.

Definition any_cell (c : string) : Prop := True.

(** What a resolver answers, and what it leaves in the statics. *)
Record resolved {ty} (d : TraceDomain) (rows : list (string * string)) (w : World)
    (p : option (FnPtr ty)) (w' : World) : Prop := {
  rs_answer : fn_addr <$> p = first_found (candidate d w <$> rows);
  rs_step : lookup_step any_cell w w';
  rs_sticks w2 : cells w' ⊆ cells w2 -> first_found (candidate d w2 <$> rows) = fn_addr <$> p
}.

Lemma cell_sticks d w w2 row v : cells w !! row.1 = Some v -> cells w ⊆ cells w2 -> candidate d w2 row = v.
Proof.
  intros E Hsub. unfold candidate, cell_answer. by rewrite (lookup_weaken _ _ _ _ E Hsub).
Qed.

Lemma resolver_resolved {ty} d (m : M (option (FnPtr ty))) rows w :
  resolver d m rows -> resolved d rows w (m w).1 (m w).2.
Proof.
  intros [c s Hc|c s c' s' Hc Hc' Hne].
  - destruct (looks_up_cell (ty := ty) d c s Hc) as [Hl Hcell]. destruct (Hl w) as [L E]. specialize (Hcell w).
    destruct (get_or_init c (resolve_in d s) w) as [p w1]. simpl in *. split.
    + rewrite E. simpl. by destruct (candidate d w (c, s)).
    + eapply lookup_step_weaken; [|done]. done.
    + intros w2 Hsub. simpl. rewrite (cell_sticks d w1 w2 (c, s) _ Hcell Hsub), E. by destruct (candidate d w (c, s)).
  - destruct (looks_up_cell (ty := ty) d c s Hc) as [Hl Hcell]. destruct (Hl w) as [L E]. specialize (Hcell w).
    unfold or_else, mbind, M_bind, mret, M_ret.
    destruct (get_or_init c (resolve_in d s) w) as [p w1]. simpl in *.
    destruct p as [f|]; simpl in E.
    + simpl. split; simpl; rewrite <- ?E; [done|by eapply lookup_step_weaken; [|done]|].
      intros w2 Hsub. rewrite <- E in Hcell. by rewrite (cell_sticks d w1 w2 (c, s) _ Hcell Hsub).
    + destruct (looks_up_cell (ty := ty) d c' s' Hc') as [Hl' Hcell']. destruct (Hl' w1) as [L' E']. specialize (Hcell' w1).
      destruct (get_or_init c' (resolve_in d s') w1) as [p' w1']. simpl in *. rewrite <- E in Hcell.
      assert (candidate d w1 (c', s') = candidate d w (c', s')) as Hc1
        by (eapply candidate_step; [done|by intros ->|done]).
      split; simpl.
      * rewrite <- E, E', Hc1. by destruct (candidate d w (c', s')).
      * transitivity w1; by eapply lookup_step_weaken; [|done].
      * intros w2 Hsub. rewrite (cell_sticks d w1' w2 (c', s') _ Hcell' Hsub).
        rewrite (cell_sticks d w1 w2 (c, s) None Hcell); [by rewrite E'; destruct (candidate d w1 (c', s'))|].
        etransitivity; [apply (ls_cells _ _ _ L')|done].
Qed.

(** C9: the function a hook forwards to.  It is the first that its symbols name,
    in the order of the code: a symbol of the driver in the library of the
    handle the application last found a hook through, then in the libraries
    after this one; a symbol of the runtime in the latter; each unless its
    static has an answer already. *)
Theorem hook_real_found h d w : hook_desc h = Some d ->
  fn_addr <$> (hd_real d w).1 = first_found (candidate (hd_domain d) w <$> hook_reals h).
Proof. intros Hd. apply (resolver_resolved _ _ _ w (hook_resolver h d Hd)). Qed.

End Lookup.

(** ** The exported [dlsym] *)

Section Dlsym.
Context {P : Process} {PL : ProcessLaws P} {GL : GeneratedLaws P}.

Lemma dlsym_override_not_null s p : dlsym_override s = Some p -> p <> NULL.
Proof.
  destruct s as [s|]; [|done]. simpl. unfold wrapper_for_driver_symbol, wrapper_for_cudart_symbol.
  intros E. repeat case_match; simplify_eq; bool_to_prop; congruence.
Qed.

Lemma dlsym_override_hook s h : hook_of_symbol s = Some h -> dlsym_override (Some s) = Some (p_addr h).
Proof.
  unfold hook_of_symbol. simpl. destruct (match_bytes s driver_symbols) as [h'|] eqn:E.
  - intros <-%some_eq. by rewrite (wrapper_driver_hook s h').
  - intros E'. rewrite (wrapper_driver_other s E).
    + unfold wrapper_for_cudart_symbol. rewrite E'. pose proof (addr_not_null h).
      by destruct (Z.eqb_spec (p_addr h) NULL).
    + destruct (decide (lookup_generated_driver_wrapper s = NULL)) as [|Hn]; [done|].
      apply generated_not_cudart in Hn. congruence.
Qed.

(** The exported [dlsym] in full. *)
Lemma dlsym_eval handle symbol w real :
  linker_real w = Some real ->
  let found := ld_dlsym (linker w) real handle symbol in
  let known := if (handle =? RTLD_NEXT) || (found =? NULL) then None else dlsym_override symbol in
  (dlsym handle symbol w).1 = default found known
  /\ driver_handle (dlsym handle symbol w).2 = match known with Some _ => handle | None => driver_handle w end
  /\ linker (dlsym handle symbol w).2 = linker w /\ linker_real (dlsym handle symbol w).2 = Some real.
Proof.
  intros Hr found known. unfold dlsym, call_dlsym, gets, modify, mbind, M_bind, mret, M_ret.
  destruct (looks_up_real_dlsym w) as [L E]. destruct (real_dlsym w) as [v w1]. simpl in L, E. subst v.
  rewrite Hr. rewrite (ls_linker _ _ _ L). fold found. unfold known.
  pose proof (ls_handle _ _ _ L) as Hh. pose proof (ls_linker _ _ _ L) as Hl. pose proof (ls_real _ _ _ L) as Hc. rewrite Hr in Hc.
  destruct (handle =? RTLD_NEXT), (found =? NULL); simpl; [done..|]. by destruct (dlsym_override symbol).
Qed.

(** C8: what the application gets from [dlsym].  A symbol is found exactly if the
    real [dlsym] finds it.  The name of a hooked function that is found gives
    the hook, and makes the handle the one the driver's functions are looked up
    in; anything else, and every [RTLD_NEXT] lookup, gives the real answer and
    leaves that handle alone. *)
Theorem dlsym_answers handle symbol w real :
  linker_real w = Some real ->
  let found := ld_dlsym (linker w) real handle symbol in
  let '(answer, w') := dlsym handle symbol w in
  (answer = NULL <-> found = NULL)
  /\ (forall s h, symbol = Some s -> hook_of_symbol s = Some h -> handle <> RTLD_NEXT -> found <> NULL ->
        answer = p_addr h /\ driver_handle w' = handle)
  /\ (handle = RTLD_NEXT \/ found = NULL \/ dlsym_override symbol = None ->
        answer = found /\ driver_handle w' = driver_handle w).
Proof.
  intros Hr found. destruct (dlsym_eval handle symbol w real Hr) as (Ha & Hh & _). fold found in Ha, Hh.
  destruct (dlsym handle symbol w) as [answer w']. simpl in Ha, Hh. rewrite Ha, Hh. split_and!.
  - destruct (handle =? RTLD_NEXT), (Z.eqb_spec found NULL); simpl; try done.
    destruct (dlsym_override symbol) as [p|] eqn:E; [|done]. simpl.
    by pose proof (dlsym_override_not_null _ _ E).
  - intros s h -> Hs Hn Hf. rewrite (dlsym_override_hook s h Hs).
    destruct (Z.eqb_spec handle RTLD_NEXT), (Z.eqb_spec found NULL); done.
  - intros Hcase. destruct (Z.eqb_spec handle RTLD_NEXT), (Z.eqb_spec found NULL); simpl; try done.
    by destruct Hcase as [?|[?| -> ]].
Qed.

(** Without a [dlsym] in libc nothing is found. *)
Lemma dlsym_unavailable handle symbol w : linker_real w = None -> (dlsym handle symbol w).1 = NULL.
Proof.
  intros Hr. unfold dlsym, mbind, M_bind. destruct (looks_up_real_dlsym w) as [L E].
  destruct (real_dlsym w) as [v w1]. simpl in L, E. subst v. by rewrite Hr.
Qed.

(** ** [cuGetProcAddress] *)

(** C23: what the application gets from [cuGetProcAddress].  The result is the
    real function's (the other version's when this one is missing, 999 when
    both are); after a success, a symbol that names a hook has the hook in its
    place whatever version and flags were asked for, after a failure and for
    other symbols the memory is as the real function left it. *)
Theorem proc_address_answers symbol pfn version flags w :
  let '(real, w1) := real_cu_get_proc_address w in
  let '(real_v2, w1') := real_cu_get_proc_address_v2 w1 in
  let '(ret, w2) := match real with
    | Some real => call real [VPtr (cs_ptr symbol); VPtr pfn; VInt version; VU64 flags] w1
    | None => call_or_unknown real_v2 [VPtr (cs_ptr symbol); VPtr pfn; VInt version; VU64 flags; VPtr NULL] w1'
    end in
  let '(ret', w') := cuGetProcAddress symbol pfn version flags w in
  ret' = ret
  /\ memory w' = match (if (ret =? CUDA_SUCCESS) && negb (pfn =? NULL) then cstr symbol ≫= wrapper_for_driver_symbol else None) with
                 | Some wrapper => <[pfn := wrapper]> (memory w2)
                 | None => memory w2
                 end
  /\ thread w' = thread w2 /\ trace_log w' = trace_log w2 /\ cells w' = cells w2.
Proof.
  unfold cuGetProcAddress, call_or_unknown, patch_driver_proc, modify, mbind, M_bind, mret, M_ret.
  destruct (real_cu_get_proc_address w) as [[real|] w1].
  all: destruct (real_cu_get_proc_address_v2 w1) as [[real_v2|] w1'].
  all: repeat match goal with |- context [call ?f ?a ?x] => destruct (call f a x) as [? ?] end.
  all: simpl; repeat (case_match; simpl); simplify_eq; try done; simpl in *; simplify_eq; done.
Qed.

End Dlsym.

(** ** Every sequence of calls into the library *)

Section Runs.
Context {P : Process} {PL : ProcessLaws P} {GL : GeneratedLaws P}.

(** A call of an exported function, or a change of the libraries that are loaded. *)
Inductive LibCall :=
| Call_dlsym (handle : Z) (symbol : option string)
| Call_hook (h : HookFn) (args : list CVal)
| Call_cuGetProcAddress (symbol : CStrPtr) (pfn version flags : Z)
| Call_cuGetProcAddress_v2 (symbol : CStrPtr) (pfn version flags status : Z)
| Call_driver_enter (func : option string) | Call_driver_exit (scope ret : Z)
| Call_resolve_driver (symbol : option string)
| Call_cudart_enter (func : option string) | Call_cudart_exit (scope ret : Z)
| Call_resolve_cudart (symbol : option string)
| Libraries (l : Linker).

Definition exec (c : LibCall) (w : World) : World :=
  match c with
  | Call_dlsym handle symbol => (dlsym handle symbol w).2
  | Call_hook h args => match hook_code h args with Some m => (m w).2 | None => w end
  | Call_cuGetProcAddress symbol pfn version flags => (cuGetProcAddress symbol pfn version flags w).2
  | Call_cuGetProcAddress_v2 symbol pfn version flags status =>
      (cuGetProcAddress_v2 symbol pfn version flags status w).2
  | Call_driver_enter func => (cudatrace_driver_enter func w).2
  | Call_driver_exit scope ret => (cudatrace_driver_exit scope ret w).2
  | Call_resolve_driver symbol => (cudatrace_resolve_driver_symbol symbol w).2
  | Call_cudart_enter func => (cudatrace_cudart_enter func w).2
  | Call_cudart_exit scope ret => (cudatrace_cudart_exit scope ret w).2
  | Call_resolve_cudart symbol => (cudatrace_resolve_cudart_symbol symbol w).2
  | Libraries l => set_linker l w
  end.

Definition exec_all (cs : list LibCall) (w : World) : World := foldl (fun w c => exec c w) w cs.

(** An invariant of the statics: lookups keep it, and so do a new handle from
    [H], libraries from [L] and the code of other libraries. *)
Section Invariant.
Context (I : World -> Prop) (H : Z -> Prop) (L : Linker -> Prop).
Context (I_lookup : forall w w', lookup_step any_cell w w' -> I w -> I w').
Context (I_handle : forall h w, H h -> I w -> I (set_handle h w)).
Context (I_linker : forall l w, L l -> I w -> I (set_linker l w)).
Context (I_code : forall f args, keeps I (p_code f args) any).

Lemma keeps_looks_up {C A} (m : M A) Q : looks_up C m Q -> keeps I m any.
Proof.
  intros Hm w Hw. destruct (Hm w) as [Hl _]. split; [|done]. apply (I_lookup w); [|done].
  by eapply lookup_step_weaken; [|done].
Qed.

Lemma keeps_same {A} (m : M A) :
  (forall w, driver_handle (m w).2 = driver_handle w /\ linker (m w).2 = linker w /\ cells (m w).2 = cells w) ->
  keeps I m any.
Proof.
  intros Hm w Hw. destruct (Hm w) as (H1 & H2 & H3). split; [|done].
  apply (I_lookup w); [|done]. by apply lookup_step_same.
Qed.

Lemma keeps_on_thread {A} (f : HookState -> A * list HookEvent * HookState) : keeps I (on_thread f) any.
Proof. apply keeps_same. intros w. unfold on_thread. by destruct (f (thread w)) as [[? ?] ?]. Qed.

Lemma keeps_modify_same (f : World -> World) :
  (forall w, driver_handle (f w) = driver_handle w /\ linker (f w) = linker w /\ cells (f w) = cells w) ->
  keeps I (modify f) any.
Proof. intros Hf. by apply keeps_same. Qed.

#[local] Hint Extern 1 (keeps I (modify _) any) => apply keeps_modify_same; done : keeps.
#[local] Hint Resolve keeps_on_thread : keeps.
#[local] Hint Extern 1 (keeps I (p_code _ _) any) => apply I_code : keeps.

Lemma keeps_scope_enter d f a : keeps I (scope_enter d f a) any.
Proof. unfold scope_enter, read_clock. keeps_tac. Qed.
Lemma keeps_scope_finish s r : keeps I (scope_finish s r) any.
Proof. unfold scope_finish, read_clock. keeps_tac. Qed.
#[local] Hint Resolve keeps_scope_enter keeps_scope_finish : keeps.

Lemma keeps_resolve_driver s : keeps I (resolve_driver_from_ptr s) any.
Proof. eapply keeps_looks_up, looks_up_resolve_driver. Qed.
Lemma keeps_resolve_next s : keeps I (resolve_next_from_ptr s) any.
Proof. eapply keeps_looks_up, looks_up_resolve_next. Qed.
#[local] Hint Resolve keeps_resolve_driver keeps_resolve_next : keeps.

Lemma keeps_resolver {ty} d (m : M (option (FnPtr ty))) rows : resolver d m rows -> keeps I m any.
Proof.
  intros Hr w Hw. pose proof (resolver_resolved d m rows w Hr) as [_ Hs _].
  split; [by apply (I_lookup w)|done].
Qed.

Lemma keeps_proc_address : keeps I real_cu_get_proc_address any /\ keeps I real_cu_get_proc_address_v2 any.
Proof.
  split; [apply (keeps_resolver Domain_Driver _ [("REAL_CU_GET_PROC_ADDRESS", "cuGetProcAddress")])
         |apply (keeps_resolver Domain_Driver _ [("REAL_CU_GET_PROC_ADDRESS_V2", "cuGetProcAddress_v2")])];
    by apply (resolver_one Domain_Driver).
Qed.

Lemma keeps_hook h args m : hook_code h args = Some m -> keeps I m any.
Proof.
  intros Hm. destruct (hook_code_traced h args m Hm) as (d & Hd & ->).
  pose proof (keeps_resolver _ _ _ (hook_resolver h d Hd)) as Hr.
  unfold traced_call, call_or_unknown, call. keeps_tac.
Qed.

Definition call_ok (c : LibCall) : Prop :=
  match c with
  | Call_dlsym handle symbol => handle = RTLD_NEXT \/ dlsym_override symbol = None \/ H handle
  | Libraries l => L l
  | _ => True
  end.

Lemma keeps_dlsym handle symbol : call_ok (Call_dlsym handle symbol) -> keeps I (dlsym handle symbol) any.
Proof.
  intros Hok. unfold dlsym, call_dlsym.
  apply keeps_bind_any; [eapply keeps_looks_up, looks_up_real_dlsym|]. intros [real|]; [|keeps_tac].
  apply keeps_bind_any; [keeps_tac|]. intros p.
  destruct (Z.eqb_spec handle RTLD_NEXT), (p =? NULL); simpl; try (by keeps_tac).
  destruct (dlsym_override symbol) eqn:E; [|keeps_tac].
  apply keeps_bind_any; [|keeps_tac]. apply keeps_modify. intros w Hw.
  destruct Hok as [|[|]]; [congruence|congruence|by apply I_handle].
Qed.

Lemma exec_keeps c w : call_ok c -> I w -> I (exec c w).
Proof.
  destruct keeps_proc_address as [Hp1 Hp2].
  intros Hok Hw. destruct c; simpl; try (by apply I_linker).
  1: by apply keeps_dlsym.
  1: { destruct (hook_code h args) as [m|] eqn:E; [|done]. by apply (keeps_hook h args m E). }
  all: match goal with |- I (snd (?m ?x)) => assert (keeps I m any) as Hk; [|by apply Hk] end.
  all: unfold cuGetProcAddress, cuGetProcAddress_v2, patch_driver_proc, cudatrace_driver_enter, cudatrace_driver_exit,
    cudatrace_cudart_enter, cudatrace_cudart_exit, cudatrace_resolve_driver_symbol, cudatrace_resolve_cudart_symbol,
    intern_driver_func_name, intern_cudart_func_name, box_into_raw, box_from_raw, call; keeps_tac.
Qed.

Lemma exec_all_keeps cs w : Forall call_ok cs -> I w -> I (exec_all cs w).
Proof.
  intros Hcs. revert w. induction Hcs as [|c cs Hc Hcs IH]; intros w Hw; [done|].
  simpl. apply IH. by apply exec_keeps.
Qed.

End Invariant.

(** C24: a hook never changes its mind.  Once it has looked for its real function,
    no sequence of calls and no library loaded or unloaded meanwhile changes
    what it forwards to: a function that was missing at the first call stays
    missing, and every later call answers 999. *)
Theorem real_function_sticks h d w cs :
  (forall f args w, cells w ⊆ cells (p_code f args w).2) -> hook_desc h = Some d ->
  fn_addr <$> (hd_real d (exec_all cs (hd_real d w).2)).1 = fn_addr <$> (hd_real d w).1.
Proof.
  intros Hcode Hd. pose proof (resolver_resolved _ _ _ w (hook_resolver h d Hd)) as [_ _ Hs].
  set (w1 := (hd_real d w).2) in *.
  pose proof (resolver_resolved _ _ _ (exec_all cs w1) (hook_resolver h d Hd)) as [E _ _]. rewrite E. apply Hs.
  apply (exec_all_keeps (fun w' => cells w1 ⊆ cells w') any any); [| | | | |done].
  - intros w2 w3 L Hsub. etransitivity; [exact Hsub|apply (ls_cells _ _ _ L)].
  - intros h' w2 _ Hsub. exact Hsub.
  - intros l w2 _ Hsub. exact Hsub.
  - intros f args w2 Hsub. split; [etransitivity; [exact Hsub|apply Hcode]|done].
  - apply Forall_true. intros []; simpl; unfold any; auto.
Qed.

(** ** No hook forwards to a hook *)

(** The handles of libraries whose scope does not hold this library. *)
Context (foreign : Z -> Prop).

(** Lookups after this library, and in foreign libraries, do not find it. *)
Definition linker_ok (l : Linker) : Prop :=
  forall real handle s h, handle = RTLD_NEXT \/ foreign handle -> ld_dlsym l real handle s <> p_addr h.

Record statics_ok (w : World) : Prop := {
  so_linker : linker_ok (linker w);
  so_handle : driver_handle w = NULL \/ foreign (driver_handle w);
  so_cells c p h : cells w !! c = Some (Some p) -> c <> "REAL_DLSYM" -> p <> p_addr h
}.

Lemma non_null_Some p q : non_null p = Some q -> p = q.
Proof. unfold non_null. by case_match; intros [= ->]. Qed.

Lemma next_lookup_ok w s p h : statics_ok w -> next_lookup w s = Some p -> p <> p_addr h.
Proof.
  intros Hok. unfold next_lookup. destruct (linker_real w) as [real|]; [|done]. simpl.
  intros <-%non_null_Some. apply (so_linker _ Hok). by left.
Qed.

Lemma driver_lookup_ok w s p h : statics_ok w -> driver_lookup w s = Some p -> p <> p_addr h.
Proof.
  intros Hok. unfold driver_lookup, handle_lookup.
  destruct (Z.eqb_spec (driver_handle w) NULL); [by apply next_lookup_ok|].
  destruct (linker_real w) as [real|]; simpl; [|by apply next_lookup_ok].
  destruct (non_null _) eqn:E; [|by apply next_lookup_ok]. intros <-%some_eq.
  apply non_null_Some in E as <-. apply (so_linker _ Hok). right.
  by destruct (so_handle _ Hok).
Qed.

Lemma statics_ok_lookup w w' : lookup_step any_cell w w' -> statics_ok w -> statics_ok w'.
Proof.
  intros L Hok. split.
  - rewrite (ls_linker _ _ _ L). apply Hok.
  - rewrite (ls_handle _ _ _ L). apply Hok.
  - intros c p h Hc Hne. apply (ls_new _ _ _ L) in Hc as [Hc|[|(s & [Hs|Hs])]]; [|done| |].
    + by apply (so_cells _ Hok c).
    + by apply (driver_lookup_ok w s).
    + by apply (next_lookup_ok w s).
Qed.

Lemma candidate_ok w d row p h :
  statics_ok w -> row.1 <> "REAL_DLSYM" -> candidate d w row = Some p -> p <> p_addr h.
Proof.
  intros Hok Hne. unfold candidate, cell_answer. destruct (cells w !! row.1) as [v|] eqn:E.
  - intros ->. by apply (so_cells _ Hok row.1).
  - destruct d; simpl; [by apply next_lookup_ok|by apply driver_lookup_ok|by apply next_lookup_ok].
Qed.

(** C7: no hook forwards to a hook.  As long as the application looks hooked
    functions up only through handles of foreign libraries (or the null handle),
    whatever else it calls and loads, the function that a hook forwards to is
    never a hook, so that no call goes round in a circle. *)
Theorem hook_never_forwards_to_hook cs h d w f h' :
  (forall f args, keeps statics_ok (p_code f args) any) ->
  Forall (call_ok (fun handle => handle = NULL \/ foreign handle) linker_ok) cs ->
  statics_ok w -> hook_desc h = Some d ->
  (hd_real d (exec_all cs w)).1 = Some f -> fn_addr f <> p_addr h'.
Proof.
  intros Hcode Hcs Hw Hd Hf.
  assert (statics_ok (exec_all cs w)) as Hok.
  { apply (exec_all_keeps statics_ok (fun handle => handle = NULL \/ foreign handle) linker_ok); auto.
    - apply statics_ok_lookup.
    - intros a w1 Ha [H1 H2 H3]. by split.
    - intros l w1 Hl [H1 H2 H3]. by split. }
  pose proof (resolver_resolved _ _ _ (exec_all cs w) (hook_resolver h d Hd)) as [E _ _].
  rewrite Hf in E. simpl in E. symmetry in E.
  destruct (hook_resolver h d Hd) as [c s Hc|c s c' s' Hc Hc' Hne]; simpl in E.
  - destruct (candidate _ _ _) eqn:E1; [|done]. apply some_eq in E as ->.
    by eapply (candidate_ok _ _ (c, s)).
  - destruct (candidate _ _ (c, s)) eqn:E1; [apply some_eq in E as ->; by eapply (candidate_ok _ _ (c, s))|].
    destruct (candidate _ _ (c', s')) eqn:E2; [|done]. apply some_eq in E as ->.
    by eapply (candidate_ok _ _ (c', s')).
Qed.

End Runs.

(** ** What the shared handle does wrong *)

Section Hazards.
Context {P : Process} {PL : ProcessLaws P} {GL : GeneratedLaws P}.

(** A handle whose scope begins with this library, as that of the program. *)
Definition finds_own (w : World) (real handle : Z) (h : HookFn) : Prop :=
  ld_dlsym (linker w) real handle (Some (fn_name h)) = p_addr h.


(** C33: a runtime symbol takes the driver's handle.  The handle is replaced by
    that of any lookup that finds a hook, also one of the runtime library; a
    driver function that only the former library has is then not found any
    more, and its hook answers 999 although the library is still loaded. *)
Theorem runtime_lookup_loses_driver handle s hs h d w real :
  linker_real w = Some real -> handle <> RTLD_NEXT ->
  ld_dlsym (linker w) real handle (Some s) <> NULL -> hook_of_symbol s = Some hs ->
  hook_desc h = Some d -> hd_domain d = Domain_Driver ->
  Forall (fun row => cells (dlsym handle (Some s) w).2 !! row.1 = None
                     /\ ld_dlsym (linker w) real handle (Some row.2) = NULL
                     /\ ld_dlsym (linker w) real RTLD_NEXT (Some row.2) = NULL) (hook_reals h) ->
  (hd_real d (dlsym handle (Some s) w).2).1 = None.
Proof.
  intros Hr Hnext Hfound Hs Hd Hdom Hrows.
  destruct (dlsym_eval handle (Some s) w real Hr) as (_ & Hh & Hl & Hr').
  rewrite (dlsym_override_hook _ hs Hs) in Hh.
  destruct (Z.eqb_spec handle RTLD_NEXT), (Z.eqb_spec (ld_dlsym (linker w) real handle (Some s)) NULL); try done.
  simpl in Hh. set (w1 := (dlsym handle (Some s) w).2) in *.
  pose proof (resolver_resolved _ _ _ w1 (hook_resolver h d Hd)) as [E _ _].
  assert (first_found (candidate (hd_domain d) w1 <$> hook_reals h) = None) as Hnone.
  { rewrite Hdom. clear E. revert Hrows. generalize (hook_reals h). intros rows.
    induction 1 as [|row rows (Hc & H1 & H2) _ IH]; [done|]. cbn [fmap list_fmap first_found].
    assert (candidate Domain_Driver w1 row = None) as ->; [|exact IH].
    unfold candidate, cell_answer. rewrite Hc. simpl. unfold driver_lookup, handle_lookup, next_lookup.
    rewrite Hh, Hr', Hl. simpl. rewrite H1, H2. by destruct (handle =? NULL). }
  rewrite Hnone in E. by destruct (hd_real d w1).1.
Qed.

(** The default stream of a thread is lost.  Every hook that stands for a
    symbol of the per-thread default stream ([_ptsz]) forwards only to symbols
    of the legacy default stream. *)
Theorem per_thread_symbols_forwarded_to_legacy s h :
  match_bytes s driver_symbols = Some h -> trim_end_matches "_ptsz" s <> s ->
  Forall (fun row => trim_end_matches "_ptsz" row.2 = row.2) (hook_reals h) /\ hook_reals h <> [].
Proof.
  intros Hs%match_bytes_In%list_elem_of_In Hne.
  assert (forallb (fun '(s, h) => String.eqb (trim_end_matches "_ptsz" s) s
     || (forallb (fun row : string * string => String.eqb (trim_end_matches "_ptsz" row.2) row.2) (hook_reals h)
         && negb (Nat.eqb (length (hook_reals h)) 0)))
     (driver_symbols ≫= (fun '(alts, h) => (fun s => (s, h)) <$> alts)) = true) as Hall by (vm_compute; reflexivity).
  pose proof (proj1 (forallb_forall _ _) Hall _ Hs) as Hrow. simpl in Hrow.
  apply orb_true_iff in Hrow as [E%String.eqb_eq|[Hf Hl]%andb_true_iff]; [done|]. split.
  - apply List.Forall_forall. intros row Hin. apply String.eqb_eq.
    exact (proj1 (forallb_forall _ _) Hf row Hin).
  - by destruct (hook_reals h).
Qed.
End Hazards.

(** ** Witnesses *)

Lemma example_generated_laws : GeneratedLaws example_process.
Proof. split. intros s Hn. by contradict Hn. Qed.

Lemma hook_real_found_witness :
  let P := example_process in
  exists d, hook_desc F_cuStreamDestroy = Some d
  /\ fn_addr <$> (hd_real d example_world).1
     = first_found (candidate (hd_domain d) example_world <$> hook_reals F_cuStreamDestroy).
Proof. intros P. eexists. split; [reflexivity|]. by apply (hook_real_found (P := P)). Defined.

Lemma dlsym_answers_witness :
  let P := example_process in
  let '(answer, w') := dlsym 512 (Some "cudaMalloc") example_world in
  (answer = NULL <-> 8192 = NULL)
  /\ (forall s h, Some "cudaMalloc" = Some s -> hook_of_symbol s = Some h -> 512 <> RTLD_NEXT -> 8192 <> NULL ->
        answer = p_addr h /\ driver_handle w' = 512)
  /\ (512 = RTLD_NEXT \/ 8192 = NULL \/ dlsym_override (Some "cudaMalloc") = None ->
        answer = 8192 /\ driver_handle w' = driver_handle example_world).
Proof.
  intros P.
  apply (dlsym_answers (P := P) (PL := example_process_laws) (GL := example_generated_laws)
    512 (Some "cudaMalloc") example_world 16). vm_compute. reflexivity.
Defined.

(** A function that is missing at the first call is missing after its library is loaded. *)
Definition nothing_loaded : Linker := {| ld_dlsym _ _ _ := NULL; ld_dlvsym _ _ _ := 16 |}.

Lemma real_function_sticks_witness :
  let P := example_process in
  exists d, hook_desc F_cuInit = Some d
  /\ (hd_real d (set_linker nothing_loaded example_world)).1 = None
  /\ fn_addr <$> (hd_real d (exec_all [Libraries example_linker; Call_dlsym 256 (Some "cuDeviceGet")]
                              (hd_real d (set_linker nothing_loaded example_world)).2)).1
     = fn_addr <$> (hd_real d (set_linker nothing_loaded example_world)).1.
Proof.
  intros P. eexists. split; [reflexivity|]. split; [reflexivity|].
  by apply (real_function_sticks (P := P) F_cuInit).
Defined.

Definition example_foreign (handle : Z) : Prop := handle = 256 \/ handle = 512.

Lemma example_linker_ok : linker_ok (P := example_process) example_foreign example_linker.
Proof.
  assert (forall h, 0 <= hook_index h < 100) as Hrange.
  { intros h. apply (bool_decide_unpack _). by destruct h. }
  intros real handle [s|] h Hh; cbn [ld_dlsym example_linker p_addr example_process].
  2: pose proof (Hrange h); unfold NULL; lia.
  destruct Hh as [->|[->| ->]]; simpl.
  - pose proof (Hrange h). unfold NULL. lia.
  - destruct (exported s) as [h'|]; pose proof (Hrange h); [pose proof (Hrange h')|]; unfold NULL; lia.
  - destruct (String.eqb s "cudaMalloc"); pose proof (Hrange h); unfold NULL; lia.
Qed.

Lemma hook_never_forwards_to_hook_witness :
  let P := example_process in
  exists d f, hook_desc F_cuInit = Some d
  /\ (hd_real d (exec_all [Call_dlsym 256 (Some "cuInit"); Call_hook F_cuDeviceGet [VPtr 4096; VInt 0]] example_world)).1 = Some f
  /\ fn_addr f <> p_addr F_cuInit.
Proof.
  intros P. do 2 eexists. split; [reflexivity|]. split; [reflexivity|].
  eapply (hook_never_forwards_to_hook (P := P) example_foreign
    [Call_dlsym 256 (Some "cuInit"); Call_hook F_cuDeviceGet [VPtr 4096; VInt 0]] F_cuInit _ example_world);
    [| | |reflexivity|reflexivity].
  - intros f args w Hw. split; [exact Hw|exact I].
  - apply Forall_cons_2; [right; right; right; left; reflexivity|]. apply Forall_cons_2; [exact I|constructor].
  - split; [exact example_linker_ok|right; by left|]. intros c p h Hc. cbn [cells example_world] in Hc.
    rewrite lookup_empty in Hc. discriminate.
Defined.


Lemma runtime_lookup_loses_driver_witness :
  let P := example_process in
  exists d, hook_desc F_cuInit = Some d
  /\ (exists f, (hd_real d example_world).1 = Some f)
  /\ (hd_real d (dlsym 512 (Some "cudaMalloc") example_world).2).1 = None.
Proof.
  intros P. eexists. split; [reflexivity|]. split; [eexists; reflexivity|].
  apply (runtime_lookup_loses_driver (P := P) (PL := example_process_laws) (GL := example_generated_laws)
    512 "cudaMalloc" F_cudaMalloc F_cuInit _ example_world 16); try reflexivity; try discriminate.
  repeat constructor.
Defined.

Lemma per_thread_symbols_forwarded_to_legacy_witness :
  Forall (fun row => trim_end_matches "_ptsz" row.2 = row.2) (hook_reals F_cuMemcpyAsync)
  /\ hook_reals F_cuMemcpyAsync <> [].
Proof.
  apply (per_thread_symbols_forwarded_to_legacy "cuMemcpyAsync_ptsz"); [reflexivity|].
  vm_compute. discriminate.
Defined.
