(* ===== verification/Build.v ===== *)
(** * The build script: [src/build.rs]

    The script writes the C source of the wrappers that are not written by hand,
    one for each prototype of [build_specs_embed.rs], and the table that
    [lookup_generated_driver_wrapper] searches.  Files and environment are
    parameters; what the script prints, writes and compiles is a list of
    actions. *)
From S2P Require Import Prelude RustStr BuildSpecs.

(** ** Positions in strings *)

(** [s.find(needle)] and [s.rfind(needle)] as byte positions. *)
Fixpoint find_str (needle s : string) : option nat :=
  if starts_with needle s then Some 0%nat
  else match s with EmptyString => None | String _ s => S <$> find_str needle s end.

Fixpoint rfind_str (needle s : string) : option nat :=
  match s with
  | EmptyString => if starts_with needle s then Some 0%nat else None
  | String _ s' =>
    match rfind_str needle s' with
    | Some i => Some (S i)
    | None => if starts_with needle s then Some 0%nat else None
    end
  end.

(** [&s[a..b]] *)
Definition slice (a b : nat) (s : string) : string := String.substring a (b - a) s.
Definition slice_from (a : nat) (s : string) : string := slice a (String.length s) s.

(** ** Prototypes *)

Definition DRIVER_MANUAL_HOOKS_FILE : string := "src/hook/driver.rs".
Definition CUDART_MANUAL_HOOKS_FILE : string := "src/hook/cudart.rs".
Definition GENERATED_NVIDIA_IOCTL_TABLES_FILE : string := "generated_nvidia_ioctl_tables.rs".

Definition CUDA_ERROR_UNKNOWN : Z := 999.

Record WrapperPrototype := {
  wp_decl_prefix : string;
  wp_name : string;
  wp_params : string;
  wp_arg_names : list string
}.

(** The text before the name of an exported function. *)
Definition hook_decl : string := "pub unsafe extern " +:+ DQ +:+ "C" +:+ DQ +:+ " fn ".

(** [rest.split(c).next()] is always there. *)
Definition split_first (c : ascii) (s : string) : string := default EmptyString (head (split_char c s)).

(** A [HashSet<String>] as the list of its elements: [contains] and [insert]. *)
Definition set_contains (name : string) (set : list string) : bool := existsb (String.eqb name) set.
Definition set_insert (name : string) (set : list string) : list string :=
  if set_contains name set then set else name :: set.

Definition parse_manual_hook_names (text symbol_prefix : string) : list string :=
  foldl (fun out line =>
    match strip_prefix hook_decl (trim line) with
    | None => out
    | Some rest =>
      let name := trim (split_first "(" rest) in
      if starts_with symbol_prefix name then set_insert name out else out
    end) [] (lines text).

(** The closing parenthesis that balances [depth] open ones: the text after it. *)
Fixpoint close_paren (depth : nat) (s : string) : option string :=
  match s with
  | EmptyString => None
  | String c s =>
    if Ascii.eqb c "(" then close_paren (S depth) s
    else if Ascii.eqb c ")" then
      match depth with
      | O | 1%nat => Some s
      | S depth => close_paren depth s
      end
    else close_paren depth s
  end.

(** One round of the loop: the first invocation is cut out, or the loop ends. *)
Definition remove_one (needle s : string) : option string :=
  match split_once_str needle s with
  | None => None
  | Some (before, after) =>
    match close_paren 1 after with
    | None => None
    | Some rest => Some (before +:+ rest)
    end
  end.

Fixpoint remove_all (fuel : nat) (needle s : string) : string :=
  match fuel with
  | O => s
  | S fuel => match remove_one needle s with Some s => remove_all fuel needle s | None => s end
  end.

(** Every round shortens the text: its length is fuel enough. *)
Definition remove_macro_invocation (input macro_name : string) : string :=
  remove_all (String.length input) (macro_name +:+ "(") input.

Definition collapse_spaces (s : string) : string := join " " (split_whitespace s).

Definition is_void (s : string) : bool := is_empty s || String.eqb s "void".

(** The text of one parameter, if it is kept. *)
Definition sanitize_param (raw : string) : option string :=
  let p := trim raw in
  if is_void p then None
  else
    let p := remove_macro_invocation p "__dv" in
    let p := match find_str "=" p with Some eq_pos => trim (slice 0 eq_pos p) | None => p end in
    let p := collapse_spaces p in
    if negb (is_empty p) && negb (String.eqb p "void") then Some p else None.

Definition sanitize_params (params : string) : string :=
  if is_void (trim params) then EmptyString
  else join ", " (omap sanitize_param (split_char "," params)).

(** The bytes of a name, and [u8::is_ascii_whitespace]. *)
Definition is_name_byte (b : Z) : bool := is_ascii_alphanumeric b || (b =? 95).
Definition is_ascii_whitespace (b : Z) : bool := (b =? 32) || (b =? 9) || (b =? 10) || (b =? 12) || (b =? 13).

Fixpoint take_while {A} (p : A -> bool) (l : list A) : list A :=
  match l with
  | [] => []
  | x :: l => if p x then x :: take_while p l else []
  end.

(** The name at the end of a parameter, found from the end. *)
Definition extract_param_name (param : string) : option string :=
  let back := drop_while is_ascii_whitespace (reverse (bytes_of param)) in
  match take_while is_name_byte back with
  | [] => None
  | name => Some (str_of_bytes (reverse name))
  end.

Fixpoint param_names (raws : list string) : option (list string) :=
  match raws with
  | [] => Some []
  | raw :: raws =>
    let param := trim raw in
    if is_void param then param_names raws
    else
      name ← extract_param_name param;
      names ← param_names raws;
      Some (name :: names)
  end.

Definition parse_param_names (params : string) : option (list string) :=
  if is_void (trim params) then Some [] else param_names (split_char "," params).

(** The sort by name: [sort_by] with the byte order on strings. *)
Fixpoint insert_wrapper (w : WrapperPrototype) (ws : list WrapperPrototype) : list WrapperPrototype :=
  match ws with
  | [] => [w]
  | w' :: ws' =>
    match String.compare (wp_name w) (wp_name w') with
    | Gt => w' :: insert_wrapper w ws'
    | _ => w :: ws
    end
  end.
Definition sort_wrappers (ws : list WrapperPrototype) : list WrapperPrototype := foldr insert_wrapper [] ws.

Definition skip_warning (name : string) : string :=
  "cargo:warning=skip generated wrapper for " +:+ name +:+ ": failed to parse parameter names".

(** The wrappers so far, the names seen, the warnings printed. *)
Definition ProtoState : Type := list WrapperPrototype * list string * list string.

(** A line up to its declared name: the text before it, the name, the raw parameters. *)
Definition split_prototype (symbol_prefix raw : string) : option (string * string * string) :=
  let line := trim raw in
  if is_empty line then None
  else
    let line := trim_end_matches ";" line in
    match find_str "(" line, rfind_str ")" line with
    | Some open_paren, Some close_paren =>
      if (close_paren <=? open_paren)%nat then None
      else
        let before_paren := trim (slice 0 open_paren line) in
        match list.last (split_whitespace before_paren) with
        | None => None
        | Some name =>
          if negb (starts_with symbol_prefix name) then None
          else
            match rfind_str name before_paren with
            | None => None
            | Some name_pos =>
              let decl_prefix := trim (slice 0 name_pos before_paren) in
              if is_empty decl_prefix then None
              else Some (decl_prefix, name, trim (slice (open_paren + 1) close_paren line))
            end
        end
    | _, _ => None
    end.

(** The body of the loop over the lines. *)
Definition prototype_line (manual_hooks : list string) (symbol_prefix : string)
    (st : ProtoState) (raw : string) : ProtoState :=
  let '(wrappers, seen, warnings) := st in
  match split_prototype symbol_prefix raw with
  | None => st
  | Some (decl_prefix, name, params_raw) =>
    if set_contains name manual_hooks then st
    else if set_contains name seen then st
    else
      let seen := set_insert name seen in
      let params := sanitize_params params_raw in
      match parse_param_names params with
      | None => (wrappers, seen, warnings ++ [skip_warning name])
      | Some arg_names =>
        (wrappers ++ [{| wp_decl_prefix := decl_prefix; wp_name := name; wp_params := params;
                         wp_arg_names := arg_names |}], seen, warnings)
      end
  end.

Definition parse_missing_prototypes (text : string) (manual_hooks : list string) (symbol_prefix : string)
    : list WrapperPrototype * list string :=
  let '(wrappers, _, warnings) := foldl (prototype_line manual_hooks symbol_prefix) ([], [], []) (lines text) in
  (sort_wrappers wrappers, warnings).

(** ** The C source *)

(** The texts of a loop over the wrappers, in order. *)
Fixpoint concat_map {A} (f : A -> string) (l : list A) : string :=
  match l with [] => EmptyString | x :: l => f x +:+ concat_map f l end.

Definition driver_header : string :=
  "#include <cuda.h>" +:+ NL +:+ "#include <stddef.h>" +:+ NL +:+ "#include <string.h>" +:+
   NL +:+ NL +:+ "extern void* cudatrace_driver_enter(const char* func_name);" +:+ NL +:+
   "extern void cudatrace_driver_exit(void* scope, CUresult result);" +:+ NL +:+
   "extern void* cudatrace_resolve_driver_symbol(const char* symbol);" +:+ NL +:+ NL +:+
   "#define CUDATRACE_CUDA_ERROR_UNKNOWN ((CUresult)" +:+ fmt_i CUDA_ERROR_UNKNOWN +:+ ")" +:+
   NL +:+ NL.

Definition driver_undef (wrapper : WrapperPrototype) : string :=
  "#ifdef " +:+ wp_name wrapper +:+ NL +:+ "#undef " +:+ wp_name wrapper +:+ NL +:+ "#endif" +:+
   NL.

Definition driver_wrapper (wrapper : WrapperPrototype) : string :=
  let params := if is_empty (wp_params wrapper) then "void" else wp_params wrapper in
  let call_args := join ", " (wp_arg_names wrapper) in
  wp_decl_prefix wrapper +:+ " " +:+ wp_name wrapper +:+ "(" +:+ params +:+ ") {" +:+ NL +:+
   "    void* cudatrace_scope_token = cudatrace_driver_enter(" +:+ DQ +:+ wp_name wrapper +:+
   DQ +:+ ");" +:+ NL +:+ "    typedef " +:+ wp_decl_prefix wrapper +:+ " (*real_fn_t)(" +:+
   params +:+ ");" +:+ NL +:+ "    static real_fn_t real_fn = NULL;" +:+ NL +:+
   "    if (!real_fn) {" +:+ NL +:+
   "        real_fn = (real_fn_t)cudatrace_resolve_driver_symbol(" +:+ DQ +:+ wp_name wrapper +:+
   DQ +:+ ");" +:+ NL +:+ "    }" +:+ NL +:+
  (match wp_arg_names wrapper with
   | [] =>
  "    CUresult ret = real_fn ? real_fn() : CUDATRACE_CUDA_ERROR_UNKNOWN;" +:+ NL
   | _ =>
  "    CUresult ret = real_fn ? real_fn(" +:+ call_args +:+
   ") : CUDATRACE_CUDA_ERROR_UNKNOWN;" +:+ NL
   end) +:+
  "    cudatrace_driver_exit(cudatrace_scope_token, ret);" +:+ NL +:+ "    return ret;" +:+
   NL +:+ "}" +:+ NL +:+ NL.

Definition driver_table_head : string :=
  "typedef struct {" +:+ NL +:+ "    const char* name;" +:+ NL +:+ "    void* fn;" +:+ NL +:+
   "} cudatrace_driver_wrapper_entry_t;" +:+ NL +:+ NL +:+
   "static const cudatrace_driver_wrapper_entry_t kGeneratedDriverWrappers[] = {" +:+ NL.

Definition driver_entry (wrapper : WrapperPrototype) : string :=
  "    {" +:+ DQ +:+ wp_name wrapper +:+ DQ +:+ ", (void*)" +:+ wp_name wrapper +:+ "}," +:+ NL.

Definition driver_lookup : string :=
  "};" +:+ NL +:+ NL +:+
   "void* cudatrace_lookup_generated_driver_wrapper(const char* symbol) {" +:+ NL +:+
   "    if (!symbol) {" +:+ NL +:+ "        return NULL;" +:+ NL +:+ "    }" +:+ NL +:+
   "    for (size_t i = 0; i < sizeof(kGeneratedDriverWrappers) / sizeof(kGeneratedDriverWrappers[0]); ++i) {" +:+
   NL +:+ "        if (strcmp(symbol, kGeneratedDriverWrappers[i].name) == 0) {" +:+ NL +:+
   "            return kGeneratedDriverWrappers[i].fn;" +:+ NL +:+ "        }" +:+ NL +:+
   "    }" +:+ NL +:+ "    return NULL;" +:+ NL +:+ "}" +:+ NL.

Definition render_driver_c_source (wrappers : list WrapperPrototype) : string :=
  driver_header +:+ concat_map driver_undef wrappers +:+ NL +:+ concat_map driver_wrapper wrappers
  +:+ driver_table_head +:+ concat_map driver_entry wrappers +:+ driver_lookup.

Definition cudart_header : string :=
  "#include <cuda_runtime_api.h>" +:+ NL +:+ "#include <stddef.h>" +:+ NL +:+
   "#include <string.h>" +:+ NL +:+ NL +:+
   "extern void* cudatrace_cudart_enter(const char* func_name);" +:+ NL +:+
   "extern void cudatrace_cudart_exit(void* scope, cudaError_t result);" +:+ NL +:+
   "extern void* cudatrace_resolve_cudart_symbol(const char* symbol);" +:+ NL +:+ NL +:+
   "#define CUDATRACE_CUDART_ERROR_UNKNOWN ((cudaError_t)" +:+ fmt_i CUDA_ERROR_UNKNOWN +:+
   ")" +:+ NL +:+ NL.

Definition cudart_undef (wrapper : WrapperPrototype) : string :=
  "#ifdef " +:+ wp_name wrapper +:+ NL +:+ "#undef " +:+ wp_name wrapper +:+ NL +:+ "#endif" +:+
   NL.

Definition cudart_wrapper (wrapper : WrapperPrototype) : string :=
  let params := if is_empty (wp_params wrapper) then "void" else wp_params wrapper in
  let call_args := join ", " (wp_arg_names wrapper) in
  wp_decl_prefix wrapper +:+ " " +:+ wp_name wrapper +:+ "(" +:+ params +:+ ") {" +:+ NL +:+
   "    void* cudatrace_scope_token = cudatrace_cudart_enter(" +:+ DQ +:+ wp_name wrapper +:+
   DQ +:+ ");" +:+ NL +:+ "    typedef " +:+ wp_decl_prefix wrapper +:+ " (*real_fn_t)(" +:+
   params +:+ ");" +:+ NL +:+ "    static real_fn_t real_fn = NULL;" +:+ NL +:+
   "    if (!real_fn) {" +:+ NL +:+
   "        real_fn = (real_fn_t)cudatrace_resolve_cudart_symbol(" +:+ DQ +:+ wp_name wrapper +:+
   DQ +:+ ");" +:+ NL +:+ "    }" +:+ NL +:+
  (match wp_arg_names wrapper with
   | [] =>
  "    cudaError_t ret = real_fn ? real_fn() : CUDATRACE_CUDART_ERROR_UNKNOWN;" +:+ NL
   | _ =>
  "    cudaError_t ret = real_fn ? real_fn(" +:+ call_args +:+
   ") : CUDATRACE_CUDART_ERROR_UNKNOWN;" +:+ NL
   end) +:+
  "    cudatrace_cudart_exit(cudatrace_scope_token, ret);" +:+ NL +:+ "    return ret;" +:+
   NL +:+ "}" +:+ NL +:+ NL.

Definition cudart_table_head : string :=
  "typedef struct {" +:+ NL +:+ "    const char* name;" +:+ NL +:+ "    void* fn;" +:+ NL +:+
   "} cudatrace_cudart_wrapper_entry_t;" +:+ NL +:+ NL +:+
   "static const cudatrace_cudart_wrapper_entry_t kGeneratedCudartWrappers[] = {" +:+ NL.

Definition cudart_entry (wrapper : WrapperPrototype) : string :=
  "    {" +:+ DQ +:+ wp_name wrapper +:+ DQ +:+ ", (void*)" +:+ wp_name wrapper +:+ "}," +:+ NL.

Definition cudart_lookup : string :=
  "};" +:+ NL +:+ NL +:+
   "void* cudatrace_lookup_generated_cudart_wrapper(const char* symbol) {" +:+ NL +:+
   "    if (!symbol) {" +:+ NL +:+ "        return NULL;" +:+ NL +:+ "    }" +:+ NL +:+
   "    for (size_t i = 0; i < sizeof(kGeneratedCudartWrappers) / sizeof(kGeneratedCudartWrappers[0]); ++i) {" +:+
   NL +:+ "        if (strcmp(symbol, kGeneratedCudartWrappers[i].name) == 0) {" +:+ NL +:+
   "            return kGeneratedCudartWrappers[i].fn;" +:+ NL +:+ "        }" +:+ NL +:+
   "    }" +:+ NL +:+ "    return NULL;" +:+ NL +:+ "}" +:+ NL.

Definition render_cudart_c_source (wrappers : list WrapperPrototype) : string :=
  cudart_header +:+ concat_map cudart_undef wrappers +:+ NL +:+ concat_map cudart_wrapper wrappers
  +:+ cudart_table_head +:+ concat_map cudart_entry wrappers +:+ cudart_lookup.

Definition render_exports_version_script : string :=
  "{" +:+ NL +:+ "  global:" +:+ NL +:+ "    cu*;" +:+ NL +:+ "    cuda*;" +:+ NL +:+
   "    cudatrace*;" +:+ NL +:+ "    dlsym;" +:+ NL +:+ "  local:" +:+ NL +:+ "    *;" +:+ NL +:+
   "};" +:+ NL.

Definition nvidia_ioctl_tables : string :=
  "// @generated by build.rs; do not edit manually." +:+ NL +:+
   "pub const GENERATED_RM_CONTROL_CMD_NAMES: &[(u32, &str)] = &[" +:+ NL +:+
   "    (0x13eu32, " +:+ DQ +:+ "NV0000_CTRL_CMD_SYSTEM_GET_BUILD_VERSION_V2" +:+ DQ +:+ ")," +:+
   NL +:+ "    (0x20800147u32, " +:+ DQ +:+ "NV2080_CTRL_CMD_GPU_GET_ENGINE_PARTNERLIST" +:+
   DQ +:+ ")," +:+ NL +:+ "    (0x20800601u32, " +:+ DQ +:+ "NV2080_CTRL_CMD_I2C_READ_BUFFER" +:+
   DQ +:+ ")," +:+ NL +:+ "];" +:+ NL +:+
   "pub const GENERATED_NV_ESC_CMD_NAMES: &[(u32, &str)] = &[];" +:+ NL +:+
   "pub const GENERATED_RM_INTERFACE_NAMES: &[(u32, &str)] = &[" +:+ NL +:+
   "    (0x208101u32, " +:+ DQ +:+ "NV2081_BINAPI" +:+ DQ +:+ ")," +:+ NL +:+ "];" +:+ NL.

(** ** The script *)

Inductive BuildAction :=
| Println (line : string)
| WriteFile (path text : string)
| CompileC (source include lib : string).

(** [env::var_os], [Path::is_file], [fs::read_to_string] (the text or the
    error) and [fs::write] (the error, if any). *)
Record BuildEnv := {
  env_var : string -> option string;
  is_file : string -> bool;
  read_to_string : string -> string + string;
  write_error : string -> string -> option string
}.

(** [path.join(name)] for a relative name. *)
Definition path_join (path name : string) : string :=
  match last_char path with
  | None => name
  | Some c => if Ascii.eqb c "/" then path +:+ name else path +:+ "/" +:+ name
  end.

Section Script.
Context (E : BuildEnv).

Definition resolve_cuda_include : option string :=
  let from_env (var : string) (sub : option string) :=
    match env_var E var with
    | None => None
    | Some path =>
      let p := match sub with Some d => path_join path d | None => path end in
      if is_file E (path_join p "cuda.h") then Some p else None
    end in
  match from_env "CUDA_INCLUDE" None with
  | Some p => Some p
  | None =>
    match from_env "CUDA_ROOT" (Some "include") with
    | Some p => Some p
    | None =>
      let default := "/usr/local/cuda/include" in
      if is_file E (path_join default "cuda.h") then Some default else None
    end
  end.

Definition read_optional_file (path : string) : option string * list BuildAction :=
  match read_to_string E path with
  | inl v => (Some v, [])
  | inr err => (None, [Println ("cargo:warning=failed to read " +:+ path +:+ " (" +:+ err +:+ ")")])
  end.

Definition generate_nvidia_ioctl_tables (out_dir : string) : list BuildAction :=
  let output_path := path_join out_dir GENERATED_NVIDIA_IOCTL_TABLES_FILE in
  WriteFile output_path nvidia_ioctl_tables
  :: match write_error E output_path nvidia_ioctl_tables with
     | Some err => [Println ("cargo:warning=failed to write " +:+ output_path +:+ " (" +:+ err +:+ ")")]
     | None => []
     end.

Definition generate_driver_wrappers (cuda_include out_dir : string) : bool * list BuildAction :=
  let proto_text := DRIVER_MISSING_PROTOTYPES in
  let '(manual_text, read_acts) := read_optional_file DRIVER_MANUAL_HOOKS_FILE in
  match manual_text with
  | None =>
    (false, read_acts ++ [Println ("cargo:warning=missing " +:+ DRIVER_MANUAL_HOOKS_FILE
                                     +:+ "; skipping generated driver wrappers")])
  | Some manual_text =>
    let manual_hooks := parse_manual_hook_names manual_text "cu" in
    let '(wrappers, warnings) := parse_missing_prototypes proto_text manual_hooks "cu" in
    let acts := read_acts ++ map Println warnings in
    match wrappers with
    | [] => (false, acts ++ [Println "cargo:warning=no generated driver wrappers produced"])
    | _ =>
      let generated_c := path_join out_dir "driver_generated_wrappers.c" in
      let source := render_driver_c_source wrappers in
      let acts := acts ++ [WriteFile generated_c source] in
      match write_error E generated_c source with
      | Some err =>
        (false, acts ++ [Println ("cargo:warning=failed to write " +:+ generated_c +:+ " (" +:+ err
                                    +:+ "); skipping generated driver wrappers")])
      | None => (true, acts ++ [CompileC generated_c cuda_include "cudatrace_driver_generated"])
      end
    end
  end.

Definition generate_cudart_wrappers (cuda_include out_dir : string) : bool * list BuildAction :=
  (false, [Println "cargo:warning=generated runtime wrappers are disabled; using manual cudart hooks only"]).

Definition rerun_lines : list BuildAction :=
  map Println [
    "cargo:rustc-check-cfg=cfg(has_generated_driver_wrappers)";
    "cargo:rustc-check-cfg=cfg(has_generated_cudart_wrappers)";
    "cargo:rerun-if-changed=" +:+ DRIVER_MANUAL_HOOKS_FILE;
    "cargo:rerun-if-changed=" +:+ CUDART_MANUAL_HOOKS_FILE;
    "cargo:rerun-if-env-changed=CUDA_ROOT";
    "cargo:rerun-if-env-changed=CUDA_INCLUDE"
  ].

(** The wrappers and the export map, once the headers are there. *)
Definition generate_all (cuda_include out_dir : string) : list BuildAction :=
  let '(driver, acts1) := generate_driver_wrappers cuda_include out_dir in
  let acts2 := if driver then [Println "cargo:rustc-cfg=has_generated_driver_wrappers"] else [] in
  let '(cudart, acts3) := generate_cudart_wrappers cuda_include out_dir in
  let acts4 := if cudart then [Println "cargo:rustc-cfg=has_generated_cudart_wrappers"] else [] in
  let generated_any := driver || cudart in
  acts1 ++ acts2 ++ acts3 ++ acts4 ++
  (if generated_any then
     let exports_map := path_join out_dir "cudatrace_exports.map" in
     WriteFile exports_map render_exports_version_script
     :: match write_error E exports_map render_exports_version_script with
        | Some err =>
          [Println ("cargo:warning=failed to write " +:+ exports_map +:+ " (" +:+ err
                      +:+ "); generated wrappers may not be exported")]
        | None => [Println ("cargo:rustc-cdylib-link-arg=-Wl,--version-script=" +:+ exports_map)]
        end
   else []).

(** [main], with [OUT_DIR] set as cargo does. *)
Definition build_main (out_dir : string) : list BuildAction :=
  rerun_lines ++ generate_nvidia_ioctl_tables out_dir ++
  match resolve_cuda_include with
  | None => [Println "cargo:warning=CUDA include path not found; skipping generated CUDA wrappers"]
  | Some cuda_include =>
    if negb (is_file E (path_join cuda_include "cuda.h")) then
      [Println ("cargo:warning=CUDA header missing at " +:+ path_join cuda_include "cuda.h"
                  +:+ "; skipping generated CUDA wrappers")]
    else if negb (is_file E (path_join cuda_include "cuda_runtime_api.h")) then
      [Println ("cargo:warning=CUDA runtime header missing at " +:+ path_join cuda_include "cuda_runtime_api.h"
                  +:+ "; skipping generated CUDA wrappers")]
    else generate_all cuda_include out_dir
  end.

End Script.
