(* ===== verification/BuildFacts.v ===== *)
(** * Theorems about the build script *)
From Stdlib Require Import Sorted.
From S2P Require Import Prelude RustStr BuildSpecs Build.

#[local] Arguments String.append !_ _ /.

(** ** Removing macro invocations *)

Lemma close_paren_shorter s : forall depth rest,
  close_paren depth s = Some rest -> (String.length rest < String.length s)%nat.
Proof.
  induction s as [|c s IH]; intros depth rest; simpl; [done|].
  destruct (Ascii.eqb c "("); [intros E%IH; lia|]. destruct (Ascii.eqb c ")"); [|intros E%IH; lia].
  destruct depth as [|[|depth]]; [intros [= <-]; lia..|intros E%IH; lia].
Qed.

Lemma strip_prefix_app p s r : strip_prefix p s = Some r -> s = p +:+ r.
Proof.
  revert s. induction p as [|a p IH]; intros s; simpl; [by intros [= ->]|].
  destruct s as [|b s]; [done|]. destruct (Ascii.eqb_spec a b) as [<-|]; [|done]. intros Hs. rewrite (IH s Hs). reflexivity.
Qed.

Lemma split_once_str_app sep s l r : split_once_str sep s = Some (l, r) -> s = l +:+ sep +:+ r.
Proof.
  revert l. induction s as [|a s IH]; intros l; simpl.
  - destruct (strip_prefix sep EmptyString) eqn:E; [|done]. intros [= <- <-]. simpl. by apply strip_prefix_app.
  - destruct (strip_prefix sep (String a s)) eqn:E.
    + intros [= <- <-]. simpl. by apply strip_prefix_app.
    + destruct (split_once_str sep s) as [[l' r']|]; [|done]. intros [= <- <-]. simpl. by rewrite (IH l').
Qed.

Lemma remove_one_shorter needle s t : remove_one needle s = Some t -> (String.length t < String.length s)%nat.
Proof.
  unfold remove_one. destruct (split_once_str needle s) as [[before after]|] eqn:E; [|done].
  destruct (close_paren 1 after) as [rest|] eqn:Ec; [|done]. intros <-%some_eq.
  apply split_once_str_app in E as ->. apply close_paren_shorter in Ec. rewrite !str_length_app. lia.
Qed.

Lemma remove_all_done fuel needle s :
  (String.length s <= fuel)%nat -> remove_one needle (remove_all fuel needle s) = None.
Proof.
  revert s. induction fuel as [|fuel IH]; intros s Hs; simpl.
  - destruct (remove_one needle s) eqn:E; [|done]. apply remove_one_shorter in E. lia.
  - destruct (remove_one needle s) as [t|] eqn:E; [|done]. apply IH. apply remove_one_shorter in E. lia.
Qed.


(** ** The sort by name *)

Definition name_lt (w w' : WrapperPrototype) : Prop := String.compare (wp_name w) (wp_name w') = Lt.

Lemma string_compare_trans s t u : String.compare s t = Lt -> String.compare t u = Lt -> String.compare s u = Lt.
Proof.
  revert t u. induction s as [|a s IH]; intros [|b t] [|c u]; simpl; try done.
  unfold Ascii.compare. intros H1 H2.
  destruct (N.compare_spec (N_of_ascii a) (N_of_ascii b)), (N.compare_spec (N_of_ascii b) (N_of_ascii c));
    try done; destruct (N.compare_spec (N_of_ascii a) (N_of_ascii c)); try done; try lia. by apply (IH t).
Qed.

Lemma string_compare_eq s t : String.compare s t = Eq -> s = t.
Proof. apply String.compare_eq_iff. Qed.

Lemma string_compare_gt s t : String.compare s t = Gt -> String.compare t s = Lt.
Proof. rewrite String.compare_antisym. by destruct (String.compare t s). Qed.

Lemma insert_wrapper_elem w ws w' : w' ∈ insert_wrapper w ws <-> w' = w \/ w' ∈ ws.
Proof.
  induction ws as [|v ws IH]; simpl; [set_solver|].
  destruct (String.compare (wp_name w) (wp_name v)); rewrite ?elem_of_cons, ?IH; set_solver.
Qed.

Lemma sort_wrappers_elem ws w : w ∈ sort_wrappers ws <-> w ∈ ws.
Proof. induction ws as [|v ws IH]; simpl; [done|]. by rewrite insert_wrapper_elem, elem_of_cons, IH. Qed.

Lemma insert_wrapper_sorted w ws :
  StronglySorted name_lt ws -> (forall w', w' ∈ ws -> wp_name w' <> wp_name w) ->
  StronglySorted name_lt (insert_wrapper w ws).
Proof.
  induction 1 as [|v ws Hs IH Hall]; intros Hne; simpl; [repeat constructor|].
  destruct (String.compare (wp_name w) (wp_name v)) eqn:E.
  - apply string_compare_eq in E. exfalso. apply (Hne v); [by left|done].
  - constructor; [by constructor|]. constructor; [done|].
    refine (List.Forall_impl _ _ Hall). intros u Hu. unfold name_lt in Hu |- *. by eapply string_compare_trans.
  - constructor; [apply IH; set_solver|]. apply List.Forall_forall. intros u [->|Hu]%list_elem_of_In%insert_wrapper_elem.
    + by apply string_compare_gt.
    + by apply (proj1 (List.Forall_forall _ _) Hall), list_elem_of_In.
Qed.

Lemma sort_wrappers_sorted ws : NoDup (wp_name <$> ws) -> StronglySorted name_lt (sort_wrappers ws).
Proof.
  induction ws as [|w ws IH]; simpl; [constructor|]. intros [Hn Hd]%list.NoDup_cons.
  apply insert_wrapper_sorted; [by apply IH|]. intros w' Hw' E. apply (proj1 (sort_wrappers_elem _ _)) in Hw'. apply Hn. rewrite <- E.
  apply list_elem_of_fmap. by exists w'.
Qed.

(** ** The loop over the prototypes *)

Lemma set_contains_elem x l : set_contains x l = true <-> x ∈ l.
Proof.
  unfold set_contains. rewrite existsb_exists, list_elem_of_In. split.
  - by intros (y & Hy & ->%String.eqb_eq).
  - intros Hx. exists x. split; [done|apply String.eqb_refl].
Qed.

Lemma set_insert_elem x y l : y ∈ set_insert x l <-> y = x \/ y ∈ l.
Proof.
  unfold set_insert. destruct (set_contains x l) eqn:E; [|by rewrite elem_of_cons].
  apply set_contains_elem in E. split; [by right|]. by intros [->|].
Qed.

(** The parameters that a list of declarations keeps, with their names. *)
Definition kept_params (params : string) : list string :=
  List.filter (fun param => negb (is_void param)) (trim <$> split_char "," params).

(** What a wrapper is, given the text it was made from. *)
Record wrapper_ok (manual : list string) (prefix : string) (w : WrapperPrototype) : Prop := {
  wo_prefix : starts_with prefix (wp_name w) = true;
  wo_manual : wp_name w ∉ manual;
  wo_decl : wp_decl_prefix w <> EmptyString;
  wo_args : parse_param_names (wp_params w) = Some (wp_arg_names w)
}.

(** The names that the text declares, up to [raws]. *)
Definition declared (prefix : string) (raws : list string) : list string :=
  omap (fun raw => '(_, name, _) ← split_prototype prefix raw; Some name) raws.

Record proto_inv (manual : list string) (prefix : string) (raws : list string) (st : ProtoState) : Prop := {
  pi_ok w : w ∈ st.1.1 -> wrapper_ok manual prefix w;
  pi_nodup : NoDup (wp_name <$> st.1.1);
  pi_seen name : name ∈ st.1.2 <-> name ∈ declared prefix raws /\ name ∉ manual;
  pi_done name : name ∈ st.1.2 <-> name ∈ (wp_name <$> st.1.1) \/ skip_warning name ∈ st.2;
  pi_warn text : text ∈ st.2 -> exists name, text = skip_warning name /\ name ∈ st.1.2 /\ name ∉ (wp_name <$> st.1.1)
}.

Lemma split_prototype_spec prefix raw d n p :
  split_prototype prefix raw = Some (d, n, p) -> starts_with prefix n = true /\ d <> EmptyString.
Proof.
  unfold split_prototype. intros E. repeat case_match; simplify_eq. bool_to_prop.
  split; [done|]. intros Hd. apply is_empty_spec in Hd. congruence.
Qed.

Lemma str_app_inj_r s t u : s +:+ u = t +:+ u -> s = t.
Proof.
  revert t. induction s as [|a s IH]; intros [|b t] E; simpl in E; [done| | |].
  - apply (f_equal String.length) in E. simpl in E. rewrite str_length_app in E. lia.
  - apply (f_equal String.length) in E. simpl in E. rewrite str_length_app in E. lia.
  - injection E as -> E. by rewrite (IH t E).
Qed.

Lemma skip_warning_inj n m : skip_warning n = skip_warning m -> n = m.
Proof. unfold skip_warning. intros E. by apply str_app_inj_l, str_app_inj_r in E. Qed.

Lemma proto_step manual prefix raws st raw :
  proto_inv manual prefix raws st ->
  proto_inv manual prefix (raws ++ [raw]) (prototype_line manual prefix st raw).
Proof.
  destruct st as [[wrappers seen] warnings]. intros [Hok Hnd Hseen Hdone Hwarn].
  assert (forall name, name ∈ declared prefix (raws ++ [raw]) <->
    name ∈ declared prefix raws \/ exists d p, split_prototype prefix raw = Some (d, name, p)) as Hdecl.
  { intros name. unfold declared. rewrite omap_app, elem_of_app. simpl.
    destruct (split_prototype prefix raw) as [[[d n] p]|]; simpl.
    - rewrite list_elem_of_singleton. naive_solver.
    - split; [intros [? | []%not_elem_of_nil]; auto|intros [|(? & ? & ?)]; [by left|done]]. }
  unfold prototype_line. destruct (split_prototype prefix raw) as [[[d n] p]|] eqn:E.
  2: { split; [exact Hok|exact Hnd| |exact Hdone|exact Hwarn]. intros name. rewrite Hdecl, Hseen. naive_solver. }
  apply split_prototype_spec in E as Hspec. destruct Hspec as [Hpre Hd].
  destruct (set_contains n manual) eqn:Em.
  { apply set_contains_elem in Em. split; [exact Hok|exact Hnd| |exact Hdone|exact Hwarn].
    intros name. rewrite Hdecl, Hseen. naive_solver. }
  assert (n ∉ manual) as Hn by (intros Hn%set_contains_elem; congruence).
  destruct (set_contains n seen) eqn:Es.
  { apply set_contains_elem in Es. split; [exact Hok|exact Hnd| |exact Hdone|exact Hwarn].
    intros name. simpl. rewrite Hdecl. split; [intros Hs%Hseen; naive_solver|].
    intros [[Hs|(d' & p' & [= <- <- <-])] Hm]; [by apply Hseen|done]. }
  assert (n ∉ seen) as Hns by (intros Hs%set_contains_elem; congruence).
  assert (n ∉ wp_name <$> wrappers) as Hnw by (intros Hw; apply Hns, Hdone; by left).
  assert (forall name, name ∈ set_insert n seen <->
    name ∈ declared prefix (raws ++ [raw]) /\ name ∉ manual) as Hseen'.
  { intros name. rewrite set_insert_elem, Hdecl. simpl in Hseen. rewrite Hseen. naive_solver. }
  simpl in Hdone, Hwarn, Hok, Hnd.
  destruct (parse_param_names (sanitize_params p)) as [args|] eqn:Ea; split; simpl.
  - intros w [Hw| ->%list_elem_of_singleton]%elem_of_app; [by apply Hok|]. by split.
  - rewrite fmap_app. apply list.NoDup_app. split; [done|]. split; [|apply NoDup_singleton].
    intros x Hx ->%list_elem_of_singleton. done.
  - exact Hseen'.
  - intros name. rewrite set_insert_elem, Hdone, fmap_app, elem_of_app. simpl.
    rewrite list_elem_of_singleton. tauto.
  - intros text Ht. destruct (Hwarn text Ht) as (name & -> & Hs & Hw). exists name.
    split; [done|]. split; [apply set_insert_elem; by right|].
    rewrite fmap_app, elem_of_app. simpl. rewrite list_elem_of_singleton. intros [| ->]; done.
  - exact Hok.
  - exact Hnd.
  - exact Hseen'.
  - intros name. rewrite set_insert_elem, Hdone, elem_of_app, list_elem_of_singleton. split.
    + intros [-> | [? | ?]]; auto.
    + intros [? | [? | E'%skip_warning_inj]]; auto.
  - intros text [Ht| ->%list_elem_of_singleton]%elem_of_app.
    + destruct (Hwarn text Ht) as (name & -> & Hs & Hw). exists name.
      split; [done|]. split; [apply set_insert_elem; by right|done].
    + exists n. split; [done|]. split; [apply set_insert_elem; by left|done].
Qed.

Lemma proto_loop manual prefix raws :
  proto_inv manual prefix raws (foldl (prototype_line manual prefix) ([], [], []) raws).
Proof.
  induction raws as [|raw raws IH] using rev_ind.
  - split; simpl; try set_solver. apply NoDup_nil_2.
  - rewrite foldl_app. simpl. by apply proto_step.
Qed.

(** C25: which wrappers are generated.  From any text, the wrappers are in the
    order of their names with no name twice, each for a prototype of the text
    with the prefix and none for a function written by hand; a prototype that
    is not written by hand has a wrapper, or a warning that its parameters have
    no names; and a wrapper passes the names of its own parameters. *)
Theorem missing_prototypes_exactly text manual prefix :
  let '(wrappers, warnings) := parse_missing_prototypes text manual prefix in
  StronglySorted name_lt wrappers
  /\ (forall w, w ∈ wrappers -> starts_with prefix (wp_name w) = true /\ (wp_name w ∉ manual)
        /\ wp_decl_prefix w <> EmptyString /\ parse_param_names (wp_params w) = Some (wp_arg_names w))
  /\ (forall name, (name ∈ declared prefix (lines text) /\ name ∉ manual) <->
        (exists w, w ∈ wrappers /\ wp_name w = name) \/ skip_warning name ∈ warnings)
  /\ (forall w, w ∈ wrappers -> skip_warning (wp_name w) ∉ warnings).
Proof.
  unfold parse_missing_prototypes. pose proof (proto_loop manual prefix (lines text)) as Hinv.
  destruct (foldl _ _ _) as [[wrappers seen] warnings]. destruct Hinv as [Hok Hnd Hseen Hdone Hwarn]. simpl in *.
  split_and!.
  - by apply sort_wrappers_sorted.
  - intros w Hw. apply (proj1 (sort_wrappers_elem _ _)) in Hw. by destruct (Hok w Hw).
  - intros name. rewrite <- Hseen, Hdone, list_elem_of_fmap. setoid_rewrite sort_wrappers_elem. naive_solver.
  - intros w Hw Ht. apply (proj1 (sort_wrappers_elem _ _)) in Hw.
    destruct (Hwarn _ Ht) as (name & E & _ & Hn). apply skip_warning_inj in E as <-. apply Hn.
    apply list_elem_of_fmap. by exists w.
Qed.

(** ** Parameters *)

(** A name as [extract_param_name] finds it: the longest run of name bytes at
    the end of the text, white space aside. *)
Record ends_with_name (param name : string) : Prop := {
  en_bytes : Forall (fun b => is_name_byte b = true) (bytes_of name);
  en_nonempty : name <> EmptyString;
  en_split : exists before blank, bytes_of param = before ++ bytes_of name ++ blank
    /\ Forall (fun b => is_ascii_whitespace b = true) blank
    /\ match reverse before with [] => True | b :: _ => is_name_byte b = false end
}.

Lemma drop_while_split {A} (p : A -> bool) l :
  exists pre, l = pre ++ drop_while p l /\ Forall (fun x => p x = true) pre.
Proof.
  induction l as [|x l (pre & E & Hp)]; simpl; [by exists []|].
  destruct (p x) eqn:Ex; [|by exists []]. exists (x :: pre). split; [by rewrite E at 1|by constructor].
Qed.

Lemma take_while_split {A} (p : A -> bool) l :
  exists rest, l = take_while p l ++ rest /\ Forall (fun x => p x = true) (take_while p l)
  /\ match rest with [] => True | x :: _ => p x = false end.
Proof.
  induction l as [|x l (rest & E & Hp & Hr)]; simpl; [by exists []|].
  destruct (p x) eqn:Ex.
  - exists rest. simpl. rewrite E at 1. split_and!; [done|by constructor|done].
  - by exists (x :: l).
Qed.

Lemma extract_param_name_spec param name : extract_param_name param = Some name -> ends_with_name param name.
Proof.
  unfold extract_param_name. intros E.
  destruct (drop_while_split is_ascii_whitespace (reverse (bytes_of param))) as (blank & Eb & Hb).
  destruct (take_while_split is_name_byte (drop_while is_ascii_whitespace (reverse (bytes_of param))))
    as (rest & Er & Hn & Hr).
  set (back := drop_while is_ascii_whitespace (reverse (bytes_of param))) in *.
  assert (name = str_of_bytes (reverse (take_while is_name_byte back)) /\ take_while is_name_byte back <> []) as [-> Hne]
    by (destruct (take_while is_name_byte back); [done|split; [congruence|done]]).
  assert (bytes_of param = reverse rest ++ reverse (take_while is_name_byte back) ++ reverse blank) as Hall.
  { rewrite <- (reverse_involutive (bytes_of param)), Eb, Er at 1. by rewrite !reverse_app, app_assoc. }
  assert (bytes_of (str_of_bytes (reverse (take_while is_name_byte back))) = reverse (take_while is_name_byte back)) as Hbytes.
  { apply bytes_of_str_of. pose proof (bytes_of_range param) as Hrange. rewrite Hall in Hrange.
    apply list.Forall_app in Hrange as [_ Hrange]. by apply list.Forall_app in Hrange as [? _]. }
  split.
  - rewrite Hbytes. by apply Forall_reverse.
  - intros E0. rewrite E0 in Hbytes. simpl in Hbytes. symmetry in Hbytes.
    apply (f_equal reverse) in Hbytes. rewrite reverse_involutive in Hbytes. done.
  - exists (reverse rest), (reverse blank). rewrite Hbytes, Hall. split; [done|].
    split; [by apply Forall_reverse|]. by rewrite reverse_involutive.
Qed.

Lemma param_names_spec raws names :
  param_names raws = Some names ->
  Forall2 ends_with_name (List.filter (fun param => negb (is_void param)) (trim <$> raws)) names.
Proof.
  revert names. induction raws as [|raw raws IH]; intros names; simpl; [by intros [= <-]|].
  destruct (is_void (trim raw)); simpl; [apply IH|].
  destruct (extract_param_name (trim raw)) as [name|] eqn:E; [|done]. simpl.
  destruct (param_names raws) as [names'|]; [|done]. simpl. intros <-%some_eq.
  constructor; [by apply extract_param_name_spec|by apply IH].
Qed.

(** The arguments a wrapper passes.  They are, one for each parameter of the
    declaration that is not [void], in order, the names that the parameters end
    with. *)
Theorem param_names_match params names :
  parse_param_names params = Some names ->
  (is_void (trim params) = true /\ names = []) \/ Forall2 ends_with_name (kept_params params) names.
Proof.
  unfold parse_param_names. destruct (is_void (trim params)) eqn:E.
  - intros <-%some_eq. by left.
  - intros H%param_names_spec. by right.
Qed.

Lemma param_names_match_witness :
  (is_void (trim "CUstream *s, unsigned int flags") = true /\ ["s"; "flags"] = [])
  \/ Forall2 ends_with_name (kept_params "CUstream *s, unsigned int flags") ["s"; "flags"].
Proof. apply param_names_match. vm_compute. reflexivity. Defined.

(** ** The script *)

Definition announced : BuildAction := Println "cargo:rustc-cfg=has_generated_driver_wrappers".
Definition announced_cudart : BuildAction := Println "cargo:rustc-cfg=has_generated_cudart_wrappers".

(** The printed warnings and options are not the announcement. *)
Definition announces (a : BuildAction) : bool :=
  match a with Println line => starts_with "cargo:rustc-cfg=" line | _ => false end.

Definition compiles (a : BuildAction) : bool := match a with CompileC _ _ _ => true | _ => false end.

Lemma no_announcement acts a : existsb announces acts = false -> announces a = true -> a ∉ acts.
Proof.
  intros Hf Ha Hin. assert (existsb announces acts = true) as Ht; [|congruence].
  apply existsb_exists. exists a. split; [by apply list_elem_of_In|done].
Qed.

Lemma warnings_announce_nothing wn :
  (forall t, t ∈ wn -> exists name, t = skip_warning name) -> existsb announces (map Println wn) = false.
Proof.
  induction wn as [|t wn IH]; intros Hwarn; [done|]. simpl.
  destruct (Hwarn t) as (name & ->); [by left|]. apply IH. intros u Hu. apply Hwarn. by right.
Qed.

Lemma prototype_warnings text manual prefix t :
  t ∈ (parse_missing_prototypes text manual prefix).2 -> exists name, t = skip_warning name.
Proof.
  unfold parse_missing_prototypes. pose proof (proto_loop manual prefix (lines text)) as Hinv.
  destruct (foldl _ _ _) as [[wrappers seen] warnings]. destruct Hinv as [_ _ _ _ Hwarn].
  intros Ht. destruct (Hwarn t Ht) as (name & ? & _). by exists name.
Qed.

Section ScriptFacts.
Context (E : BuildEnv).

(** What has to hold for the wrappers to be made: the headers, the source of
    the hooks, a wrapper to write, and the write. *)
Record can_generate (out_dir include manual_text : string) (wrappers : list WrapperPrototype) : Prop := {
  cg_include : resolve_cuda_include E = Some include;
  cg_cuda_h : is_file E (path_join include "cuda.h") = true;
  cg_runtime_h : is_file E (path_join include "cuda_runtime_api.h") = true;
  cg_manual : read_to_string E DRIVER_MANUAL_HOOKS_FILE = inl manual_text;
  cg_wrappers : (parse_missing_prototypes DRIVER_MISSING_PROTOTYPES (parse_manual_hook_names manual_text "cu") "cu").1
                = wrappers;
  cg_nonempty : wrappers <> [];
  cg_write : write_error E (path_join out_dir "driver_generated_wrappers.c") (render_driver_c_source wrappers) = None
}.

Lemma driver_wrappers_cases include out_dir :
  let c_file := path_join out_dir "driver_generated_wrappers.c" in
  let '(made, acts) := generate_driver_wrappers E include out_dir in
  existsb announces acts = false
  /\ if made then
       exists manual_text wrappers,
        read_to_string E DRIVER_MANUAL_HOOKS_FILE = inl manual_text
        /\ (parse_missing_prototypes DRIVER_MISSING_PROTOTYPES (parse_manual_hook_names manual_text "cu") "cu").1 = wrappers
        /\ wrappers <> [] /\ write_error E c_file (render_driver_c_source wrappers) = None
        /\ WriteFile c_file (render_driver_c_source wrappers) ∈ acts
        /\ CompileC c_file include "cudatrace_driver_generated" ∈ acts
     else
       forall manual_text,
        read_to_string E DRIVER_MANUAL_HOOKS_FILE = inl manual_text ->
        let wrappers := (parse_missing_prototypes DRIVER_MISSING_PROTOTYPES (parse_manual_hook_names manual_text "cu") "cu").1 in
        wrappers = [] \/ write_error E c_file (render_driver_c_source wrappers) <> None.
Proof.
  unfold generate_driver_wrappers, read_optional_file.
  destruct (read_to_string E DRIVER_MANUAL_HOOKS_FILE) as [manual_text|err] eqn:Em; [|by split].
  pose proof (fun t => prototype_warnings DRIVER_MISSING_PROTOTYPES (parse_manual_hook_names manual_text "cu") "cu" t) as Hw.
  destruct (parse_missing_prototypes DRIVER_MISSING_PROTOTYPES (parse_manual_hook_names manual_text "cu") "cu")
    as [wrappers warnings] eqn:Ep. apply warnings_announce_nothing in Hw. simpl in Hw.
  destruct wrappers as [|w ws] eqn:Ews.
  { split; [by rewrite !existsb_app, Hw|]. intros ? [= <-]. left. by rewrite Ep. }
  destruct (write_error E _ _) as [err|] eqn:Ewr.
  - split; [by rewrite !existsb_app, Hw|]. intros ? [= <-]. right. rewrite Ep. simpl. congruence.
  - split; [by rewrite !existsb_app, Hw|]. exists manual_text, (w :: ws). rewrite Ep.
    split_and!; [reflexivity|reflexivity|discriminate|exact Ewr| |]; rewrite !elem_of_app, !list_elem_of_singleton; tauto.
Qed.


End ScriptFacts.
