(* ===== verification/Generated.v ===== *)
(** * The generated wrappers: the C code that [src/build.rs] writes

    [generated_driver_wrapper] is the function that [driver_wrapper] prints, and
    [lookup_table] the search that [driver_lookup] prints; the theorems put them
    beside the hooks written by hand. *)
From S2P Require Import Prelude RustStr Config Reentry Graph Layout Window Hook CudaAbi CudaProc CudaCalls CudaFacts ResolveFacts BuildSpecs Build BuildFacts.

Section Generated.
Context `{Process}.

(** [if (!real_fn) real_fn = ...]: the [static real_fn] is null until it is found. *)
Definition wrapper_real_fn (name : string) : M Z :=
  real_fn ← gets (fun w => default NULL (wrapper_fns w !! name));
  if real_fn =? NULL then
    real_fn ← cudatrace_resolve_driver_symbol (Some name);
    modify (set_wrapper_fn name real_fn);; mret real_fn
  else mret real_fn.

(** [real_fn ? real_fn(args) : CUDATRACE_CUDA_ERROR_UNKNOWN] *)
Definition call_real_fn (real_fn : Z) (args : list CVal) : M Z :=
  if negb (real_fn =? NULL) then p_code real_fn args else mret CudaProc.CUDA_ERROR_UNKNOWN.

Definition generated_driver_wrapper (name : string) (args : list CVal) : M Z :=
  cudatrace_scope_token ← cudatrace_driver_enter (Some name);
  real_fn ← wrapper_real_fn name;
  ret ← call_real_fn real_fn args;
  cudatrace_driver_exit cudatrace_scope_token ret;;
  mret ret.

End Generated.

(** The search of the table; [addr] is where the wrappers are. *)
Definition lookup_table (addr : string -> Z) (wrappers : list WrapperPrototype) (symbol : option string) : Z :=
  match symbol with
  | None => NULL
  | Some symbol =>
    match List.find (fun w => String.eqb symbol (wp_name w)) wrappers with
    | Some w => addr (wp_name w)
    | None => NULL
    end
  end.

(** The declarations of [src/src/hook/driver.rs] that the script looks for: the
    lines that begin with [hook_decl], without it. *)
Definition driver_rs_declarations : list string := [
  "cudatrace_driver_enter(func: *const c_char) -> *mut c_void {";
  "cudatrace_driver_exit(scope: *mut c_void, ret: CUresult) {";
  "cudatrace_resolve_driver_symbol(symbol: *const c_char) -> *mut c_void {";
  "dlsym(handle: *mut c_void, symbol: *const c_char) -> *mut c_void {";
  "cuGetProcAddress(";
  "cuGetProcAddress_v2(";
  "cuInit(flags: crate::ffi::c_uint) -> CUresult {";
  "cuDeviceGet(";
  "cuDeviceGetName(";
  "cuCtxCreate_v2(";
  "cuCtxDestroy_v2(ctx: CUcontext) -> CUresult {";
  "cuCtxSynchronize() -> CUresult {";
  "cuCtxGetCurrent(pctx: *mut CUcontext) -> CUresult {";
  "cuCtxSetCurrent(ctx: CUcontext) -> CUresult {";
  "cuCtxPushCurrent_v2(ctx: CUcontext) -> CUresult {";
  "cuCtxPushCurrent(ctx: CUcontext) -> CUresult {";
  "cuCtxPopCurrent_v2(pctx: *mut CUcontext) -> CUresult {";
  "cuCtxPopCurrent(pctx: *mut CUcontext) -> CUresult {";
  "cuDevicePrimaryCtxRetain(pctx: *mut CUcontext, dev: CUdevice) -> CUresult {";
  "cuDevicePrimaryCtxRelease(dev: CUdevice) -> CUresult {";
  "cuDevicePrimaryCtxReset(dev: CUdevice) -> CUresult {";
  "cuDevicePrimaryCtxSetFlags(";
  "cuDevicePrimaryCtxSetFlags_v2(";
  "cuDevicePrimaryCtxGetState(";
  "cuStreamCreate(";
  "cuStreamCreateWithPriority(";
  "cuStreamDestroy(stream: CUstream) -> CUresult {";
  "cuStreamDestroy_v2(stream: CUstream) -> CUresult {";
  "cuEventCreate(event: *mut CUevent, flags: crate::ffi::c_uint) -> CUresult {";
  "cuEventDestroy(event: CUevent) -> CUresult {";
  "cuEventDestroy_v2(event: CUevent) -> CUresult {";
  "cuEventRecord(event: CUevent, stream: CUstream) -> CUresult {";
  "cuEventRecord_ptsz(event: CUevent, stream: CUstream) -> CUresult {";
  "cuEventRecordWithFlags(";
  "cuEventRecordWithFlags_ptsz(";
  "cuEventSynchronize(event: CUevent) -> CUresult {";
  "cuEventElapsedTime(";
  "cuEventElapsedTime_v2(";
  "cuModuleLoad(module: *mut CUmodule, fname: *const c_char) -> CUresult {";
  "cuModuleGetFunction(";
  "cuModuleUnload(module: CUmodule) -> CUresult {";
  "cuLaunchKernel(";
  "cuMemcpyAsync(";
  "cuMemcpyAsync_ptsz(";
  "cuMemcpyHtoDAsync_v2(";
  "cuMemcpyHtoDAsync(";
  "cuMemcpyHtoDAsync_v2_ptsz(";
  "cuMemcpyDtoHAsync_v2(";
  "cuMemcpyDtoHAsync(";
  "cuMemcpyDtoHAsync_v2_ptsz(";
  "cuMemcpyHtoD_v2(";
  "cuMemcpyDtoH_v2(";
  "cuMemAlloc_v2(dptr: *mut CUdeviceptr, bytesize: usize) -> CUresult {";
  "cuMemFree_v2(dptr: CUdeviceptr) -> CUresult {";
  "cuMemAllocHost_v2(pp: *mut *mut c_void, bytesize: usize) -> CUresult {";
  "cuMemFreeHost(p: *mut c_void) -> CUresult {"
].

Definition driver_rs : string := unlines (String.append hook_decl <$> driver_rs_declarations).

(** ** A generated wrapper is a traced call *)

Section Wrappers.
Context {P : Process}.

Lemma quiet_wrapper_real_fn name : quiet guard_fits (wrapper_real_fn name).
Proof.
  unfold wrapper_real_fn, cudatrace_resolve_driver_symbol. quiet_tac; [apply quiet_resolve_driver|].
  by intros w _.
Qed.

(** The name a wrapper is traced under, and its entry step by step. *)
Lemma driver_enter_steps name w :
  valid_str name -> (intern_driver w !! name = None \/ intern_driver w !! name = Some name) ->
  exists w0 scope w1,
    thread w0 = thread w /\ trace_log w0 = trace_log w /\ clock w0 = clock w /\ next_box w0 = next_box w
    /\ boxes w0 = boxes w
    /\ scope_enter Domain_Driver name EmptyString w0 = (scope, w1)
    /\ cudatrace_driver_enter (Some name) w = (next_box w1, set_boxes (<[next_box w1 := scope]> (boxes w1)) (next_box w1 + 1) w1).
Proof.
  intros Hv Hi. unfold cudatrace_driver_enter, intern_driver_func_name, box_into_raw, gets, modify, mbind, M_bind, mret, M_ret.
  assert (from_utf8_lossy (bytes_of name) = name) as Hlossy by exact Hv.
  destruct Hi as [-> | ->]; [rewrite Hlossy|].
  - set (w0 := set_intern (<[name := name]> (intern_driver w)) (intern_cudart w) w).
    destruct (scope_enter Domain_Driver name EmptyString w0) as [scope w1] eqn:E. by exists w0, scope, w1.
  - destruct (scope_enter Domain_Driver name EmptyString w) as [scope w1] eqn:E. by exists w, scope, w1.
Qed.


End Wrappers.


(** ** The wrappers of this source *)

Definition driver_hooks_by_hand : list string := parse_manual_hook_names driver_rs "cu".
Definition driver_wrappers : list WrapperPrototype :=
  (parse_missing_prototypes DRIVER_MISSING_PROTOTYPES driver_hooks_by_hand "cu").1.
Definition wrapper_names : list string := wp_name <$> driver_wrappers.

(** The names that have a wrapper and that [dlsym] answers with a hook. *)
Definition shared_names : list string :=
  ["cuCtxCreate"; "cuCtxDestroy"; "cuMemAlloc"; "cuMemAllocHost"; "cuMemFree"; "cuMemcpyDtoH"; "cuMemcpyHtoD"].

(** What is computed of the two texts, at once. *)
Definition names_ok (parsed : list WrapperPrototype * list string) : bool :=
  let names := wp_name <$> parsed.1 in
  Nat.eqb (length names) 451 && Nat.eqb (length parsed.2) 0
  && forallb (fun h => negb (set_contains (fn_name h) names)) all_hooks
  && forallb (fun n => match match_bytes n cudart_symbols with None => true | Some _ => false end) names
  && bool_decide (List.filter (fun n => match match_bytes n driver_symbols with None => false | Some _ => true end) names
      = shared_names).

Lemma names_computed :
  names_ok (parse_missing_prototypes DRIVER_MISSING_PROTOTYPES driver_hooks_by_hand "cu") = true.
Proof. vm_compute. reflexivity. Qed.

Lemma lookup_table_spec addr ws s : lookup_table addr ws (Some s) = NULL \/
  (lookup_table addr ws (Some s) = addr s /\ s ∈ wp_name <$> ws).
Proof.
  unfold lookup_table. destruct (List.find _ ws) as [w|] eqn:E; [|by left]. right.
  apply List.find_some in E as [Hin ->%String.eqb_eq]. split; [done|]. apply list_elem_of_fmap. exists w.
  split; [done|]. by apply list_elem_of_In.
Qed.

Lemma names_ok_spec parsed : names_ok parsed = true ->
  length parsed.1 = 451%nat
  /\ parsed.2 = []
  /\ (forall h, fn_name h ∉ wp_name <$> parsed.1)
  /\ (forall name, name ∈ wp_name <$> parsed.1 -> match_bytes name cudart_symbols = None)
  /\ (forall name, name ∈ shared_names <-> name ∈ wp_name <$> parsed.1 /\ match_bytes name driver_symbols <> None)
  /\ (forall addr name, (forall n, addr n <> NULL) ->
        (lookup_table addr parsed.1 (Some name) <> NULL <-> name ∈ wp_name <$> parsed.1)).
Proof.
  destruct parsed as [ws warns]. unfold names_ok. cbn [fst snd]. intros Hc.
  apply andb_true_iff in Hc as [[[[H1 H2]%andb_true_iff H3]%andb_true_iff H4]%andb_true_iff H5%bool_decide_eq_true].
  apply Nat.eqb_eq in H1, H2. rewrite length_fmap in H1. destruct warns; [|done].
  split; [done|]. split; [done|]. split_and!.
  - intros h Hin. pose proof (proj1 (forallb_forall _ _) H3 h) as Hn. rewrite negb_true_iff in Hn.
    specialize (Hn ltac:(destruct h; cbv; tauto)). apply set_contains_elem in Hin. congruence.
  - intros name Hin%list_elem_of_In. pose proof (proj1 (forallb_forall _ _) H4 _ Hin) as Hn.
    cbn beta in Hn. by destruct (match_bytes name cudart_symbols).
  - intros name. rewrite <- H5, !list_elem_of_In, filter_In.
    destruct (match_bytes name driver_symbols); split; (intros [? ?]; split; [assumption|congruence]).
  - intros addr name Ha. split.
    + destruct (lookup_table_spec addr ws name) as [E|[_ E]]; done.
    + intros (w & -> & Hin)%list_elem_of_fmap. unfold lookup_table.
      destruct (List.find _ ws) as [w'|] eqn:E; [apply Ha|].
      exfalso. pose proof (List.find_none _ _ E w) as Hn. cbn beta in Hn. rewrite String.eqb_refl in Hn.
      apply list_elem_of_In in Hin. by specialize (Hn Hin).
Qed.

Lemma names_ok_laws parsed (P : Process) addr : names_ok parsed = true -> (forall n, addr n <> NULL) ->
  (forall s, lookup_generated_driver_wrapper s = lookup_table addr parsed.1 (Some s)) -> GeneratedLaws P.
Proof.
  intros (_ & _ & _ & Hn & _ & Ht)%names_ok_spec Ha Hl. split. intros s Hs. rewrite Hl in Hs.
  exact (Hn s (proj1 (Ht addr s Ha) Hs)).
Qed.

(** A process with this table promises what the theorems of the resolution ask
    of the generated code. *)
Lemma table_generated_laws (P : Process) addr : (forall n, addr n <> NULL) ->
  (forall s, lookup_generated_driver_wrapper s = lookup_table addr driver_wrappers (Some s)) -> GeneratedLaws P.
Proof. exact (names_ok_laws _ P addr names_computed). Qed.


