(* ===== verification/Flags.v ===== *)
(** * The text of system-call flags: the formatters of [src/src/hook/ptrace.rs]

    Every formatter takes named masks out of the flags, one after the other,
    and prints what remains in hexadecimal. *)
From S2P Require Import Prelude RustStr Config.

Definition AT_FDCWD : Z := -100.
Definition O_NONBLOCK : Z := 2048.
Definition O_CREAT_MASK : Z := 64.
Definition O_ACCMODE_MASK : Z := 3.
Definition O_WRONLY_MASK : Z := 1.
Definition O_RDWR_MASK : Z := 2.
Definition O_EXCL_MASK : Z := 128.
Definition O_NOCTTY_MASK : Z := 256.
Definition O_TRUNC_MASK : Z := 512.
Definition O_APPEND_MASK : Z := 1024.
Definition O_DSYNC_MASK : Z := 4096.
Definition O_DIRECT_MASK : Z := 16384.
Definition O_LARGEFILE_MASK : Z := 32768.
Definition O_DIRECTORY_MASK : Z := 65536.
Definition O_NOFOLLOW_MASK : Z := 131072.
Definition O_NOATIME_MASK : Z := 262144.
Definition O_CLOEXEC_MASK : Z := 524288.
Definition O_SYNC_MASK : Z := 1052672.
Definition O_PATH_MASK : Z := 2097152.
Definition O_TMPFILE_MASK : Z := 4259840.

Definition PROT_NONE_MASK : Z := 0x0.
Definition PROT_READ_MASK : Z := 0x1.
Definition PROT_WRITE_MASK : Z := 0x2.
Definition PROT_EXEC_MASK : Z := 0x4.
Definition PROT_SEM_MASK : Z := 0x8.
Definition PROT_GROWSDOWN_MASK : Z := 0x01000000.
Definition PROT_GROWSUP_MASK : Z := 0x02000000.

Definition MAP_TYPE_MASK : Z := 0x0f.
Definition MAP_SHARED_MASK : Z := 0x01.
Definition MAP_PRIVATE_MASK : Z := 0x02.
Definition MAP_SHARED_VALIDATE_MASK : Z := 0x03.
Definition MAP_FIXED_MASK : Z := 0x10.
Definition MAP_ANONYMOUS_MASK : Z := 0x20.
Definition MAP_32BIT_MASK : Z := 0x40.
Definition MAP_GROWSDOWN_MASK : Z := 0x0100.
Definition MAP_DENYWRITE_MASK : Z := 0x0800.
Definition MAP_EXECUTABLE_MASK : Z := 0x1000.
Definition MAP_LOCKED_MASK : Z := 0x2000.
Definition MAP_NORESERVE_MASK : Z := 0x4000.
Definition MAP_POPULATE_MASK : Z := 0x8000.
Definition MAP_NONBLOCK_MASK : Z := 0x10000.
Definition MAP_STACK_MASK : Z := 0x20000.
Definition MAP_HUGETLB_MASK : Z := 0x40000.
Definition MAP_SYNC_MASK : Z := 0x80000.
Definition MAP_FIXED_NOREPLACE_MASK : Z := 0x100000.

Definition F_OK_MASK : Z := 0x0.
Definition X_OK_MASK : Z := 0x1.
Definition W_OK_MASK : Z := 0x2.
Definition R_OK_MASK : Z := 0x4.

Definition AT_SYMLINK_NOFOLLOW_MASK : Z := 0x100.
Definition AT_EACCESS_MASK : Z := 0x200.
Definition AT_NO_AUTOMOUNT_MASK : Z := 0x800.
Definition AT_EMPTY_PATH_MASK : Z := 0x1000.

Definition SEEK_SET : Z := 0.
Definition SEEK_CUR : Z := 1.
Definition SEEK_END : Z := 2.
Definition SEEK_DATA : Z := 3.
Definition SEEK_HOLE : Z := 4.

(** ** The loop over the masks *)

Abbreviation flag_specs := (list (Z * string)).

(** [for (mask, name) in specs]: the parts so far and the bits left. *)
Definition take_flag (acc : list string * Z) (spec : Z * string) : list string * Z :=
  let '(parts, remaining) := acc in
  let '(mask, name) := spec in
  if has_bits remaining mask then (parts ++ [name], clear_bits remaining mask) else (parts, remaining).

Definition take_flags (specs : flag_specs) (parts : list string) (remaining : Z) : list string * Z :=
  foldl take_flag (parts, remaining) specs.

(** What is left is printed last. *)
Definition push_remaining (acc : list string * Z) : list string :=
  let '(parts, remaining) := acc in
  if negb (remaining =? 0) then parts ++ [fmt_0x remaining] else parts.

Definition joined (parts : list string) (flags : Z) : string :=
  join "|" parts +:+ "(" +:+ fmt_0x flags +:+ ")".

(** ** Formatters *)

Definition format_dirfd (dirfd : Z) : string := if dirfd =? AT_FDCWD then "AT_FDCWD" else fmt_i dirfd.

Definition open_access (flags : Z) : string :=
  let value := Z.land flags O_ACCMODE_MASK in
  if value =? 0 then "O_RDONLY"
  else if value =? O_WRONLY_MASK then "O_WRONLY"
  else if value =? O_RDWR_MASK then "O_RDWR"
  else "O_ACCMODE(" +:+ fmt_0x value +:+ ")".

Definition open_specs : flag_specs :=
  [(O_CREAT_MASK, "O_CREAT"); (O_EXCL_MASK, "O_EXCL"); (O_NOCTTY_MASK, "O_NOCTTY");
   (O_TRUNC_MASK, "O_TRUNC"); (O_APPEND_MASK, "O_APPEND"); (O_NONBLOCK, "O_NONBLOCK");
   (O_DIRECT_MASK, "O_DIRECT"); (O_SYNC_MASK, "O_SYNC"); (O_DSYNC_MASK, "O_DSYNC");
   (O_LARGEFILE_MASK, "O_LARGEFILE"); (O_DIRECTORY_MASK, "O_DIRECTORY");
   (O_NOFOLLOW_MASK, "O_NOFOLLOW"); (O_NOATIME_MASK, "O_NOATIME");
   (O_CLOEXEC_MASK, "O_CLOEXEC"); (O_PATH_MASK, "O_PATH")].

Definition format_open_flags (flags : Z) : string :=
  let parts := [open_access flags] in
  let remaining := clear_bits flags O_ACCMODE_MASK in
  let '(parts, remaining) := take_flag (parts, remaining) (O_TMPFILE_MASK, "O_TMPFILE") in
  joined (push_remaining (take_flags open_specs parts remaining)) flags.

Definition format_dup3_flags (flags : Z) : string :=
  if flags =? 0 then "0"
  else joined (push_remaining (take_flag ([], flags) (O_CLOEXEC_MASK, "O_CLOEXEC"))) flags.

Definition prot_specs : flag_specs :=
  [(PROT_READ_MASK, "PROT_READ"); (PROT_WRITE_MASK, "PROT_WRITE"); (PROT_EXEC_MASK, "PROT_EXEC");
   (PROT_SEM_MASK, "PROT_SEM"); (PROT_GROWSDOWN_MASK, "PROT_GROWSDOWN");
   (PROT_GROWSUP_MASK, "PROT_GROWSUP")].

Definition format_mmap_prot (prot : Z) : string :=
  if prot =? PROT_NONE_MASK then "PROT_NONE(0x0)"
  else joined (push_remaining (take_flags prot_specs [] prot)) prot.

Definition map_type_parts (flags : Z) : list string :=
  let map_type := Z.land flags MAP_TYPE_MASK in
  if map_type =? MAP_SHARED_MASK then ["MAP_SHARED"]
  else if map_type =? MAP_PRIVATE_MASK then ["MAP_PRIVATE"]
  else if map_type =? MAP_SHARED_VALIDATE_MASK then ["MAP_SHARED_VALIDATE"]
  else if map_type =? 0 then []
  else ["MAP_TYPE(" +:+ fmt_0x map_type +:+ ")"].

Definition mmap_specs : flag_specs :=
  [(MAP_FIXED_MASK, "MAP_FIXED"); (MAP_ANONYMOUS_MASK, "MAP_ANONYMOUS"); (MAP_32BIT_MASK, "MAP_32BIT");
   (MAP_GROWSDOWN_MASK, "MAP_GROWSDOWN"); (MAP_DENYWRITE_MASK, "MAP_DENYWRITE");
   (MAP_EXECUTABLE_MASK, "MAP_EXECUTABLE"); (MAP_LOCKED_MASK, "MAP_LOCKED");
   (MAP_NORESERVE_MASK, "MAP_NORESERVE"); (MAP_POPULATE_MASK, "MAP_POPULATE");
   (MAP_NONBLOCK_MASK, "MAP_NONBLOCK"); (MAP_STACK_MASK, "MAP_STACK"); (MAP_HUGETLB_MASK, "MAP_HUGETLB");
   (MAP_SYNC_MASK, "MAP_SYNC"); (MAP_FIXED_NOREPLACE_MASK, "MAP_FIXED_NOREPLACE")].

Definition mmap_parts (flags : Z) : list string :=
  push_remaining (take_flags mmap_specs (map_type_parts flags) (clear_bits flags MAP_TYPE_MASK)).

Definition format_mmap_flags (flags : Z) : string :=
  if flags =? 0 then "0"
  else match mmap_parts flags with
       | [] => fmt_0x flags
       | parts => joined parts flags
       end.

Definition access_specs : flag_specs := [(R_OK_MASK, "R_OK"); (W_OK_MASK, "W_OK"); (X_OK_MASK, "X_OK")].

Definition format_access_mode (mode : Z) : string :=
  if mode =? F_OK_MASK then "F_OK(0x0)"
  else joined (push_remaining (take_flags access_specs [] mode)) mode.

Definition format_named_at_flags (flags : Z) (specs : flag_specs) : string :=
  if flags =? 0 then "0"
  else joined (push_remaining (take_flags specs [] flags)) flags.

Definition newfstatat_specs : flag_specs :=
  [(AT_SYMLINK_NOFOLLOW_MASK, "AT_SYMLINK_NOFOLLOW"); (AT_NO_AUTOMOUNT_MASK, "AT_NO_AUTOMOUNT");
   (AT_EMPTY_PATH_MASK, "AT_EMPTY_PATH")].
Definition format_newfstatat_flags (flags : Z) : string := format_named_at_flags flags newfstatat_specs.

Definition faccessat_specs : flag_specs :=
  [(AT_EACCESS_MASK, "AT_EACCESS"); (AT_SYMLINK_NOFOLLOW_MASK, "AT_SYMLINK_NOFOLLOW");
   (AT_EMPTY_PATH_MASK, "AT_EMPTY_PATH")].
Definition format_faccessat_flags (flags : Z) : string := format_named_at_flags flags faccessat_specs.

Definition format_lseek_whence (whence : Z) : string :=
  if whence =? SEEK_SET then "SEEK_SET(0x0)"
  else if whence =? SEEK_CUR then "SEEK_CUR(0x1)"
  else if whence =? SEEK_END then "SEEK_END(0x2)"
  else if whence =? SEEK_DATA then "SEEK_DATA(0x3)"
  else if whence =? SEEK_HOLE then "SEEK_HOLE(0x4)"
  else fmt_0x whence.

(** ** Specification: what a list of parts stands for *)

(** The masks of a selection of specs. *)
Definition masks_or (sel : flag_specs) : Z := foldr Z.lor 0 sel.*1.

Lemma masks_or_cons mask name sel : masks_or ((mask, name) :: sel) = Z.lor mask (masks_or sel).
Proof. reflexivity. Qed.

(** [sel] and [rest] account for [flags] exactly: their union is [flags], they
    share no bit, and no mask of [specs] is left in [rest]. *)
Record decomposes (specs : flag_specs) (flags : Z) (sel : flag_specs) (rest : Z) : Prop := {
  dec_sub : sel `sublist_of` specs;
  dec_union : Z.lor (masks_or sel) rest = flags;
  dec_disjoint : Z.land (masks_or sel) rest = 0;
  dec_complete : forall mask name, (mask, name) ∈ specs -> mask <> 0 -> has_bits rest mask = false
}.

Lemma has_bits_clear x m m' :
  in_u 64 x -> has_bits (clear_bits x m) m' = true -> has_bits x m' = true.
Proof.
  intros Hx H. unfold has_bits in *. apply Z.eqb_eq in H. apply Z.eqb_eq.
  apply Z.bits_inj'. intros i Hi. rewrite Z.land_spec. rewrite <- H, Z.land_spec, clear_bits_testbit by done.
  destruct (Z.testbit x i), (Z.testbit m i) eqn:E; simpl; try done.
Qed.

Lemma has_bits_sub rest x m :
  (forall i, 0 <= i -> Z.testbit rest i = true -> Z.testbit x i = true) ->
  has_bits rest m = true -> has_bits x m = true.
Proof.
  intros Hs H. unfold has_bits. apply Z.eqb_eq. apply Z.bits_inj'. intros i Hi. rewrite Z.land_spec.
  destruct (Z.testbit m i) eqn:E; [|by rewrite andb_false_r].
  rewrite andb_true_r. apply Hs; [done|]. by apply (has_bits_testbit rest m).
Qed.

Lemma take_flags_decomposes specs : forall parts flags,
  in_u 64 flags ->
  exists sel rest, take_flags specs parts flags = (parts ++ sel.*2, rest)
  /\ in_u 64 rest /\ decomposes specs flags sel rest.
Proof.
  induction specs as [|[mask name] specs IH]; intros parts flags Hf.
  - exists [], flags. simpl. rewrite app_nil_r. split; [done|]. split; [done|].
    split; simpl; [done|done|by rewrite Z.land_0_l|]. intros ? ? H. by apply elem_of_nil in H.
  - unfold take_flags. cbn [foldl].
    change (take_flag (parts, flags) (mask, name))
      with (if has_bits flags mask then (parts ++ [name], clear_bits flags mask) else (parts, flags)).
    destruct (has_bits flags mask) eqn:Hb.
    + destruct (IH (parts ++ [name]) (clear_bits flags mask)) as (sel & rest & E & Hr & [Hs Hu Hd Hc]);
        [by apply clear_bits_range|].
      exists ((mask, name) :: sel), rest. unfold take_flags in E. rewrite E. simpl.
      rewrite <- app_assoc. split; [done|]. split; [done|].
      assert (forall i, 0 <= i -> Z.testbit rest i = true -> Z.testbit flags i && negb (Z.testbit mask i) = true) as Hrest.
      { intros i Hi Hri. rewrite <- clear_bits_testbit by done. by rewrite <- Hu, Z.lor_spec, Hri, orb_true_r. }
      split.
      * by apply sublist_skip.
      * rewrite masks_or_cons, <- Z.lor_assoc, Hu. by apply clear_lor.
      * rewrite masks_or_cons, Z.land_lor_distr_l, Hd, Z.lor_0_r. apply Z.bits_inj'. intros i Hi.
        rewrite Z.land_spec, Z.bits_0. destruct (Z.testbit rest i) eqn:Er; [|by rewrite andb_false_r].
        apply Hrest in Er as [_ Hm%negb_true_iff]%andb_true_iff; [|done]. by rewrite Hm.
      * intros m n [[= -> ->]|Hin]%elem_of_cons Hm; [|by eapply Hc].
        apply not_true_is_false. intros Hh. apply Hm. apply Z.bits_inj'. intros i Hi. rewrite Z.bits_0.
        destruct (Z.testbit mask i) eqn:E1; [|done].
        pose proof (has_bits_testbit _ _ i Hh Hi E1) as E2.
        apply Hrest in E2 as [_ E3]%andb_true_iff; [|done]. by rewrite E1 in E3.
    + destruct (IH parts flags Hf) as (sel & rest & E & Hr & [Hs Hu Hd Hc]).
      exists sel, rest. unfold take_flags in E. rewrite E. split; [done|]. split; [done|].
      split; [by apply sublist_cons|done|done|].
      intros m n [[= -> ->]|Hin]%elem_of_cons Hm; [|by eapply Hc].
      apply not_true_is_false. intros Hh. rewrite (has_bits_sub rest flags mask) in Hb; [done| |done].
      intros i Hi Hri. by rewrite <- Hu, Z.lor_spec, Hri, orb_true_r.
Qed.

(** The text of a decomposition: the selected names, then the rest. *)
Definition flag_text (first : list string) (sel : flag_specs) (rest flags : Z) : string :=
  joined (first ++ sel.*2 ++ (if rest =? 0 then [] else [fmt_0x rest])) flags.

Lemma push_remaining_text first sel rest flags :
  joined (push_remaining (first ++ sel.*2, rest)) flags = flag_text first sel rest flags.
Proof.
  unfold push_remaining, flag_text. destruct (rest =? 0); simpl; by rewrite ?app_nil_r, <- ?app_assoc.
Qed.

Lemma access_split flags m :
  in_u 64 flags -> in_u 64 m ->
  Z.lor (Z.land flags m) (clear_bits flags m) = flags /\ Z.land (Z.land flags m) (clear_bits flags m) = 0.
Proof.
  intros Hf Hm. split; apply Z.bits_inj'; intros i Hi;
    rewrite ?Z.lor_spec, !Z.land_spec, clear_bits_testbit, ?Z.bits_0 by done;
    by destruct (Z.testbit flags i), (Z.testbit m i).
Qed.

(** The text of open flags accounts for every bit.  The access mode, the
    printed names and the hexadecimal rest are disjoint and make up the flags,
    and nothing that has a name is left in the rest. *)
Theorem format_open_flags_exact flags :
  in_u 64 flags ->
  exists sel rest,
    format_open_flags flags = flag_text [open_access flags] sel rest flags
    /\ decomposes ((O_TMPFILE_MASK, "O_TMPFILE") :: open_specs) (clear_bits flags O_ACCMODE_MASK) sel rest
    /\ Z.lor (Z.land flags O_ACCMODE_MASK) (clear_bits flags O_ACCMODE_MASK) = flags
    /\ Z.land (Z.land flags O_ACCMODE_MASK) (clear_bits flags O_ACCMODE_MASK) = 0.
Proof.
  intros Hf.
  destruct (take_flags_decomposes ((O_TMPFILE_MASK, "O_TMPFILE") :: open_specs) [open_access flags]
    (clear_bits flags O_ACCMODE_MASK)) as (sel & rest & E & _ & Hd); [by apply clear_bits_range|].
  exists sel, rest. split; [|split; [exact Hd|]].
  - rewrite <- push_remaining_text, <- E. unfold format_open_flags. cbv zeta.
    unfold take_flags. cbn [foldl]. by destruct (take_flag _ _).
  - apply access_split; [done|]. unfold in_u, O_ACCMODE_MASK. lia.
Qed.

Lemma format_open_flags_exact_witness :
  in_u 64 0x90842 /\ format_open_flags 0x90842 = "O_RDWR|O_CREAT|O_NONBLOCK|O_DIRECTORY|O_CLOEXEC(0x90842)"
  /\ exists sel rest,
    format_open_flags 0x90842 = flag_text [open_access 0x90842] sel rest 0x90842
    /\ decomposes ((O_TMPFILE_MASK, "O_TMPFILE") :: open_specs) (clear_bits 0x90842 O_ACCMODE_MASK) sel rest
    /\ Z.lor (Z.land 0x90842 O_ACCMODE_MASK) (clear_bits 0x90842 O_ACCMODE_MASK) = 0x90842
    /\ Z.land (Z.land 0x90842 O_ACCMODE_MASK) (clear_bits 0x90842 O_ACCMODE_MASK) = 0.
Proof.
  split; [split; [discriminate|reflexivity]|]. split; [vm_compute; reflexivity|].
  apply format_open_flags_exact. split; [discriminate|reflexivity].
Defined.

Lemma push_remaining_nil parts remaining : push_remaining (parts, remaining) = [] -> parts = [] /\ remaining = 0.
Proof.
  unfold push_remaining. destruct (Z.eqb_spec remaining 0); simpl; [done|]. by destruct parts.
Qed.

Lemma map_type_parts_nil flags : map_type_parts flags = [] -> Z.land flags MAP_TYPE_MASK = 0.
Proof.
  unfold map_type_parts. cbv zeta.
  destruct (_ =? MAP_SHARED_MASK); [done|]. destruct (_ =? MAP_PRIVATE_MASK); [done|].
  destruct (_ =? MAP_SHARED_VALIDATE_MASK); [done|]. by destruct (Z.eqb_spec (Z.land flags MAP_TYPE_MASK) 0).
Qed.

(** The text of mmap flags accounts for every bit, and non-zero flags always
    have a part, so the branch that prints the flags alone is never taken. *)
Theorem format_mmap_flags_exact flags :
  in_u 64 flags -> flags <> 0 ->
  mmap_parts flags <> []
  /\ exists sel rest,
    format_mmap_flags flags = flag_text (map_type_parts flags) sel rest flags
    /\ decomposes mmap_specs (clear_bits flags MAP_TYPE_MASK) sel rest.
Proof.
  intros Hf H0.
  destruct (take_flags_decomposes mmap_specs (map_type_parts flags) (clear_bits flags MAP_TYPE_MASK))
    as (sel & rest & E & _ & Hd); [by apply clear_bits_range|].
  assert (mmap_parts flags <> []) as Hne.
  { unfold mmap_parts. rewrite E. intros [Hp ->]%push_remaining_nil.
    apply app_nil in Hp as [Ht Hs]. apply H0.
    destruct Hd as [_ Hu _ _]. apply fmap_nil_inv in Hs. subst sel.
    assert (in_u 64 MAP_TYPE_MASK) as Hm by (unfold in_u, MAP_TYPE_MASK; lia).
    destruct (access_split flags MAP_TYPE_MASK Hf Hm) as [<- _].
    rewrite <- Hu, (map_type_parts_nil _ Ht). reflexivity. }
  split; [done|]. exists sel, rest. split; [|done].
  unfold format_mmap_flags. rewrite (proj2 (Z.eqb_neq flags 0)) by done.
  rewrite <- push_remaining_text, <- E. fold (mmap_parts flags). by destruct (mmap_parts flags).
Qed.

Lemma format_mmap_flags_exact_witness :
  mmap_parts 0x22 <> [] /\ exists sel rest,
    format_mmap_flags 0x22 = flag_text (map_type_parts 0x22) sel rest 0x22
    /\ decomposes mmap_specs (clear_bits 0x22 MAP_TYPE_MASK) sel rest.
Proof. apply format_mmap_flags_exact; [split; [discriminate|reflexivity]|discriminate]. Defined.

(** The other formatters account for every bit of a non-zero word. *)
Theorem format_flags_exact flags :
  in_u 64 flags -> flags <> 0 ->
  Forall (fun '(specs, format) => exists sel rest,
      format flags = flag_text [] sel rest flags /\ decomposes specs flags sel rest)
    [(prot_specs, format_mmap_prot); (access_specs, format_access_mode);
     (newfstatat_specs, format_newfstatat_flags); (faccessat_specs, format_faccessat_flags);
     ([(O_CLOEXEC_MASK, "O_CLOEXEC")], format_dup3_flags)].
Proof.
  intros Hf H0%Z.eqb_neq.
  assert (forall specs, exists sel rest,
    joined (push_remaining (take_flags specs [] flags)) flags = flag_text [] sel rest flags
    /\ decomposes specs flags sel rest) as H.
  { intros specs. destruct (take_flags_decomposes specs [] flags Hf) as (sel & rest & E & _ & Hd).
    exists sel, rest. split; [|done]. by rewrite E, <- push_remaining_text. }
  repeat apply Forall_cons_2; try apply Forall_nil_2;
    unfold format_mmap_prot, format_access_mode, format_newfstatat_flags, format_faccessat_flags,
      format_named_at_flags, format_dup3_flags, PROT_NONE_MASK, F_OK_MASK; rewrite H0;
    first [apply H | exact (H [(O_CLOEXEC_MASK, "O_CLOEXEC")])].
Qed.

Lemma format_flags_exact_witness :
  Forall (fun '(specs, format) => exists sel rest,
      format 0x3 = flag_text [] sel rest 0x3 /\ decomposes specs 0x3 sel rest)
    [(prot_specs, format_mmap_prot); (access_specs, format_access_mode);
     (newfstatat_specs, format_newfstatat_flags); (faccessat_specs, format_faccessat_flags);
     ([(O_CLOEXEC_MASK, "O_CLOEXEC")], format_dup3_flags)].
Proof. apply format_flags_exact; [split; [discriminate|reflexivity]|discriminate]. Defined.

(** The texts of the program's own tests. *)
Example seek_set_text : format_lseek_whence SEEK_SET = "SEEK_SET(0x0)". Proof. reflexivity. Qed.
Example dirfd_text : format_dirfd AT_FDCWD = "AT_FDCWD" /\ format_dirfd 3 = "3". Proof. by vm_compute. Qed.
