(* ===== verification/Proc.v ===== *)
(** * What the tracer reads of a traced process: [src/src/hook/ptrace.rs]

    Remote memory, the strings and buffers of system calls, the memory map,
    the names of system calls and of output files.  [ProcFs] is the kernel as
    the tracer sees it at one moment: [process_vm_readv] and the files below
    [/proc], each a function of the process. *)
From S2P Require Import Prelude RustStr Config Layout Window.

(** ** The interface to the kernel *)

Class ProcFs := {
  process_vm : Z -> RemoteMem;                          (* process_vm_readv of a pid *)
  fd_link : Z -> Z -> option string;                    (* readlink /proc/pid/fd/fd *)
  maps_text : Z -> option string;                       (* read /proc/pid/maps *)
  fd_entries : Z -> option (list (string * option string)); (* readdir /proc/pid/fd, with the links *)
  text_file : string -> option string                   (* read of a file of the system *)
}.

(** ** System calls and registers *)

Definition SYS_READ : Z := 0.
Definition SYS_WRITE : Z := 1.
Definition SYS_OPEN : Z := 2.
Definition SYS_CLOSE : Z := 3.
Definition SYS_STAT : Z := 4.
Definition SYS_FSTAT : Z := 5.
Definition SYS_LSTAT : Z := 6.
Definition SYS_POLL : Z := 7.
Definition SYS_LSEEK : Z := 8.
Definition SYS_MMAP : Z := 9.
Definition SYS_MUNMAP : Z := 11.
Definition SYS_IOCTL : Z := 16.
Definition SYS_PREAD64 : Z := 17.
Definition SYS_PWRITE64 : Z := 18.
Definition SYS_ACCESS : Z := 21.
Definition SYS_SELECT : Z := 23.
Definition SYS_DUP : Z := 32.
Definition SYS_DUP2 : Z := 33.
Definition SYS_PRCTL : Z := 157.
Definition SYS_FUTEX : Z := 202.
Definition SYS_OPENAT : Z := 257.
Definition SYS_NEWFSTATAT : Z := 262.
Definition SYS_PPOLL : Z := 271.
Definition SYS_PSELECT6 : Z := 270.
Definition SYS_FACCESSAT : Z := 269.
Definition SYS_DUP3 : Z := 292.

Definition UserRegsStruct : layout :=
  [("r15", U64); ("r14", U64); ("r13", U64); ("r12", U64); ("rbp", U64); ("rbx", U64);
   ("r11", U64); ("r10", U64); ("r9", U64); ("r8", U64); ("rax", U64); ("rcx", U64);
   ("rdx", U64); ("rsi", U64); ("rdi", U64); ("orig_rax", U64); ("rip", U64); ("cs", U64);
   ("eflags", U64); ("rsp", U64); ("ss", U64); ("fs_base", U64); ("gs_base", U64);
   ("ds", U64); ("es", U64); ("fs", U64); ("gs", U64)].

Record SyscallState := {
  ss_active : bool;
  ss_internal : bool;
  ss_nr : Z;
  ss_args : list Z;
  ss_path_hint : option string;
  ss_started_ts : Z;
  ss_started_at : Z;
  ss_started_ts_us : Z;
  ss_fgraph_waiting : bool;
  ss_fgraph_capturing : bool
}.

Definition default_state : SyscallState := {|
  ss_active := false; ss_internal := false; ss_nr := -1; ss_args := [0; 0; 0; 0; 0; 0];
  ss_path_hint := None; ss_started_ts := 0; ss_started_at := 0; ss_started_ts_us := 0;
  ss_fgraph_waiting := false; ss_fgraph_capturing := false
|}.

(** [state.args[i]] and [state.args[i] as i32] *)
Definition arg (st : SyscallState) (i : nat) : Z := nth i (ss_args st) 0.
Definition arg32 (st : SyscallState) (i : nat) : Z := as_i32 (arg st i).

Section Proc.
Context {P : ProcFs}.

(** ** Remote reads *)

Definition read_remote_bytes (pid remote_addr len : Z) : option (list Z) :=
  if len =? 0 then Some []
  else match process_vm pid remote_addr len with
       | Some bytes => if Z.of_nat (length bytes) <=? 0 then None else Some bytes
       | None => None
       end.

Definition CHUNK : Z := 256.
Definition MAX_LEN : Z := 4096.

(** The loop: the bytes read so far and whether a NUL ended them; [None] when
    the fuel runs out. *)
Fixpoint cstring_loop (fuel : nat) (pid cursor : Z) (out : list Z) : option (list Z * bool) :=
  match fuel with
  | O => None
  | S fuel =>
    if MAX_LEN <=? Z.of_nat (length out) then Some (out, false)
    else
      let remaining := MAX_LEN - Z.of_nat (length out) in
      let want := Z.min remaining CHUNK in
      match read_remote_bytes pid cursor want with
      | None => Some (out, false)
      | Some bytes =>
        if Z.of_nat (length bytes) =? 0 then Some (out, false)
        else if existsb (Z.eqb 0) bytes then Some (out ++ until_nul bytes, true)
        else
          let out := out ++ bytes in
          if Z.of_nat (length bytes) <? want then Some (out, false)
          else cstring_loop fuel pid (Z.min u64_max (cursor + Z.of_nat (length bytes))) out
      end
  end.

(** 16 chunks fill the buffer, one more test ends the loop. *)
Definition cstring_fuel : nat := 17.

Definition unreadable_text (addr : Z) : string := "<unreadable@" +:+ fmt_0x addr +:+ ">".

Definition read_remote_cstring (pid addr : Z) : string :=
  if addr =? 0 then "<null>"
  else match cstring_loop cstring_fuel pid addr [] with
       | Some (out, true) => from_utf8_lossy out
       | Some (out, false) =>
         if Z.of_nat (length out) =? 0 then unreadable_text addr else from_utf8_lossy out
       | None => EmptyString
       end.

(** ** Buffers *)

Definition preview_byte (byte : Z) : string :=
  if byte =? 92 then "\\"
  else if byte =? 34 then "\" +:+ DQ
  else if byte =? 10 then "\n"
  else if byte =? 13 then "\r"
  else if byte =? 9 then "\t"
  else if (0x20 <=? byte) && (byte <=? 0x7e) then str1 (char_of byte)
  else "\x" +:+ pad0 2 (fmt_x byte).

Fixpoint bytes_to_ascii_preview (bytes : list Z) : string :=
  match bytes with
  | [] => EmptyString
  | byte :: bytes => preview_byte byte +:+ bytes_to_ascii_preview bytes
  end.

Definition format_buffer_preview (cfg : Config) (pid buf_addr req_count ret_norm : Z) : string :=
  if ret_norm <=? 0 then EmptyString
  else
    let observed := ret_norm in
    let requested := req_count in
    let expected := Z.min observed requested in
    if expected =? 0 then EmptyString
    else
      let preview_len := Z.min expected (max_blob cfg) in
      if preview_len =? 0 then ", data_truncated=true"
      else match read_remote_bytes pid buf_addr preview_len with
           | None => ", data=" +:+ DQ +:+ unreadable_text buf_addr +:+ DQ
           | Some bytes =>
             let ascii := bytes_to_ascii_preview bytes in
             let truncated := (Z.of_nat (length bytes) <? expected) || (preview_len <? expected) in
             if truncated then ", data=" +:+ DQ +:+ ascii +:+ DQ +:+ ", data_truncated=true"
             else ", data=" +:+ DQ +:+ ascii +:+ DQ
           end.

(** ** The tracer's own mappings *)

Abbreviation ranges := (list (Z * Z)).

Definition in_ranges (addr : Z) (rs : ranges) : bool :=
  existsb (fun '(start, end_) => (start <=? addr) && (addr <? end_)) rs.

(** One line of the map, when it names the library. *)
Definition maps_line_range (line : string) : option (Z * Z) :=
  if negb (contains "cudatrace" line) then None
  else match split_whitespace line with
       | [] => None
       | range_raw :: _ =>
         match split_once "-"%char range_raw with
         | None => None
         | Some (start_raw, end_raw) =>
           match parse_uint 16 u64_max start_raw, parse_uint 16 u64_max end_raw with
           | Some start, Some end_ => if start <? end_ then Some (start, end_) else None
           | _, _ => None
           end
         end
       end.

Definition load_cudatrace_ranges (pid : Z) : ranges :=
  match maps_text pid with
  | None => []
  | Some text => omap maps_line_range (lines text)
  end.

Definition STACK_WORDS_TO_SCAN : Z := 16.

(** [bytes.chunks_exact(8)] *)
Definition words64 (bytes : list Z) : list Z := le_val <$> chunk (length bytes / 8) 8 bytes.

Definition is_internal_syscall (pid : Z) (regs : pod UserRegsStruct) (rs : ranges) : bool :=
  if bool_decide (rs = []) then false
  else if in_ranges regs.["rip"] rs then true
  else
    let want := STACK_WORDS_TO_SCAN * 8 in
    match read_remote_bytes pid regs.["rsp"] want with
    | None => false
    | Some bytes => existsb (fun word => in_ranges word rs) (words64 bytes)
    end.

(** ** Paths of descriptors and arguments *)

Definition read_live_fd_path (pid fd : Z) : option string :=
  if fd <? 0 then None else fd_link pid fd.

Definition capture_path_hint (pid nr : Z) (args : list Z) : option string :=
  if (nr =? SYS_OPEN) || (nr =? SYS_STAT) || (nr =? SYS_LSTAT) || (nr =? SYS_ACCESS) then
    Some (read_remote_cstring pid (nth 0 args 0))
  else if (nr =? SYS_OPENAT) || (nr =? SYS_NEWFSTATAT) || (nr =? SYS_FACCESSAT) then
    Some (read_remote_cstring pid (nth 1 args 0))
  else if nr =? SYS_CLOSE then read_live_fd_path pid (as_i32 (nth 0 args 0))
  else None.

(** ** System-call names *)

Definition syscall_headers : list string :=
  ["/usr/include/x86_64-linux-gnu/asm/unistd_64.h"; "/usr/include/asm/unistd_64.h"].

Definition syscall_name_line (map : gmap Z string) (line : string) : gmap Z string :=
  let line := trim line in
  if negb (starts_with "#define __NR_" line) then map
  else match split_whitespace line with
       | _ :: name_raw :: num_raw :: _ =>
         match strip_prefix "__NR_" name_raw, parse_int 64 num_raw with
         | Some name, Some nr => <[nr := name]> map
         | _, _ => map
         end
       | _ => map
       end.

Fixpoint load_syscall_names_from (candidates : list string) (map : gmap Z string) : gmap Z string :=
  match candidates with
  | [] => map
  | path :: candidates =>
    match text_file path with
    | None => load_syscall_names_from candidates map
    | Some text =>
      let map := foldl syscall_name_line map (lines text) in
      if bool_decide (map = ∅) then load_syscall_names_from candidates map else map
    end
  end.

Definition load_syscall_names : gmap Z string := load_syscall_names_from syscall_headers ∅.

Definition syscall_name (nr : Z) : string :=
  default ("syscall_" +:+ fmt_i nr) (load_syscall_names !! nr).

Definition syscall_graph_function (nr : Z) : option string :=
  let name := syscall_name nr in
  if starts_with "syscall_" name then None else Some ("__x64_sys_" +:+ name).

End Proc.

(** ** Wait status *)

Definition wifstopped (status : Z) : bool := Z.land status 0xff =? 0x7f.
Definition wstopsig (status : Z) : Z := Z.land (Z.shiftr status 8) 0xff.
Definition wifexited (status : Z) : bool := Z.land status 0x7f =? 0.
Definition wifsignaled (status : Z) : bool :=
  let sig := Z.land status 0x7f in negb (sig =? 0) && negb (sig =? 0x7f).
Definition ptrace_event (status : Z) : Z := Z.land (Z.shiftr status 16) 0xffff.

(** ** Names of capture files *)

Definition sanitize_char (ch : Z) : Z :=
  if is_ascii_alphanumeric ch || (ch =? 95) || (ch =? 45) || (ch =? 46) then ch else 95.
Definition sanitize_file_component (input : string) : string := of_chars (sanitize_char <$> chars input).

Definition sanitize_scope_label_component (input : string) : string :=
  let cleaned := sanitize_file_component input in
  if is_empty cleaned then "unknown0" else cleaned.

Definition fgraph_output_path (base_path : string) (tid : Z) (syscall : string) (entry_ts_us : Z)
    (scope_label : string) : string :=
  let scope := sanitize_scope_label_component scope_label in
  base_path +:+ ".fgraph.tid-" +:+ fmt_i tid +:+ ".ts-" +:+ fmt_u entry_ts_us +:+ "." +:+ scope
    +:+ ".sys-" +:+ sanitize_file_component syscall +:+ ".log".

(** ** The text of a capture *)

(** [body.ends_with('{')] *)
Definition ends_with_brace (s : string) : bool :=
  match last_char s with Some c => Ascii.eqb c "{"%char | None => false end.

Definition graph_line_body (line : string) : string :=
  match split_once "|"%char line with
  | Some (_, body) => trim (default body (strip_prefix " " body))
  | None => trim (trim_start line)
  end.

Definition graph_line_skipped (line : string) : bool :=
  let trimmed := trim_start line in
  starts_with "#" trimmed || starts_with "------------------------------------------" trimmed
  || contains "=>" line.

Definition sanitize_graph_line (acc : string * nat) (line : string) : string * nat :=
  let '(out, depth) := acc in
  if graph_line_skipped line then (out, depth)
  else
    let body := graph_line_body line in
    if is_empty body then (out, depth)
    else
      let depth := if starts_with "}" body then pred depth else depth in
      let out := out +:+ repeat_str TABS depth +:+ body +:+ NL in
      (out, if ends_with_brace body then S depth else depth).

Definition sanitize_fgraph_trace_output (graph : string) : string :=
  let '(out, _) := foldl sanitize_graph_line (EmptyString, 0%nat) (lines graph) in
  if is_empty out then graph else out.

(** ** Strings of a byte memory *)

(** The bytes readable from [a] on, at most [n]. *)
Fixpoint readable (m : Z -> option Z) (n : nat) (a : Z) : list Z :=
  match n with
  | O => []
  | S n => match m a with Some b => b :: readable m n (a + 1) | None => [] end
  end.

(** [process_vm_readv] on a process whose bytes are [m]: what is readable up to
    the first hole, an error when that is nothing; user addresses end below 2^47. *)
Record byte_memory (P : ProcFs) (pid : Z) (m : Z -> option Z) : Prop := {
  mem_read addr len : process_vm pid addr len =
    (if bool_decide (readable m (Z.to_nat len) addr = []) then None
     else Some (readable m (Z.to_nat len) addr));
  mem_user a b : m a = Some b -> a < 2 ^ 47
}.

Lemma readable_length m n a : (length (readable m n a) <= n)%nat.
Proof.
  revert a. induction n as [|n IH]; intros a; simpl; [lia|].
  destruct (m a); simpl; [|lia]. specialize (IH (a + 1)). lia.
Qed.

Lemma readable_app m n k a :
  readable m (n + k) a =
  if decide (length (readable m n a) = n) then readable m n a ++ readable m k (a + Z.of_nat n)
  else readable m n a.
Proof.
  revert a. induction n as [|n IH]; intros a; simpl; [by rewrite Z.add_0_r|].
  destruct (m a) as [b|]; simpl; [|done].
  rewrite IH.
  destruct (decide (length (readable m n (a + 1)) = n)) as [E|E].
  - rewrite decide_True by lia. simpl. do 3 f_equal. lia.
  - rewrite decide_False by lia. done.
Qed.

Lemma readable_nil m n k a : readable m (S n) a = [] -> readable m k a = [].
Proof. destruct k; [done|]. simpl. by destruct (m a). Qed.

Lemma readable_user P pid m n a :
  byte_memory P pid m -> length (readable m n a) = n -> (0 < n)%nat -> a + Z.of_nat n <= 2 ^ 47.
Proof.
  intros Hm. revert a. induction n as [|n IH]; intros a Hl Hn; [lia|].
  simpl in Hl. destruct (m a) as [b|] eqn:E; simpl in Hl; [|lia].
  apply (mem_user _ _ _ Hm) in E. destruct n as [|n]; [lia|].
  specialize (IH (a + 1) ltac:(lia) ltac:(lia)). lia.
Qed.

Lemma until_nul_split a b :
  existsb (Z.eqb 0) a = false -> until_nul (a ++ b) = a ++ until_nul b.
Proof.
  induction a as [|x a IH]; [done|]. cbn [existsb until_nul app]. intros [Hx Ha]%orb_false_iff.
  rewrite Z.eqb_sym, Hx. by rewrite IH.
Qed.

Lemma until_nul_found a b : existsb (Z.eqb 0) a = true -> until_nul (a ++ b) = until_nul a.
Proof.
  induction a as [|x a IH]; [done|]. cbn [existsb until_nul app]. rewrite (Z.eqb_sym x 0).
  destruct (0 =? x); cbn [orb]; [done|]. intros. by rewrite IH.
Qed.

(** What the loop should return: the readable bytes of the buffer, cut at the first NUL. *)
Definition cstring_bytes (m : Z -> option Z) (addr : Z) : list Z * bool :=
  let pre := readable m (Z.to_nat MAX_LEN) addr in
  if existsb (Z.eqb 0) pre then (until_nul pre, true) else (pre, false).

Section Memory.
Context {P : ProcFs} (pid : Z) (m : Z -> option Z) (Hm : byte_memory P pid m).

Lemma read_remote_readable addr len :
  0 < len -> read_remote_bytes pid addr len =
  let bs := readable m (Z.to_nat len) addr in if bool_decide (bs = []) then None else Some bs.
Proof.
  intros Hlen. unfold read_remote_bytes. rewrite (proj2 (Z.eqb_neq len 0)) by lia.
  rewrite (mem_read _ _ _ Hm). cbv zeta. case_bool_decide as E; [done|].
  rewrite (proj2 (Z.leb_gt _ _)); [done|]. destruct (readable m _ addr); [done|]. simpl. lia.
Qed.

(** [c] and [t] are the chunk and the buffer sizes. *)
Lemma cstring_loop_spec addr c t :
  0 <= addr -> Z.of_nat c = CHUNK -> Z.of_nat t = MAX_LEN ->
  forall fuel i, (i + fuel = cstring_fuel)%nat -> (i <= 16)%nat ->
  length (readable m (c * i) addr) = (c * i)%nat ->
  existsb (Z.eqb 0) (readable m (c * i) addr) = false ->
  cstring_loop fuel pid (addr + Z.of_nat (c * i)) (readable m (c * i) addr)
  = Some (cstring_bytes m addr).
Proof.
  intros Haddr Hc Ht fuel. unfold CHUNK, MAX_LEN in *.
  induction fuel as [|fuel IH]; intros i Hi Hi16 Hlen Hnz; unfold cstring_fuel in Hi; [lia|].
  cbn [cstring_loop]. rewrite Hlen. unfold cstring_bytes, MAX_LEN, CHUNK.
  replace (Z.to_nat 4096) with t by lia. cbv zeta.
  destruct (Z.leb_spec 4096 (Z.of_nat (c * i))) as [Hfull|Hroom].
  { replace t with (c * i)%nat by nia. by rewrite Hnz. }
  replace (Z.min (4096 - Z.of_nat (c * i)) 256) with 256 by nia.
  rewrite read_remote_readable by lia. cbv zeta. replace (Z.to_nat 256) with c by lia.
  set (rest := (t - c * S i)%nat).
  assert (readable m t addr = readable m (c * i) addr ++ readable m (c + rest) (addr + Z.of_nat (c * i))) as Hpre.
  { replace t with (c * i + (c + rest))%nat by (unfold rest; nia). rewrite readable_app. by case_decide. }
  pose proof (readable_app m c rest (addr + Z.of_nat (c * i))) as Hchunk.
  pose proof (readable_length m c (addr + Z.of_nat (c * i))) as Hcl.
  rewrite Hpre, existsb_app, Hnz. cbn [orb]. clear Hpre.
  remember (readable m c (addr + Z.of_nat (c * i))) as bytes eqn:Ebytes.
  case_bool_decide as Hnil.
  { subst bytes. destruct c as [|c']; [lia|]. rewrite (readable_nil m c' (S c' + rest) _ Hnil).
    by rewrite app_nil_r. }
  rewrite (proj2 (Z.eqb_neq _ 0)) by (destruct bytes; [done|simpl; lia]).
  destruct (existsb (Z.eqb 0) bytes) eqn:Hz.
  { rewrite Hchunk, until_nul_split by done. case_decide.
    - rewrite existsb_app, Hz. cbn [orb]. by rewrite until_nul_found.
    - by rewrite Hz. }
  destruct (Z.ltb_spec (Z.of_nat (length bytes)) 256) as [Hshort|Hall].
  { rewrite Hchunk, decide_False by lia. by rewrite Hz. }
  assert (length bytes = c) as Hb by lia.
  assert (readable m (c * S i) addr = readable m (c * i) addr ++ bytes) as Hnext.
  { rewrite Nat.mul_succ_r, readable_app, decide_True by done. by rewrite Ebytes. }
  assert (length (readable m c (addr + Z.of_nat (c * i))) = c) as Hb' by congruence.
  pose proof (readable_user P pid m c _ Hm Hb' ltac:(lia)) as Huser.
  rewrite Hb, <- Hnext. unfold u64_max. rewrite Z.min_r by lia.
  replace (addr + Z.of_nat (c * i) + Z.of_nat c) with (addr + Z.of_nat (c * S i)) by lia.
  rewrite IH; [|unfold cstring_fuel; lia|nia| |].
  - unfold cstring_bytes, MAX_LEN. replace (Z.to_nat 4096) with t by lia. cbv zeta.
    replace t with (c * i + (c + rest))%nat by (unfold rest; nia).
    rewrite readable_app, decide_True by done.
    by rewrite existsb_app, Hnz, Hchunk.
  - rewrite Hnext, length_app. lia.
  - by rewrite Hnext, existsb_app, Hnz, Hz.
Qed.

End Memory.


(** A process whose memory holds [bytes] at [base]. *)
Definition memory_at (base : Z) (bytes : list Z) (a : Z) : option Z :=
  if (base <=? a) && (a <? base + Z.of_nat (length bytes)) then bytes !! Z.to_nat (a - base) else None.

Definition proc_of (m : Z -> option Z) : ProcFs := {|
  process_vm := fun _ addr len =>
    if bool_decide (readable m (Z.to_nat len) addr = []) then None else Some (readable m (Z.to_nat len) addr);
  fd_link := fun _ _ => None; maps_text := fun _ => None; fd_entries := fun _ => None; text_file := fun _ => None
|}.

Lemma memory_at_ok base bytes pid :
  base + Z.of_nat (length bytes) <= 2 ^ 47 ->
  byte_memory (proc_of (memory_at base bytes)) pid (memory_at base bytes).
Proof.
  intros Hb. split; [done|]. intros a b. unfold memory_at.
  destruct (Z.leb_spec base a), (Z.ltb_spec a (base + Z.of_nat (length bytes))); simpl; try done. lia.
Qed.

Definition example_memory : Z -> option Z := memory_at 4096 (bytes_of "/dev/nvidiactl" ++ [0; 7; 7]).


(** ** Previews *)

(** Reading a preview back. *)
Definition hex_digit (c : Z) : option Z :=
  if (48 <=? c) && (c <=? 57) then Some (c - 48)
  else if (97 <=? c) && (c <=? 102) then Some (c - 87) else None.

Fixpoint unescape (bs : list Z) : option (list Z) :=
  match bs with
  | [] => Some []
  | c :: bs =>
    if c =? 92 then
      match bs with
      | e :: bs' =>
        if e =? 120 then
          match bs' with
          | h :: l :: bs'' =>
            match hex_digit h, hex_digit l, unescape bs'' with
            | Some h, Some l, Some r => Some (h * 16 + l :: r)
            | _, _, _ => None
            end
          | _ => None
          end
        else
          match match_const e [(92, 92); (34, 34); (110, 10); (114, 13); (116, 9)], unescape bs' with
          | Some b, Some r => Some (b :: r)
          | _, _ => None
          end
      | [] => None
      end
    else if (c <? 32) || (126 <? c) || (c =? 34) then None
    else match unescape bs with Some r => Some (c :: r) | None => None end
  end.

(** The three shapes of an escaped byte. *)
Definition preview_shape (b : Z) : bool :=
  match bytes_of (preview_byte b) with
  | [c] => (c =? b) && negb (c =? 92) && negb (c =? 34) && (32 <=? c) && (c <=? 126)
  | [c; e] => (c =? 92) && negb (e =? 120)
              && bool_decide (match_const e [(92, 92); (34, 34); (110, 10); (114, 13); (116, 9)] = Some b)
  | [c; e; h; l] => (c =? 92) && (e =? 120)
              && match hex_digit h, hex_digit l with Some h, Some l => h * 16 + l =? b | _, _ => false end
  | _ => false
  end.

Lemma preview_shape_ok b : is_byte b -> preview_shape b = true.
Proof.
  intros Hb. assert (forallb preview_shape (seqZ 0 256) = true) as H by (vm_compute; reflexivity).
  rewrite forallb_forall in H. apply H, list_elem_of_In, elem_of_seqZ. exact Hb.
Qed.

Lemma unescape_preview b rest r :
  is_byte b -> unescape rest = Some r -> unescape (bytes_of (preview_byte b) ++ rest) = Some (b :: r).
Proof.
  intros Hb Hr. pose proof (preview_shape_ok b Hb) as H. unfold preview_shape in H.
  destruct (bytes_of (preview_byte b)) as [|c [|e [|h [|l [|]]]]]; try done.
  - apply andb_true_iff in H as [[[[->%Z.eqb_eq H1]%andb_true_iff H2]%andb_true_iff H3]%andb_true_iff H4].
    apply negb_true_iff in H1, H2. cbn [app unescape]. rewrite H1, H2, Hr.
    rewrite (proj2 (Z.ltb_ge b 32)), (proj2 (Z.ltb_ge 126 b)) by lia. done.
  - apply andb_true_iff in H as [[->%Z.eqb_eq H1%negb_true_iff]%andb_true_iff H2%bool_decide_eq_true].
    cbn [app unescape]. rewrite H1, H2, Hr. done.
  - apply andb_true_iff in H as [[->%Z.eqb_eq ->%Z.eqb_eq]%andb_true_iff H].
    cbn [app unescape]. destruct (hex_digit h), (hex_digit l); try done.
    apply Z.eqb_eq in H. rewrite Hr. simpl. by rewrite H.
Qed.

(** The preview of a buffer is printable ASCII without a raw double quote,
    and reads back as the bytes of the buffer. *)
Theorem preview_reads_back bytes :
  Forall is_byte bytes -> unescape (bytes_of (bytes_to_ascii_preview bytes)) = Some bytes.
Proof.
  induction 1 as [|b bytes Hb Hbs IH]; [done|].
  cbn [bytes_to_ascii_preview]. rewrite bytes_of_app. by apply unescape_preview.
Qed.

Lemma preview_reads_back_witness :
  bytes_to_ascii_preview [65; 10; 34; 92; 9; 0] = "A\n\" +:+ DQ +:+ "\\\t\x00"
  /\ unescape (bytes_of (bytes_to_ascii_preview [65; 10; 34; 92; 9; 0])) = Some [65; 10; 34; 92; 9; 0].
Proof.
  split; [reflexivity|]. apply preview_reads_back. apply (bool_decide_unpack _). vm_compute. exact I.
Defined.

(** ** Wait status *)

(** The kernel's encodings. *)
Definition exit_status (code : Z) : Z := code * 256.
Definition signal_status (sig : Z) (core : bool) : Z := sig + (if core then 128 else 0).
Definition stop_status (event sig : Z) : Z := event * 65536 + sig * 256 + 0x7f.

Lemma land_mod z k n : 0 <= n -> k = Z.ones n -> Z.land z k = z mod 2 ^ n.
Proof. intros ? ->. by apply Z.land_ones. Qed.

(** A wait status is taken apart the way the kernel put it together: each
    of exit, death by signal and stop is recognised as that and as nothing
    else, and a stop gives back its signal and its ptrace event. *)
Theorem wait_status_decodes code sig event core :
  0 <= code < 256 -> 0 < sig < 127 -> 0 <= event < 65536 ->
  (wifexited (exit_status code), wifsignaled (exit_status code), wifstopped (exit_status code)) = (true, false, false)
  /\ (wifexited (signal_status sig core), wifsignaled (signal_status sig core), wifstopped (signal_status sig core))
     = (false, true, false)
  /\ (forall s, 0 <= s < 256 ->
      (wifexited (stop_status event s), wifsignaled (stop_status event s), wifstopped (stop_status event s))
      = (false, false, true)
      /\ wstopsig (stop_status event s) = s /\ ptrace_event (stop_status event s) = event).
Proof.
  intros Hc Hs He. unfold wifexited, wifsignaled, wifstopped, wstopsig, ptrace_event,
    exit_status, signal_status, stop_status. cbv zeta.
  assert (forall z, Z.land z 0x7f = z mod 128 /\ Z.land z 0xff = z mod 256 /\ Z.land z 0xffff = z mod 65536) as Hl.
  { intros z. repeat split; [by apply (land_mod z _ 7)|by apply (land_mod z _ 8)|by apply (land_mod z _ 16)]. }
  assert (forall z, Z.shiftr z 8 = z / 256 /\ Z.shiftr z 16 = z / 65536) as Hsh.
  { intros z. rewrite !Z.shiftr_div_pow2 by lia. done. }
  repeat setoid_rewrite (proj1 (Hl _)). repeat setoid_rewrite (proj1 (proj2 (Hl _))).
  repeat setoid_rewrite (proj2 (proj2 (Hl _))).
  repeat setoid_rewrite (proj1 (Hsh _)). repeat setoid_rewrite (proj2 (Hsh _)).
  split; [|split; [|intros s Hs']; [|split; [|split]]].
  - replace ((code * 256) mod 128) with 0 by (Z.to_euclidean_division_equations; lia).
    replace ((code * 256) mod 256) with 0 by (Z.to_euclidean_division_equations; lia). done.
  - replace ((sig + (if core then 128 else 0)) mod 128) with sig by (destruct core; Z.to_euclidean_division_equations; lia).
    replace ((sig + (if core then 128 else 0)) mod 256) with (sig + (if core then 128 else 0))
      by (destruct core; Z.to_euclidean_division_equations; lia).
    rewrite !(proj2 (Z.eqb_neq _ _)) by (destruct core; lia). done.
  - replace ((event * 65536 + s * 256 + 127) mod 128) with 127 by (Z.to_euclidean_division_equations; lia).
    replace ((event * 65536 + s * 256 + 127) mod 256) with 127 by (Z.to_euclidean_division_equations; lia). done.
  - Z.to_euclidean_division_equations; lia.
  - Z.to_euclidean_division_equations; lia.
Qed.

Lemma wait_status_decodes_witness :
  wifstopped (stop_status 4 5) = true /\ wstopsig (stop_status 4 5) = 5 /\ ptrace_event (stop_status 4 5) = 4.
Proof.
  destruct (wait_status_decodes 1 9 4 true ltac:(lia) ltac:(lia) ltac:(lia)) as (_ & _ & H).
  destruct (H 5 ltac:(lia)) as (H1 & H2 & H3). split; [exact (f_equal snd H1)|]. by split.
Defined.

(** ** Names of capture files *)

Definition safe_char (c : ascii) : bool :=
  let b := byte_of c in is_ascii_alphanumeric b || (b =? 95) || (b =? 45) || (b =? 46).

Lemma sanitize_char_safe ch : 0 <= sanitize_char ch < 128 /\ safe_char (ascii_of_byte (sanitize_char ch)) = true.
Proof.
  assert (0 <= sanitize_char ch < 128 /\ (is_ascii_alphanumeric (sanitize_char ch)
    || (sanitize_char ch =? 95) || (sanitize_char ch =? 45) || (sanitize_char ch =? 46)) = true) as [Hr Hs].
  { unfold sanitize_char. destruct (is_ascii_alphanumeric ch || (ch =? 95) || (ch =? 45) || (ch =? 46)) eqn:E; [|done].
    split; [|done]. unfold is_ascii_alphanumeric in E. lia. }
  split; [done|]. unfold safe_char. cbv zeta. rewrite byte_of_ascii_of; [done|]. unfold is_byte. lia.
Qed.

Lemma sanitize_safe input : str_forall safe_char (sanitize_file_component input) = true.
Proof.
  unfold sanitize_file_component, of_chars.
  rewrite utf8_encode_ascii by (apply Forall_fmap, Forall_true; intros c; apply sanitize_char_safe).
  induction (chars input) as [|c cs IH]; [done|].
  change (safe_char (ascii_of_byte (sanitize_char c)) && str_forall safe_char (str_of_bytes (sanitize_char <$> cs)) = true).
  rewrite IH, andb_true_r. apply sanitize_char_safe.
Qed.

Lemma sanitize_scope_safe input : str_forall safe_char (sanitize_scope_label_component input) = true.
Proof.
  unfold sanitize_scope_label_component. cbv zeta. destruct (is_empty _); [done|]. apply sanitize_safe.
Qed.

Lemma digits_safe s : str_forall is_digit_char s = true -> str_forall safe_char s = true.
Proof.
  apply str_forall_impl. intros c. unfold is_digit_char, safe_char, is_ascii_alphanumeric. cbv zeta. lia.
Qed.

Lemma fmt_i_safe n : str_forall safe_char (fmt_i n) = true.
Proof.
  unfold fmt_i. destruct (Z.ltb_spec n 0).
  - rewrite str_forall_app. simpl. apply digits_safe, fmt_radix_digits; lia.
  - apply digits_safe, fmt_radix_digits; lia.
Qed.

Lemma fmt_u_safe n : 0 <= n -> str_forall safe_char (fmt_u n) = true.
Proof. intros. apply digits_safe, fmt_radix_digits; lia. Qed.

(** A component without dots ends at the first dot. *)
Lemma split_once_dot a b :
  str_forall (fun c => negb (Ascii.eqb c "."%char)) a = true ->
  split_once "."%char (a +:+ String "."%char b) = Some (a, b).
Proof.
  induction a as [|c a IH].
  - intros _. reflexivity.
  - intros [Hc Ha]%andb_true_iff. apply negb_true_iff in Hc.
    change (split_once "."%char (String c (a +:+ String "."%char b)) = Some (String c a, b)).
    cbn [split_once]. by rewrite Hc, IH.
Qed.

Lemma digit_not_dot s : str_forall is_digit_char s = true -> str_forall (fun c => negb (Ascii.eqb c "."%char)) s = true.
Proof.
  apply str_forall_impl. intros c H. apply negb_true_iff. by destruct (Ascii.eqb_spec c "."%char) as [->|].
Qed.

Lemma fmt_i_not_dot n : str_forall (fun c => negb (Ascii.eqb c "."%char)) (fmt_i n) = true.
Proof.
  unfold fmt_i. destruct (Z.ltb_spec n 0).
  - rewrite str_forall_app. apply digit_not_dot, fmt_radix_digits; lia.
  - apply digit_not_dot, fmt_radix_digits; lia.
Qed.

Lemma fmt_i_inj n m : fmt_i n = fmt_i m -> n = m.
Proof.
  assert (forall k s, 0 <= k -> fmt_radix 10 k = "-" +:+ s -> False) as Hneg.
  { intros k s Hk E. pose proof (fmt_radix_digits 10 k ltac:(lia) Hk) as H. rewrite E in H. by vm_compute in H. }
  unfold fmt_i. destruct (Z.ltb_spec n 0), (Z.ltb_spec m 0); intros E.
  - apply str_app_inj_l in E. apply fmt_radix_inj in E; lia.
  - symmetry in E. by apply Hneg in E.
  - by apply Hneg in E.
  - apply fmt_radix_inj in E; lia.
Qed.

Lemma dot_inj a a' b b' :
  str_forall (fun c => negb (Ascii.eqb c "."%char)) a = true ->
  str_forall (fun c => negb (Ascii.eqb c "."%char)) a' = true ->
  a +:+ String "."%char b = a' +:+ String "."%char b' -> a = a' /\ b = b'.
Proof.
  intros Ha Ha' E. apply (f_equal (split_once "."%char)) in E.
  rewrite !split_once_dot in E by done. by injection E.
Qed.

(** A capture file is named after the output path, in the same directory
    (no separator is added, whatever the system call and the scope are called),
    and two captures of different threads or times have different files. *)
Theorem fgraph_output_path_safe base tid syscall ts scope :
  0 <= ts ->
  (exists suffix, fgraph_output_path base tid syscall ts scope = base +:+ suffix
     /\ str_forall safe_char suffix = true)
  /\ forall tid' syscall' ts' scope', 0 <= ts' ->
     fgraph_output_path base tid' syscall' ts' scope' = fgraph_output_path base tid syscall ts scope ->
     tid' = tid /\ ts' = ts.
Proof.
  intros Hts. split.
  - eexists. split; [reflexivity|].
    rewrite !str_forall_app, fmt_i_safe, fmt_u_safe, sanitize_safe, sanitize_scope_safe by done. reflexivity.
  - intros tid' syscall' ts' scope' Hts' E. unfold fgraph_output_path in E.
    apply str_app_inj_l in E. apply str_app_inj_l in E.
    destruct (dot_inj _ _ _ _ (fmt_i_not_dot tid') (fmt_i_not_dot tid) E) as [Et%fmt_i_inj E1].
    split; [done|].
    change ("ts-" +:+ fmt_u ts' +:+ "." +:+ sanitize_scope_label_component scope' +:+ ".sys-"
              +:+ sanitize_file_component syscall' +:+ ".log"
            = "ts-" +:+ fmt_u ts +:+ "." +:+ sanitize_scope_label_component scope +:+ ".sys-"
              +:+ sanitize_file_component syscall +:+ ".log") in E1.
    apply str_app_inj_l in E1.
    destruct (dot_inj _ _ _ _ (digit_not_dot _ (fmt_radix_digits 10 ts' ltac:(lia) Hts'))
      (digit_not_dot _ (fmt_radix_digits 10 ts ltac:(lia) Hts)) E1) as [E2 _].
    by apply fmt_radix_inj in E2.
Qed.

Lemma fgraph_output_path_safe_witness :
  fgraph_output_path "./cudatrace.output" 42 "ioctl" 123456 "cudaMalloc2"
    = "./cudatrace.output.fgraph.tid-42.ts-123456.cudaMalloc2.sys-ioctl.log"
  /\ (exists suffix, fgraph_output_path "out" 42 "a/b" 7 "../x" = "out" +:+ suffix
     /\ str_forall safe_char suffix = true).
Proof. split; [vm_compute; reflexivity|]. by apply fgraph_output_path_safe. Defined.
