(* ===== verification/FdTable.v ===== *)
(** * The descriptors of the traced process: [src/src/hook/ptrace.rs]

    The tracer follows the system calls that open, close and duplicate
    descriptors: [fd_paths] gives their paths, [hidden_fds] are those of the
    tracer's own files, whose calls are not shown. *)
From S2P Require Import Prelude RustStr Config Layout Window Proc.

Abbreviation path_map := (gmap Z string).
Abbreviation fd_set := (gset Z).

Definition is_kernel_error (ret_raw : Z) : bool := (-4095 <=? ret_raw) && (ret_raw <=? -1).
Definition normalize_ret (ret_raw : Z) : Z := if is_kernel_error ret_raw then -1 else ret_raw.

(** [Path::new(p).file_name()]: the last component, unless it is [..]; empty
    and [.] components do not count. *)
Definition path_components (p : string) : list string :=
  List.filter (fun c => negb (is_empty c) && negb (String.eqb c ".")) (split_char "/"%char p).
Definition file_name (p : string) : option string :=
  match list.last (path_components p) with
  | Some c => if String.eqb c ".." then None else Some c
  | None => None
  end.

Section FdTable.
Context (cfg : Config).

Definition DELETED : string := " (deleted)".

Definition is_cudatrace_output_path (path : string) : bool :=
  let trimmed := trim_end_matches DELETED path in
  let base := Config.path cfg in
  let exact_prefix := base +:+ ".tid-" in
  if contains exact_prefix trimmed then true
  else match file_name base with
       | None => false
       | Some base_name => contains (base_name +:+ ".tid-") trimmed
       end.

Definition is_cudatrace_output_open (state : SyscallState) : bool :=
  match ss_path_hint state with
  | None => false
  | Some path => is_cudatrace_output_path path
  end.

Definition duplicate_fd (fd_paths : path_map) (from to : Z) : path_map :=
  match fd_paths !! from with
  | Some path => <[to := path]> fd_paths
  | None => delete to fd_paths
  end.

Definition is_open_nr (nr : Z) : bool := (nr =? SYS_OPEN) || (nr =? SYS_OPENAT).
Definition is_dup23_nr (nr : Z) : bool := (nr =? SYS_DUP2) || (nr =? SYS_DUP3).

Definition update_fd_paths (fd_paths : path_map) (state : SyscallState) (ret_norm : Z) : path_map :=
  if is_open_nr (ss_nr state) then
    if 0 <=? ret_norm then
      let fd := as_i32 ret_norm in
      match ss_path_hint state with
      | Some path => <[fd := path]> fd_paths
      | None => fd_paths
      end
    else fd_paths
  else if ss_nr state =? SYS_CLOSE then
    if ret_norm =? 0 then delete (arg32 state 0) fd_paths else fd_paths
  else if ss_nr state =? SYS_DUP then
    if 0 <=? ret_norm then duplicate_fd fd_paths (arg32 state 0) (as_i32 ret_norm) else fd_paths
  else if is_dup23_nr (ss_nr state) then
    if 0 <=? ret_norm then duplicate_fd fd_paths (arg32 state 0) (as_i32 ret_norm) else fd_paths
  else fd_paths.

Definition update_hidden_fds (state : SyscallState) (ret_norm : Z) (hidden_fds : fd_set) : fd_set :=
  if is_open_nr (ss_nr state) then
    if (0 <=? ret_norm) && is_cudatrace_output_open state
    then {[ as_i32 ret_norm ]} ∪ hidden_fds else hidden_fds
  else if ss_nr state =? SYS_CLOSE then
    if ret_norm =? 0 then hidden_fds ∖ {[ arg32 state 0 ]} else hidden_fds
  else if ss_nr state =? SYS_DUP then
    if (0 <=? ret_norm) && bool_decide (arg32 state 0 ∈ hidden_fds)
    then {[ as_i32 ret_norm ]} ∪ hidden_fds else hidden_fds
  else if is_dup23_nr (ss_nr state) then
    if 0 <=? ret_norm then
      let oldfd := arg32 state 0 in
      let newfd := as_i32 ret_norm in
      if bool_decide (oldfd ∈ hidden_fds) then {[ newfd ]} ∪ hidden_fds
      else hidden_fds ∖ {[ newfd ]}
    else hidden_fds
  else hidden_fds.

Definition fd_arg0_nrs : list Z :=
  [SYS_READ; SYS_WRITE; SYS_CLOSE; SYS_IOCTL; SYS_FSTAT; SYS_LSEEK; SYS_PREAD64; SYS_PWRITE64;
   SYS_DUP; SYS_DUP2; SYS_DUP3].

(** The descriptor argument by which a call may be hidden. *)
Definition hidden_fd_arg (state : SyscallState) : option Z :=
  if existsb (Z.eqb (ss_nr state)) fd_arg0_nrs then Some (arg32 state 0)
  else if ss_nr state =? SYS_MMAP then Some (arg32 state 4)
  else None.

Definition is_hidden_fd_syscall (state : SyscallState) (hidden_fds : fd_set) : bool :=
  match hidden_fd_arg state with Some f => bool_decide (f ∈ hidden_fds) | None => false end.

(** [seed_fd_state_from_proc]: one entry of the directory. *)
Definition seed_entry (acc : path_map * fd_set) (entry : string * option string) : path_map * fd_set :=
  let '(fd_paths, hidden_fds) := acc in
  let '(fd_raw, link) := entry in
  match parse_int 32 fd_raw, link with
  | Some fd, Some path =>
    (<[fd := path]> fd_paths,
     if is_cudatrace_output_path path then {[ fd ]} ∪ hidden_fds else hidden_fds)
  | _, _ => acc
  end.

Definition seed_fd_state_from_proc {P : ProcFs} (pid : Z) (fd_paths : path_map) (hidden_fds : fd_set)
    : path_map * fd_set :=
  match fd_entries pid with
  | None => (fd_paths, hidden_fds)
  | Some entries => foldl seed_entry (fd_paths, hidden_fds) entries
  end.

(** ** The kernel's table *)

(** An open file: its path and whether it belongs to the tracer (an output
    file or one of its pipes). *)
Record OpenFile := { of_path : string; of_own : bool }.
Abbreviation open_files := (gmap Z OpenFile).

Definition fd_ok (fd : Z) : Prop := 0 <= fd < 2 ^ 31.

(** What the kernel does on the calls the tracer follows; [ret] is the raw
    result.  Other calls leave the table alone. *)
Inductive kernel_step : open_files -> SyscallState -> Z -> open_files -> Prop :=
| k_open K s fd path :
    is_open_nr (ss_nr s) = true -> ss_path_hint s = Some path -> fd_ok fd -> K !! fd = None ->
    kernel_step K s fd (<[fd := {| of_path := path; of_own := is_cudatrace_output_path path |}]> K)
| k_close K s f :
    ss_nr s = SYS_CLOSE -> K !! arg32 s 0 = Some f -> kernel_step K s 0 (delete (arg32 s 0) K)
| k_dup K s f fd :
    ss_nr s = SYS_DUP -> K !! arg32 s 0 = Some f -> fd_ok fd -> K !! fd = None ->
    kernel_step K s fd (<[fd := f]> K)
| k_dup23 K s f fd :
    is_dup23_nr (ss_nr s) = true -> K !! arg32 s 0 = Some f -> fd_ok fd ->
    kernel_step K s fd (<[fd := f]> K)
| k_error K s ret : -4095 <= ret <= -1 -> kernel_step K s ret K
| k_other K s ret :
    is_open_nr (ss_nr s) = false -> ss_nr s <> SYS_CLOSE -> ss_nr s <> SYS_DUP ->
    is_dup23_nr (ss_nr s) = false -> kernel_step K s ret K.

Inductive kernel_steps : open_files -> list (SyscallState * Z) -> open_files -> Prop :=
| ks_nil K : kernel_steps K [] K
| ks_cons K s ret K' calls K'' :
    kernel_step K s ret K' -> kernel_steps K' calls K'' -> kernel_steps K ((s, ret) :: calls) K''.

(** What the tracer does at the exit of each call. *)
Definition track_call (acc : path_map * fd_set) (call : SyscallState * Z) : path_map * fd_set :=
  let '(fd_paths, hidden_fds) := acc in
  let '(state, ret_raw) := call in
  let ret_norm := normalize_ret ret_raw in
  (update_fd_paths fd_paths state ret_norm, update_hidden_fds state ret_norm hidden_fds).

(** The tracer's tables are an abstraction of the kernel's. *)
Record tracks_files (K : open_files) (acc : path_map * fd_set) : Prop := {
  tf_paths : acc.1 = of_path <$> K;
  tf_hidden : forall fd, fd ∈ acc.2 <-> exists f, K !! fd = Some f /\ of_own f = true
}.

Lemma normalize_fd fd : fd_ok fd -> normalize_ret fd = fd /\ (0 <=? fd) = true /\ as_i32 fd = fd.
Proof.
  unfold fd_ok, normalize_ret, is_kernel_error. intros H.
  rewrite (proj2 (Z.leb_gt fd (-1))), andb_false_r by lia.
  split; [done|]. split; [lia|]. apply swrap_small; [lia|]. unfold in_i. lia.
Qed.

Lemma normalize_error ret : -4095 <= ret <= -1 -> normalize_ret ret = -1.
Proof.
  intros H. unfold normalize_ret, is_kernel_error.
  by rewrite (proj2 (Z.leb_le (-4095) ret)), (proj2 (Z.leb_le ret (-1))) by lia.
Qed.

(** A failed call changes nothing. *)
Lemma update_failed T H s :
  update_fd_paths T s (-1) = T /\ update_hidden_fds s (-1) H = H.
Proof.
  unfold update_fd_paths, update_hidden_fds.
  by destruct (is_open_nr (ss_nr s)), (ss_nr s =? SYS_CLOSE), (ss_nr s =? SYS_DUP), (is_dup23_nr (ss_nr s)).
Qed.

Lemma fmap_alter_fd (K : open_files) fd (f : OpenFile) :
  of_path <$> <[fd := f]> K = <[fd := of_path f]> (of_path <$> K).
Proof. apply fmap_insert. Qed.

Lemma duplicate_fd_tracks (K : open_files) old new f :
  K !! old = Some f -> duplicate_fd (of_path <$> K) old new = of_path <$> <[new := f]> K.
Proof. intros E. unfold duplicate_fd. by rewrite lookup_fmap, E, fmap_insert. Qed.

Lemma hidden_insert (K : open_files) (H : fd_set) fd f :
  (forall k, k ∈ H <-> exists f, K !! k = Some f /\ of_own f = true) ->
  forall k, k ∈ (if of_own f then {[ fd ]} ∪ H else H ∖ {[ fd ]})
    <-> exists g, <[fd := f]> K !! k = Some g /\ of_own g = true.
Proof.
  intros HH k. destruct (decide (k = fd)) as [->|Hne].
  - rewrite lookup_insert_eq. destruct (of_own f) eqn:E.
    + split; [by eauto|]. intros _. by apply elem_of_union_l, elem_of_singleton.
    + split; [|intros (g & [= <-] & Hg); congruence]. intros [_ Hn]%elem_of_difference.
      destruct Hn. by apply elem_of_singleton.
  - rewrite lookup_insert_ne by done. rewrite <- HH. destruct (of_own f); set_solver.
Qed.

Lemma kernel_step_tracked K s ret K' acc :
  kernel_step K s ret K' -> tracks_files K acc -> tracks_files K' (track_call acc (s, ret)).
Proof.
  intros Hstep [HT HH]. destruct acc as [T H]. simpl in HT, HH. subst T. unfold track_call.
  destruct Hstep as [K s fd path Hnr Hp Hfd Hfree|K s f Hnr Hf|K s f fd Hnr Hf Hfd Hfree|K s f fd Hnr Hf Hfd
    |K s ret Herr|K s ret H1 H2 H3 H4].
  - destruct (normalize_fd fd Hfd) as (-> & Hpos & Hi).
    unfold update_fd_paths, update_hidden_fds, is_cudatrace_output_open. rewrite Hnr, Hp, Hpos, Hi.
    split; simpl; [by rewrite fmap_insert|].
    intros k. rewrite <- (hidden_insert K H fd _ HH). simpl.
    destruct (is_cudatrace_output_path path); [done|]. assert (fd ∉ H); [|set_solver].
    rewrite HH. intros (f & Hf & _). congruence.
  - unfold update_fd_paths, update_hidden_fds. rewrite Hnr. cbn.
    split; simpl; [by rewrite fmap_delete|].
    intros k. rewrite elem_of_difference, elem_of_singleton, HH.
    destruct (decide (k = arg32 s 0)) as [->|Hne]; [rewrite lookup_delete_eq; naive_solver|].
    rewrite lookup_delete_ne by done. naive_solver.
  - destruct (normalize_fd fd Hfd) as (-> & Hpos & Hi).
    unfold update_fd_paths, update_hidden_fds. rewrite Hnr, Hpos, Hi. cbn -[duplicate_fd].
    split; simpl; [by apply duplicate_fd_tracks|].
    intros k. rewrite <- (hidden_insert K H fd f HH).
    assert (fd ∉ H) as Hfd'; [rewrite HH; intros (g & Hg & _); congruence|].
    assert (arg32 s 0 ∈ H <-> of_own f = true) as Hold by (rewrite HH; naive_solver).
    case_bool_decide as Hb; [by rewrite (proj1 Hold Hb)|].
    destruct (of_own f); [naive_solver|]. set_solver.
  - destruct (normalize_fd fd Hfd) as (-> & Hpos & Hi).
    assert (is_open_nr (ss_nr s) = false /\ (ss_nr s =? SYS_CLOSE) = false /\ (ss_nr s =? SYS_DUP) = false) as (E1 & E2 & E3).
    { unfold is_dup23_nr in Hnr. apply orb_true_iff in Hnr as [->%Z.eqb_eq | ->%Z.eqb_eq]; by repeat split. }
    unfold update_fd_paths, update_hidden_fds. rewrite E1, E2, E3, Hnr, Hpos, Hi.
    split; simpl; [by apply duplicate_fd_tracks|].
    intros k. rewrite <- (hidden_insert K H fd f HH).
    assert (arg32 s 0 ∈ H <-> of_own f = true) as Hold by (rewrite HH; naive_solver).
    case_bool_decide as Hb; [by rewrite (proj1 Hold Hb)|].
    destruct (of_own f); [naive_solver|]. done.
  - rewrite (normalize_error ret Herr). destruct (update_failed (of_path <$> K) H s) as [-> ->]. by split.
  - unfold update_fd_paths, update_hidden_fds.
    rewrite H1, (proj2 (Z.eqb_neq _ _) H2), (proj2 (Z.eqb_neq _ _) H3), H4. by split.
Qed.

Lemma kernel_steps_tracked K calls K' acc :
  kernel_steps K calls K' -> tracks_files K acc -> tracks_files K' (foldl track_call acc calls).
Proof.
  intros Hs. revert acc. induction Hs as [|K s ret K' calls K'' H Hs IH]; intros acc Ht; simpl; [done|].
  apply IH. by apply (kernel_step_tracked K).
Qed.


End FdTable.

(** A process that opens a GPU device and, in the library, its trace file, and
    duplicates both. *)
Definition call_of (nr : Z) (args : list Z) (hint : option string) : SyscallState :=
  {| ss_active := true; ss_internal := false; ss_nr := nr; ss_args := args; ss_path_hint := hint;
     ss_started_ts := 0; ss_started_at := 0; ss_started_ts_us := 0;
     ss_fgraph_waiting := false; ss_fgraph_capturing := false |}.

Definition default_cfg : Config := from_lookup (fun _ => None).

Definition example_calls : list (SyscallState * Z) :=
  [(call_of SYS_OPENAT [0; 0; 0; 0; 0; 0] (Some "/dev/nvidiactl"), 5);
   (call_of SYS_OPEN [0; 0; 0; 0; 0; 0] (Some "./cudatrace.output.tid-7"), 6);
   (call_of SYS_DUP2 [6; 9; 0; 0; 0; 0] None, 9);
   (call_of SYS_CLOSE [44; 0; 0; 0; 0; 0] None, -9);
   (call_of SYS_CLOSE [5; 0; 0; 0; 0; 0] None, 0)].


(** ** The names of the output files are recognised *)

Lemma contains_app p a b : contains p (a +:+ p +:+ b) = true.
Proof.
  induction a as [|c a IH].
  - change (contains p (p +:+ b) = true). pose proof (starts_with_app p b) as H.
    destruct (p +:+ b) eqn:E; cbn [contains]; by rewrite H.
  - change (contains p (String c (a +:+ p +:+ b)) = true). cbn [contains]. by rewrite IH, orb_true_r.
Qed.

Lemma rev_str_acc_app s acc : rev_str_acc s acc = rev_str s +:+ acc.
Proof.
  unfold rev_str. revert acc. induction s as [|c s IH]; intros acc; [done|].
  cbn [rev_str_acc]. rewrite (IH (String c acc)), (IH (String c EmptyString)), str_app_assoc. done.
Qed.

Lemma rev_str_app s t : rev_str (s +:+ t) = rev_str t +:+ rev_str s.
Proof.
  induction s as [|c s IH]; [by rewrite str_app_nil_r|].
  change (rev_str_acc (s +:+ t) (String c EmptyString) = rev_str t +:+ rev_str_acc s (String c EmptyString)).
  by rewrite !rev_str_acc_app, IH, str_app_assoc.
Qed.

Lemma rev_str_involutive s : rev_str (rev_str s) = s.
Proof.
  induction s as [|c s IH]; [done|].
  change (rev_str (rev_str_acc s (String c EmptyString)) = String c s).
  by rewrite rev_str_acc_app, rev_str_app, IH.
Qed.

(** A string that ends in a character other than the pattern's last is not cut. *)
Lemma trim_end_kept p q s c d :
  c <> d -> trim_end_matches (p +:+ str1 c) (q +:+ str1 d) = q +:+ str1 d
  /\ (s = q +:+ str1 d -> trim_end_matches (p +:+ str1 c) (s +:+ p +:+ str1 c) = s).
Proof.
  intros Hcd. unfold trim_end_matches. rewrite !rev_str_app.
  assert (forall fuel, strip_prefixes fuel (rev_str (str1 c) +:+ rev_str p) (rev_str (str1 d) +:+ rev_str q)
    = rev_str (str1 d) +:+ rev_str q) as Hkeep.
  { intros [|fuel]; [done|]. change (rev_str (str1 c) +:+ rev_str p) with (String c (rev_str p)).
    change (rev_str (str1 d) +:+ rev_str q) with (String d (rev_str q)). cbn [strip_prefixes strip_prefix].
    destruct (Ascii.eqb_spec c d); [done|]. done. }
  split; [rewrite Hkeep, <- rev_str_app; apply rev_str_involutive|].
  intros ->. rewrite !rev_str_app.
  set (pat := rev_str (str1 c) +:+ rev_str p).
  destruct (String.length ((q +:+ str1 d) +:+ p +:+ str1 c)) as [|fuel] eqn:El.
  { rewrite !str_length_app in El. simpl in El. lia. }
  cbn [strip_prefixes].
  assert (strip_prefix pat (pat +:+ rev_str (str1 d) +:+ rev_str q) = Some (rev_str (str1 d) +:+ rev_str q)) as ->
    by by apply strip_prefix_Some.
  unfold pat. rewrite Hkeep, <- rev_str_app. apply rev_str_involutive.
Qed.

(** The name of a thread's trace file: [thread_output_path] and [fd_for_tid]. *)
Definition thread_output_path (base_path : string) (tid : Z) : string := base_path +:+ ".tid-" +:+ fmt_i tid.

Lemma last_digit s : s <> EmptyString -> str_forall is_digit_char s = true ->
  exists q d, s = q +:+ str1 d /\ is_digit_char d = true.
Proof.
  intros Hne H. assert (exists q d, s = q +:+ str1 d) as (q & d & ->).
  { clear H. induction s as [|c s IH]; [done|]. destruct s as [|c' s].
    - by exists EmptyString, c.
    - destruct IH as (q & d & E); [done|]. exists (String c q), d. rewrite E. done. }
  exists q, d. rewrite str_forall_app in H. apply andb_true_iff in H as [_ H]. simpl in H.
  by rewrite andb_true_r in H.
Qed.

(** The trace file of every thread is recognised as the tracer's own, under
    whatever directory the process sees it, also after it was deleted. *)
Theorem thread_output_recognised cfg dir tid :
  let file := dir +:+ thread_output_path (Config.path cfg) tid in
  is_cudatrace_output_path cfg file = true /\ is_cudatrace_output_path cfg (file +:+ DELETED) = true.
Proof.
  intros file.
  assert (exists q d, file = q +:+ str1 d /\ is_digit_char d = true) as (q & d & Ef & Hd).
  { unfold file, thread_output_path, fmt_i.
    destruct (Z.ltb_spec tid 0);
      [destruct (last_digit (fmt_radix 10 (- tid))) as (q & d & -> & Hd)
      |destruct (last_digit (fmt_radix 10 tid)) as (q & d & -> & Hd)];
      try apply fmt_radix_nonempty; try (apply fmt_radix_digits; lia).
    - exists (dir +:+ Config.path cfg +:+ ".tid-" +:+ "-" +:+ q), d. by rewrite !str_app_assoc.
    - exists (dir +:+ Config.path cfg +:+ ".tid-" +:+ q), d. by rewrite !str_app_assoc. }
  assert (")"%char <> d) as Hcd by (intros <-; by vm_compute in Hd).
  destruct (trim_end_kept " (deleted" q file ")"%char d Hcd) as [H1 H2].
  assert (contains (Config.path cfg +:+ ".tid-") file = true) as Hc.
  { unfold file, thread_output_path. rewrite <- (str_app_assoc (Config.path cfg)). apply contains_app. }
  unfold is_cudatrace_output_path. cbv zeta. change DELETED with (" (deleted" +:+ str1 ")"%char).
  rewrite <- Ef in H1. split; [by rewrite H1, Hc|]. by rewrite (H2 Ef), Hc.
Qed.
