(* ===== verification/SyscallFmt.v ===== *)
(** * The line of a system call: [format_syscall_line] and the functions it
    uses, [src/src/hook/ptrace.rs]

    One definition per group of arms of the [match] on the system call; [u_at]
    and [x_at] are the decimal and hexadecimal formats of an argument. *)
From S2P Require Import Prelude RustStr Config Layout Json Ioctl Uvm UvmFacts Summary Window Graph Flags Proc FdTable.

Definition format_fd_suffix (path : option string) : string :=
  match path with Some p => "(" +:+ p +:+ ")" | None => EmptyString end.

Definition format_open_return (ret_norm : Z) (path : option string) : string :=
  if ret_norm <? 0 then fmt_i ret_norm
  else match path with
       | None => fmt_i ret_norm
       | Some path =>
         if starts_with "<" path then fmt_i ret_norm
         else fmt_i ret_norm +:+ "(" +:+ path +:+ ")"
       end.

Definition indent_ptrace_line (cfg : Config) (line : string) (depth : nat) : string :=
  if negb (mask_cudart (trace cfg) || mask_driver (trace cfg)) || Nat.eqb depth 0 then line
  else repeat_str TABS depth +:+ line.

Definition quoted (s : string) : string := DQ +:+ s +:+ DQ.

Section SyscallFmt.
Context {P : ProcFs} {R : RmDecoder} (cfg : Config) (pid : Z).
Context (state : SyscallState) (ret_raw : Z) (elapsed_value : Z) (elapsed_unit : string).
Context (fd_paths : path_map) (hidden_fds : fd_set).

#[local] Abbreviation ret_norm := (normalize_ret ret_raw).

(** [) = {ret}  /* {elapsed_value} {elapsed_unit} */] *)
Definition end_text (ret : string) : string :=
  ") = " +:+ ret +:+ "  /* " +:+ fmt_u elapsed_value +:+ " " +:+ elapsed_unit +:+ " */".

Definition u_at (i : nat) : string := fmt_u (arg state i).
Definition x_at (i : nat) : string := fmt_0x (arg state i).
Definition i32_at (i : nat) : string := fmt_i (arg32 state i).
Definition i64_at (i : nat) : string := fmt_i (as_i64 (arg state i)).

Definition hint_text : string := default "<unreadable>" (ss_path_hint state).

(** The suffix [format_fd_suffix(fd_paths.get(&fd))]. *)
Definition suffix_of (fd : Z) : string := format_fd_suffix (fd_paths !! fd).

(** [path_hint.or(fd_paths.get(&fd)).or(fallback_path)] *)
Definition live_suffix_of (fd : Z) : string :=
  let fallback_path := match fd_paths !! fd with Some _ => None | None => read_live_fd_path pid fd end in
  format_fd_suffix
    (match ss_path_hint state with
     | Some p => Some p
     | None => match fd_paths !! fd with Some p => Some p | None => fallback_path end
     end).

(** [fd={fd}] or [fd={fd}{suffix} ] *)
Definition fd_text (i : nat) : string :=
  let suffix := suffix_of (arg32 state i) in
  if is_empty suffix then "fd=" +:+ i32_at i else "fd=" +:+ i32_at i +:+ suffix +:+ " ".

Definition open_line : string :=
  let flags := arg state 1 in
  let ret_text := format_open_return ret_norm (ss_path_hint state) in
  if negb (Z.land flags O_CREAT_MASK =? 0) then
    "open(path=" +:+ quoted hint_text +:+ ", flags=" +:+ format_open_flags flags
      +:+ ", mode=0" +:+ fmt_o (arg state 2) +:+ end_text ret_text
  else
    "open(path=" +:+ quoted hint_text +:+ ", flags=" +:+ format_open_flags flags +:+ end_text ret_text.

Definition openat_line : string :=
  let flags := arg state 2 in
  let ret_text := format_open_return ret_norm (ss_path_hint state) in
  if negb (Z.land flags O_CREAT_MASK =? 0) then
    "openat(dirfd=" +:+ format_dirfd (arg32 state 0) +:+ ", path=" +:+ quoted hint_text
      +:+ ", flags=" +:+ format_open_flags flags +:+ ", mode=0" +:+ fmt_o (arg state 3) +:+ end_text ret_text
  else
    "openat(dirfd=" +:+ format_dirfd (arg32 state 0) +:+ ", path=" +:+ quoted hint_text
      +:+ ", flags=" +:+ format_open_flags flags +:+ end_text ret_text.

Definition close_line : string :=
  "close(fd=" +:+ i32_at 0 +:+ live_suffix_of (arg32 state 0) +:+ end_text (fmt_i ret_norm).

Definition dup_line : string :=
  "dup(oldfd=" +:+ i32_at 0 +:+ suffix_of (arg32 state 0) +:+ end_text (fmt_i ret_norm).
Definition dup2_line : string :=
  "dup2(oldfd=" +:+ i32_at 0 +:+ suffix_of (arg32 state 0) +:+ " , newfd=" +:+ i32_at 1 +:+ end_text (fmt_i ret_norm).
Definition dup3_line : string :=
  "dup3(oldfd=" +:+ i32_at 0 +:+ suffix_of (arg32 state 0) +:+ " , newfd=" +:+ i32_at 1
    +:+ ", flags=" +:+ format_dup3_flags (arg state 2) +:+ end_text (fmt_i ret_norm).

Definition mmap_line : string :=
  let fd := arg32 state 4 in
  let suffix := if 0 <=? fd then suffix_of fd else EmptyString in
  let ret_text := if is_kernel_error ret_raw then "MAP_FAILED" else fmt_0x (as_u64 ret_raw) in
  let start := "mmap(addr=" +:+ x_at 0 +:+ ", length=" +:+ u_at 1 +:+ ", prot=" +:+ format_mmap_prot (arg state 2)
                 +:+ ", flags=" +:+ format_mmap_flags (arg state 3) in
  if 0 <=? fd then
    start +:+ ", fd=" +:+ fmt_i fd +:+ suffix +:+ " , offset=" +:+ i64_at 5 +:+ end_text ret_text
  else start +:+ ", fd=" +:+ fmt_i fd +:+ ", offset=" +:+ i64_at 5 +:+ end_text ret_text.

Definition munmap_line : string :=
  "munmap(addr=" +:+ x_at 0 +:+ ", length=" +:+ u_at 1 +:+ end_text (fmt_i ret_norm).

Definition preview_text : string :=
  format_buffer_preview cfg pid (arg state 1) (arg state 2) ret_norm.

(** [read] and [write] *)
Definition rw_line (name : string) : string :=
  name +:+ "(" +:+ fd_text 0 +:+ ", buf=" +:+ x_at 1 +:+ ", count=" +:+ u_at 2 +:+ preview_text
    +:+ end_text (fmt_i ret_norm).

(** [pread64] and [pwrite64] *)
Definition prw_line (name : string) : string :=
  name +:+ "(" +:+ fd_text 0 +:+ ", buf=" +:+ x_at 1 +:+ ", count=" +:+ u_at 2 +:+ ", offset=" +:+ i64_at 3
    +:+ preview_text +:+ end_text (fmt_i ret_norm).

Definition poll_line : string :=
  "poll(fds=" +:+ x_at 0 +:+ ", nfds=" +:+ u_at 1 +:+ ", timeout=" +:+ i32_at 2 +:+ end_text (fmt_i ret_norm).
Definition ppoll_line : string :=
  "ppoll(fds=" +:+ x_at 0 +:+ ", nfds=" +:+ u_at 1 +:+ ", timeout=" +:+ x_at 2 +:+ ", sigmask=" +:+ x_at 3
    +:+ end_text (fmt_i ret_norm).
Definition select_line : string :=
  "select(nfds=" +:+ i32_at 0 +:+ ", readfds=" +:+ x_at 1 +:+ ", writefds=" +:+ x_at 2 +:+ ", exceptfds=" +:+ x_at 3
    +:+ ", timeout=" +:+ x_at 4 +:+ end_text (fmt_i ret_norm).
Definition pselect6_line : string :=
  "pselect(nfds=" +:+ i32_at 0 +:+ ", readfds=" +:+ x_at 1 +:+ ", writefds=" +:+ x_at 2 +:+ ", exceptfds=" +:+ x_at 3
    +:+ ", timeout=" +:+ x_at 4 +:+ ", sigmask=" +:+ x_at 5 +:+ end_text (fmt_i ret_norm).

(** [stat] and [lstat] *)
Definition stat_line (name : string) : string :=
  name +:+ "(path=" +:+ quoted hint_text +:+ ", statbuf=" +:+ x_at 1 +:+ end_text (fmt_i ret_norm).
Definition fstat_line : string :=
  "fstat(" +:+ fd_text 0 +:+ ", statbuf=" +:+ x_at 1 +:+ end_text (fmt_i ret_norm).
Definition newfstatat_line : string :=
  "newfstatat(dirfd=" +:+ format_dirfd (arg32 state 0) +:+ ", path=" +:+ quoted hint_text +:+ ", statbuf=" +:+ x_at 2
    +:+ ", flags=" +:+ format_newfstatat_flags (arg state 3) +:+ end_text (fmt_i ret_norm).
Definition access_line : string :=
  "access(path=" +:+ quoted hint_text +:+ ", mode=" +:+ format_access_mode (arg state 1) +:+ end_text (fmt_i ret_norm).
Definition faccessat_line : string :=
  "faccessat(dirfd=" +:+ format_dirfd (arg32 state 0) +:+ ", path=" +:+ quoted hint_text
    +:+ ", mode=" +:+ format_access_mode (arg state 2) +:+ ", flags=" +:+ format_faccessat_flags (arg state 3)
    +:+ end_text (fmt_i ret_norm).
Definition lseek_line : string :=
  "lseek(" +:+ fd_text 0 +:+ ", offset=" +:+ i64_at 1 +:+ ", whence=" +:+ format_lseek_whence (arg state 2)
    +:+ end_text (fmt_i ret_norm).
Definition prctl_line : string :=
  "prctl(option=" +:+ i32_at 0 +:+ ", arg2=" +:+ x_at 1 +:+ ", arg3=" +:+ x_at 2 +:+ ", arg4=" +:+ x_at 3
    +:+ ", arg5=" +:+ x_at 4 +:+ end_text (fmt_i ret_norm).
Definition futex_line : string :=
  "futex(uaddr=" +:+ x_at 0 +:+ ", futex_op=" +:+ x_at 1 +:+ ", val=" +:+ i32_at 2
    +:+ ", timeout_or_val2=" +:+ x_at 3 +:+ ", uaddr2=" +:+ x_at 4 +:+ ", val3=" +:+ i32_at 5
    +:+ end_text (fmt_i ret_norm).
Definition other_line : string :=
  syscall_name (ss_nr state) +:+ "(" +:+ x_at 0 +:+ ", " +:+ x_at 1 +:+ ", " +:+ x_at 2 +:+ ", " +:+ x_at 3
    +:+ ", " +:+ x_at 4 +:+ ", " +:+ x_at 5 +:+ end_text (fmt_i ret_norm).

(** [format_ioctl_line]: the arguments of an ioctl on a GPU device are decoded
    from the memory of the thread that made it. *)
Definition format_ioctl_line : string :=
  let fd := arg32 state 0 in
  let cmd := arg state 1 in
  let path := fd_paths !! fd in
  let gpu_related := match path with Some p => is_gpu_path p | None => false end in
  let cmd_summary :=
    if gpu_related
    then summarize_ioctl (M := process_vm pid) cmd (arg state 2) (ioctl_decode cfg) (max_blob cfg) path
    else "cmd=" +:+ fmt_0x cmd in
  let args :=
    if gpu_related then quoted (default "<unknown>" path) +:+ " ," +:+ cmd_summary
    else "fd=" +:+ fmt_i fd +:+ format_fd_suffix path +:+ " , " +:+ cmd_summary in
  "ioctl(" +:+ args +:+ end_text (fmt_i ret_norm).

Definition syscall_arms : list (Z * string) :=
  [(SYS_OPEN, open_line); (SYS_OPENAT, openat_line); (SYS_CLOSE, close_line); (SYS_DUP, dup_line);
   (SYS_DUP2, dup2_line); (SYS_DUP3, dup3_line); (SYS_MMAP, mmap_line); (SYS_MUNMAP, munmap_line);
   (SYS_READ, rw_line "read"); (SYS_WRITE, rw_line "write"); (SYS_POLL, poll_line); (SYS_PPOLL, ppoll_line);
   (SYS_SELECT, select_line); (SYS_PSELECT6, pselect6_line); (SYS_STAT, stat_line "stat");
   (SYS_LSTAT, stat_line "lstat"); (SYS_FSTAT, fstat_line); (SYS_NEWFSTATAT, newfstatat_line);
   (SYS_ACCESS, access_line); (SYS_FACCESSAT, faccessat_line); (SYS_LSEEK, lseek_line);
   (SYS_PREAD64, prw_line "pread"); (SYS_PWRITE64, prw_line "pwrite"); (SYS_PRCTL, prctl_line);
   (SYS_IOCTL, format_ioctl_line); (SYS_FUTEX, futex_line)].

(** The two conditions under which a call is not shown. *)
Definition call_hidden : bool :=
  is_hidden_fd_syscall state hidden_fds
  || (((ss_nr state =? SYS_OPEN) || (ss_nr state =? SYS_OPENAT)) && (0 <=? ret_norm)
      && is_cudatrace_output_open cfg state).

Definition format_syscall_line (depth : nat) : string :=
  if is_hidden_fd_syscall state hidden_fds then EmptyString
  else if ((ss_nr state =? SYS_OPEN) || (ss_nr state =? SYS_OPENAT)) && (0 <=? ret_norm)
          && is_cudatrace_output_open cfg state then EmptyString
  else
    let line := default other_line (match_const (ss_nr state) syscall_arms) in
    let indented := indent_ptrace_line cfg line depth in
    prepend_left_meta cfg indented pid (ss_started_ts state).

(** ** The head of a capture file: [format_fgraph_syscall_enter] *)
Definition format_fgraph_syscall_enter : string :=
  if ss_nr state =? SYS_IOCTL then
    "ioctl(fd=" +:+ i32_at 0 +:+ live_suffix_of (arg32 state 0) +:+ ", cmd=" +:+ x_at 1 +:+ ", arg=" +:+ x_at 2 +:+ ")"
  else if ss_nr state =? SYS_OPEN then
    "open(path=" +:+ quoted hint_text +:+ ", flags=" +:+ format_open_flags (arg state 1)
      +:+ ", mode=0" +:+ fmt_o (arg state 2) +:+ ")"
  else if ss_nr state =? SYS_OPENAT then
    "openat(dirfd=" +:+ format_dirfd (arg32 state 0) +:+ ", path=" +:+ quoted hint_text
      +:+ ", flags=" +:+ format_open_flags (arg state 2) +:+ ", mode=0" +:+ fmt_o (arg state 3) +:+ ")"
  else if ss_nr state =? SYS_CLOSE then
    "close(fd=" +:+ i32_at 0 +:+ live_suffix_of (arg32 state 0) +:+ ")"
  else
    syscall_name (ss_nr state) +:+ "(" +:+ x_at 0 +:+ ", " +:+ x_at 1 +:+ ", " +:+ x_at 2 +:+ ", " +:+ x_at 3
      +:+ ", " +:+ x_at 4 +:+ ", " +:+ x_at 5 +:+ ")".

(** ** The shape of a line *)

(** The name a line starts with. *)
Definition shown_names : list (Z * string) :=
  [(SYS_OPEN, "open"); (SYS_OPENAT, "openat"); (SYS_CLOSE, "close"); (SYS_DUP, "dup"); (SYS_DUP2, "dup2");
   (SYS_DUP3, "dup3"); (SYS_MMAP, "mmap"); (SYS_MUNMAP, "munmap"); (SYS_READ, "read"); (SYS_WRITE, "write");
   (SYS_POLL, "poll"); (SYS_PPOLL, "ppoll"); (SYS_SELECT, "select"); (SYS_PSELECT6, "pselect");
   (SYS_STAT, "stat"); (SYS_LSTAT, "lstat"); (SYS_FSTAT, "fstat"); (SYS_NEWFSTATAT, "newfstatat");
   (SYS_ACCESS, "access"); (SYS_FACCESSAT, "faccessat"); (SYS_LSEEK, "lseek"); (SYS_PREAD64, "pread");
   (SYS_PWRITE64, "pwrite"); (SYS_PRCTL, "prctl"); (SYS_IOCTL, "ioctl"); (SYS_FUTEX, "futex")].
Definition shown_name : string := default (syscall_name (ss_nr state)) (match_const (ss_nr state) shown_names).

(** The text of the result. *)
Definition result_text : string :=
  if (ss_nr state =? SYS_OPEN) || (ss_nr state =? SYS_OPENAT) then format_open_return ret_norm (ss_path_hint state)
  else if ss_nr state =? SYS_MMAP then
    if is_kernel_error ret_raw then "MAP_FAILED" else fmt_0x (as_u64 ret_raw)
  else fmt_i ret_norm.

Definition shaped (name ret line : string) : Prop :=
  exists args, line = name +:+ "(" +:+ args +:+ end_text ret.

Definition has_end (ret s : string) : Prop := exists a, s = a +:+ end_text ret.

Lemma has_end_end ret : has_end ret (end_text ret).
Proof. by exists EmptyString. Qed.
Lemma has_end_app ret a s : has_end ret s -> has_end ret (a +:+ s).
Proof. intros [b ->]. exists (a +:+ b). by rewrite str_app_assoc. Qed.

Lemma has_end_cons ret c s : has_end ret s -> has_end ret (String c s).
Proof. intros [b ->]. by exists (String c b). Qed.

Lemma shaped_intro name ret rest : has_end ret rest -> shaped name ret (name +:+ "(" +:+ rest).
Proof. intros [a ->]. by exists a. Qed.

Lemma shaped_if name ret (b : bool) s t :
  shaped name ret s -> shaped name ret t -> shaped name ret (if b then s else t).
Proof. by destruct b. Qed.

Ltac has_end := repeat first [apply has_end_end | apply has_end_cons | apply has_end_app].

Lemma shaped_rw name : shaped name (fmt_i ret_norm) (rw_line name).
Proof. apply shaped_intro. has_end. Qed.
Lemma shaped_prw name : shaped name (fmt_i ret_norm) (prw_line name).
Proof. apply shaped_intro. has_end. Qed.
Lemma shaped_stat name : shaped name (fmt_i ret_norm) (stat_line name).
Proof. apply shaped_intro. has_end. Qed.

Ltac shape :=
  first [ apply shaped_rw | apply shaped_prw | apply shaped_stat
        | cbv zeta; repeat apply shaped_if;
          match goal with |- shaped ?name ?ret _ =>
            refine (shaped_intro name ret _ _); has_end end ].

Lemma open_shaped : shaped "open" (format_open_return ret_norm (ss_path_hint state)) open_line.
Proof. unfold open_line. shape. Qed.
Lemma openat_shaped : shaped "openat" (format_open_return ret_norm (ss_path_hint state)) openat_line.
Proof. unfold openat_line. shape. Qed.
Lemma mmap_shaped :
  shaped "mmap" (if is_kernel_error ret_raw then "MAP_FAILED" else fmt_0x (as_u64 ret_raw)) mmap_line.
Proof.
  unfold mmap_line. cbv zeta. apply shaped_if;
    match goal with |- shaped ?name ?ret _ => refine (shaped_intro name ret _ _) end;
    unfold has_end; rewrite ?str_app_assoc; has_end.
Qed.

Lemma line_shaped :
  shaped shown_name result_text (default other_line (match_const (ss_nr state) syscall_arms)).
Proof.
  unfold shown_name, result_text, syscall_arms, shown_names, syscall_arms. cbn [match_const].
  repeat match goal with
  | |- context [ss_nr state =? ?c] =>
    destruct (Z.eqb_spec (ss_nr state) c) as [->|];
    [cbn; first [apply open_shaped | apply openat_shaped | apply mmap_shaped | shape]|]
  end.
  cbn. unfold other_line. shape.
Qed.

Lemma app_nonempty_r a b : b <> EmptyString -> a +:+ b <> EmptyString.
Proof. by destruct a. Qed.

Lemma prepend_nonempty line ts : line <> EmptyString -> prepend_left_meta cfg line pid ts <> EmptyString.
Proof. intros H. unfold prepend_left_meta. cbv zeta. destruct (is_empty _); [done|]. by apply app_nonempty_r. Qed.

Lemma indent_nonempty line depth : line <> EmptyString -> indent_ptrace_line cfg line depth <> EmptyString.
Proof. intros H. unfold indent_ptrace_line. destruct (_ || _); [done|]. by apply app_nonempty_r. Qed.

(** C35: the line of a system call.  It is empty exactly for the tracer's own
    calls (a hidden descriptor, or a successful open of an output file); every
    other line is the name of the call, its arguments in parentheses, the
    result and the duration, indented and prefixed as configured. *)
Theorem format_syscall_line_shape depth :
  if call_hidden then format_syscall_line depth = EmptyString
  else format_syscall_line depth <> EmptyString
    /\ exists args,
      format_syscall_line depth =
      prepend_left_meta cfg
        (indent_ptrace_line cfg (shown_name +:+ "(" +:+ args +:+ end_text result_text) depth)
        pid (ss_started_ts state).
Proof.
  unfold call_hidden, format_syscall_line. destruct (is_hidden_fd_syscall state hidden_fds); [done|].
  cbn [orb]. destruct (_ && is_cudatrace_output_open cfg state); [done|]. cbv zeta.
  destruct line_shaped as [args E]. split; [|by exists args; rewrite E].
  apply prepend_nonempty, indent_nonempty. rewrite E. apply app_nonempty_r. by destruct args.
Qed.

End SyscallFmt.

(** Lines of the program's kind. *)
Example close_line_text :
  @format_syscall_line (proc_of (fun _ => None)) no_rm default_cfg 7
    (call_of SYS_CLOSE [5; 0; 0; 0; 0; 0] (Some "/dev/nvidiactl")) 0 12 "us" ∅ ∅ 0
  = "close(fd=5(/dev/nvidiactl)) = 0  /* 12 us */".
Proof. vm_compute. reflexivity. Qed.

Example mmap_error_text :
  @format_syscall_line (proc_of (fun _ => None)) no_rm default_cfg 7
    (call_of SYS_MMAP [0; 4096; 3; 0x22; 0xffffffff; 0] None) (-12) 3 "us" ∅ ∅ 0
  = "mmap(addr=0x0, length=4096, prot=PROT_READ|PROT_WRITE(0x3), flags=MAP_PRIVATE|MAP_ANONYMOUS(0x22), fd=-1, offset=0) = MAP_FAILED  /* 3 us */".
Proof. vm_compute. reflexivity. Qed.
