(* ===== verification/Fgraph.v ===== *)
(** * The function_graph controller: [src/src/hook/fgraph.rs]

    The controller writes the control files of tracefs.  Tracefs itself is the
    interface [TraceFs] on a state type; an operation of the controller is a
    computation with that state and a result that may be an error. *)
From S2P Require Import Prelude RustStr Config.

(** ** Tracefs *)

(** How a write can fail: the text is the one of the I/O error. *)
Inductive FsError :=
| OpenFailed (err : string)
| WriteFailed (err : string).

(** [fs_write] opens with truncation and writes the payload; [None] is success. *)
Class TraceFs (S : Type) := {
  fs_is_dir : string -> S -> bool;
  fs_exists : string -> S -> bool;
  fs_read : string -> S -> (string + string) * S;
  fs_write : string -> string -> S -> option FsError * S
}.

(** Results: [inl] is [Ok], [inr] is [Err]. *)
Definition FsM (S A : Type) : Type := S -> (A + string) * S.

Definition fs_ret {S A} (a : A) : FsM S A := fun s => (inl a, s).
Definition fs_err {S A} (e : string) : FsM S A := fun s => (inr e, s).
Definition fs_bind {S A B} (m : FsM S A) (k : A -> FsM S B) : FsM S B :=
  fun s => match m s with
           | (inl a, s) => k a s
           | (inr e, s) => (inr e, s)
           end.
(** [let _ = m;] *)
Definition fs_ignore {S A} (m : FsM S A) : FsM S unit := fun s => (inl tt, (m s).2).
(** [.map_err(f)] *)
Definition fs_map_err {S A} (f : string -> string) (m : FsM S A) : FsM S A :=
  fun s => match m s with (inr e, s) => (inr (f e), s) | r => r end.

Notation "m >>> k" := (fs_bind m (fun _ => k)) (at level 60, right associativity) : rust_scope.
#[local] Open Scope rust_scope.

Definition TRACEFS_ROOTS : list string := ["/sys/kernel/tracing"; "/sys/kernel/debug/tracing"].

Record TraceFsController := { root : string }.

Section Controller.
Context {S : Type} `{!TraceFs S} (cfg : Config).

Definition detect_tracefs_root (s : S) : option string :=
  List.find (fun path => fs_is_dir path s) TRACEFS_ROOTS.

Section Methods.
Context (c : TraceFsController).

Definition path_of (file : string) : string := root c +:+ "/" +:+ file.

Definition payload_of (value : string) : string := if is_empty value then NL else value.

Definition write_control (file value : string) : FsM S unit := fun s =>
  match fs_write (path_of file) (payload_of value) s with
  | (None, s) => (inl tt, s)
  | (Some (OpenFailed err), s) => (inr ("failed to open " +:+ path_of file +:+ ": " +:+ err), s)
  | (Some (WriteFailed err), s) => (inr ("failed to write " +:+ path_of file +:+ ": " +:+ err), s)
  end.

Definition best_effort_set_graph_function (graph_function : option string) : FsM S unit := fun s =>
  if negb (fs_exists (path_of "set_graph_function") s) then (inl tt, s)
  else
    let '(_, s) := write_control "set_graph_function" EmptyString s in
    match graph_function with
    | Some f =>
      match write_control "set_graph_function" f s with
      | (inr _, s) => fs_ignore (write_control "set_graph_function" EmptyString) s
      | (inl _, s) => (inl tt, s)
      end
    | None => (inl tt, s)
    end.

Definition begin_capture (tid : Z) (graph_function : option string) : FsM S unit :=
  write_control "tracing_on" "0" >>>
  write_control "set_ftrace_pid" EmptyString >>>
  write_control "set_ftrace_pid" (fmt_i tid) >>>
  best_effort_set_graph_function graph_function >>>
  write_control "current_tracer" "function_graph" >>>
  write_control "trace" EmptyString >>>
  write_control "tracing_on" "1".

Definition end_capture_and_read : FsM S string :=
  write_control "tracing_on" "0" >>>
  fs_bind (fs_map_err (fun err => "failed to read trace: " +:+ err) (fs_read (path_of "trace"))) (fun trace =>
  write_control "trace" EmptyString >>>
  best_effort_set_graph_function None >>>
  write_control "set_ftrace_pid" EmptyString >>>
  fs_ret trace).

Definition reset_state : FsM S unit :=
  write_control "tracing_on" "0" >>>
  best_effort_set_graph_function None >>>
  write_control "set_ftrace_pid" EmptyString >>>
  write_control "current_tracer" "nop" >>>
  write_control "trace" EmptyString.

Definition required_files : list string :=
  ["available_tracers"; "current_tracer"; "set_ftrace_pid"; "trace"; "tracing_on"; "buffer_size_kb"].

Definition missing_file (s : S) : option string :=
  List.find (fun name => negb (fs_exists (path_of name) s)) required_files.

Definition validate_access : FsM S unit := fun s =>
  match missing_file s with
  | Some name => (inr ("required tracefs file missing: " +:+ path_of name), s)
  | None =>
    fs_bind (fs_map_err (fun err => "failed to read available_tracers: " +:+ err)
                        (fs_read (path_of "available_tracers"))) (fun available =>
     if negb (existsb (String.eqb "function_graph") (split_whitespace available))
     then fs_err "kernel does not expose function_graph tracer"
     else
       write_control "tracing_on" "0" >>>
       write_control "set_ftrace_pid" EmptyString >>>
       write_control "current_tracer" "nop" >>>
       write_control "trace" EmptyString) s
  end.

Definition apply_runtime_config : FsM S unit :=
  let buffer_kb := fmt_u (fgraph_buffer_kb cfg) in
  fs_map_err (fun err => "failed to set buffer_size_kb=" +:+ buffer_kb +:+ ": " +:+ err)
    (write_control "buffer_size_kb" buffer_kb).

End Methods.

(** A controller dropped on an error path resets the state ([Drop]). *)
Definition init_or_fail : FsM S TraceFsController := fun s =>
  match detect_tracefs_root s with
  | None => (inr "tracefs is not available under /sys/kernel/tracing or /sys/kernel/debug/tracing", s)
  | Some r =>
    let this := {| root := r |} in
    match (validate_access this >>> apply_runtime_config this) s with
    | (inl _, s) => (inl this, s)
    | (inr err, s) => let '(_, s) := reset_state this s in (inr err, s)
    end
  end.

(** [preflight] also drops its controller. *)
Definition preflight : FsM S unit := fun s =>
  match init_or_fail s with
  | (inl controller, s) =>
    let '(r, s) := reset_state controller s in
    let '(_, s) := reset_state controller s in (r, s)
  | (inr err, s) => (inr err, s)
  end.

End Controller.

(** ** What tracefs promises *)

(** [ctl s p] is the last setting a control file was given.  A write that is accepted sets its
    file and no other; one that is rejected touches no other file, and leaves
    [tracing_on] as it was; reading changes nothing. *)
Class TraceFsLaws (S : Type) `{TraceFs S} := {
  ctl : S -> string -> option string;
  law_write p v s s' : fs_write p v s = (None, s') ->
    ctl s' p = Some v /\ forall q, q <> p -> ctl s' q = ctl s q;
  law_reject p v s e s' : fs_write p v s = (Some e, s') -> forall q, q <> p -> ctl s' q = ctl s q;
  law_reject_on r v s e s' : fs_write (r +:+ "/tracing_on") v s = (Some e, s') ->
    ctl s' (r +:+ "/tracing_on") = ctl s (r +:+ "/tracing_on");
  law_read p s r s' : fs_read p s = (r, s') -> forall q, ctl s' q = ctl s q
}.

Section Facts.
Context {S : Type} {HF : TraceFs S} {HL : TraceFsLaws S} (c : TraceFsController).

Definition file (f : string) : string := root c +:+ "/" +:+ f.
Definition holds (s : S) (f v : string) : Prop := ctl s (file f) = Some (payload_of v).

Lemma file_inj f g : file f = file g -> f = g.
Proof. intros E. unfold file in E. apply str_app_inj_l in E. by apply str_app_inj_l in E. Qed.

Lemma write_control_ok f v s s' :
  write_control c f v s = (inl tt, s') ->
  holds s' f v /\ forall g, g <> f -> ctl s' (file g) = ctl s (file g).
Proof.
  unfold write_control. destruct (fs_write _ _ s) as [[[e|e]|] s1] eqn:E; [done|done|]. intros [= <-].
  apply law_write in E as [Hv Ho]. split; [exact Hv|]. intros g Hg. apply Ho. intros Heq. by apply file_inj in Heq.
Qed.

Lemma write_control_other f v s g :
  g <> f -> ctl (write_control c f v s).2 (file g) = ctl s (file g).
Proof.
  intros Hg. assert (path_of c f <> file g) as Hne by (intros E; by apply (file_inj f g) in E).
  unfold write_control. destruct (fs_write _ _ s) as [[[e|e]|] s1] eqn:E; simpl.
  - apply law_reject with (q := file g) in E; [done|]. congruence.
  - apply law_reject with (q := file g) in E; [done|]. congruence.
  - apply law_write in E as [_ Ho]. apply Ho. congruence.
Qed.

Lemma best_effort_ok gf s : (best_effort_set_graph_function c gf s).1 = inl tt.
Proof.
  unfold best_effort_set_graph_function. destruct (negb _); [done|].
  destruct (write_control c "set_graph_function" EmptyString s) as [r s1].
  destruct gf as [f|]; [|done]. by destruct (write_control c "set_graph_function" f s1) as [[|] s2].
Qed.

Lemma best_effort_other gf s g :
  g <> "set_graph_function" -> ctl (best_effort_set_graph_function c gf s).2 (file g) = ctl s (file g).
Proof.
  intros Hg. unfold best_effort_set_graph_function. destruct (negb _); [done|].
  pose proof (write_control_other "set_graph_function" EmptyString s g Hg) as H1.
  destruct (write_control c "set_graph_function" EmptyString s) as [r s1]. simpl in H1.
  destruct gf as [f|]; [|done].
  pose proof (write_control_other "set_graph_function" f s1 g Hg) as H2.
  destruct (write_control c "set_graph_function" f s1) as [[|] s2]; simpl in *; [congruence|].
  rewrite (write_control_other "set_graph_function" EmptyString s2 g Hg). congruence.
Qed.

Lemma bind_ok {A B} (m : FsM S A) (k : A -> FsM S B) s b s' :
  fs_bind m k s = (inl b, s') -> exists a s1, m s = (inl a, s1) /\ k a s1 = (inl b, s').
Proof. unfold fs_bind. destruct (m s) as [[a|e] s1]; [|done]. eauto. Qed.

Lemma bind_case {A B} (m : FsM S A) (k : A -> FsM S B) s r s' :
  fs_bind m k s = (r, s') ->
  (exists a s1, m s = (inl a, s1) /\ k a s1 = (r, s')) \/ (exists e, m s = (inr e, s') /\ r = inr e).
Proof. unfold fs_bind. destruct (m s) as [[a|e] s1]; [left; eauto|]. intros [= <- <-]. right; eauto. Qed.

Lemma write_ok f v s u s' :
  write_control c f v s = (inl u, s') ->
  holds s' f v /\ forall g w, g <> f -> holds s g w -> holds s' g w.
Proof.
  destruct u. intros [H1 H2]%write_control_ok. split; [done|]. intros g w Hg. unfold holds. by rewrite H2.
Qed.

Lemma write_any f v s r s' g w :
  write_control c f v s = (r, s') -> g <> f -> holds s g w -> holds s' g w.
Proof.
  intros E Hg. unfold holds. pose proof (write_control_other f v s g Hg) as Ho. rewrite E in Ho. simpl in Ho.
  by rewrite Ho.
Qed.

Lemma best_effort_any gf s r s' g w :
  best_effort_set_graph_function c gf s = (r, s') -> g <> "set_graph_function" -> holds s g w -> holds s' g w.
Proof.
  intros E Hg. unfold holds. pose proof (best_effort_other gf s g Hg) as Ho. rewrite E in Ho. simpl in Ho.
  by rewrite Ho.
Qed.

(** A rejected write to [tracing_on] leaves it. *)
Lemma write_on_rejected v s e s' w :
  write_control c "tracing_on" v s = (inr e, s') -> holds s "tracing_on" w -> holds s' "tracing_on" w.
Proof.
  unfold write_control. destruct (fs_write _ _ s) as [[[err|err]|] s1] eqn:E; [| |done]; intros [= <- <-];
    apply (law_reject_on (root c)) in E; unfold holds; intros Hh; (etransitivity; [exact E|exact Hh]).
Qed.

(** Starting a capture.  When it succeeds, tracing is on, for the thread
    only, with the function_graph tracer and an emptied buffer; when it fails
    after tracing could be switched off, tracing stays off. *)
Theorem begin_capture_sets tid gf s r s' :
  begin_capture c tid gf s = (r, s') ->
  match r with
  | inl _ => holds s' "tracing_on" "1" /\ holds s' "set_ftrace_pid" (fmt_i tid)
             /\ holds s' "current_tracer" "function_graph" /\ holds s' "trace" EmptyString
  | inr _ => (exists e s1, write_control c "tracing_on" "0" s = (inr e, s1)) \/ holds s' "tracing_on" "0"
  end.
Proof.
  unfold begin_capture. intros E.
  apply bind_case in E as [(u0 & s1 & E0 & E)|(e & E0 & ->)]; [|left; eauto].
  apply write_ok in E0 as [H0 _].
  apply bind_case in E as [(u1 & s2 & E1 & E)|(e & E1 & ->)]; [|right; by eapply write_any].
  apply (write_any _ _ _ _ _ "tracing_on" "0") in E1; [|done|done].
  apply bind_case in E as [(u2 & s3 & E2 & E)|(e & E2 & ->)]; [|right; by eapply write_any].
  apply write_ok in E2 as [H2 H2']. apply H2' in E1; [|done].
  apply bind_case in E as [(u3 & s4 & E3 & E)|(e & E3 & ->)]; [|right; by eapply best_effort_any].
  pose proof (best_effort_any _ _ _ _ "tracing_on" _ E3 ltac:(done) E1) as H3.
  pose proof (best_effort_any _ _ _ _ "set_ftrace_pid" _ E3 ltac:(done) H2) as H3'.
  apply bind_case in E as [(u4 & s5 & E4 & E)|(e & E4 & ->)]; [|right; by eapply write_any].
  apply write_ok in E4 as [H4 H4'].
  apply bind_case in E as [(u5 & s6 & E5 & E)|(e & E5 & ->)];
    [|right; eapply write_any; [exact E5|done|by apply H4']].
  apply write_ok in E5 as [H5 H5'].
  destruct r as [u|e].
  - apply write_ok in E as [H6 H6']. split; [done|].
    split; [by apply H6', H5', H4'|]. split; [by apply H6', H5'|by apply H6'].
  - right. eapply write_on_rejected; [exact E|]. by apply H5', H4'.
Qed.

(** Ending a capture.  When it succeeds, tracing is off, the buffer that was
    read while it was off is emptied, and no thread is selected any more. *)
Theorem end_capture_sets s text s' :
  end_capture_and_read c s = (inl text, s') ->
  holds s' "tracing_on" "0" /\ holds s' "trace" EmptyString /\ holds s' "set_ftrace_pid" EmptyString
  /\ exists s1 s2, holds s1 "tracing_on" "0" /\ fs_read (file "trace") s1 = (inl text, s2).
Proof.
  unfold end_capture_and_read. intros E.
  apply bind_ok in E as (u0 & s1 & E0 & E). apply write_ok in E0 as [H0 _].
  apply bind_ok in E as (trace & s2 & E1 & E). unfold fs_map_err in E1.
  destruct (fs_read (path_of c "trace") s1) as [[t|e] s2'] eqn:Er; [|done]. injection E1 as <- <-.
  pose proof (law_read _ _ _ _ Er) as Hread.
  apply bind_ok in E as (u2 & s3 & E2 & E). apply write_ok in E2 as [H2 H2'].
  apply bind_ok in E as (u3 & s4 & E3 & E).
  apply bind_ok in E as (u4 & s5 & E4 & E). apply write_ok in E4 as [H4 H4'].
  injection E as <- <-.
  split; [apply H4', (best_effort_any _ _ _ _ _ _ E3), H2'; [done..|]; unfold holds; by rewrite Hread|].
  split; [by apply H4', (best_effort_any _ _ _ _ _ _ E3)|]. split; [done|]. by exists s1, s2'.
Qed.

(** The state that is reset (at start, at exit and after a failed capture):
    tracing off, the nop tracer, no thread selected, an empty buffer. *)
Theorem reset_state_neutral s u s' :
  reset_state c s = (inl u, s') ->
  holds s' "tracing_on" "0" /\ holds s' "set_ftrace_pid" EmptyString
  /\ holds s' "current_tracer" "nop" /\ holds s' "trace" EmptyString.
Proof.
  unfold reset_state. intros E.
  apply bind_ok in E as (u0 & s1 & E0 & E). apply write_ok in E0 as [H0 _].
  apply bind_ok in E as (u1 & s2 & E1 & E).
  apply bind_ok in E as (u2 & s3 & E2 & E). apply write_ok in E2 as [H2 H2'].
  apply bind_ok in E as (u3 & s4 & E3 & E). apply write_ok in E3 as [H3 H3'].
  destruct u. apply write_ok in E as [H4 H4'].
  split; [by apply H4', H3', H2', (best_effort_any _ _ _ _ _ _ E1)|].
  split; [by apply H4', H3'|]. split; [by apply H4'|done].
Qed.

End Facts.

(** C39: the controller that is made.  [init_or_fail] succeeds only on the first
    tracefs root that is a directory, with every control file present and the
    function_graph tracer offered; it leaves tracing off, with no tracer, no
    thread, an empty buffer and the configured ring-buffer size. *)
Theorem init_or_fail_sound {S : Type} {HF : TraceFs S} {HL : TraceFsLaws S} cfg (s : S) c s' :
  init_or_fail cfg s = (inl c, s') ->
  detect_tracefs_root s = Some (root c) /\ missing_file c s = None
  /\ (exists available s1, fs_read (path_of c "available_tracers") s = (inl available, s1)
        /\ existsb (String.eqb "function_graph") (split_whitespace available) = true)
  /\ holds c s' "tracing_on" "0" /\ holds c s' "set_ftrace_pid" EmptyString
  /\ holds c s' "current_tracer" "nop" /\ holds c s' "trace" EmptyString
  /\ holds c s' "buffer_size_kb" (fmt_u (fgraph_buffer_kb cfg)).
Proof.
  unfold init_or_fail. destruct (detect_tracefs_root s) as [rt|]; [|done].
  destruct ((_ >>> _) s) as [[u|e] s1] eqn:E; [|by destruct (reset_state _ s1)].
  intros [= <- <-]. split; [done|].
  apply bind_ok in E as (u1 & s2 & E1 & E2). unfold validate_access in E1.
  destruct (missing_file _ s) as [f|]; [done|]. split; [done|].
  apply bind_ok in E1 as (available & s3 & Er & E1). unfold fs_map_err in Er, E2.
  destruct (fs_read _ s) as [[t|e] s3'] eqn:Ef; [|done]. injection Er as <- <-.
  destruct (existsb _ _) eqn:Ev; [|done]. split; [by exists t, s3'|]. cbn [negb] in E1.
  apply bind_ok in E1 as (v1 & s4 & H1 & E1). apply write_ok in H1 as [H1 _].
  apply bind_ok in E1 as (v2 & s5 & H2 & E1). apply write_ok in H2 as [H2 H2'].
  apply bind_ok in E1 as (v3 & s6 & H3 & H4). apply write_ok in H3 as [H3 H3']. apply write_ok in H4 as [H4 H4'].
  unfold apply_runtime_config, fs_map_err in E2.
  destruct (write_control _ "buffer_size_kb" _ s2) as [[w|e] s7] eqn:E5; [|done]. injection E2 as <- <-.
  apply write_ok in E5 as [H5 H5'].
  repeat split; [by apply H5', H4', H3', H2'|by apply H5', H4', H3'|by apply H5', H4'|by apply H5'|done].
Qed.

(** ** A tracefs of plain files *)

Record PlainFs := { pf_files : gmap string string; pf_readonly : list string }.

#[export] Instance plain_tracefs : TraceFs PlainFs := {
  fs_is_dir p s := existsb (fun f => starts_with p f) (elements (dom (pf_files s)));
  fs_exists p s := bool_decide (is_Some (pf_files s !! p));
  fs_read p s := (match pf_files s !! p with Some v => inl v | None => inr "No such file" end, s);
  fs_write p v s :=
    if existsb (String.eqb p) (pf_readonly s) then (Some (OpenFailed "Permission denied"), s)
    else (None, {| pf_files := <[p := v]> (pf_files s); pf_readonly := pf_readonly s |})
}.

#[export] Instance plain_laws : TraceFsLaws PlainFs.
Proof.
  refine {| ctl := fun s p => pf_files s !! p |}.
  - intros p v s s'. simpl. destruct (existsb _ _); [done|]. intros [= <-]. simpl.
    split; [apply lookup_insert_eq|]. intros. by apply lookup_insert_ne.
  - intros p v s e s'. simpl. destruct (existsb _ _); [|done]. by intros [= <- <-].
  - intros r v s e s'. simpl. destruct (existsb _ _); [|done]. by intros [= <- <-].
  - intros p s r s'. simpl. by intros [= <- <-].
Defined.

Definition example_fs : PlainFs :=
  {| pf_files := <["/sys/kernel/tracing/tracing_on" := "0"]> ∅; pf_readonly := [] |}.
Definition example_controller : TraceFsController := {| root := "/sys/kernel/tracing" |}.

Lemma begin_capture_sets_witness :
  let s := (begin_capture example_controller 42 (Some "__x64_sys_ioctl") example_fs).2 in
  pf_files s !! "/sys/kernel/tracing/tracing_on" = Some "1".
Proof.
  cbv zeta. destruct (begin_capture example_controller 42 (Some "__x64_sys_ioctl") example_fs) as [r s] eqn:E.
  pose proof (begin_capture_sets example_controller 42 (Some "__x64_sys_ioctl") example_fs r s E) as H.
  vm_compute in E. injection E as <- <-. exact (proj1 H).
Defined.

Definition example_traced : PlainFs :=
  {| pf_files := <["/sys/kernel/tracing/trace" := "x"]> (pf_files example_fs); pf_readonly := [] |}.

Lemma end_capture_sets_witness :
  (end_capture_and_read example_controller example_traced).1 = inl "x"
  /\ holds example_controller (end_capture_and_read example_controller example_traced).2 "tracing_on" "0".
Proof.
  destruct (end_capture_and_read example_controller example_traced) as [r s] eqn:E.
  assert (r = inl "x") as -> by (vm_compute in E; congruence).
  split; [reflexivity|]. exact (proj1 (end_capture_sets example_controller example_traced "x" s E)).
Defined.

Lemma reset_state_neutral_witness :
  (reset_state example_controller example_fs).1 = inl tt
  /\ holds example_controller (reset_state example_controller example_fs).2 "tracing_on" "0".
Proof.
  destruct (reset_state example_controller example_fs) as [r s] eqn:E.
  assert (r = inl tt) as -> by (vm_compute in E; congruence).
  split; [reflexivity|]. exact (proj1 (reset_state_neutral example_controller example_fs tt s E)).
Defined.

Definition example_tracefs : PlainFs :=
  {| pf_files := list_to_map
       [("/sys/kernel/tracing/available_tracers", "blk function_graph nop"); ("/sys/kernel/tracing/current_tracer", "nop");
        ("/sys/kernel/tracing/set_ftrace_pid", "x"); ("/sys/kernel/tracing/trace", "x");
        ("/sys/kernel/tracing/tracing_on", "1"); ("/sys/kernel/tracing/buffer_size_kb", "1408")];
     pf_readonly := [] |}.

Lemma init_or_fail_sound_witness :
  let '(r, s) := init_or_fail (from_lookup (fun _ => None)) example_tracefs in
  r = inl example_controller /\ holds example_controller s "buffer_size_kb" "16384".
Proof.
  destruct (init_or_fail (from_lookup (fun _ => None)) example_tracefs) as [r s] eqn:E.
  assert (r = inl example_controller) as -> by (vm_compute in E; by injection E as <- _).
  split; [reflexivity|].
  exact (proj2 (proj2 (proj2 (proj2 (proj2 (proj2 (proj2
    (init_or_fail_sound (from_lookup (fun _ => None)) example_tracefs example_controller s E)))))))).
Defined.
