(* ===== verification/Tracer.v ===== *)
(** * The ptrace loop: [run_ptrace_loop] of [src/src/hook/ptrace.rs]

    One iteration of the loop is [step]: it takes what the kernel answers
    during the iteration ([Env]), changes the loop's variables ([Tracer]) and
    yields the actions it takes on the traced threads and on the output.  The
    tracefs state is part of the variables because the controller is used
    through the computations of [Fgraph]. *)
From S2P Require Import Prelude RustStr Config Layout Json Ioctl Uvm UvmFacts Summary Window Graph Flags.
From S2P Require Import Proc FdTable SyscallFmt Fgraph.

Definition SIGTRAP : Z := 5.
Definition SYSCALL_STOP_SIG : Z := Z.lor SIGTRAP 0x80.
Definition PTRACE_EVENT_FORK : Z := 1.
Definition PTRACE_EVENT_VFORK : Z := 2.
Definition PTRACE_EVENT_CLONE : Z := 3.
Definition PTRACE_EVENT_EXEC : Z := 4.
Definition ECHILD : Z := 10.

Record ActiveFgraphCapture := {
  cap_tid : Z;
  cap_syscall_name : string;
  cap_graph_function : option string;
  cap_syscall_enter : string;
  cap_entry_ts_us : Z;
  cap_scope_label : string
}.

(** The loop's variables; [waiting_fgraph_tids] is front first. *)
Record Tracer (S : Type) := {
  states : gmap Z SyscallState;
  depth_by_tid : depth_map;
  fgraph_window_by_tid : window_map;
  active_fgraph_capture : option ActiveFgraphCapture;
  waiting_fgraph_tids : list Z;
  fd_paths : path_map;
  hidden_fds : fd_set;
  cudatrace_ranges : list (Z * Z);
  fgraph_controller : option TraceFsController;
  tracefs : S
}.
Arguments Build_Tracer {S}.
Arguments states {S}.
Arguments depth_by_tid {S}.
Arguments fgraph_window_by_tid {S}.
Arguments active_fgraph_capture {S}.
Arguments waiting_fgraph_tids {S}.
Arguments fd_paths {S}.
Arguments hidden_fds {S}.
Arguments cudatrace_ranges {S}.
Arguments fgraph_controller {S}.
Arguments tracefs {S}.

Inductive Action :=
| Resume (pid sig : Z)               (* ptrace_syscall *)
| SetOptions (pid : Z)               (* set_ptrace_options *)
| WriteLine (tid : Z) (line : string) (* FusedWriter::write_line *)
| CloseTid (tid : Z)                 (* FusedWriter::close_tid *)
| WriteFile (path text : string)     (* std::fs::write *)
| FgraphError (msg : string).        (* log_fgraph_error *)

(** What the kernel answers during one iteration. *)
Inductive WaitRes :=
| WaitErr (errno : Z)
| WaitStatus (pid status : Z).

Record Env := {
  e_wait : WaitRes;
  e_depth_reads : list ReadRes;
  e_window_reads : list ReadRes;
  e_regs : option (pod UserRegsStruct);   (* ptrace_getregs of the thread *)
  e_eventmsg : option Z;                  (* ptrace_geteventmsg *)
  e_proc : ProcFs;
  e_now : Z;                              (* Instant::now, ns *)
  e_wall_ns : Z;                          (* SystemTime::now, ns since the epoch *)
  e_write_ok : string -> bool             (* does std::fs::write of the path succeed *)
}.

Section Setters.
Context {S : Type}.
Implicit Types t : Tracer S.

Definition set_states x (t : Tracer S) := Build_Tracer x (depth_by_tid t) (fgraph_window_by_tid t) (active_fgraph_capture t)
  (waiting_fgraph_tids t) (fd_paths t) (hidden_fds t) (cudatrace_ranges t) (fgraph_controller t) (tracefs t).
Definition set_pipes d w (t : Tracer S) := Build_Tracer (states t) d w (active_fgraph_capture t)
  (waiting_fgraph_tids t) (fd_paths t) (hidden_fds t) (cudatrace_ranges t) (fgraph_controller t) (tracefs t).
Definition set_active x (t : Tracer S) := Build_Tracer (states t) (depth_by_tid t) (fgraph_window_by_tid t) x
  (waiting_fgraph_tids t) (fd_paths t) (hidden_fds t) (cudatrace_ranges t) (fgraph_controller t) (tracefs t).
Definition set_waiting x (t : Tracer S) := Build_Tracer (states t) (depth_by_tid t) (fgraph_window_by_tid t)
  (active_fgraph_capture t) x (fd_paths t) (hidden_fds t) (cudatrace_ranges t) (fgraph_controller t) (tracefs t).
Definition set_files p h (t : Tracer S) := Build_Tracer (states t) (depth_by_tid t) (fgraph_window_by_tid t)
  (active_fgraph_capture t) (waiting_fgraph_tids t) p h (cudatrace_ranges t) (fgraph_controller t) (tracefs t).
Definition set_ranges x (t : Tracer S) := Build_Tracer (states t) (depth_by_tid t) (fgraph_window_by_tid t)
  (active_fgraph_capture t) (waiting_fgraph_tids t) (fd_paths t) (hidden_fds t) x (fgraph_controller t) (tracefs t).
Definition set_tracefs (x : S) (t : Tracer S) := Build_Tracer (states t) (depth_by_tid t) (fgraph_window_by_tid t)
  (active_fgraph_capture t) (waiting_fgraph_tids t) (fd_paths t) (hidden_fds t) (cudatrace_ranges t)
  (fgraph_controller t) x.

End Setters.

(** The two flags of a state. *)
Definition set_fgraph (waiting capturing : bool) (st : SyscallState) : SyscallState := {|
  ss_active := ss_active st; ss_internal := ss_internal st; ss_nr := ss_nr st; ss_args := ss_args st;
  ss_path_hint := ss_path_hint st; ss_started_ts := ss_started_ts st; ss_started_at := ss_started_at st;
  ss_started_ts_us := ss_started_ts_us st; ss_fgraph_waiting := waiting; ss_fgraph_capturing := capturing |}.

Section Loop.
Context {S : Type} `{!TraceFs S} {R : RmDecoder} (cfg : Config).
Implicit Types t : Tracer S.

Definition should_capture_fgraph (pid : Z) (state : SyscallState) (window_by_tid : window_map)
    (controller : option TraceFsController) : bool :=
  bool_decide (is_Some controller) && negb (ss_internal state)
  && (0 <? match window_by_tid !! pid with Some w => ws_depth w | None => 0 end).

Definition begin_fgraph_capture_for_state {P : ProcFs} (pid : Z) (state : SyscallState) (t : Tracer S)
    : bool * list Action * Tracer S :=
  match fgraph_controller t with
  | None => (false, [], t)
  | Some controller =>
    let graph_function := syscall_graph_function (ss_nr state) in
    match begin_capture controller pid graph_function (tracefs t) with
    | (inr err, fs) =>
      (false,
       [FgraphError ("failed to begin function_graph capture for tid=" +:+ fmt_i pid +:+ ": " +:+ err)],
       set_tracefs fs t)
    | (inl _, fs) =>
      let scope_label := default "unknown0" (current_fgraph_scope_label pid (fgraph_window_by_tid t)) in
      (true, [],
       set_active (Some {|
         cap_tid := pid; cap_syscall_name := syscall_name (ss_nr state);
         cap_graph_function := graph_function;
         cap_syscall_enter := format_fgraph_syscall_enter pid state (fd_paths t);
         cap_entry_ts_us := ss_started_ts_us state; cap_scope_label := scope_label |}) (set_tracefs fs t))
    end
  end.

(** The text of a capture file. *)
Definition capture_text (capture : ActiveFgraphCapture) (graph : string) : string :=
  "tid=" +:+ fmt_i (cap_tid capture) +:+ " syscall=" +:+ cap_syscall_name capture
    +:+ " entry_ts_us=" +:+ fmt_u (cap_entry_ts_us capture) +:+ NL
  +:+ "scope=" +:+ cap_scope_label capture +:+ NL
  +:+ match cap_graph_function capture with Some f => "graph_function=" +:+ f +:+ NL | None => EmptyString end
  +:+ "syscall_enter=" +:+ cap_syscall_enter capture +:+ NL
  +:+ sanitize_fgraph_trace_output graph.

Definition finish_active_fgraph_capture (write_ok : string -> bool) (base_path : string) (t : Tracer S)
    : list Action * Tracer S :=
  match active_fgraph_capture t with
  | None => ([], t)
  | Some capture =>
    let t := set_active None t in
    match fgraph_controller t with
    | None => ([], t)
    | Some controller =>
      match end_capture_and_read controller (tracefs t) with
      | (inr err, fs) =>
        let '(_, fs) := reset_state controller fs in
        ([FgraphError ("failed to finish function_graph capture for tid=" +:+ fmt_i (cap_tid capture)
                         +:+ ": " +:+ err)], set_tracefs fs t)
      | (inl graph, fs) =>
        let path := fgraph_output_path base_path (cap_tid capture) (cap_syscall_name capture)
                      (cap_entry_ts_us capture) (cap_scope_label capture) in
        (WriteFile path (capture_text capture graph)
           :: (if write_ok path then []
               else [FgraphError ("failed to write function_graph output: " +:+ path)]),
         set_tracefs fs t)
      end
    end
  end.

(** The loop of [maybe_resume_waiting_fgraph_tid] on the queue. *)
Fixpoint resume_waiting {P : ProcFs} (queue : list Z) (t : Tracer S) : list Action * Tracer S :=
  match queue with
  | [] => ([], set_waiting [] t)
  | tid :: queue =>
    match states t !! tid with
    | None => resume_waiting queue t
    | Some state =>
      if negb (ss_active state) || negb (ss_fgraph_waiting state) then resume_waiting queue t
      else
        let state := set_fgraph false (ss_fgraph_capturing state) state in
        let '(capturing, acts, t) :=
          if should_capture_fgraph tid state (fgraph_window_by_tid t) (fgraph_controller t)
          then begin_fgraph_capture_for_state tid state t
          else (false, [], t) in
        let t := set_states (<[tid := set_fgraph false capturing state]> (states t)) t in
        match active_fgraph_capture t with
        | Some _ => (acts ++ [Resume tid 0], set_waiting queue t)
        | None =>
          let '(acts', t) := resume_waiting queue t in
          (acts ++ [Resume tid 0] ++ acts', t)
        end
    end
  end.

Definition maybe_resume_waiting_fgraph_tid {P : ProcFs} (t : Tracer S) : list Action * Tracer S :=
  match active_fgraph_capture t with
  | Some _ => ([], t)
  | None => resume_waiting (waiting_fgraph_tids t) t
  end.

(** ** The parts of an iteration *)

(** [wifexited(status) || wifsignaled(status)] *)
Definition on_death (env : Env) (pid : Z) (t : Tracer S) : list Action * Tracer S :=
  let P := e_proc env in
  let '(acts1, t) :=
    if match active_fgraph_capture t with Some capture => cap_tid capture =? pid | None => false end
    then finish_active_fgraph_capture (e_write_ok env) (Config.path cfg) t else ([], t) in
  let t := set_states (delete pid (states t)) t in
  let t := set_pipes (delete pid (depth_by_tid t)) (delete pid (fgraph_window_by_tid t)) t in
  let t := set_waiting (List.filter (fun queued => negb (queued =? pid)) (waiting_fgraph_tids t)) t in
  let '(acts2, t) := maybe_resume_waiting_fgraph_tid t in
  (acts1 ++ [CloseTid pid] ++ acts2, t).

(** The state of a system call that is entered. *)
Definition entered_state (env : Env) (pid : Z) (regs : pod UserRegsStruct) (t : Tracer S) : SyscallState :=
  let P := e_proc env in
  let nr := as_i64 regs.["orig_rax"] in
  let args := [regs.["rdi"]; regs.["rsi"]; regs.["rdx"]; regs.["r10"]; regs.["r8"]; regs.["r9"]] in
  {| ss_active := true;
     ss_internal := is_internal_syscall pid regs (cudatrace_ranges t);
     ss_nr := nr;
     ss_args := args;
     ss_path_hint := capture_path_hint pid nr args;
     ss_started_ts := if include_timestamp (left_meta cfg)
                      then now_timestamp_for_config cfg (e_wall_ns env) else 0;
     ss_started_ts_us := e_wall_ns env / 1000;
     ss_started_at := e_now env;
     ss_fgraph_waiting := false;
     ss_fgraph_capturing := false |}.

(** A system-call entry; the flag is [hold_at_syscall_entry]. *)
Definition on_entry (env : Env) (pid : Z) (regs : pod UserRegsStruct) (t : Tracer S)
    : bool * list Action * Tracer S :=
  let P := e_proc env in
  let state := entered_state env pid regs t in
  if should_capture_fgraph pid state (fgraph_window_by_tid t) (fgraph_controller t) then
    match active_fgraph_capture t with
    | None =>
      let '(capturing, acts, t) := begin_fgraph_capture_for_state pid state t in
      (false, acts, set_states (<[pid := set_fgraph false capturing state]> (states t)) t)
    | Some _ =>
      let state := set_fgraph true false state in
      let waiting := waiting_fgraph_tids t in
      let waiting := if existsb (Z.eqb pid) waiting then waiting else waiting ++ [pid] in
      (true, [], set_waiting waiting (set_states (<[pid := state]> (states t)) t))
    end
  else (false, [], set_states (<[pid := state]> (states t)) t).

(** The state after a system-call exit. *)
Definition exited_state (st : SyscallState) : SyscallState := {|
  ss_active := false; ss_internal := false; ss_nr := ss_nr st; ss_args := ss_args st;
  ss_path_hint := None; ss_started_ts := ss_started_ts st; ss_started_at := ss_started_at st;
  ss_started_ts_us := 0; ss_fgraph_waiting := false; ss_fgraph_capturing := false |}.

(** The line of a system call that returns, if it is shown. *)
Definition exit_line (env : Env) (pid : Z) (regs : pod UserRegsStruct) (state : SyscallState) (t : Tracer S)
    : list Action :=
  let P := e_proc env in
  let ret_raw := as_i64 regs.["rax"] in
  if ss_internal state then []
  else
    let elapsed := Z.max 0 (e_now env - ss_started_at state) in
    let depth := default 0 (depth_by_tid t !! pid) in
    let '(v, u) := duration_for_config cfg elapsed in
    let line := format_syscall_line cfg pid state ret_raw v u (fd_paths t) (hidden_fds t) (Z.to_nat depth) in
    if is_empty line then [] else [WriteLine pid line].

(** A system-call exit; the flag is [finished_fgraph_capture]. *)
Definition on_exit (env : Env) (pid : Z) (regs : pod UserRegsStruct) (state : SyscallState) (t : Tracer S)
    : bool * list Action * Tracer S :=
  let ret_norm := normalize_ret (as_i64 regs.["rax"]) in
  let acts := exit_line env pid regs state t in
  let hidden := update_hidden_fds cfg state ret_norm (hidden_fds t) in
  let paths := update_fd_paths (fd_paths t) state ret_norm in
  (ss_fgraph_capturing state, acts,
   set_files paths hidden (set_states (<[pid := exited_state state]> (states t)) t)).

(** [sig == SYSCALL_STOP_SIG] *)
Definition on_syscall_stop (env : Env) (pid : Z) (t : Tracer S) : list Action * Tracer S :=
  let P := e_proc env in
  let '(hold, finished, acts, t) :=
    match e_regs env with
    | None => (false, false, [], t)
    | Some regs =>
      let state := default default_state (states t !! pid) in
      if negb (ss_active state) then
        let '(hold, acts, t) := on_entry env pid regs t in (hold, false, acts, t)
      else
        let '(finished, acts, t) := on_exit env pid regs state t in (false, finished, acts, t)
    end in
  if (hold : bool) then (acts, t)
  else
    let '(acts', t) :=
      if (finished : bool) then
        let '(acts1, t) := finish_active_fgraph_capture (e_write_ok env) (Config.path cfg) t in
        let '(acts2, t) := maybe_resume_waiting_fgraph_tid t in
        (acts1 ++ acts2, t)
      else ([], t) in
    (acts ++ acts' ++ [Resume pid 0], t).

Definition is_fork_event (event : Z) : bool :=
  (event =? PTRACE_EVENT_CLONE) || (event =? PTRACE_EVENT_FORK) || (event =? PTRACE_EVENT_VFORK).

Definition on_stop (env : Env) (pid status : Z) (t : Tracer S) : list Action * Tracer S :=
  let P := e_proc env in
  let sig := wstopsig status in
  if sig =? SYSCALL_STOP_SIG then on_syscall_stop env pid t
  else
    let event := ptrace_event status in
    if (sig =? SIGTRAP) && is_fork_event event then
      ((match e_eventmsg env with
        | Some new_tid => let new_tid := as_i32 new_tid in [SetOptions new_tid; Resume new_tid 0]
        | None => []
        end) ++ [Resume pid 0], t)
    else if (sig =? SIGTRAP) && (event =? PTRACE_EVENT_EXEC) then
      ([Resume pid 0], set_ranges (load_cudatrace_ranges pid) t)
    else ([Resume pid sig], t).

(** The two pipes are drained before the event is looked at. *)
Definition drained (depth_read_fd fgraph_window_read_fd : Z) (env : Env) (t : Tracer S) : Tracer S :=
  set_pipes (drain_depth_updates depth_read_fd (e_depth_reads env) (depth_by_tid t)).1.1
    (drain_fgraph_window_updates fgraph_window_read_fd (e_window_reads env) (fgraph_window_by_tid t)).1.1 t.

(** One iteration; [None] when the loop ends. *)
Definition step (depth_read_fd fgraph_window_read_fd : Z) (env : Env) (t : Tracer S)
    : option (list Action * Tracer S) :=
  match e_wait env with
  | WaitErr err => if err =? EINTR then Some ([], t) else if err =? ECHILD then None else Some ([], t)
  | WaitStatus pid status =>
    let t := drained depth_read_fd fgraph_window_read_fd env t in
    if wifexited status || wifsignaled status then Some (on_death env pid t)
    else if negb (wifstopped status) then Some ([], t)
    else Some (on_stop env pid status t)
  end.

(** What is done when the loop has ended. *)
Definition shutdown (write_ok : string -> bool) (t : Tracer S) : list Action * Tracer S :=
  let '(acts, t) :=
    match active_fgraph_capture t with
    | Some _ => finish_active_fgraph_capture write_ok (Config.path cfg) t
    | None => ([], t)
    end in
  match fgraph_controller t with
  | Some controller =>
    let '(_, fs) := reset_state controller (tracefs t) in
    let '(_, fs) := reset_state controller fs in   (* the drop of the controller *)
    (acts, set_tracefs fs t)
  | None => (acts, t)
  end.

(** The loop over the answers of the kernel. *)
Fixpoint run_loop (depth_read_fd fgraph_window_read_fd : Z) (envs : list Env) (t : Tracer S)
    : list Action * Tracer S :=
  match envs with
  | [] => ([], t)
  | env :: envs =>
    match step depth_read_fd fgraph_window_read_fd env t with
    | None => shutdown (e_write_ok env) t
    | Some (acts, t) =>
      let '(acts', t) := run_loop depth_read_fd fgraph_window_read_fd envs t in (acts ++ acts', t)
    end
  end.

(** The variables before the first iteration. *)
Definition initial_tracer {P : ProcFs} (target bootstrap_hidden_fd depth_hidden_fd fgraph_window_hidden_fd : Z)
    (controller : option TraceFsController) (fs : S) : Tracer S :=
  let hidden := list_to_set
    (List.filter (fun fd => 0 <=? fd) [bootstrap_hidden_fd; depth_hidden_fd; fgraph_window_hidden_fd]) in
  let '(paths, hidden) := seed_fd_state_from_proc cfg target ∅ hidden in
  {| states := ∅; depth_by_tid := ∅; fgraph_window_by_tid := ∅; active_fgraph_capture := None;
     waiting_fgraph_tids := []; fd_paths := paths; hidden_fds := hidden;
     cudatrace_ranges := load_cudatrace_ranges target; fgraph_controller := controller; tracefs := fs |}.

End Loop.
