(* ===== verification/TracerFacts.v ===== *)
(** * The ptrace loop keeps its variables consistent and loses no thread *)
From S2P Require Import Prelude RustStr Config Layout Json Ioctl Uvm UvmFacts Summary Window Graph Flags.
From S2P Require Import Proc FdTable SyscallFmt Fgraph Tracer.

Section TracerFacts.
Context {S : Type} `{!TraceFs S} {R : RmDecoder} (cfg : Config).
Implicit Types t : Tracer S.

(** A thread held at the entry of a system call until another capture ends. *)
Definition held (t : Tracer S) (tid : Z) : Prop :=
  exists st, states t !! tid = Some st /\ ss_active st = true /\ ss_fgraph_waiting st = true.

(** Nobody waits when nobody captures; the queue has no duplicates and holds
    every waiting thread; exactly the captured thread is marked as capturing,
    and it is inside a system call. *)
Record tracer_wf (t : Tracer S) : Prop := {
  wf_queue : active_fgraph_capture t = None -> waiting_fgraph_tids t = [];
  wf_nodup : NoDup (waiting_fgraph_tids t);
  wf_flag tid st : states t !! tid = Some st -> ss_fgraph_waiting st = true ->
    ss_active st = true /\ tid ∈ waiting_fgraph_tids t;
  wf_capturing tid st : states t !! tid = Some st -> ss_fgraph_capturing st = true ->
    ss_active st = true /\ exists cap, active_fgraph_capture t = Some cap /\ cap_tid cap = tid;
  wf_active cap : active_fgraph_capture t = Some cap ->
    exists st, states t !! cap_tid cap = Some st /\ ss_fgraph_capturing st = true
}.

(** ** The parts *)

(** Starting a capture only touches the capture and tracefs. *)
Lemma begin_spec {P : ProcFs} pid st t b acts t' :
  begin_fgraph_capture_for_state pid st t = (b, acts, t') ->
  states t' = states t /\ waiting_fgraph_tids t' = waiting_fgraph_tids t
  /\ fgraph_window_by_tid t' = fgraph_window_by_tid t /\ fgraph_controller t' = fgraph_controller t
  /\ (forall q sig, Resume q sig ∉ acts)
  /\ if b then exists cap, active_fgraph_capture t' = Some cap /\ cap_tid cap = pid
     else active_fgraph_capture t' = active_fgraph_capture t.
Proof.
  unfold begin_fgraph_capture_for_state. destruct (fgraph_controller t) as [c|] eqn:Ec.
  - destruct (begin_capture _ _ _ _) as [[u|e] fs]; intros [= <- <- <-]; cbn; repeat split; eauto; set_solver.
  - intros [= <- <- <-]. repeat split; auto. set_solver.
Qed.

(** Ending a capture only touches the capture and tracefs. *)
Lemma finish_spec ok path t acts t' :
  finish_active_fgraph_capture ok path t = (acts, t') ->
  active_fgraph_capture t' = None /\ states t' = states t /\ waiting_fgraph_tids t' = waiting_fgraph_tids t
  /\ fgraph_window_by_tid t' = fgraph_window_by_tid t /\ fgraph_controller t' = fgraph_controller t.
Proof.
  unfold finish_active_fgraph_capture. destruct (active_fgraph_capture t) as [cap|] eqn:Ea.
  - cbn [fgraph_controller set_active tracefs]. destruct (fgraph_controller t) as [c|] eqn:Ec.
    + destruct (end_capture_and_read c (tracefs t)) as [[g|e] fs]; [|destruct (reset_state c fs) as [u fs']];
        intros [= <- <-]; cbn; auto.
    + intros [= <- <-]. cbn. auto.
  - intros [= <- <-]. auto.
Qed.

(** The queue [queue] accounts for the waiting threads, and nobody captures. *)
Record idle_with (queue : list Z) (t : Tracer S) : Prop := {
  iw_active : active_fgraph_capture t = None;
  iw_nodup : NoDup queue;
  iw_flag tid st : states t !! tid = Some st -> ss_fgraph_waiting st = true -> ss_active st = true /\ tid ∈ queue;
  iw_capturing tid st : states t !! tid = Some st -> ss_fgraph_capturing st = false
}.

Lemma resume_waiting_ok {P : ProcFs} queue : forall t acts t',
  idle_with queue t -> resume_waiting queue t = (acts, t') ->
  tracer_wf t' /\ (forall q, held t q -> held t' q \/ Resume q 0 ∈ acts).
Proof.
  induction queue as [|tid queue IH]; intros t acts t' [Ha Hnd Hf Hc]; cbn [resume_waiting].
  - intros [= <- <-]. split.
    + split; cbn; [done|constructor|exact Hf| |intros cap Hcap; congruence].
      intros tid st Hst Hcap. by rewrite (Hc tid st Hst) in Hcap.
    + intros q (st & Hst & _ & Hw). destruct (Hf q st Hst Hw) as [_ Hin]. by apply elem_of_nil in Hin.
  - pose proof (NoDup_cons_1_1 _ _ Hnd) as Hnotin. apply NoDup_cons_1_2 in Hnd.
    assert (forall k st, k <> tid -> states t !! k = Some st -> ss_fgraph_waiting st = true ->
      ss_active st = true /\ k ∈ queue) as Hf'.
    { intros k st Hk Hst Hw. destruct (Hf k st Hst Hw) as [? Hin]. split; [done|]. set_solver. }
    destruct (states t !! tid) as [st|] eqn:Est.
    2: { apply IH. split; auto. intros k st Hst Hw. apply Hf'; auto. congruence. }
    destruct (negb (ss_active st) || negb (ss_fgraph_waiting st)) eqn:Eskip.
    { apply IH. split; auto. intros k st' Hst Hw. apply Hf'; auto. intros ->.
      assert (st' = st) as -> by congruence. destruct (Hf tid st Est Hw) as [Hact _].
      by rewrite Hact, Hw in Eskip. }
    set (st1 := set_fgraph false (ss_fgraph_capturing st) st).
    destruct (if should_capture_fgraph _ _ _ _ then _ else _) as [[capturing acts1] t1] eqn:E1.
    assert (states t1 = states t /\ waiting_fgraph_tids t1 = waiting_fgraph_tids t
      /\ if capturing then exists cap, active_fgraph_capture t1 = Some cap /\ cap_tid cap = tid
         else active_fgraph_capture t1 = None) as (Hs1 & Hw1 & Ha1).
    { destruct (should_capture_fgraph _ _ _ _).
      - apply begin_spec in E1 as (-> & -> & _ & _ & _ & Hb). rewrite Ha in Hb. by destruct capturing.
      - by injection E1 as <- <- <-. }
    rewrite Hs1. cbn [active_fgraph_capture set_states].
    destruct capturing.
    + destruct Ha1 as (cap & Hcap & Htid). rewrite Hcap. intros [= <- <-]. split.
      * split; cbn [set_waiting set_states states active_fgraph_capture waiting_fgraph_tids].
        -- congruence.
        -- done.
        -- intros k st' Hst Hw. destruct (decide (k = tid)) as [->|Hk].
           ++ rewrite lookup_insert_eq in Hst. by injection Hst as <-.
           ++ rewrite lookup_insert_ne in Hst by done. by apply Hf'.
        -- intros k st' Hst Hcp. destruct (decide (k = tid)) as [->|Hk].
           ++ rewrite lookup_insert_eq in Hst. injection Hst as <-. split; [|by exists cap].
              cbn. apply orb_false_iff in Eskip as [Hact%negb_false_iff _]. done.
           ++ rewrite lookup_insert_ne in Hst by done. by rewrite (Hc k st' Hst) in Hcp.
        -- intros cap' Hcap'. assert (cap' = cap) as -> by congruence. rewrite Htid, lookup_insert_eq.
           by eexists.
      * intros q (st' & Hst & Hact & Hw). destruct (decide (q = tid)) as [->|Hk]; [right; set_solver|].
        left. exists st'. cbn. by rewrite lookup_insert_ne.
    + rewrite Ha1. destruct (resume_waiting queue _) as [acts2 t2] eqn:E2. intros [= <- <-].
      apply IH in E2 as [Hwf Hheld].
      * split; [done|]. intros q (st' & Hst & Hact & Hw).
        destruct (decide (q = tid)) as [->|Hk]; [right; set_solver|].
        destruct (Hheld q) as [Hh|Hin]; [|by left|right; set_solver].
        exists st'. cbn. by rewrite lookup_insert_ne.
      * split; cbn; auto.
        -- intros k st' Hst Hw. destruct (decide (k = tid)) as [->|Hk].
           ++ rewrite lookup_insert_eq in Hst. by injection Hst as <-.
           ++ rewrite lookup_insert_ne in Hst by done. by apply Hf'.
        -- intros k st' Hst. destruct (decide (k = tid)) as [->|Hk].
           ++ rewrite lookup_insert_eq in Hst. by injection Hst as <-.
           ++ rewrite lookup_insert_ne in Hst by done. by apply (Hc k).
Qed.

Lemma maybe_resume_ok {P : ProcFs} t acts t' :
  (active_fgraph_capture t = None -> idle_with (waiting_fgraph_tids t) t) ->
  (active_fgraph_capture t <> None -> tracer_wf t) ->
  maybe_resume_waiting_fgraph_tid t = (acts, t') ->
  tracer_wf t' /\ (forall q, held t q -> held t' q \/ Resume q 0 ∈ acts).
Proof.
  intros Hidle Hwf. unfold maybe_resume_waiting_fgraph_tid.
  destruct (active_fgraph_capture t) eqn:E.
  - intros [= <- <-]. split; [by apply Hwf|]. by left.
  - apply resume_waiting_ok. by apply Hidle.
Qed.

(** The invariant only speaks of the states, the queue and the capture. *)
Lemma wf_ext t t' :
  states t' = states t -> waiting_fgraph_tids t' = waiting_fgraph_tids t ->
  active_fgraph_capture t' = active_fgraph_capture t -> tracer_wf t -> tracer_wf t'.
Proof.
  intros Es Ew Ea [H1 H2 H3 H4 H5].
  split; intros *; rewrite ?Es, ?Ew, ?Ea; [apply H1|apply H2|apply H3|apply H4|apply H5].
Qed.

Lemma held_ext t t' q : states t' = states t -> held t q -> held t' q.
Proof. unfold held. by intros ->. Qed.

Lemma held_insert t t' pid st q :
  states t' = <[pid := st]> (states t) -> q <> pid -> held t q -> held t' q.
Proof. unfold held. intros -> Hq (s & Hs & H). exists s. by rewrite lookup_insert_ne. Qed.

(** A thread other than the captured one gets a state without flags. *)
Lemma wf_insert t pid st :
  tracer_wf t -> ss_fgraph_waiting st = false -> ss_fgraph_capturing st = false ->
  (forall cap, active_fgraph_capture t = Some cap -> cap_tid cap <> pid) ->
  tracer_wf (set_states (<[pid := st]> (states t)) t).
Proof.
  intros [H1 H2 H3 H4 H5] Hw Hc Hne.
  split; cbn [set_states states active_fgraph_capture waiting_fgraph_tids].
  - exact H1.
  - exact H2.
  - intros k s Hs. destruct (decide (k = pid)) as [->|Hk]; [rewrite lookup_insert_eq in Hs; injection Hs as <-; congruence|].
    rewrite lookup_insert_ne in Hs by done. by apply H3.
  - intros k s Hs. destruct (decide (k = pid)) as [->|Hk]; [rewrite lookup_insert_eq in Hs; injection Hs as <-; congruence|].
    rewrite lookup_insert_ne in Hs by done. by apply H4.
  - intros cap Hcap. rewrite lookup_insert_ne by (intros E; by apply (Hne cap Hcap)). by apply H5.
Qed.

(** The captured thread is inside a system call. *)
Lemma captured_active t cap :
  tracer_wf t -> active_fgraph_capture t = Some cap ->
  exists st, states t !! cap_tid cap = Some st /\ ss_fgraph_capturing st = true /\ ss_active st = true.
Proof.
  intros Hwf Hcap. destruct (wf_active t Hwf cap Hcap) as (st & Hst & Hc).
  exists st. split; [done|]. split; [done|]. by apply (wf_capturing t Hwf (cap_tid cap) st).
Qed.

Lemma not_captured t pid cap :
  tracer_wf t -> active_fgraph_capture t = Some cap ->
  ss_active (default default_state (states t !! pid)) = false -> cap_tid cap <> pid.
Proof.
  intros Hwf Hcap Hin <-. destruct (captured_active t cap Hwf Hcap) as (st & Hst & _ & Hact).
  rewrite Hst in Hin. cbn in Hin. congruence.
Qed.

(** The outcome of handling an event of [pid]: the invariant holds, no other
    held thread is forgotten. *)
Definition handles (pid : Z) (t : Tracer S) (acts : list Action) (t' : Tracer S) : Prop :=
  tracer_wf t' /\ forall q, q <> pid -> held t q -> held t' q \/ Resume q 0 ∈ acts.

Definition accounted (pid : Z) (acts : list Action) (t : Tracer S) : Prop :=
  (exists sig, Resume pid sig ∈ acts)
  \/ (held t pid /\ exists cap, active_fgraph_capture t = Some cap /\ cap_tid cap <> pid).

Lemma on_entry_ok env pid regs t hold acts t' :
  tracer_wf t -> ss_active (default default_state (states t !! pid)) = false ->
  on_entry cfg env pid regs t = (hold, acts, t') ->
  handles pid t acts t'
  /\ (hold = true -> held t' pid /\ exists cap, active_fgraph_capture t' = Some cap /\ cap_tid cap <> pid).
Proof.
  intros Hwf Hin. unfold on_entry. cbv zeta.
  pose proof (fun cap Hcap => not_captured t pid cap Hwf Hcap Hin) as Hne.
  destruct (should_capture_fgraph _ _ _ _).
  - destruct (active_fgraph_capture t) as [cap|] eqn:Ea.
    + intros [= <- <- <-].
      set (queue := if existsb (Z.eqb pid) (waiting_fgraph_tids t) then _ else _).
      assert (NoDup queue /\ pid ∈ queue /\ forall k, k ∈ waiting_fgraph_tids t -> k ∈ queue) as (Hnd & Hpid & Hq).
      { unfold queue. destruct (existsb _ _) eqn:Ex.
        - apply existsb_exists in Ex as (x & Hx & ->%Z.eqb_eq). apply list_elem_of_In in Hx.
          split; [apply (wf_nodup t Hwf)|]. by split.
        - assert (pid ∉ waiting_fgraph_tids t) as Hn.
          { intros Hx%list_elem_of_In. assert (existsb (Z.eqb pid) (waiting_fgraph_tids t) = true); [|congruence].
            apply existsb_exists. exists pid. by rewrite Z.eqb_refl. }
          split; [|split; [|intros k Hk]].
          + apply NoDup_ListNoDup, List.NoDup_app.
            * apply NoDup_ListNoDup, (wf_nodup t Hwf).
            * apply NoDup_ListNoDup, NoDup_singleton.
            * intros x Hx%list_elem_of_In [->|[]]. done.
          + apply elem_of_app. right. by apply list_elem_of_singleton.
          + apply elem_of_app. by left. }
      split; [split|].
      * pose proof (Hne cap eq_refl) as Hcap. destruct Hwf as [_ _ H3 H4 H5].
        split; cbn [set_waiting set_states states active_fgraph_capture waiting_fgraph_tids].
        -- congruence.
        -- done.
        -- intros k s Hs Hw. destruct (decide (k = pid)) as [->|Hk].
           ++ rewrite lookup_insert_eq in Hs. injection Hs as <-. by split.
           ++ rewrite lookup_insert_ne in Hs by done. destruct (H3 k s Hs Hw). auto.
        -- intros k s Hs Hc. destruct (decide (k = pid)) as [->|Hk].
           ++ rewrite lookup_insert_eq in Hs. by injection Hs as <-.
           ++ rewrite lookup_insert_ne in Hs by done. by apply H4.
        -- intros cap' Hcap'. assert (cap' = cap) as -> by congruence.
           rewrite lookup_insert_ne by congruence. by apply H5.
      * intros q Hqp Hh. left. by eapply held_insert.
      * intros _. split; [|by exists cap; split; [|apply Hne]].
        eexists. cbn. rewrite lookup_insert_eq. by split.
    + destruct (begin_fgraph_capture_for_state _ _ _) as [[b acts1] t1] eqn:E1. intros [= <- <- <-].
      apply begin_spec in E1 as (Es & Ew & _ & _ & _ & Hb). split; [split|done].
      * rewrite Es. destruct b.
        -- destruct Hb as (cap & Hcap & Htid). pose proof (wf_queue t Hwf Ea) as Hempty.
           destruct Hwf as [_ _ H3 H4 H5].
           split; cbn [set_states states active_fgraph_capture waiting_fgraph_tids]; rewrite ?Ew, ?Hempty.
           ++ congruence.
           ++ constructor.
           ++ intros k s Hs Hw. destruct (decide (k = pid)) as [->|Hk].
              ** rewrite lookup_insert_eq in Hs. by injection Hs as <-.
              ** rewrite lookup_insert_ne in Hs by done. rewrite <- Hempty. by apply H3.
           ++ intros k s Hs Hc. destruct (decide (k = pid)) as [->|Hk].
              ** rewrite lookup_insert_eq in Hs. injection Hs as <-. split; [done|]. by exists cap.
              ** rewrite lookup_insert_ne in Hs by done. destruct (H4 k s Hs Hc) as (_ & cap' & Hcap' & _). congruence.
           ++ intros cap' Hcap'. assert (cap' = cap) as -> by congruence. rewrite Htid, lookup_insert_eq. by eexists.
        -- rewrite <- Es. apply wf_insert; [by apply (wf_ext t)|done|done|]. congruence.
      * intros q Hqp Hh. left. eapply held_insert; [cbn; by rewrite Es|done|done].
  - intros [= <- <- <-]. split; [split|done].
    + by apply wf_insert.
    + intros q Hqp Hh. left. by eapply held_insert.
Qed.

(** Once the captured thread has left its system call, what remains is idle. *)
Lemma finished_idle t pid st cap :
  tracer_wf t -> states t !! pid = Some st -> ss_fgraph_capturing st = true ->
  active_fgraph_capture t = Some cap ->
  forall k s, k <> pid -> states t !! k = Some s -> ss_fgraph_capturing s = false.
Proof.
  intros Hwf Hst Hc Hcap k s Hk Hs. apply not_true_is_false. intros Hcs.
  destruct (wf_capturing t Hwf pid st Hst Hc) as (_ & cap1 & Hcap1 & <-).
  destruct (wf_capturing t Hwf k s Hs Hcs) as (_ & cap2 & Hcap2 & <-). congruence.
Qed.

Lemma on_exit_ok env pid regs st t fin acts t1 :
  tracer_wf t -> states t !! pid = Some st -> on_exit cfg env pid regs st t = (fin, acts, t1) ->
  fin = ss_fgraph_capturing st
  /\ states t1 = <[pid := exited_state st]> (states t)
  /\ waiting_fgraph_tids t1 = waiting_fgraph_tids t
  /\ active_fgraph_capture t1 = active_fgraph_capture t.
Proof. intros Hwf Hst. unfold on_exit. cbv zeta. by intros [= <- <- <-]. Qed.

Lemma on_syscall_stop_ok env pid t acts t' :
  tracer_wf t -> on_syscall_stop cfg env pid t = (acts, t') ->
  handles pid t acts t' /\ accounted pid acts t'.
Proof.
  intros Hwf. unfold on_syscall_stop. cbv zeta.
  assert (forall l1 l2 : list Action, Resume pid 0 ∈ l1 ++ l2 ++ [Resume pid 0]) as Hres.
  { intros l1 l2. rewrite !elem_of_app, list_elem_of_singleton. auto. }
  destruct (e_regs env) as [regs|].
  2: { intros [= <- <-]. split; [split; [done|by left]|]. left. exists 0. apply (Hres [] []). }
  destruct (negb (ss_active (default default_state (states t !! pid)))) eqn:Ein.
  - apply negb_true_iff in Ein.
    destruct (on_entry cfg env pid regs t) as [[hold acts1] t1] eqn:E1.
    destruct (on_entry_ok env pid regs t hold acts1 t1 Hwf Ein E1) as [[Hwf1 Hh1] Hhold].
    destruct hold.
    + intros [= <- <-]. split; [by split|]. right. by apply Hhold.
    + intros [= <- <-]. split; [split; [done|]|left; exists 0; apply (Hres acts1 [])].
      intros q Hq Hh. destruct (Hh1 q Hq Hh); [by left|right]. apply elem_of_app. by left.
  - apply negb_false_iff in Ein.
    destruct (states t !! pid) as [st|] eqn:Est; [|done]. cbn in Ein.
    change (default default_state (Some st)) with st.
    destruct (on_exit cfg env pid regs st t) as [[fin acts1] t1] eqn:E1.
    apply (on_exit_ok env pid regs st t) in E1 as (-> & Es & Ew & Ea); [|done|done].
    cbv iota.
    destruct (ss_fgraph_capturing st) eqn:Ecap.
    + destruct (wf_capturing t Hwf pid st Est Ecap) as (_ & cap & Hcap & Htid).
      destruct (finish_active_fgraph_capture (e_write_ok env) (Config.path cfg) t1) as [acts2 t2] eqn:E2.
      apply finish_spec in E2 as (Ha2 & Es2 & Ew2 & _).
      destruct (maybe_resume_waiting_fgraph_tid (P := e_proc env) t2) as [acts3 t3] eqn:E3.
      apply maybe_resume_ok in E3 as [Hwf3 Hh3]; [|intros _|done].
      2: { split; [done|rewrite Ew2, Ew; apply (wf_nodup t Hwf)| |].
           - intros k s Hs Hw. rewrite Es2, Es in Hs. rewrite Ew2, Ew.
             destruct (decide (k = pid)) as [->|Hk]; [rewrite lookup_insert_eq in Hs; by injection Hs as <-|].
             rewrite lookup_insert_ne in Hs by done. by apply (wf_flag t Hwf k s).
           - intros k s Hs. rewrite Es2, Es in Hs.
             destruct (decide (k = pid)) as [->|Hk]; [rewrite lookup_insert_eq in Hs; by injection Hs as <-|].
             rewrite lookup_insert_ne in Hs by done. by apply (finished_idle t pid st cap Hwf Est Ecap Hcap k s). }
      intros [= <- <-]. split; [split; [done|]|left; exists 0; apply Hres].
      intros q Hq Hh.
      assert (held t2 q) as Hh2 by (eapply held_ext; [exact Es2|]; by eapply held_insert).
      destruct (Hh3 q Hh2) as [H|H]; [by left|right]. rewrite !elem_of_app. auto.
    + intros [= <- <-]. split; [split|left; exists 0; apply (Hres acts1 [])].
      * apply (wf_ext (set_states (<[pid := exited_state st]> (states t)) t)); [done..|].
        apply wf_insert; [done..|]. intros cap Hcap Htid.
        destruct (captured_active t cap Hwf Hcap) as (st' & Hst' & Hc' & _). congruence.
      * intros q Hq Hh. left. by eapply held_insert.
Qed.

Lemma on_death_ok env pid t acts t' :
  tracer_wf t -> on_death cfg env pid t = (acts, t') -> handles pid t acts t'.
Proof.
  intros Hwf. unfold on_death. cbv zeta.
  set (mine := match active_fgraph_capture t with Some capture => cap_tid capture =? pid | None => false end).
  destruct (if mine then _ else _) as [acts1 t1] eqn:E1.
  assert (states t1 = states t /\ waiting_fgraph_tids t1 = waiting_fgraph_tids t
    /\ (active_fgraph_capture t1 = None ->
        forall k s, k <> pid -> states t !! k = Some s -> ss_fgraph_capturing s = false)
    /\ (active_fgraph_capture t1 <> None ->
        active_fgraph_capture t1 = active_fgraph_capture t
        /\ forall cap, active_fgraph_capture t = Some cap -> cap_tid cap <> pid)) as (Es & Ew & Hnone & Hsome).
  { destruct mine eqn:Em; unfold mine in Em.
    - apply finish_spec in E1 as (Ha & Es & Ew & _). repeat split; auto; try congruence.
      intros _ k s Hk Hs. destruct (active_fgraph_capture t) as [cap|] eqn:Ea; [|done].
      apply Z.eqb_eq in Em. subst pid. destruct (captured_active t cap Hwf Ea) as (st & Hst & Hc & _).
      by apply (finished_idle t (cap_tid cap) st cap Hwf Hst Hc Ea k s).
    - injection E1 as <- <-. split; [done|]. split; [done|]. split.
      + intros Ha k s Hk Hs. apply not_true_is_false. intros Hc.
        destruct (wf_capturing t Hwf k s Hs Hc) as (_ & cap & Hcap & _). congruence.
      + intros Ha. split; [done|]. intros cap Hcap. rewrite Hcap in Em. by apply Z.eqb_neq in Em. }
  destruct (maybe_resume_waiting_fgraph_tid (P := e_proc env) _) as [acts2 t2] eqn:E2. intros [= <- <-].
  assert (forall k, k <> pid -> k ∈ waiting_fgraph_tids t ->
    k ∈ List.filter (fun q => negb (q =? pid)) (waiting_fgraph_tids t)) as Hfilter.
  { intros k Hk Hin. apply list_elem_of_In, List.filter_In. split; [by apply list_elem_of_In|].
    by apply negb_true_iff, Z.eqb_neq. }
  assert (NoDup (List.filter (fun q => negb (q =? pid)) (waiting_fgraph_tids t))) as Hnd.
  { apply NoDup_ListNoDup, List.NoDup_filter, NoDup_ListNoDup, (wf_nodup t Hwf). }
  assert (forall k s, delete pid (states t) !! k = Some s -> k <> pid /\ states t !! k = Some s) as Hdel.
  { intros k s Hs. destruct (decide (k = pid)) as [->|Hk]; [by rewrite lookup_delete_eq in Hs|].
    by rewrite lookup_delete_ne in Hs. }
  apply maybe_resume_ok in E2 as [Hwf2 Hh2].
  - split; [done|]. intros q Hq (s & Hs & H).
    match type of Hh2 with forall q, held ?t q -> _ => assert (held t q) as Hq2 end.
    { exists s. cbn. rewrite Es, lookup_delete_ne; [done|congruence]. }
    destruct (Hh2 q Hq2) as [Hh|Hin]; [by left|right]. rewrite !elem_of_app. right. by right.
  - cbn. intros Ha. split; cbn; rewrite ?Es, ?Ew.
    + done.
    + done.
    + intros k s Hs Hw. apply Hdel in Hs as [Hk Hs]. destruct (wf_flag t Hwf k s Hs Hw). auto.
    + intros k s Hs. apply Hdel in Hs as [Hk Hs]. by apply (Hnone Ha k s).
  - cbn. intros Ha. destruct (Hsome Ha) as [Eact Hne].
    split; cbn; rewrite ?Es, ?Ew.
    + congruence.
    + done.
    + intros k s Hs Hw. apply Hdel in Hs as [Hk Hs]. destruct (wf_flag t Hwf k s Hs Hw). auto.
    + intros k s Hs Hc. apply Hdel in Hs as [Hk Hs]. rewrite Eact. by apply (wf_capturing t Hwf k s).
    + intros cap Hcap. rewrite Eact in Hcap. rewrite lookup_delete_ne by (intros E; by apply (Hne cap Hcap)).
      by apply (wf_active t Hwf).
Qed.

Lemma on_stop_ok env pid status t acts t' :
  tracer_wf t -> on_stop cfg env pid status t = (acts, t') ->
  handles pid t acts t' /\ accounted pid acts t'.
Proof.
  intros Hwf. unfold on_stop. cbv zeta. destruct (_ =? SYSCALL_STOP_SIG); [by apply on_syscall_stop_ok|].
  destruct (_ && is_fork_event _).
  { intros [= <- <-]. split; [split; [done|by left]|]. left. exists 0. rewrite elem_of_app, list_elem_of_singleton. auto. }
  destruct (_ && _).
  { intros [= <- <-]. split; [split; [by apply (wf_ext t)|by left]|]. left. exists 0. by apply list_elem_of_singleton. }
  intros [= <- <-]. split; [split; [done|by left]|]. left. eexists. by apply list_elem_of_singleton.
Qed.

Lemma stopped_alive status : wifstopped status = true -> wifexited status || wifsignaled status = false.
Proof.
  unfold wifstopped, wifexited, wifsignaled. intros H%Z.eqb_eq.
  assert (Z.land status 0x7f = 0x7f) as E.
  { change 0x7f with (Z.land 0xff 0x7f) at 1. rewrite Z.land_assoc, H. reflexivity. }
  cbv zeta. by rewrite E.
Qed.

(** The thread an iteration is about. *)
Definition about (env : Env) : option Z :=
  match e_wait env with WaitStatus pid _ => Some pid | WaitErr _ => None end.

Lemma step_ok d w env t acts t' :
  tracer_wf t -> step cfg d w env t = Some (acts, t') ->
  tracer_wf t'
  /\ (forall q, about env <> Some q -> held t q -> held t' q \/ Resume q 0 ∈ acts)
  /\ (forall pid status, e_wait env = WaitStatus pid status -> wifstopped status = true -> accounted pid acts t').
Proof.
  intros Hwf. unfold step, about. destruct (e_wait env) as [err|pid status].
  - destruct (err =? EINTR); [|destruct (err =? ECHILD); [done|]];
      intros [= <- <-]; (split; [done|]; split; [by left|done]).
  - cbv zeta. set (t0 := drained d w env t). assert (tracer_wf t0) as Hwf0 by by apply (wf_ext t).
    assert (forall acts' t1, handles pid t0 acts' t1 -> tracer_wf t1
      /\ (forall q, Some pid <> Some q -> held t q -> held t1 q \/ Resume q 0 ∈ acts')) as Hfin.
    { intros acts' t1 [H1 H2]. split; [done|]. intros q Hq Hh. apply H2; [congruence|done]. }
    destruct (wifexited status || wifsignaled status) eqn:Edead.
    + intros [= E]. apply on_death_ok in E; [|done]. apply Hfin in E as [H1 H2]. split; [done|]. split; [done|].
      intros pid' status' [= <- <-] Hstop. apply stopped_alive in Hstop. congruence.
    + destruct (wifstopped status) eqn:Estop; cbn [negb].
      * intros [= E]. apply on_stop_ok in E as [E Hacc]; [|done]. apply Hfin in E as [H1 H2].
        split; [done|]. split; [done|]. by intros pid' status' [= <- <-].
      * intros [= <- <-]. split; [done|]. split; [by left|]. intros pid' status' [= <- <-]. congruence.
Qed.

(** ** Sequences of iterations *)

Inductive steps (d w : Z) : Tracer S -> list Env -> list Action -> Tracer S -> Prop :=
| steps_nil t : steps d w t [] [] t
| steps_cons t env acts t1 envs acts' t2 :
    step cfg d w env t = Some (acts, t1) -> steps d w t1 envs acts' t2 ->
    steps d w t (env :: envs) (acts ++ acts') t2.

Lemma initial_wf {P : ProcFs} target f1 f2 f3 controller fs :
  tracer_wf (initial_tracer cfg target f1 f2 f3 controller fs).
Proof.
  unfold initial_tracer. destruct (seed_fd_state_from_proc _ _ _ _) as [p h].
  split; cbn; try done; [constructor|intros k s Hs; by rewrite lookup_empty in Hs..].
Qed.

Lemma steps_wf d w t envs acts t' : tracer_wf t -> steps d w t envs acts t' -> tracer_wf t'.
Proof.
  intros Hwf Hs. induction Hs as [|t env acts t1 envs acts' t2 Hstep Hs IH]; [done|].
  apply IH. by apply (step_ok d w env t acts t1 Hwf).
Qed.

(** C2: the invariant of the loop.  After any number of iterations, whatever the
    kernel answers: at most one thread is captured, exactly the thread that the
    capture names is marked so and it is inside a system call; the queue has no
    duplicates, holds every thread that waits, and is empty when no capture runs. *)
Theorem tracer_invariant {P : ProcFs} target f1 f2 f3 controller fs d w envs acts t :
  steps d w (initial_tracer cfg target f1 f2 f3 controller fs) envs acts t -> tracer_wf t.
Proof. apply steps_wf, initial_wf. Qed.

(** C1: no thread is lost.  In an iteration about a stopped thread, the thread is
    resumed, or it is held because another thread is being captured; every
    thread that was held before is still held or was resumed; and when no
    capture is left, nobody is held. *)
Theorem no_thread_lost d w env t acts t' pid status :
  tracer_wf t -> step cfg d w env t = Some (acts, t') ->
  e_wait env = WaitStatus pid status -> wifstopped status = true ->
  ((exists sig, Resume pid sig ∈ acts)
   \/ (held t' pid /\ exists cap, active_fgraph_capture t' = Some cap /\ cap_tid cap <> pid))
  /\ (forall q, q <> pid -> held t q -> held t' q \/ Resume q 0 ∈ acts)
  /\ (active_fgraph_capture t' = None -> forall q, ~ held t' q).
Proof.
  intros Hwf Hstep Hwait Hstop.
  destruct (step_ok d w env t acts t' Hwf Hstep) as (Hwf' & Hheld & Hacc).
  split; [by apply (Hacc pid status)|]. split.
  - intros q Hq. apply Hheld. unfold about. rewrite Hwait. congruence.
  - intros Ha q (st & Hst & _ & Hw). destruct (wf_flag t' Hwf' q st Hst Hw) as [_ Hin].
    rewrite (wf_queue t' Hwf' Ha) in Hin. by apply elem_of_nil in Hin.
Qed.

(** ** A capture that does not end *)

(** The events of an iteration concern neither thread. *)
Definition elsewhere (q c : Z) (env : Env) : Prop :=
  (forall pid status, e_wait env = WaitStatus pid status -> pid <> q /\ pid <> c)
  /\ (forall msg, e_eventmsg env = Some msg -> as_i32 msg <> q).

Lemma step_elsewhere d w env t acts t' q cap :
  tracer_wf t -> held t q -> active_fgraph_capture t = Some cap ->
  elsewhere q (cap_tid cap) env -> step cfg d w env t = Some (acts, t') ->
  held t' q /\ active_fgraph_capture t' = Some cap /\ forall sig, Resume q sig ∉ acts.
Proof.
  intros Hwf Hq Hcap [Hev Hmsg]. unfold step. destruct (e_wait env) as [err|pid status].
  { destruct (err =? EINTR); [|destruct (err =? ECHILD); [done|]]; intros [= <- <-]; set_solver. }
  destruct (Hev pid status eq_refl) as [Hpq Hpc].
  cbv zeta. set (t0 := drained d w env t).
  assert (tracer_wf t0) as Hwf0 by by apply (wf_ext t).
  assert (forall sig sig', Resume q sig ∉ [Resume pid sig']) as Hone.
  { intros sig sig' H%list_elem_of_singleton. congruence. }
  assert (forall capture, active_fgraph_capture t0 = Some capture -> (cap_tid capture =? pid) = false) as Hother.
  { intros capture E. apply Z.eqb_neq. change (active_fgraph_capture t = Some capture) in E. congruence. }
  destruct (wifexited status || wifsignaled status); [|destruct (wifstopped status); cbn [negb]].
  - unfold on_death. cbv zeta. change (active_fgraph_capture t0) with (active_fgraph_capture t).
    rewrite Hcap, (proj2 (Z.eqb_neq (cap_tid cap) pid)) by congruence.
    unfold maybe_resume_waiting_fgraph_tid.
    match goal with |- context [active_fgraph_capture ?x] =>
      change (active_fgraph_capture x) with (active_fgraph_capture t) end.
    rewrite Hcap. intros [= <- <-]. split; [|split; [done|intros sig; set_solver]].
    destruct Hq as (st & Hst & H). exists st. cbn. by rewrite lookup_delete_ne.
  - unfold on_stop. cbv zeta. destruct (_ =? SYSCALL_STOP_SIG).
    + unfold on_syscall_stop. cbv zeta. destruct (e_regs env) as [regs|].
      2: { intros [= <- <-]. split; [done|]. split; [done|]. intros sig. apply Hone. }
      destruct (negb (ss_active (default default_state (states t0 !! pid)))) eqn:Ein.
      * unfold on_entry. cbv zeta. change (active_fgraph_capture t0) with (active_fgraph_capture t). rewrite Hcap.
        destruct (should_capture_fgraph _ _ _ _); intros [= <- <-];
          (split; [by eapply held_insert|]; split; [done|]; intros sig; first [apply Hone | set_solver]).
      * apply negb_false_iff in Ein. destruct (states t0 !! pid) as [st|] eqn:Est; [|done].
        change (default default_state (Some st)) with st.
        destruct (on_exit cfg env pid regs st t0) as [[fin acts1] t1] eqn:E1.
        assert (forall sig, Resume q sig ∉ acts1) as Hacts1.
        { intros sig. unfold on_exit in E1. cbv zeta in E1. injection E1 as _ <- _. unfold exit_line. cbv zeta.
          destruct (ss_internal st); [set_solver|]. destruct (duration_for_config _ _).
          destruct (is_empty _); set_solver. }
        apply (on_exit_ok env pid regs st t0) in E1 as (-> & Es & Ew & Ea); [|done|done].
        assert (ss_fgraph_capturing st = false) as ->.
        { apply not_true_is_false. intros Hc.
          destruct (wf_capturing t0 Hwf0 pid st Est Hc) as (_ & cap' & Hcap' & Htid).
          apply Hother in Hcap'. by apply Z.eqb_neq in Hcap'. }
        intros [= <- <-]. split; [by eapply held_insert|]. split; [by rewrite Ea|].
        intros sig. rewrite not_elem_of_app. split; [apply Hacts1|apply Hone].
    + destruct (_ && is_fork_event _).
      { destruct (e_eventmsg env) as [msg|]; intros [= <- <-]; (split; [done|]; split; [done|]);
          intros sig; [|apply Hone]. specialize (Hmsg msg eq_refl). set_solver. }
      destruct (_ && _); intros [= <- <-]; (split; [done|]; split; [done|]); intros sig; apply Hone.
  - intros [= <- <-]. split; [done|]. split; [done|]. set_solver.
Qed.

(** C16: a held thread depends on the captured one.  As long as the captured
    thread neither returns from its system call nor dies, a thread that is held
    stays held and is not resumed, however many iterations pass: if the captured
    call waits for the held thread (a futex, a pipe), neither goes on. *)
Theorem held_waits_for_capture d w t q cap envs acts t' :
  tracer_wf t -> held t q -> active_fgraph_capture t = Some cap ->
  Forall (elsewhere q (cap_tid cap)) envs -> steps d w t envs acts t' ->
  held t' q /\ active_fgraph_capture t' = Some cap /\ forall sig, Resume q sig ∉ acts.
Proof.
  intros Hwf Hq Hcap Hall Hs. induction Hs as [|t env acts t1 envs acts' t2 Hstep Hs IH].
  - split; [done|]. split; [done|]. intros sig. set_solver.
  - apply Forall_cons_1 in Hall as [He Hall].
    destruct (step_elsewhere d w env t acts t1 q cap Hwf Hq Hcap He Hstep) as (Hq1 & Hcap1 & Hn1).
    destruct IH as (Hq2 & Hcap2 & Hn2); [by apply (step_ok d w env t acts t1 Hwf)|done..|].
    split; [done|]. split; [done|]. intros sig. rewrite not_elem_of_app. by split.
Qed.

(** ** What is written *)

Lemma resume_waiting_inactive {P : ProcFs} queue : forall t acts t' k s,
  resume_waiting queue t = (acts, t') -> states t !! k = Some s -> ss_active s = false ->
  states t' !! k = Some s.
Proof.
  induction queue as [|tid queue IH]; intros t acts t' k s; cbn [resume_waiting].
  { by intros [= <- <-]. }
  destruct (states t !! tid) as [st|] eqn:Est; [|by apply IH].
  destruct (negb (ss_active st) || negb (ss_fgraph_waiting st)) eqn:Eskip; [by apply IH|].
  apply orb_false_iff in Eskip as [Hact%negb_false_iff _].
  destruct (if should_capture_fgraph _ _ _ _ then _ else _) as [[capturing acts1] t1] eqn:E1.
  assert (states t1 = states t) as ->.
  { destruct (should_capture_fgraph _ _ _ _); [by apply begin_spec in E1 as (-> & _)|by injection E1 as _ _ <-]. }
  intros E Hs Hin. assert (k <> tid) as Hk by (intros ->; congruence).
  destruct (active_fgraph_capture _).
  - injection E as _ <-. cbn. by rewrite lookup_insert_ne.
  - destruct (resume_waiting queue _) as [acts2 t2] eqn:E2. injection E as _ <-.
    apply (IH _ _ _ _ _ E2); [|done]. cbn. by rewrite lookup_insert_ne.
Qed.

Lemma maybe_resume_inactive {P : ProcFs} t acts t' k s :
  maybe_resume_waiting_fgraph_tid t = (acts, t') -> states t !! k = Some s -> ss_active s = false ->
  states t' !! k = Some s.
Proof.
  unfold maybe_resume_waiting_fgraph_tid. destruct (active_fgraph_capture t); [by intros [= <- <-]|].
  apply resume_waiting_inactive.
Qed.


Definition is_syscall_stop (env : Env) (pid : Z) : Prop :=
  exists status, e_wait env = WaitStatus pid status
  /\ wifstopped status = true /\ wstopsig status = SYSCALL_STOP_SIG.

Lemma step_syscall_stop d w env t pid :
  is_syscall_stop env pid -> step cfg d w env t = Some (on_syscall_stop cfg env pid (drained d w env t)).
Proof.
  intros (status & Hwait & Hstop & Hsig). unfold step. rewrite Hwait. cbv zeta.
  rewrite (stopped_alive _ Hstop), Hstop. cbn [negb]. unfold on_stop. cbv zeta. by rewrite Hsig, Z.eqb_refl.
Qed.



End TracerFacts.

(** ** A process with two threads: 7 is captured, 8 is held *)

#[local] Existing Instance no_rm.

Definition example_state (waiting capturing : bool) : SyscallState :=
  set_fgraph waiting capturing (call_of SYS_IOCTL [5; 0; 0; 0; 0; 0] None).

Definition example_capture : ActiveFgraphCapture := {|
  cap_tid := 7; cap_syscall_name := "ioctl"; cap_graph_function := Some "__x64_sys_ioctl";
  cap_syscall_enter := "ioctl(fd=5, cmd=0x0, arg=0x0)"; cap_entry_ts_us := 99; cap_scope_label := "cuInit1" |}.

Definition example_tracer : Tracer PlainFs := {|
  states := <[7 := example_state false true]> (<[8 := example_state true false]> ∅);
  depth_by_tid := ∅; fgraph_window_by_tid := ∅; active_fgraph_capture := Some example_capture;
  waiting_fgraph_tids := [8]; fd_paths := ∅; hidden_fds := ∅; cudatrace_ranges := [];
  fgraph_controller := Some example_controller; tracefs := example_traced |}.

Definition zero_regs : pod UserRegsStruct := Pod (replicate 216 0).

Definition example_env (pid status : Z) : Env := {|
  e_wait := WaitStatus pid status; e_depth_reads := [RdErr EAGAIN]; e_window_reads := [RdErr EAGAIN];
  e_regs := Some zero_regs; e_eventmsg := Some 12; e_proc := proc_of (fun _ => None);
  e_now := 5000; e_wall_ns := 7000000; e_write_ok := fun _ => true |}.

Lemma example_wf : tracer_wf example_tracer.
Proof.
  assert (forall k s, states example_tracer !! k = Some s ->
    (k = 7 /\ s = example_state false true) \/ (k = 8 /\ s = example_state true false)) as Hs.
  { intros k s. cbn. rewrite !lookup_insert_Some, lookup_empty. naive_solver. }
  split; cbn [active_fgraph_capture waiting_fgraph_tids example_tracer].
  - done.
  - apply NoDup_singleton.
  - intros k s [[-> ->]|[-> ->]]%Hs; [done|]. intros _. split; [done|]. by apply list_elem_of_singleton.
  - intros k s [[-> ->]|[-> ->]]%Hs; [|done]. intros _. split; [done|]. by exists example_capture.
  - intros cap [= <-]. by exists (example_state false true).
Qed.

Lemma example_held : held example_tracer 8.
Proof. by exists (example_state true false). Qed.

Lemma tracer_invariant_witness :
  exists acts t,
    steps default_cfg 3 4 (initial_tracer (P := proc_of (fun _ => None)) default_cfg 7 (-1) 5 6 None example_fs)
      [example_env 7 (stop_status PTRACE_EVENT_CLONE SIGTRAP); example_env 7 (stop_status 0 SYSCALL_STOP_SIG)] acts t
    /\ tracer_wf t.
Proof.
  do 2 eexists. match goal with |- ?A /\ _ => assert A as Hs end.
  { eapply steps_cons; [reflexivity|]. eapply steps_cons; [reflexivity|]. apply steps_nil. }
  split; [exact Hs|]. eapply tracer_invariant. exact Hs.
Defined.

Lemma no_thread_lost_witness :
  exists acts t, step default_cfg 3 4 (example_env 7 (stop_status 0 SYSCALL_STOP_SIG)) example_tracer = Some (acts, t)
  /\ (forall q, q <> 7 -> held example_tracer q -> held t q \/ Resume q 0 ∈ acts).
Proof.
  destruct (step default_cfg 3 4 (example_env 7 (stop_status 0 SYSCALL_STOP_SIG)) example_tracer)
    as [[acts t]|] eqn:E; [|vm_compute in E; discriminate].
  exists acts, t. split; [reflexivity|].
  exact (proj1 (proj2 (no_thread_lost default_cfg 3 4 _ example_tracer _ _ 7 _ example_wf E eq_refl eq_refl))).
Defined.

Lemma held_waits_for_capture_witness :
  exists acts t,
    steps default_cfg 3 4 example_tracer
      [example_env 9 (stop_status 0 SYSCALL_STOP_SIG); example_env 9 (exit_status 0)] acts t
    /\ held t 8 /\ forall sig, Resume 8 sig ∉ acts.
Proof.
  do 2 eexists. match goal with |- ?A /\ _ => assert A as Hs end.
  { eapply steps_cons; [reflexivity|]. eapply steps_cons; [reflexivity|]. apply steps_nil. }
  split; [exact Hs|].
  assert (forall status, elsewhere 8 7 (example_env 9 status)) as He.
  { intros status. split; [by intros ? ? [= <- <-]|by intros ? [= <-]]. }
  destruct (held_waits_for_capture default_cfg 3 4 example_tracer 8 example_capture _ _ _ example_wf example_held
    eq_refl (Forall_cons_2 _ _ _ (He _) (Forall_cons_2 _ _ _ (He _) (Forall_nil_2 _))) Hs) as (H1 & _ & H3).
  by split.
Defined.


