(* ===== verification/Bootstrap.v ===== *)
(** * The start of the tracer: [ensure_started], [spawn_ptrace_tracer] and the
    head of [run_ptrace_loop] in [src/src/hook/ptrace.rs]

    The first hook (or the constructor of the library) forks a tracer that
    attaches to the process.  A computation changes the state of one process
    ([Proc]); the child of the fork runs on a copy, and the two meet in the byte
    that the child writes and the parent waits for.  What the kernel and the
    dynamic linker answer is the record [Kernel]. *)
From S2P Require Import Prelude RustStr Config Layout Window Flags Proc FdTable Fgraph Tracer.

Definition PTRACE_ATTACH : Z := 16.
Definition PTRACE_SETOPTIONS : Z := 0x4200.
Definition PTRACE_SYSCALL : Z := 24.
Definition PTRACE_O_TRACESYSGOOD : Z := 0x00000001.
Definition PTRACE_O_TRACEFORK : Z := 0x00000002.
Definition PTRACE_O_TRACEVFORK : Z := 0x00000004.
Definition PTRACE_O_TRACECLONE : Z := 0x00000008.
Definition PTRACE_O_TRACEEXEC : Z := 0x00000010.
Definition PTRACE_O_TRACEEXIT : Z := 0x00000040.
Definition PR_SET_PTRACER : Z := 0x59616d61.
Definition PR_SET_PTRACER_ANY : Z := -1.
Definition F_GETFL : Z := 3.
Definition F_SETFL : Z := 4.

(** The answers of the system, for the parent and the child alike. *)
Record Kernel := {
  k_found : string -> bool;          (* is the function in a library behind this one *)
  k_debug : option string;           (* the variable LIB_CUDATRACE_PTRACE_DEBUG *)
  k_errno : Z;                       (* errno after a failed call *)
  k_pipe : nat -> option (Z * Z);    (* the n-th call of pipe *)
  k_fork : Z;                        (* in the parent *)
  k_getppid : Z;
  k_fcntl : Z -> Z -> Z -> Z;        (* fcntl of a descriptor, command and argument *)
  k_ptrace : Z -> Z -> Z;            (* ptrace of a request and its data, on the target *)
  k_waits : list WaitRes;            (* waitpid of the target, call by call *)
  k_write_ok : bool;                 (* does a write on the ready pipe arrive *)
  k_read_ok : bool                   (* does the read of the ready pipe not fail *)
}.

(** The state of a process that the code touches: its descriptors, the statics
    of the file, what it wrote to standard error and to the ready pipe, and
    tracefs, as this process last saw it. *)
Record Proc (S : Type) := {
  p_open : gset Z;
  p_nonblocking : gset Z;
  p_ptracer : option Z;
  p_pipes : nat;
  START : bool;
  IN_TRACER_PROCESS : bool;
  DEPTH_PIPE_WR_FD : Z;
  FGRAPH_WINDOW_PIPE_WR_FD : Z;
  p_stderr : list string;
  p_ready : list Z;
  p_tracefs : S
}.
Arguments Build_Proc {S}.
Arguments p_open {S}.
Arguments p_nonblocking {S}.
Arguments p_ptracer {S}.
Arguments p_pipes {S}.
Arguments START {S}.
Arguments IN_TRACER_PROCESS {S}.
Arguments DEPTH_PIPE_WR_FD {S}.
Arguments FGRAPH_WINDOW_PIPE_WR_FD {S}.
Arguments p_stderr {S}.
Arguments p_ready {S}.
Arguments p_tracefs {S}.

Section Setters.
Context {S : Type}.
Implicit Types p : Proc S.

Definition set_open f p := Build_Proc (f (p_open p)) (p_nonblocking p) (p_ptracer p) (p_pipes p) (START p)
  (IN_TRACER_PROCESS p) (DEPTH_PIPE_WR_FD p) (FGRAPH_WINDOW_PIPE_WR_FD p) (p_stderr p) (p_ready p) (p_tracefs p).
Definition set_nonblock fd p := Build_Proc (p_open p) ({[ fd ]} ∪ p_nonblocking p) (p_ptracer p) (p_pipes p) (START p)
  (IN_TRACER_PROCESS p) (DEPTH_PIPE_WR_FD p) (FGRAPH_WINDOW_PIPE_WR_FD p) (p_stderr p) (p_ready p) (p_tracefs p).
Definition set_ptracer t p := Build_Proc (p_open p) (p_nonblocking p) (Some t) (p_pipes p) (START p)
  (IN_TRACER_PROCESS p) (DEPTH_PIPE_WR_FD p) (FGRAPH_WINDOW_PIPE_WR_FD p) (p_stderr p) (p_ready p) (p_tracefs p).
Definition count_pipe p := Build_Proc (p_open p) (p_nonblocking p) (p_ptracer p) (Datatypes.S (p_pipes p)) (START p)
  (IN_TRACER_PROCESS p) (DEPTH_PIPE_WR_FD p) (FGRAPH_WINDOW_PIPE_WR_FD p) (p_stderr p) (p_ready p) (p_tracefs p).
Definition set_started p := Build_Proc (p_open p) (p_nonblocking p) (p_ptracer p) (p_pipes p) true
  (IN_TRACER_PROCESS p) (DEPTH_PIPE_WR_FD p) (FGRAPH_WINDOW_PIPE_WR_FD p) (p_stderr p) (p_ready p) (p_tracefs p).
Definition set_in_tracer p := Build_Proc (p_open p) (p_nonblocking p) (p_ptracer p) (p_pipes p) (START p)
  true (DEPTH_PIPE_WR_FD p) (FGRAPH_WINDOW_PIPE_WR_FD p) (p_stderr p) (p_ready p) (p_tracefs p).
Definition store_fds d w p := Build_Proc (p_open p) (p_nonblocking p) (p_ptracer p) (p_pipes p) (START p)
  (IN_TRACER_PROCESS p) d w (p_stderr p) (p_ready p) (p_tracefs p).
Definition add_stderr l p := Build_Proc (p_open p) (p_nonblocking p) (p_ptracer p) (p_pipes p) (START p)
  (IN_TRACER_PROCESS p) (DEPTH_PIPE_WR_FD p) (FGRAPH_WINDOW_PIPE_WR_FD p) (p_stderr p ++ [l]) (p_ready p) (p_tracefs p).
Definition add_ready b p := Build_Proc (p_open p) (p_nonblocking p) (p_ptracer p) (p_pipes p) (START p)
  (IN_TRACER_PROCESS p) (DEPTH_PIPE_WR_FD p) (FGRAPH_WINDOW_PIPE_WR_FD p) (p_stderr p) (p_ready p ++ b) (p_tracefs p).
Definition set_fs (s : S) p := Build_Proc (p_open p) (p_nonblocking p) (p_ptracer p) (p_pipes p) (START p)
  (IN_TRACER_PROCESS p) (DEPTH_PIPE_WR_FD p) (FGRAPH_WINDOW_PIPE_WR_FD p) (p_stderr p) (p_ready p) s.

End Setters.

Definition B (S A : Type) : Type := Proc S -> A * Proc S.
#[export] Instance B_ret {S} : MRet (B S) := fun A a p => (a, p).
#[export] Instance B_bind {S} : MBind (B S) := fun A A' k m p => let '(a, p) := m p in k a p.

(** How a function of the parent can end: it returns, the process exits, or it
    waits for a byte that never comes. *)
Inductive Outcome := Returned | Exited (status : Z) | Blocked.

(** How far the child gets: into the loop, with its variables; to its end; or
    it waits for a stop that never comes. *)
Inductive ChildEnd (S : Type) := Tracing (t : Tracer S) | GaveUp | Waits.
Arguments Tracing {S}.
Arguments GaveUp {S}.
Arguments Waits {S}.

Section Bootstrap.
Context {S : Type} `{!TraceFs S} {PF : ProcFs} (cfg : Config) (k : Kernel).

Definition gets {A} (f : Proc S -> A) : B S A := fun p => (f p, p).
Definition modify (f : Proc S -> Proc S) : B S () := fun p => ((), f p).

(** ** Functions of the C library *)

Definition real_read : bool := k_found k "read".
Definition real_write : bool := k_found k "write".
Definition real_close : bool := k_found k "close".
Definition real_prctl : bool := k_found k "prctl".

Definition call_real_close (fd : Z) : B S () :=
  if real_close then modify (set_open (fun fds => fds ∖ {[ fd ]})) else mret ().

(** [PR_SET_PTRACER] with the process that may attach. *)
Definition call_real_prctl (option tracer : Z) : B S () :=
  if real_prctl && (option =? PR_SET_PTRACER) then modify (set_ptracer tracer) else mret ().

(** A write on the ready pipe. *)
Definition call_real_write (fd : Z) (bytes : list Z) : B S () :=
  fds ← gets p_open;
  if real_write && k_write_ok k && bool_decide (fd ∈ fds) then modify (add_ready bytes) else mret ().

(** [pipe(fds)]: the ends for reading and for writing. *)
Definition pipe : B S (option (Z * Z)) :=
  n ← gets p_pipes; modify count_pipe;;
  match k_pipe k n with
  | Some (r, w) => modify (set_open (fun fds => {[ r; w ]} ∪ fds));; mret (Some (r, w))
  | None => mret None
  end.

(** ** Messages *)

Definition debug_enabled : bool :=
  match k_debug k with
  | Some v => existsb (String.eqb (to_ascii_lowercase (trim v))) ["1"; "true"; "yes"; "on"]
  | None => false
  end.

Definition debug_log (msg : string) : B S () :=
  if negb debug_enabled then mret () else modify (add_stderr ("[cudatrace-ptrace] " +:+ msg)).

Definition debug_log_errno (msg : string) : B S () :=
  if negb debug_enabled then mret () else debug_log (msg +:+ ": errno=" +:+ fmt_i (k_errno k)).

Definition log_fgraph_error (msg : string) : B S () := modify (add_stderr ("[cudatrace-fgraph] " +:+ msg)).

Definition fatal_exit (msg : string) : B S Outcome := log_fgraph_error msg;; mret (Exited 1).

(** ** System calls of the tracer *)

Definition ptrace_call (request data : Z) : option Z :=
  let ret := k_ptrace k request data in if ret =? -1 then None else Some ret.

Definition ptrace_attach : option Z := ptrace_call PTRACE_ATTACH 0.
Definition ptrace_syscall (signal : Z) : option Z := ptrace_call PTRACE_SYSCALL signal.
Definition set_ptrace_options : option Z :=
  let opts := Z.lor (Z.lor (Z.lor (Z.lor (Z.lor PTRACE_O_TRACESYSGOOD PTRACE_O_TRACECLONE) PTRACE_O_TRACEFORK)
                             PTRACE_O_TRACEVFORK) PTRACE_O_TRACEEXEC) PTRACE_O_TRACEEXIT in
  ptrace_call PTRACE_SETOPTIONS opts.

(** The loop over the answers of [waitpid]; [None] when it has not ended. *)
Fixpoint wait_for_stop (waits : list WaitRes) : option bool :=
  match waits with
  | [] => None
  | WaitErr err :: waits => if err =? EINTR then wait_for_stop waits else Some false
  | WaitStatus _ status :: waits =>
    if wifstopped status then Some true
    else if wifexited status || wifsignaled status then Some false
    else wait_for_stop waits
  end.

Definition set_nonblocking (fd : Z) : B S () :=
  if fd <? 0 then mret ()
  else
    let flags := k_fcntl k fd F_GETFL 0 in
    if flags <? 0 then mret ()
    else if k_fcntl k fd F_SETFL (Z.lor flags O_NONBLOCK) <? 0 then mret ()
    else modify (set_nonblock fd).

Definition signal_ready (fd : Z) (ok : bool) : B S () := call_real_write fd [if ok then 49 else 48].

(** ** The child *)

(** The head of [run_ptrace_loop], up to its first iteration. *)
Definition start_ptrace_loop (target ready_fd bootstrap_hidden_fd depth_read_fd depth_hidden_fd
    fgraph_window_read_fd fgraph_window_hidden_fd : Z) : B S (ChildEnd S) :=
  match ptrace_attach with
  | None => debug_log_errno "ptrace attach failed";; signal_ready ready_fd false;; mret GaveUp
  | Some _ =>
  match wait_for_stop (k_waits k) with
  | None => mret Waits
  | Some false => debug_log_errno "wait for attach-stop failed";; signal_ready ready_fd false;; mret GaveUp
  | Some true =>
  match set_ptrace_options with
  | None => debug_log_errno "set ptrace options failed";; signal_ready ready_fd false;; mret GaveUp
  | Some _ =>
  match ptrace_syscall 0 with
  | None => debug_log_errno "resume ptrace syscall failed";; signal_ready ready_fd false;; mret GaveUp
  | Some _ =>
    fs ← gets p_tracefs;
    let '(controller, fs) :=
      if fgraph_enabled cfg then
        let '(r, fs) := init_or_fail cfg fs in
        (match r with inl controller => inl (Some controller) | inr err => inr err end, fs)
      else (inl None, fs) in
    modify (set_fs fs);;
    match controller with
    | inr err => debug_log ("fgraph init failed: " +:+ err);; signal_ready ready_fd false;; mret GaveUp
    | inl controller =>
      signal_ready ready_fd true;;
      call_real_close ready_fd;;
      set_nonblocking depth_read_fd;;
      set_nonblocking fgraph_window_read_fd;;
      let t := initial_tracer cfg target bootstrap_hidden_fd depth_hidden_fd fgraph_window_hidden_fd controller fs in
      (if debug_enabled then
         debug_log ("loaded " +:+ fmt_u (Z.of_nat (length (cudatrace_ranges t)))
                      +:+ " cudatrace map range(s) for pid=" +:+ fmt_i target)
       else mret ());;
      mret (Tracing t)
    end
  end end end end.

(** What the child does after the fork. *)
Definition tracer_child (fds depth_fds fgraph_window_fds : Z * Z) : B S (ChildEnd S) :=
  modify set_in_tracer;;
  debug_log "ptrace child started";;
  call_real_close fds.1;;
  call_real_close depth_fds.2;;
  call_real_close fgraph_window_fds.2;;
  let target := k_getppid k in
  debug_log ("ptrace child attach target=" +:+ fmt_i target);;
  start_ptrace_loop target fds.2 fds.1 depth_fds.1 depth_fds.2 fgraph_window_fds.1 fgraph_window_fds.2.

(** ** The parent *)

(** The read of one byte from the ready pipe: its result and the byte.  The pipe
    is at its end when neither process holds its writing end any more; a child
    that gave up has exited. *)
Definition read_ready (child : ChildEnd S * Proc S) (ready_wr : Z) (p : Proc S) : option (Z * Z) :=
  if negb real_read || negb (k_read_ok k) then Some (-1, 0)
  else
    match p_ready child.2 with
    | byte :: _ => Some (1, byte)
    | [] =>
      let child_holds := match child.1 with GaveUp => false | _ => bool_decide (ready_wr ∈ p_open child.2) end in
      if child_holds || bool_decide (ready_wr ∈ p_open p) then None else Some (0, 0)
    end.

(** [DEPTH_PIPE_WR_FD.swap(-1)] and the other static, each closed if it was set. *)
Definition close_published : B S () :=
  depth_fd ← gets DEPTH_PIPE_WR_FD;
  w ← gets FGRAPH_WINDOW_PIPE_WR_FD;
  modify (store_fds (-1) w);;
  (if 0 <=? depth_fd then call_real_close depth_fd else mret ());;
  fgraph_fd ← gets FGRAPH_WINDOW_PIPE_WR_FD;
  modify (store_fds (-1) (-1));;
  (if 0 <=? fgraph_fd then call_real_close fgraph_fd else mret ()).

(** The parent after the fork. *)
Definition tracer_parent (child : ChildEnd S * Proc S) (fds depth_fds fgraph_window_fds : Z * Z) : B S Outcome :=
  call_real_close fds.2;;
  call_real_close depth_fds.1;;
  call_real_close fgraph_window_fds.1;;
  set_nonblocking depth_fds.2;;
  set_nonblocking fgraph_window_fds.2;;
  modify (store_fds depth_fds.2 fgraph_window_fds.2);;
  answer ← gets (read_ready child fds.2);
  match answer with
  | None => mret Blocked
  | Some (n, byte) =>
    outcome ←
      (if (n =? 1) && (byte =? 49) then debug_log "ptrace child ready";; mret Returned
       else
         debug_log "ptrace child not ready";;
         close_published;;
         if fgraph_enabled cfg
         then fatal_exit "function_graph tracing requested but ptrace tracer failed to initialize"
         else mret Returned);
    match outcome with
    | Returned => call_real_close fds.1;; mret Returned
    | _ => mret outcome
    end
  end.

(** The second result is the child, if there is one. *)
Definition spawn_ptrace_tracer : B S (Outcome * option (ChildEnd S * Proc S)) :=
  call_real_prctl PR_SET_PTRACER PR_SET_PTRACER_ANY;;
  fds ← pipe;
  match fds with
  | None => debug_log_errno "pipe failed";; mret (Returned, None)
  | Some fds =>
  depth_fds ← pipe;
  match depth_fds with
  | None =>
    debug_log_errno "depth pipe failed";;
    call_real_close fds.1;; call_real_close fds.2;;
    mret (Returned, None)
  | Some depth_fds =>
  fgraph_window_fds ← pipe;
  match fgraph_window_fds with
  | None =>
    debug_log_errno "fgraph window pipe failed";;
    call_real_close fds.1;; call_real_close fds.2;;
    call_real_close depth_fds.1;; call_real_close depth_fds.2;;
    mret (Returned, None)
  | Some fgraph_window_fds =>
    if k_fork k <? 0 then
      debug_log_errno "fork failed";;
      call_real_close fds.1;; call_real_close fds.2;;
      call_real_close depth_fds.1;; call_real_close depth_fds.2;;
      call_real_close fgraph_window_fds.1;; call_real_close fgraph_window_fds.2;;
      mret (Returned, None)
    else
      child ← gets (tracer_child fds depth_fds fgraph_window_fds);
      outcome ← tracer_parent child fds depth_fds fgraph_window_fds;
      mret (outcome, Some child)
  end end end.

(** The body of [START.call_once]. *)
Definition start_once : B S (Outcome * option (ChildEnd S * Proc S)) :=
  if fgraph_enabled cfg && negb (mask_syscall (trace cfg)) then
    outcome ← fatal_exit "LIB_CUDATRACE_FGRAPH_FUNCS requires syscall tracing; include `syscall` in LIB_CUDATRACE_TRACE";
    mret (outcome, None)
  else
    checked ←
      (if fgraph_enabled cfg then
         fs ← gets p_tracefs;
         let '(r, fs) := preflight cfg fs in
         modify (set_fs fs);;
         match r with
         | inl _ => mret Returned
         | inr err => fatal_exit ("LIB_CUDATRACE_FGRAPH_FUNCS is set but tracefs function_graph is unavailable: " +:+ err)
         end
       else mret Returned);
    match checked with
    | Returned =>
      if negb (mask_syscall (trace cfg)) then
        debug_log "ptrace disabled by config";; mret (Returned, None)
      else
        debug_log "ptrace bootstrap start";;
        spawn_ptrace_tracer
    | _ => mret (checked, None)
    end.

Definition ensure_started : B S (Outcome * option (ChildEnd S * Proc S)) :=
  internal ← gets IN_TRACER_PROCESS;
  started ← gets START;
  if internal || started then mret (Returned, None)
  else
    result ← start_once;
    match result.1 with
    | Returned => modify set_started;; mret result
    | _ => mret result
    end.

End Bootstrap.
