(* ===== verification/BootstrapFacts.v ===== *)
(** * Theorems about the start of the tracer

    [Bootstrap] joined at the fork: which descriptors are left open, what parent
    and child know of each other, and what becomes of a request for
    function_graph. *)
From S2P Require Import Prelude RustStr Config Layout Window Flags Proc FdTable Fgraph Tracer TracerFacts Bootstrap.

Section Facts.
Context {S : Type} {HF : TraceFs S} {PF : ProcFs} (cfg : Config) (k : Kernel).
Implicit Types (p c : Proc S) (child : ChildEnd S * Proc S).

(** ** One operation at a time *)

(** What the theorems are about: everything but the messages and the modes of
    the descriptors. *)
Record same p p' : Prop := {
  s_open : p_open p' = p_open p;
  s_pipes : p_pipes p' = p_pipes p;
  s_start : START p' = START p;
  s_in : IN_TRACER_PROCESS p' = IN_TRACER_PROCESS p;
  s_depth : DEPTH_PIPE_WR_FD p' = DEPTH_PIPE_WR_FD p;
  s_window : FGRAPH_WINDOW_PIPE_WR_FD p' = FGRAPH_WINDOW_PIPE_WR_FD p;
  s_ready : p_ready p' = p_ready p;
  s_fs : p_tracefs p' = p_tracefs p
}.

Lemma debug_log_same m p : same p (debug_log k m p).2.
Proof. unfold debug_log. by destruct (negb _). Qed.
Lemma debug_log_errno_same m p : same p (debug_log_errno k m p).2.
Proof. unfold debug_log_errno. destruct (negb _); [done|]. apply debug_log_same. Qed.
Lemma prctl_same o t p : same p (call_real_prctl k o t p).2.
Proof. unfold call_real_prctl. by destruct (_ && _). Qed.
Lemma set_nonblocking_same fd p : same p (set_nonblocking k fd p).2.
Proof. unfold set_nonblocking. repeat destruct (_ <? 0); done. Qed.


Lemma close_eq fd p : real_close k = true -> call_real_close k fd p = ((), set_open (fun fds => fds ∖ {[ fd ]}) p).
Proof. unfold call_real_close. by intros ->. Qed.

(** The bytes that reach the ready pipe. *)
Definition sent (fd : Z) (ok : bool) p : list Z :=
  if real_write k && k_write_ok k && bool_decide (fd ∈ p_open p) then [if ok then 49 else 48] else [].

Lemma signal_ready_eq fd ok p : signal_ready k fd ok p = ((), add_ready (sent fd ok p) p).
Proof.
  unfold signal_ready, call_real_write, gets, modify, mbind, B_bind, mret, B_ret, sent.
  destruct (_ && _); [done|]. unfold add_ready. rewrite app_nil_r. by destruct p.
Qed.

End Facts.

(** The next call of a computation, by what it leaves unchanged. *)
Ltac call_same m lem :=
  pose proof lem; destruct m as [[] ?]; cbn [snd fst] in *.
Ltac run_step :=
  match goal with
  | |- context [debug_log_errno ?k ?m ?p] => call_same (debug_log_errno k m p) (debug_log_errno_same k m p)
  | |- context [debug_log ?k ?m ?p] => call_same (debug_log k m p) (debug_log_same k m p)
  | |- context [call_real_prctl ?k ?o ?t ?p] => call_same (call_real_prctl k o t p) (prctl_same k o t p)
  | |- context [set_nonblocking ?k ?fd ?p] => call_same (set_nonblocking k fd p) (set_nonblocking_same k fd p)
  | H : real_close ?k = true |- context [call_real_close ?k ?fd ?p] => rewrite (close_eq k fd p H); cbn beta iota
  | |- context [signal_ready ?k ?fd ?ok ?p] => rewrite (signal_ready_eq k fd ok p); cbn beta iota
  end.
Ltac open_same :=
  repeat match goal with H : same _ _ |- _ => destruct H end;
  cbn [set_open set_nonblock add_stderr set_ptracer set_started set_in_tracer store_fds add_ready set_fs count_pipe p_open p_pipes START
       IN_TRACER_PROCESS DEPTH_PIPE_WR_FD FGRAPH_WINDOW_PIPE_WR_FD p_ready p_tracefs] in *.
Ltac chase := repeat match goal with H : ?f ?q = _ |- context [?f ?q] => is_var q; rewrite H end.
Ltac open_code := unfold gets, modify, mbind, B_bind, mret, B_ret.

Section Child.
Context {S : Type} {HF : TraceFs S} {PF : ProcFs} (cfg : Config) (k : Kernel).
Implicit Types (p c : Proc S) (child : ChildEnd S * Proc S).
Hypothesis close_found : real_close k = true.

(** The controller the loop starts with. *)
Definition controller_of (fs : S) (controller : option TraceFsController) (fs' : S) : Prop :=
  if fgraph_enabled cfg then exists ctl, controller = Some ctl /\ init_or_fail cfg fs = (inl ctl, fs')
  else controller = None /\ fs' = fs.

Definition child_ends (target ready b dh wh : Z) p (e : ChildEnd S) c : Prop :=
  IN_TRACER_PROCESS c = IN_TRACER_PROCESS p
  /\ match e with
     | Waits => p_ready c = p_ready p /\ p_open c = p_open p
     | GaveUp => p_ready c = p_ready p ++ sent k ready false p /\ p_open c = p_open p
     | Tracing t =>
       p_ready c = p_ready p ++ sent k ready true p /\ p_open c = p_open p ∖ {[ ready ]}
       /\ exists controller fs', controller_of (p_tracefs p) controller fs'
            /\ t = initial_tracer cfg target b dh wh controller fs'
     end.

Lemma gave_up msg target ready b dh wh p :
  let '(e, c) := (debug_log_errno k msg;; signal_ready k ready false;; mret GaveUp) p in
  child_ends target ready b dh wh p e c.
Proof.
  open_code. repeat run_step. unfold child_ends, sent. open_same. by chase.
Qed.

Lemma start_loop_ends target ready b dr dh wr wh p :
  let '(e, c) := start_ptrace_loop cfg k target ready b dr dh wr wh p in
  child_ends target ready b dh wh p e c.
Proof.
  unfold start_ptrace_loop.
  destruct (ptrace_attach k); [|apply gave_up].
  destruct (wait_for_stop _) as [[|]|]; [|apply gave_up|by split].
  destruct (set_ptrace_options k); [|apply gave_up].
  destruct (ptrace_syscall k 0); [|apply gave_up].
  unfold child_ends, controller_of. open_code.
  destruct (fgraph_enabled cfg) eqn:Eg; [destruct (init_or_fail cfg (p_tracefs p)) as [[ctl|err] fs'] eqn:Ei|];
    cbn [fst snd].
  - destruct (debug_enabled k); repeat run_step; unfold sent; open_same; chase; split_and!; [done..| |done|done|done|];
      exists (Some ctl), fs'; eauto.
  - repeat run_step. unfold sent. open_same. by chase.
  - destruct (debug_enabled k); repeat run_step; unfold sent; open_same; chase; split_and!; [done..| |done|done|done|];
      by exists None, (p_tracefs p).
Qed.

(** The writing ends that the child closes, and the reading end of its own. *)
Definition child_closes (fds depth_fds window_fds : Z * Z) : gset Z := {[ fds.1; depth_fds.2; window_fds.2 ]}.

Lemma tracer_child_ends fds depth_fds window_fds p :
  let '(e, c) := tracer_child cfg k fds depth_fds window_fds p in
  exists p1, p_open p1 = p_open p ∖ child_closes fds depth_fds window_fds /\ IN_TRACER_PROCESS p1 = true
    /\ p_ready p1 = p_ready p /\ p_tracefs p1 = p_tracefs p
    /\ child_ends (k_getppid k) fds.2 fds.1 depth_fds.2 window_fds.2 p1 e c.
Proof.
  unfold tracer_child. open_code. repeat run_step.
  match goal with |- let '(_, _) := start_ptrace_loop ?cfg ?k ?t ?r ?b ?dr ?dh ?wr ?wh ?p in _ =>
    pose proof (start_loop_ends t r b dr dh wr wh p) as He;
    destruct (start_ptrace_loop cfg k t r b dr dh wr wh p) as [e c]; exists p end.
  split_and!; [| | | |exact He]; open_same; chase; [|done..]. unfold child_closes. set_solver.
Qed.

(** ** The parent *)

(** What the read of the ready pipe gives once the parent has closed its own
    writing end. *)
Definition answer child (ready_wr : Z) : option (Z * Z) :=
  if negb (real_read k) || negb (k_read_ok k) then Some (-1, 0)
  else
    match p_ready child.2 with
    | byte :: _ => Some (1, byte)
    | [] =>
      if match child.1 with GaveUp => false | _ => bool_decide (ready_wr ∈ p_open child.2) end then None else Some (0, 0)
    end.

Lemma read_ready_answer child ready_wr p : ready_wr ∉ p_open p -> read_ready k child ready_wr p = answer child ready_wr.
Proof. intros Hn. unfold read_ready, answer. rewrite (bool_decide_eq_false_2 _ Hn). by rewrite orb_false_r. Qed.

Definition is_ready (a : Z * Z) : bool := (a.1 =? 1) && (a.2 =? 49).

Definition parent_closes (fds depth_fds window_fds : Z * Z) : gset Z := {[ fds.1; fds.2; depth_fds.1; window_fds.1 ]}.

Lemma close_published_eq p : 0 <= DEPTH_PIPE_WR_FD p -> 0 <= FGRAPH_WINDOW_PIPE_WR_FD p ->
  close_published k p = ((), set_open (fun fds => fds ∖ {[ FGRAPH_WINDOW_PIPE_WR_FD p ]})
    (store_fds (-1) (-1) (set_open (fun fds => fds ∖ {[ DEPTH_PIPE_WR_FD p ]})
      (store_fds (-1) (FGRAPH_WINDOW_PIPE_WR_FD p) p)))).
Proof.
  intros H1%Z.leb_le H2%Z.leb_le. unfold close_published. open_code. rewrite H1.
  repeat run_step. cbn. rewrite H2. by repeat run_step.
Qed.

Definition parent_ends child (fds depth_fds window_fds : Z * Z) p (o : Outcome) p' : Prop :=
  IN_TRACER_PROCESS p' = IN_TRACER_PROCESS p
  /\ match o, answer child fds.2 with
     | Blocked, None => True
     | Exited s, Some a => s = 1 /\ fgraph_enabled cfg = true /\ is_ready a = false
     | Returned, Some a =>
       if is_ready a then
         DEPTH_PIPE_WR_FD p' = depth_fds.2 /\ FGRAPH_WINDOW_PIPE_WR_FD p' = window_fds.2
         /\ p_open p' = p_open p ∖ parent_closes fds depth_fds window_fds
       else
         fgraph_enabled cfg = false /\ DEPTH_PIPE_WR_FD p' = -1 /\ FGRAPH_WINDOW_PIPE_WR_FD p' = -1
         /\ p_open p' = p_open p ∖ ({[ depth_fds.2; window_fds.2 ]} ∪ parent_closes fds depth_fds window_fds)
     | _, _ => False
     end.

Lemma tracer_parent_ends child fds depth_fds window_fds p : 0 <= depth_fds.2 -> 0 <= window_fds.2 ->
  let '(o, p') := tracer_parent cfg k child fds depth_fds window_fds p in
  parent_ends child fds depth_fds window_fds p o p'.
Proof.
  intros Hd Hw. unfold tracer_parent. open_code. repeat run_step.
  rewrite read_ready_answer by (open_same; chase; set_solver).
  unfold parent_ends. destruct (answer child fds.2) as [[n byte]|] eqn:Ea; [|open_same; by chase].
  unfold is_ready. cbn [fst snd]. destruct ((n =? 1) && (byte =? 49)).
  - repeat run_step. open_same. chase. split_and!; [done..|]. unfold parent_closes. set_solver.
  - repeat run_step. rewrite close_published_eq by (open_same; chase; done).
    cbn beta iota. destruct (fgraph_enabled cfg) eqn:Eg.
    + unfold fatal_exit, log_fgraph_error. open_code. open_same. by chase.
    + repeat run_step. open_same. chase. split_and!; [done..|]. unfold parent_closes. set_solver.
Qed.

(** ** The whole start *)

Lemma pipe_eq p : pipe k p = match k_pipe k (p_pipes p) with
  | Some (r, w) => (Some (r, w), set_open (fun fds => {[ r; w ]} ∪ fds) (count_pipe p))
  | None => (None, count_pipe p)
  end.
Proof. unfold pipe. open_code. cbn. by destruct (k_pipe k _) as [[r w]|]. Qed.

(** Before the first start of a process. *)
Record not_started p : Prop := {
  ns_start : START p = false;
  ns_in : IN_TRACER_PROCESS p = false;
  ns_depth : DEPTH_PIPE_WR_FD p = -1;
  ns_window : FGRAPH_WINDOW_PIPE_WR_FD p = -1;
  ns_pipes : p_pipes p = 0%nat;
  ns_ready : p_ready p = []
}.

(** The six ends are descriptors that were not in use, no two the same. *)
Definition pipe_fds : list Z :=
  concat ((fun n => match k_pipe k n with Some (r, w) => [r; w] | None => [] end) <$> [0%nat; 1%nat; 2%nat]).
Record pipes_fresh p : Prop := {
  pf_distinct : NoDup pipe_fds;
  pf_unused fd : fd ∈ pipe_fds -> 0 <= fd /\ fd ∉ p_open p
}.

Definition pipe_or_fork_fails : Prop :=
  k_pipe k 0 = None \/ k_pipe k 1 = None \/ k_pipe k 2 = None \/ k_fork k < 0.

#[local] Ltac forked_failed :=
  open_same; chase; split; [tauto|]; split_and!; try done;
  match goal with Hnew : forall fd, fd ∈ _ -> _ |- _ =>
    apply leibniz_equiv; intros x; specialize (Hnew x); set_solver end.

(** No tracer was forked: the process is as before. *)
Definition not_forked p (r : Outcome * option (ChildEnd S * Proc S)) p' : Prop :=
  r = (Returned, None) /\ p_open p' = p_open p /\ DEPTH_PIPE_WR_FD p' = -1 /\ FGRAPH_WINDOW_PIPE_WR_FD p' = -1
  /\ IN_TRACER_PROCESS p' = IN_TRACER_PROCESS p.

(** A tracer was forked, from the state [p1]. *)
Definition forked p (r : Outcome * option (ChildEnd S * Proc S)) p' : Prop :=
  exists fds depth_fds window_fds p1 e c,
    k_pipe k 0 = Some fds /\ k_pipe k 1 = Some depth_fds /\ k_pipe k 2 = Some window_fds
    /\ p_open p1 = list_to_set pipe_fds ∪ p_open p /\ IN_TRACER_PROCESS p1 = IN_TRACER_PROCESS p
    /\ p_ready p1 = p_ready p /\ p_tracefs p1 = p_tracefs p
    /\ r.2 = Some (e, c) /\ tracer_child cfg k fds depth_fds window_fds p1 = (e, c)
    /\ parent_ends (e, c) fds depth_fds window_fds p1 r.1 p'.

Lemma spawn_cases p : p_pipes p = 0%nat -> DEPTH_PIPE_WR_FD p = -1 -> FGRAPH_WINDOW_PIPE_WR_FD p = -1 ->
  pipes_fresh p ->
  let '(r, p') := spawn_ptrace_tracer cfg k p in
  (pipe_or_fork_fails /\ not_forked p r p') \/ (~ pipe_or_fork_fails /\ forked p r p').
Proof.
  intros Hn Hd Hw [Hdis Hnew]. unfold pipe_or_fork_fails, forked, not_forked, pipe_fds in *.
  unfold spawn_ptrace_tracer. open_code. run_step. rewrite pipe_eq.
  assert (p_pipes p0 = 0%nat) as -> by (open_same; congruence).
  cbn [fmap list_fmap concat] in *.
  destruct (k_pipe k 0) as [[r0 w0]|] eqn:E0; [|repeat run_step; left; open_same; chase; split; [by left|by split_and!]].
  cbn [fst snd]. rewrite pipe_eq. cbn [set_open count_pipe p_pipes].
  assert (p_pipes p0 = 0%nat) as -> by (open_same; congruence).
  destruct (k_pipe k 1) as [[r1 w1]|] eqn:E1; [|repeat run_step; left; forked_failed].
  cbn [fst snd]. rewrite pipe_eq. cbn [set_open count_pipe p_pipes].
  assert (p_pipes p0 = 0%nat) as -> by (open_same; congruence).
  destruct (k_pipe k 2) as [[r2 w2]|] eqn:E2; [|repeat run_step; left; forked_failed].
  destruct (Z.ltb_spec (k_fork k) 0); [repeat run_step; left; forked_failed|].
  match goal with |- context [tracer_child cfg k ?a ?b ?c ?q] => set (p1 := q);
    destruct (tracer_child cfg k a b c p1) as [e c1] eqn:Ec end.
  assert (0 <= w1 /\ 0 <= w2) as [? ?] by (split; apply Hnew; set_solver).
  pose proof (tracer_parent_ends (e, c1) (r0, w0) (r1, w1) (r2, w2) p1 ltac:(done) ltac:(done)) as Hp.
  destruct (tracer_parent _ _ _ _ _ _ p1) as [o p']. right.
  split; [intros [?|[?|[?|?]]]; [done..|lia]|].
  exists (r0, w0), (r1, w1), (r2, w2), p1, e, c1. split_and!; try done; subst p1; open_same; chase; [|done..].
  cbn [app list_to_set]. set_solver.
Qed.

(** What the parent hears of a child that ends so. *)
Definition heard (e : ChildEnd S) : option (Z * Z) :=
  if negb (real_read k) || negb (k_read_ok k) then Some (-1, 0)
  else
    match e with
    | Waits => None
    | GaveUp => Some (if real_write k && k_write_ok k then (1, 48) else (0, 0))
    | Tracing _ => Some (if real_write k && k_write_ok k then (1, 49) else (0, 0))
    end.

Lemma forked_answer fds depth_fds window_fds p p1 e c :
  pipes_fresh p -> k_pipe k 0 = Some fds -> k_pipe k 1 = Some depth_fds -> k_pipe k 2 = Some window_fds ->
  p_open p1 = list_to_set pipe_fds ∪ p_open p -> p_ready p1 = [] ->
  tracer_child cfg k fds depth_fds window_fds p1 = (e, c) -> answer (e, c) fds.2 = heard e.
Proof.
  intros [Hdis _] E0 E1 E2 Ho Hr Hc. unfold pipe_fds in *. cbn [fmap list_fmap concat] in *.
  rewrite E0, E1, E2 in *. destruct fds as [r0 w0], depth_fds as [r1 w1], window_fds as [r2 w2].
  pose proof (tracer_child_ends (r0, w0) (r1, w1) (r2, w2) p1) as He. rewrite Hc in He.
  destruct He as (p2 & Ho2 & _ & Hr2 & _ & _ & He). unfold answer, heard. destruct (_ || _); [done|]. cbn [fst snd] in *.
  assert (w0 ∈ p_open p2) as Hin.
  { rewrite Ho2, Ho. unfold child_closes. cbn [app fst snd list_to_set] in *.
    repeat (apply list.NoDup_cons in Hdis as [? Hdis]). set_solver. }
  assert (p_ready p2 = []) as Hr' by congruence. rewrite Hr' in He. unfold sent in He.
  rewrite (bool_decide_eq_true_2 _ Hin), andb_true_r in He. cbn [app] in He.
  destruct e; destruct He as [Her Heo].
  - destruct Heo as [Heo _]. rewrite Her, Heo. destruct (_ && _); [done|].
    rewrite bool_decide_eq_false_2 by set_solver. done.
  - rewrite Her. by destruct (_ && _).
  - rewrite Her, Heo. by rewrite (bool_decide_eq_true_2 _ Hin).
Qed.

(** The first answer that tells something is a stop: before it there are only
    interrupted waits and states that are neither a stop nor the end. *)
Definition tells_nothing (r : WaitRes) : Prop :=
  match r with
  | WaitErr err => err = EINTR
  | WaitStatus _ status => wifstopped status = false /\ wifexited status = false /\ wifsignaled status = false
  end.
Definition sees_stop (waits : list WaitRes) : Prop :=
  exists before pid status after, waits = before ++ WaitStatus pid status :: after
    /\ Forall tells_nothing before /\ wifstopped status = true.

Lemma wait_for_stop_iff waits : wait_for_stop waits = Some true <-> sees_stop waits.
Proof.
  unfold sees_stop. split.
  - induction waits as [|r waits IH]; [done|]. cbn [wait_for_stop].
    assert (tells_nothing r -> wait_for_stop waits = Some true -> exists before pid status after,
      r :: waits = before ++ WaitStatus pid status :: after /\ Forall tells_nothing before /\ wifstopped status = true) as Hc.
    { intros Hr (before & pid & status & after & -> & Hb & Hs)%IH.
      exists (r :: before), pid, status, after. split; [done|]. split; [by apply list.Forall_cons|done]. }
    destruct r as [err|pid status].
    + destruct (Z.eqb_spec err EINTR); [by apply Hc|done].
    + destruct (wifstopped status) eqn:Es; [by exists [], pid, status, waits|].
      destruct (wifexited status) eqn:Ee; [done|]. destruct (wifsignaled status) eqn:Eg; [done|]. by apply Hc.
  - intros (before & pid & status & after & -> & Hb & Hs). induction Hb as [|r before Hr Hb IH]; cbn [app wait_for_stop].
    + by rewrite Hs.
    + destruct r as [err|pid' status']; [by rewrite Hr|]. by destruct Hr as (-> & -> & ->).
Qed.

(** The tracer attached to the process: PTRACE_ATTACH, a stop, PTRACE_SETOPTIONS
    with the six options of the loop and PTRACE_SYSCALL. *)
Definition attached : Prop :=
  k_ptrace k 16 0 <> -1 /\ sees_stop (k_waits k) /\ k_ptrace k 0x4200 0x5f <> -1 /\ k_ptrace k 24 0 <> -1.

Lemma ptrace_call_ok request data : k_ptrace k request data <> -1 <-> ptrace_call k request data <> None.
Proof. unfold ptrace_call. by destruct (Z.eqb_spec (k_ptrace k request data) (-1)). Qed.

Lemma attached_iff : attached <->
  ptrace_attach k <> None /\ wait_for_stop (k_waits k) = Some true
  /\ set_ptrace_options k <> None /\ ptrace_syscall k 0 <> None.
Proof. unfold attached. by rewrite !ptrace_call_ok, wait_for_stop_iff. Qed.

Lemma start_loop_tracing target ready b dr dh wr wh p :
  (exists t, (start_ptrace_loop cfg k target ready b dr dh wr wh p).1 = Tracing t)
  <-> attached /\ exists controller fs', controller_of (p_tracefs p) controller fs'.
Proof.
  rewrite attached_iff. unfold start_ptrace_loop, controller_of.
  destruct (ptrace_attach k); [|open_code; repeat run_step; naive_solver].
  destruct (wait_for_stop _) as [[|]|]; [|open_code; repeat run_step; naive_solver|naive_solver].
  destruct (set_ptrace_options k); [|open_code; repeat run_step; naive_solver].
  destruct (ptrace_syscall k 0); [|open_code; repeat run_step; naive_solver].
  open_code.
  destruct (fgraph_enabled cfg); [destruct (init_or_fail cfg (p_tracefs p)) as [[ctl|err] fs'] eqn:Ei|];
    cbn [fst snd].
  - destruct (debug_enabled k); repeat run_step; (split; [intros _|eauto]); (split; [done|]); eauto.
  - repeat run_step. split; [by intros [? ?]|]. intros [_ (? & ? & ? & ? & ?)]. done.
  - destruct (debug_enabled k); repeat run_step; (split; [intros _|eauto]); (split; [done|]); eauto.
Qed.

Lemma tracer_child_tracing fds depth_fds window_fds p :
  (exists t, (tracer_child cfg k fds depth_fds window_fds p).1 = Tracing t)
  <-> attached /\ exists controller fs', controller_of (p_tracefs p) controller fs'.
Proof.
  unfold tracer_child. open_code. repeat run_step. rewrite start_loop_tracing. open_same. by chase.
Qed.

(** The controller check in the parent. *)
Definition checked (fs fs' : S) : Prop :=
  if fgraph_enabled cfg then exists u, preflight cfg fs = (inl u, fs') else fs' = fs.

(** The ways a start can go. *)
Inductive start_result p (r : Outcome * option (ChildEnd S * Proc S)) p' : Prop :=
| start_refused : r = (Exited 1, None) -> fgraph_enabled cfg = true ->
    mask_syscall (trace cfg) = false \/ (preflight cfg (p_tracefs p)).1 <> inl tt -> start_result p r p'
| start_disabled : mask_syscall (trace cfg) = false -> fgraph_enabled cfg = false -> not_forked p r p' ->
    start_result p r p'
| start_failed : mask_syscall (trace cfg) = true -> pipe_or_fork_fails -> not_forked p r p' -> start_result p r p'
| start_forked p0 : mask_syscall (trace cfg) = true -> ~ pipe_or_fork_fails ->
    p_open p0 = p_open p -> p_ready p0 = p_ready p -> IN_TRACER_PROCESS p0 = IN_TRACER_PROCESS p ->
    checked (p_tracefs p) (p_tracefs p0) -> forked p0 r p' -> start_result p r p'.

Lemma not_forked_started p r p' : not_forked p r p' -> not_forked p r (set_started p').
Proof. by intros (? & ? & ? & ? & ?). Qed.

Lemma forked_started p r p' : forked p r p' -> forked p r (set_started p').
Proof.
  intros (fds & d & w & p1 & e & c & H). exists fds, d, w, p1, e, c. unfold parent_ends in *.
  cbn [set_started IN_TRACER_PROCESS DEPTH_PIPE_WR_FD FGRAPH_WINDOW_PIPE_WR_FD p_open]. exact H.
Qed.

Lemma result_started p r p' : start_result p r p' -> start_result p r (set_started p').
Proof.
  intros [| | |]; [by apply start_refused|apply start_disabled|apply start_failed|eapply start_forked];
    eauto using not_forked_started, forked_started.
Qed.

Lemma spawn_result p p0 : not_started p -> pipes_fresh p -> mask_syscall (trace cfg) = true ->
  p_open p0 = p_open p -> p_ready p0 = p_ready p -> IN_TRACER_PROCESS p0 = IN_TRACER_PROCESS p ->
  p_pipes p0 = p_pipes p -> DEPTH_PIPE_WR_FD p0 = DEPTH_PIPE_WR_FD p ->
  FGRAPH_WINDOW_PIPE_WR_FD p0 = FGRAPH_WINDOW_PIPE_WR_FD p -> checked (p_tracefs p) (p_tracefs p0) ->
  let '(r, p') := spawn_ptrace_tracer cfg k p0 in start_result p r p'.
Proof.
  intros [] [Hdis Hnew] Hm Ho Hr Hi Hp Hd Hw Hc.
  assert (pipes_fresh p0) as Hf by (split; [done|]; by rewrite Ho).
  pose proof (spawn_cases p0 ltac:(congruence) ltac:(congruence) ltac:(congruence) Hf) as H.
  destruct (spawn_ptrace_tracer cfg k p0) as [r p']. destruct H as [[Hx H]|[Hx H]].
  - apply start_failed; [done..|]. destruct H as (? & ? & ? & ? & ?). split_and!; congruence.
  - by apply (start_forked p r p' p0).
Qed.

Lemma ensure_started_cases p : not_started p -> pipes_fresh p ->
  let '(r, p') := ensure_started cfg k p in start_result p r p'.
Proof.
  intros Hs Hf. pose proof Hs as [Hs1 Hs2 Hs3 Hs4 Hs5 Hs6]. unfold ensure_started. open_code. rewrite Hs1, Hs2. cbn [orb].
  assert (let '(r, p') := start_once cfg k p in start_result p r p') as Hr.
  { unfold start_once, fatal_exit, log_fgraph_error. open_code.
    destruct (fgraph_enabled cfg) eqn:Eg, (mask_syscall (trace cfg)) eqn:Em; cbn [andb negb].
    - destruct (preflight cfg (p_tracefs p)) as [[u|err] fs'] eqn:Ep; cbn [fst snd].
      + run_step. apply (spawn_result p); try done; open_same; chase; try done.
        unfold checked. rewrite Eg. by exists u.
      + apply start_refused; [done..|]. right. by rewrite Ep.
    - apply start_refused; [done..|]. by left.
    - run_step. apply (spawn_result p); try done; open_same; chase; try done. unfold checked. by rewrite Eg.
    - run_step. apply start_disabled; [done..|]. open_same. split_and!; congruence. }
  unfold mbind, B_bind, mret, B_ret in Hr.
  destruct (start_once cfg k p) as [[[| |] child] p'] eqn:E; cbn [fst]; [by apply result_started|done..].
Qed.

(** ** The theorems *)

Lemma seed_keeps_hidden target paths hidden fd :
  fd ∈ hidden -> fd ∈ (seed_fd_state_from_proc cfg target paths hidden).2.
Proof.
  unfold seed_fd_state_from_proc. destruct (fd_entries target) as [entries|]; [|done].
  revert paths hidden. induction entries as [|[raw link] entries IH]; intros paths hidden Hin; [done|]. cbn [foldl].
  unfold seed_entry at 2. destruct (parse_int 32 raw), link as [path|]; try by apply IH.
  apply IH. destruct (is_cudatrace_output_path cfg path); [set_solver|done].
Qed.

Lemma initial_hides target b dh wh ctl (fs : S) fd : fd ∈ [b; dh; wh] -> 0 <= fd ->
  fd ∈ hidden_fds (initial_tracer cfg target b dh wh ctl fs).
Proof.
  intros Hin Hfd. unfold initial_tracer.
  match goal with |- context [seed_fd_state_from_proc cfg target ∅ ?h] =>
    pose proof (seed_keeps_hidden target ∅ h fd) as Hk; destruct (seed_fd_state_from_proc cfg target ∅ h) as [paths hidden] end.
  apply Hk. apply elem_of_list_to_set, list_elem_of_In, filter_In. split; [by apply list_elem_of_In|by apply Z.leb_le].
Qed.

(** The descriptors of three pipes, with the ends that are kept or not. *)
Lemma keep_writing_ends (r0 w0 r1 w1 r2 w2 : Z) (F : gset Z) : NoDup [r0; w0; r1; w1; r2; w2] ->
  (forall fd, fd ∈ [r0; w0; r1; w1; r2; w2] -> fd ∉ F) ->
  (list_to_set [r0; w0; r1; w1; r2; w2] ∪ F) ∖ {[ r0; w0; r1; r2 ]} = {[ w1; w2 ]} ∪ F.
Proof.
  intros Hdis Hn. apply leibniz_equiv. intros x. specialize (Hn x). cbn [list_to_set].
  repeat (apply list.NoDup_cons in Hdis as [?%not_elem_of_cons Hdis]).
  set_unfold. split; [tauto|intros [[->| ->]|]; intuition congruence].
Qed.

Lemma keep_no_end (r0 w0 r1 w1 r2 w2 : Z) (F : gset Z) :
  (forall fd, fd ∈ [r0; w0; r1; w1; r2; w2] -> fd ∉ F) ->
  (list_to_set [r0; w0; r1; w1; r2; w2] ∪ F) ∖ ({[ w1; w2 ]} ∪ {[ r0; w0; r1; r2 ]}) = F.
Proof.
  intros Hn. apply leibniz_equiv. intros x. specialize (Hn x). cbn [list_to_set]. set_unfold. tauto.
Qed.

(** What is true of a start that forked and returned. *)
Lemma forked_returned p p0 (tracer : option (ChildEnd S * Proc S)) p' : pipes_fresh p -> p_ready p0 = [] -> p_open p0 = p_open p ->
  forked p0 (Returned, tracer) p' ->
  exists e c, tracer = Some (e, c) /\ IN_TRACER_PROCESS c = true /\ IN_TRACER_PROCESS p' = IN_TRACER_PROCESS p0
  /\ match heard e with
     | Some a =>
       if is_ready a then
         exists t, e = Tracing t
         /\ p_open p' = {[ DEPTH_PIPE_WR_FD p'; FGRAPH_WINDOW_PIPE_WR_FD p' ]} ∪ p_open p
         /\ 0 <= DEPTH_PIPE_WR_FD p' /\ 0 <= FGRAPH_WINDOW_PIPE_WR_FD p'
         /\ {[ DEPTH_PIPE_WR_FD p'; FGRAPH_WINDOW_PIPE_WR_FD p' ]} ⊆ hidden_fds t
         /\ {[ DEPTH_PIPE_WR_FD p'; FGRAPH_WINDOW_PIPE_WR_FD p' ]} ## p_open c
       else fgraph_enabled cfg = false /\ DEPTH_PIPE_WR_FD p' = -1 /\ FGRAPH_WINDOW_PIPE_WR_FD p' = -1
            /\ p_open p' = p_open p
     | None => False
     end.
Proof.
  intros Hf Hr Ho (fds & d & w & p1 & e & c & E0 & E1 & E2 & Ho1 & Hi1 & Hr1 & _ & [= ->] & Hc & Hi & Hp).
  rewrite Ho in Ho1. exists e, c. split; [done|].
  rewrite (forked_answer fds d w p p1 e c) in Hp by (try done; congruence).
  pose proof (tracer_child_ends fds d w p1) as He. rewrite Hc in He. destruct He as (p2 & Ho2 & Hi2 & _ & _ & Hi3 & He).
  split; [congruence|]. split; [congruence|]. cbn [fst] in Hp.
  destruct Hf as [Hdis Hnew]. unfold pipe_fds in *. cbn [fmap list_fmap concat] in *. rewrite E0, E1, E2 in *.
  destruct fds as [r0 w0], d as [r1 w1], w as [r2 w2]. cbn [app fst snd] in *.
  assert (0 <= w1 /\ 0 <= w2) as [? ?] by (split; apply Hnew; set_solver).
  assert (forall fd, fd ∈ [r0; w0; r1; w1; r2; w2] -> fd ∉ p_open p) as Hn by (intros fd Hin; by apply Hnew).
  unfold child_closes, parent_closes in *. cbn [fst snd] in *.
  destruct (heard e) as [a|] eqn:Eh; [|done]. destruct (is_ready a) eqn:Ea.
  - destruct e as [t| |]; unfold heard in Eh; [|by repeat case_match; simplify_eq..].
    exists t. split; [done|]. destruct Hp as (-> & -> & Hpo), He as (_ & Hec & ctl & fs' & _ & ->).
    split; [rewrite Hpo, Ho1; by apply keep_writing_ends|].
    split_and!; [done..| |rewrite Hec, Ho2; clear; set_solver].
    intros fd [->%elem_of_singleton| ->%elem_of_singleton]%elem_of_union; apply initial_hides; try done; set_solver.
  - destruct Hp as (Hg & -> & -> & Hpo). split_and!; [done..|].
    rewrite Hpo, Ho1. by apply keep_no_end.
Qed.

(** C10: the descriptors of the start.  When [ensure_started] returns, the process
    has the descriptors it had before and, if the tracer is ready, the two
    writing ends that the statics name; every other end of the three pipes is
    closed, whatever call failed.  The tracer does not hold those two ends, so
    that it sees their end, and counts them among the descriptors it hides. *)
Theorem start_accounts_for_descriptors p tracer p' :
  not_started p -> pipes_fresh p -> ensure_started cfg k p = ((Returned, tracer), p') ->
  IN_TRACER_PROCESS p' = false
  /\ ((DEPTH_PIPE_WR_FD p' = -1 /\ FGRAPH_WINDOW_PIPE_WR_FD p' = -1 /\ p_open p' = p_open p)
      \/ (exists t c, tracer = Some (Tracing t, c) /\ IN_TRACER_PROCESS c = true
          /\ p_open p' = {[ DEPTH_PIPE_WR_FD p'; FGRAPH_WINDOW_PIPE_WR_FD p' ]} ∪ p_open p
          /\ 0 <= DEPTH_PIPE_WR_FD p' /\ 0 <= FGRAPH_WINDOW_PIPE_WR_FD p'
          /\ {[ DEPTH_PIPE_WR_FD p'; FGRAPH_WINDOW_PIPE_WR_FD p' ]} ⊆ hidden_fds t
          /\ {[ DEPTH_PIPE_WR_FD p'; FGRAPH_WINDOW_PIPE_WR_FD p' ]} ## p_open c)).
Proof.
  intros Hs Hf E. pose proof (ensure_started_cases p Hs Hf) as Hc. rewrite E in Hc.
  pose proof Hs as [_ Hi _ _ _ Hr].
  destruct Hc as [Hx _ _|_ _ (_ & ? & ? & ? & ?)|_ _ (_ & ? & ? & ? & ?)|p0 _ _ Ho Hr0 Hi0 _ Hk]; [done| | |].
  1,2: split; [congruence|by left].
  destruct (forked_returned p p0 tracer p' Hf ltac:(congruence) Ho Hk) as (e & c & -> & Hic & Hip & Hh).
  split; [congruence|]. destruct (heard e) as [a|]; [|done]. destruct (is_ready a).
  - right. destruct Hh as (t & -> & Hh). by exists t, c.
  - left. by destruct Hh as (_ & Hh).
Qed.

(** C12: what the parent knows of the tracer.  Once the start is over, the parent
    has its pipes open exactly if the tracer is in its loop, as long as its
    read of the ready byte did not fail: that read is made once.  If it was
    interrupted, the tracer traces a process that has closed the pipes.  The
    parent waits for ever exactly if the tracer does. *)
Theorem start_agrees p o tracer p' :
  not_started p -> pipes_fresh p -> real_read k = true -> real_write k = true -> k_write_ok k = true ->
  ensure_started cfg k p = ((o, tracer), p') ->
  (o = Returned ->
     (0 <= DEPTH_PIPE_WR_FD p' <-> k_read_ok k = true /\ exists t c, tracer = Some (Tracing t, c)))
  /\ (o = Blocked <-> k_read_ok k = true /\ exists c, tracer = Some (Waits, c)).
Proof.
  intros Hs Hf Hrd Hwr Hok E. pose proof (ensure_started_cases p Hs Hf) as Hc. rewrite E in Hc.
  destruct Hc as [[= -> ->] _ _|_ _ ([= -> ->] & ? & ? & ? & ?)|_ _ ([= -> ->] & ? & ? & ? & ?)|p0 _ _ Ho Hr0 Hi0 _ Hk].
  1-3: split; [intros ?; first [done|split; [lia|naive_solver]]|naive_solver].
  destruct Hk as (fds & d & w & p1 & e & c & E0 & E1 & E2 & Ho1 & Hi1 & Hr1 & _ & [= ->] & Hc & Hi & Hp).
  rewrite Ho in Ho1. rewrite (forked_answer fds d w p p1 e c) in Hp by (try done; destruct Hs; congruence).
  unfold heard in Hp. rewrite Hrd, Hwr, Hok in Hp. cbn [negb orb andb] in Hp.
  assert (0 <= d.2) as Hd.
  { destruct Hf as [_ Hnew]. apply Hnew. unfold pipe_fds. cbn [fmap list_fmap concat]. rewrite E0, E1, E2.
    destruct fds, d, w. set_solver. }
  destruct (k_read_ok k), e, o; cbn in Hp; naive_solver lia.
Qed.

(** C11: when there is a tracer.  Unless the process is told to exit, the tracer
    is in its loop exactly if tracing of system calls is on, the three pipes
    and the fork succeed, the tracer attaches, sees the process stop, sets its
    options and resumes it, and, if functions are to be captured, its
    controller of tracefs could be made after the check by the parent. *)
Theorem tracer_starts_iff p o tracer p' :
  not_started p -> pipes_fresh p -> ensure_started cfg k p = ((o, tracer), p') ->
  (exists t c, tracer = Some (Tracing t, c)) <->
  mask_syscall (trace cfg) = true /\ ~ pipe_or_fork_fails /\ attached
  /\ exists fs ctl fs', checked (p_tracefs p) fs /\ controller_of fs ctl fs'.
Proof.
  intros Hs Hf E. pose proof (ensure_started_cases p Hs Hf) as Hc. rewrite E in Hc.
  destruct Hc as [[= -> ->] Hg Hbad|Hm _ ([= -> ->] & _)|_ Hx ([= -> ->] & _)|p0 Hm Hx _ _ _ Hck Hk].
  - split; [naive_solver|]. intros (Hm & _ & _ & fs & _ & _ & Hck & _). unfold checked in Hck. rewrite Hg in Hck.
    destruct Hck as [u Hu], Hbad as [?|Hbad]; [congruence|]. rewrite Hu in Hbad. by destruct u.
  - split; [naive_solver|]. intros [? _]. congruence.
  - split; [naive_solver|]. intros (_ & ? & _). done.
  - destruct Hk as (fds & d & w & p1 & e & c & E0 & E1 & E2 & _ & _ & _ & Hfs & [= ->] & Hc & _).
    pose proof (tracer_child_tracing fds d w p1) as Ht. rewrite Hc, Hfs in Ht. cbn [fst] in Ht.
    assert (forall fs, checked (p_tracefs p) fs -> fs = p_tracefs p0) as Hu.
    { unfold checked in *. destruct (fgraph_enabled cfg); [|by intros; congruence].
      destruct Hck as [u Hu]. intros fs [u' Hu']. congruence. }
    split.
    + intros (t & c' & [= -> ->]). destruct (proj1 Ht (ex_intro _ t eq_refl)) as [Ha (ctl & fs' & Hctl)].
      split_and!; [done..|]. by exists (p_tracefs p0), ctl, fs'.
    + intros (_ & _ & Ha & fs & ctl & fs' & ->%Hu & Hctl). destruct (proj2 Ht) as [t ->]; [eauto|]. eauto.
Qed.

(** C13: a request for function_graph.  If functions are to be captured, then a
    start that returns has a tracer with a controller of tracefs and open
    pipes, with the one exception of a pipe or a fork that failed: then the
    start returns as well, and the process runs untraced without a word. *)
Theorem fgraph_request_enforced p o tracer p' :
  not_started p -> pipes_fresh p -> fgraph_enabled cfg = true -> ensure_started cfg k p = ((o, tracer), p') ->
  match o with
  | Returned =>
    (exists t c ctl, tracer = Some (Tracing t, c) /\ fgraph_controller t = Some ctl /\ 0 <= DEPTH_PIPE_WR_FD p')
    \/ (pipe_or_fork_fails /\ tracer = None)
  | Exited status => status = 1
  | Blocked => exists c, tracer = Some (Waits, c)
  end
  /\ (pipe_or_fork_fails -> mask_syscall (trace cfg) = true -> (preflight cfg (p_tracefs p)).1 = inl tt -> o = Returned).
Proof.
  intros Hs Hf Hg E. pose proof (ensure_started_cases p Hs Hf) as Hc. rewrite E in Hc.
  destruct Hc as [[= -> ->] _ Hbad|Hm Hg' ([= -> ->] & _)|_ Hx ([= -> ->] & _)|p0 Hm Hx Ho Hr _ Hck Hk].
  - split; [done|]. intros _ ? ?. destruct Hbad; congruence.
  - congruence.
  - split; [by right|done].
  - split; [|done]. pose proof Hk as (fds & d & w & p1 & e & c & E0 & E1 & E2 & Ho1 & _ & Hr1 & Hfs & [= ->] & Hc & _ & Hp).
    rewrite (forked_answer fds d w p p1 e c) in Hp by (try done; destruct Hs; congruence). cbn [fst] in Hp.
    destruct o as [|status|]; [left|destruct (heard e); [by destruct Hp|done]|].
    + destruct (forked_returned p p0 (Some (e, c)) p' Hf ltac:(destruct Hs; congruence) Ho Hk) as (e' & c' & [= <- <-] & _ & _ & Hh).
      destruct (heard e) as [a|]; [|done]. destruct (is_ready a); [|destruct Hh; congruence].
      destruct Hh as (t & -> & _ & Hd & _).
      pose proof (tracer_child_ends fds d w p1) as He. rewrite Hc in He.
      destruct He as (p2 & _ & _ & _ & _ & _ & _ & _ & ctl & fs' & Hctl & ->). unfold controller_of in Hctl. rewrite Hg in Hctl.
      destruct Hctl as (ctl' & -> & _). eexists _, c, ctl'. split; [done|]. split; [|done].
      unfold initial_tracer. by destruct (seed_fd_state_from_proc _ _ _ _).
    + destruct (heard e) as [a|] eqn:Eh; [done|]. unfold heard in Eh. repeat case_match; try done. by exists c.
Qed.

End Child.

(** ** An example *)

Definition example_kernel : Kernel := {|
  k_found := fun _ => true; k_debug := None; k_errno := 0;
  k_pipe := fun n => [(3, 4); (5, 6); (7, 8)] !! n;
  k_fork := 100; k_getppid := 42; k_fcntl := fun _ _ _ => 0; k_ptrace := fun _ _ => 0;
  k_waits := [WaitErr 4; WaitStatus 42 (stop_status 0 19)]; k_write_ok := true; k_read_ok := true |}.

(** The fork of this one fails. *)
Definition forkless_kernel : Kernel := {|
  k_found := fun _ => true; k_debug := None; k_errno := 11;
  k_pipe := fun n => [(3, 4); (5, 6); (7, 8)] !! n;
  k_fork := -1; k_getppid := 42; k_fcntl := fun _ _ _ => 0; k_ptrace := fun _ _ => 0;
  k_waits := []; k_write_ok := true; k_read_ok := true |}.

Definition capture_cfg : Config := from_lookup (fun name =>
  if String.eqb name "LIB_CUDATRACE_FGRAPH_FUNCS" then Some "cuInit"
  else if String.eqb name "LIB_CUDATRACE_TRACE" then Some "driver,syscall" else None).

Definition fresh_process : Proc PlainFs := {|
  p_open := {[ 0; 1; 2 ]}; p_nonblocking := ∅; p_ptracer := None; p_pipes := 0; START := false;
  IN_TRACER_PROCESS := false; DEPTH_PIPE_WR_FD := -1; FGRAPH_WINDOW_PIPE_WR_FD := -1; p_stderr := [];
  p_ready := []; p_tracefs := example_tracefs |}.

Definition example_start := ensure_started (PF := proc_of (fun _ => None)) capture_cfg example_kernel fresh_process.
Definition forkless_start := ensure_started (PF := proc_of (fun _ => None)) capture_cfg forkless_kernel fresh_process.

Lemma fresh_not_started : not_started fresh_process.
Proof. by split. Qed.

Lemma example_pipes_fresh k : k_pipe k = k_pipe example_kernel -> pipes_fresh k fresh_process.
Proof.
  intros Hp. split; unfold pipe_fds; rewrite Hp.
  - apply (bool_decide_unpack _). vm_compute. exact I.
  - apply list.Forall_forall. apply (bool_decide_unpack _). vm_compute. exact I.
Qed.

Lemma start_result_eq {A} (r : (Outcome * A) * Proc PlainFs) o : r.1.1 = o -> r = ((o, r.1.2), r.2).
Proof. destruct r as [[? ?] ?]. by intros <-. Qed.

Lemma start_accounts_for_descriptors_witness :
  p_open example_start.2 = {[ 0; 1; 2; 6; 8 ]} /\ IN_TRACER_PROCESS example_start.2 = false.
Proof.
  split; [vm_compute; reflexivity|].
  assert (example_start.1.1 = Returned) as Ho by (vm_compute; reflexivity).
  exact (proj1 (start_accounts_for_descriptors (PF := proc_of (fun _ => None)) capture_cfg example_kernel eq_refl
    fresh_process example_start.1.2 example_start.2 fresh_not_started (example_pipes_fresh example_kernel eq_refl)
    (start_result_eq example_start Returned Ho))).
Defined.

Lemma start_agrees_witness :
  0 <= DEPTH_PIPE_WR_FD example_start.2 <->
  k_read_ok example_kernel = true /\ exists t c, example_start.1.2 = Some (Tracing t, c).
Proof.
  assert (example_start.1.1 = Returned) as Ho by (vm_compute; reflexivity).
  exact (proj1 (start_agrees (PF := proc_of (fun _ => None)) capture_cfg example_kernel eq_refl fresh_process Returned
    example_start.1.2 example_start.2 fresh_not_started (example_pipes_fresh example_kernel eq_refl) eq_refl eq_refl eq_refl
    (start_result_eq example_start Returned Ho)) eq_refl).
Defined.

Lemma tracer_starts_iff_witness : ~ exists t c, forkless_start.1.2 = Some (Tracing t, c).
Proof.
  assert (forkless_start.1.1 = Returned) as Ho by (vm_compute; reflexivity).
  intros H.
  destruct (proj1 (tracer_starts_iff (PF := proc_of (fun _ => None)) capture_cfg forkless_kernel eq_refl fresh_process Returned
    forkless_start.1.2 forkless_start.2 fresh_not_started (example_pipes_fresh forkless_kernel eq_refl)
    (start_result_eq forkless_start Returned Ho)) H) as (_ & Hf & _).
  apply Hf. right. right. right. reflexivity.
Defined.

Lemma fgraph_request_enforced_witness :
  ((exists t c ctl, forkless_start.1.2 = Some (Tracing t, c) /\ fgraph_controller t = Some ctl
      /\ 0 <= DEPTH_PIPE_WR_FD forkless_start.2)
   \/ (pipe_or_fork_fails forkless_kernel /\ forkless_start.1.2 = None))
  /\ p_stderr forkless_start.2 = [].
Proof.
  assert (forkless_start.1.1 = Returned) as Ho by (vm_compute; reflexivity).
  split; [|vm_compute; reflexivity].
  exact (proj1 (fgraph_request_enforced (PF := proc_of (fun _ => None)) capture_cfg forkless_kernel eq_refl fresh_process
    Returned forkless_start.1.2 forkless_start.2 fresh_not_started (example_pipes_fresh forkless_kernel eq_refl) eq_refl
    (start_result_eq forkless_start Returned Ho))).
Defined.
