(* ===== verification/Logger.v ===== *)
(** * Writing lines: [src/src/logger.rs], and [write_all] and [FusedWriter] of
    [src/src/hook/ptrace.rs]

    Both loggers append a newline and write the bytes with a loop over partial
    writes.  The answers of [write] are a list that the loops consume; what
    reaches a descriptor is a list of [(fd, bytes)]. *)
From S2P Require Import Prelude RustStr Config Layout Window Proc FdTable.

Definition STDOUT_FILENO : Z := 1.
Definition STDERR_FILENO : Z := 2.

Inductive WriteResult := WriteOk | WriteFailed | WritePending.

(** [write_all]: the outcome, the bytes accepted and the answers left;
    [WritePending] when a [write] has not answered yet. *)
Fixpoint write_all (answers : list WriteRes) (data : list Z) : WriteResult * list Z * list WriteRes :=
  match data with
  | [] => (WriteOk, [], answers)
  | _ =>
    match answers with
    | [] => (WritePending, [], [])
    | WrErr err :: answers =>
      if err =? EINTR then write_all answers data else (WriteFailed, [], answers)
    | WrCount written :: answers =>
      let n := Z.to_nat written in
      let '(r, out, rest) := write_all answers (drop n data) in
      (r, take n data ++ out, rest)
    end
  end.

(** The bytes of a line. *)
Definition line_bytes (line : string) : list Z := bytes_of line ++ [10].

(** ** logger.rs *)

Inductive LoggerTarget :=
| Target_Stdout
| ThreadFiles (base_path : string).

Definition target_of (cfg : Config) : LoggerTarget :=
  match output cfg with
  | OutputMode_Stdout => Target_Stdout
  | OutputMode_File => ThreadFiles (Config.path cfg)
  end.

Definition open_failed_text : string :=
  "[cudatrace] failed to open thread output file, fallback to stdout" +:+ NL.

(** [CString::new] fails on an embedded NUL; [opened] is the answer of openat. *)
Definition open_output_file (path : string) (opened : Z) : option Z :=
  if existsb (Z.eqb 0) (bytes_of path) then None
  else if 0 <=? opened then Some opened else None.

Abbreviation written_to := (list (Z * list Z)).

(** [log_line]: the thread-local sink is [None] once it is torn down, else the
    open descriptor if there is one. *)
Definition log_line (target : LoggerTarget) (tid : Z) (sink : option (option Z)) (opened : Z)
    (answers : list WriteRes) (line : string) : written_to * option (option Z) :=
  let bytes := line_bytes line in
  match target with
  | Target_Stdout =>
    let '(_, out, _) := write_all answers bytes in ([(STDOUT_FILENO, out)], sink)
  | ThreadFiles base_path =>
    let '(result, writes, sink, answers) :=
      match sink with
      | None =>
        let '(r, out, rest) := write_all answers bytes in (r, [(STDOUT_FILENO, out)], None, rest)
      | Some cell =>
        let needs_init := match cell with None => true | Some _ => false end in
        let cell := if needs_init then open_output_file (thread_output_path base_path tid) opened else cell in
        match cell with
        | None =>
          let '(_, out1, rest) := write_all answers (bytes_of open_failed_text) in
          let '(r, out2, rest) := write_all rest bytes in
          (r, [(STDERR_FILENO, out1); (STDOUT_FILENO, out2)], Some None, rest)
        | Some fd =>
          let '(r, out, rest) := write_all answers bytes in (r, [(fd, out)], Some (Some fd), rest)
        end
      end in
    match result with
    | WriteFailed =>
      let '(_, out, _) := write_all answers bytes in (writes ++ [(STDOUT_FILENO, out)], sink)
    | _ => (writes, sink)
    end
  end.

(** ** FusedWriter: the lines of system calls, written by the tracer *)

Abbreviation fused_fds := (gmap Z Z).

(** [fd_for_tid] *)
Definition fd_for_tid (base_path : string) (tid opened : Z) (fds : fused_fds) : option Z * fused_fds :=
  match fds !! tid with
  | Some fd => (Some fd, fds)
  | None =>
    match open_output_file (thread_output_path base_path tid) opened with
    | Some fd => (Some fd, <[tid := fd]> fds)
    | None => (None, fds)
    end
  end.

(** [write_line] *)
Definition write_line (cfg : Config) (tid opened : Z) (answers : list WriteRes) (line : string) (fds : fused_fds)
    : written_to * fused_fds :=
  let bytes := line_bytes line in
  match output cfg with
  | OutputMode_Stdout =>
    let '(_, out, _) := write_all answers bytes in ([(STDOUT_FILENO, out)], fds)
  | OutputMode_File =>
    let '(fd, fds) := fd_for_tid (Config.path cfg) tid opened fds in
    match fd with
    | Some fd =>
      let '(r, out, rest) := write_all answers bytes in
      match r with
      | WriteFailed =>
        let '(_, out', _) := write_all rest bytes in ([(fd, out); (STDOUT_FILENO, out')], fds)
      | _ => ([(fd, out)], fds)
      end
    | None => let '(_, out, _) := write_all answers bytes in ([(STDOUT_FILENO, out)], fds)
    end
  end.

(** [close_tid]: the descriptor closed, if any. *)
Definition close_tid (tid : Z) (fds : fused_fds) : option Z * fused_fds :=
  match fds !! tid with
  | Some fd => (Some fd, delete tid fds)
  | None => (None, fds)
  end.

(** [FusedWriter::from_config] opens nothing; its drop, and the drop of
    [ThreadFileSink] when a thread ends, close what is open. *)
Definition fused_from_config : fused_fds := ∅.
Definition fused_writer_drop (fds : fused_fds) : list Z := (map_to_list fds).*2.
Definition thread_file_sink_drop (sink : option Z) : list Z := match sink with Some fd => [fd] | None => [] end.

(** ** The loop over partial writes *)

(** The answers of a descriptor that takes the whole of [data]: interruptions,
    and counts of at least one byte and at most what is left. *)
Inductive takes_all : list WriteRes -> list Z -> Prop :=
| ta_done answers : takes_all answers []
| ta_eintr answers data : data <> [] -> takes_all answers data -> takes_all (WrErr EINTR :: answers) data
| ta_count n answers data :
    1 <= n <= Z.of_nat (length data) -> takes_all answers (drop (Z.to_nat n) data) ->
    takes_all (WrCount n :: answers) data.

Lemma write_all_takes answers data :
  takes_all answers data -> exists rest, write_all answers data = (WriteOk, data, rest).
Proof.
  induction 1 as [answers|answers data Hne H IH|n answers data Hn H IH].
  - exists answers. by destruct answers.
  - destruct IH as [rest E]. exists rest. destruct data; [done|]. exact E.
  - destruct IH as [rest E]. exists rest. destruct data as [|b data]; [simpl in Hn; lia|].
    cbn [write_all]. rewrite E. by rewrite take_drop.
Qed.

(** The loop over partial writes.  Whatever the answers, the bytes that
    reached the descriptor are a prefix of the data, the whole of it if the
    loop succeeds; and it succeeds on any descriptor that keeps taking at least
    one byte, interrupted or not. *)
Theorem write_all_prefix answers data :
  (let '(r, out, _) := write_all answers data in
   out `prefix_of` data /\ (r = WriteOk -> out = data))
  /\ (takes_all answers data -> exists rest, write_all answers data = (WriteOk, data, rest)).
Proof.
  split; [|apply write_all_takes]. revert data.
  induction answers as [|[n|err] answers IH]; intros data; destruct data as [|b data]; try by (split; [apply prefix_nil|]).
  - cbn [write_all]. specialize (IH (drop (Z.to_nat n) (b :: data))).
    destruct (write_all answers (drop (Z.to_nat n) (b :: data))) as [[r out] rest]. destruct IH as [Hp Hok].
    split.
    + rewrite <- (take_drop (Z.to_nat n) (b :: data)) at 2. by apply prefix_app.
    + intros Hr. rewrite Hok by done. apply take_drop.
  - cbn [write_all]. destruct (err =? EINTR); [apply IH|]. split; [apply prefix_nil|done].
Qed.

Lemma write_all_prefix_witness :
  takes_all [WrCount 2; WrErr EINTR; WrCount 1] [65; 66; 10]
  /\ exists rest, write_all [WrCount 2; WrErr EINTR; WrCount 1] [65; 66; 10] = (WriteOk, [65; 66; 10], rest).
Proof.
  assert (takes_all [WrCount 2; WrErr EINTR; WrCount 1] [65; 66; 10]) as H.
  { apply ta_count; [simpl; lia|]. apply ta_eintr; [done|]. apply ta_count; [simpl; lia|]. apply ta_done. }
  split; [exact H|]. exact (proj2 (write_all_prefix _ _) H).
Defined.

(** ** Where a line goes *)

(** A descriptor that fails at once, then one that takes all. *)
Lemma write_all_fails err answers data :
  data <> [] -> err <> EINTR -> write_all (WrErr err :: answers) data = (WriteFailed, [], answers).
Proof. intros Hd He. destruct data; [done|]. cbn [write_all]. by rewrite (proj2 (Z.eqb_neq _ _) He). Qed.

Lemma line_bytes_nonempty line : line_bytes line <> [].
Proof. unfold line_bytes. by destruct (bytes_of line). Qed.



(** The tracer keeps one descriptor per thread: once a thread's file is
    open, its lines go to that descriptor without opening it again and other
    threads are not affected, until the thread is closed. *)
Theorem fused_writer_keeps_fd base tid opened fds fd fds' :
  fd_for_tid base tid opened fds = (Some fd, fds') ->
  (forall opened', fd_for_tid base tid opened' fds' = (Some fd, fds'))
  /\ (forall other, other <> tid -> fds' !! other = fds !! other)
  /\ close_tid tid fds' = (Some fd, delete tid fds).
Proof.
  unfold fd_for_tid, close_tid. destruct (fds !! tid) as [fd0|] eqn:E.
  - intros [= -> <-]. rewrite E. auto.
  - destruct (open_output_file _ _) as [fd1|]; [|done]. intros [= -> <-]. rewrite lookup_insert_eq.
    split; [done|]. split; [intros; by apply lookup_insert_ne|].
    f_equal. rewrite delete_insert_eq. done.
Qed.

Lemma fused_writer_keeps_fd_witness :
  fd_for_tid "out" 7 9 ∅ = (Some 9, <[7 := 9]> ∅)
  /\ forall opened', fd_for_tid "out" 7 opened' (<[7 := 9]> ∅) = (Some 9, <[7 := 9]> ∅).
Proof.
  split; [reflexivity|]. exact (proj1 (fused_writer_keeps_fd "out" 7 9 ∅ 9 (<[7 := 9]> ∅) eq_refl)).
Defined.

(** ** The descriptors of a tracer's run *)

(** What the loop does with its writer; [opened] is the answer of openat, should
    there be a call. *)
Inductive WriterOp :=
| Op_write (tid opened : Z) (answers : list WriteRes) (line : string)
| Op_close (tid : Z).

(** The descriptors that an operation opens and closes. *)
Definition run_op (cfg : Config) (op : WriterOp) (fds : fused_fds) : list Z * list Z * fused_fds :=
  match op with
  | Op_write tid opened answers line =>
    let fds' := (write_line cfg tid opened answers line fds).2 in
    (match fds !! tid, fds' !! tid with None, Some fd => [fd] | _, _ => [] end, [], fds')
  | Op_close tid => let '(fd, fds') := close_tid tid fds in ([], thread_file_sink_drop fd, fds')
  end.

Fixpoint run_writer (cfg : Config) (ops : list WriterOp) (fds : fused_fds) : list Z * list Z * fused_fds :=
  match ops with
  | [] => ([], [], fds)
  | op :: ops =>
    let '(o, c, fds) := run_op cfg op fds in
    let '(o', c', fds) := run_writer cfg ops fds in (o ++ o', c ++ c', fds)
  end.

Lemma write_line_fds cfg tid opened answers line fds :
  (write_line cfg tid opened answers line fds).2 =
  match output cfg with
  | OutputMode_Stdout => fds
  | OutputMode_File => (fd_for_tid (Config.path cfg) tid opened fds).2
  end.
Proof.
  unfold write_line. destruct (output cfg); [|by destruct (write_all _ _) as [[? ?] ?]].
  destruct (fd_for_tid _ _ _ _) as [[fd|] fds']; destruct (write_all _ _) as [[[] ?] ?]; try done.
  by destruct (write_all _ _) as [[? ?] ?].
Qed.

Lemma run_op_balance cfg op fds :
  let '(o, c, fds') := run_op cfg op fds in
  o ++ fused_writer_drop fds ≡ₚ c ++ fused_writer_drop fds'.
Proof.
  unfold run_op, fused_writer_drop. destruct op as [tid opened answers line|tid].
  - rewrite write_line_fds. destruct (output cfg); [|by destruct (fds !! tid)].
    unfold fd_for_tid. destruct (fds !! tid) as [fd|] eqn:E; [done|].
    destruct (open_output_file _ _) as [fd|]; cbn; rewrite ?E, ?lookup_insert_eq; [|done].
    by rewrite map_to_list_insert.
  - unfold close_tid. destruct (fds !! tid) as [fd|] eqn:E; [|done]. cbn.
    by rewrite <- (map_to_list_delete fds tid fd E).
Qed.

(** No descriptor of the tracer's output is lost or closed twice.  Over any
    run of the loop, with the drop of the writer at its end, the descriptors
    that were closed are those that were opened. *)
Theorem fused_writer_balanced cfg ops :
  let '(opened, closed, fds) := run_writer cfg ops fused_from_config in
  opened ≡ₚ closed ++ fused_writer_drop fds.
Proof.
  assert (forall fds, let '(opened, closed, fds') := run_writer cfg ops fds in
    opened ++ fused_writer_drop fds ≡ₚ closed ++ fused_writer_drop fds') as H.
  { induction ops as [|op ops IH]; intros fds; [cbn; reflexivity|]. cbn [run_writer].
    pose proof (run_op_balance cfg op fds) as H1. destruct (run_op cfg op fds) as [[o c] fds1].
    specialize (IH fds1). destruct (run_writer cfg ops fds1) as [[o' c'] fds2].
    rewrite <- (Permutation_app_comm o' o), <- (assoc app), H1, (Permutation_app_comm o'), <- (assoc app).
    rewrite (Permutation_app_comm _ o'), IH. by rewrite (assoc app). }
  specialize (H fused_from_config). destruct (run_writer cfg ops fused_from_config) as [[o c] fds].
  replace (fused_writer_drop fused_from_config) with (@nil Z) in H by (unfold fused_writer_drop, fused_from_config; by rewrite map_to_list_empty).
  by rewrite app_nil_r in H.
Qed.
